(* ===== verification/_CoqProject ===== *)
-Q . S2P
Prelude.v
GoFloat.v
GoStd.v
Crypto.v
Base64.v
GoText.v
Config.v
Consts.v
Models.v
JsonText.v
GoTime.v
Codec.v
Stored.v
World.v
Storage.v
Memory.v
Redis.v
Api.v
Fees.v
Webhook.v
Utils.v
Core.v
Auth.v
Identity.v
Payments.v
Withdrawals.v
Session.v
Rates.v
Seeder.v
Sink.v
CardNumbers.v
Cards.v
CardOps.v
CardTokens.v
Mocks.v
CardScenarios.v
CardSim.v
Delivery.v
Pdf.v
Statements.v
Urls.v
Ui.v
Routes.v
Requests.v
Server.v
Boot.v
Demo.v
Pointers.v
LedgerFacts.v
MemoryFacts.v
WithdrawalFacts.v
FeesFacts.v
AuthFacts.v
CardFacts.v
PdfFacts.v
Frames.v
DeliveryFacts.v
CardTokenFacts.v
BooksFacts.v
CoreFacts.v
UserFacts.v
BootFacts.v
IdentityFacts.v
TableFacts.v
Tasks.v
RedisKeys.v
RedisServer.v
RedisFacts.v
RedisSafe.v
CardSimFacts.v
SimulationFacts.v
UiFacts.v
RoutesFacts.v
RequestFacts.v
ServerFacts.v
NoPanic.v
Harness.v
Steps.v
CardSteps.v
Features.v
