(* ===== verification/Prelude.v ===== *)
(** * MockGatehub: a verification development

    MockGatehub is a stand-in for the GateHub sandbox: an HTTP service that
    keeps users, wallets, balances, transactions and cards, and tells a
    consumer about them through signed webhooks.  This development models its
    Go code as executable functions over an explicit state and proves what
    makes them correct.  Paths below are relative to [src/].

    ** How the program is put together, and where each part is modelled

    [main] ([cmd/mockgatehub]) reads the environment ([Config.v]), opens a
    storage, seeds it ([Seeder.v]), builds queue, manager and handler, and
    listens on two ports: [Boot.v], which also has the logger's sinks
    ([internal/logger]).  [Routes.v] has the routing tables of both listeners,
    the router as the class [Mux] and what reaches a handler: on the
    application port only what the HMAC middleware ([internal/auth]: [Auth.v])
    admits.  [Requests.v] decodes bodies and forms, and [Server.v] says what
    each handler name runs for a request and what is answered.  The handlers
    ([internal/handler]) share a storage, a fee configuration, a token map and
    a webhook manager:
    - [Core.v] ([core.go]): wallets, balances, core transactions and the
      [complete] closure that posts them; [Tasks.v]: the goroutines started
      and not yet run, and the scheduler's choices among them.
    - [Payments.v] ([handler.go]): the iframe deposits and withdrawals;
      [Withdrawals.v] ([withdrawals_admin.go]): listing and settling them.
    - [Session.v] ([auth.go]): tokens, managed users, organizations;
      [Identity.v] ([identity.go]): KYC, its page, and the second factor.
    - [CardNumbers.v], [Cards.v], [CardOps.v] ([cards.go]): numbers, issuing,
      the card status machine, limits, addresses, card transactions, 3DS,
      pagination; [CardTokens.v] ([card_token.go] and the token, card data and
      PIN endpoints): the signed tokens and what a browser exchanges them for.
    - [Mocks.v], [CardScenarios.v], [CardSim.v] ([cardscenarios.go],
      [cardtx_admin.go]): the embedded catalogue, its loading, and the
      simulation of card transactions.
    - [Ui.v] ([ui.go]): the admin pages, as the data their templates are given,
      and their form actions; [Urls.v]: queries, escaping and paths.
    - [Fees.v] ([fees.go]), [Rates.v] ([rates.go]), [Sink.v]
      ([webhook_sink.go]), [Statements.v] ([statements.go]) with [Pdf.v]
      ([internal/pdf]), [Api.v] ([helpers.go], [apierror.go]), [Utils.v]
      ([internal/utils] and the token helpers).
    Below the handlers: [Storage.v] is the storage interface
    ([storage/interface.go]) as a class over the storage's state.  [Memory.v]
    implements it in memory ([memory.go]); [Redis.v] over the commands of a
    Redis client ([redis.go]), which keeps every object as JSON text: the JSON
    reader and writer are [JsonText.v], the codecs of the stored types
    [Codec.v] and [Stored.v], RFC 3339 times [GoTime.v].  [RedisServer.v] states
    what the commands do as laws, and a server that keeps them.  [Webhook.v]
    enqueues events ([webhook/manager.go], [queue.go]); [Delivery.v] encodes
    jobs on a Redis stream, delivers, retries and reclaims them and gives the
    worker's life as a step relation ([job.go], [worker.go]), over any stream
    client.  [Models.v] and [Consts.v] are the packages of those names;
    [Crypto.v] and [Base64.v] are the standard library's SHA-256, HMAC, hex and
    base64.

    The acceptance suite ([testenv], [features]) is a program of its own that
    talks to the service over HTTP.  [Harness.v] has the state of a scenario, its
    client, and the instances with the network between them: a request is taken
    by the listener at its address ([Server.respond]); while the harness sleeps,
    the instances run their goroutines and deliver the jobs that are due.
    [Steps.v] and [CardSteps.v] have the step functions, file by file, and
    [Features.v] the scenarios as sequences of steps and the deployment of
    [docker-compose.yml].

    ** How it is modelled

    A handler is a program [prog (World S) Response]: it returns or panics, and
    leaves a new world; what was written before a panic stays written, as the
    router's recoverer sees it.  [World S] ([World.v]) holds the storage's state
    [S], the heap, configuration, fees, tokens, the webhook jobs handed to the
    queue, the goroutines that wait and the sink.  Objects the code passes by
    pointer and mutates (users, cards, transactions, ...) live in the heap, so
    that the in-memory storage and its callers share them, as in Go; wallets,
    addresses and organizations are values.  The handlers' definitions receive
    their URL parameters, headers and decoded body as arguments; [Server.handle]
    takes these from the request.  A whole program runs over a [Process]: the
    world and the service's key pair.

    The outside world is the class [Env]: the n-th clock reading, UUID, random
    draw, map iteration order and HTTP answer, numbered by one counter
    ([w_ticks]).  [EnvLaws] states what is documented of them; RSA and X.509 are
    the class [Rsa] with its laws, the router [Mux], the Redis client
    [RedisClient] with [RedisLaws], the stream commands [StreamClient].
    [Demo.v] and the examples of the proof files give instances that keep the
    laws, on which the witnesses run.

    Go's values are kept at their width: 64-bit integers wrap ([GoStd.v]);
    [float64] is the standard library's binary64 specification with Go's
    parsing and formatting ([GoFloat.v]); strings are byte strings with UTF-8
    decoding where the source ranges over runes ([GoText.v]).  Loops over input
    are structural; the fuel that remains is the length of the input (UTF-8,
    JSON text, blocks of a hash), the number of its bits (decimal digits) or
    the number of cursors of a scan, and every step uses up at least one unit
    of it: [JsonText.v] and [RedisFacts.v] prove that it is enough.

    ** What the theorems show

    - Money: the class [LedgerLaws] is what the handlers rely on
      ([LedgerFacts.v]); the in-memory storage keeps it, refines an abstract
      account and is never overdrawn; the Redis storage does not
      ([RedisFacts.v]).  [Frames.v] has [keeps] and the tactic [keep] that
      proves what an endpoint leaves alone; [BooksFacts.v], [CoreFacts.v],
      [WithdrawalFacts.v] and [Tasks.v] say what the payments, completions and
      settlements do to the balances, once, never or twice.
    - Who may do what: whom the middleware admits and that what [SignRequest]
      signs is admitted ([AuthFacts.v]), which routes are open and which port
      serves them ([RoutesFacts.v]), that strangers move no money over any
      sequence of requests ([ServerFacts.v]), what a card token is good for and
      that a PIN is read back as it was set ([CardTokenFacts.v]).
    - What requests carry: round trips of the request bodies and what a body
      that holds no JSON does ([RequestFacts.v]); the forms do what the API does
      ([UiFacts.v]).
    - The Redis storage: the stored types round-trip ([Stored.v]), keys never
      coincide ([RedisKeys.v]), the scan loops end ([RedisFacts.v]), every method
      keeps every key at its type ([RedisSafe.v]).
    - Webhooks ([DeliveryFacts.v]): the stream encoding round-trips, at most
      ten deliveries of a job, and none after the worker was stopped.
    - Cards: the status machine and the endpoints that implement it, pages
      ([CardFacts.v]); the catalogue loads in whatever order Go walks its maps
      ([CardSimFacts.v]); what a simulation stores and announces
      ([SimulationFacts.v]).
    - Users and KYC ([UserFacts.v], [IdentityFacts.v]), fees ([FeesFacts.v]),
      documents ([PdfFacts.v]), configuration and tables ([TableFacts.v]), the
      started service ([BootFacts.v]).
    - No crashes: [Pointers.v] has the rules that follow a program's pointers
      while the heap grows, and the class [SafeStorage] of what a storage owes
      its callers, which both storages keep; [NoPanic.v] follows every handler
      and goroutine against it.  On the in-memory storage the service panics
      nowhere, from its start and over any sequence of requests and goroutines,
      but on a listing whose page number overflows; on Redis, whatever the
      server does, no nil pointer is used.
    - The whole: what the acceptance suite signs is admitted by every instance
      that knows its credentials ([Harness.v]), its polls are never cut short
      ([Steps.v]), and fifty-three of its scenarios pass, run one after the other
      against two instances that [boot] started on Redis ([Features.v]).
    [MemoryFacts.v] holds the run equations these proofs share.

    ** What is not modelled

    The template engine and the files it renders, multipart parsing (a
    parameter of [Server.handle]), the parameters of content types, RSA and
    X.509, the router's trie, opening connections, sockets, timeouts and
    signals, and what zap writes.  Requests are served one after the other:
    locks are taken for the whole of each storage method, so a method is one
    step, and where handlers interleave between methods the model shows the
    halves ([check_settlement] and [settle_checked], [Tasks.v]).  Of the
    acceptance suite: the matching of a step's text with its function, which
    [Features.v] has done, the steps that look into a rendered page, and the
    starting and stopping of the containers. *)
From stdpp Require Export base option list strings gmap fin_maps.
From stdpp Require Export ssreflect.
From Stdlib Require Export ZArith Lia Ascii Sorting.Sorted.

#[global] Open Scope Z_scope.
#[global] Set Default Goal Selector "!".

Declare Scope go_scope.
Delimit Scope go_scope with go.

(** ** Functional record update

    [r <| f := v |>] is [r] with field [f] replaced.  A record type opts in by
    giving its eta expansion; the setter of a projection is found by
    abstracting that projection out of the expansion. *)
Class Eta (R : Type) := eta_of : R → R.

Class Setter {R T : Type} (proj : R → T) := upd : (T → T) → R → R.
Arguments upd {R T} proj {_} _ _ /.

Ltac derive_setter :=
  lazymatch goal with
  | |- @Setter ?R ?T ?proj =>
      let e := eval hnf in (@eta_of R _) in
      let p := eval pattern proj in e in
      lazymatch p with
      | ?g _ => exact (fun (f : T → T) (r : R) => g (fun r' => f (proj r')) r)
      end
  end.
#[export] Hint Extern 0 (@Setter _ _ _) => derive_setter : typeclass_instances.

Notation "r <| f := v |>" := (upd f (fun _ => v) r)
  (at level 1, left associativity, v at level 200, format "r  <| f  :=  v |>") : go_scope.
#[global] Open Scope go_scope.


(** ** Go results, panics and state

    A Go function returning [(T, error)] is a computation of [result T]; the
    error carries its message, which is all the callers ever look at.  A run
    either returns or panics; state written before a panic stays written,
    which is what the recovering middleware of the router sees. *)
Inductive result (A : Type) : Type :=
| Ok (a : A)
| Err (msg : string).
Arguments Ok {A} a.
Arguments Err {A} msg.

Definition is_ok {A} (r : result A) : bool :=
  match r with Ok _ => true | Err _ => false end.

Inductive outcome (A : Type) : Type :=
| Ret (a : A)
| Panic (msg : string).
Arguments Ret {A} a.
Arguments Panic {A} msg.

Definition prog (W A : Type) : Type := W → outcome A * W.

#[export] Instance prog_ret {W} : MRet (prog W) := fun A a w => (Ret a, w).
#[export] Instance prog_bind {W} : MBind (prog W) := fun A B k m w =>
  match m w with
  | (Ret a, w') => k a w'
  | (Panic msg, w') => (Panic msg, w')
  end.

Definition get {W} : prog W W := fun w => (Ret w, w).
Definition gets {W A} (f : W → A) : prog W A := fun w => (Ret (f w), w).
Definition modify {W} (f : W → W) : prog W unit := fun w => (Ret tt, f w).
Definition panic {W A} (msg : string) : prog W A := fun w => (Panic msg, w).

(** Running the pieces of a sequence. *)
Lemma run_bind {W A B} (m : prog W A) (k : A → prog W B) w :
  (m ≫= k) w = match m w with
               | (Ret a, w') => k a w'
               | (Panic msg, w') => (Panic msg, w')
               end.
Proof. reflexivity. Qed.

Lemma run_bind_ret {W A B} (m : prog W A) (k : A → prog W B) w a w' :
  m w = (Ret a, w') → (m ≫= k) w = k a w'.
Proof. by rw run_bind => ->. Qed.

Lemma run_mret {W A} (a : A) (w : W) : mret (M := prog W) a w = (Ret a, w).
Proof. reflexivity. Qed.

Lemma run_gets {W A} (f : W → A) w : gets f w = (Ret (f w), w).
Proof. reflexivity. Qed.

Lemma run_modify {W} (f : W → W) w : modify f w = (Ret tt, f w).
Proof. reflexivity. Qed.

Lemma prog_bind_assoc {W A B C} (m : prog W A) (f : A → prog W B) (g : B → prog W C) w :
  ((m ≫= f) ≫= g) w = (m ≫= (fun a => f a ≫= g)) w.
Proof. rw !run_bind. by destruct (m w) as [[a|e] w']. Qed.

(** [let? x := m else e => h in k]: Go's
    [x, err := m; if err != nil { h }; k]. *)
Notation "'let?' x := m 'else' e => h 'in' k" :=
  (m ≫= (fun r => match r with Ok x => k | Err e => h end))
  (at level 10, x name, e name, m at level 200, h at level 200, k at level 200,
   format "'[v' 'let?'  x  :=  m  'else'  e  =>  h  'in' '/' k ']'") : go_scope.

(** [for x in l { f x }] over a snapshot of a slice. *)
Fixpoint for_each {W A} (l : list A) (f : A → prog W unit) : prog W unit :=
  match l with
  | [] => mret tt
  | x :: l => f x ≫= (fun _ => for_each l f)
  end.

(** [append] in a loop: collects the results that are kept. *)
Fixpoint collect {W A B} (f : A → prog W (option B)) (l : list A) : prog W (list B) :=
  match l with
  | [] => mret []
  | x :: l =>
      y ← f x;
      ys ← collect f l;
      mret (match y with Some y => y :: ys | None => ys end)
  end.

Create Rewrite HintDb prog.
#[export] Hint Rewrite @run_mret @run_gets @run_modify : prog.

(** Evaluates a program on a world, one bind at a time. *)
Ltac run_step := rw ?run_bind; autorewrite with prog; simpl.

(** Runs every bind whose first half is known. *)
Ltac run_binds := unfold mbind, prog_bind, mret, prog_ret, gets, modify, get, panic; cbn beta iota.

(** ** Booleans that decide Go conditions *)
Definition str_eqb (a b : string) : bool := bool_decide (a = b).
Infix "=?s" := str_eqb (at level 70) : go_scope.

Lemma str_eqb_eq a b : (a =?s b) = true ↔ a = b.
Proof. apply bool_decide_eq_true. Qed.
Lemma str_eqb_neq a b : (a =?s b) = false ↔ a ≠ b.
Proof. apply bool_decide_eq_false. Qed.
Lemma str_eqb_refl a : (a =?s a) = true.
Proof. by apply str_eqb_eq. Qed.
#[export] Hint Rewrite str_eqb_refl : prog.

Lemma str_eqb_ne a b : a ≠ b → (a =?s b) = false.
Proof. apply str_eqb_neq. Qed.

(** Splits every Go condition in the goal or in a hypothesis. *)
Ltac case_go :=
  repeat match goal with
  | H : (_ =?s _) = true |- _ => apply str_eqb_eq in H
  | H : (_ =?s _) = false |- _ => apply str_eqb_neq in H
  | H : (_ && _) = true |- _ => apply andb_true_iff in H as [? ?]
  | H : (_ || _) = false |- _ => apply orb_false_iff in H as [? ?]
  | H : negb _ = true |- _ => apply negb_true_iff in H
  | H : negb _ = false |- _ => apply negb_false_iff in H
  end.

(** The function a term applies. *)
Ltac head_of t := lazymatch t with ?f _ => head_of f | _ => t end.

(** Case analysis on the scrutinee of the outermost match of a hypothesis. *)
Ltac break_match_in H :=
  match type of H with
  | context [match ?x with _ => _ end] =>
      lazymatch x with
      | context [match _ with _ => _ end] => fail
      | _ => destruct x eqn:?
      end
  end.
Ltac break_match :=
  match goal with
  | |- context [match ?x with _ => _ end] =>
      lazymatch x with
      | context [match _ with _ => _ end] => fail
      | _ => destruct x eqn:?
      end
  end.

(** ** Lists *)

(** [s[len(s)-n:]] of a slice longer than [n]. *)
Definition last_n {A} (n : nat) (l : list A) : list A := drop (length l - n) l.

Lemma length_last_n {A} n (l : list A) : (length (last_n n l) = Nat.min n (length l))%nat.
Proof. rw /last_n length_drop. lia. Qed.

(** A stable sort by a strict "comes before" test, as [sort.SliceStable]
    specifies it: insertion of each element after the elements it does not
    precede. *)
Fixpoint insert_stable {A} (less : A → A → bool) (x : A) (l : list A) : list A :=
  match l with
  | [] => [x]
  | y :: l' => if less y x then y :: insert_stable less x l' else x :: l
  end.
Definition slice_stable {A} (less : A → A → bool) (l : list A) : list A :=
  foldr (insert_stable less) [] l.

Lemma insert_stable_perm {A} (less : A → A → bool) x l :
  insert_stable less x l ≡ₚ x :: l.
Proof.
  induction l as [|y l IH]; simpl; [done|].
  destruct (less y x); [|done]. rw IH. constructor.
Qed.

Lemma slice_stable_perm {A} (less : A → A → bool) l : slice_stable less l ≡ₚ l.
Proof.
  induction l as [|x l IH]; simpl; [done|]. by rw insert_stable_perm IH.
Qed.

(** Sorting with a test that is asymmetric and whose negation is transitive
    orders the list by that negation. *)
Section SliceStable.
Context {A : Type} (less : A → A → bool).
Context (less_asym : ∀ x y, less x y = true → less y x = false).
Context (less_trans : ∀ x y z, less y x = false → less z y = false → less z x = false).

Definition not_after (x y : A) : Prop := less y x = false.

Lemma insert_stable_sorted x l : Sorted not_after l → Sorted not_after (insert_stable less x l).
Proof.
  induction 1 as [|y l Hl IH Hhd]; cbn [insert_stable]; [by repeat constructor|].
  destruct (less y x) eqn:Hyx; [|by repeat constructor].
  constructor; [done|].
  destruct l as [|z l]; cbn [insert_stable]; [by constructor; apply less_asym|].
  inversion Hhd; subst. destruct (less z x); constructor; [done|by apply less_asym].
Qed.

Lemma slice_stable_sorted l : StronglySorted not_after (slice_stable less l).
Proof.
  apply Sorted_StronglySorted; [by intros x y z; apply less_trans|].
  induction l as [|x l IH]; cbn [slice_stable foldr]; [constructor|]. by apply insert_stable_sorted.
Qed.
End SliceStable.
