(* ===== verification/GoFloat.v ===== *)
(** * Go's [float64]

    Binary64 arithmetic of [float64] on the Standard Library's [SpecFloat]
    (53-bit precision, exponent bound 1024): [+], [-], [*], [/], the
    comparisons, [math.Round], [strconv.ParseFloat(s, 64)] and
    [fmt.Sprintf("%.2f", x)].  The money-handling theorems rest on the lemmas
    at the end: every operation yields a valid binary64 datum, and a
    subtraction guarded by Go's [<] never yields a negative number. *)
From Stdlib Require Import Floats.SpecFloat.
From S2P Require Import Prelude.

Abbreviation f64 := spec_float.

(** ** Arithmetic and comparisons *)
Definition f64_prec : Z := 53.
Definition f64_emax : Z := 1024.

Definition fadd : f64 → f64 → f64 := SFadd f64_prec f64_emax.
Definition fsub : f64 → f64 → f64 := SFsub f64_prec f64_emax.
Definition fmul : f64 → f64 → f64 := SFmul f64_prec f64_emax.
Definition fdiv : f64 → f64 → f64 := SFdiv f64_prec f64_emax.
Definition fneg : f64 → f64 := SFopp.

Definition flt (x y : f64) : bool := SFltb x y.
Definition fle (x y : f64) : bool := SFleb x y.
Definition feq (x y : f64) : bool := SFeqb x y.

Definition fzero : f64 := S754_zero false.
Definition f_of_Z (z : Z) : f64 := binary_normalize f64_prec f64_emax z 0 false.

(** The binary64 number nearest to [(-1)^s * n / d] (ties to even), [n, d > 0]. *)
Definition f_of_ratio (s : bool) (n d : Z) : f64 :=
  match n with
  | 0 => S754_zero s
  | _ => let '(q, e, l) := SFdiv_core_binary f64_prec f64_emax n 0 d 0 in
         binary_round_aux f64_prec f64_emax s q e l
  end.

(** A decimal literal [n / 10^k] of the source. *)
Definition f_lit (n : Z) (k : Z) : f64 := f_of_ratio (Z.ltb n 0) (Z.abs n) (10 ^ k).

Definition is_nan (x : f64) : bool := match x with S754_nan => true | _ => false end.
Definition is_finite (x : f64) : bool :=
  match x with S754_finite _ _ _ | S754_zero _ => true | _ => false end.

#[export] Instance f64_eq_dec : EqDecision f64.
Proof. solve_decision. Defined.

(** ** [math.Round]: nearest integer, halves away from zero *)
Definition math_Round (x : f64) : f64 :=
  match x with
  | S754_finite s m e =>
      if 0 <=? e then x
      else
        let k := Z.shiftl 1 (- e) in
        let n := (2 * Zpos m + k) / (2 * k) in
        match n with
        | 0 => S754_zero s
        | _ => binary_normalize f64_prec f64_emax (cond_Zopp s n) 0 s
        end
  | _ => x
  end.

(** Conversion to an integer type, towards zero; out of the 64-bit range, and
    for NaN, the value the amd64 instruction gives. *)
Definition f_trunc (x : f64) : Z :=
  let v := match x with
           | S754_finite s m e => cond_Zopp s (Z.shiftl (Zpos m) e)
           | S754_zero _ => 0
           | _ => 2 ^ 63
           end in
  if (- 2 ^ 63 <=? v) && (v <? 2 ^ 63) then v else - 2 ^ 63.

(** ** [strconv.ParseFloat(s, 64)]

    [None] stands for a non-nil error, whatever its kind: every caller
    discards the value then. *)
Definition is_digit (c : ascii) : bool :=
  let n := N_of_ascii c in ((48 <=? n) && (n <=? 57))%N.
Definition digit_val (c : ascii) : Z := Z.of_N (N_of_ascii c) - 48.
Definition lower_ascii (c : ascii) : ascii :=
  let n := N_of_ascii c in
  if ((65 <=? n) && (n <=? 90))%N then ascii_of_N (n + 32) else c.
Definition is_hex_letter (c : ascii) : bool :=
  let n := N_of_ascii (lower_ascii c) in ((97 <=? n) && (n <=? 102))%N.
Definition hex_val (c : ascii) : Z := Z.of_N (N_of_ascii (lower_ascii c)) - 87.

Fixpoint chars (s : string) : list ascii :=
  match s with EmptyString => [] | String c s => c :: chars s end.
Fixpoint of_chars (l : list ascii) : string :=
  match l with [] => EmptyString | c :: l => String c (of_chars l) end.

(** The mantissa scanner of [readFloat]. *)
Record mant := { mt_val : Z; mt_nd : Z; mt_dp : Z; mt_dot : bool; mt_digits : bool; mt_under : bool }.
#[export] Instance eta_mant : Eta mant := fun r =>
  Build_mant (mt_val r) (mt_nd r) (mt_dp r) (mt_dot r) (mt_digits r) (mt_under r).

Fixpoint scan_mant (hex : bool) (a : mant) (l : list ascii) : mant * list ascii :=
  match l with
  | [] => (a, [])
  | c :: l' =>
      let base := if hex then 16 else 10 in
      if bool_decide (c = "_"%char) then scan_mant hex (a <| mt_under := true |>) l'
      else if bool_decide (c = "."%char) then
        if mt_dot a then (a, l)
        else scan_mant hex (a <| mt_dot := true |> <| mt_dp := mt_nd a |>) l'
      else if is_digit c then
        scan_mant hex (a <| mt_val := mt_val a * base + digit_val c |>
                         <| mt_nd := mt_nd a + 1 |> <| mt_digits := true |>) l'
      else if hex && is_hex_letter c then
        scan_mant hex (a <| mt_val := mt_val a * base + hex_val c |>
                         <| mt_nd := mt_nd a + 1 |> <| mt_digits := true |>) l'
      else (a, l)
  end.

(** Exponent digits; the value saturates the way the source's [e < 10000] does. *)
Fixpoint scan_exp (e : Z) (u : bool) (l : list ascii) : Z * bool * list ascii :=
  match l with
  | [] => (e, u, [])
  | c :: l' =>
      if bool_decide (c = "_"%char) then scan_exp e true l'
      else if is_digit c then
        scan_exp (if e <? 10000 then e * 10 + digit_val c else e) u l'
      else (e, u, l)
  end.

(** [underscoreOK]: underscores separate digits, one more after a base prefix.
    The previous character class is [^] (start), [0] (digit), [_] or [!]. *)
Inductive uclass := UStart | UDigit | UUnder | UOther.
Fixpoint under_ok (hex : bool) (i : uclass) (l : list ascii) : bool :=
  match l with
  | [] => match i with UUnder => false | _ => true end
  | c :: l' =>
      if is_digit c || (hex && is_hex_letter c) then under_ok hex UDigit l'
      else if bool_decide (c = "_"%char) then
        match i with UDigit => under_ok hex UUnder l' | _ => false end
      else match i with UUnder => false | _ => under_ok hex UOther l' end
  end.

Definition strip_sign (l : list ascii) : bool * list ascii :=
  match l with
  | "-"%char :: l' => (true, l')
  | "+"%char :: l' => (false, l')
  | _ => (false, l)
  end.

Definition underscoreOK (l : list ascii) : bool :=
  let '(_, l) := strip_sign l in
  match l with
  | "0"%char :: c :: l' =>
      let p := lower_ascii c in
      if bool_decide (p = "x"%char) then under_ok true UDigit l'
      else if bool_decide (p = "b"%char) || bool_decide (p = "o"%char)
      then under_ok false UDigit l'
      else under_ok false UStart l
  | _ => under_ok false UStart l
  end.

(** [special]: the spellings of infinity and NaN, in any case. *)
Definition parse_special (s : string) : option f64 :=
  let l := map lower_ascii (chars s) in
  let '(neg, l') := strip_sign l in
  if bool_decide (of_chars l' = "inf"%string) || bool_decide (of_chars l' = "infinity"%string)
  then Some (S754_infinity neg)
  else if bool_decide (of_chars l = "nan"%string) then Some S754_nan
  else None.

(** Mantissa and exponent to the nearest binary64; out of range is an error. *)
Definition scale_float (hex neg : bool) (m e : Z) : option f64 :=
  let b := if hex then 2 else 10 in
  let x := if 0 <=? e then f_of_ratio neg (m * b ^ e) 1 else f_of_ratio neg m (b ^ (- e)) in
  match x with S754_infinity _ => None | _ => Some x end.

Definition parse_exponent (hex : bool) (l : list ascii) : option (Z * bool * list ascii) :=
  let echar := if hex then "p"%char else "e"%char in
  match l with
  | c :: l' =>
      if bool_decide (lower_ascii c = echar) then
        let '(neg, l'') := strip_sign l' in
        match l'' with
        | d :: _ =>
            if is_digit d then
              let '(e, u, rest) := scan_exp 0 false l'' in
              Some ((if neg then - e else e), u, rest)
            else None
        | [] => None
        end
      else if hex then None else Some (0, false, l)
  | [] => if hex then None else Some (0, false, [])
  end.

Definition mant0 : mant := Build_mant 0 0 0 false false false.

Definition ParseFloat (s : string) : option f64 :=
  match parse_special s with
  | Some x => Some x
  | None =>
      let '(neg, l) := strip_sign (chars s) in
      let '(hex, body) :=
        match l with
        | "0"%char :: c :: (_ :: _) as r =>
            if bool_decide (lower_ascii c = "x"%char) then (true, skipn 2 l) else (false, l)
        | _ => (false, l)
        end in
      let '(a, rest) := scan_mant hex mant0 body in
      if negb (mt_digits a) then None
      else
        let dp := if mt_dot a then mt_dp a else mt_nd a in
        match parse_exponent hex rest with
        | Some (e, u, []) =>
            if (mt_under a || u) && negb (underscoreOK (chars s)) then None
            else
              let k := if hex then 4 else 1 in
              scale_float hex neg (mt_val a) ((dp - mt_nd a) * k + e)
        | _ => None
        end
  end.

(** ** [fmt.Sprintf("%.2f", x)] *)
Definition digit_char (d : Z) : ascii := ascii_of_N (Z.to_N (48 + d)).

Fixpoint digits_fuel (fuel : nat) (n : Z) (acc : string) : string :=
  match fuel with
  | O => acc
  | S fuel =>
      let acc := String (digit_char (n mod 10)) acc in
      if n <? 10 then acc else digits_fuel fuel (n / 10) acc
  end.
(** Decimal digits of [n >= 0]; [log2 n + 1] rounds are enough. *)
Definition nat_string (n : Z) : string := digits_fuel (S (Z.to_nat (Z.log2 n))) n "".

(** [100 * x] to the nearest integer, ties to even, for a finite magnitude. *)
Definition cents (m : positive) (e : Z) : Z :=
  let n := 100 * Zpos m in
  if 0 <=? e then Z.shiftl n e
  else
    let d := Z.shiftl 1 (- e) in
    let q := n / d in
    let r := n mod d in
    match Z.compare (2 * r) d with
    | Lt => q
    | Gt => q + 1
    | Eq => if Z.even q then q else q + 1
    end.

Definition cents_string (c : Z) : string :=
  (nat_string (c / 100) ++ "."
    ++ String (digit_char (c mod 100 / 10)) (String (digit_char (c mod 10)) ""))%string.

Definition Sprintf_2f (x : f64) : string :=
  match x with
  | S754_nan => "NaN"
  | S754_infinity s => if s then "-Inf" else "+Inf"
  | S754_zero s => (if s then "-" else "") +:+ "0.00"
  | S754_finite s m e => (if s then "-" else "") +:+ cents_string (cents m e)
  end.

(** ** Validity

    A datum is a binary64 number when its mantissa and exponent are the
    canonical ones; the operations keep it so. *)
Definition valid64 (x : f64) : Prop := valid_binary f64_prec f64_emax x = true.
#[export] Instance valid64_dec x : Decision (valid64 x).
Proof. unfold valid64. apply _. Defined.

Abbreviation fexp64 := (fexp f64_prec f64_emax).

Lemma fexp64_max e : fexp64 e = Z.max (e - 53) (-1074).
Proof. reflexivity. Qed.

Lemma digits2_log2 p : Zpos (digits2_pos p) = Z.log2 (Zpos p) + 1.
Proof.
  induction p as [p IH|p IH|]; [| |done].
  - change (digits2_pos p~1) with (Pos.succ (digits2_pos p)).
    rw Pos2Z.inj_succ IH (Pos2Z.inj_xI p) Z.log2_succ_double; lia.
  - change (digits2_pos p~0) with (Pos.succ (digits2_pos p)).
    rw Pos2Z.inj_succ IH (Pos2Z.inj_xO p) Z.log2_double; lia.
Qed.

Lemma Zdigits2_log2 m : 0 < m → Zdigits2 m = Z.log2 m + 1.
Proof. destruct m; [lia| |lia]. intros _. apply digits2_log2. Qed.

Lemma Zdigits2_pos_bounds m : 0 < m → 2 ^ (Zdigits2 m - 1) <= m < 2 ^ Zdigits2 m.
Proof.
  intros Hm. rw Zdigits2_log2 //.
  replace (Z.log2 m + 1 - 1) with (Z.log2 m) by lia.
  replace (Z.log2 m + 1) with (Z.succ (Z.log2 m)) by lia. by apply Z.log2_spec.
Qed.

Lemma Zdigits2_ge m k : 0 <= k → 2 ^ k <= m → k + 1 <= Zdigits2 m.
Proof.
  intros Hk Hm. assert (0 < m) by (pose proof (Z.pow_pos_nonneg 2 k); lia).
  rw Zdigits2_log2 //. apply Z.log2_le_pow2 in Hm; lia.
Qed.

Lemma Zdigits2_le m k : 0 < m → m < 2 ^ k → Zdigits2 m <= k.
Proof. intros Hm Hk. rw Zdigits2_log2 //. apply Z.log2_lt_pow2 in Hk; lia. Qed.

Lemma Zdigits2_nonneg m : 0 <= m → 0 <= Zdigits2 m.
Proof. destruct m; simpl; lia. Qed.

Lemma shr_1_half r : 0 <= shr_m r → shr_m (shr_1 r) = shr_m r / 2.
Proof.
  destruct r as [m r s]. destruct m as [|p|p]; simpl; [done| |lia].
  intros _. rw -Z.div2_div. by destruct p.
Qed.

Lemma pow2_double p : 2 ^ Zpos p * 2 ^ Zpos p = 2 ^ Zpos (xO p).
Proof. rw -Z.pow_add_r; [f_equal; lia|lia|lia]. Qed.

Lemma iter_shr_1 p r :
  0 <= shr_m r → shr_m (SpecFloat.iter_pos shr_1 p r) = shr_m r / 2 ^ Zpos p.
Proof.
  revert r. induction p as [p IH|p IH|]; intros r Hr; simpl SpecFloat.iter_pos.
  - pose proof (shr_1_half r Hr) as Hh.
    assert (0 <= shr_m (shr_1 r)) as Hh0 by (rw Hh; apply Z.div_pos; lia).
    pose proof (IH _ Hh0) as H1.
    rw IH; [|rw H1; apply Z.div_pos; lia].
    rw H1 Hh !Z.div_div; try lia. f_equal.
    replace (Zpos p~1) with (1 + Zpos (xO p)) by lia.
    rw Z.pow_add_r; [|lia|lia]. rw -pow2_double. lia.
  - pose proof (IH _ Hr) as H1.
    rw IH; [|rw H1; apply Z.div_pos; lia].
    rw H1 Z.div_div; try lia. by rw pow2_double.
  - rw shr_1_half //.
Qed.

(** The two shifts and the carry of the rounding, at the level of integers. *)
Lemma shr_mantissa m e l n :
  0 <= m → 0 <= n →
  shr_m (fst (shr (shr_record_of_loc m l) e n)) = m / 2 ^ n
  ∧ snd (shr (shr_record_of_loc m l) e n) = e + n.
Proof.
  intros Hm Hn. assert (shr_m (shr_record_of_loc m l) = m) as Hl by by destruct l as [|[]].
  destruct n as [|p|p]; [| |lia]; simpl.
  - rw Hl Z.div_1_r. split; [done|lia].
  - rw iter_shr_1 Hl //.
Qed.

Lemma round_nearest_even_bounds m l : m <= round_nearest_even m l <= m + 1.
Proof. destruct l as [|[]]; simpl; try lia. destruct (Z.even m); lia. Qed.

Lemma binary_round_aux_spec sx mx ex lx :
  0 <= mx → ex <= fexp64 (Zdigits2 mx + ex) →
  match binary_round_aux f64_prec f64_emax sx mx ex lx with
  | S754_finite s m e => s = sx ∧ bounded f64_prec f64_emax m e = true
  | S754_zero s | S754_infinity s => s = sx
  | S754_nan => False
  end.
Proof.
  intros Hmx Hex. unfold binary_round_aux, shr_fexp.
  set (n1 := fexp64 (Zdigits2 mx + ex) - ex).
  destruct (shr_mantissa mx ex lx n1) as [Hm1 He1]; [done|lia|].
  destruct (shr (shr_record_of_loc mx lx) ex n1) as [r1 e1] eqn:Hs1. simpl in Hm1, He1.
  set (m1 := shr_m r1) in *.
  pose proof (round_nearest_even_bounds m1 (loc_of_shr_record r1)) as Hr.
  set (m2 := round_nearest_even m1 (loc_of_shr_record r1)) in *.
  assert (e1 = fexp64 (Zdigits2 mx + ex)) as He1' by lia.
  rw fexp64_max in He1'.
  assert (0 <= m1) as Hm10 by (rw Hm1; apply Z.div_pos; [done|apply Z.pow_pos_nonneg; lia]).
  assert (m1 < 2 ^ 53 ∧ (-1074 < e1 → 2 ^ 52 <= m1)) as [Hub Hlb].
  { clear Hr m2. clearbody m1. subst m1. pose proof (Z.pow_pos_nonneg 2 n1).
    destruct (decide (mx = 0)) as [->|Hne].
    { rw Z.div_0_l; [|lia]. simpl in *. rw fexp64_max in Hex. split; [lia|]. lia. }
    pose proof (Zdigits2_pos_bounds mx ltac:(lia)) as [Hlo Hhi].
    set (d := Zdigits2 mx) in *.
    assert (1 <= d) by (subst d; pose proof (Z.log2_nonneg mx); rw Zdigits2_log2; lia).
    split.
    - apply Z.div_lt_upper_bound; [lia|].
      assert (2 ^ d <= 2 ^ n1 * 2 ^ 53); [|lia].
      rw -Z.pow_add_r; [apply Z.pow_le_mono_r; lia|lia|lia].
    - intros He. apply Z.div_le_lower_bound; [lia|].
      assert (2 ^ n1 * 2 ^ 52 = 2 ^ (d - 1)) as ->; [|done].
      rw -Z.pow_add_r; [f_equal; lia|lia|lia]. }
  assert (-1074 <= e1) as Hemin by lia.
  destruct (decide (m2 = 0)) as [H0|Hne].
  { rw H0. unfold shr. destruct (fexp64 (Zdigits2 0 + e1) - e1) as [|p|p]; simpl; [done| |done].
    rw iter_shr_1 //=. }
  assert (0 < m2) as Hm2 by lia.
  assert (Zdigits2 m2 <= 53 ∨ m2 = 2 ^ 53) as Hd.
  { destruct (decide (m2 = 2 ^ 53)) as [|Hn]; [by right|left]. apply Zdigits2_le; lia. }
  assert (-1074 < e1 → 53 <= Zdigits2 m2) as Hd2.
  { intros He. apply (Zdigits2_ge m2 52); lia. }
  set (n2 := fexp64 (Zdigits2 m2 + e1) - e1).
  assert (Hn2 : (m2 = 2 ^ 53 ∧ n2 = 1) ∨ (Zdigits2 m2 <= 53 ∧ n2 = 0)).
  { destruct Hd as [Hd|Hd].
    - right. split; [done|]. unfold n2. rw fexp64_max. lia.
    - left. split; [done|]. unfold n2. rw fexp64_max Hd.
      change (Zdigits2 (2 ^ 53)) with 54. lia. }
  clearbody n2.
  destruct Hn2 as [[H53 ->]|[Hle ->]]; simpl.
  - rw H53. simpl. destruct (e1 + 1 <=? _) eqn:Hov; [|done]. split; [done|]. unfold bounded. apply andb_true_iff.
    split; [|done]. unfold canonical_mantissa. apply Z.eqb_eq. rw fexp64_max. simpl. lia.
  - destruct m2 as [|p|p] eqn:Hp; [lia| |lia]. simpl.
    destruct (e1 <=? _) eqn:Hov; [|done]. split; [done|].
    unfold bounded. apply andb_true_iff. split; [|done].
    unfold canonical_mantissa. apply Z.eqb_eq. rw fexp64_max.
    change (Z.pos (digits2_pos p)) with (Zdigits2 (Z.pos p)). lia.
Qed.

(** The result of a rounding: a valid datum carrying the requested sign. *)
Definition signed_valid (s : bool) (x : f64) : Prop :=
  match x with
  | S754_finite s' m e => s' = s ∧ bounded f64_prec f64_emax m e = true
  | S754_zero s' | S754_infinity s' => s' = s
  | S754_nan => False
  end.

Lemma signed_valid_valid s x : signed_valid s x → valid64 x.
Proof. destruct x; simpl; [done..|]. by intros [_ ?]. Qed.

Lemma signed_valid_nonneg x : signed_valid false x → fle fzero x = true.
Proof. destruct x as [[]|[]| |[] m e]; try done; intros [? ?]; done. Qed.

Lemma iter_xO_shiftl m p : Zpos (Pos.iter xO m p) = Z.shiftl (Zpos m) (Zpos p).
Proof. exact (Pos.iter_swap_gen _ _ Zpos xO (Z.mul 2) (fun _ => eq_refl) p m). Qed.

Lemma binary_round_signed s m e : signed_valid s (binary_round f64_prec f64_emax s m e).
Proof.
  unfold binary_round.
  set (e' := fexp64 (Zpos (digits2_pos m) + e)).
  unfold shl_align. destruct (e' - e) as [|p|p] eqn:Hd.
  - apply binary_round_aux_spec; [lia|]. change (e <= e'). lia.
  - apply binary_round_aux_spec; [lia|]. change (e <= e'). lia.
  - apply binary_round_aux_spec; [lia|].
    assert (Zdigits2 (Zpos (Pos.iter xO m p)) = Zpos (digits2_pos m) + Zpos p) as ->.
    { change (Zpos (digits2_pos m)) with (Zdigits2 (Zpos m)).
      rw iter_xO_shiftl !Zdigits2_log2 // ?Z.log2_shiftl; try lia.
      rw Z.shiftl_mul_pow2 //. apply Z.mul_pos_pos; [done|]. by apply Z.pow_pos_nonneg. }
    subst e'. rw !fexp64_max in Hd |- *. rw -Pos2Z.opp_pos in Hd. lia.
Qed.

Lemma binary_normalize_valid m e s : valid64 (binary_normalize f64_prec f64_emax m e s).
Proof.
  destruct m as [|p|p]; [done| |]; eapply signed_valid_valid, binary_round_signed.
Qed.

Lemma binary_normalize_nonneg m e :
  0 <= m → signed_valid false (binary_normalize f64_prec f64_emax m e false).
Proof. destruct m as [|p|p]; simpl; [done| |lia]. intros _. apply binary_round_signed. Qed.

Lemma f_of_Z_valid z : valid64 (f_of_Z z).
Proof. apply binary_normalize_valid. Qed.

Lemma fadd_valid x y : valid64 x → valid64 y → valid64 (fadd x y).
Proof.
  unfold fadd. destruct x as [[]|[]| |], y as [[]|[]| |]; simpl; try done.
  intros _ _. apply binary_normalize_valid.
Qed.

Lemma fsub_valid x y : valid64 x → valid64 y → valid64 (fsub x y).
Proof.
  unfold fsub. destruct x as [[]|[]| |], y as [[]|[]| |]; simpl; try done.
  intros _ _. apply binary_normalize_valid.
Qed.

Lemma bounded_canonical m e :
  bounded f64_prec f64_emax m e = true →
  e = Z.max (Zdigits2 (Zpos m) + e - 53) (-1074) ∧ 1 <= Zdigits2 (Zpos m).
Proof.
  intros [Hc _]%andb_true_iff. apply Z.eqb_eq in Hc. rw fexp64_max in Hc.
  split; [exact (eq_sym Hc)|]. simpl. lia.
Qed.

Lemma fmul_core_signed s mx ex my ey :
  bounded f64_prec f64_emax mx ex = true → bounded f64_prec f64_emax my ey = true →
  signed_valid s (binary_round_aux f64_prec f64_emax s (Zpos (mx * my)) (ex + ey) loc_Exact).
Proof.
  intros [Hx Hdx]%bounded_canonical [Hy Hdy]%bounded_canonical.
  apply binary_round_aux_spec; [lia|].
  assert (Zdigits2 (Zpos mx) + Zdigits2 (Zpos my) - 1 <= Zdigits2 (Zpos (mx * my))).
  { rw !Zdigits2_log2 //. pose proof (Z.log2_mul_below (Zpos mx) (Zpos my) ltac:(lia) ltac:(lia)).
    rw Pos2Z.inj_mul. lia. }
  rw fexp64_max. lia.
Qed.

Lemma fmul_valid x y : valid64 x → valid64 y → valid64 (fmul x y).
Proof.
  unfold fmul. destruct x as [sx|sx| |sx mx ex], y as [sy|sy| |sy my ey]; try done.
  intros Hx Hy. by eapply signed_valid_valid, fmul_core_signed.
Qed.

Lemma div_core_signed s n d e1 e2 q e l :
  0 < n → 0 < d →
  SFdiv_core_binary f64_prec f64_emax n e1 d e2 = (q, e, l) →
  signed_valid s (binary_round_aux f64_prec f64_emax s q e l).
Proof.
  intros Hn Hd. unfold SFdiv_core_binary.
  set (e' := Z.min _ _). set (k := e1 - e2 - e').
  assert (0 <= k) as Hk by (subst k e'; lia).
  assert (match k with 0 => n | Zpos _ => Z.shiftl n k | Zneg _ => 0 end = n * 2 ^ k) as ->.
  { destruct k as [|p|p]; [lia| |lia]. by rw Z.shiftl_mul_pow2. }
  pose proof (Z.pow_pos_nonneg 2 k ltac:(lia) Hk).
  unfold Z.modulo, Z.div.
  pose proof (Z_div_mod (n * 2 ^ k) d ltac:(lia)) as Hqr.
  destruct (Z.div_eucl (n * 2 ^ k) d) as [q' r]. destruct Hqr as [Hq Hr].
  intros [= <- <- <-].
  assert (0 <= q') as Hq0 by nia.
  apply binary_round_aux_spec; [done|].
  assert (Zdigits2 n + k - Zdigits2 d <= Zdigits2 q').
  { pose proof (Zdigits2_pos_bounds n Hn) as [Hn1 _].
    pose proof (Zdigits2_pos_bounds d Hd) as [_ Hd2].
    destruct (decide (Zdigits2 n + k - Zdigits2 d <= 0)) as [|Hpos].
    { pose proof (Zdigits2_nonneg q' Hq0). lia. }
    assert (2 ^ (Zdigits2 n + k - Zdigits2 d - 1) <= q') as Hp.
    { apply Z.lt_succ_r. pose proof (Zdigits2_nonneg d ltac:(lia)).
      pose proof (Z.pow_pos_nonneg 2 (Zdigits2 d) ltac:(lia) ltac:(lia)).
      apply (Z.mul_lt_mono_pos_r (2 ^ Zdigits2 d)); [lia|].
      rw -Z.pow_add_r; [|lia|lia].
      replace (Zdigits2 n + k - Zdigits2 d - 1 + Zdigits2 d) with ((Zdigits2 n - 1) + k) by lia.
      assert (1 <= Zdigits2 n) by (pose proof (Z.log2_nonneg n); rw Zdigits2_log2 //; lia).
      rw Z.pow_add_r; [nia|lia|lia]. }
    apply Zdigits2_ge in Hp; lia. }
  subst k e'. rw !fexp64_max. rw fexp64_max in H0. lia.
Qed.

Lemma fdiv_valid x y : valid64 x → valid64 y → valid64 (fdiv x y).
Proof.
  unfold fdiv. destruct x as [sx|sx| |sx mx ex], y as [sy|sy| |sy my ey]; try done.
  intros _ _. unfold SFdiv.
  destruct (SFdiv_core_binary _ _ _ _ _ _) as [[q e] l] eqn:Hq.
  by eapply signed_valid_valid, div_core_signed, Hq.
Qed.

Lemma f_of_ratio_valid s n d : 0 <= n → 0 < d → valid64 (f_of_ratio s n d).
Proof.
  intros Hn Hd. unfold f_of_ratio. destruct n as [|p|p]; [done| |lia].
  destruct (SFdiv_core_binary _ _ _ _ _ _) as [[q e] l] eqn:Hq.
  by eapply signed_valid_valid, div_core_signed, Hq.
Qed.

Lemma math_Round_valid x : valid64 x → valid64 (math_Round x).
Proof.
  destruct x as [| | |s m e]; try done. unfold math_Round.
  destruct (0 <=? e); [done|]. intros _.
  destruct (_ / _); [done|apply binary_normalize_valid..].
Qed.

(** ** Order and sign *)

Lemma flt_nan_l y : flt S754_nan y = false.
Proof. done. Qed.
Lemma flt_nan_r x : flt x S754_nan = false.
Proof. by destruct x. Qed.
#[export] Hint Rewrite flt_nan_l flt_nan_r : prog.

(** The exact integer a finite datum denotes at the scale [2^e]. *)
Definition scaled (s : bool) (m : positive) (e0 e : Z) : Z :=
  cond_Zopp s (Zpos (fst (shl_align m e0 e))).

Lemma shl_align_val m e0 e : e <= e0 → Zpos (fst (shl_align m e0 e)) = Zpos m * 2 ^ (e0 - e).
Proof.
  intros He. unfold shl_align. destruct (e - e0) as [|p|p] eqn:Hd; simpl.
  - replace (e0 - e) with 0 by lia. lia.
  - lia.
  - replace (e0 - e) with (Zpos p) by lia. rw -Z.shiftl_mul_pow2 //.
    apply iter_xO_shiftl.
Qed.

Lemma pos_compare_Z m1 m2 : Pos.compare_cont Eq m1 m2 = Z.compare (Zpos m1) (Zpos m2).
Proof. reflexivity. Qed.

(** A larger exponent wins between canonical mantissas. *)
Lemma canonical_exp_lt m1 e1 m2 e2 :
  bounded f64_prec f64_emax m1 e1 = true → bounded f64_prec f64_emax m2 e2 = true →
  e1 < e2 → Zpos m1 < Zpos m2 * 2 ^ (e2 - e1).
Proof.
  intros [H1 Hd1]%bounded_canonical [H2 Hd2]%bounded_canonical He.
  pose proof (Zdigits2_pos_bounds (Zpos m1) ltac:(lia)) as [_ Hub].
  pose proof (Zdigits2_pos_bounds (Zpos m2) ltac:(lia)) as [Hlb _].
  assert (Zdigits2 (Zpos m2) = 53) as E2 by lia.
  assert (Zdigits2 (Zpos m1) <= 53) as E1 by lia.
  rw E2 in Hlb.
  assert (2 ^ Zdigits2 (Zpos m1) <= 2 ^ 53) by (apply Z.pow_le_mono_r; lia).
  assert (2 ^ 1 <= 2 ^ (e2 - e1)) by (apply Z.pow_le_mono_r; lia).
  lia.
Qed.

Lemma flt_false_scaled s1 m1 e1 s2 m2 e2 :
  valid64 (S754_finite s1 m1 e1) → valid64 (S754_finite s2 m2 e2) →
  flt (S754_finite s1 m1 e1) (S754_finite s2 m2 e2) = false →
  scaled s2 m2 e2 (Z.min e1 e2) <= scaled s1 m1 e1 (Z.min e1 e2).
Proof.
  unfold valid64, scaled. simpl. intros H1 H2 Hlt. rw !shl_align_val; [|lia|lia].
  assert (0 < 2 ^ (e1 - Z.min e1 e2)) by (apply Z.pow_pos_nonneg; lia).
  assert (0 < 2 ^ (e2 - Z.min e1 e2)) by (apply Z.pow_pos_nonneg; lia).
  unfold flt, SFltb in Hlt. simpl in Hlt.
  destruct s1, s2; simpl; [|done|lia|].
  - destruct (Z.compare_spec e1 e2) as [->|He|He]; simpl in Hlt.
    + rw pos_compare_Z in Hlt. destruct (Z.compare_spec (Zpos m1) (Zpos m2)); simpl in Hlt; nia.
    + pose proof (canonical_exp_lt _ _ _ _ H1 H2 He).
      replace (Z.min e1 e2) with e1 by lia. rw Z.sub_diag. lia.
    + done.
  - destruct (Z.compare_spec e1 e2) as [->|He|He]; simpl in Hlt.
    + rw pos_compare_Z in Hlt. destruct (Z.compare_spec (Zpos m1) (Zpos m2)); simpl in Hlt; nia.
    + done.
    + pose proof (canonical_exp_lt _ _ _ _ H2 H1 He).
      replace (Z.min e1 e2) with e2 by lia. rw Z.sub_diag. lia.
Qed.

(** Go's guard [if x < y { refuse }] makes [x - y] non-negative. *)
Lemma fsub_guarded_nonneg x y :
  valid64 x → valid64 y → is_finite x = true → is_finite y = true →
  flt x y = false → fle fzero (fsub x y) = true.
Proof.
  destruct x as [sx|sx| |sx mx ex], y as [sy|sy| |sy my ey]; try done; intros Hx Hy _ _ Hlt.
  - by destruct sx, sy.
  - destruct sy; [|done]. reflexivity.
  - destruct sx; [done|]. by destruct sy.
  - apply signed_valid_nonneg. unfold fsub. simpl. apply binary_normalize_nonneg.
    pose proof (flt_false_scaled _ _ _ _ _ _ Hx Hy Hlt). unfold scaled in *. lia.
Qed.

(** The same from a possibly infinite non-negative balance. *)
Lemma fsub_covered_nonneg x y :
  valid64 x → valid64 y → fle fzero x = true → is_finite y = true →
  flt x y = false → fle fzero (fsub x y) = true.
Proof.
  intros Hx Hy H0 Hfin Hlt. destruct (is_finite x) eqn:Hf.
  - by apply fsub_guarded_nonneg.
  - destruct x as [|[]| |]; try done. by destruct y.
Qed.

(** The sum of two non-negative numbers is non-negative. *)
Lemma fadd_nonneg x y :
  fle fzero x = true → fle fzero y = true → fle fzero (fadd x y) = true.
Proof.
  destruct x as [[]|[]| |[] mx ex], y as [[]|[]| |[] my ey]; try done.
  intros _ _. apply signed_valid_nonneg, binary_round_signed.
Qed.

(** Products, quotients and roundings of non-negative numbers. *)
Lemma fmul_nonneg x y :
  valid64 x → valid64 y → is_finite x = true → is_finite y = true →
  fle fzero x = true → fle fzero y = true → fle fzero (fmul x y) = true.
Proof.
  destruct x as [sx|sx| |sx mx ex], y as [sy|sy| |sy my ey]; try done; intros Hx Hy _ _ H0 H1;
    try by destruct sx, sy.
  destruct sx, sy; try done. by apply signed_valid_nonneg, fmul_core_signed.
Qed.

Lemma fmul_inf_pos y :
  is_finite y = true → flt fzero y = true → fmul (S754_infinity false) y = S754_infinity false.
Proof. by destruct y as [|[]| |[]]. Qed.

Lemma fdiv_nonneg x y :
  fle fzero x = true → is_finite y = true → flt fzero y = true → fle fzero (fdiv x y) = true.
Proof.
  destruct x as [sx|sx| |sx mx ex], y as [sy|sy| |sy my ey]; try done; intros H0 _ H1;
    try by destruct sx, sy.
  destruct sx, sy; try done. unfold fdiv, SFdiv.
  destruct (SFdiv_core_binary _ _ _ _ _ _) as [[q e] l] eqn:Hq.
  by eapply signed_valid_nonneg, div_core_signed, Hq.
Qed.

Lemma math_Round_nonneg x : fle fzero x = true → fle fzero (math_Round x) = true.
Proof.
  destruct x as [|[]| |[] m e]; try done. intros _. unfold math_Round.
  destruct (0 <=? e); [done|].
  destruct (_ / _) as [|q|q] eqn:Hq; [done| |].
  - by apply signed_valid_nonneg, binary_normalize_nonneg.
  - exfalso. assert (0 <= Z.shiftl 1 (- e)) by (apply Z.shiftl_nonneg; lia).
    assert (0 <= (2 * Z.pos m + Z.shiftl 1 (- e)) / (2 * Z.shiftl 1 (- e))); [|lia].
    destruct (decide (Z.shiftl 1 (- e) = 0)) as [->|]; [done|]. apply Z.div_pos; lia.
Qed.

Create HintDb f64.
#[export] Hint Resolve fadd_valid fsub_valid fmul_valid fdiv_valid math_Round_valid
  f_of_Z_valid f_of_ratio_valid fadd_nonneg : f64.
