(* ===== verification/GoStd.v ===== *)
(** * What the program uses of Go's standard library

    Machine integers, [strconv], [strings], [time] and the [encoding/json]
    value tree.  Strings are byte strings; [strings.TrimSpace] trims the Unicode
    spaces, [strings.ToLower] is given on ASCII, the only text the program
    applies it to in its own data.  A [time.Time] is its instant in nanoseconds since
    the Unix epoch; formatting is in UTC, the zone the service's container
    image runs in. *)
From S2P Require Import Prelude GoFloat.

(** ** [int] is 64 bits wide *)
Definition int_min : Z := - 2 ^ 63.
Definition int_max : Z := 2 ^ 63 - 1.
Definition wrap64 (z : Z) : Z := (z + 2 ^ 63) mod 2 ^ 64 - 2 ^ 63.

Lemma wrap64_range z : int_min <= wrap64 z <= int_max.
Proof. unfold wrap64, int_min, int_max. pose proof (Z.mod_pos_bound (z + 2 ^ 63) (2 ^ 64)). lia. Qed.

Lemma wrap64_id z : int_min <= z <= int_max → wrap64 z = z.
Proof. unfold wrap64, int_min, int_max. intros Hz. rw Z.mod_small; lia. Qed.

(** ** [strconv] *)
Definition Itoa (n : Z) : string :=
  if n <? 0 then String "-" (nat_string (- n)) else nat_string n.

Fixpoint all_digits (l : list ascii) : bool :=
  match l with [] => true | c :: l => is_digit c && all_digits l end.
Definition digits_value (l : list ascii) : Z :=
  fold_left (fun v c => v * 10 + digit_val c) l 0.

(** [strconv.Atoi]; [None] is a syntax or range error. *)
Definition Atoi (s : string) : option Z :=
  let '(neg, l) := strip_sign (chars s) in
  match l with
  | [] => None
  | _ =>
      if all_digits l then
        let v := if neg then - digits_value l else digits_value l in
        if (int_min <=? v) && (v <=? int_max) then Some v else None
      else None
  end.

(** [%0wd] of a non-negative number. *)
Definition pad0 (w : nat) (n : Z) : string :=
  let s := nat_string n in
  of_chars (repeat "0"%char (w - String.length s) ++ chars s).

Lemma chars_of_chars l : chars (of_chars l) = l.
Proof. induction l as [|c l IH]; simpl; [done|by rw IH]. Qed.
Lemma of_chars_chars s : of_chars (chars s) = s.
Proof. induction s as [|c s IH]; simpl; [done|by rw IH]. Qed.
Lemma chars_app a b : chars (a +:+ b) = chars a ++ chars b.
Proof. induction a as [|c a IH]; simpl; [done|]. by rw -IH. Qed.
Lemma chars_inj a b : chars a = chars b → a = b.
Proof. intros H. by rw -(of_chars_chars a) -(of_chars_chars b) H. Qed.
Lemma length_chars s : length (chars s) = String.length s.
Proof. induction s as [|c s IH]; simpl; [done|by rw IH]. Qed.
#[export] Hint Rewrite chars_of_chars of_chars_chars chars_app : prog.

(** ** [strings] *)
Fixpoint trim_left_by (p : ascii → bool) (l : list ascii) : list ascii :=
  match l with
  | c :: l' => if p c then trim_left_by p l' else l
  | [] => []
  end.
Definition trim_right_by (p : ascii → bool) (l : list ascii) : list ascii :=
  rev (trim_left_by p (rev l)).

Definition is_char (c : ascii) (x : ascii) : bool := bool_decide (x = c).
(** [strings.Trim(s, "c")] and [strings.TrimRight(s, "c")] for a one-byte cutset. *)
Definition Trim (c : ascii) (s : string) : string :=
  of_chars (trim_right_by (is_char c) (trim_left_by (is_char c) (chars s))).
Definition TrimRight (c : ascii) (s : string) : string :=
  of_chars (trim_right_by (is_char c) (chars s)).

Definition is_space (c : ascii) : bool :=
  let n := N_of_ascii c in ((n =? 32) || ((9 <=? n) && (n <=? 13)))%N.
(** The white space beyond ASCII, in UTF-8: U+0085, U+00A0, U+1680, U+2000 to
    U+200A, U+2028, U+2029, U+202F, U+205F and U+3000. *)
Definition space2 (a b : ascii) : bool :=
  let a := N_of_ascii a in let b := N_of_ascii b in
  ((a =? 194) && ((b =? 133) || (b =? 160)))%N.
Definition space3 (a b c : ascii) : bool :=
  let a := N_of_ascii a in let b := N_of_ascii b in let c := N_of_ascii c in
  ((a =? 225) && (b =? 154) && (c =? 128)
   || (a =? 226) && (b =? 128)
      && ((128 <=? c) && (c <=? 138) || (c =? 168) || (c =? 169) || (c =? 175))
   || (a =? 226) && (b =? 129) && (c =? 159)
   || (a =? 227) && (b =? 128) && (c =? 128))%N.
Fixpoint trim_spaces (sp2 : ascii → ascii → bool) (sp3 : ascii → ascii → ascii → bool)
    (l : list ascii) : list ascii :=
  match l with
  | [] => []
  | a :: l1 =>
      if is_space a then trim_spaces sp2 sp3 l1
      else match l1 with
           | [] => l
           | b :: l2 =>
               if sp2 a b then trim_spaces sp2 sp3 l2
               else match l2 with
                    | [] => l
                    | c :: l3 => if sp3 a b c then trim_spaces sp2 sp3 l3 else l
                    end
           end
  end.
Definition TrimSpace (s : string) : string :=
  of_chars (rev (trim_spaces (fun b a => space2 a b) (fun c b a => space3 a b c)
    (rev (trim_spaces space2 space3 (chars s))))).

Definition ToLower (s : string) : string := of_chars (map lower_ascii (chars s)).

(** [strings.Split(s, sep)] for a one-byte separator: never empty. *)
Fixpoint split_chars (sep : ascii) (l : list ascii) : list (list ascii) :=
  match l with
  | [] => [[]]
  | c :: l' =>
      if bool_decide (c = sep) then [] :: split_chars sep l'
      else match split_chars sep l' with
           | p :: ps => (c :: p) :: ps
           | [] => [[c]]
           end
  end.
Definition Split (sep : ascii) (s : string) : list string :=
  map of_chars (split_chars sep (chars s)).

Fixpoint Join (sep : string) (l : list string) : string :=
  match l with
  | [] => ""
  | [x] => x
  | x :: l => x +:+ sep +:+ Join sep l
  end.

Definition HasPrefix (p s : string) : bool := String.prefix p s.
Definition str_drop (n : nat) (s : string) : string := of_chars (skipn n (chars s)).
Definition str_take (n : nat) (s : string) : string := of_chars (firstn n (chars s)).
Definition TrimPrefix (p s : string) : string :=
  if HasPrefix p s then str_drop (String.length p) s else s.

(** [s[:n]]: panics past the end. *)
Definition slice_to {W} (n : nat) (s : string) : prog W string :=
  if (n <=? String.length s)%nat then mret (str_take n s)
  else panic "slice bounds out of range".

(** [strings.LastIndex(s, "c")] for one byte; [None] is [-1]. *)
Fixpoint last_index_chars (c : ascii) (i : nat) (l : list ascii) (acc : option nat) : option nat :=
  match l with
  | [] => acc
  | x :: l => last_index_chars c (S i) l (if bool_decide (x = c) then Some i else acc)
  end.
Definition LastIndex (c : ascii) (s : string) : option nat :=
  last_index_chars c 0 (chars s) None.

(** The pieces between separators are found again. *)
Definition without (sep : ascii) (s : string) : bool := negb (existsb (is_char sep) (chars s)).

Lemma without_chars sep s :
  without sep s = true → forallb (fun c => negb (is_char sep c)) (chars s) = true.
Proof.
  unfold without. intros H%negb_true_iff. induction (chars s) as [|c l IH]; [done|]. cbn in *.
  apply orb_false_iff in H as [-> H]. by apply IH.
Qed.

Lemma split_chars_without sep l rest :
  forallb (fun c => negb (is_char sep c)) l = true →
  split_chars sep (l ++ sep :: rest) = l :: split_chars sep rest.
Proof.
  induction l as [|c l IH]; cbn; [by rw bool_decide_eq_true_2|]. intros [Hc Hl]%andb_true_iff.
  unfold is_char in Hc. apply negb_true_iff in Hc. by rw Hc (IH Hl).
Qed.

Lemma split_chars_last sep l :
  forallb (fun c => negb (is_char sep c)) l = true → split_chars sep l = [l].
Proof.
  induction l as [|c l IH]; cbn; [done|]. intros [Hc Hl]%andb_true_iff.
  unfold is_char in Hc. apply negb_true_iff in Hc. by rw Hc (IH Hl).
Qed.

Lemma Split_Join sep w ws :
  forallb (without sep) (w :: ws) = true → Split sep (Join (String sep "") (w :: ws)) = w :: ws.
Proof.
  unfold Split. revert w. induction ws as [|w' ws IH]; intros w [Hw Hws]%andb_true_iff.
  - cbn [Join]. rw split_chars_last; [|by apply without_chars]. cbn. by rw of_chars_chars.
  - change (Join (String sep "") (w :: w' :: ws))
      with (w +:+ String sep "" +:+ Join (String sep "") (w' :: ws)).
    rw !chars_app. cbn [chars app]. rw split_chars_without; [|by apply without_chars].
    cbn [map]. rw of_chars_chars. f_equal. by apply IH.
Qed.

Lemma Join_split_chars sep l :
  chars (Join (String sep "") (map of_chars (split_chars sep l))) = l.
Proof.
  induction l as [|c l IH]; cbn; [done|]. case_bool_decide as Hc.
  - subst c. destruct (split_chars sep l) as [|p ps] eqn:Hs.
    { cbn in IH. subst l. cbn in Hs. done. }
    change (map of_chars ([] :: p :: ps)) with ("" :: of_chars p :: map of_chars ps).
    cbn [Join]. change ("" +:+ String sep "" +:+ ?x) with (String sep x). cbn [chars]. f_equal. exact IH.
  - destruct (split_chars sep l) as [|p ps] eqn:Hs.
    { cbn in IH |- *. subst l. by cbn in Hs. }
    cbn [map of_chars]. destruct ps as [|q ps].
    + cbn in IH |- *. f_equal. exact IH.
    + cbn [map Join] in IH |- *. rw chars_app in IH. cbn [chars].
      change (String c (of_chars p) +:+ ?x) with (String c (of_chars p +:+ x)). cbn [chars].
      rw chars_app. f_equal. exact IH.
Qed.

Lemma Join_Split sep s : Join (String sep "") (Split sep s) = s.
Proof. apply chars_inj. apply Join_split_chars. Qed.

(** ** [time] *)
Definition second_ns : Z := 1000000000.
Definition minute_ns : Z := 60 * second_ns.

(** The zero [time.Time]: January 1, year 1. *)
Definition time_zero : Z := - 62135596800 * second_ns.
Definition IsZero (t : Z) : bool := t =? time_zero.
Definition Unix (t : Z) : Z := t / second_ns.
Definition UnixMilli (t : Z) : Z := t / 1000000.

(** Proleptic Gregorian calendar, from days since the epoch and back. *)
Definition civil_of_days (days : Z) : Z * Z * Z :=
  let z := days + 719468 in
  let era := z / 146097 in
  let doe := z mod 146097 in
  let yoe := (doe - doe / 1460 + doe / 36524 - doe / 146096) / 365 in
  let doy := doe - (365 * yoe + yoe / 4 - yoe / 100) in
  let mp := (5 * doy + 2) / 153 in
  let d := doy - (153 * mp + 2) / 5 + 1 in
  let m := if mp <? 10 then mp + 3 else mp - 9 in
  ((yoe + era * 400) + (if m <=? 2 then 1 else 0), m, d).
Definition days_of_civil (y m d : Z) : Z :=
  let y := if m <=? 2 then y - 1 else y in
  let era := y / 400 in
  let yoe := y mod 400 in
  let doy := (153 * (if 2 <? m then m - 3 else m + 9) + 2) / 5 + d - 1 in
  era * 146097 + (yoe * 365 + yoe / 4 - yoe / 100 + doy) - 719468.

Definition day_ns : Z := 86400 * second_ns.
Definition date_of (t : Z) : Z * Z * Z := civil_of_days (t / day_ns).
Definition clock_of (t : Z) : Z * Z * Z :=
  let s := (t / second_ns) mod 86400 in (s / 3600, s / 60 mod 60, s mod 60).

(** [t.AddDate(years, 0, 0)]. *)
Definition AddYears (n t : Z) : Z :=
  let '(y, m, d) := date_of t in days_of_civil (y + n) m d * day_ns + t mod day_ns.

(** Layout ["2006-01-02"]. *)
Definition Format_date (t : Z) : string :=
  let '(y, m, d) := date_of t in
  pad0 4 y +:+ "-" +:+ pad0 2 m +:+ "-" +:+ pad0 2 d.
(** Layout ["15:04:05"]. *)
Definition Format_clock (t : Z) : string :=
  let '(h, m, s) := clock_of t in
  pad0 2 h +:+ ":" +:+ pad0 2 m +:+ ":" +:+ pad0 2 s.
(** [time.RFC3339], and ["2006-01-02T15:04:05Z"], which agree in UTC. *)
Definition Format_RFC3339 (t : Z) : string :=
  Format_date t +:+ "T" +:+ Format_clock t +:+ "Z".

(** A fraction layout of nines: trailing zeros and a bare point are dropped. *)
Definition Format_frac (digits : nat) (t : Z) : string :=
  let f := (t mod second_ns) / 10 ^ (9 - Z.of_nat digits) in
  match trim_right_by (is_char "0") (chars (pad0 digits f)) with
  | [] => ""
  | l => String "." (of_chars l)
  end.
Definition Format_micro (t : Z) : string :=
  Format_date t +:+ " " +:+ Format_clock t +:+ Format_frac 6 t.
Definition Format_RFC3339Nano (t : Z) : string :=
  Format_date t +:+ "T" +:+ Format_clock t +:+ Format_frac 9 t +:+ "Z".

Definition weekday_names : list string :=
  ["Thu"; "Fri"; "Sat"; "Sun"; "Mon"; "Tue"; "Wed"].
Definition month_names : list string :=
  ["January"; "February"; "March"; "April"; "May"; "June"; "July"; "August";
   "September"; "October"; "November"; "December"].
Definition nth_name (l : list string) (i : Z) : string := nth (Z.to_nat i) l "".
(** [time.RFC1123] in UTC. *)
Definition Format_RFC1123 (t : Z) : string :=
  let '(y, m, d) := date_of t in
  nth_name weekday_names ((t / day_ns) mod 7) +:+ ", " +:+ pad0 2 d +:+ " "
    +:+ str_take 3 (nth_name month_names (m - 1)) +:+ " " +:+ pad0 4 y +:+ " "
    +:+ Format_clock t +:+ " UTC".
(** Layout ["January 2006"]. *)
Definition Format_month_year (t : Z) : string :=
  let '(y, m, _) := date_of t in nth_name month_names (m - 1) +:+ " " +:+ pad0 4 y.

(** ** [encoding/json] values

    Response bodies and webhook data are trees; an object keeps its fields in
    the order of the source. *)
Inductive json : Type :=
| JNull
| JBool (b : bool)
| JInt (z : Z)
| JFloat (x : f64)
| JStr (s : string)
| JArr (l : list json)
| JObj (fields : list (string * json)).

Definition JOptStr (s : option string) : json :=
  match s with Some s => JStr s | None => JNull end.
Definition JTime (t : Z) : json := JStr (Format_RFC3339Nano t).
Definition JStrs (l : list string) : json := JArr (map JStr l).

(** A member of an object. *)
Fixpoint assoc {A} (k : string) (l : list (string * A)) : option A :=
  match l with
  | [] => None
  | (k', v) :: l => if k =?s k' then Some v else assoc k l
  end.
Definition jget (k : string) (j : json) : option json :=
  match j with JObj fs => assoc k fs | _ => None end.
Fixpoint assoc_set {A} (k : string) (v : A) (l : list (string * A)) : list (string * A) :=
  match l with
  | [] => [(k, v)]
  | (k', v') :: l => if k =?s k' then (k, v) :: l else (k', v') :: assoc_set k v l
  end.

Lemma assoc_set_eq {A} k (v : A) l : assoc k (assoc_set k v l) = Some v.
Proof.
  induction l as [|[k' v'] l IH]; simpl; [by rw str_eqb_refl|].
  destruct (k =?s k') eqn:Hk; simpl; [by rw str_eqb_refl|by rw Hk].
Qed.

Lemma assoc_set_ne {A} k k' (v : A) l : k ≠ k' → assoc k (assoc_set k' v l) = assoc k l.
Proof.
  intros Hne. induction l as [|[k1 v1] l IH]; simpl; [by rw (str_eqb_ne _ _ Hne)|].
  destruct (k' =?s k1) eqn:Hk; simpl; [|by rw IH].
  apply str_eqb_eq in Hk as <-. by rw (str_eqb_ne _ _ Hne).
Qed.

(** ** Decimal numbers read back *)
Lemma digit_char_digit d : 0 <= d < 10 → is_digit (digit_char d) = true ∧ digit_val (digit_char d) = d.
Proof.
  intros Hd. assert (d = 0 ∨ d = 1 ∨ d = 2 ∨ d = 3 ∨ d = 4 ∨ d = 5 ∨ d = 6 ∨ d = 7 ∨ d = 8 ∨ d = 9)
    as Hc by lia.
  by destruct Hc as [->|[->|[->|[->|[->|[->|[->|[->|[->| ->]]]]]]]]].
Qed.

Lemma all_digits_snoc l c : all_digits (l ++ [c]) = all_digits l && is_digit c.
Proof. induction l as [|x l IH]; simpl; [by rw andb_true_r|]. by rw IH andb_assoc. Qed.

Lemma digits_value_snoc l c : digits_value (l ++ [c]) = digits_value l * 10 + digit_val c.
Proof. unfold digits_value. by rw fold_left_app. Qed.

Lemma digits_fuel_spec fuel n acc :
  0 <= n < 2 ^ Z.of_nat fuel → (0 < fuel)%nat →
  ∃ ds, chars (digits_fuel fuel n acc) = ds ++ chars acc
    ∧ ds ≠ [] ∧ all_digits ds = true ∧ digits_value ds = n.
Proof.
  revert n acc. induction fuel as [|fuel IH]; intros n acc Hn Hf; [lia|]. cbn [digits_fuel].
  destruct (digit_char_digit (n mod 10)) as [Hd Hv]; [by apply Z.mod_pos_bound|].
  destruct (Z.ltb_spec n 10).
  - exists [digit_char (n mod 10)]. split; [done|]. split; [done|].
    split; [by rw /= Hd|]. unfold digits_value. simpl. rw Hv Z.mod_small; lia.
  - destruct fuel as [|fuel]; [change (2 ^ Z.of_nat 1) with 2 in Hn; lia|].
    rw Nat2Z.inj_succ Z.pow_succ_r in Hn; [|lia].
    assert (0 <= n / 10 < 2 ^ Z.of_nat (S fuel)) as Hn' by
      (split; [apply Z.div_pos; lia|apply Z.div_lt_upper_bound; lia]).
    destruct (IH _ (String (digit_char (n mod 10)) acc) Hn' ltac:(lia)) as (ds & Hc & Hne & Had & Hval).
    exists (ds ++ [digit_char (n mod 10)]). rw Hc -app_assoc. split; [done|].
    split; [by destruct ds|]. rw all_digits_snoc digits_value_snoc Had Hd Hval Hv.
    split; [done|]. pose proof (Z.div_mod n 10). lia.
Qed.

Lemma nat_string_spec n :
  0 <= n → ∃ ds, chars (nat_string n) = ds ∧ ds ≠ [] ∧ all_digits ds = true ∧ digits_value ds = n.
Proof.
  intros Hn. unfold nat_string.
  destruct (digits_fuel_spec (S (Z.to_nat (Z.log2 n))) n "") as (ds & Hc & H1 & H2 & H3); [|lia|].
  - split; [done|]. rw Nat2Z.inj_succ Z2Nat.id; [|apply Z.log2_nonneg].
    destruct (decide (n = 0)) as [->|]; [done|]. apply Z.log2_spec. lia.
  - exists ds. rw Hc app_nil_r. done.
Qed.

Lemma strip_sign_digit c l : is_digit c = true → strip_sign (c :: l) = (false, c :: l).
Proof. by destruct c as [[] [] [] [] [] [] [] []]. Qed.

(** [strconv.Atoi] reads what [strconv.Itoa] wrote. *)
Lemma Atoi_Itoa n : int_min <= n <= int_max → Atoi (Itoa n) = Some n.
Proof.
  intros Hn. unfold Atoi, Itoa. destruct (Z.ltb_spec n 0).
  - destruct (nat_string_spec (- n)) as (ds & Hc & Hne & Had & Hv); [lia|].
    cbn [chars strip_sign]. rw Hc Had Hv. destruct ds as [|d ds]; [done|].
    replace (- - n) with n by lia.
    replace ((int_min <=? n) && (n <=? int_max)) with true by lia. done.
  - destruct (nat_string_spec n) as (ds & Hc & Hne & Had & Hv); [lia|].
    rw Hc. destruct ds as [|d ds]; [done|].
    pose proof Had as Had'. cbn [all_digits] in Had'. apply andb_true_iff in Had' as [Hd _].
    rw (strip_sign_digit _ _ Hd) Had Hv.
    replace ((int_min <=? n) && (n <=? int_max)) with true by lia. done.
Qed.
