(* ===== verification/Crypto.v ===== *)
(** * [crypto/sha256], [crypto/hmac], [encoding/hex], [encoding/base64]

    SHA-256 on lists of bytes (integers below 256), HMAC over it, and the two
    text encodings the program uses.  Everything is executable; the examples
    at the end are published test vectors. *)
From S2P Require Import Prelude GoFloat GoStd.

Definition byte_of (c : ascii) : Z := Z.of_N (N_of_ascii c).
Definition char_of (b : Z) : ascii := ascii_of_N (Z.to_N b).
(** [[]byte(s)] and [string(b)]. *)
Definition bytes_of (s : string) : list Z := map byte_of (chars s).
Definition string_of (b : list Z) : string := of_chars (map char_of b).

(** ** 32-bit words *)
Definition w32 (x : Z) : Z := Z.land x 4294967295.
Definition rotr (n x : Z) : Z := Z.lor (Z.shiftr x n) (w32 (Z.shiftl x (32 - n))).

Fixpoint be_value (bs : list Z) (acc : Z) : Z :=
  match bs with [] => acc | b :: bs => be_value bs (acc * 256 + b) end.
(** [n] big-endian bytes of [z]. *)
Fixpoint be_bytes (n : nat) (z : Z) : list Z :=
  match n with
  | O => []
  | S n => (Z.shiftr z (8 * Z.of_nat n)) mod 256 :: be_bytes n z
  end.

Fixpoint chunks (fuel n : nat) (l : list Z) : list (list Z) :=
  match fuel, l with
  | _, [] => []
  | O, _ => [l]
  | S fuel, _ => firstn n l :: chunks fuel n (skipn n l)
  end.

Definition round_constants : list Z :=
 [1116352408; 1899447441; 3049323471; 3921009573; 961987163; 1508970993;
  2453635748; 2870763221; 3624381080; 310598401; 607225278; 1426881987;
  1925078388; 2162078206; 2614888103; 3248222580; 3835390401; 4022224774;
  264347078; 604807628; 770255983; 1249150122; 1555081692; 1996064986;
  2554220882; 2821834349; 2952996808; 3210313671; 3336571891; 3584528711;
  113926993; 338241895; 666307205; 773529912; 1294757372; 1396182291;
  1695183700; 1986661051; 2177026350; 2456956037; 2730485921; 2820302411;
  3259730800; 3345764771; 3516065817; 3600352804; 4094571909; 275423344;
  430227734; 506948616; 659060556; 883997877; 958139571; 1322822218;
  1537002063; 1747873779; 1955562222; 2024104815; 2227730452; 2361852424;
  2428436474; 2756734187; 3204031479; 3329325298].

Definition initial_state : list Z :=
 [1779033703; 3144134277; 1013904242; 2773480762; 1359893119; 2600822924;
  528734635; 1541459225].

(** The message schedule, newest word first; 48 words follow the first 16. *)
Definition next_word (ws : list Z) : Z :=
  let w i := nth i ws 0 in
  let s0 x := Z.lxor (Z.lxor (rotr 7 x) (rotr 18 x)) (Z.shiftr x 3) in
  let s1 x := Z.lxor (Z.lxor (rotr 17 x) (rotr 19 x)) (Z.shiftr x 10) in
  w32 (s1 (w 1%nat) + w 6%nat + s0 (w 14%nat) + w 15%nat).
Definition schedule (block : list Z) : list Z :=
  let first := rev (map (fun c => be_value c 0) (chunks 16 4 block)) in
  rev (Nat.iter 48 (fun ws => next_word ws :: ws) first).

Definition compress_step (st : list Z) (kw : Z * Z) : list Z :=
  match st with
  | [a; b; c; d; e; f; g; h] =>
      let S1 := Z.lxor (Z.lxor (rotr 6 e) (rotr 11 e)) (rotr 25 e) in
      let ch := Z.lxor (Z.land e f) (Z.land (4294967295 - e) g) in
      let t1 := h + S1 + ch + fst kw + snd kw in
      let S0 := Z.lxor (Z.lxor (rotr 2 a) (rotr 13 a)) (rotr 22 a) in
      let maj := Z.lxor (Z.lxor (Z.land a b) (Z.land a c)) (Z.land b c) in
      [w32 (t1 + S0 + maj); a; b; c; w32 (d + t1); e; f; g]
  | _ => st
  end.
Definition compress (st : list Z) (block : list Z) : list Z :=
  let st' := fold_left compress_step (combine round_constants (schedule block)) st in
  map (fun p => w32 (fst p + snd p)) (combine st st').

Definition sha_pad (msg : list Z) : list Z :=
  let n := length msg in
  msg ++ 128 :: repeat 0 ((119 - n mod 64) mod 64) ++ be_bytes 8 (8 * Z.of_nat n).

(** [sha256.Sum256] *)
Definition Sum256 (msg : list Z) : list Z :=
  let p := sha_pad msg in
  flat_map (be_bytes 4) (fold_left compress (chunks (length p) 64 p) initial_state).

(** [hmac.New(sha256.New, key)] applied to one message. *)
Definition hmac_sha256 (key msg : list Z) : list Z :=
  let k := if (64 <? length key)%nat then Sum256 key else key in
  let k := k ++ repeat 0 (64 - length k) in
  Sum256 (map (Z.lxor 92) k ++ Sum256 (map (Z.lxor 54) k ++ msg)).

(** ** [hex] *)
Definition hex_digit (d : Z) : ascii := char_of (if d <? 10 then 48 + d else 87 + d).
Definition hex_EncodeToString (b : list Z) : string :=
  of_chars (flat_map (fun x => [hex_digit (x / 16); hex_digit (x mod 16)]) b).

Definition hex_digit_val (c : ascii) : option Z :=
  if is_digit c then Some (digit_val c)
  else if is_hex_letter c then Some (hex_val c) else None.
Fixpoint hex_decode (l : list ascii) : option (list Z) :=
  match l with
  | [] => Some []
  | [_] => None
  | a :: b :: l =>
      match hex_digit_val a, hex_digit_val b, hex_decode l with
      | Some x, Some y, Some r => Some (16 * x + y :: r)
      | _, _, _ => None
      end
  end.
Definition hex_DecodeString (s : string) : option (list Z) := hex_decode (chars s).

(** ** Facts *)
Lemma be_bytes_length n z : length (be_bytes n z) = n.
Proof. induction n as [|n IH]; simpl; [done|by rw IH]. Qed.

Lemma be_bytes_range n z b : b ∈ be_bytes n z → 0 <= b < 256.
Proof.
  induction n as [|n IH]; simpl; [by intros ?%elem_of_nil|].
  intros [->|Hb]%elem_of_cons; [apply Z.mod_pos_bound; lia|auto].
Qed.

Lemma compress_length st block : length st = 8%nat → length (compress st block) = 8%nat.
Proof.
  intros Hst. unfold compress. rw length_map length_combine Hst.
  set (kws := combine _ _). clearbody kws.
  assert (∀ s, length s = 8%nat → length (fold_left compress_step kws s) = 8%nat) as ->; [|done..].
  induction kws as [|kw kws IH]; intros s Hs; simpl; [done|]. apply IH.
  by do 9 (destruct s as [|? s]; try done).
Qed.

Lemma Sum256_length msg : length (Sum256 msg) = 32%nat.
Proof.
  unfold Sum256. set (bs := chunks _ _ _). clearbody bs.
  assert (∀ s, length s = 8%nat → length (flat_map (be_bytes 4) (fold_left compress bs s)) = 32%nat) as H;
    [|by apply H].
  induction bs as [|b bs IH]; intros s Hs; simpl; [|by apply IH, compress_length].
  by do 9 (destruct s as [|? s]; try done).
Qed.

Lemma Sum256_range msg b : b ∈ Sum256 msg → 0 <= b < 256.
Proof.
  unfold Sum256. intros (x & _ & Hb)%list_elem_of_In%in_flat_map.
  by eapply be_bytes_range, list_elem_of_In.
Qed.

Lemma length_of_chars l : String.length (of_chars l) = length l.
Proof. induction l as [|c l IH]; simpl; [done|by rw IH]. Qed.

Lemma hex_EncodeToString_length b :
  (String.length (hex_EncodeToString b) = 2 * length b)%nat.
Proof.
  unfold hex_EncodeToString. rw length_of_chars.
  induction b as [|x b IH]; simpl; [done|]. rw IH. lia.
Qed.

Lemma hmac_sha256_length key msg : length (hmac_sha256 key msg) = 32%nat.
Proof. apply Sum256_length. Qed.

Lemma hex_digit_val_digit d : 0 <= d < 16 → hex_digit_val (hex_digit d) = Some d.
Proof.
  intros Hd. assert (d ∈ (Z.of_nat <$> seq 0 16)) as Hin.
  { apply list_elem_of_fmap. exists (Z.to_nat d). rw elem_of_seq. lia. }
  assert (Forall (λ d, hex_digit_val (hex_digit d) = Some d) (Z.of_nat <$> seq 0 16)) as Hall.
  { repeat constructor. }
  by apply (proj1 (Forall_forall _ _) Hall).
Qed.

(** Decoding undoes encoding on byte lists. *)
Lemma hex_roundtrip b :
  Forall (λ x, 0 <= x < 256) b → hex_DecodeString (hex_EncodeToString b) = Some b.
Proof.
  unfold hex_DecodeString, hex_EncodeToString. rw chars_of_chars.
  induction 1 as [|x b Hx _ IH]; [done|]. simpl.
  rw !hex_digit_val_digit; [|apply Z.mod_pos_bound; lia|].
  - rw IH. do 2 f_equal. pose proof (Z.div_mod x 16). lia.
  - split; [apply Z.div_pos; lia|apply Z.div_lt_upper_bound; lia].
Qed.

Example sha256_abc :
  hex_EncodeToString (Sum256 (bytes_of "abc"))
  = "ba7816bf8f01cfea414140de5dae2223b00361a396177a9cb410ff61f20015ad"%string.
Proof. vm_compute. reflexivity. Qed.

Example hmac_sha256_jefe :
  hex_EncodeToString (hmac_sha256 (bytes_of "Jefe") (bytes_of "what do ya want for nothing?"))
  = "5bdcc146bf60754e6a042426089575c75a003f089d2739839dec58b964ec3843"%string.
Proof. vm_compute. reflexivity. Qed.
