(* ===== verification/Base64.v ===== *)
(** * Base 64 ([encoding/base64])

    The two encodings the card tokens use: [StdEncoding], padded, and
    [RawURLEncoding], without padding.  The decoder skips line breaks, does not
    ask the unused bits of the last digit to be zero, and reports the offset at
    which the input goes wrong. *)
From S2P Require Import Prelude GoFloat GoStd Crypto.

Record Encoding := mkEncoding {
  b64_digit : Z → ascii;
  b64_val : ascii → option Z;
  b64_pad : option ascii }.

(** The digit of a byte, given what the last two of the alphabet are. *)
Definition digit_value (c62 c63 c : ascii) : option Z :=
  let b := byte_of c in
  if (65 <=? b) && (b <=? 90) then Some (b - 65)
  else if (97 <=? b) && (b <=? 122) then Some (b - 71)
  else if (48 <=? b) && (b <=? 57) then Some (b + 4)
  else if bool_decide (c = c62) then Some 62
  else if bool_decide (c = c63) then Some 63 else None.
(** The digits of the URL alphabet, and of the standard one. *)
Definition b64_char (v : Z) : ascii :=
  char_of (if v <? 26 then 65 + v else if v <? 52 then 71 + v
           else if v <? 62 then v - 4 else if v =? 62 then 45 else 95).
Definition std_char (v : Z) : ascii :=
  if v =? 62 then "+"%char else if v =? 63 then "/"%char else b64_char v.

Definition StdEncoding : Encoding := mkEncoding std_char (digit_value "+" "/") (Some "="%char).
Definition RawURLEncoding : Encoding := mkEncoding b64_char (digit_value "-" "_") None.

(** ** Encoding *)
Definition padding (e : Encoding) (n : nat) : list ascii :=
  match b64_pad e with Some c => repeat c n | None => [] end.
Fixpoint encode_bytes (e : Encoding) (b : list Z) : list ascii :=
  match b with
  | x :: y :: z :: b =>
      let v := x * 65536 + y * 256 + z in
      b64_digit e (v / 262144) :: b64_digit e (v / 4096 mod 64) :: b64_digit e (v / 64 mod 64)
        :: b64_digit e (v mod 64) :: encode_bytes e b
  | [x; y] =>
      let v := x * 65536 + y * 256 in
      [b64_digit e (v / 262144); b64_digit e (v / 4096 mod 64); b64_digit e (v / 64 mod 64)]
        ++ padding e 1
  | [x] =>
      let v := x * 65536 in [b64_digit e (v / 262144); b64_digit e (v / 4096 mod 64)] ++ padding e 2
  | [] => []
  end.
Definition EncodeToString (e : Encoding) (b : list Z) : string := of_chars (encode_bytes e b).

(** ** Decoding

    [decodeQuantum]: the digits [q] of the current group of four, the offset [si]
    of the next byte. *)
Definition CorruptInputError (offset : Z) : string :=
  "illegal base64 data at input byte " +:+ Itoa offset.

(** The bytes of a group of two to four digits. *)
Definition group_bytes (q : list Z) : list Z :=
  match q with
  | [a; b] => [a * 4 + b / 16]
  | [a; b; c] => [a * 4 + b / 16; b mod 16 * 16 + c / 4]
  | [a; b; c; d] => [a * 4 + b / 16; b mod 16 * 16 + c / 4; c mod 4 * 64 + d]
  | _ => []
  end.

Definition is_newline (c : ascii) : bool := is_char "010" c || is_char "013" c.
Fixpoint skip_newlines (l : list ascii) (si : Z) : list ascii * Z :=
  match l with
  | c :: l' => if is_newline c then skip_newlines l' (si + 1) else (l, si)
  | [] => ([], si)
  end.

(** After the padding only line breaks may follow. *)
Definition decode_end (q : list Z) (l : list ascii) (si : Z) : result (list Z) :=
  let '(l, si) := skip_newlines l si in
  match l with [] => Ok (group_bytes q) | _ => Err (CorruptInputError si) end.
(** The padding character at [si - 1] was read; a group of two digits needs
    another one. *)
Definition decode_padding (pad : ascii) (q : list Z) (l : list ascii) (si : Z) : result (list Z) :=
  match length q with
  | 0%nat | 1%nat => Err (CorruptInputError (si - 1))
  | 2%nat =>
      let '(l, si) := skip_newlines l si in
      match l with
      | [] => Err (CorruptInputError si)
      | c :: l =>
          if bool_decide (c = pad) then decode_end q l (si + 1) else Err (CorruptInputError (si - 1))
      end
  | _ => decode_end q l si
  end.

Fixpoint decode_chars (e : Encoding) (l : list ascii) (si : Z) (q : list Z) : result (list Z) :=
  match l with
  | [] =>
      match length q, b64_pad e with
      | 0%nat, _ => Ok []
      | 1%nat, _ => Err (CorruptInputError (si - 1))
      | j, Some _ => Err (CorruptInputError (si - Z.of_nat j))
      | _, None => Ok (group_bytes q)
      end
  | c :: l =>
      match b64_val e c with
      | Some v =>
          if (length q =? 3)%nat
          then match decode_chars e l (si + 1) [] with
               | Ok b => Ok (group_bytes (q ++ [v]) ++ b)
               | Err msg => Err msg
               end
          else decode_chars e l (si + 1) (q ++ [v])
      | None =>
          if is_newline c then decode_chars e l (si + 1) q
          else match b64_pad e with
               | Some pad =>
                   if bool_decide (c = pad) then decode_padding pad q l (si + 1)
                   else Err (CorruptInputError si)
               | None => Err (CorruptInputError si)
               end
      end
  end.
Definition DecodeString (e : Encoding) (s : string) : result (list Z) := decode_chars e (chars s) 0 [].

(** ** Round trip *)

(** An encoding whose digits are read back. *)
Definition sound (e : Encoding) : Prop :=
  (∀ v, 0 <= v < 64 → b64_val e (b64_digit e v) = Some v)
  ∧ (∀ c, b64_pad e = Some c → b64_val e c = None ∧ is_newline c = false).

Lemma digits_sound (e : Encoding) :
  forallb (fun i => bool_decide (b64_val e (b64_digit e (Z.of_nat i)) = Some (Z.of_nat i)))
    (seq 0 64) = true →
  ∀ v, 0 <= v < 64 → b64_val e (b64_digit e v) = Some v.
Proof.
  intros Hall v Hv. pose proof (proj1 (forallb_forall _ _) Hall (Z.to_nat v)) as Hi.
  rw Z2Nat.id in Hi; [|lia]. apply bool_decide_eq_true in Hi; [done|]. apply in_seq. lia.
Qed.

Lemma StdEncoding_sound : sound StdEncoding.
Proof.
  split; [apply digits_sound; vm_compute; reflexivity|]. intros c [= <-]. by vm_compute.
Qed.
Lemma RawURLEncoding_sound : sound RawURLEncoding.
Proof. split; [apply digits_sound; vm_compute; reflexivity|done]. Qed.

(** The digits of three bytes, and the bytes of four digits. *)
Lemma group_three x y z :
  0 <= x < 256 → 0 <= y < 256 → 0 <= z < 256 →
  let v := x * 65536 + y * 256 + z in
  0 <= v / 262144 < 64
  ∧ group_bytes [v / 262144; v / 4096 mod 64; v / 64 mod 64; v mod 64] = [x; y; z].
Proof.
  intros Hx Hy Hz v. unfold group_bytes, v.
  split; [Z.to_euclidean_division_equations; lia|].
  f_equal; [|f_equal; [|f_equal]]; Z.to_euclidean_division_equations; lia.
Qed.

(** What holds of every digit and of the padding holds of an encoded text. *)
Lemma encode_all (e : Encoding) (P : ascii → bool) b :
  (∀ v, 0 <= v < 64 → P (b64_digit e v) = true) → (∀ c, b64_pad e = Some c → P c = true) →
  Forall (λ x, 0 <= x < 256) b → forallb P (encode_bytes e b) = true.
Proof.
  intros Hd Hp. assert (∀ n, forallb P (padding e n) = true) as Hpad.
  { intros n. unfold padding. destruct (b64_pad e) as [c|]; [|done]. induction n as [|n IH]; [done|].
    cbn. by rw Hp. }
  assert (∀ v, P (b64_digit e (v mod 64)) = true) as Hm by (intros v; apply Hd, Z.mod_pos_bound; lia).
  induction b as [b IH] using (induction_ltof1 _ length). unfold ltof in IH.
  intros Hb. destruct b as [|x [|y [|z b]]]; [done| | |].
  - apply Forall_cons in Hb as [Hx _]. pose proof (group_three x 0 0 Hx ltac:(lia) ltac:(lia)) as [Hv _].
    rw !Z.mul_0_l !Z.add_0_r in Hv. cbn [encode_bytes app forallb]. by rw Hm Hpad Hd.
  - apply Forall_cons in Hb as [Hx [Hy _]%Forall_cons].
    pose proof (group_three x y 0 Hx Hy ltac:(lia)) as [Hv _]. rw !Z.add_0_r in Hv.
    cbn [encode_bytes app forallb]. by rw !Hm Hpad Hd.
  - apply Forall_cons in Hb as [Hx [Hy [Hz Hb]%Forall_cons]%Forall_cons].
    destruct (group_three x y z Hx Hy Hz) as [Hv _]. cbn [encode_bytes forallb].
    rw !Hm Hd; [|done]. rw IH; [done|cbn; lia|done].
Qed.

Section Roundtrip.
Context (e : Encoding) (Hsound : sound e).

Lemma decode_digit v l si q :
  0 <= v < 64 → (length q < 3)%nat →
  decode_chars e (b64_digit e v :: l) si q = decode_chars e l (si + 1) (q ++ [v]).
Proof.
  intros Hv Hq. cbn [decode_chars]. rw (proj1 Hsound v Hv).
  by destruct (Nat.eqb_spec (length q) 3); [lia|].
Qed.

Lemma decode_pads q si n :
  (2 <= length q <= 3)%nat → (n + length q = 4)%nat →
  decode_chars e (padding e n) si q = Ok (group_bytes q).
Proof.
  intros Hq Hn. unfold padding. destruct (b64_pad e) as [c|] eqn:Hp.
  - destruct (proj2 Hsound c Hp) as [Hv Hnl].
    destruct q as [|a [|b [|d [|]]]]; cbn in Hq, Hn; try lia.
    + assert (n = 2%nat) as -> by lia. cbn -[is_newline].
      by rw Hv Hnl Hp bool_decide_eq_true_2.
    + assert (n = 1%nat) as -> by lia. cbn -[is_newline]. rw Hv Hnl Hp. by rw bool_decide_eq_true_2.
  - cbn. rw Hp. by destruct q as [|a [|b [|d [|]]]]; cbn in Hq, Hn; try lia.
Qed.

Lemma decode_encode b : ∀ si,
  Forall (λ x, 0 <= x < 256) b → decode_chars e (encode_bytes e b) si [] = Ok b.
Proof.
  induction b as [b IH] using (induction_ltof1 _ length). unfold ltof in IH.
  intros si Hb. destruct b as [|x [|y [|z b]]]; [done| | |].
  - apply Forall_cons in Hb as [Hx _]. pose proof (group_three x 0 0 Hx ltac:(lia) ltac:(lia)) as H.
    cbn zeta in H. rw !Z.mul_0_l !Z.add_0_r in H. destruct H as [Hd Hg].
    cbn [encode_bytes app]. rw decode_digit; [|done|cbn; lia].
    rw decode_digit; [|apply Z.mod_pos_bound; lia|cbn; lia]. cbn [app].
    rw decode_pads; [|cbn; lia|cbn; lia]. cbn in Hg |- *. by injection Hg as -> _ _.
  - apply Forall_cons in Hb as [Hx [Hy _]%Forall_cons].
    pose proof (group_three x y 0 Hx Hy ltac:(lia)) as H.
    cbn zeta in H. rw !Z.add_0_r in H. destruct H as [Hd Hg].
    cbn [encode_bytes app]. rw decode_digit; [|done|cbn; lia].
    do 2 (rw decode_digit; [|apply Z.mod_pos_bound; lia|cbn; lia]). cbn [app].
    rw decode_pads; [|cbn; lia|cbn; lia]. cbn in Hg |- *. by injection Hg as -> -> _.
  - apply Forall_cons in Hb as [Hx [Hy [Hz Hb]%Forall_cons]%Forall_cons].
    destruct (group_three x y z Hx Hy Hz) as [Hd Hg].
    cbn [encode_bytes]. rw decode_digit; [|done|cbn; lia].
    do 2 (rw decode_digit; [|apply Z.mod_pos_bound; lia|cbn; lia]). cbn [app].
    cbn [decode_chars length Nat.eqb]. rw (proj1 Hsound); [|apply Z.mod_pos_bound; lia].
    rw IH; [|cbn; lia|done]. cbn [app]. by rw Hg.
Qed.

Lemma decode_string_encode b :
  Forall (λ x, 0 <= x < 256) b → DecodeString e (EncodeToString e b) = Ok b.
Proof. intros Hb. unfold DecodeString, EncodeToString. rw chars_of_chars. by apply decode_encode. Qed.
End Roundtrip.

Example base64_hello : EncodeToString RawURLEncoding (bytes_of "hello?>") = "aGVsbG8_Pg"%string.
Proof. vm_compute. reflexivity. Qed.
