(* ===== verification/GoText.v ===== *)
(** * Text encodings of Go's standard library

    UTF-8 decoding, [%q] quoting, the compact text [json.Marshal] writes and
    the parts of [url.Parse] the program looks at. *)
From Stdlib Require Import Floats.SpecFloat.
From S2P Require Import Prelude GoFloat GoStd Crypto.

(** ** UTF-8

    A string as Go's [range] sees it: runes with the bytes they came from; a
    byte that starts no valid sequence is an invalid rune of width one. *)
Record rune := mkRune { rune_code : Z; rune_bytes : list ascii; rune_valid : bool }.

Definition is_cont (c : ascii) : bool := let b := byte_of c in (128 <=? b) && (b <=? 191).
Definition in_range (lo hi : Z) (c : ascii) : bool := let b := byte_of c in (lo <=? b) && (b <=? hi).
Definition low6 (c : ascii) : Z := byte_of c mod 64.

Definition invalid_rune (c : ascii) : rune := mkRune 65533 [c] false.

Fixpoint decode_utf8 (fuel : nat) (l : list ascii) : list rune :=
  match fuel, l with
  | 0%nat, _ => []
  | _, [] => []
  | S fuel, c0 :: rest =>
      let b := byte_of c0 in
      let invalid (_ : unit) := invalid_rune c0 :: decode_utf8 fuel rest in
      if b <? 128 then mkRune b [c0] true :: decode_utf8 fuel rest
      else if in_range 194 223 c0 then
        match rest with
        | c1 :: rest1 =>
            if is_cont c1
            then mkRune (b mod 32 * 64 + low6 c1) [c0; c1] true :: decode_utf8 fuel rest1
            else invalid tt
        | [] => invalid tt
        end
      else if in_range 224 239 c0 then
        let second := if b =? 224 then in_range 160 191 else if b =? 237 then in_range 128 159
                      else is_cont in
        match rest with
        | c1 :: c2 :: rest2 =>
            if second c1 && is_cont c2
            then mkRune (b mod 16 * 4096 + low6 c1 * 64 + low6 c2) [c0; c1; c2] true
                   :: decode_utf8 fuel rest2
            else invalid tt
        | _ => invalid tt
        end
      else if in_range 240 244 c0 then
        let second := if b =? 240 then in_range 144 191 else if b =? 244 then in_range 128 143
                      else is_cont in
        match rest with
        | c1 :: c2 :: c3 :: rest3 =>
            if second c1 && is_cont c2 && is_cont c3
            then mkRune (b mod 8 * 262144 + low6 c1 * 4096 + low6 c2 * 64 + low6 c3)
                   [c0; c1; c2; c3] true :: decode_utf8 fuel rest3
            else invalid tt
        | _ => invalid tt
        end
      else invalid tt
  end.
Definition runes (s : string) : list rune := decode_utf8 (String.length s) (chars s).

Definition backslash : ascii := "\"%char.
Definition dquote : ascii := "034"%char.
Definition hex2 (b : Z) : list ascii := [hex_digit (b / 16); hex_digit (b mod 16)].
Definition hex4 (b : Z) : list ascii := hex2 (b / 256) ++ hex2 (b mod 256).

(** ** [%q], with every valid non-ASCII rune taken as printable *)
Definition quote_rune (r : rune) : list ascii :=
  let c := rune_code r in
  if negb (rune_valid r) then
    backslash :: "x"%char :: hex2 (byte_of (default "000"%char (head (rune_bytes r))))
  else if (c =? 34) || (c =? 92) then backslash :: rune_bytes r
  else if (32 <=? c) && negb (c =? 127) then rune_bytes r
  else if c =? 7 then [backslash; "a"%char] else if c =? 8 then [backslash; "b"%char]
  else if c =? 12 then [backslash; "f"%char] else if c =? 10 then [backslash; "n"%char]
  else if c =? 13 then [backslash; "r"%char] else if c =? 9 then [backslash; "t"%char]
  else if c =? 11 then [backslash; "v"%char]
  else backslash :: "x"%char :: hex2 c.
Definition Quote (s : string) : string :=
  of_chars (dquote :: flat_map quote_rune (runes s) ++ [dquote]).

(** ** Shortest decimal that reads back as the same number *)
Definition pow2_ratio (m e : Z) : Z * Z :=
  if 0 <=? e then (m * 2 ^ e, 1) else (m, 2 ^ (- e)).

(** Decimal exponent [p]: [10^(p-1) <= n/d < 10^p]. *)
Fixpoint decimal_point (fuel : nat) (n d p : Z) : Z :=
  match fuel with
  | 0%nat => p
  | S fuel =>
      let lt_pow p := if 0 <=? p then n <? 10 ^ p * d else n * 10 ^ (- p) <? d in
      if negb (lt_pow p) then decimal_point fuel n d (p + 1)
      else if lt_pow (p - 1) then decimal_point fuel n d (p - 1)
      else p
  end.

(** [digits] decimal digits of [n/d < 10^p], at or just above. *)
Definition reads_back (x : f64) (digits p c : Z) : bool :=
  let k := p - digits in
  let y := if 0 <=? k then f_of_ratio false (c * 10 ^ k) 1 else f_of_ratio false c (10 ^ (- k)) in
  feq x y.
Definition shortest_at (x : f64) (n d p digits : Z) : option Z :=
  let k := p - digits in
  let '(num, den) := if 0 <=? k then (n, d * 10 ^ k) else (n * 10 ^ (- k), d) in
  let lo := num / den in
  let hi := lo + 1 in
  match reads_back x digits p lo, reads_back x digits p hi with
  | true, true =>
      let r := 2 * (num mod den) in
      Some (if r <? den then lo else if den <? r then hi else if Z.even lo then lo else hi)
  | true, false => Some lo
  | false, true => Some hi
  | false, false => None
  end.
Fixpoint shortest_digits (fuel : nat) (x : f64) (n d p digits : Z) : Z * Z :=
  match fuel with
  | 0%nat => (0, digits)
  | S fuel =>
      match shortest_at x n d p digits with
      | Some c => (c, digits)
      | None => shortest_digits fuel x n d p (digits + 1)
      end
  end.

Definition zeros (n : Z) : list ascii := repeat "0"%char (Z.to_nat n).
Definition strip_zeros (l : list ascii) : list ascii := trim_right_by (is_char "0") l.

(** The shortest digits [d1 d2 ...] of [m * 2^e] and the point [p]: the value
    is [0.d1d2... * 10^p]. *)
Definition shortest_decimal (m : positive) (e : Z) : list ascii * Z :=
  let '(n, d) := pow2_ratio (Zpos m) e in
  let ax := S754_finite false m e in
  let p := decimal_point 800 n d ((Z.log2 (Zpos m) + e) * 30103 / 100000 + 1) in
  let '(c, digits) := shortest_digits 17 ax n d p 1 in
  let all := chars (nat_string c) in
  (* a carry to a power of ten moves the point *)
  (strip_zeros all, p + (Z.of_nat (length all) - digits)).

Definition sign_chars (s : bool) : list ascii := if s then ["-"%char] else [].

(** [d.ddde±x], the exponent in at least [w] digits. *)
Definition exponent_text (w : nat) (ds : list ascii) (p : Z) : list ascii :=
  let ex := p - 1 in
  firstn 1 ds ++ (if (length ds =? 1)%nat then [] else "."%char :: skipn 1 ds)
    ++ "e"%char :: (if ex <? 0 then "-"%char else "+"%char) :: chars (pad0 w (Z.abs ex)).
Definition plain_text (ds : list ascii) (p : Z) : list ascii :=
  let nd := Z.of_nat (length ds) in
  if p <=? 0 then "0"%char :: "."%char :: zeros (- p) ++ ds
  else if nd <=? p then ds ++ zeros (p - nd)
  else firstn (Z.to_nat p) ds ++ "."%char :: skipn (Z.to_nat p) ds.

(** How [encoding/json] writes a finite number. *)
Definition float_text (x : f64) : string :=
  match x with
  | S754_zero s => of_chars (sign_chars s ++ ["0"%char])
  | S754_infinity _ | S754_nan => ""
  | S754_finite s m e =>
      let '(ds, p) := shortest_decimal m e in
      of_chars (sign_chars s
        ++ (if (p - 1 <? -6) || (20 <? p - 1) then exponent_text 1 ds p else plain_text ds p))
  end.

(** [%v] of a [float64]. *)
Definition Sprint_float (x : f64) : string :=
  match x with
  | S754_zero s => of_chars (sign_chars s ++ ["0"%char])
  | S754_infinity s => if s then "-Inf" else "+Inf"
  | S754_nan => "NaN"
  | S754_finite s m e =>
      let '(ds, p) := shortest_decimal m e in
      of_chars (sign_chars s
        ++ (if (p - 1 <? -4) || (6 <=? p - 1) then exponent_text 2 ds p else plain_text ds p))
  end.

(** ** [json.Marshal] *)
Definition json_rune (r : rune) : list ascii :=
  let c := rune_code r in
  if negb (rune_valid r) then chars "\ufffd"
  else if (c =? 34) || (c =? 92) then backslash :: rune_bytes r
  else if c =? 8 then chars "\b" else if c =? 12 then chars "\f"
  else if c =? 10 then chars "\n" else if c =? 13 then chars "\r" else if c =? 9 then chars "\t"
  else if (c <? 32) || (c =? 60) || (c =? 62) || (c =? 38) || (c =? 8232) || (c =? 8233)
  then chars "\u" ++ hex4 c
  else rune_bytes r.
Definition json_string (s : string) : string :=
  of_chars (dquote :: flat_map json_rune (runes s) ++ [dquote]).

(** A JSON object's text.  [JObj] fields are written in their order: a struct
    gives them in declaration order, a map is sorted by [sort_keys] first. *)
Fixpoint json_text (j : json) : string :=
  match j with
  | JNull => "null"
  | JBool b => if b then "true" else "false"
  | JInt z => Itoa z
  | JFloat x => float_text x
  | JStr s => json_string s
  | JArr l => "[" +:+ Join "," (map json_text l) +:+ "]"
  | JObj fs => "{" +:+ Join "," (map (fun kv => json_string kv.1 +:+ ":" +:+ json_text kv.2) fs) +:+ "}"
  end.

(** [json.Marshal] succeeds: every number is finite. *)
Fixpoint marshals (j : json) : bool :=
  match j with
  | JFloat x => is_finite x
  | JArr l => forallb marshals l
  | JObj fs => forallb (fun kv => marshals kv.2) fs
  | _ => true
  end.

(** ** Decoding into [interface{}]

    An object becomes a map, in which the last member of a name wins, and a
    number becomes a [float64].  [as_interface] keeps the members in their
    order; [sort_maps] gives a map in the order it is written and printed in,
    by increasing key. *)
Fixpoint as_interface (j : json) : json :=
  match j with
  | JInt z => JFloat (f_of_Z z)
  | JArr l => JArr (map as_interface l)
  | JObj fs => JObj (map (fun kv => (kv.1, as_interface kv.2)) fs)
  | j => j
  end.

Definition key_before {A} (a b : string * A) : bool := String.ltb a.1 b.1.
Definition sort_keys {A} (l : list (string * A)) : list (string * A) := slice_stable key_before l.
Definition last_wins {A} (l : list (string * A)) : list (string * A) :=
  fold_left (fun acc kv => assoc_set kv.1 kv.2 acc) l [].

Lemma assoc_set_fresh {A} k (v : A) l : k ∉ l.*1 → assoc_set k v l = l ++ [(k, v)].
Proof.
  induction l as [|[k' v'] l IH]; cbn; [done|]. intros [Hne Hk]%not_elem_of_cons.
  by rw (str_eqb_ne _ _ Hne) IH.
Qed.

Lemma last_wins_id {A} (l : list (string * A)) : NoDup l.*1 → last_wins l = l.
Proof.
  unfold last_wins. change l with ([] ++ l) at 1 3. generalize ([] : list (string * A)) as acc.
  induction l as [|[k v] l IH]; intros acc Hnd; [by rw app_nil_r|]. cbn [fold_left fst snd].
  rw fmap_app in Hnd. cbn in Hnd. apply NoDup_app in Hnd as (Hacc & Hdis & Hl).
  rw assoc_set_fresh.
  - rw IH; [by rw -app_assoc|]. rw -app_assoc fmap_app. cbn. apply NoDup_app. by split_and!.
  - intros Hin. apply (Hdis k Hin). by left.
Qed.

(** A tree all of whose objects are maps. *)
Fixpoint sort_maps (j : json) : json :=
  match j with
  | JArr l => JArr (map sort_maps l)
  | JObj fs => JObj (sort_keys (last_wins (map (fun kv => (kv.1, sort_maps kv.2)) fs)))
  | j => j
  end.

(** [fmt.Sprintf("%v", v)] of a decoded document. *)
Fixpoint print_tree (j : json) : string :=
  match j with
  | JNull => "<nil>"
  | JBool b => if b then "true" else "false"
  | JInt z => Sprint_float (f_of_Z z)
  | JFloat x => Sprint_float x
  | JStr s => s
  | JArr l => "[" +:+ Join " " (map print_tree l) +:+ "]"
  | JObj fs => "map[" +:+ Join " " (map (fun kv => kv.1 +:+ ":" +:+ print_tree kv.2) fs) +:+ "]"
  end.
Definition Sprint_v (j : json) : string := print_tree (sort_maps j).

(** ** [url.Parse]

    The scheme and the (still escaped) host of a URL, or the text of the
    parse error. *)
Definition is_upper_lower (c : ascii) : bool :=
  in_range 97 122 c || in_range 65 90 c.
Definition is_alnum (c : ascii) : bool := is_upper_lower c || is_digit c.
Definition one_of (s : string) (c : ascii) : bool := existsb (is_char c) (chars s).
Definition is_hex (c : ascii) : bool := if hex_digit_val c then true else false.

(** [strings.Cut] at the first occurrence of a byte. *)
Fixpoint cut_chars (sep : ascii) (l : list ascii) : option (list ascii * list ascii) :=
  match l with
  | [] => None
  | c :: l' =>
      if bool_decide (c = sep) then Some ([], l')
      else match cut_chars sep l' with Some (a, b) => Some (c :: a, b) | None => None end
  end.
Definition last_cut (sep : ascii) (l : list ascii) : option (list ascii * list ascii) :=
  match cut_chars sep (rev l) with Some (b, a) => Some (rev a, rev b) | None => None end.

(** [%] escapes; outside hosts every well-formed escape is accepted. *)
Definition escape_error (l : list ascii) : string :=
  "invalid URL escape " +:+ Quote (of_chars (firstn 3 l)).
Fixpoint check_escapes (l : list ascii) : result unit :=
  match l with
  | [] => Ok tt
  | c :: l' =>
      if bool_decide (c = "%"%char) then
        match l' with
        | a :: b :: rest => if is_hex a && is_hex b then check_escapes rest else Err (escape_error l)
        | _ => Err (escape_error l)
        end
      else check_escapes l'
  end.
Definition host_char (c : ascii) : bool :=
  (128 <=? byte_of c) || is_alnum c || one_of "!$&'()*+,;=:[]<>-_.~" c || bool_decide (c = dquote).
Fixpoint check_host (zone : bool) (l : list ascii) : result unit :=
  match l with
  | [] => Ok tt
  | c :: l' =>
      if bool_decide (c = "%"%char) then
        match l' with
        | a :: b :: rest =>
            match hex_digit_val a, hex_digit_val b with
            | Some h, Some lo =>
                let v := h * 16 + lo in
                let ok := (v =? 37) || (if zone then (v =? 32) || host_char (char_of v) else 8 <=? h) in
                if ok then check_host zone rest else Err (escape_error l)
            | _, _ => Err (escape_error l)
            end
        | _ => Err (escape_error l)
        end
      else if host_char c then check_host zone l'
      else Err ("invalid character " +:+ Quote (of_chars [c]) +:+ " in host name")
  end.
Definition valid_port (l : list ascii) : bool :=
  match l with [] => true | c :: ds => bool_decide (c = ":"%char) && all_digits ds end.
Definition port_error (l : list ascii) : string :=
  "invalid port " +:+ Quote (of_chars l) +:+ " after host".

Fixpoint find_zone (i : nat) (l : list ascii) : option nat :=
  match l with
  | "%"%char :: "2"%char :: "5"%char :: _ => Some i
  | _ :: l' => find_zone (S i) l'
  | [] => None
  end.

Definition parseHost (host : list ascii) : result unit :=
  match host with
  | "["%char :: _ =>
      match last_cut "]" host with
      | None => Err "missing ']' in host"
      | Some (inside, port) =>
          if negb (valid_port port) then Err (port_error port)
          else match find_zone 0 inside with
               | Some z =>
                   match check_host false (firstn z inside), check_host true (skipn z inside),
                         check_host false port with
                   | Ok _, Ok _, Ok _ => Ok tt
                   | Err e, _, _ | Ok _, Err e, _ | Ok _, Ok _, Err e => Err e
                   end
               | None => check_host false host
               end
      end
  | _ =>
      match last_cut ":" host with
      | Some (_, port) =>
          if valid_port (":"%char :: port) then check_host false host
          else Err (port_error (":"%char :: port))
      | None => check_host false host
      end
  end.

Definition userinfo_char (c : ascii) : bool := is_alnum c || one_of "-._:~!$&'()*+,;=%@" c.
Definition parseAuthority (authority : list ascii) : result string :=
  match last_cut "@" authority with
  | None =>
      match parseHost authority with Ok _ => Ok (of_chars authority) | Err e => Err e end
  | Some (userinfo, host) =>
      match parseHost host with
      | Err e => Err e
      | Ok _ =>
          if negb (forallb userinfo_char userinfo) then Err "net/url: invalid userinfo"
          else match check_escapes userinfo with
               | Ok _ => Ok (of_chars host)
               | Err e => Err e
               end
      end
  end.

Fixpoint getScheme (i : nat) (seen l whole : list ascii) : result (list ascii * list ascii) :=
  match l with
  | [] => Ok ([], whole)
  | c :: l' =>
      if is_upper_lower c then getScheme (S i) (seen ++ [c]) l' whole
      else if is_digit c || one_of "+-." c then
        if (i =? 0)%nat then Ok ([], whole) else getScheme (S i) (seen ++ [c]) l' whole
      else if bool_decide (c = ":"%char) then
        if (i =? 0)%nat then Err "missing protocol scheme" else Ok (seen, l')
      else Ok ([], whole)
  end.

(** The authority and the path of what follows the scheme, query removed. *)
Definition parse_rest (scheme rest : list ascii) : result string :=
  let is_slash c := bool_decide (c = "/"%char) in
  let scheme_empty := (length scheme =? 0)%nat in
  match rest with
  | "/"%char :: "/"%char :: after =>
      if negb scheme_empty || negb (match after with "/"%char :: _ => true | _ => false end) then
        let '(authority, path) :=
          match cut_chars "/" after with Some (a, p) => (a, "/"%char :: p) | None => (after, []) end in
        match parseAuthority authority with
        | Err e => Err e
        | Ok host => match check_escapes path with Ok _ => Ok host | Err e => Err e end
        end
      else match check_escapes rest with Ok _ => Ok "" | Err e => Err e end
  | "/"%char :: _ => match check_escapes rest with Ok _ => Ok "" | Err e => Err e end
  | _ =>
      if negb scheme_empty then Ok ""
      else
        let segment := match cut_chars "/" rest with Some (a, _) => a | None => rest end in
        if existsb (is_char ":"%char) segment
        then Err "first path segment in URL cannot contain colon"
        else match check_escapes rest with Ok _ => Ok "" | Err e => Err e end
  end.

Definition parse_url_text (l : list ascii) : result (string * string) :=
  if existsb (fun c => (byte_of c <? 32) || (byte_of c =? 127)) l
  then Err "net/url: invalid control character in URL"
  else if bool_decide (l = ["*"%char]) then Ok ("", "")
  else
    match getScheme 0 [] l l with
    | Err e => Err e
    | Ok (scheme, rest) =>
        let rest := match cut_chars "?" rest with Some (a, _) => a | None => rest end in
        match parse_rest scheme rest with
        | Err e => Err e
        | Ok host => Ok (ToLower (of_chars scheme), host)
        end
    end.

Definition url_error (url msg : string) : string := "parse " +:+ Quote url +:+ ": " +:+ msg.
Definition url_Parse (rawURL : string) : result (string * string) :=
  let '(url, fragment) :=
    match cut_chars "#" (chars rawURL) with Some (u, f) => (u, f) | None => (chars rawURL, []) end in
  match parse_url_text url with
  | Err e => Err (url_error (of_chars url) e)
  | Ok parsed =>
      match check_escapes fragment with
      | Ok _ => Ok parsed
      | Err e => Err (url_error rawURL e)
      end
  end.
