(* ===== verification/Config.v ===== *)
(** * Configuration ([internal/config])

    [Load] reads the process environment (a [gmap]; an unset variable reads as
    the empty string) and a source of random bytes ([None]: the system RNG
    failed).  The credentials parser and its string splitter are the source's
    own loops. *)
From S2P Require Import Prelude GoFloat GoStd Crypto Base64.

Record Config := mkConfig {
  Port : string;
  AdminPort : string;
  LogLevel : string;
  RedisURL : string;
  RedisDB : Z;
  WebhookURL : string;
  WebhookSecret : string;
  WebhookMinDelaySec : f64;
  UseRedis : bool;
  EnforceAuthentication : bool;
  ValidCredentials : gmap string string;
  DefaultOrganizationID : string;
  PublicBaseURL : string;
  AsyncWithdrawals : bool;
  CardDataTokenSecret : string }.
#[export] Instance eta_Config : Eta Config := fun r =>
  mkConfig (Port r) (AdminPort r) (LogLevel r) (RedisURL r) (RedisDB r) (WebhookURL r)
    (WebhookSecret r) (WebhookMinDelaySec r) (UseRedis r) (EnforceAuthentication r)
    (ValidCredentials r) (DefaultOrganizationID r) (PublicBaseURL r) (AsyncWithdrawals r)
    (CardDataTokenSecret r).

Section Environment.
Context (environ : gmap string string).

(** [os.Getenv] *)
Definition Getenv (key : string) : string := default "" (environ !! key).

Definition getEnv (key defaultVal : string) : string :=
  let val := Getenv key in if negb (val =?s "") then val else defaultVal.

Definition getEnvInt (key : string) (defaultVal : Z) : Z :=
  let val := Getenv key in
  if negb (val =?s "") then
    match Atoi val with Some intVal => intVal | None => defaultVal end
  else defaultVal.

Definition getEnvFloat (key : string) (defaultVal : f64) : f64 :=
  let val := Getenv key in
  if negb (val =?s "") then
    match ParseFloat val with Some floatVal => floatVal | None => defaultVal end
  else defaultVal.

Definition getEnvBool (key : string) (defaultVal : bool) : bool :=
  let val := Getenv key in
  if negb (val =?s "") then
    (val =?s "true") || (val =?s "1") || (val =?s "yes")
  else defaultVal.
End Environment.

(** One byte of [splitString]: [result] and [current] are the loop's slices. *)
Fixpoint splitString_loop (delim : ascii) (s : list ascii)
    (result : list string) (current : list ascii) : list string * list ascii :=
  match s with
  | [] => (result, current)
  | c :: s =>
      if bool_decide (c = delim)
      then splitString_loop delim s (result ++ [of_chars current]) []
      else splitString_loop delim s result (current ++ [c])
  end.

Definition splitString (s : string) (delim : ascii) : list string :=
  let '(result, current) := splitString_loop delim (chars s) [] [] in
  if (0 <? length current)%nat then result ++ [of_chars current] else result.

Definition parseCredentials (credStr : string) : gmap string string :=
  if credStr =?s "" then ∅
  else
    fold_left (fun creds pair =>
      match splitString pair ":" with
      | [p0; p1] => <[p0 := p1]> creds
      | _ => creds
      end) (splitString credStr ",") ∅.

(** [rand.Read] gave [bytes], or failed. *)
Definition randomSecret (bytes : option (list Z)) : string :=
  match bytes with
  | None => "mockgatehub-insecure-fallback-card-data-secret"
  | Some b => EncodeToString RawURLEncoding b
  end.

Definition Load (environ : gmap string string) (random : option (list Z)) : Config :=
  let getEnv := getEnv environ in
  let cfg := {|
    Port := getEnv "MOCKGATEHUB_PORT" "8080";
    AdminPort := getEnv "MOCKGATEHUB_ADMIN_PORT" "8081";
    LogLevel := getEnv "LOG_LEVEL" "info";
    RedisURL := getEnv "MOCKGATEHUB_REDIS_URL" "";
    RedisDB := getEnvInt environ "MOCKGATEHUB_REDIS_DB" 0;
    WebhookURL := getEnv "WEBHOOK_URL" "";
    WebhookSecret := getEnv "WEBHOOK_SECRET" "mock-secret";
    WebhookMinDelaySec := getEnvFloat environ "WEBHOOK_MIN_DELAY_SEC" (f_lit 5 2);
    UseRedis := false;
    EnforceAuthentication := getEnvBool environ "MOCKGATEHUB_ENFORCE_AUTHENTICATION" true;
    ValidCredentials := parseCredentials
      (getEnv "MOCKGATEHUB_VALID_CREDENTIALS" "local-test-app-id:local-test-app-secret");
    DefaultOrganizationID := getEnv "DEFAULT_ORGANIZATION_ID" "default-org";
    PublicBaseURL := getEnv "MOCKGATEHUB_PUBLIC_BASE_URL" "";
    AsyncWithdrawals := getEnvBool environ "MOCKGATEHUB_ASYNC_WITHDRAWALS" false;
    CardDataTokenSecret := getEnv "MOCKGATEHUB_CARD_DATA_TOKEN_SECRET" "" |} in
  let cfg := if PublicBaseURL cfg =?s ""
             then cfg <| PublicBaseURL := "http://localhost:" +:+ Port cfg |> else cfg in
  let cfg := cfg <| PublicBaseURL := TrimRight "/" (PublicBaseURL cfg) |> in
  let cfg := if CardDataTokenSecret cfg =?s ""
             then cfg <| CardDataTokenSecret := randomSecret random |> else cfg in
  cfg <| UseRedis := negb (RedisURL cfg =?s "") |>.

(** ** Splitting *)

(** What the splitter means: [strings.Split], less a trailing empty piece. *)
Definition drop_trailing_empty (l : list string) : list string :=
  match rev l with
  | "" :: l' => rev l'
  | _ => l
  end.

Lemma split_chars_cons sep l : ∃ p ps, split_chars sep l = p :: ps.
Proof.
  induction l as [|c l (p & ps & IH)]; simpl; [by eauto|].
  case_bool_decide; [by eauto|]. rw IH. by eauto.
Qed.

Lemma splitString_loop_spec delim s result current p ps :
  split_chars delim s = p :: ps →
  splitString_loop delim s result current =
  (result ++ map of_chars (removelast ((current ++ p) :: ps)), List.last ((current ++ p) :: ps) []).
Proof.
  revert result current p ps. induction s as [|c s IH]; intros result current p ps Hs; simpl in *.
  - injection Hs as <- <-. simpl. by rw !app_nil_r.
  - destruct (split_chars_cons delim s) as (p' & ps' & Hs'). rw Hs' in Hs.
    case_bool_decide as Hc; injection Hs as <- <-.
    + rw (IH _ _ _ _ Hs'). simpl. rw app_nil_r.
      destruct ps'; simpl; by rw -?app_assoc.
    + rw (IH _ _ _ _ Hs') -app_assoc //.
Qed.
