(* ===== verification/Consts.v ===== *)
(** * Constants of the sandbox

    The values of [internal/consts]: currencies, vaults, rates, states, event
    names and defaults.  A Go map literal is a [gmap]; its iteration order is
    not part of the value. *)
From S2P Require Import Prelude GoFloat GoStd.

Definition SandboxCurrencies : list string :=
  ["XRP"; "USD"; "EUR"; "GBP"; "ZAR"; "MXN"; "SGD"; "CAD"; "EGG"; "PEB"; "PKR"].

Definition SandboxVaultIDs : gmap string string := list_to_map [
  ("USD", "450d2156-132a-4d3f-88c5-74822547658d");
  ("EUR", "a09a0a2c-1a3a-44c5-a1b9-603a6eea9341");
  ("GBP", "992b932d-7e9e-44b0-90ea-b82a530b6784");
  ("ZAR", "f1c412ce-5e2b-4737-9121-b7c11d6c3f93");
  ("MXN", "426c2e30-111e-4273-92b3-508445a6bb58");
  ("SGD", "e2914c33-2e57-49a5-ac06-25c006497b3d");
  ("CAD", "bd5af6fe-5d92-4b20-9bd4-1baa52b7a02e");
  ("EGG", "9a550347-799e-4c10-9142-f1a2e1c084e7");
  ("PEB", "0ba2b0d1-b7a2-416c-a4ac-1cb3e5281300");
  ("PKR", "2868b4e5-7178-4945-8ec5-8208fac2a22d");
  ("XRP", "6e1f2a3b-4c5d-6e7f-8a9b-0c1d2e3f4a5b")].

Definition VaultUUIDToCurrency : gmap string string := list_to_map [
  ("450d2156-132a-4d3f-88c5-74822547658d", "USD");
  ("a09a0a2c-1a3a-44c5-a1b9-603a6eea9341", "EUR");
  ("992b932d-7e9e-44b0-90ea-b82a530b6784", "GBP");
  ("f1c412ce-5e2b-4737-9121-b7c11d6c3f93", "ZAR");
  ("426c2e30-111e-4273-92b3-508445a6bb58", "MXN");
  ("e2914c33-2e57-49a5-ac06-25c006497b3d", "SGD");
  ("bd5af6fe-5d92-4b20-9bd4-1baa52b7a02e", "CAD");
  ("9a550347-799e-4c10-9142-f1a2e1c084e7", "EGG");
  ("0ba2b0d1-b7a2-416c-a4ac-1cb3e5281300", "PEB");
  ("2868b4e5-7178-4945-8ec5-8208fac2a22d", "PKR");
  ("6e1f2a3b-4c5d-6e7f-8a9b-0c1d2e3f4a5b", "XRP")].

Definition SandboxRates : gmap string f64 := list_to_map [
  ("USD", f_lit 10 1);
  ("EUR", f_lit 108 2);
  ("GBP", f_lit 127 2);
  ("ZAR", f_lit 54 3);
  ("MXN", f_lit 59 3);
  ("SGD", f_lit 74 2);
  ("CAD", f_lit 71 2);
  ("PKR", f_lit 36 4);
  ("EGG", f_lit 10 1);
  ("PEB", f_lit 10 1);
  ("XRP", f_lit 50 2)].


(** KYC states. *)
Definition KYCStateAccepted : string := "accepted".
Definition KYCStateRejected : string := "rejected".
Definition KYCStateActionRequired : string := "action_required".
Definition KYCStateResubmission : string := "resubmission".

(** Risk levels. *)
Definition RiskLevelLow : string := "low".
Definition RiskLevelMedium : string := "medium".
Definition RiskLevelHigh : string := "high".

(** Transaction types (matches GateHub API). *)
Definition TransactionTypeWithdrawal : Z := 0.
Definition TransactionTypeDeposit : Z := 1.
Definition TransactionTypeHosted : Z := 2.

(** Transaction status values (matches GateHub API). *)
Definition TransactionStatusPending : Z := 1.
Definition TransactionStatusCompleted : Z := 100.
Definition TransactionStatusFailed : Z := 3.

(** Deposit types. *)
Definition DepositTypeExternal : string := "external".
Definition DepositTypeHosted : string := "hosted".
Definition DepositTypeWithdrawal : string := "withdrawal".

(** Wallet types. *)
Definition WalletTypeStandard : Z := 1.

(** Network types. *)
Definition NetworkXRPLedger : Z := 30.

(** Card defaults, matching what the GateHub sandbox returns for a new card. *)
Definition DefaultCardProductCode : string := "PWSR_DEBP_2404".
Definition DefaultCustomerType : string := "Citizen".
Definition DefaultAccountType : string := "DEBIT".
Definition CardRelationPrimary : string := "PRIMARY".
Definition DefaultStatusActive : string := "ACTIVE".

(** Card transaction types. *)
Definition CardTxTypePurchase : Z := 0.
Definition CardTxTypeATMWithdrawal : Z := 1.
Definition CardTxTypeCardVerificationInquiry : Z := 6.
Definition CardTxTypeCashAdvance : Z := 17.
Definition CardTxTypeRefundCreditPayment : Z := 20.
Definition CardTxTypeBalanceInquiryOnATM : Z := 30.
Definition CardTxTypePINUnblock : Z := 91.
Definition CardTxTypePINChange : Z := 92.
Definition CardTxTypePreauthorization : Z := 101.
Definition CardTxTypePreauthorizationIncrement : Z := 102.
Definition CardTxTypePreauthorizationCompletion : Z := 103.
Definition CardTxTypeTransferToAccount : Z := 107.
Definition CardTxTypeTransferFromAccount : Z := 108.

(** Card transaction operations, describing which way money moves. *)
Definition CardTxOperationWithdrawal : Z := 0.
Definition CardTxOperationDeposit : Z := 1.
Definition CardTxOperationNone : Z := 2.

(** Card transaction statuses. *)
Definition CardTxStatusProcessing : string := "PROCESSING".
Definition CardTxStatusCompleted : string := "COMPLETED".
Definition CardTxStatusReversed : string := "REVERSED".
Definition CardTxStatusDeclined : string := "DECLINED".

(** Webhook event types. *)
Definition WebhookEventKYCAccepted : string := "id.verification.accepted".
Definition WebhookEventKYCRejected : string := "id.verification.rejected".
Definition WebhookEventKYCActionRequired : string := "id.verification.action_required".
Definition WebhookEventKYCResubmission : string := "id.verification.resubmission".
Definition WebhookEventDocumentNoticeExpired : string := "id.document_notice.expired".
Definition WebhookEventDocumentNoticeWarning : string := "id.document_notice.warning".
Definition WebhookEventDepositCompleted : string := "core.deposit.completed".
Definition WebhookEventWithdrawalCompleted : string := "core.withdrawal.completed".
Definition WebhookEventWithdrawalRejected : string := "more-bridge.withdrawal.rejected".
Definition WebhookEventCardCreated : string := "cards.card.created".
Definition WebhookEventCardTransactionAuthorization : string := "cards.transaction.authorization".
Definition WebhookEventCardTransaction : string := "cards.transaction.event".
Definition WebhookEventCard3DS : string := "cards.3ds.auth_3ds_confirmation".

(** Card status values (GateHub Cards). *)
Definition CardStatusActive : string := "Active".
Definition CardStatusBlocked : string := "Blocked".
Definition CardStatusTemporaryBlocked : string := "TemporaryBlocked".
Definition CardStatusReplaced : string := "Replaced".
Definition CardStatusSoftDelete : string := "SoftDelete".
Definition CardStatusAccountBlocked : string := "AccountBlocked".
Definition CardStatusInCreation : string := "InCreation".

(** Placeholder bank details attached to a mock withdrawal, so a consumer displaying one has
    something to show for where the money went. *)
Definition MockWithdrawalIBAN : string := "GB29NWBK60161331926819".
Definition MockWithdrawalLegalName : string := "Jane Smith".
Definition MockWithdrawalReference : string := "Mock Reference".

(** Pre-seeded test user IDs. *)
Definition TestUser1ID : string := "00000000-0000-0000-0000-000000000001".
Definition TestUser1Email : string := "testuser1@mockgatehub.local".
Definition TestUser2ID : string := "00000000-0000-0000-0000-000000000002".
Definition TestUser2Email : string := "testuser2@mockgatehub.local".
