(* ===== verification/Models.v ===== *)
(** * Data of the service

    The structs of [internal/models], field by field: [string], [bool] and
    [time.Time] as [string], [bool] and an instant in nanoseconds, [int] as [Z],
    [float64] as binary64, a pointer to a scalar as an [option], a slice as a
    list (a nil slice and an empty one are the same list).  [zero_T] is the zero
    value of [T]; a struct literal of the source is an update of it.
    [json_of_T] is the object [encoding/json] writes for [T]. *)
From S2P Require Import Prelude GoFloat GoStd.

Record CreateManagedUserRequest := mkCreateManagedUserRequest {
  CreateManagedUserRequest_Email : string }.
#[export] Instance eta_CreateManagedUserRequest : Eta CreateManagedUserRequest := fun r =>
  mkCreateManagedUserRequest (CreateManagedUserRequest_Email r).
Definition zero_CreateManagedUserRequest : CreateManagedUserRequest := mkCreateManagedUserRequest
    "".

Record CreateManagedUserResponse := mkCreateManagedUserResponse {
  CreateManagedUserResponse_ID : string;
  CreateManagedUserResponse_Email : string;
  CreateManagedUserResponse_Activated : bool;
  CreateManagedUserResponse_Managed : bool;
  CreateManagedUserResponse_Role : string;
  CreateManagedUserResponse_Features : list string;
  CreateManagedUserResponse_KYCState : string;
  CreateManagedUserResponse_RiskLevel : string;
  CreateManagedUserResponse_CreatedAt : string }.
#[export] Instance eta_CreateManagedUserResponse : Eta CreateManagedUserResponse := fun r =>
  mkCreateManagedUserResponse (CreateManagedUserResponse_ID r) (CreateManagedUserResponse_Email
    r) (CreateManagedUserResponse_Activated r) (CreateManagedUserResponse_Managed r)
    (CreateManagedUserResponse_Role r) (CreateManagedUserResponse_Features r)
    (CreateManagedUserResponse_KYCState r) (CreateManagedUserResponse_RiskLevel r)
    (CreateManagedUserResponse_CreatedAt r).
Definition zero_CreateManagedUserResponse : CreateManagedUserResponse :=
    mkCreateManagedUserResponse "" "" false false "" [] "" "" "".
Definition json_of_CreateManagedUserResponse (r : CreateManagedUserResponse) : json :=
  JObj ([("id", JStr (CreateManagedUserResponse_ID r));
     ("email", JStr (CreateManagedUserResponse_Email r));
     ("activated", JBool (CreateManagedUserResponse_Activated r));
     ("managed", JBool (CreateManagedUserResponse_Managed r));
     ("role", JStr (CreateManagedUserResponse_Role r));
     ("features", JStrs (CreateManagedUserResponse_Features r));
     ("kyc_state", JStr (CreateManagedUserResponse_KYCState r));
     ("risk_level", JStr (CreateManagedUserResponse_RiskLevel r));
     ("created_at", JStr (CreateManagedUserResponse_CreatedAt r))])%list.

Record User := mkUser {
  User_ID : string;
  User_Email : string;
  User_Activated : bool;
  User_Managed : bool;
  User_Role : string;
  User_Features : list string;
  User_KYCState : string;
  User_RiskLevel : string;
  User_IsProfileCreationDisabled : bool;
  User_CreatedAt : Z;
  User_FirstName : string;
  User_MiddleName : string;
  User_LastName : string;
  User_Gender : string;
  User_BirthYear : Z;
  User_BirthMonth : Z;
  User_BirthDay : Z;
  User_BirthCity : string;
  User_BirthCountryCode : string;
  User_Citizenship : string;
  User_AddressStreet1 : string;
  User_AddressStreet2 : string;
  User_AddressCity : string;
  User_AddressPostalCode : string;
  User_AddressSubdivision : string;
  User_AddressCountryCode : string;
  User_TaxResidency : string;
  User_ExpectedVolume : string }.
#[export] Instance eta_User : Eta User := fun r =>
  mkUser (User_ID r) (User_Email r) (User_Activated r) (User_Managed r) (User_Role r)
    (User_Features r) (User_KYCState r) (User_RiskLevel r) (User_IsProfileCreationDisabled r)
    (User_CreatedAt r) (User_FirstName r) (User_MiddleName r) (User_LastName r) (User_Gender r)
    (User_BirthYear r) (User_BirthMonth r) (User_BirthDay r) (User_BirthCity r)
    (User_BirthCountryCode r) (User_Citizenship r) (User_AddressStreet1 r) (User_AddressStreet2
    r) (User_AddressCity r) (User_AddressPostalCode r) (User_AddressSubdivision r)
    (User_AddressCountryCode r) (User_TaxResidency r) (User_ExpectedVolume r).
Definition zero_User : User := mkUser "" "" false false "" [] "" "" false time_zero "" "" "" "" 0
    0 0 "" "" "" "" "" "" "" "" "" "" "".
Definition json_of_User (r : User) : json :=
  JObj ([("id", JStr (User_ID r));
     ("email", JStr (User_Email r));
     ("activated", JBool (User_Activated r));
     ("managed", JBool (User_Managed r));
     ("role", JStr (User_Role r));
     ("features", JStrs (User_Features r));
     ("kyc_state", JStr (User_KYCState r));
     ("risk_level", JStr (User_RiskLevel r));
     ("is_profile_creation_disabled", JBool (User_IsProfileCreationDisabled r));
     ("created_at", JTime (User_CreatedAt r));
     ("first_name", JStr (User_FirstName r));
     ("middle_name", JStr (User_MiddleName r));
     ("last_name", JStr (User_LastName r));
     ("gender", JStr (User_Gender r));
     ("birth_year", JInt (User_BirthYear r));
     ("birth_month", JInt (User_BirthMonth r));
     ("birth_day", JInt (User_BirthDay r));
     ("birth_city", JStr (User_BirthCity r));
     ("birth_country_code", JStr (User_BirthCountryCode r));
     ("citizenship", JStr (User_Citizenship r));
     ("address_street1", JStr (User_AddressStreet1 r));
     ("address_street2", JStr (User_AddressStreet2 r));
     ("address_city", JStr (User_AddressCity r));
     ("address_postal_code", JStr (User_AddressPostalCode r));
     ("address_subdivision", JStr (User_AddressSubdivision r));
     ("address_country_code", JStr (User_AddressCountryCode r));
     ("tax_residency", JStr (User_TaxResidency r));
     ("expected_volume", JStr (User_ExpectedVolume r))])%list.

Record GetManagedUserResponse := mkGetManagedUserResponse {
  GetManagedUserResponse_User : User }.
#[export] Instance eta_GetManagedUserResponse : Eta GetManagedUserResponse := fun r =>
  mkGetManagedUserResponse (GetManagedUserResponse_User r).
Definition zero_GetManagedUserResponse : GetManagedUserResponse := mkGetManagedUserResponse
    zero_User.
Definition json_of_GetManagedUserResponse (r : GetManagedUserResponse) : json :=
  JObj ([("user", json_of_User (GetManagedUserResponse_User r))])%list.

Record UpdateEmailRequest := mkUpdateEmailRequest {
  UpdateEmailRequest_Email : string;
  UpdateEmailRequest_NewEmail : string }.
#[export] Instance eta_UpdateEmailRequest : Eta UpdateEmailRequest := fun r =>
  mkUpdateEmailRequest (UpdateEmailRequest_Email r) (UpdateEmailRequest_NewEmail r).
Definition zero_UpdateEmailRequest : UpdateEmailRequest := mkUpdateEmailRequest "" "".

Record StartKYCResponse := mkStartKYCResponse {
  StartKYCResponse_IframeURL : string;
  StartKYCResponse_Token : string }.
#[export] Instance eta_StartKYCResponse : Eta StartKYCResponse := fun r =>
  mkStartKYCResponse (StartKYCResponse_IframeURL r) (StartKYCResponse_Token r).
Definition zero_StartKYCResponse : StartKYCResponse := mkStartKYCResponse "" "".
Definition json_of_StartKYCResponse (r : StartKYCResponse) : json :=
  JObj ([("iframe_url", JStr (StartKYCResponse_IframeURL r));
     ("token", JStr (StartKYCResponse_Token r))])%list.

Record UpdateKYCStateRequest := mkUpdateKYCStateRequest {
  UpdateKYCStateRequest_State : string;
  UpdateKYCStateRequest_RiskLevel : string }.
#[export] Instance eta_UpdateKYCStateRequest : Eta UpdateKYCStateRequest := fun r =>
  mkUpdateKYCStateRequest (UpdateKYCStateRequest_State r) (UpdateKYCStateRequest_RiskLevel r).
Definition zero_UpdateKYCStateRequest : UpdateKYCStateRequest := mkUpdateKYCStateRequest "" "".

Record CreateWalletRequest := mkCreateWalletRequest {
  CreateWalletRequest_UserID : string;
  CreateWalletRequest_Name : string;
  CreateWalletRequest_Type : Z;
  CreateWalletRequest_Network : Z }.
#[export] Instance eta_CreateWalletRequest : Eta CreateWalletRequest := fun r =>
  mkCreateWalletRequest (CreateWalletRequest_UserID r) (CreateWalletRequest_Name r)
    (CreateWalletRequest_Type r) (CreateWalletRequest_Network r).
Definition zero_CreateWalletRequest : CreateWalletRequest := mkCreateWalletRequest "" "" 0 0.

Record BalanceItem := mkBalanceItem {
  BalanceItem_Currency : string;
  BalanceItem_VaultUUID : string;
  BalanceItem_Balance : f64 }.
#[export] Instance eta_BalanceItem : Eta BalanceItem := fun r =>
  mkBalanceItem (BalanceItem_Currency r) (BalanceItem_VaultUUID r) (BalanceItem_Balance r).
Definition zero_BalanceItem : BalanceItem := mkBalanceItem "" "" fzero.
Definition json_of_BalanceItem (r : BalanceItem) : json :=
  JObj ([("currency", JStr (BalanceItem_Currency r));
     ("vault_uuid", JStr (BalanceItem_VaultUUID r));
     ("balance", JFloat (BalanceItem_Balance r))])%list.

Record GetBalanceResponse := mkGetBalanceResponse {
  GetBalanceResponse_Balances : list BalanceItem }.
#[export] Instance eta_GetBalanceResponse : Eta GetBalanceResponse := fun r =>
  mkGetBalanceResponse (GetBalanceResponse_Balances r).
Definition zero_GetBalanceResponse : GetBalanceResponse := mkGetBalanceResponse [].
Definition json_of_GetBalanceResponse (r : GetBalanceResponse) : json :=
  JObj ([("balances", JArr (map json_of_BalanceItem (GetBalanceResponse_Balances r)))])%list.

Record CreateTransactionRequest := mkCreateTransactionRequest {
  CreateTransactionRequest_UserID : string;
  CreateTransactionRequest_UID : string;
  CreateTransactionRequest_Amount : f64;
  CreateTransactionRequest_Currency : string;
  CreateTransactionRequest_VaultUUID : string;
  CreateTransactionRequest_SendingAddress : string;
  CreateTransactionRequest_ReceivingAddress : string;
  CreateTransactionRequest_Type : Z;
  CreateTransactionRequest_DepositType : string }.
#[export] Instance eta_CreateTransactionRequest : Eta CreateTransactionRequest := fun r =>
  mkCreateTransactionRequest (CreateTransactionRequest_UserID r) (CreateTransactionRequest_UID r)
    (CreateTransactionRequest_Amount r) (CreateTransactionRequest_Currency r)
    (CreateTransactionRequest_VaultUUID r) (CreateTransactionRequest_SendingAddress r)
    (CreateTransactionRequest_ReceivingAddress r) (CreateTransactionRequest_Type r)
    (CreateTransactionRequest_DepositType r).
Definition zero_CreateTransactionRequest : CreateTransactionRequest := mkCreateTransactionRequest
    "" "" fzero "" "" "" "" 0 "".

Record RateItem := mkRateItem {
  RateItem_Currency : string;
  RateItem_Rate : f64 }.
#[export] Instance eta_RateItem : Eta RateItem := fun r =>
  mkRateItem (RateItem_Currency r) (RateItem_Rate r).
Definition zero_RateItem : RateItem := mkRateItem "" fzero.
Definition json_of_RateItem (r : RateItem) : json :=
  JObj ([("currency", JStr (RateItem_Currency r));
     ("rate", JFloat (RateItem_Rate r))])%list.

Record GetRatesResponse := mkGetRatesResponse {
  GetRatesResponse_Rates : list RateItem }.
#[export] Instance eta_GetRatesResponse : Eta GetRatesResponse := fun r =>
  mkGetRatesResponse (GetRatesResponse_Rates r).
Definition zero_GetRatesResponse : GetRatesResponse := mkGetRatesResponse [].
Definition json_of_GetRatesResponse (r : GetRatesResponse) : json :=
  JObj ([("rates", JArr (map json_of_RateItem (GetRatesResponse_Rates r)))])%list.

Record VaultItem := mkVaultItem {
  VaultItem_Currency : string;
  VaultItem_UUID : string }.
#[export] Instance eta_VaultItem : Eta VaultItem := fun r =>
  mkVaultItem (VaultItem_Currency r) (VaultItem_UUID r).
Definition zero_VaultItem : VaultItem := mkVaultItem "" "".
Definition json_of_VaultItem (r : VaultItem) : json :=
  JObj ([("currency", JStr (VaultItem_Currency r));
     ("uuid", JStr (VaultItem_UUID r))])%list.

Record GetVaultsResponse := mkGetVaultsResponse {
  GetVaultsResponse_Vaults : list VaultItem }.
#[export] Instance eta_GetVaultsResponse : Eta GetVaultsResponse := fun r =>
  mkGetVaultsResponse (GetVaultsResponse_Vaults r).
Definition zero_GetVaultsResponse : GetVaultsResponse := mkGetVaultsResponse [].
Definition json_of_GetVaultsResponse (r : GetVaultsResponse) : json :=
  JObj ([("vaults", JArr (map json_of_VaultItem (GetVaultsResponse_Vaults r)))])%list.

Record UpdateOrganizationConfigurationRequest := mkUpdateOrganizationConfigurationRequest {
  UpdateOrganizationConfigurationRequest_APIBaseURL : string;
  UpdateOrganizationConfigurationRequest_TwoFAType : string }.
#[export] Instance eta_UpdateOrganizationConfigurationRequest : Eta
    UpdateOrganizationConfigurationRequest := fun r =>
  mkUpdateOrganizationConfigurationRequest (UpdateOrganizationConfigurationRequest_APIBaseURL r)
    (UpdateOrganizationConfigurationRequest_TwoFAType r).
Definition zero_UpdateOrganizationConfigurationRequest : UpdateOrganizationConfigurationRequest
    := mkUpdateOrganizationConfigurationRequest "" "".

Record UpdateOrganizationConfigurationResponse := mkUpdateOrganizationConfigurationResponse {
  UpdateOrganizationConfigurationResponse_ID : string;
  UpdateOrganizationConfigurationResponse_APIBaseURL : string;
  UpdateOrganizationConfigurationResponse_TwoFAType : string;
  UpdateOrganizationConfigurationResponse_CreatedAt : string;
  UpdateOrganizationConfigurationResponse_UpdatedAt : string }.
#[export] Instance eta_UpdateOrganizationConfigurationResponse : Eta
    UpdateOrganizationConfigurationResponse := fun r =>
  mkUpdateOrganizationConfigurationResponse (UpdateOrganizationConfigurationResponse_ID r)
    (UpdateOrganizationConfigurationResponse_APIBaseURL r)
    (UpdateOrganizationConfigurationResponse_TwoFAType r)
    (UpdateOrganizationConfigurationResponse_CreatedAt r)
    (UpdateOrganizationConfigurationResponse_UpdatedAt r).
Definition zero_UpdateOrganizationConfigurationResponse : UpdateOrganizationConfigurationResponse
    := mkUpdateOrganizationConfigurationResponse "" "" "" "" "".
Definition json_of_UpdateOrganizationConfigurationResponse (r :
    UpdateOrganizationConfigurationResponse) : json :=
  JObj ([("id", JStr (UpdateOrganizationConfigurationResponse_ID r));
     ("apiBaseUrl", JStr (UpdateOrganizationConfigurationResponse_APIBaseURL r));
     ("type2fa", JStr (UpdateOrganizationConfigurationResponse_TwoFAType r));
     ("createdAt", JStr (UpdateOrganizationConfigurationResponse_CreatedAt r));
     ("updatedAt", JStr (UpdateOrganizationConfigurationResponse_UpdatedAt r))])%list.

Record ErrorResponse := mkErrorResponse {
  ErrorResponse_Error : string;
  ErrorResponse_Message : string }.
#[export] Instance eta_ErrorResponse : Eta ErrorResponse := fun r =>
  mkErrorResponse (ErrorResponse_Error r) (ErrorResponse_Message r).
Definition zero_ErrorResponse : ErrorResponse := mkErrorResponse "" "".
Definition json_of_ErrorResponse (r : ErrorResponse) : json :=
  JObj ([("error", JStr (ErrorResponse_Error r))]
    ++ (if ErrorResponse_Message r =?s "" then [] else [("message", JStr (ErrorResponse_Message
    r))]))%list.

Record TokenResponse := mkTokenResponse {
  TokenResponse_AccessToken : string;
  TokenResponse_Token : string;
  TokenResponse_TokenType : string;
  TokenResponse_ExpiresIn : Z }.
#[export] Instance eta_TokenResponse : Eta TokenResponse := fun r =>
  mkTokenResponse (TokenResponse_AccessToken r) (TokenResponse_Token r) (TokenResponse_TokenType
    r) (TokenResponse_ExpiresIn r).
Definition zero_TokenResponse : TokenResponse := mkTokenResponse "" "" "" 0.
Definition json_of_TokenResponse (r : TokenResponse) : json :=
  JObj ([("access_token", JStr (TokenResponse_AccessToken r));
     ("token", JStr (TokenResponse_Token r));
     ("token_type", JStr (TokenResponse_TokenType r));
     ("expires_in", JInt (TokenResponse_ExpiresIn r))])%list.

Record Pagination := mkPagination {
  Pagination_PageNumber : Z;
  Pagination_PageSize : Z;
  Pagination_TotalPages : Z }.
#[export] Instance eta_Pagination : Eta Pagination := fun r =>
  mkPagination (Pagination_PageNumber r) (Pagination_PageSize r) (Pagination_TotalPages r).
Definition zero_Pagination : Pagination := mkPagination 0 0 0.
Definition json_of_Pagination (r : Pagination) : json :=
  JObj ([("pageNumber", JInt (Pagination_PageNumber r));
     ("pageSize", JInt (Pagination_PageSize r));
     ("totalPages", JInt (Pagination_TotalPages r))])%list.

Record Card := mkCard {
  Card_ID : string;
  Card_SourceID : string;
  Card_AccountID : string;
  Card_AccountSourceID : string;
  Card_CustomerID : string;
  Card_CustomerSourceID : string;
  Card_NameOnCard : string;
  Card_ProductCode : string;
  Card_PanToken : string;
  Card_MaskedPan : string;
  Card_Status : string;
  Card_StatusReasonCode : option string;
  Card_LockLevel : option string;
  Card_ExpiryDate : string;
  Card_RelationType : string;
  Card_MembershipFeeEffectiveDate : option string;
  Card_IsFirstTimeLock : bool;
  Card_PlasticCreated : bool;
  Card_OrderPlasticOnSync : bool;
  Card_CreatedAt : Z }.
#[export] Instance eta_Card : Eta Card := fun r =>
  mkCard (Card_ID r) (Card_SourceID r) (Card_AccountID r) (Card_AccountSourceID r)
    (Card_CustomerID r) (Card_CustomerSourceID r) (Card_NameOnCard r) (Card_ProductCode r)
    (Card_PanToken r) (Card_MaskedPan r) (Card_Status r) (Card_StatusReasonCode r)
    (Card_LockLevel r) (Card_ExpiryDate r) (Card_RelationType r) (Card_MembershipFeeEffectiveDate
    r) (Card_IsFirstTimeLock r) (Card_PlasticCreated r) (Card_OrderPlasticOnSync r)
    (Card_CreatedAt r).
Definition zero_Card : Card := mkCard "" "" "" "" "" "" "" "" "" "" "" None None "" "" None false
    false false time_zero.
Definition json_of_Card (r : Card) : json :=
  JObj ([("id", JStr (Card_ID r));
     ("sourceId", JStr (Card_SourceID r));
     ("accountId", JStr (Card_AccountID r));
     ("accountSourceId", JStr (Card_AccountSourceID r));
     ("customerId", JStr (Card_CustomerID r));
     ("customerSourceId", JStr (Card_CustomerSourceID r));
     ("nameOnCard", JStr (Card_NameOnCard r));
     ("productCode", JStr (Card_ProductCode r));
     ("panToken", JStr (Card_PanToken r));
     ("maskedPan", JStr (Card_MaskedPan r));
     ("status", JStr (Card_Status r));
     ("statusReasonCode", JOptStr (Card_StatusReasonCode r));
     ("lockLevel", JOptStr (Card_LockLevel r));
     ("expiryDate", JStr (Card_ExpiryDate r));
     ("relationType", JStr (Card_RelationType r));
     ("membershipFeeEffectiveDate", JOptStr (Card_MembershipFeeEffectiveDate r));
     ("isFirstTimeLock", JBool (Card_IsFirstTimeLock r));
     ("plasticCreated", JBool (Card_PlasticCreated r));
     ("OrderPlasticOnSync", JBool (Card_OrderPlasticOnSync r));
     ("createdAt", JTime (Card_CreatedAt r))])%list.

Record ListCardsResponse := mkListCardsResponse {
  ListCardsResponse_Data : list Card;
  ListCardsResponse_Pagination : Pagination }.
#[export] Instance eta_ListCardsResponse : Eta ListCardsResponse := fun r =>
  mkListCardsResponse (ListCardsResponse_Data r) (ListCardsResponse_Pagination r).
Definition zero_ListCardsResponse : ListCardsResponse := mkListCardsResponse [] zero_Pagination.
Definition json_of_ListCardsResponse (r : ListCardsResponse) : json :=
  JObj ([("data", JArr (map json_of_Card (ListCardsResponse_Data r)));
     ("pagination", json_of_Pagination (ListCardsResponse_Pagination r))])%list.

Record CustomerDeliveryAddress := mkCustomerDeliveryAddress {
  CustomerDeliveryAddress_ID : string;
  CustomerDeliveryAddress_SourceID : string;
  CustomerDeliveryAddress_CustomerID : string;
  CustomerDeliveryAddress_CustomerSourceID : string;
  CustomerDeliveryAddress_Type : string;
  CustomerDeliveryAddress_Line1 : string;
  CustomerDeliveryAddress_Line2 : option string;
  CustomerDeliveryAddress_Line3 : option string;
  CustomerDeliveryAddress_City : string;
  CustomerDeliveryAddress_PostOffice : option string;
  CustomerDeliveryAddress_ZipCode : string;
  CustomerDeliveryAddress_CountryCode : string;
  CustomerDeliveryAddress_Status : string }.
#[export] Instance eta_CustomerDeliveryAddress : Eta CustomerDeliveryAddress := fun r =>
  mkCustomerDeliveryAddress (CustomerDeliveryAddress_ID r) (CustomerDeliveryAddress_SourceID r)
    (CustomerDeliveryAddress_CustomerID r) (CustomerDeliveryAddress_CustomerSourceID r)
    (CustomerDeliveryAddress_Type r) (CustomerDeliveryAddress_Line1 r)
    (CustomerDeliveryAddress_Line2 r) (CustomerDeliveryAddress_Line3 r)
    (CustomerDeliveryAddress_City r) (CustomerDeliveryAddress_PostOffice r)
    (CustomerDeliveryAddress_ZipCode r) (CustomerDeliveryAddress_CountryCode r)
    (CustomerDeliveryAddress_Status r).
Definition zero_CustomerDeliveryAddress : CustomerDeliveryAddress := mkCustomerDeliveryAddress ""
    "" "" "" "" "" None None "" None "" "" "".
Definition json_of_CustomerDeliveryAddress (r : CustomerDeliveryAddress) : json :=
  JObj ([("id", JStr (CustomerDeliveryAddress_ID r));
     ("sourceId", JStr (CustomerDeliveryAddress_SourceID r));
     ("customerId", JStr (CustomerDeliveryAddress_CustomerID r));
     ("customerSourceId", JStr (CustomerDeliveryAddress_CustomerSourceID r));
     ("type", JStr (CustomerDeliveryAddress_Type r));
     ("line1", JStr (CustomerDeliveryAddress_Line1 r));
     ("line2", JOptStr (CustomerDeliveryAddress_Line2 r));
     ("line3", JOptStr (CustomerDeliveryAddress_Line3 r));
     ("city", JStr (CustomerDeliveryAddress_City r));
     ("postOffice", JOptStr (CustomerDeliveryAddress_PostOffice r));
     ("zipCode", JStr (CustomerDeliveryAddress_ZipCode r));
     ("countryCode", JStr (CustomerDeliveryAddress_CountryCode r));
     ("status", JStr (CustomerDeliveryAddress_Status r))])%list.

Record Account := mkAccount {
  Account_ID : option string;
  Account_SourceID : string;
  Account_CustomerID : option string;
  Account_CustomerSourceID : string;
  Account_ProductCode : string;
  Account_Currency : string;
  Account_AccountNumber : string;
  Account_Type : string;
  Account_Status : string;
  Account_StatusReasonCode : string;
  Account_Cards : list Card;
  Account_CreatedAt : Z }.
#[export] Instance eta_Account : Eta Account := fun r =>
  mkAccount (Account_ID r) (Account_SourceID r) (Account_CustomerID r) (Account_CustomerSourceID
    r) (Account_ProductCode r) (Account_Currency r) (Account_AccountNumber r) (Account_Type r)
    (Account_Status r) (Account_StatusReasonCode r) (Account_Cards r) (Account_CreatedAt r).
Definition zero_Account : Account := mkAccount None "" None "" "" "" "" "" "" "" [] time_zero.
Definition json_of_Account (r : Account) : json :=
  JObj ([("id", JOptStr (Account_ID r));
     ("sourceId", JStr (Account_SourceID r));
     ("customerId", JOptStr (Account_CustomerID r));
     ("customerSourceId", JStr (Account_CustomerSourceID r));
     ("productCode", JStr (Account_ProductCode r));
     ("currency", JStr (Account_Currency r));
     ("accountNumber", JStr (Account_AccountNumber r));
     ("type", JStr (Account_Type r));
     ("status", JStr (Account_Status r));
     ("statusReasonCode", JStr (Account_StatusReasonCode r));
     ("cards", JArr (map json_of_Card (Account_Cards r)));
     ("createdAt", JTime (Account_CreatedAt r))])%list.

Record Customer := mkCustomer {
  Customer_ID : option string;
  Customer_SourceID : string;
  Customer_Type : string;
  Customer_Code : string;
  Customer_TaxNumber : string;
  Customer_KYCStatus : string;
  Customer_Addresses : list CustomerDeliveryAddress;
  Customer_Accounts : list Account;
  Customer_CreatedAt : Z }.
#[export] Instance eta_Customer : Eta Customer := fun r =>
  mkCustomer (Customer_ID r) (Customer_SourceID r) (Customer_Type r) (Customer_Code r)
    (Customer_TaxNumber r) (Customer_KYCStatus r) (Customer_Addresses r) (Customer_Accounts r)
    (Customer_CreatedAt r).
Definition zero_Customer : Customer := mkCustomer None "" "" "" "" "" [] [] time_zero.
Definition json_of_Customer (r : Customer) : json :=
  JObj ([("id", JOptStr (Customer_ID r));
     ("sourceId", JStr (Customer_SourceID r));
     ("type", JStr (Customer_Type r));
     ("code", JStr (Customer_Code r));
     ("taxNumber", JStr (Customer_TaxNumber r));
     ("kycStatus", JStr (Customer_KYCStatus r));
     ("addresses", JArr (map json_of_CustomerDeliveryAddress (Customer_Addresses r)));
     ("accounts", JArr (map json_of_Account (Customer_Accounts r)));
     ("createdAt", JTime (Customer_CreatedAt r))])%list.

Record CustomerResponse := mkCustomerResponse {
  CustomerResponse_WalletAddress : string;
  CustomerResponse_Customer : Customer }.
#[export] Instance eta_CustomerResponse : Eta CustomerResponse := fun r =>
  mkCustomerResponse (CustomerResponse_WalletAddress r) (CustomerResponse_Customer r).
Definition zero_CustomerResponse : CustomerResponse := mkCustomerResponse "" zero_Customer.
Definition json_of_CustomerResponse (r : CustomerResponse) : json :=
  JObj ([("walletAddress", JStr (CustomerResponse_WalletAddress r));
     ("customers", json_of_Customer (CustomerResponse_Customer r))])%list.

Record NewCardArgs := mkNewCardArgs {
  NewCardArgs_ProductCode : string }.
#[export] Instance eta_NewCardArgs : Eta NewCardArgs := fun r =>
  mkNewCardArgs (NewCardArgs_ProductCode r).
Definition zero_NewCardArgs : NewCardArgs := mkNewCardArgs "".

Record CardAccount := mkCardAccount {
  CardAccount_ProductCode : string;
  CardAccount_Currency : string;
  CardAccount_Card : NewCardArgs }.
#[export] Instance eta_CardAccount : Eta CardAccount := fun r =>
  mkCardAccount (CardAccount_ProductCode r) (CardAccount_Currency r) (CardAccount_Card r).
Definition zero_CardAccount : CardAccount := mkCardAccount "" "" zero_NewCardArgs.

Record CreateCustomerDeliveryAddressArgs := mkCreateCustomerDeliveryAddressArgs {
  CreateCustomerDeliveryAddressArgs_Type : string;
  CreateCustomerDeliveryAddressArgs_CountryCode : string;
  CreateCustomerDeliveryAddressArgs_Line1 : string;
  CreateCustomerDeliveryAddressArgs_Line2 : option string;
  CreateCustomerDeliveryAddressArgs_Line3 : option string;
  CreateCustomerDeliveryAddressArgs_City : string;
  CreateCustomerDeliveryAddressArgs_PostOffice : option string;
  CreateCustomerDeliveryAddressArgs_ZipCode : string;
  CreateCustomerDeliveryAddressArgs_Reason : string }.
#[export] Instance eta_CreateCustomerDeliveryAddressArgs : Eta CreateCustomerDeliveryAddressArgs
    := fun r =>
  mkCreateCustomerDeliveryAddressArgs (CreateCustomerDeliveryAddressArgs_Type r)
    (CreateCustomerDeliveryAddressArgs_CountryCode r) (CreateCustomerDeliveryAddressArgs_Line1 r)
    (CreateCustomerDeliveryAddressArgs_Line2 r) (CreateCustomerDeliveryAddressArgs_Line3 r)
    (CreateCustomerDeliveryAddressArgs_City r) (CreateCustomerDeliveryAddressArgs_PostOffice r)
    (CreateCustomerDeliveryAddressArgs_ZipCode r) (CreateCustomerDeliveryAddressArgs_Reason r).
Definition zero_CreateCustomerDeliveryAddressArgs : CreateCustomerDeliveryAddressArgs :=
    mkCreateCustomerDeliveryAddressArgs "" "" "" None None "" None "" "".

Record CreateCustomerAndCardArgs := mkCreateCustomerAndCardArgs {
  CreateCustomerAndCardArgs_WalletAddress : string;
  CreateCustomerAndCardArgs_Account : CardAccount;
  CreateCustomerAndCardArgs_Delivery : option CreateCustomerDeliveryAddressArgs;
  CreateCustomerAndCardArgs_NameOnCard : string }.
#[export] Instance eta_CreateCustomerAndCardArgs : Eta CreateCustomerAndCardArgs := fun r =>
  mkCreateCustomerAndCardArgs (CreateCustomerAndCardArgs_WalletAddress r)
    (CreateCustomerAndCardArgs_Account r) (CreateCustomerAndCardArgs_Delivery r)
    (CreateCustomerAndCardArgs_NameOnCard r).
Definition zero_CreateCustomerAndCardArgs : CreateCustomerAndCardArgs :=
    mkCreateCustomerAndCardArgs "" zero_CardAccount None "".

Record OrderCardArgs := mkOrderCardArgs {
  OrderCardArgs_Currency : string;
  OrderCardArgs_ProductCode : string;
  OrderCardArgs_NameOnCard : string;
  OrderCardArgs_DeliveryAddressID : option string;
  OrderCardArgs_WalletAddress : string;
  OrderCardArgs_Card : NewCardArgs }.
#[export] Instance eta_OrderCardArgs : Eta OrderCardArgs := fun r =>
  mkOrderCardArgs (OrderCardArgs_Currency r) (OrderCardArgs_ProductCode r)
    (OrderCardArgs_NameOnCard r) (OrderCardArgs_DeliveryAddressID r) (OrderCardArgs_WalletAddress
    r) (OrderCardArgs_Card r).
Definition zero_OrderCardArgs : OrderCardArgs := mkOrderCardArgs "" "" "" None "" zero_NewCardArgs.

Record FreezeCardArgs := mkFreezeCardArgs {
  FreezeCardArgs_ReasonCode : string;
  FreezeCardArgs_Note : option string }.
#[export] Instance eta_FreezeCardArgs : Eta FreezeCardArgs := fun r =>
  mkFreezeCardArgs (FreezeCardArgs_ReasonCode r) (FreezeCardArgs_Note r).
Definition zero_FreezeCardArgs : FreezeCardArgs := mkFreezeCardArgs "" None.

Record UnfreezeCardArgs := mkUnfreezeCardArgs {
  UnfreezeCardArgs_Note : option string }.
#[export] Instance eta_UnfreezeCardArgs : Eta UnfreezeCardArgs := fun r =>
  mkUnfreezeCardArgs (UnfreezeCardArgs_Note r).
Definition zero_UnfreezeCardArgs : UnfreezeCardArgs := mkUnfreezeCardArgs None.

Record CloseCardArgs := mkCloseCardArgs {
  CloseCardArgs_ReasonCode : string }.
#[export] Instance eta_CloseCardArgs : Eta CloseCardArgs := fun r =>
  mkCloseCardArgs (CloseCardArgs_ReasonCode r).
Definition zero_CloseCardArgs : CloseCardArgs := mkCloseCardArgs "".

Record GetCardTokenArgs := mkGetCardTokenArgs {
  GetCardTokenArgs_CardID : string;
  GetCardTokenArgs_PublicKey : option string }.
#[export] Instance eta_GetCardTokenArgs : Eta GetCardTokenArgs := fun r =>
  mkGetCardTokenArgs (GetCardTokenArgs_CardID r) (GetCardTokenArgs_PublicKey r).
Definition zero_GetCardTokenArgs : GetCardTokenArgs := mkGetCardTokenArgs "" None.

Record ChangePinArgs := mkChangePinArgs {
  ChangePinArgs_Cypher : string }.
#[export] Instance eta_ChangePinArgs : Eta ChangePinArgs := fun r =>
  mkChangePinArgs (ChangePinArgs_Cypher r).
Definition zero_ChangePinArgs : ChangePinArgs := mkChangePinArgs "".

Record CardLimit := mkCardLimit {
  CardLimit_Type : string;
  CardLimit_Limit : f64;
  CardLimit_Currency : string;
  CardLimit_IsDisabled : bool }.
#[export] Instance eta_CardLimit : Eta CardLimit := fun r =>
  mkCardLimit (CardLimit_Type r) (CardLimit_Limit r) (CardLimit_Currency r) (CardLimit_IsDisabled
    r).
Definition zero_CardLimit : CardLimit := mkCardLimit "" fzero "" false.
Definition json_of_CardLimit (r : CardLimit) : json :=
  JObj ([("type", JStr (CardLimit_Type r));
     ("limit", JFloat (CardLimit_Limit r));
     ("currency", JStr (CardLimit_Currency r));
     ("isDisabled", JBool (CardLimit_IsDisabled r))])%list.

Record CardTokenLink := mkCardTokenLink {
  CardTokenLink_Href : string;
  CardTokenLink_Rel : string;
  CardTokenLink_Method : string }.
#[export] Instance eta_CardTokenLink : Eta CardTokenLink := fun r =>
  mkCardTokenLink (CardTokenLink_Href r) (CardTokenLink_Rel r) (CardTokenLink_Method r).
Definition zero_CardTokenLink : CardTokenLink := mkCardTokenLink "" "" "".
Definition json_of_CardTokenLink (r : CardTokenLink) : json :=
  JObj ([("href", JStr (CardTokenLink_Href r));
     ("rel", JStr (CardTokenLink_Rel r));
     ("method", JStr (CardTokenLink_Method r))])%list.

Record CardTokenResponse := mkCardTokenResponse {
  CardTokenResponse_Token : string;
  CardTokenResponse_Links : list CardTokenLink }.
#[export] Instance eta_CardTokenResponse : Eta CardTokenResponse := fun r =>
  mkCardTokenResponse (CardTokenResponse_Token r) (CardTokenResponse_Links r).
Definition zero_CardTokenResponse : CardTokenResponse := mkCardTokenResponse "" [].
Definition json_of_CardTokenResponse (r : CardTokenResponse) : json :=
  JObj ([("token", JStr (CardTokenResponse_Token r));
     ("links", JArr (map json_of_CardTokenLink (CardTokenResponse_Links r)))])%list.

Record CardTransactionsPagination := mkCardTransactionsPagination {
  CardTransactionsPagination_PageNumber : Z;
  CardTransactionsPagination_PageSize : Z;
  CardTransactionsPagination_TotalPages : Z;
  CardTransactionsPagination_TotalRecords : Z }.
#[export] Instance eta_CardTransactionsPagination : Eta CardTransactionsPagination := fun r =>
  mkCardTransactionsPagination (CardTransactionsPagination_PageNumber r)
    (CardTransactionsPagination_PageSize r) (CardTransactionsPagination_TotalPages r)
    (CardTransactionsPagination_TotalRecords r).
Definition zero_CardTransactionsPagination : CardTransactionsPagination :=
    mkCardTransactionsPagination 0 0 0 0.
Definition json_of_CardTransactionsPagination (r : CardTransactionsPagination) : json :=
  JObj ([("pageNumber", JInt (CardTransactionsPagination_PageNumber r));
     ("pageSize", JInt (CardTransactionsPagination_PageSize r));
     ("totalPages", JInt (CardTransactionsPagination_TotalPages r));
     ("totalRecords", JInt (CardTransactionsPagination_TotalRecords r))])%list.

Record MastercardConversion := mkMastercardConversion {
  MastercardConversion_ConvRate : option string;
  MastercardConversion_RefConRate : option string;
  MastercardConversion_RefConfRateDiff : option string }.
#[export] Instance eta_MastercardConversion : Eta MastercardConversion := fun r =>
  mkMastercardConversion (MastercardConversion_ConvRate r) (MastercardConversion_RefConRate r)
    (MastercardConversion_RefConfRateDiff r).
Definition zero_MastercardConversion : MastercardConversion := mkMastercardConversion None None
    None.
Definition json_of_MastercardConversion (r : MastercardConversion) : json :=
  JObj ([("convRate", JOptStr (MastercardConversion_ConvRate r));
     ("refConRate", JOptStr (MastercardConversion_RefConRate r));
     ("refConfRateDiff", JOptStr (MastercardConversion_RefConfRateDiff r))])%list.

Record CardTransaction := mkCardTransaction {
  CardTransaction_ID : option Z;
  CardTransaction_VaultID : option Z;
  CardTransaction_CardID : option Z;
  CardTransaction_TransactionID : string;
  CardTransaction_RefTransactionID : option string;
  CardTransaction_ResponseCode : option string;
  CardTransaction_GHResponseCode : string;
  CardTransaction_GHResponseDescription : string;
  CardTransaction_TransactionAmount : option string;
  CardTransaction_TransactionCurrency : option string;
  CardTransaction_BillingAmount : option string;
  CardTransaction_BillingCurrency : option string;
  CardTransaction_IsTrxAmountConverted : bool;
  CardTransaction_TerminalID : string;
  CardTransaction_CardScheme : Z;
  CardTransaction_Type : Z;
  CardTransaction_Source : option string;
  CardTransaction_EntryMode : option Z;
  CardTransaction_AuthorizationCode : option string;
  CardTransaction_SplitIntoMultiple : option bool;
  CardTransaction_Authentication : option Z;
  CardTransaction_AuthenticationProtocol : option Z;
  CardTransaction_Wallet : option Z;
  CardTransaction_TransactionDateTime : option string;
  CardTransaction_ProcessDateTime : option string;
  CardTransaction_CreatedAt : string;
  CardTransaction_TxStatus : option string;
  CardTransaction_Operation : Z;
  CardTransaction_Mcc : option string;
  CardTransaction_MerchantStreet : option string;
  CardTransaction_MerchantCity : option string;
  CardTransaction_MerchantZip : option string;
  CardTransaction_MerchantCountry : option string;
  CardTransaction_MerchantName : option string;
  CardTransaction_MerchantID : option string;
  CardTransaction_TransactionClassification : option string;
  CardTransaction_SpendExchangeRate : option string;
  CardTransaction_SpendCurrency : option string;
  CardTransaction_MastercardConversion : option MastercardConversion }.
#[export] Instance eta_CardTransaction : Eta CardTransaction := fun r =>
  mkCardTransaction (CardTransaction_ID r) (CardTransaction_VaultID r) (CardTransaction_CardID r)
    (CardTransaction_TransactionID r) (CardTransaction_RefTransactionID r)
    (CardTransaction_ResponseCode r) (CardTransaction_GHResponseCode r)
    (CardTransaction_GHResponseDescription r) (CardTransaction_TransactionAmount r)
    (CardTransaction_TransactionCurrency r) (CardTransaction_BillingAmount r)
    (CardTransaction_BillingCurrency r) (CardTransaction_IsTrxAmountConverted r)
    (CardTransaction_TerminalID r) (CardTransaction_CardScheme r) (CardTransaction_Type r)
    (CardTransaction_Source r) (CardTransaction_EntryMode r) (CardTransaction_AuthorizationCode
    r) (CardTransaction_SplitIntoMultiple r) (CardTransaction_Authentication r)
    (CardTransaction_AuthenticationProtocol r) (CardTransaction_Wallet r)
    (CardTransaction_TransactionDateTime r) (CardTransaction_ProcessDateTime r)
    (CardTransaction_CreatedAt r) (CardTransaction_TxStatus r) (CardTransaction_Operation r)
    (CardTransaction_Mcc r) (CardTransaction_MerchantStreet r) (CardTransaction_MerchantCity r)
    (CardTransaction_MerchantZip r) (CardTransaction_MerchantCountry r)
    (CardTransaction_MerchantName r) (CardTransaction_MerchantID r)
    (CardTransaction_TransactionClassification r) (CardTransaction_SpendExchangeRate r)
    (CardTransaction_SpendCurrency r) (CardTransaction_MastercardConversion r).
Definition zero_CardTransaction : CardTransaction := mkCardTransaction None None None "" None
    None "" "" None None None None false "" 0 0 None None None None None None None None None ""
    None 0 None None None None None None None None None None None.
Definition json_of_CardTransaction (r : CardTransaction) : json :=
  JObj ([("id", match CardTransaction_ID r with Some v => JInt (v) | None => JNull end);
     ("vaultId", match CardTransaction_VaultID r with Some v => JInt (v) | None => JNull end);
     ("cardId", match CardTransaction_CardID r with Some v => JInt (v) | None => JNull end);
     ("transactionId", JStr (CardTransaction_TransactionID r));
     ("refTransactionId", JOptStr (CardTransaction_RefTransactionID r));
     ("responseCode", JOptStr (CardTransaction_ResponseCode r));
     ("ghResponseCode", JStr (CardTransaction_GHResponseCode r));
     ("ghResponseDescription", JStr (CardTransaction_GHResponseDescription r));
     ("transactionAmount", JOptStr (CardTransaction_TransactionAmount r));
     ("transactionCurrency", JOptStr (CardTransaction_TransactionCurrency r));
     ("billingAmount", JOptStr (CardTransaction_BillingAmount r));
     ("billingCurrency", JOptStr (CardTransaction_BillingCurrency r));
     ("isTrxAmountConverted", JBool (CardTransaction_IsTrxAmountConverted r));
     ("terminalId", JStr (CardTransaction_TerminalID r));
     ("cardScheme", JInt (CardTransaction_CardScheme r));
     ("type", JInt (CardTransaction_Type r));
     ("source", JOptStr (CardTransaction_Source r));
     ("entryMode", match CardTransaction_EntryMode r with Some v => JInt (v) | None => JNull end);
     ("authorizationCode", JOptStr (CardTransaction_AuthorizationCode r));
     ("splitIntoMultiple", match CardTransaction_SplitIntoMultiple r with Some v => JBool (v) |
    None => JNull end);
     ("authentication", match CardTransaction_Authentication r with Some v => JInt (v) | None =>
    JNull end);
     ("authenticationProtocol", match CardTransaction_AuthenticationProtocol r with Some v =>
    JInt (v) | None => JNull end);
     ("wallet", match CardTransaction_Wallet r with Some v => JInt (v) | None => JNull end);
     ("transactionDateTime", JOptStr (CardTransaction_TransactionDateTime r));
     ("processDateTime", JOptStr (CardTransaction_ProcessDateTime r));
     ("createdAt", JStr (CardTransaction_CreatedAt r));
     ("txStatus", JOptStr (CardTransaction_TxStatus r));
     ("operation", JInt (CardTransaction_Operation r));
     ("mcc", JOptStr (CardTransaction_Mcc r));
     ("merchantStreet", JOptStr (CardTransaction_MerchantStreet r));
     ("merchantCity", JOptStr (CardTransaction_MerchantCity r));
     ("merchantZip", JOptStr (CardTransaction_MerchantZip r));
     ("merchantCountry", JOptStr (CardTransaction_MerchantCountry r));
     ("merchantName", JOptStr (CardTransaction_MerchantName r));
     ("merchantId", JOptStr (CardTransaction_MerchantID r));
     ("transactionClassification", JOptStr (CardTransaction_TransactionClassification r));
     ("spendExchangeRate", JOptStr (CardTransaction_SpendExchangeRate r));
     ("spendCurrency", JOptStr (CardTransaction_SpendCurrency r));
     ("mastercardConversion", match CardTransaction_MastercardConversion r with Some v =>
    json_of_MastercardConversion (v) | None => JNull end)])%list.

Record CardTransactionsResponse := mkCardTransactionsResponse {
  CardTransactionsResponse_Data : list CardTransaction;
  CardTransactionsResponse_Pagination : CardTransactionsPagination }.
#[export] Instance eta_CardTransactionsResponse : Eta CardTransactionsResponse := fun r =>
  mkCardTransactionsResponse (CardTransactionsResponse_Data r)
    (CardTransactionsResponse_Pagination r).
Definition zero_CardTransactionsResponse : CardTransactionsResponse := mkCardTransactionsResponse
    [] zero_CardTransactionsPagination.
Definition json_of_CardTransactionsResponse (r : CardTransactionsResponse) : json :=
  JObj ([("data", JArr (map json_of_CardTransaction (CardTransactionsResponse_Data r)));
     ("pagination", json_of_CardTransactionsPagination (CardTransactionsResponse_Pagination
    r))])%list.

Record CreateCardTransactionArgs := mkCreateCardTransactionArgs {
  CreateCardTransactionArgs_CardID : string;
  CreateCardTransactionArgs_CardGUID : string;
  CreateCardTransactionArgs_Amount : string;
  CreateCardTransactionArgs_Currency : string;
  CreateCardTransactionArgs_Type : Z;
  CreateCardTransactionArgs_MerchantName : option string;
  CreateCardTransactionArgs_MerchantCity : option string;
  CreateCardTransactionArgs_MerchantCountry : option string }.
#[export] Instance eta_CreateCardTransactionArgs : Eta CreateCardTransactionArgs := fun r =>
  mkCreateCardTransactionArgs (CreateCardTransactionArgs_CardID r)
    (CreateCardTransactionArgs_CardGUID r) (CreateCardTransactionArgs_Amount r)
    (CreateCardTransactionArgs_Currency r) (CreateCardTransactionArgs_Type r)
    (CreateCardTransactionArgs_MerchantName r) (CreateCardTransactionArgs_MerchantCity r)
    (CreateCardTransactionArgs_MerchantCountry r).
Definition zero_CreateCardTransactionArgs : CreateCardTransactionArgs :=
    mkCreateCardTransactionArgs "" "" "" "" 0 None None None.

Record PendingThreeDSConfirmation := mkPendingThreeDSConfirmation {
  PendingThreeDSConfirmation_TransactionID : string;
  PendingThreeDSConfirmation_MerchantName : string;
  PendingThreeDSConfirmation_PurchaseAmount : string;
  PendingThreeDSConfirmation_PurchaseCurrency : string;
  PendingThreeDSConfirmation_PurchaseDate : string;
  PendingThreeDSConfirmation_Timeout : string }.
#[export] Instance eta_PendingThreeDSConfirmation : Eta PendingThreeDSConfirmation := fun r =>
  mkPendingThreeDSConfirmation (PendingThreeDSConfirmation_TransactionID r)
    (PendingThreeDSConfirmation_MerchantName r) (PendingThreeDSConfirmation_PurchaseAmount r)
    (PendingThreeDSConfirmation_PurchaseCurrency r) (PendingThreeDSConfirmation_PurchaseDate r)
    (PendingThreeDSConfirmation_Timeout r).
Definition zero_PendingThreeDSConfirmation : PendingThreeDSConfirmation :=
    mkPendingThreeDSConfirmation "" "" "" "" "" "".
Definition json_of_PendingThreeDSConfirmation (r : PendingThreeDSConfirmation) : json :=
  JObj ([("transactionId", JStr (PendingThreeDSConfirmation_TransactionID r));
     ("merchantName", JStr (PendingThreeDSConfirmation_MerchantName r));
     ("purchaseAmount", JStr (PendingThreeDSConfirmation_PurchaseAmount r));
     ("purchaseCurrency", JStr (PendingThreeDSConfirmation_PurchaseCurrency r));
     ("purchaseDate", JStr (PendingThreeDSConfirmation_PurchaseDate r));
     ("timeout", JStr (PendingThreeDSConfirmation_Timeout r))])%list.

Record ThreeDSPaymentConfirmationArgs := mkThreeDSPaymentConfirmationArgs {
  ThreeDSPaymentConfirmationArgs_TransactionID : string;
  ThreeDSPaymentConfirmationArgs_Confirmed : bool;
  ThreeDSPaymentConfirmationArgs_AuthMethod : string }.
#[export] Instance eta_ThreeDSPaymentConfirmationArgs : Eta ThreeDSPaymentConfirmationArgs := fun
    r =>
  mkThreeDSPaymentConfirmationArgs (ThreeDSPaymentConfirmationArgs_TransactionID r)
    (ThreeDSPaymentConfirmationArgs_Confirmed r) (ThreeDSPaymentConfirmationArgs_AuthMethod r).
Definition zero_ThreeDSPaymentConfirmationArgs : ThreeDSPaymentConfirmationArgs :=
    mkThreeDSPaymentConfirmationArgs "" false "".

Record ThreeDSChallenge := mkThreeDSChallenge {
  ThreeDSChallenge_TransactionID : string;
  ThreeDSChallenge_CardID : string;
  ThreeDSChallenge_UserID : string;
  ThreeDSChallenge_MerchantName : string;
  ThreeDSChallenge_PurchaseAmount : string;
  ThreeDSChallenge_PurchaseCurrency : string;
  ThreeDSChallenge_PurchaseDate : string;
  ThreeDSChallenge_Timeout : Z;
  ThreeDSChallenge_Status : string;
  ThreeDSChallenge_CreatedAt : Z }.
#[export] Instance eta_ThreeDSChallenge : Eta ThreeDSChallenge := fun r =>
  mkThreeDSChallenge (ThreeDSChallenge_TransactionID r) (ThreeDSChallenge_CardID r)
    (ThreeDSChallenge_UserID r) (ThreeDSChallenge_MerchantName r)
    (ThreeDSChallenge_PurchaseAmount r) (ThreeDSChallenge_PurchaseCurrency r)
    (ThreeDSChallenge_PurchaseDate r) (ThreeDSChallenge_Timeout r) (ThreeDSChallenge_Status r)
    (ThreeDSChallenge_CreatedAt r).
Definition zero_ThreeDSChallenge : ThreeDSChallenge := mkThreeDSChallenge "" "" "" "" "" "" ""
    time_zero "" time_zero.
Definition json_of_ThreeDSChallenge (r : ThreeDSChallenge) : json :=
  JObj ([("transactionId", JStr (ThreeDSChallenge_TransactionID r));
     ("cardId", JStr (ThreeDSChallenge_CardID r));
     ("userId", JStr (ThreeDSChallenge_UserID r));
     ("merchantName", JStr (ThreeDSChallenge_MerchantName r));
     ("purchaseAmount", JStr (ThreeDSChallenge_PurchaseAmount r));
     ("purchaseCurrency", JStr (ThreeDSChallenge_PurchaseCurrency r));
     ("purchaseDate", JStr (ThreeDSChallenge_PurchaseDate r));
     ("timeout", JTime (ThreeDSChallenge_Timeout r));
     ("status", JStr (ThreeDSChallenge_Status r));
     ("createdAt", JTime (ThreeDSChallenge_CreatedAt r))])%list.

Record UserProfile := mkUserProfile {
  UserProfile_UUID : string;
  UserProfile_BirthDay : Z;
  UserProfile_BirthMonth : Z;
  UserProfile_BirthYear : Z;
  UserProfile_Gender : string;
  UserProfile_FirstName : string;
  UserProfile_MiddleName : string;
  UserProfile_LastName : string;
  UserProfile_Citizenship : string;
  UserProfile_AddressPostalCode : string;
  UserProfile_AddressSubdivision : string;
  UserProfile_AddressCountryCode : string;
  UserProfile_AddressCity : string;
  UserProfile_AddressStreet1 : string;
  UserProfile_AddressStreet2 : string;
  UserProfile_BirthCity : string;
  UserProfile_BirthCountryCode : string;
  UserProfile_TaxResidency : string;
  UserProfile_ExpectedVolume : string }.
#[export] Instance eta_UserProfile : Eta UserProfile := fun r =>
  mkUserProfile (UserProfile_UUID r) (UserProfile_BirthDay r) (UserProfile_BirthMonth r)
    (UserProfile_BirthYear r) (UserProfile_Gender r) (UserProfile_FirstName r)
    (UserProfile_MiddleName r) (UserProfile_LastName r) (UserProfile_Citizenship r)
    (UserProfile_AddressPostalCode r) (UserProfile_AddressSubdivision r)
    (UserProfile_AddressCountryCode r) (UserProfile_AddressCity r) (UserProfile_AddressStreet1 r)
    (UserProfile_AddressStreet2 r) (UserProfile_BirthCity r) (UserProfile_BirthCountryCode r)
    (UserProfile_TaxResidency r) (UserProfile_ExpectedVolume r).
Definition zero_UserProfile : UserProfile := mkUserProfile "" 0 0 0 "" "" "" "" "" "" "" "" "" ""
    "" "" "" "" "".
Definition json_of_UserProfile (r : UserProfile) : json :=
  JObj ([("uuid", JStr (UserProfile_UUID r));
     ("birth_day", JInt (UserProfile_BirthDay r));
     ("birth_month", JInt (UserProfile_BirthMonth r));
     ("birth_year", JInt (UserProfile_BirthYear r));
     ("gender", JStr (UserProfile_Gender r));
     ("first_name", JStr (UserProfile_FirstName r));
     ("middle_name", JStr (UserProfile_MiddleName r));
     ("last_name", JStr (UserProfile_LastName r));
     ("citizenship", JStr (UserProfile_Citizenship r));
     ("address_postal_code", JStr (UserProfile_AddressPostalCode r));
     ("address_subdivision", JStr (UserProfile_AddressSubdivision r));
     ("address_country_code", JStr (UserProfile_AddressCountryCode r));
     ("address_city", JStr (UserProfile_AddressCity r));
     ("address_street1", JStr (UserProfile_AddressStreet1 r));
     ("address_street2", JStr (UserProfile_AddressStreet2 r));
     ("birth_city", JStr (UserProfile_BirthCity r));
     ("birth_country_code", JStr (UserProfile_BirthCountryCode r));
     ("tax_residency", JStr (UserProfile_TaxResidency r));
     ("expected_volume", JStr (UserProfile_ExpectedVolume r))])%list.

Record UserVerification := mkUserVerification {
  UserVerification_UUID : string;
  UserVerification_Status : Z;
  UserVerification_State : Z;
  UserVerification_Provider : string;
  UserVerification_ProviderType : string }.
#[export] Instance eta_UserVerification : Eta UserVerification := fun r =>
  mkUserVerification (UserVerification_UUID r) (UserVerification_Status r)
    (UserVerification_State r) (UserVerification_Provider r) (UserVerification_ProviderType r).
Definition zero_UserVerification : UserVerification := mkUserVerification "" 0 0 "" "".
Definition json_of_UserVerification (r : UserVerification) : json :=
  JObj ([("uuid", JStr (UserVerification_UUID r));
     ("status", JInt (UserVerification_Status r));
     ("state", JInt (UserVerification_State r));
     ("provider", JStr (UserVerification_Provider r));
     ("provider_type", JStr (UserVerification_ProviderType r))])%list.

Record GetUserResponse := mkGetUserResponse {
  GetUserResponse_ID : string;
  GetUserResponse_UUID : string;
  GetUserResponse_Email : string;
  GetUserResponse_Activated : bool;
  GetUserResponse_Managed : bool;
  GetUserResponse_Role : string;
  GetUserResponse_Features : list string;
  GetUserResponse_KYCState : string;
  GetUserResponse_RiskLevel : string;
  GetUserResponse_IsProfileCreationDisabled : bool;
  GetUserResponse_CreatedAt : Z;
  GetUserResponse_Profile : UserProfile;
  GetUserResponse_Verifications : list UserVerification }.
#[export] Instance eta_GetUserResponse : Eta GetUserResponse := fun r =>
  mkGetUserResponse (GetUserResponse_ID r) (GetUserResponse_UUID r) (GetUserResponse_Email r)
    (GetUserResponse_Activated r) (GetUserResponse_Managed r) (GetUserResponse_Role r)
    (GetUserResponse_Features r) (GetUserResponse_KYCState r) (GetUserResponse_RiskLevel r)
    (GetUserResponse_IsProfileCreationDisabled r) (GetUserResponse_CreatedAt r)
    (GetUserResponse_Profile r) (GetUserResponse_Verifications r).
Definition zero_GetUserResponse : GetUserResponse := mkGetUserResponse "" "" "" false false "" []
    "" "" false time_zero zero_UserProfile [].
Definition json_of_GetUserResponse (r : GetUserResponse) : json :=
  JObj ([("id", JStr (GetUserResponse_ID r));
     ("uuid", JStr (GetUserResponse_UUID r));
     ("email", JStr (GetUserResponse_Email r));
     ("activated", JBool (GetUserResponse_Activated r));
     ("managed", JBool (GetUserResponse_Managed r));
     ("role", JStr (GetUserResponse_Role r));
     ("features", JStrs (GetUserResponse_Features r));
     ("kyc_state", JStr (GetUserResponse_KYCState r));
     ("risk_level", JStr (GetUserResponse_RiskLevel r));
     ("is_profile_creation_disabled", JBool (GetUserResponse_IsProfileCreationDisabled r));
     ("created_at", JTime (GetUserResponse_CreatedAt r));
     ("profile", json_of_UserProfile (GetUserResponse_Profile r));
     ("verifications", JArr (map json_of_UserVerification (GetUserResponse_Verifications
    r)))])%list.

Record UserWalletResponse := mkUserWalletResponse {
  UserWalletResponse_UUID : string;
  UserWalletResponse_Address : string;
  UserWalletResponse_Name : string;
  UserWalletResponse_Type : Z;
  UserWalletResponse_Primary : bool;
  UserWalletResponse_Active : bool;
  UserWalletResponse_Enabled : bool }.
#[export] Instance eta_UserWalletResponse : Eta UserWalletResponse := fun r =>
  mkUserWalletResponse (UserWalletResponse_UUID r) (UserWalletResponse_Address r)
    (UserWalletResponse_Name r) (UserWalletResponse_Type r) (UserWalletResponse_Primary r)
    (UserWalletResponse_Active r) (UserWalletResponse_Enabled r).
Definition zero_UserWalletResponse : UserWalletResponse := mkUserWalletResponse "" "" "" 0 false
    false false.
Definition json_of_UserWalletResponse (r : UserWalletResponse) : json :=
  JObj ([("uuid", JStr (UserWalletResponse_UUID r));
     ("address", JStr (UserWalletResponse_Address r));
     ("name", JStr (UserWalletResponse_Name r));
     ("type", JInt (UserWalletResponse_Type r));
     ("primary", JBool (UserWalletResponse_Primary r));
     ("active", JBool (UserWalletResponse_Active r));
     ("enabled", JBool (UserWalletResponse_Enabled r))])%list.

Record UserWalletsResponse := mkUserWalletsResponse {
  UserWalletsResponse_Wallets : list UserWalletResponse }.
#[export] Instance eta_UserWalletsResponse : Eta UserWalletsResponse := fun r =>
  mkUserWalletsResponse (UserWalletsResponse_Wallets r).
Definition zero_UserWalletsResponse : UserWalletsResponse := mkUserWalletsResponse [].
Definition json_of_UserWalletsResponse (r : UserWalletsResponse) : json :=
  JObj ([("wallets", JArr (map json_of_UserWalletResponse (UserWalletsResponse_Wallets r)))])%list.

Record VaultSummary := mkVaultSummary {
  VaultSummary_UUID : string;
  VaultSummary_Name : string;
  VaultSummary_AssetCode : string;
  VaultSummary_CreatedAt : string;
  VaultSummary_UpdatedAt : string }.
#[export] Instance eta_VaultSummary : Eta VaultSummary := fun r =>
  mkVaultSummary (VaultSummary_UUID r) (VaultSummary_Name r) (VaultSummary_AssetCode r)
    (VaultSummary_CreatedAt r) (VaultSummary_UpdatedAt r).
Definition zero_VaultSummary : VaultSummary := mkVaultSummary "" "" "" "" "".
Definition json_of_VaultSummary (r : VaultSummary) : json :=
  JObj ([("uuid", JStr (VaultSummary_UUID r));
     ("name", JStr (VaultSummary_Name r));
     ("asset_code", JStr (VaultSummary_AssetCode r));
     ("created_at", JStr (VaultSummary_CreatedAt r));
     ("updated_at", JStr (VaultSummary_UpdatedAt r))])%list.

Record WalletBalanceResponse := mkWalletBalanceResponse {
  WalletBalanceResponse_Available : string;
  WalletBalanceResponse_Pending : string;
  WalletBalanceResponse_Total : string;
  WalletBalanceResponse_Vault : VaultSummary }.
#[export] Instance eta_WalletBalanceResponse : Eta WalletBalanceResponse := fun r =>
  mkWalletBalanceResponse (WalletBalanceResponse_Available r) (WalletBalanceResponse_Pending r)
    (WalletBalanceResponse_Total r) (WalletBalanceResponse_Vault r).
Definition zero_WalletBalanceResponse : WalletBalanceResponse := mkWalletBalanceResponse "" "" ""
    zero_VaultSummary.
Definition json_of_WalletBalanceResponse (r : WalletBalanceResponse) : json :=
  JObj ([("available", JStr (WalletBalanceResponse_Available r));
     ("pending", JStr (WalletBalanceResponse_Pending r));
     ("total", JStr (WalletBalanceResponse_Total r));
     ("vault", json_of_VaultSummary (WalletBalanceResponse_Vault r))])%list.

Record CurrenciesResponse := mkCurrenciesResponse {
  CurrenciesResponse_Currencies : list string }.
#[export] Instance eta_CurrenciesResponse : Eta CurrenciesResponse := fun r =>
  mkCurrenciesResponse (CurrenciesResponse_Currencies r).
Definition zero_CurrenciesResponse : CurrenciesResponse := mkCurrenciesResponse [].
Definition json_of_CurrenciesResponse (r : CurrenciesResponse) : json :=
  JObj ([("currencies", JStrs (CurrenciesResponse_Currencies r))])%list.

Record DepositWebhookData := mkDepositWebhookData {
  DepositWebhookData_TransactionID : string;
  DepositWebhookData_TxUUID : string;
  DepositWebhookData_Amount : string;
  DepositWebhookData_Currency : string;
  DepositWebhookData_Address : string;
  DepositWebhookData_DepositType : string }.
#[export] Instance eta_DepositWebhookData : Eta DepositWebhookData := fun r =>
  mkDepositWebhookData (DepositWebhookData_TransactionID r) (DepositWebhookData_TxUUID r)
    (DepositWebhookData_Amount r) (DepositWebhookData_Currency r) (DepositWebhookData_Address r)
    (DepositWebhookData_DepositType r).
Definition zero_DepositWebhookData : DepositWebhookData := mkDepositWebhookData "" "" "" "" "" "".
Definition json_of_DepositWebhookData (r : DepositWebhookData) : json :=
  JObj ([("transaction_id", JStr (DepositWebhookData_TransactionID r));
     ("tx_uuid", JStr (DepositWebhookData_TxUUID r));
     ("amount", JStr (DepositWebhookData_Amount r));
     ("currency", JStr (DepositWebhookData_Currency r))]
    ++ (if DepositWebhookData_Address r =?s "" then [] else [("address", JStr
    (DepositWebhookData_Address r))])
    ++ (if DepositWebhookData_DepositType r =?s "" then [] else [("deposit_type", JStr
    (DepositWebhookData_DepositType r))]))%list.

Record Wallet := mkWallet {
  Wallet_Address : string;
  Wallet_UserID : string;
  Wallet_Name : string;
  Wallet_Type : Z;
  Wallet_Network : Z;
  Wallet_CreatedAt : Z }.
#[export] Instance eta_Wallet : Eta Wallet := fun r =>
  mkWallet (Wallet_Address r) (Wallet_UserID r) (Wallet_Name r) (Wallet_Type r) (Wallet_Network
    r) (Wallet_CreatedAt r).
Definition zero_Wallet : Wallet := mkWallet "" "" "" 0 0 time_zero.
Definition json_of_Wallet (r : Wallet) : json :=
  JObj ([("address", JStr (Wallet_Address r));
     ("user_id", JStr (Wallet_UserID r));
     ("name", JStr (Wallet_Name r));
     ("type", JInt (Wallet_Type r));
     ("network", JInt (Wallet_Network r));
     ("created_at", JTime (Wallet_CreatedAt r))])%list.

Record Organization := mkOrganization {
  Organization_ID : string;
  Organization_APIBaseURL : string;
  Organization_TwoFAType : string;
  Organization_CreatedAt : Z;
  Organization_UpdatedAt : Z }.
#[export] Instance eta_Organization : Eta Organization := fun r =>
  mkOrganization (Organization_ID r) (Organization_APIBaseURL r) (Organization_TwoFAType r)
    (Organization_CreatedAt r) (Organization_UpdatedAt r).
Definition zero_Organization : Organization := mkOrganization "" "" "" time_zero time_zero.
Definition json_of_Organization (r : Organization) : json :=
  JObj ([("id", JStr (Organization_ID r));
     ("apiBaseUrl", JStr (Organization_APIBaseURL r));
     ("type2fa", JStr (Organization_TwoFAType r));
     ("createdAt", JTime (Organization_CreatedAt r));
     ("updatedAt", JTime (Organization_UpdatedAt r))])%list.

Record Transaction := mkTransaction {
  Transaction_ID : string;
  Transaction_UserID : string;
  Transaction_UID : string;
  Transaction_Amount : string;
  Transaction_TotalAmount : string;
  Transaction_Fee : string;
  Transaction_Currency : string;
  Transaction_VaultUUID : string;
  Transaction_SendingAddress : string;
  Transaction_ReceivingAddress : string;
  Transaction_Type : Z;
  Transaction_DepositType : string;
  Transaction_Status : Z;
  Transaction_CreatedAt : Z;
  Transaction_AccountIBAN : string;
  Transaction_AccountLegalName : string;
  Transaction_Message : string }.
#[export] Instance eta_Transaction : Eta Transaction := fun r =>
  mkTransaction (Transaction_ID r) (Transaction_UserID r) (Transaction_UID r) (Transaction_Amount
    r) (Transaction_TotalAmount r) (Transaction_Fee r) (Transaction_Currency r)
    (Transaction_VaultUUID r) (Transaction_SendingAddress r) (Transaction_ReceivingAddress r)
    (Transaction_Type r) (Transaction_DepositType r) (Transaction_Status r)
    (Transaction_CreatedAt r) (Transaction_AccountIBAN r) (Transaction_AccountLegalName r)
    (Transaction_Message r).
Definition zero_Transaction : Transaction := mkTransaction "" "" "" "" "" "" "" "" "" "" 0 "" 0
    time_zero "" "" "".
Definition json_of_Transaction (r : Transaction) : json :=
  JObj ([("uuid", JStr (Transaction_ID r));
     ("user_id", JStr (Transaction_UserID r));
     ("uid", JStr (Transaction_UID r));
     ("amount", JStr (Transaction_Amount r));
     ("total_amount", JStr (Transaction_TotalAmount r));
     ("fee", JStr (Transaction_Fee r));
     ("currency", JStr (Transaction_Currency r));
     ("vault_uuid", JStr (Transaction_VaultUUID r));
     ("sending_address", JStr (Transaction_SendingAddress r));
     ("receiving_address", JStr (Transaction_ReceivingAddress r));
     ("type", JInt (Transaction_Type r));
     ("deposit_type", JStr (Transaction_DepositType r));
     ("status", JInt (Transaction_Status r));
     ("created_at", JTime (Transaction_CreatedAt r))]
    ++ (if Transaction_AccountIBAN r =?s "" then [] else [("account_iban", JStr
    (Transaction_AccountIBAN r))])
    ++ (if Transaction_AccountLegalName r =?s "" then [] else [("account_legal_name", JStr
    (Transaction_AccountLegalName r))])
    ++ (if Transaction_Message r =?s "" then [] else [("message", JStr (Transaction_Message
    r))]))%list.

