(* ===== verification/JsonText.v ===== *)
(** * Reading JSON text ([json.Unmarshal], [json.Valid])

    The scanner of [encoding/json]: the text of one value, with blanks around
    it and at most ten thousand levels of nesting, becomes a tree.  A member
    name that occurs twice stays twice; what decodes the tree says which one
    counts.  A number written as an integer is [JInt], any other the binary64
    it denotes ([-0] is the negative zero).  Strings are coerced to UTF-8.

    The second half proves that what [json.Marshal] wrote is read back, and
    that the fuel of the reader, twice the length of the text, is enough. *)
From Stdlib Require Import Floats.SpecFloat.
From S2P Require Import Prelude GoFloat GoStd Crypto GoText.

(** ** Characters *)
Definition is_blank (c : ascii) : bool :=
  let b := byte_of c in (b =? 32) || (b =? 9) || (b =? 13) || (b =? 10).
Definition skip_blanks (l : list ascii) : list ascii := trim_left_by is_blank l.

(** [utf8.EncodeRune]: a surrogate or a number past the last rune is U+FFFD. *)
Definition encode_rune (c : Z) : list ascii :=
  if c <? 128 then [char_of c]
  else if c <? 2048 then [char_of (192 + c / 64); char_of (128 + c mod 64)]
  else if (1114111 <? c) || ((55296 <=? c) && (c <=? 57343))
  then [char_of 239; char_of 191; char_of 189]
  else if c <? 65536
  then [char_of (224 + c / 4096); char_of (128 + c / 64 mod 64); char_of (128 + c mod 64)]
  else [char_of (240 + c / 262144); char_of (128 + c / 4096 mod 64);
        char_of (128 + c / 64 mod 64); char_of (128 + c mod 64)].

(** Bytes that are no UTF-8 become U+FFFD, one for each. *)
Definition coerce_rune (r : rune) : list ascii :=
  if rune_valid r then rune_bytes r else encode_rune 65533.
Definition coerce_utf8 (s : string) : string := of_chars (flat_map coerce_rune (runes s)).

(** ** String literals *)
Definition hex4_val (a b c d : ascii) : option Z :=
  match hex_digit_val a, hex_digit_val b, hex_digit_val c, hex_digit_val d with
  | Some a, Some b, Some c, Some d => Some (((a * 16 + b) * 16 + c) * 16 + d)
  | _, _, _, _ => None
  end.
Definition is_surrogate (c : Z) : bool := (55296 <=? c) && (c <=? 57343).

(** [utf16.DecodeRune] of a high and a low half. *)
Definition surrogate_pair (hi lo : Z) : option Z :=
  if (55296 <=? hi) && (hi <? 56320) && (56320 <=? lo) && (lo <=? 57343)
  then Some ((hi - 55296) * 1024 + (lo - 56320) + 65536)
  else None.

(** The one-letter escapes. *)
Definition simple_escape (c : ascii) : option ascii :=
  if bool_decide (c = dquote) || bool_decide (c = backslash) || bool_decide (c = "/"%char)
  then Some c
  else if bool_decide (c = "b"%char) then Some (char_of 8)
  else if bool_decide (c = "f"%char) then Some (char_of 12)
  else if bool_decide (c = "n"%char) then Some (char_of 10)
  else if bool_decide (c = "r"%char) then Some (char_of 13)
  else if bool_decide (c = "t"%char) then Some (char_of 9)
  else None.

(** What follows an opening quote: the bytes up to the closing one, escapes
    resolved, and the rest. *)
Fixpoint scan_string (fuel : nat) (l : list ascii) : option (list ascii * list ascii) :=
  match fuel, l with
  | 0%nat, _ | _, [] => None
  | S fuel, c :: l1 =>
      let emit bs r :=
        match scan_string fuel r with Some (s, r) => Some (bs ++ s, r) | None => None end in
      if bool_decide (c = dquote) then Some ([], l1)
      else if bool_decide (c = backslash) then
        match l1 with
        | [] => None
        | e :: l2 =>
            if bool_decide (e = "u"%char) then
              match l2 with
              | h1 :: h2 :: h3 :: h4 :: l3 =>
                  match hex4_val h1 h2 h3 h4 with
                  | None => None
                  | Some hi =>
                      if is_surrogate hi then
                        match l3 with
                        | b :: u :: g1 :: g2 :: g3 :: g4 :: l4 =>
                            match (if bool_decide (b = backslash) && bool_decide (u = "u"%char)
                                   then hex4_val g1 g2 g3 g4 ≫= surrogate_pair hi else None) with
                            | Some code => emit (encode_rune code) l4
                            | None => emit (encode_rune 65533) l3
                            end
                        | _ => emit (encode_rune 65533) l3
                        end
                      else emit (encode_rune hi) l3
                  end
              | _ => None
              end
            else match simple_escape e with
                 | Some x => emit [x] l2
                 | None => None
                 end
        end
      else if byte_of c <? 32 then None
      else emit [c] l1
  end.
Definition parse_string (l : list ascii) : option (string * list ascii) :=
  match scan_string (S (length l)) l with
  | Some (bs, r) => Some (coerce_utf8 (of_chars bs), r)
  | None => None
  end.

(** ** Numbers

    The longest run of characters a number is made of must be one number. *)
Definition number_char (c : ascii) : bool := is_digit c || one_of "+-.eE" c.
Fixpoint span (p : ascii → bool) (l : list ascii) : list ascii * list ascii :=
  match l with
  | c :: l' => if p c then let '(a, b) := span p l' in (c :: a, b) else ([], l)
  | [] => ([], [])
  end.

(** The fraction and the exponent of a literal. *)
Definition valid_exponent (l : list ascii) : bool :=
  match l with
  | [] => true
  | c :: l =>
      (bool_decide (c = "e"%char) || bool_decide (c = "E"%char))
      && (let '(_, ds) := strip_sign l in negb (bool_decide (ds = [])) && all_digits ds)
  end.
Definition valid_fraction (l : list ascii) : bool :=
  match l with
  | "."%char :: l =>
      let '(ds, r) := span is_digit l in negb (bool_decide (ds = [])) && valid_exponent r
  | _ => valid_exponent l
  end.
Definition parse_number (l : list ascii) : option json :=
  let '(neg, body) := match l with "-"%char :: l => (true, l) | _ => (false, l) end in
  let '(ds, r) := span is_digit body in
  let whole := match ds with
               | [] => false
               | [_] => true
               | d :: _ => negb (bool_decide (d = "0"%char))
               end in
  if negb whole then None
  else if bool_decide (r = []) then
    let v := digits_value ds in
    Some (if neg then (if v =? 0 then JFloat (S754_zero true) else JInt (- v)) else JInt v)
  else if valid_fraction r then
    match ParseFloat (of_chars l) with
    | Some x => Some (JFloat x)
    | None => Some (JFloat (S754_infinity neg))
    end
  else None.

(** ** Values *)
Definition max_depth : Z := 10000.
Definition expect (p l : list ascii) (j : json) : option (json * list ascii) :=
  if bool_decide (firstn (length p) l = p) then Some (j, skipn (length p) l) else None.

(** The next character, if it is [c], blanks before it skipped. *)
Definition eat (c : ascii) (l : list ascii) : option (list ascii) :=
  match skip_blanks l with
  | x :: r => if bool_decide (x = c) then Some r else None
  | [] => None
  end.

Fixpoint parse_value (fuel : nat) (depth : Z) (l : list ascii) : option (json * list ascii) :=
  match fuel with
  | 0%nat => None
  | S fuel =>
      match skip_blanks l with
      | [] => None
      | (c :: r) as l =>
          if bool_decide (c = "{"%char) then
            if max_depth <? depth + 1 then None
            else match eat "}" r with
                 | Some r => Some (JObj [], r)
                 | None =>
                     match parse_members fuel (depth + 1) r with
                     | Some (fs, r) => Some (JObj fs, r)
                     | None => None
                     end
                 end
          else if bool_decide (c = "["%char) then
            if max_depth <? depth + 1 then None
            else match eat "]" r with
                 | Some r => Some (JArr [], r)
                 | None =>
                     match parse_elements fuel (depth + 1) r with
                     | Some (vs, r) => Some (JArr vs, r)
                     | None => None
                     end
                 end
          else if bool_decide (c = dquote) then
            match parse_string r with Some (s, r) => Some (JStr s, r) | None => None end
          else if bool_decide (c = "t"%char) then expect (chars "true") l (JBool true)
          else if bool_decide (c = "f"%char) then expect (chars "false") l (JBool false)
          else if bool_decide (c = "n"%char) then expect (chars "null") l JNull
          else
            let '(token, r) := span number_char l in
            match parse_number token with Some j => Some (j, r) | None => None end
      end
  end
with parse_elements (fuel : nat) (depth : Z) (l : list ascii) : option (list json * list ascii) :=
  match fuel with
  | 0%nat => None
  | S fuel =>
      match parse_value fuel depth l with
      | None => None
      | Some (v, r) =>
          match eat "," r with
          | Some r =>
              match parse_elements fuel depth r with
              | Some (vs, r) => Some (v :: vs, r)
              | None => None
              end
          | None => match eat "]" r with Some r => Some ([v], r) | None => None end
          end
      end
  end
with parse_members (fuel : nat) (depth : Z) (l : list ascii)
    : option (list (string * json) * list ascii) :=
  match fuel with
  | 0%nat => None
  | S fuel =>
      match eat dquote l ≫= parse_string with
      | None => None
      | Some (k, r) =>
          match eat ":" r ≫= parse_value fuel depth with
          | None => None
          | Some (v, r) =>
              match eat "," r with
              | Some r =>
                  match parse_members fuel depth r with
                  | Some (fs, r) => Some ((k, v) :: fs, r)
                  | None => None
                  end
              | None => match eat "}" r with Some r => Some ([(k, v)], r) | None => None end
              end
          end
      end
  end.

Definition value_fuel (l : list ascii) : nat := (2 * length l + 2)%nat.
Definition parse_json (text : string) : option json :=
  let l := chars text in
  match parse_value (value_fuel l) 0 l with
  | Some (j, r) => if bool_decide (skip_blanks r = []) then Some j else None
  | None => None
  end.

(** ** Progress *)
Lemma trim_left_by_length p l : (length (trim_left_by p l) <= length l)%nat.
Proof. induction l as [|c l IH]; cbn; [lia|]. destruct (p c); cbn; lia. Qed.

Lemma skip_blanks_length l : (length (skip_blanks l) <= length l)%nat.
Proof. apply trim_left_by_length. Qed.

Lemma eat_length c l r : eat c l = Some r → (length r < length l)%nat.
Proof.
  unfold eat. pose proof (skip_blanks_length l). destruct (skip_blanks l) as [|x l']; [done|].
  case_bool_decide; [|done]. intros [= <-]. cbn in *. lia.
Qed.

Lemma span_length p l : (length (span p l).1 + length (span p l).2 = length l)%nat.
Proof.
  induction l as [|c l IH]; cbn; [done|]. destruct (p c); [|done].
  destruct (span p l) as [a b]. cbn in *. lia.
Qed.

Lemma scan_string_length fuel l s r : scan_string fuel l = Some (s, r) → (length r < length l)%nat.
Proof.
  revert l s r. induction fuel as [|fuel IH]; intros l s r; cbn [scan_string]; [done|].
  destruct l as [|c l]; [done|].
  assert (∀ bs l', (length l' <= length l)%nat →
    match scan_string fuel l' with Some (s, r) => Some (bs ++ s, r) | None => None end = Some (s, r) →
    (length r < S (length l))%nat) as Hemit.
  { intros bs l' Hl. destruct (scan_string fuel l') as [[s' r']|] eqn:Hs; [|done].
    intros [= <- <-]. apply IH in Hs. lia. }
  repeat lazymatch goal with
    | |- match scan_string _ _ with _ => _ end = _ → _ => apply Hemit; cbn; lia
    | |- Some _ = _ → _ => by intros [= <- <-]; cbn; lia
    | |- None = _ → _ => done
    | |- _ => case_bool_decide || case_match; cbn [length] in *; subst
    end.
Qed.

Lemma parse_string_length l s r : parse_string l = Some (s, r) → (length r < length l)%nat.
Proof.
  unfold parse_string. destruct (scan_string _ l) as [[bs r']|] eqn:Hs; [|done].
  intros [= <- <-]. by apply scan_string_length in Hs.
Qed.

Lemma expect_length p l j x r : p ≠ [] → expect p l j = Some (x, r) → (length r < length l)%nat.
Proof.
  unfold expect. case_bool_decide as Hp; [|done]. intros Hne [= <- <-].
  rw -{2}(take_drop (length p) l) Hp length_app. destruct p; [done|cbn [length]; lia].
Qed.

Lemma parse_number_ne token j : parse_number token = Some j → token ≠ [].
Proof. by intros H ->. Qed.

(** A value leaves less text than it was given; so do the items of a list. *)
Lemma parse_shrinks fuel :
  (∀ d l j r, parse_value fuel d l = Some (j, r) → (length r < length l)%nat)
  ∧ (∀ d l vs r, parse_elements fuel d l = Some (vs, r) → (length r < length l)%nat)
  ∧ (∀ d l fs r, parse_members fuel d l = Some (fs, r) → (length r < length l)%nat).
Proof.
  induction fuel as [|fuel (IHv & IHe & IHm)]; [done|]. split_and!.
  - intros d l j r. cbn [parse_value]. pose proof (skip_blanks_length l) as Hl.
    destruct (skip_blanks l) as [|c l'] eqn:Hc; [done|]. cbn [length] in Hl.
    case_bool_decide.
    { case_match; [done|]. destruct (eat _ l') as [r'|] eqn:He.
      - intros [= <- <-]. apply eat_length in He. lia.
      - destruct (parse_members _ _ _) as [[fs r']|] eqn:Hm; [|done].
        intros [= <- <-]. apply IHm in Hm. lia. }
    case_bool_decide.
    { case_match; [done|]. destruct (eat _ l') as [r'|] eqn:He.
      - intros [= <- <-]. apply eat_length in He. lia.
      - destruct (parse_elements _ _ _) as [[fs r']|] eqn:Hm; [|done].
        intros [= <- <-]. apply IHe in Hm. lia. }
    case_bool_decide.
    { destruct (parse_string l') as [[s r']|] eqn:Hs; [|done].
      intros [= <- <-]. apply parse_string_length in Hs. lia. }
    do 3 (case_bool_decide;
      [intros Hx; apply expect_length in Hx; [cbn in *; lia|done]|]).
    pose proof (span_length number_char (c :: l')) as Hs.
    destruct (span number_char (c :: l')) as [token r'].
    destruct (parse_number token) as [j'|] eqn:Hn; [|done].
    intros [= <- <-]. apply parse_number_ne in Hn. destruct token; [done|]. cbn in *. lia.
  - intros d l vs r. cbn [parse_elements].
    destruct (parse_value _ _ _) as [[v r1]|] eqn:Hv; [|done]. apply IHv in Hv.
    destruct (eat "," r1) as [r2|] eqn:H2.
    + apply eat_length in H2. destruct (parse_elements _ _ r2) as [[vs' r3]|] eqn:H3; [|done].
      intros [= <- <-]. apply IHe in H3. lia.
    + destruct (eat "]" r1) as [r3|] eqn:H3; [|done]. intros [= <- <-].
      apply eat_length in H3. lia.
  - intros d l fs r. cbn [parse_members].
    destruct (eat dquote l) as [l1|] eqn:H1; [|done]. cbn [mbind option_bind].
    destruct (parse_string l1) as [[k r1]|] eqn:Hs; [|done].
    destruct (eat ":" r1) as [r2|] eqn:H2; [|done]. cbn [mbind option_bind].
    destruct (parse_value _ _ r2) as [[v r3]|] eqn:Hv; [|done].
    apply eat_length in H1, H2. apply parse_string_length in Hs. apply IHv in Hv.
    destruct (eat "," r3) as [r4|] eqn:H4.
    + apply eat_length in H4. destruct (parse_members _ _ r4) as [[fs' r5]|] eqn:H5; [|done].
      intros [= <- <-]. apply IHm in H5. lia.
    + destruct (eat "}" r3) as [r5|] eqn:H5; [|done]. intros [= <- <-].
      apply eat_length in H5. lia.
Qed.

Lemma parse_value_shrinks fuel d l j r :
  parse_value fuel d l = Some (j, r) → (length r < length l)%nat.
Proof. apply parse_shrinks. Qed.

(** ** The fuel is enough

    Twice the length of the text and two more: any larger fuel reads the same. *)
Lemma parse_fuel n :
  (∀ d l f g, (length l <= n)%nat → (value_fuel l <= f)%nat → (value_fuel l <= g)%nat →
     parse_value f d l = parse_value g d l)
  ∧ (∀ d l f g, (length l <= n)%nat → (value_fuel l < f)%nat → (value_fuel l < g)%nat →
     parse_elements f d l = parse_elements g d l
     ∧ parse_members f d l = parse_members g d l).
Proof.
  unfold value_fuel. induction n as [n IH] using lt_wf_ind.
  assert (∀ d l f g, (length l <= n)%nat → (2 * length l + 2 <= f)%nat →
    (2 * length l + 2 <= g)%nat → parse_value f d l = parse_value g d l) as Hv.
  { intros d l f g Hn Hf Hg. destruct f as [|f]; [lia|]. destruct g as [|g]; [lia|].
    cbn [parse_value]. pose proof (skip_blanks_length l) as Hl.
    destruct (skip_blanks l) as [|c l'] eqn:Hc; [done|]. cbn [length] in Hl.
    destruct (IH (length l') ltac:(lia)) as [_ Hem].
    destruct (Hem (d + 1) l' f g) as [He Hm]; [lia..|].
    by rw He Hm. }
  split; [exact Hv|]. intros d l f g Hn Hf Hg. destruct f as [|f]; [lia|]. destruct g as [|g]; [lia|].
  split.
  - cbn [parse_elements]. rw (Hv d l f g); [|lia..].
    destruct (parse_value g d l) as [[v r1]|] eqn:Hp; [|done].
    apply parse_value_shrinks in Hp. destruct (eat "," r1) as [r2|] eqn:H2; [|done].
    apply eat_length in H2. destruct (IH (length r2) ltac:(lia)) as [_ Hem].
    by destruct (Hem d r2 f g) as [-> _]; [lia..|].
  - cbn [parse_members]. destruct (eat dquote l) as [l1|] eqn:H1; [|done]. cbn [mbind option_bind].
    destruct (parse_string l1) as [[k r1]|] eqn:Hs; [|done].
    destruct (eat ":" r1) as [r2|] eqn:H2; [|done]. cbn [mbind option_bind].
    apply eat_length in H1, H2. apply parse_string_length in Hs.
    rw (Hv d r2 f g); [|lia..].
    destruct (parse_value g d r2) as [[v r3]|] eqn:Hp; [|done].
    apply parse_value_shrinks in Hp. destruct (eat "," r3) as [r4|] eqn:H4; [|done].
    apply eat_length in H4. destruct (IH (length r4) ltac:(lia)) as [_ Hem].
    by destruct (Hem d r4 f g) as [_ ->]; [lia..|].
Qed.

(** The reader's answer does not depend on the fuel it is given, from twice
    the length of the text on. *)
Lemma parse_fuel_enough text fuel :
  (value_fuel (chars text) <= fuel)%nat →
  parse_json text =
  match parse_value fuel 0 (chars text) with
  | Some (j, r) => if bool_decide (skip_blanks r = []) then Some j else None
  | None => None
  end.
Proof.
  intros Hf. unfold parse_json.
  destruct (parse_fuel (length (chars text))) as [Hv _].
  by rw (Hv 0 (chars text) (value_fuel (chars text)) fuel).
Qed.

(** ** Strings read back

    A valid rune is written as itself or as an escape of its number; both are
    read as its bytes. *)
Definition utf8 (s : string) : bool := forallb rune_valid (runes s).

(** What the decoder yields: a rune below 128 is its byte, any other is made of
    bytes from 128 on, and the two line separators have one spelling. *)
Definition good_rune (r : rune) : Prop :=
  rune_valid r = true →
  (rune_code r < 128 ∧ 0 <= rune_code r ∧ rune_bytes r = [char_of (rune_code r)])
  ∨ (128 <= rune_code r ∧ Forall (λ c, 128 <= byte_of c) (rune_bytes r)
     ∧ (rune_code r = 8232 ∨ rune_code r = 8233 → rune_bytes r = encode_rune (rune_code r))).

Lemma byte_of_range c : 0 <= byte_of c < 256.
Proof. unfold byte_of. pose proof (N_ascii_bounded c). lia. Qed.

Lemma char_of_byte_of c : char_of (byte_of c) = c.
Proof. unfold char_of, byte_of. by rw N2Z.id ascii_N_embedding. Qed.

Lemma byte_of_char_of b : 0 <= b < 256 → byte_of (char_of b) = b.
Proof. unfold char_of, byte_of. intros Hb. rw N_ascii_embedding; lia. Qed.

Ltac utf8_bytes :=
  unfold is_cont, in_range in *;
  repeat match goal with
  | H : (_ && _) = true |- _ => apply andb_true_iff in H as [? ?]
  | H : (_ <=? _) = true |- _ => apply Z.leb_le in H
  | H : (_ <? _) = false |- _ => apply Z.ltb_ge in H
  | H : (_ <? _) = true |- _ => apply Z.ltb_lt in H
  | H : (_ =? _) = true |- _ => apply Z.eqb_eq in H
  | H : (_ =? _) = false |- _ => apply Z.eqb_neq in H
  end.

Lemma char_of_eq c k : byte_of c = k → c = char_of k.
Proof. intros <-. by rw char_of_byte_of. Qed.

Lemma good_rune_2 c0 c1 :
  in_range 194 223 c0 = true → is_cont c1 = true →
  good_rune (mkRune (byte_of c0 mod 32 * 64 + low6 c1) [c0; c1] true).
Proof.
  intros H0 H1 _. right. utf8_bytes. unfold low6. cbn [rune_code rune_bytes].
  split; [Z.to_euclidean_division_equations; lia|]. split; [by repeat constructor; lia|].
  intros Hc. exfalso. Z.to_euclidean_division_equations; lia.
Qed.

Lemma good_rune_3 c0 c1 c2 :
  in_range 224 239 c0 = true → 
  (if byte_of c0 =? 224 then in_range 160 191 else if byte_of c0 =? 237 then in_range 128 159
   else is_cont) c1 = true → is_cont c2 = true →
  good_rune (mkRune (byte_of c0 mod 16 * 4096 + low6 c1 * 64 + low6 c2) [c0; c1; c2] true).
Proof.
  intros H0 H1 H2 _. right. unfold low6. cbn [rune_code rune_bytes].
  assert (byte_of c0 = 224 ∧ 160 <= byte_of c1 <= 191
          ∨ byte_of c0 ≠ 224 ∧ 128 <= byte_of c1 <= 191) as Hc1.
  { destruct (byte_of c0 =? 224) eqn:?; [|destruct (byte_of c0 =? 237) eqn:?]; utf8_bytes; lia. }
  clear H1. utf8_bytes.
  split; [Z.to_euclidean_division_equations; lia|]. split; [by repeat constructor; lia|].
  intros Hc. assert (byte_of c0 = 226 ∧ byte_of c1 = 128
    ∧ byte_of c2 = byte_of c0 mod 16 * 4096 + byte_of c1 mod 64 * 64 + byte_of c2 mod 64 - 8064)
    as (E0 & E1 & E2) by (Z.to_euclidean_division_equations; lia).
  destruct Hc as [Hc|Hc]; rw Hc in E2 *;
    by rw (char_of_eq _ _ E0) (char_of_eq _ _ E1) (char_of_eq _ _ E2).
Qed.

Lemma good_rune_4 c0 c1 c2 c3 :
  in_range 240 244 c0 = true → 
  (if byte_of c0 =? 240 then in_range 144 191 else if byte_of c0 =? 244 then in_range 128 143
   else is_cont) c1 = true → is_cont c2 = true → is_cont c3 = true →
  good_rune (mkRune (byte_of c0 mod 8 * 262144 + low6 c1 * 4096 + low6 c2 * 64 + low6 c3)
               [c0; c1; c2; c3] true).
Proof.
  intros H0 H1 H2 H3 _. right. unfold low6. cbn [rune_code rune_bytes].
  assert (byte_of c0 = 240 ∧ 144 <= byte_of c1 <= 191
          ∨ byte_of c0 ≠ 240 ∧ 128 <= byte_of c1 <= 191) as Hc1.
  { destruct (byte_of c0 =? 240) eqn:?; [|destruct (byte_of c0 =? 244) eqn:?]; utf8_bytes; lia. }
  clear H1. utf8_bytes.
  assert (65536 <= byte_of c0 mod 8 * 262144 + byte_of c1 mod 64 * 4096 + byte_of c2 mod 64 * 64
    + byte_of c3 mod 64) as Hlo by (Z.to_euclidean_division_equations; lia).
  split; [lia|]. split; [by repeat constructor; lia|]. intros Hc. exfalso. lia.
Qed.

Lemma decode_utf8_good fuel l : Forall good_rune (decode_utf8 fuel l).
Proof.
  revert l. induction fuel as [|fuel IH]; intros [|c0 l]; cbn [decode_utf8]; [constructor..|].
  assert (Forall good_rune (invalid_rune c0 :: decode_utf8 fuel l)) as Hinv by by constructor.
  destruct (byte_of c0 <? 128) eqn:H128.
  { constructor; [|done]. intros _. left. utf8_bytes. pose proof (byte_of_range c0).
    cbn [rune_code rune_bytes]. rw char_of_byte_of. split_and!; [lia|lia|done]. }
  destruct (in_range 194 223 c0) eqn:H2.
  { destruct l as [|c1 l]; [done|]. destruct (is_cont c1) eqn:H1; [|done].
    constructor; [by apply good_rune_2|done]. }
  destruct (in_range 224 239 c0) eqn:H3.
  { destruct l as [|c1 [|c2 l]]; [done..|]. case_match eqn:Hc; [|done].
    apply andb_true_iff in Hc as [? ?]. constructor; [by apply good_rune_3|done]. }
  destruct (in_range 240 244 c0) eqn:H4; [|done].
  destruct l as [|c1 [|c2 [|c3 l]]]; [done..|]. case_match eqn:Hc; [|done].
  apply andb_true_iff in Hc as [[? ?]%andb_true_iff ?]. constructor; [by apply good_rune_4|done].
Qed.

(** The bytes of the runes are the text. *)
Lemma decode_utf8_bytes fuel l :
  (length l <= fuel)%nat → flat_map rune_bytes (decode_utf8 fuel l) = l.
Proof.
  revert l. induction fuel as [|fuel IH]; intros [|c0 l] Hl; [done|cbn in Hl; lia|done|].
  cbn [decode_utf8 length] in *.
  assert (flat_map rune_bytes (invalid_rune c0 :: decode_utf8 fuel l) = c0 :: l) as Hinv.
  { cbn. rw IH; [done|lia]. }
  repeat (case_match; try exact Hinv); cbn [flat_map rune_bytes length] in *; rw IH; done || lia.
Qed.

Lemma byte_dquote : byte_of dquote = 34.
Proof. reflexivity. Qed.
Lemma byte_backslash : byte_of backslash = 92.
Proof. reflexivity. Qed.

Definition scans (l s r : list ascii) : Prop :=
  ∀ fuel, (length l < fuel)%nat → scan_string fuel l = Some (s, r).

Lemma scans_closed r : scans (dquote :: r) [] r.
Proof. intros [|fuel] Hf; [lia|]. cbn [scan_string]. by rw bool_decide_eq_true_2. Qed.

Lemma scans_raw c l s r :
  32 <= byte_of c → c ≠ dquote → c ≠ backslash → scans l s r → scans (c :: l) (c :: s) r.
Proof.
  intros Hc Hq Hb Hl [|fuel] Hf; [lia|]. cbn [scan_string length] in *.
  rw (bool_decide_eq_false_2 _ Hq) (bool_decide_eq_false_2 _ Hb).
  destruct (Z.ltb_spec (byte_of c) 32); [lia|]. rw Hl; [done|lia].
Qed.

Lemma scans_simple e x l s r :
  simple_escape e = Some x → e ≠ "u"%char → scans l s r → scans (backslash :: e :: l) (x :: s) r.
Proof.
  intros He Hu Hl [|fuel] Hf; [lia|]. cbn [scan_string length] in *.
  change (bool_decide (backslash = dquote)) with false.
  change (bool_decide (backslash = backslash)) with true. cbn iota.
  rw (bool_decide_eq_false_2 _ Hu) He. rw Hl; [done|lia].
Qed.

Lemma hex4_val_hex4 c l : 0 <= c < 65536 →
  ∃ a b d e, hex4 c ++ l = a :: b :: d :: e :: l ∧ hex4_val a b d e = Some c.
Proof.
  intros Hc. unfold hex4, hex2. do 4 eexists. split; [done|]. unfold hex4_val.
  rw !hex_digit_val_digit; [f_equal| | | |]; Z.to_euclidean_division_equations; lia.
Qed.

Lemma scans_u c l s r :
  0 <= c < 65536 → is_surrogate c = false → scans l s r →
  scans (backslash :: "u"%char :: hex4 c ++ l) (encode_rune c ++ s) r.
Proof.
  intros Hc Hs Hl [|fuel] Hf; [lia|].
  destruct (hex4_val_hex4 c l Hc) as (h1 & h2 & h3 & h4 & Hh & Hv). rw Hh in Hf *.
  cbn [scan_string length] in *.
  change (bool_decide (backslash = dquote)) with false.
  change (bool_decide (backslash = backslash)) with true.
  change (bool_decide ("u"%char = "u"%char)) with true. cbn iota. rw Hv Hs.
  rw Hl; [done|lia].
Qed.

Lemma scans_raws bs l s r : Forall (λ c, 128 <= byte_of c) bs → scans l s r → scans (bs ++ l) (bs ++ s) r.
Proof.
  induction 1 as [|c bs Hc _ IH]; [done|]. intros Hl. cbn. apply scans_raw; [lia| | |by apply IH].
  - intros ->. done.
  - intros ->. done.
Qed.

Lemma scans_rune c l s r :
  good_rune c → rune_valid c = true → scans l s r → scans (json_rune c ++ l) (rune_bytes c ++ s) r.
Proof.
  intros Hg Hv Hl. unfold json_rune. rw Hv. cbn [negb].
  assert (∀ k e, rune_code c = k → k < 128 → simple_escape e = Some (char_of k) → e ≠ "u"%char →
    scans (backslash :: e :: l) (rune_bytes c ++ s) r) as Hsimple.
  { intros k e Hk Hlt He Hu. destruct (Hg Hv) as [(_ & _ & ->)|[? _]]; [|lia]. rw Hk.
    by apply scans_simple. }
  destruct ((rune_code c =? 34) || (rune_code c =? 92)) eqn:Hq.
  { destruct (Hg Hv) as [(_ & _ & Hb)|[? _]]; [|lia].
    apply orb_true_iff in Hq as [Hq%Z.eqb_eq|Hq%Z.eqb_eq].
    - rw {1}Hb Hq. by apply (Hsimple 34 dquote).
    - rw {1}Hb Hq. by apply (Hsimple 92 backslash). }
  do 5 (case_match eqn:Hk; [apply Z.eqb_eq in Hk; cbn [chars app]; by eapply Hsimple; [exact Hk|..]|];
    clear Hk).
  apply orb_false_iff in Hq as [Hq1%Z.eqb_neq Hq2%Z.eqb_neq].
  case_match eqn:Hk.
  - cbn [chars app]. replace (rune_bytes c) with (encode_rune (rune_code c)).
    { apply scans_u; [|unfold is_surrogate|done]; destruct (Hg Hv) as [(?&?&?)|(?&?&?)]; lia. }
    destruct (Hg Hv) as [(Hlt & _ & ->)|(Hge & _ & Hsep)].
    + unfold encode_rune. by destruct (Z.ltb_spec (rune_code c) 128); [|lia].
    + rw Hsep; [done|lia].
  - destruct (Hg Hv) as [(Hlt & H0 & Hb)|(Hge & Hb & _)]; [|by apply scans_raws].
    rw Hb. cbn [app].
    apply scans_raw; [rw byte_of_char_of; lia| | |done]; intros Hx; apply (f_equal byte_of) in Hx;
      (rw byte_of_char_of ?byte_dquote ?byte_backslash in Hx; [lia|lia]).
Qed.

Lemma scans_runes rs l :
  Forall good_rune rs → forallb rune_valid rs = true →
  scans (flat_map json_rune rs ++ dquote :: l) (flat_map rune_bytes rs) l.
Proof.
  induction 1 as [|c rs Hc _ IH]; cbn [forallb flat_map]; [intros _; apply scans_closed|].
  intros [Hv Hvs]%andb_true_iff. rw -app_assoc. apply scans_rune; [done..|]. by apply IH.
Qed.

Lemma coerce_utf8_id s : utf8 s = true → coerce_utf8 s = s.
Proof.
  unfold utf8, coerce_utf8. intros Hv.
  assert (flat_map coerce_rune (runes s) = chars s) as ->; [|apply of_chars_chars].
  transitivity (flat_map rune_bytes (runes s));
    [|by apply decode_utf8_bytes; rw length_chars].
  revert Hv. induction (runes s) as [|c rs IH]; [done|]. cbn [forallb flat_map].
  intros [Hv Hvs]%andb_true_iff. unfold coerce_rune at 1. by rw Hv IH.
Qed.

(** A string written by [json.Marshal] is read back. *)
Lemma parse_string_json s l :
  utf8 s = true →
  eat dquote (chars (json_string s) ++ l) = Some (flat_map json_rune (runes s) ++ dquote :: l)
  ∧ parse_string (flat_map json_rune (runes s) ++ dquote :: l) = Some (s, l).
Proof.
  intros Hv. split.
  - unfold json_string. rw chars_of_chars. cbn. by rw -app_assoc.
  - unfold parse_string. rw (scans_runes (runes s) l); [|apply decode_utf8_good|done|lia].
    unfold runes at 1. rw decode_utf8_bytes; [|by rw length_chars].
    by rw of_chars_chars coerce_utf8_id.
Qed.

(** ** Numbers read back *)
Lemma digits_fuel_head fuel n acc :
  0 < n < 2 ^ Z.of_nat fuel →
  ∃ c l, chars (digits_fuel fuel n acc) = c :: l ∧ c ≠ "0"%char.
Proof.
  revert n acc. induction fuel as [|fuel IH]; intros n acc Hn; [change (2 ^ Z.of_nat 0) with 1 in Hn; lia|].
  cbn [digits_fuel]. destruct (Z.ltb_spec n 10).
  - do 2 eexists. split; [done|]. rw Z.mod_small; [|lia].
    assert (n = 1 ∨ n = 2 ∨ n = 3 ∨ n = 4 ∨ n = 5 ∨ n = 6 ∨ n = 7 ∨ n = 8 ∨ n = 9) as Hc by lia.
    by destruct Hc as [->|[->|[->|[->|[->|[->|[->|[->| ->]]]]]]]].
  - apply IH. rw Nat2Z.inj_succ Z.pow_succ_r in Hn; [|lia].
    split; [apply Z.div_str_pos; lia|apply Z.div_lt_upper_bound; lia].
Qed.

Lemma all_digits_spec l : all_digits l = forallb is_digit l.
Proof. by induction l as [|c l IH]; cbn; [|rw IH]. Qed.

Lemma span_all p l : forallb p l = true → span p l = (l, []).
Proof. by induction l as [|c l IH]; cbn; [|intros [-> Hl]%andb_true_iff; rw (IH Hl)]. Qed.

Lemma digit_number c : is_digit c = true → number_char c = true.
Proof. unfold number_char. by intros ->. Qed.

Lemma forallb_weaken {A} (p q : A → bool) l :
  (∀ x, p x = true → q x = true) → forallb p l = true → forallb q l = true.
Proof. intros Hpq. rw !forallb_forall. eauto. Qed.

(** The digits of a number: no needless zero in front, and its value. *)
Lemma nat_string_literal n :
  0 <= n → ∃ c l, chars (nat_string n) = c :: l ∧ forallb is_digit (c :: l) = true
    ∧ digits_value (c :: l) = n ∧ (l ≠ [] → c ≠ "0"%char).
Proof.
  intros Hn. destruct (nat_string_spec n Hn) as (ds & Hc & Hne & Had & Hv).
  destruct ds as [|c l]; [done|]. exists c, l. rw -all_digits_spec.
  split_and!; [done..|]. intros Hl. destruct (decide (n = 0)) as [->|Hn0].
  { vm_compute in Hc. injection Hc as _ Hx. by rewrite Hx in Hl. }
  destruct (digits_fuel_head (S (Z.to_nat (Z.log2 n))) n "") as (c' & l' & Hc' & Hne').
  { split; [lia|]. rw Nat2Z.inj_succ Z2Nat.id; [|apply Z.log2_nonneg]. apply Z.log2_spec. lia. }
  fold (nat_string n) in Hc'. rw Hc in Hc'. by injection Hc' as -> _.
Qed.

Lemma parse_number_digits (neg : bool) c l :
  forallb is_digit (c :: l) = true → (l ≠ [] → c ≠ "0"%char) →
  parse_number (sign_chars neg ++ c :: l) =
  let v := digits_value (c :: l) in
  Some (if neg then (if v =? 0 then JFloat (S754_zero true) else JInt (- v)) else JInt v).
Proof.
  intros Hd Hz. unfold parse_number.
  assert (match sign_chars neg ++ c :: l with
          | "-"%char :: l => (true, l) | _ => (false, sign_chars neg ++ c :: l) end
          = (neg, c :: l)) as ->.
  { destruct neg; [done|]. cbn in Hd |- *. apply andb_true_iff in Hd as [Hd _].
    by destruct c as [[] [] [] [] [] [] [] []]. }
  rw span_all; [|done].
  destruct l as [|d l]; [done|]. by rw (bool_decide_eq_false_2 (c = "0"%char)); [|apply Hz].
Qed.

Lemma Itoa_literal z :
  forallb number_char (chars (Itoa z)) = true ∧ parse_number (chars (Itoa z)) = Some (JInt z).
Proof.
  unfold Itoa. destruct (Z.ltb_spec z 0).
  - destruct (nat_string_literal (- z)) as (c & l & Hc & Hd & Hv & Hz); [lia|].
    cbn [chars]. rw Hc. split.
    + change (forallb number_char (c :: l) = true).
      by eapply forallb_weaken; [apply digit_number|].
    + change ("-"%char :: c :: l) with (sign_chars true ++ c :: l).
      rw (parse_number_digits true c l Hd Hz) Hv. cbv zeta iota.
      destruct (Z.eqb_spec (- z) 0); [lia|]. do 2 f_equal. lia.
  - destruct (nat_string_literal z) as (c & l & Hc & Hd & Hv & Hz); [lia|].
    rw Hc. split.
    + by eapply forallb_weaken; [apply digit_number|].
    + change (c :: l) with (sign_chars false ++ c :: l).
      by rw (parse_number_digits false c l Hd Hz) Hv.
Qed.

(** ** Values read back *)
Section JsonInd.
Context (P : json → Prop).
Context (Hnull : P JNull) (Hbool : ∀ b, P (JBool b)) (Hint : ∀ z, P (JInt z))
  (Hfloat : ∀ x, P (JFloat x)) (Hstr : ∀ s, P (JStr s))
  (Harr : ∀ l, Forall P l → P (JArr l)) (Hobj : ∀ fs, Forall (λ kv, P kv.2) fs → P (JObj fs)).

Lemma json_tree_ind : ∀ j, P j.
Proof using All.
  fix IH 1. intros [|b|z|x|s|l|fs].
  - exact Hnull.
  - apply Hbool.
  - apply Hint.
  - apply Hfloat.
  - apply Hstr.
  - apply Harr. induction l as [|j l IHl]; constructor; [apply IH|exact IHl].
  - apply Hobj. induction fs as [|[k j] fs IHl]; constructor; [apply IH|exact IHl].
Qed.
End JsonInd.

(** The text of a number is a literal the reader takes whole. *)
Definition literal_ok (x : f64) : bool :=
  let l := chars (float_text x) in
  forallb number_char l && (if parse_number l then true else false).

(** Documents whose text is read back: their strings are UTF-8 and their
    numbers are finite. *)
Fixpoint readable (j : json) : bool :=
  match j with
  | JFloat x => literal_ok x
  | JStr s => utf8 s
  | JArr l => forallb readable l
  | JObj fs => forallb (fun kv => utf8 kv.1 && readable kv.2) fs
  | _ => true
  end.
(** What is read: a number of integer spelling comes back as an integer. *)
Fixpoint read_back (j : json) : json :=
  match j with
  | JFloat x => default JNull (parse_number (chars (float_text x)))
  | JArr l => JArr (map read_back l)
  | JObj fs => JObj (map (fun kv => (kv.1, read_back kv.2)) fs)
  | j => j
  end.
Definition list_depth {A} (f : A → Z) (l : list A) : Z := foldr (fun x m => Z.max (f x) m) 0 l.
Fixpoint json_depth (j : json) : Z :=
  match j with
  | JArr l => 1 + list_depth json_depth l
  | JObj fs => 1 + list_depth (fun kv => json_depth kv.2) fs
  | _ => 0
  end.

(** The characters that may follow a value. *)
Definition ends (l : list ascii) : Prop := ∀ c l', l = c :: l' → number_char c = false.

Definition reads (d : Z) (t : list ascii) (j : json) (l : list ascii) : Prop :=
  ∀ fuel, (value_fuel t <= fuel)%nat → parse_value fuel d t = Some (j, l).

Lemma list_depth_cons {A} (f : A → Z) x l : list_depth f (x :: l) = Z.max (f x) (list_depth f l).
Proof. done. Qed.

Lemma number_char_class c :
  number_char c = true → is_blank c = false ∧ c ≠ "{"%char ∧ c ≠ "["%char ∧ c ≠ dquote
    ∧ c ≠ "t"%char ∧ c ≠ "f"%char ∧ c ≠ "n"%char ∧ c ≠ "]"%char ∧ c ≠ "}"%char.
Proof. by destruct c as [[] [] [] [] [] [] [] []]. Qed.

Lemma span_ends p l r :
  forallb p l = true → (∀ c l', r = c :: l' → p c = false) → span p (l ++ r) = (l, r).
Proof.
  intros Hl Hr. induction l as [|c l IH]; cbn in *.
  - destruct r as [|c r]; [done|]. cbn. by rw (Hr c r).
  - apply andb_true_iff in Hl as [-> Hl]. by rw (IH Hl).
Qed.

Lemma skip_blanks_head c l : is_blank c = false → skip_blanks (c :: l) = c :: l.
Proof. unfold skip_blanks. cbn. by intros ->. Qed.

(** A literal [t] of digits, signs, points and exponents. *)
Lemma reads_number d t j l :
  forallb number_char t = true → parse_number t = Some j → ends l → reads d (t ++ l) j l.
Proof.
  intros Ht Hj Hl [|fuel] Hf; [unfold value_fuel in Hf; lia|]. cbn [parse_value].
  destruct t as [|c t]; [done|]. cbn [app].
  pose proof Ht as Hc. cbn in Hc. apply andb_true_iff in Hc as [Hc _].
  apply number_char_class in Hc as (Hb & Hne1 & Hne2 & Hne3 & Hne4 & Hne5 & Hne6 & _).
  rw (skip_blanks_head _ _ Hb).
  do 6 (rw bool_decide_eq_false_2; [|done]).
  pose proof (span_ends number_char (c :: t) l Ht Hl) as Hs. cbn [app] in Hs. by rw Hs Hj.
Qed.

Lemma eat_head c l : is_blank c = false → eat c (c :: l) = Some l.
Proof. intros Hb. unfold eat. by rw (skip_blanks_head _ _ Hb) bool_decide_eq_true_2. Qed.
Lemma eat_other c x l : is_blank x = false → x ≠ c → eat c (x :: l) = None.
Proof. intros Hb Hne. unfold eat. by rw (skip_blanks_head _ _ Hb) bool_decide_eq_false_2. Qed.

Lemma ends_char c l : number_char c = false → ends (c :: l).
Proof. by intros Hc ? ? [= <- _]. Qed.

Lemma json_text_head j :
  readable j = true →
  ∃ c r, chars (json_text j) = c :: r ∧ is_blank c = false ∧ c ≠ "]"%char.
Proof.
  assert (∀ t, forallb number_char t = true → t ≠ [] →
    ∃ c r, t = c :: r ∧ is_blank c = false ∧ c ≠ "]"%char) as Hnum.
  { intros [|c t] Ht Hne; [done|]. exists c, t. cbn in Ht. apply andb_true_iff in Ht as [Hc _].
    apply number_char_class in Hc as (? & ? & ? & ? & ? & ? & ? & ? & ?). by split_and!. }
  destruct j as [|[]|z|x|s|l|fs]; cbn [readable json_text]; intros Hr;
    try (do 2 eexists; by split_and!).
  - destruct (Itoa_literal z) as [Ht Hp]. apply Hnum; [done|]. by eapply parse_number_ne.
  - unfold literal_ok in Hr. apply andb_true_iff in Hr as [Ht Hp]. apply Hnum; [done|].
    destruct (parse_number _) eqn:Hn; [|done]. by eapply parse_number_ne.
Qed.

Lemma list_depth_nonneg {A} (f : A → Z) l : 0 <= list_depth f l.
Proof. unfold list_depth. induction l; cbn; lia. Qed.

Definition value_reads (j : json) : Prop := ∀ d l,
  readable j = true → d + json_depth j <= max_depth → ends l →
  reads d (chars (json_text j) ++ l) (read_back j) l.

Lemma value_fuel_app a b : (value_fuel b + 2 * length a = value_fuel (a ++ b))%nat.
Proof. unfold value_fuel. rw length_app. lia. Qed.

Lemma reads_elements d l v vs fuel :
  Forall value_reads (v :: vs) → forallb readable (v :: vs) = true →
  d + list_depth json_depth (v :: vs) <= max_depth →
  (value_fuel (chars (Join "," (map json_text (v :: vs))) ++ "]"%char :: l) < fuel)%nat →
  parse_elements fuel d (chars (Join "," (map json_text (v :: vs))) ++ "]"%char :: l)
  = Some (map read_back (v :: vs), l).
Proof.
  revert v fuel. induction vs as [|v' vs IH]; intros v fuel Hvs Hr Hd Hf;
    inversion Hvs as [|? ? Hv Hvs']; subst; cbn [forallb] in Hr; rw list_depth_cons in Hd;
    apply andb_true_iff in Hr as [Hrv Hrs]; destruct fuel as [|fuel]; [lia| |lia|];
    cbn [parse_elements].
  - cbn [map Join] in *. rw Hv; [|done|lia|by apply ends_char|lia].
    by rw eat_other // eat_head.
  - change (Join "," (map json_text (v :: v' :: vs)))
      with (json_text v +:+ "," +:+ Join "," (map json_text (v' :: vs))) in *.
    rw !chars_app -app_assoc in Hf *. cbn [chars app] in Hf |- *.
    rw Hv; [|done|lia|by apply ends_char|lia].
    rw eat_head; [|done]. rw IH; [done..|lia|].
    rw -value_fuel_app in Hf. unfold value_fuel in *. cbn [length] in Hf. lia.
Qed.

(** One member of an object, up to what follows its value. *)
Lemma reads_member d k v l fuel :
  utf8 k = true → readable v = true → value_reads v → d + json_depth v <= max_depth → ends l →
  (value_fuel (chars (json_string k +:+ ":" +:+ json_text v) ++ l) <= S fuel)%nat →
  ∃ r, eat dquote (chars (json_string k +:+ ":" +:+ json_text v) ++ l) ≫= parse_string = Some (k, r)
    ∧ eat ":" r ≫= parse_value fuel d = Some (read_back v, l).
Proof.
  intros Hk Hrv Hv Hd Hl Hf. rw !chars_app -!app_assoc in Hf *.
  destruct (parse_string_json k (chars ":" ++ chars (json_text v) ++ l) Hk) as [He Hp].
  eexists. split; [rw He; exact Hp|]. cbn [chars app]. rw eat_head; [|done]. cbn [mbind option_bind].
  apply Hv; [done..|]. rw -!value_fuel_app in Hf *. cbn [length chars] in Hf.
  unfold json_string in Hf. rw chars_of_chars in Hf. cbn [length] in Hf. lia.
Qed.

Definition member_text (kv : string * json) : string :=
  json_string kv.1 +:+ ":" +:+ json_text kv.2.
Lemma member_text_head kv : ∃ t, chars (member_text kv) = dquote :: t.
Proof. unfold member_text, json_string. rw chars_app chars_of_chars. by eexists. Qed.

Definition member_back (kv : string * json) : string * json := (kv.1, read_back kv.2).

Lemma reads_members d l kv fs fuel :
  Forall (λ kv, value_reads kv.2) (kv :: fs) →
  forallb (fun kv => utf8 kv.1 && readable kv.2) (kv :: fs) = true →
  d + list_depth (fun kv => json_depth kv.2) (kv :: fs) <= max_depth →
  (value_fuel (chars (Join "," (map member_text (kv :: fs))) ++ "}"%char :: l) < fuel)%nat →
  parse_members fuel d (chars (Join "," (map member_text (kv :: fs))) ++ "}"%char :: l)
  = Some (map member_back (kv :: fs), l).
Proof.
  revert kv fuel. induction fs as [|kv' fs IH]; intros [k v] fuel Hvs Hr Hd Hf;
    inversion Hvs as [|? ? Hv Hvs']; subst; cbn [forallb fst snd] in Hr, Hv; rw list_depth_cons in Hd;
    apply andb_true_iff in Hr as [[Hk Hrv]%andb_true_iff Hrs]; destruct fuel as [|fuel]; [lia| |lia|];
    cbn [parse_members snd] in *.
  - cbn [map Join] in *. unfold member_text in *. cbn [fst snd] in *.
    destruct (reads_member d k v ("}"%char :: l) fuel) as (r & -> & ->); [done..|lia|by apply ends_char|lia|].
    by rw eat_other // eat_head.
  - change (Join "," (map member_text ((k, v) :: kv' :: fs)))
      with ((json_string k +:+ ":" +:+ json_text v) +:+ "," +:+ Join "," (map member_text (kv' :: fs))) in *.
    rw chars_app (chars_app ",") -app_assoc in Hf *. cbn [chars app] in Hf |- *.
    destruct (reads_member d k v (","%char :: chars (Join "," (map member_text (kv' :: fs))) ++ "}"%char :: l)
      fuel) as (r & -> & ->); [done..|lia|by apply ends_char|lia|].
    rw eat_head; [|done]. rw IH; [done..|lia|].
    rw -value_fuel_app in Hf. unfold value_fuel in *. cbn [length] in Hf. lia.
Qed.

Lemma all_values_read j : value_reads j.
Proof.
  induction j as [|b|z|x|s|l IH|fs IH] using json_tree_ind; intros d r Hr Hd Hends.
  - intros [|fuel] Hf; [unfold value_fuel in Hf; lia|done].
  - intros [|fuel] Hf; [unfold value_fuel in Hf; lia|]. by destruct b.
  - destruct (Itoa_literal z) as [Ht Hp]. by apply reads_number.
  - cbn [readable] in Hr. unfold literal_ok in Hr. apply andb_true_iff in Hr as [Ht Hp].
    apply reads_number; [done| |done]. cbn [read_back]. by destruct (parse_number _).
  - intros [|fuel] Hf; [unfold value_fuel in Hf; lia|]. cbn [json_text read_back] in *.
    destruct (parse_string_json s r Hr) as [He Hp].
    unfold json_string. rw chars_of_chars. cbn [app parse_value].
    rw skip_blanks_head; [|done]. cbn -[parse_string]. rw -app_assoc. cbn [app]. by rw Hp.
  - intros [|fuel] Hf; [unfold value_fuel in Hf; lia|]. cbn [json_text readable json_depth] in *.
    destruct l as [|v vs].
    { cbn -[max_depth]. by destruct (Z.ltb_spec max_depth (d + 1)); [cbn in Hd; lia|]. }
    rw !chars_app -!app_assoc in Hf *. cbn [chars app parse_value] in Hf |- *.
    rw skip_blanks_head; [|done].
    change (bool_decide ("["%char = "{"%char)) with false. change (bool_decide ("["%char = "["%char)) with true.
    cbn iota.
    pose proof (list_depth_nonneg json_depth (v :: vs)).
    destruct (Z.ltb_spec max_depth (d + 1)); [lia|].
    pose proof Hr as Hrv. cbn [forallb] in Hrv. apply andb_true_iff in Hrv as [Hrv _].
    destruct (json_text_head v Hrv) as (c & t & Hc & Hb & Hne).
    rw reads_elements; [|done..|lia|unfold value_fuel in *; cbn [length] in Hf; lia].
    assert (∃ t', chars (Join "," (map json_text (v :: vs))) ++ "]"%char :: r = c :: t') as [t' Ht'].
    { cbn [map Join]. destruct (map json_text vs); rw ?chars_app Hc; by eexists. }
    by rw Ht' eat_other.
  - intros [|fuel] Hf; [unfold value_fuel in Hf; lia|]. cbn [json_text readable json_depth] in *.
    destruct fs as [|kv fs].
    { cbn -[max_depth]. by destruct (Z.ltb_spec max_depth (d + 1)); [cbn in Hd; lia|]. }
    change (map (fun kv => json_string kv.1 +:+ ":" +:+ json_text kv.2)) with (map member_text) in *.
    rw !chars_app -!app_assoc in Hf *. cbn [chars app parse_value] in Hf |- *.
    rw skip_blanks_head; [|done].
    change (bool_decide ("{"%char = "{"%char)) with true. cbn iota.
    pose proof (list_depth_nonneg (fun kv : string * json => json_depth kv.2) (kv :: fs)).
    destruct (Z.ltb_spec max_depth (d + 1)); [lia|].
    rw reads_members; [|done..|lia|unfold value_fuel in *; cbn [length] in Hf; lia].
    assert (∃ t', chars (Join "," (map member_text (kv :: fs))) ++ "}"%char :: r = dquote :: t') as [t' Ht'].
    { destruct (member_text_head kv) as [t Ht]. cbn [map Join].
      destruct (map member_text fs); [|rw (chars_app (member_text kv))]; rw Ht; by eexists. }
    by rw Ht' eat_other.
Qed.

(** What [json.Marshal] wrote is read back. *)
Lemma parse_json_text j :
  readable j = true → json_depth j <= max_depth → parse_json (json_text j) = Some (read_back j).
Proof.
  intros Hr Hd. unfold parse_json.
  pose proof (all_values_read j 0 [] Hr ltac:(lia) ltac:(by intros ? ?) _ (Nat.le_refl _)) as Hp.
  by rw app_nil_r in Hp; rw Hp.
Qed.
