(* ===== verification/GoTime.v ===== *)
(** * Reading timestamps back ([time.Time.UnmarshalJSON])

    The strict RFC 3339 reader [encoding/json] uses for a [time.Time], and the
    proof that it reads what the writer wrote: the calendar conversion is
    inverted day by day, for every year the four digits of the format hold. *)
From S2P Require Import Prelude GoFloat GoStd Crypto GoText JsonText.

(** [n] digits and what follows them. *)
Definition take_digits (n : nat) (l : list ascii) : option (Z * list ascii) :=
  let ds := firstn n l in
  if (length ds =? n)%nat && all_digits ds then Some (digits_value ds, skipn n l) else None.
Definition take_char (c : ascii) (l : list ascii) : option (list ascii) :=
  match l with
  | x :: l => if bool_decide (x = c) then Some l else None
  | [] => None
  end.

Definition is_leap (y : Z) : bool :=
  (y mod 4 =? 0) && (negb (y mod 100 =? 0) || (y mod 400 =? 0)).
Definition days_in (y m : Z) : Z :=
  if m =? 2 then (if is_leap y then 29 else 28)
  else if (m =? 4) || (m =? 6) || (m =? 9) || (m =? 11) then 30 else 31.

(** A fraction of a second: digits past the ninth are dropped. *)
Definition take_fraction (l : list ascii) : option (Z * list ascii) :=
  match l with
  | "."%char :: l =>
      let '(ds, r) := span is_digit l in
      if bool_decide (ds = []) then None
      else let kept := firstn 9 ds in
           Some (digits_value kept * 10 ^ (9 - Z.of_nat (length kept)), r)
  | _ => Some (0, l)
  end.
(** [Z], or an offset [±hh:mm], in seconds east of UTC. *)
Definition take_zone (l : list ascii) : option Z :=
  match l with
  | ["Z"%char] => Some 0
  | s :: l =>
      if bool_decide (s = "+"%char) || bool_decide (s = "-"%char) then
        '(h, l) ← take_digits 2 l;
        l ← take_char ":" l;
        '(m, l) ← take_digits 2 l;
        if bool_decide (l = []) && (h <=? 23) && (m <=? 59)
        then Some ((if bool_decide (s = "-"%char) then -1 else 1) * (h * 3600 + m * 60))
        else None
      else None
  | [] => None
  end.

Definition Parse_RFC3339 (s : string) : option Z :=
  '(y, l) ← take_digits 4 (chars s); l ← take_char "-" l;
  '(m, l) ← take_digits 2 l; l ← take_char "-" l;
  '(d, l) ← take_digits 2 l; l ← take_char "T" l;
  '(hh, l) ← take_digits 2 l; l ← take_char ":" l;
  '(mm, l) ← take_digits 2 l; l ← take_char ":" l;
  '(ss, l) ← take_digits 2 l;
  '(ns, l) ← take_fraction l;
  offset ← take_zone l;
  if (1 <=? m) && (m <=? 12) && (1 <=? d) && (d <=? days_in y m)
     && (hh <=? 23) && (mm <=? 59) && (ss <=? 59)
  then Some (days_of_civil y m d * day_ns + (hh * 3600 + mm * 60 + ss - offset) * second_ns + ns)
  else None.

(** ** The calendar

    [civil_of_days] counts from the first of March of a year divisible by 400.
    The year of an era holds 365 days and its leap days; a day of the era finds
    its year by a quotient that never decreases, so that looking at the first
    and the last day of each year is enough. *)
Definition year_start (y : Z) : Z := 365 * y + y / 4 - y / 100.
Definition year_of (doe : Z) : Z := (doe - doe / 1460 + doe / 36524 - doe / 146096) / 365.

Lemma year_of_step doe : 0 <= doe < 146096 → year_of doe <= year_of (doe + 1).
Proof.
  intros Hd. unfold year_of. apply Z.div_le_mono; [lia|].
  assert (doe = 146095 ∨ doe + 1 < 146096) as [->|Hlt] by lia; [done|].
  rw (Z.div_small doe 146096); [|lia]. rw (Z.div_small (doe + 1) 146096); [|lia].
  assert ((doe + 1) / 1460 <= doe / 1460 + 1) by (Z.to_euclidean_division_equations; lia).
  assert (doe / 36524 <= (doe + 1) / 36524) by (apply Z.div_le_mono; lia). lia.
Qed.

Lemma year_of_mono a b : 0 <= a <= b → b <= 146096 → year_of a <= year_of b.
Proof.
  intros Hab Hb. replace b with (a + Z.of_nat (Z.to_nat (b - a))) in * by lia.
  induction (Z.to_nat (b - a)) as [|n IH]; [by rw Z.add_0_r|].
  transitivity (year_of (a + Z.of_nat n)); [apply IH; lia|].
  replace (a + Z.of_nat (S n)) with (a + Z.of_nat n + 1) by lia. apply year_of_step. lia.
Qed.

Definition year_ends_ok (y : Z) : bool :=
  (year_of (year_start y) =? y)
  && (year_of (if y =? 399 then 146096 else year_start (y + 1) - 1) =? y).

Lemma years_end_ok : forallb year_ends_ok (map Z.of_nat (seq 0 400)) = true.
Proof. vm_compute. reflexivity. Qed.

Lemma year_ends y : 0 <= y <= 399 → year_ends_ok y = true.
Proof.
  intros Hy. pose proof (proj1 (forallb_forall _ _) years_end_ok) as Hall. apply Hall.
  apply in_map_iff. exists (Z.to_nat y). split; [lia|]. apply in_seq. lia.
Qed.

Lemma year_of_spec doe y :
  0 <= y <= 399 → year_start y <= doe <= (if y =? 399 then 146096 else year_start (y + 1) - 1) →
  year_of doe = y.
Proof.
  intros Hy Hd. pose proof (year_ends y Hy) as He.
  apply andb_true_iff in He as [H1%Z.eqb_eq H2%Z.eqb_eq].
  assert (0 <= year_start y) by (unfold year_start; Z.to_euclidean_division_equations; lia).
  assert ((if y =? 399 then 146096 else year_start (y + 1) - 1) <= 146096) as Hmax.
  { destruct (Z.eqb_spec y 399); [lia|]. unfold year_start. Z.to_euclidean_division_equations; lia. }
  pose proof (year_of_mono (year_start y) doe) as Ha. pose proof (year_of_mono doe _ ltac:(split; [|apply Hd]; lia) Hmax).
  lia.
Qed.

(** The year a day of the era belongs to. *)
Lemma year_of_bounds doe :
  0 <= doe <= 146096 →
  0 <= year_of doe <= 399
  ∧ year_start (year_of doe) <= doe
      <= (if year_of doe =? 399 then 146096 else year_start (year_of doe + 1) - 1).
Proof.
  intros Hd.
  assert (∀ n : nat, (n <= 399)%nat → doe <= (if Z.of_nat n =? 399 then 146096 else year_start (Z.of_nat n + 1) - 1) →
    ∃ y, 0 <= y <= Z.of_nat n ∧ year_start y <= doe <= (if y =? 399 then 146096 else year_start (y + 1) - 1)) as Hfind.
  { induction n as [|n IH]; intros Hn Hle; [exists 0; change (year_start 0) with 0; split; [lia|]; split; [lia|exact Hle]|].
    destruct (Z.le_gt_cases (year_start (Z.of_nat (S n))) doe) as [Hge|Hlt].
    { exists (Z.of_nat (S n)). split; [lia|done]. }
    destruct IH as (y & Hy & Hb); [lia| |exists y; split; [lia|done]].
    destruct (Z.eqb_spec (Z.of_nat n) 399); [lia|].
    replace (Z.of_nat n + 1) with (Z.of_nat (S n)) by lia. lia. }
  destruct (Hfind 399%nat) as (y & Hy & Hb); [lia|exact (proj2 Hd)|]. change (Z.of_nat 399) with 399 in Hy.
  by rw (year_of_spec doe y Hy Hb).
Qed.

Ltac eval_tests :=
  repeat match goal with
  | |- context [?a =? ?b] =>
      let v := eval vm_compute in (a =? b) in
      first [constr_eq v true | constr_eq v false]; change (a =? b) with v; cbn iota
  | |- context [?a <? ?b] =>
      let v := eval vm_compute in (a <? b) in
      first [constr_eq v true | constr_eq v false]; change (a <? b) with v; cbn iota
  | |- context [?a <=? ?b] =>
      let v := eval vm_compute in (a <=? b) in
      first [constr_eq v true | constr_eq v false]; change (a <=? b) with v; cbn iota
  end; cbn [orb andb]; cbn iota.

(** The date of a day is a date of the calendar, and it counts back to the day. *)
Lemma civil_roundtrip days y m d :
  civil_of_days days = (y, m, d) → days_of_civil y m d = days ∧ 1 <= m <= 12 ∧ 1 <= d <= days_in y m.
Proof.
  unfold civil_of_days. set (z := days + 719468).
  fold (year_of (z mod 146097)).
  pose proof (Z.mod_pos_bound z 146097 ltac:(lia)) as Hdoe.
  pose proof (Z.div_mod z 146097 ltac:(lia)) as Hz.
  set (era := z / 146097) in *. set (doe := z mod 146097) in *.
  destruct (year_of_bounds doe) as [Hy Hb]; [lia|].
  set (yoe := year_of doe) in *. clearbody yoe era doe.
  replace (365 * yoe + yoe / 4 - yoe / 100) with (year_start yoe) by done.
  set (doy := doe - year_start yoe).
  assert (0 <= doy <= 365 ∧ (doy = 365 → (yoe + 1) mod 4 = 0 ∧ ((yoe + 1) mod 100 ≠ 0 ∨ yoe = 399))) as [Hdoy Hleap].
  { unfold doy. revert Hb. destruct (Z.eqb_spec yoe 399) as [->|Hne]; intros Hb.
    - change (year_start 399) with 145731 in *. split; [lia|]. intros _. by split; [|right].
    - unfold year_start in *. split; [Z.to_euclidean_division_equations; lia|].
      intros Hl. Z.to_euclidean_division_equations; lia. }
  assert (doe = year_start yoe + doy) as Hdoe' by (unfold doy; lia). clearbody doy.
  pose proof (Z.div_mod (5 * doy + 2) 153 ltac:(lia)) as Hdm.
  pose proof (Z.mod_pos_bound (5 * doy + 2) 153 ltac:(lia)) as Hmb.
  set (mp := (5 * doy + 2) / 153) in *. intros [= <- <- <-].
  clearbody mp. assert (0 <= mp <= 11) as Hmp by lia.
  assert (1 <= doy - (153 * mp + 2) / 5 + 1
          ∧ doy <= (153 * (mp + 1) + 2) / 5 - 1) as Hd.
  { clear - Hdm Hmb. split; Z.to_euclidean_division_equations; lia. }
  assert (era * 146097 + doe - 719468 = days) as Hdays by lia.
  assert ((yoe + era * 400) / 400 = era ∧ (yoe + era * 400) mod 400 = yoe) as [Hera Hyoe].
  { split; [rw Z.div_add; [rw Z.div_small; lia|lia]|rw Z.mod_add; [apply Z.mod_small; lia|lia]]. }
  assert (∀ k, (k = 4 ∨ k = 100 ∨ k = 400) → (yoe + era * 400 + 1) mod k = (yoe + 1) mod k) as Hmod.
  { intros k [->|[->| ->]];
      [replace (yoe + era * 400 + 1) with ((yoe + 1) + era * 100 * 4) by lia
      |replace (yoe + era * 400 + 1) with ((yoe + 1) + era * 4 * 100) by lia
      |replace (yoe + era * 400 + 1) with ((yoe + 1) + era * 400) by lia];
      (apply Z.mod_add; lia). }
  split.
  { unfold days_of_civil. destruct (Z.ltb_spec mp 10).
    - destruct (Z.leb_spec (mp + 3) 2); [lia|]. destruct (Z.ltb_spec 2 (mp + 3)); [|lia].
      rw Z.add_0_r Hera Hyoe. replace (mp + 3 - 3) with mp by lia. unfold year_start in Hdoe'. lia.
    - destruct (Z.leb_spec (mp - 9) 2); [|lia]. destruct (Z.ltb_spec 2 (mp - 9)); [lia|].
      replace (yoe + era * 400 + 1 - 1) with (yoe + era * 400) by lia.
      rw Hera Hyoe. replace (mp - 9 + 9) with mp by lia. unfold year_start in Hdoe'. lia. }
  assert (mp = 0 ∨ mp = 1 ∨ mp = 2 ∨ mp = 3 ∨ mp = 4 ∨ mp = 5 ∨ mp = 6 ∨ mp = 7 ∨ mp = 8 ∨ mp = 9
    ∨ mp = 10 ∨ mp = 11) as Hcase by lia. clear Hdm Hmb Hmp Hdays Hera Hyoe Hb.
  repeat (destruct Hcase as [->|Hcase];
    [unfold days_in; eval_tests; split; [lia|]; Z.to_euclidean_division_equations; lia|]).
  subst mp. unfold days_in, is_leap. eval_tests. split; [lia|]. rw !Hmod; [|lia..].
  assert (1 <= doy - (153 * 11 + 2) / 5 + 1 <= 29 ∧ (doy = 365 ∨ doy - (153 * 11 + 2) / 5 + 1 <= 28))
    as [Hd29 H365] by (Z.to_euclidean_division_equations; lia).
  destruct H365 as [H365|?]; [|case_match; lia].
  destruct (Hleap H365) as [-> [Hne| ->]]; [|done].
  by rw (proj2 (Z.eqb_neq _ _) Hne).
Qed.

(** ** The digits of a formatted time *)
Lemma digits_value_app a b :
  digits_value (a ++ b) = digits_value a * 10 ^ Z.of_nat (length b) + digits_value b.
Proof.
  induction b as [|c b IH] using rev_ind; [rw app_nil_r; cbn; lia|].
  rw app_assoc !digits_value_snoc IH length_app Nat2Z.inj_add Z.pow_add_r; [cbn; lia|lia..].
Qed.

Lemma digits_value_zeros k : digits_value (repeat "0"%char k) = 0.
Proof.
  induction k as [|k IH]; [done|]. replace (S k) with (k + 1)%nat by lia.
  by rw repeat_app digits_value_app IH.
Qed.

Lemma all_digits_app a b : all_digits (a ++ b) = all_digits a && all_digits b.
Proof. induction a as [|c a IH]; cbn; [done|]. by rw IH andb_assoc. Qed.

Lemma all_digits_zeros k : all_digits (repeat "0"%char k) = true.
Proof. by induction k. Qed.

Lemma digits_fuel_length fuel n acc w :
  n < 10 ^ Z.of_nat w → (1 <= w)%nat →
  (String.length (digits_fuel fuel n acc) <= w + String.length acc)%nat.
Proof.
  revert n acc w. induction fuel as [|fuel IH]; intros n acc w Hn Hw; cbn [digits_fuel]; [lia|].
  destruct (Z.ltb_spec n 10); [cbn; lia|]. destruct w as [|[|w]]; [lia|cbn in Hn; lia|].
  pose proof (IH (n / 10) (String (digit_char (n mod 10)) acc) (S w)) as Hlen. cbn [String.length] in Hlen.
  rw Nat2Z.inj_succ Z.pow_succ_r in Hn; [|lia].
  pose proof (Z.div_lt_upper_bound n 10 (10 ^ Z.of_nat (S w)) ltac:(lia) ltac:(lia)). lia.
Qed.

Lemma pad0_digits w n :
  0 <= n < 10 ^ Z.of_nat w → (1 <= w)%nat →
  length (chars (pad0 w n)) = w ∧ all_digits (chars (pad0 w n)) = true
  ∧ digits_value (chars (pad0 w n)) = n.
Proof.
  intros Hn Hw. unfold pad0. rw chars_of_chars.
  destruct (nat_string_spec n ltac:(lia)) as (ds & Hc & _ & Had & Hv).
  pose proof (digits_fuel_length (S (Z.to_nat (Z.log2 n))) n "" w ltac:(lia) Hw) as Hlen.
  fold (nat_string n) in Hlen. cbn [String.length] in Hlen.
  rw length_app repeat_length length_chars all_digits_app all_digits_zeros Hc Had
    digits_value_app digits_value_zeros Hv. split_and!; [lia|done|lia].
Qed.

Lemma take_digits_pad0 w n l :
  0 <= n < 10 ^ Z.of_nat w → (1 <= w)%nat → take_digits w (chars (pad0 w n) ++ l) = Some (n, l).
Proof.
  intros Hn Hw. destruct (pad0_digits w n Hn Hw) as (Hlen & Had & Hv). unfold take_digits.
  rw (take_app_length' _ _ w) // (drop_app_length' _ _ w) // Hlen Nat.eqb_refl Had Hv. done.
Qed.

Lemma trim_left_zeros l : ∃ k, l = repeat "0"%char k ++ trim_left_by (is_char "0") l.
Proof.
  induction l as [|c l [k IH]]; cbn; [by exists 0%nat|]. unfold is_char at 1. case_bool_decide as Hc.
  - exists (S k). cbn. by rw Hc {1}IH.
  - by exists 0%nat.
Qed.

Lemma trim_right_zeros l : ∃ k, l = trim_right_by (is_char "0") l ++ repeat "0"%char k.
Proof.
  destruct (trim_left_zeros (rev l)) as [k Hk]. exists k. unfold trim_right_by.
  rw -{1}(rev_involutive l) {1}Hk rev_app_distr. f_equal.
  clear. induction k as [|k IH]; [done|]. cbn. rw IH. clear IH.
  induction k as [|k IH]; [done|]. cbn. by rw IH.
Qed.

(** The fraction, with its trailing zeros dropped, is the nanoseconds. *)
Lemma take_fraction_frac t l :
  (∀ c l', l = c :: l' → is_digit c = false ∧ c ≠ "."%char) →
  take_fraction (chars (Format_frac 9 t) ++ l) = Some (t mod second_ns, l).
Proof.
  intros Hl. pose proof (Z.mod_pos_bound t second_ns ltac:(done)) as Hf.
  unfold Format_frac. change (9 - Z.of_nat 9) with 0. rw Z.pow_0_r Z.div_1_r.
  set (f := t mod second_ns) in *. clearbody f.
  destruct (pad0_digits 9 f) as (Hlen & Had & Hv); [change (10 ^ Z.of_nat 9) with second_ns; lia|lia|].
  destruct (trim_right_zeros (chars (pad0 9 f))) as [k Hk].
  set (ds := trim_right_by (is_char "0") (chars (pad0 9 f))) in *. clearbody ds.
  rw Hk digits_value_app digits_value_zeros repeat_length in Hv.
  rw Hk length_app repeat_length in Hlen. rw Hk all_digits_app in Had.
  apply andb_true_iff in Had as [Had _].
  destruct ds as [|d ds].
  { cbn in Hv. subst f. cbn [app chars take_fraction]. destruct l as [|c l]; [done|].
    destruct (Hl c l eq_refl) as [_ Hc]. clear Hl. by destruct c as [[] [] [] [] [] [] [] []]. }
  cbn [chars app take_fraction]. rw chars_of_chars.
  rw span_ends; [|by rw -all_digits_spec|intros c l' H; by destruct (Hl c l' H)].
  rw bool_decide_eq_false_2; [|done]. rw firstn_all2; [|lia].
  replace (9 - Z.of_nat (length (d :: ds))) with (Z.of_nat k) by lia. do 2 f_equal. lia.
Qed.

(** Times whose year fits the four digits, the ones [json.Marshal] writes. *)
Definition time_ok (t : Z) : bool := let '(y, _, _) := date_of t in (0 <=? y) && (y <=? 9999).

Lemma take_char_head c l : take_char c (c :: l) = Some l.
Proof. cbn. by rw bool_decide_eq_true_2. Qed.

Lemma days_in_bound y m : days_in y m <= 31.
Proof. unfold days_in. repeat case_match; lia. Qed.

Lemma clock_sum t :
  let '(h, m, s) := clock_of t in
  0 <= h <= 23 ∧ 0 <= m <= 59 ∧ 0 <= s <= 59
  ∧ (t / day_ns) * day_ns + (h * 3600 + m * 60 + s) * second_ns + t mod second_ns = t.
Proof.
  unfold clock_of, day_ns, second_ns. set (q := t / 1000000000).
  assert (t / (86400 * 1000000000) = q / 86400) as -> by (unfold q; rw Z.div_div; [f_equal; lia|lia..]).
  pose proof (Z.div_mod t 1000000000 ltac:(lia)) as Ht. fold q in Ht. clearbody q.
  pose proof (Z.div_mod q 86400 ltac:(lia)) as Hq.
  pose proof (Z.mod_pos_bound q 86400 ltac:(lia)) as Hs. set (s := q mod 86400) in *. clearbody s.
  assert (0 <= s / 3600 <= 23 ∧ 0 <= (s / 60) mod 60 <= 59 ∧ 0 <= s mod 60 <= 59
    ∧ s / 3600 * 3600 + (s / 60) mod 60 * 60 + s mod 60 = s) as (H1 & H2 & H3 & H4)
    by (Z.to_euclidean_division_equations; lia).
  split_and!; [lia..|]. rw H4. lia.
Qed.

Ltac take_field :=
  rw take_digits_pad0;
    [|first [change (10 ^ Z.of_nat 4) with 10000; lia|change (10 ^ Z.of_nat 2) with 100; lia]|lia];
  cbn [mbind option_bind]; rw ?take_char_head; cbn [mbind option_bind].

(** What [MarshalJSON] wrote, [UnmarshalJSON] reads. *)
Lemma Parse_Format_RFC3339Nano t :
  time_ok t = true → Parse_RFC3339 (Format_RFC3339Nano t) = Some t.
Proof.
  unfold time_ok, Parse_RFC3339, Format_RFC3339Nano, Format_date, Format_clock.
  destruct (date_of t) as [[y m] d] eqn:Hdate. intros [Hy0 Hy1]%andb_true_iff.
  apply Z.leb_le in Hy0, Hy1.
  pose proof (clock_sum t) as Hclock. destruct (clock_of t) as [[hh mm] ss].
  destruct Hclock as (Hhh & Hmm & Hss & Hsum).
  unfold date_of in Hdate. apply civil_roundtrip in Hdate as (Hdays & Hm & Hd).
  pose proof (days_in_bound y m).
  rw !chars_app -!app_assoc. cbn [chars app].
  do 6 take_field.
  rw take_fraction_frac; [|by intros ? ? [= <- <-]]. cbn [mbind option_bind take_zone].
  replace ((1 <=? m) && (m <=? 12) && (1 <=? d) && (d <=? days_in y m)
           && (hh <=? 23) && (mm <=? 59) && (ss <=? 59)) with true by lia.
  f_equal. rw Hdays. lia.
Qed.

(** ** A written time is ASCII *)
Definition ascii_text (l : list ascii) : bool := forallb (fun c => byte_of c <? 128) l.

Lemma ascii_runes fuel l :
  ascii_text l = true → forallb rune_valid (decode_utf8 fuel l) = true.
Proof.
  revert l. induction fuel as [|fuel IH]; intros [|c l]; cbn [decode_utf8]; [done..|].
  intros [Hc Hl]%andb_true_iff. rw Hc. cbn. by apply IH.
Qed.
Lemma ascii_utf8 s : ascii_text (chars s) = true → utf8 s = true.
Proof. apply ascii_runes. Qed.

Lemma digit_ascii c : is_digit c = true → byte_of c <? 128 = true.
Proof. by destruct c as [[] [] [] [] [] [] [] []]. Qed.
Lemma digits_ascii l : all_digits l = true → ascii_text l = true.
Proof. rw all_digits_spec. apply forallb_weaken, digit_ascii. Qed.
Lemma ascii_app a b : ascii_text (a ++ b) = ascii_text a && ascii_text b.
Proof. apply forallb_app. Qed.

Lemma pad0_ascii w n : 0 <= n < 10 ^ Z.of_nat w → (1 <= w)%nat → ascii_text (chars (pad0 w n)) = true.
Proof. intros Hn Hw. apply digits_ascii. by apply pad0_digits. Qed.

Lemma frac_ascii t : ascii_text (chars (Format_frac 9 t)) = true.
Proof.
  unfold Format_frac. change (9 - Z.of_nat 9) with 0. rw Z.pow_0_r Z.div_1_r.
  pose proof (Z.mod_pos_bound t second_ns ltac:(done)) as Hf. set (f := t mod second_ns) in *.
  pose proof (pad0_ascii 9 f ltac:(change (10 ^ Z.of_nat 9) with second_ns; lia) ltac:(lia)) as Ha.
  destruct (trim_right_zeros (chars (pad0 9 f))) as [k Hk]. rw Hk ascii_app in Ha.
  apply andb_true_iff in Ha as [Ha _]. destruct (trim_right_by _ _) as [|c l]; [done|].
  cbn [chars ascii_text forallb]. by rw chars_of_chars.
Qed.

Lemma time_text_utf8 t : time_ok t = true → utf8 (Format_RFC3339Nano t) = true.
Proof.
  unfold time_ok, Format_RFC3339Nano, Format_date, Format_clock. intros Ht. apply ascii_utf8.
  destruct (date_of t) as [[y m] d] eqn:Hdate. apply andb_true_iff in Ht as [Hy0 Hy1].
  apply Z.leb_le in Hy0, Hy1. pose proof (clock_sum t) as Hclock.
  destruct (clock_of t) as [[hh mm] ss]. destruct Hclock as (Hhh & Hmm & Hss & _).
  unfold date_of in Hdate. apply civil_roundtrip in Hdate as (_ & Hm & Hd).
  pose proof (days_in_bound y m).
  rw !chars_app !ascii_app frac_ascii.
  rw (pad0_ascii 4 y); [|change (10 ^ Z.of_nat 4) with 10000; lia|lia].
  by rw !pad0_ascii; [|change (10 ^ Z.of_nat 2) with 100; lia..].
Qed.
