(* ===== verification/Codec.v ===== *)
(** * [json.Marshal] and [json.Unmarshal] of Go values

    A [codec] says how a Go type is written as a JSON tree and how a tree is
    decoded into a variable of it.  Decoding starts from what the variable
    holds: [null] leaves a scalar alone and clears a pointer or a slice, a
    member of an object sets the field of its name (an exact match first, then
    one that ignores case), an unknown member is skipped.  [None] is the
    decoder's error.  [can_encode] is false where the encoder fails: a number
    that is not finite, a time whose year has not four digits.  [codec_ok] are the values that survive the trip: text
    that is UTF-8, times whose year has four digits, numbers that fit.

    A struct's codec is built from the table of its fields, in the order of the
    source; [struct_lawful] proves the round trip for every such table at
    once. *)
From Stdlib Require Import Floats.SpecFloat.
From S2P Require Import Prelude GoFloat GoStd GoText JsonText GoTime.

Record codec (T : Type) := mkCodec {
  enc : T → json;
  can_encode : T → bool;
  dec : json → T → option T;
  zero : T;
  codec_ok : T → bool }.
Arguments mkCodec {T}. Arguments enc {T}. Arguments can_encode {T}. Arguments dec {T}. Arguments zero {T}.
Arguments codec_ok {T}.

(** ** Scalars, pointers and slices *)
Definition c_string : codec string := {|
  enc := JStr;
  can_encode _ := true;
  dec j old := match j with JStr s => Some s | JNull => Some old | _ => None end;
  zero := "";
  codec_ok := utf8 |}.
Definition c_bool : codec bool := {|
  enc := JBool;
  can_encode _ := true;
  dec j old := match j with JBool b => Some b | JNull => Some old | _ => None end;
  zero := false;
  codec_ok _ := true |}.

(** [int]: a fraction, an exponent or a number past 64 bits is an error. *)
Definition in_int64 (z : Z) : bool := (int_min <=? z) && (z <=? int_max).
Definition c_int : codec Z := {|
  enc := JInt;
  can_encode _ := true;
  dec j old :=
    match j with
    | JInt z => if in_int64 z then Some z else None
    | JFloat (S754_zero true) => Some 0
    | JNull => Some old
    | _ => None
    end;
  zero := 0;
  codec_ok := in_int64 |}.

(** [float64]: a number past the largest is an error. *)
Definition dec_float (j : json) (old : f64) : option f64 :=
  match j with
  | JInt z => if is_finite (f_of_Z z) then Some (f_of_Z z) else None
  | JFloat x => if is_finite x then Some x else None
  | JNull => Some old
  | _ => None
  end.
Definition float_ok (x : f64) : bool :=
  literal_ok x && bool_decide (dec_float (read_back (JFloat x)) fzero = Some x).
Definition c_float : codec f64 :=
  {| enc := JFloat; can_encode := is_finite; dec := dec_float; zero := fzero; codec_ok := float_ok |}.

Definition c_time : codec Z := {|
  enc := JTime;
  can_encode := time_ok;
  dec j old := match j with JStr s => Parse_RFC3339 s | JNull => Some old | _ => None end;
  zero := time_zero;
  codec_ok := time_ok |}.

Definition c_ptr {T} (c : codec T) : codec (option T) := {|
  enc o := match o with Some v => enc c v | None => JNull end;
  can_encode o := match o with Some v => can_encode c v | None => true end;
  dec j old :=
    match j with
    | JNull => Some None
    | _ => v ← dec c j (default (zero c) old); Some (Some v)
    end;
  zero := None;
  codec_ok o := match o with Some v => codec_ok c v | None => true end |}.

Definition c_slice {T} (c : codec T) : codec (list T) := {|
  enc l := JArr (map (enc c) l);
  can_encode := forallb (can_encode c);
  dec j old :=
    match j with
    | JNull => Some []
    | JArr l => mapM (fun v => dec c v (zero c)) l
    | _ => None
    end;
  zero := [];
  codec_ok := forallb (codec_ok c) |}.

(** ** Structs *)
Record field (R : Type) := Field {
  f_name : string;
  f_type : Type;
  f_codec : codec f_type;
  f_get : R → f_type;
  f_set : f_type → R → R;
  f_omitempty : R → bool }.
Arguments Field {R} f_name {f_type}. Arguments f_name {R}. Arguments f_type {R}.
Arguments f_codec {R}. Arguments f_get {R}. Arguments f_set {R}. Arguments f_omitempty {R}.

(** A field without [omitempty] is always written. *)
Definition written {R} (r : R) : bool := false.

Section Struct.
Context {R : Type}.
Implicit Types (f : field R) (fs : list (field R)) (r : R).

Definition enc_field r f : list (string * json) :=
  if f_omitempty f r then [] else [(f_name f, enc (f_codec f) (f_get f r))].
Definition enc_struct fs r : json := JObj (flat_map (enc_field r) fs).

Fixpoint find_exact (name : string) fs : option (field R) :=
  match fs with
  | [] => None
  | f :: fs => if name =?s f_name f then Some f else find_exact name fs
  end.
Fixpoint find_folded (name : string) fs : option (field R) :=
  match fs with
  | [] => None
  | f :: fs => if ToLower name =?s ToLower (f_name f) then Some f else find_folded name fs
  end.
Definition find_field (name : string) fs : option (field R) :=
  match find_exact name fs with Some f => Some f | None => find_folded name fs end.

Definition dec_field f (j : json) r : option R :=
  v ← dec (f_codec f) j (f_get f r); Some (f_set f v r).
Fixpoint dec_members fs (members : list (string * json)) r : option R :=
  match members with
  | [] => Some r
  | (name, j) :: members =>
      match find_field name fs with
      | Some f => r ← dec_field f j r; dec_members fs members r
      | None => dec_members fs members r
      end
  end.
Definition dec_struct fs (j : json) r : option R :=
  match j with
  | JObj members => dec_members fs members r
  | JNull => Some r
  | _ => None
  end.
Definition field_ok r f : bool := utf8 (f_name f) && codec_ok (f_codec f) (f_get f r).
Definition c_struct fs (z : R) : codec R :=
  {| enc := enc_struct fs;
     can_encode r := forallb (fun f => f_omitempty f r || can_encode (f_codec f) (f_get f r)) fs;
     dec := dec_struct fs; zero := z;
     codec_ok r := forallb (field_ok r) fs |}.
End Struct.

(** ** Texts

    The text of a decoding error is not modelled; it stands as [json_error]. *)
Definition json_error : string := "invalid JSON".
Definition marshal {T} (c : codec T) (x : T) : option string :=
  if can_encode c x then Some (json_text (enc c x)) else None.
Definition unmarshal {T} (c : codec T) (text : string) : option T :=
  j ← parse_json text; dec c j (zero c).

(** ** The law

    What was written is readable and at most [d] levels deep, and decodes,
    into a variable that holds anything, to the value it was. *)
Record lawful {T} (d : Z) (c : codec T) : Prop := {
  law_readable : ∀ x, codec_ok c x = true → readable (enc c x) = true;
  law_encode : ∀ x, codec_ok c x = true → can_encode c x = true;
  law_depth : ∀ x, json_depth (enc c x) <= d;
  law_dec : ∀ x old, codec_ok c x = true → dec c (read_back (enc c x)) old = Some x }.

Lemma string_lawful : lawful 0 c_string.
Proof. by split. Qed.

Lemma bool_lawful : lawful 0 c_bool.
Proof. by split. Qed.

Lemma int_lawful : lawful 0 c_int.
Proof. split; [done..|]. cbn. by intros x old ->. Qed.

Lemma dec_float_finite j x : dec_float j fzero = Some x → is_finite x = true.
Proof. destruct j; cbn; [by intros [= <-]|done| | |done..]; case_match eqn:Hf; [|done| |done]; by intros [= <-]. Qed.

(** Decoding a number does not look at what the variable held. *)
Lemma dec_float_old j old x : j ≠ JNull → dec_float j old = Some x ↔ dec_float j fzero = Some x.
Proof. by destruct j. Qed.

Lemma parse_number_not_null l j : parse_number l = Some j → j ≠ JNull.
Proof.
  unfold parse_number. intros H ->. revert H. repeat (case_match; try done); by intros [= ?].
Qed.

Lemma float_lawful : lawful 0 c_float.
Proof.
  split; [| |done|].
  - cbn. unfold float_ok. by intros x [-> _]%andb_true_iff.
  - cbn. unfold float_ok. intros x [_ Hd%bool_decide_eq_true]%andb_true_iff.
    by eapply dec_float_finite.
  - cbn [codec_ok c_float dec enc]. unfold float_ok.
    intros x old [Hl Hd%bool_decide_eq_true]%andb_true_iff. apply dec_float_old; [|done].
    unfold literal_ok in Hl. apply andb_true_iff in Hl as [_ Hl]. cbn [read_back].
    destruct (parse_number _) eqn:Hp; [|done]. by eapply parse_number_not_null.
Qed.

Lemma ptr_lawful {T} d (c : codec T) :
  lawful d c → 0 <= d → (∀ x, codec_ok c x = true → read_back (enc c x) ≠ JNull) → lawful d (c_ptr c).
Proof.
  intros Hc Hd Hnn. split.
  - intros [x|] Hx; [by apply (law_readable _ _ Hc)|done].
  - intros [x|] Hx; [by apply (law_encode _ _ Hc)|done].
  - intros [x|]; [apply (law_depth _ _ Hc)|done].
  - intros [x|] old Hx; [|done]. cbn in *. pose proof (Hnn x Hx).
    pose proof (law_dec _ _ Hc x (default (zero c) old) Hx) as Hdec.
    destruct (read_back (enc c x)); [done|by rw Hdec..].
Qed.

Lemma list_depth_bound {A} (f : A → Z) l d :
  0 <= d → (∀ x, x ∈ l → f x <= d) → list_depth f l <= d.
Proof.
  intros Hd. induction l as [|x l IH]; intros Hl; [done|]. rw list_depth_cons.
  apply Z.max_lub; [apply Hl; by left|]. apply IH. intros y Hy. apply Hl. by right.
Qed.

Lemma slice_lawful {T} d (c : codec T) : lawful d c → 0 <= d → lawful (1 + d) (c_slice c).
Proof.
  intros Hc Hd. split.
  - intros l. cbn. rw !forallb_forall. intros Hl j [x [<- Hx]]%in_map_iff.
    apply (law_readable _ _ Hc). auto.
  - intros l. cbn. apply forallb_weaken, (law_encode _ _ Hc).
  - intros l. cbn. enough (list_depth json_depth (map (enc c) l) <= d) by lia.
    apply list_depth_bound; [done|]. intros j (x & -> & _)%list_elem_of_fmap. apply (law_depth _ _ Hc).
  - intros l old. cbn. clear old. induction l as [|x l IH]; [done|]. cbn.
    intros [Hx Hl]%andb_true_iff. rw (law_dec _ _ Hc x _ Hx). cbn. by rw (IH Hl).
Qed.

Section StructLaw.
Context {R : Type} (fs : list (field R)).
Implicit Types (f : field R) (r acc : R).

(** The fields written, set one after the other. *)
Definition set_written r : R → list (field R) → R :=
  foldl (fun acc f => if f_omitempty f r then acc else f_set f (f_get f r) acc).

Lemma find_exact_name f (l : list (field R)) :
  NoDup (map f_name l) → f ∈ l → find_exact (f_name f) l = Some f.
Proof.
  induction l as [|g l IH]; intros Hnd Hin; [by apply not_elem_of_nil in Hin|]. cbn in Hnd |- *.
  apply NoDup_cons in Hnd as [Hg Hnd]. apply elem_of_cons in Hin as [->|Hin].
  - by rw str_eqb_refl.
  - rw str_eqb_ne; [by apply IH|]. intros He. apply Hg. rw -He. by apply list_elem_of_fmap_2.
Qed.

Lemma dec_members_written d r l acc :
  NoDup (map f_name fs) → Forall (λ f, lawful d (f_codec f)) l → l ⊆ fs →
  forallb (field_ok r) l = true →
  dec_members fs (map member_back (flat_map (enc_field r) l)) acc = Some (set_written r acc l).
Proof.
  intros Hnd Hlaw. revert acc. induction Hlaw as [|f l Hf Hlaw IH]; intros acc Hsub Hok; [done|].
  cbn [forallb] in Hok. apply andb_true_iff in Hok as [Hfo Hok].
  unfold field_ok in Hfo. apply andb_true_iff in Hfo as [_ Hfo].
  assert (l ⊆ fs) as Hl by (intros g Hg; apply Hsub; by right).
  cbn [flat_map set_written foldl]. rw map_app. unfold enc_field at 1.
  destruct (f_omitempty f r); [by apply IH|].
  cbn [map app dec_members member_back fst snd]. unfold find_field.
  rw find_exact_name; [|done|apply Hsub; by left]. unfold dec_field.
  rw (law_dec _ _ Hf); [|done]. cbn [mbind option_bind]. by apply IH.
Qed.

(** A struct whose fields are set by their setters and have names of their own
    survives the trip. *)
Lemma struct_decodes d (z r old : R) :
  NoDup (map f_name fs) → Forall (λ f, lawful d (f_codec f)) fs →
  codec_ok (c_struct fs z) r = true → set_written r old fs = r →
  dec (c_struct fs z) (read_back (enc (c_struct fs z) r)) old = Some r.
Proof.
  intros Hnd Hlaw Hok Hset. cbn. rw -{2}Hset. by eapply dec_members_written.
Qed.

Lemma struct_readable d (z r : R) :
  Forall (λ f, lawful d (f_codec f)) fs → codec_ok (c_struct fs z) r = true →
  readable (enc (c_struct fs z) r) = true.
Proof.
  cbn. induction 1 as [|f l Hf _ IH]; [done|]. cbn [forallb flat_map].
  intros [Hfo Hok]%andb_true_iff. rw forallb_app IH // andb_true_r.
  unfold enc_field. destruct (f_omitempty f r); [done|]. cbn [forallb fst snd].
  unfold field_ok in Hfo. apply andb_true_iff in Hfo as [-> Hc].
  by rw (law_readable _ _ Hf _ Hc).
Qed.

Lemma struct_encodes d (z r : R) :
  Forall (λ f, lawful d (f_codec f)) fs → codec_ok (c_struct fs z) r = true →
  can_encode (c_struct fs z) r = true.
Proof.
  cbn. induction 1 as [|f l Hf _ IH]; [done|]. cbn [forallb].
  intros [Hfo Hok]%andb_true_iff. rw IH // andb_true_r.
  unfold field_ok in Hfo. apply andb_true_iff in Hfo as [_ Hc].
  by rw (law_encode _ _ Hf _ Hc) orb_true_r.
Qed.

Lemma struct_depth d (z r : R) :
  0 <= d → Forall (λ f, lawful d (f_codec f)) fs → json_depth (enc (c_struct fs z) r) <= 1 + d.
Proof.
  intros Hd Hlaw. cbn. enough (list_depth (fun kv => json_depth kv.2) (flat_map (enc_field r) fs) <= d)
    by lia.
  apply list_depth_bound; [done|]. intros kv (f & Hin & Hkv)%list_elem_of_In%in_flat_map.
  rw Forall_forall in Hlaw. apply list_elem_of_In in Hin. apply Hlaw in Hin.
  unfold enc_field in Hkv. destruct (f_omitempty f r); [done|]. destruct Hkv as [<-|[]].
  apply (law_depth _ _ Hin).
Qed.

Lemma struct_lawful d (z : R) :
  0 <= d → NoDup (map f_name fs) → Forall (λ f, lawful d (f_codec f)) fs →
  (∀ r old, set_written r old fs = r) → lawful (1 + d) (c_struct fs z).
Proof.
  intros Hd Hnd Hlaw Hset. split; intros r.
  - by apply struct_readable with d.
  - by apply struct_encodes with d.
  - by apply struct_depth.
  - intros old Hok. by apply struct_decodes with d.
Qed.
End StructLaw.

(** ** Reading a text back *)
Lemma unmarshal_read {T} (c : codec T) x :
  readable (enc c x) = true → json_depth (enc c x) <= max_depth →
  dec c (read_back (enc c x)) (zero c) = Some x → unmarshal c (json_text (enc c x)) = Some x.
Proof. intros Hr Hd Hdec. unfold unmarshal. by rw parse_json_text. Qed.

Lemma unmarshal_marshal {T} d (c : codec T) x :
  lawful d c → d <= max_depth → codec_ok c x = true →
  marshal c x = Some (json_text (enc c x)) ∧ unmarshal c (json_text (enc c x)) = Some x.
Proof.
  intros Hc Hd Hx. pose proof (law_depth _ _ Hc x). split.
  - unfold marshal. by rw (law_encode _ _ Hc).
  - apply unmarshal_read; [by apply (law_readable _ _ Hc)|lia|by apply (law_dec _ _ Hc)].
Qed.

(** ** Tables of fields: the proof every struct shares *)
Lemma lawful_mono {T} d d' (c : codec T) : lawful d c → d <= d' → lawful d' c.
Proof.
  intros Hc Hd. split; intros x; [by apply (law_readable _ _ Hc)|by apply (law_encode _ _ Hc)| |by apply (law_dec _ _ Hc)].
  pose proof (law_depth _ _ Hc x). lia.
Qed.

Lemma time_lawful : lawful 0 c_time.
Proof.
  split; [|done|done|].
  - apply time_text_utf8.
  - intros t old Ht. by apply Parse_Format_RFC3339Nano.
Qed.
