(* ===== verification/Stored.v ===== *)
(** * How the stored types are written

    The codec of every struct the Redis storage keeps: the table of its fields,
    their names in JSON and which of them are [omitempty], as the tags of
    [internal/models] give them.  [enc_T] says that it writes what [json_of_T]
    of [Models.v] does, [T_lawful] that what was written is read back.  The last
    theorem says so of all of them, whatever their text, numbers and times, as
    long as they are ones JSON can carry ([codec_ok]). *)
From S2P Require Import Prelude GoFloat GoStd GoText JsonText GoTime Codec Models.

(** [name] holds [p] and is always written; a string with [omitempty] is written
    unless it is empty. *)
Notation fld name c p := (Field name c p (fun v r => r <| p := v |>) written).
Notation fld_omitempty name p :=
  (Field name c_string p (fun v r => r <| p := v |>) (fun r => p r =?s "")).

(** Fields of scalar, pointer and slice types keep the law; so does a struct
    whose setters give the struct back. *)
Create HintDb codec.
#[export] Hint Resolve string_lawful bool_lawful int_lawful float_lawful time_lawful : codec.

Ltac codec_law :=
  lazymatch goal with
  | |- lawful _ (c_ptr _) =>
      apply ptr_lawful; [codec_law|lia|by intros]
  | |- lawful (1 + _) (c_slice _) => apply slice_lawful; [codec_law|lia]
  | |- lawful ?d (c_slice _) => apply (lawful_mono (1 + (d - 1))); [codec_law|lia]
  | |- _ => eapply lawful_mono; [solve [eauto with codec]|lia]
  end.
Ltac field_laws := repeat (apply Forall_cons; split; [cbn [f_codec]; codec_law|]); apply
    Forall_nil_2.
Ltac struct_law :=
  apply struct_lawful;
  [lia|by apply (bool_decide_unpack _); vm_compute|field_laws|intros [] []; reflexivity].

Definition fields_User : list (field User) := [
  fld "id" c_string User_ID;
  fld "email" c_string User_Email;
  fld "activated" c_bool User_Activated;
  fld "managed" c_bool User_Managed;
  fld "role" c_string User_Role;
  fld "features" (c_slice c_string) User_Features;
  fld "kyc_state" c_string User_KYCState;
  fld "risk_level" c_string User_RiskLevel;
  fld "is_profile_creation_disabled" c_bool User_IsProfileCreationDisabled;
  fld "created_at" c_time User_CreatedAt;
  fld "first_name" c_string User_FirstName;
  fld "middle_name" c_string User_MiddleName;
  fld "last_name" c_string User_LastName;
  fld "gender" c_string User_Gender;
  fld "birth_year" c_int User_BirthYear;
  fld "birth_month" c_int User_BirthMonth;
  fld "birth_day" c_int User_BirthDay;
  fld "birth_city" c_string User_BirthCity;
  fld "birth_country_code" c_string User_BirthCountryCode;
  fld "citizenship" c_string User_Citizenship;
  fld "address_street1" c_string User_AddressStreet1;
  fld "address_street2" c_string User_AddressStreet2;
  fld "address_city" c_string User_AddressCity;
  fld "address_postal_code" c_string User_AddressPostalCode;
  fld "address_subdivision" c_string User_AddressSubdivision;
  fld "address_country_code" c_string User_AddressCountryCode;
  fld "tax_residency" c_string User_TaxResidency;
  fld "expected_volume" c_string User_ExpectedVolume].
Definition c_User : codec User := c_struct fields_User zero_User.

Lemma enc_User r : enc c_User r = json_of_User r.
Proof. reflexivity. Qed.
Lemma User_lawful : lawful 2 c_User.
Proof. change 2 with (1 + 1). struct_law. Qed.
#[export] Hint Resolve User_lawful : codec.

Definition fields_CustomerDeliveryAddress : list (field CustomerDeliveryAddress) := [
  fld "id" c_string CustomerDeliveryAddress_ID;
  fld "sourceId" c_string CustomerDeliveryAddress_SourceID;
  fld "customerId" c_string CustomerDeliveryAddress_CustomerID;
  fld "customerSourceId" c_string CustomerDeliveryAddress_CustomerSourceID;
  fld "type" c_string CustomerDeliveryAddress_Type;
  fld "line1" c_string CustomerDeliveryAddress_Line1;
  fld "line2" (c_ptr c_string) CustomerDeliveryAddress_Line2;
  fld "line3" (c_ptr c_string) CustomerDeliveryAddress_Line3;
  fld "city" c_string CustomerDeliveryAddress_City;
  fld "postOffice" (c_ptr c_string) CustomerDeliveryAddress_PostOffice;
  fld "zipCode" c_string CustomerDeliveryAddress_ZipCode;
  fld "countryCode" c_string CustomerDeliveryAddress_CountryCode;
  fld "status" c_string CustomerDeliveryAddress_Status].
Definition c_CustomerDeliveryAddress : codec CustomerDeliveryAddress := c_struct
    fields_CustomerDeliveryAddress zero_CustomerDeliveryAddress.

Lemma enc_CustomerDeliveryAddress r : enc c_CustomerDeliveryAddress r =
    json_of_CustomerDeliveryAddress r.
Proof. reflexivity. Qed.
Lemma CustomerDeliveryAddress_lawful : lawful 1 c_CustomerDeliveryAddress.
Proof. change 1 with (1 + 0). struct_law. Qed.
#[export] Hint Resolve CustomerDeliveryAddress_lawful : codec.

Definition fields_Card : list (field Card) := [
  fld "id" c_string Card_ID;
  fld "sourceId" c_string Card_SourceID;
  fld "accountId" c_string Card_AccountID;
  fld "accountSourceId" c_string Card_AccountSourceID;
  fld "customerId" c_string Card_CustomerID;
  fld "customerSourceId" c_string Card_CustomerSourceID;
  fld "nameOnCard" c_string Card_NameOnCard;
  fld "productCode" c_string Card_ProductCode;
  fld "panToken" c_string Card_PanToken;
  fld "maskedPan" c_string Card_MaskedPan;
  fld "status" c_string Card_Status;
  fld "statusReasonCode" (c_ptr c_string) Card_StatusReasonCode;
  fld "lockLevel" (c_ptr c_string) Card_LockLevel;
  fld "expiryDate" c_string Card_ExpiryDate;
  fld "relationType" c_string Card_RelationType;
  fld "membershipFeeEffectiveDate" (c_ptr c_string) Card_MembershipFeeEffectiveDate;
  fld "isFirstTimeLock" c_bool Card_IsFirstTimeLock;
  fld "plasticCreated" c_bool Card_PlasticCreated;
  fld "OrderPlasticOnSync" c_bool Card_OrderPlasticOnSync;
  fld "createdAt" c_time Card_CreatedAt].
Definition c_Card : codec Card := c_struct fields_Card zero_Card.

Lemma enc_Card r : enc c_Card r = json_of_Card r.
Proof. reflexivity. Qed.
Lemma Card_lawful : lawful 1 c_Card.
Proof. change 1 with (1 + 0). struct_law. Qed.
#[export] Hint Resolve Card_lawful : codec.

Definition fields_Account : list (field Account) := [
  fld "id" (c_ptr c_string) Account_ID;
  fld "sourceId" c_string Account_SourceID;
  fld "customerId" (c_ptr c_string) Account_CustomerID;
  fld "customerSourceId" c_string Account_CustomerSourceID;
  fld "productCode" c_string Account_ProductCode;
  fld "currency" c_string Account_Currency;
  fld "accountNumber" c_string Account_AccountNumber;
  fld "type" c_string Account_Type;
  fld "status" c_string Account_Status;
  fld "statusReasonCode" c_string Account_StatusReasonCode;
  fld "cards" (c_slice c_Card) Account_Cards;
  fld "createdAt" c_time Account_CreatedAt].
Definition c_Account : codec Account := c_struct fields_Account zero_Account.

Lemma enc_Account r : enc c_Account r = json_of_Account r.
Proof. reflexivity. Qed.
Lemma Account_lawful : lawful 3 c_Account.
Proof. change 3 with (1 + 2). struct_law. Qed.
#[export] Hint Resolve Account_lawful : codec.

Definition fields_Customer : list (field Customer) := [
  fld "id" (c_ptr c_string) Customer_ID;
  fld "sourceId" c_string Customer_SourceID;
  fld "type" c_string Customer_Type;
  fld "code" c_string Customer_Code;
  fld "taxNumber" c_string Customer_TaxNumber;
  fld "kycStatus" c_string Customer_KYCStatus;
  fld "addresses" (c_slice c_CustomerDeliveryAddress) Customer_Addresses;
  fld "accounts" (c_slice c_Account) Customer_Accounts;
  fld "createdAt" c_time Customer_CreatedAt].
Definition c_Customer : codec Customer := c_struct fields_Customer zero_Customer.

Lemma enc_Customer r : enc c_Customer r = json_of_Customer r.
Proof. reflexivity. Qed.
Lemma Customer_lawful : lawful 5 c_Customer.
Proof. change 5 with (1 + 4). struct_law. Qed.
#[export] Hint Resolve Customer_lawful : codec.

Definition fields_CardLimit : list (field CardLimit) := [
  fld "type" c_string CardLimit_Type;
  fld "limit" c_float CardLimit_Limit;
  fld "currency" c_string CardLimit_Currency;
  fld "isDisabled" c_bool CardLimit_IsDisabled].
Definition c_CardLimit : codec CardLimit := c_struct fields_CardLimit zero_CardLimit.

Lemma enc_CardLimit r : enc c_CardLimit r = json_of_CardLimit r.
Proof. reflexivity. Qed.
Lemma CardLimit_lawful : lawful 1 c_CardLimit.
Proof. change 1 with (1 + 0). struct_law. Qed.
#[export] Hint Resolve CardLimit_lawful : codec.

Definition fields_MastercardConversion : list (field MastercardConversion) := [
  fld "convRate" (c_ptr c_string) MastercardConversion_ConvRate;
  fld "refConRate" (c_ptr c_string) MastercardConversion_RefConRate;
  fld "refConfRateDiff" (c_ptr c_string) MastercardConversion_RefConfRateDiff].
Definition c_MastercardConversion : codec MastercardConversion := c_struct
    fields_MastercardConversion zero_MastercardConversion.

Lemma enc_MastercardConversion r : enc c_MastercardConversion r = json_of_MastercardConversion r.
Proof. reflexivity. Qed.
Lemma MastercardConversion_lawful : lawful 1 c_MastercardConversion.
Proof. change 1 with (1 + 0). struct_law. Qed.
#[export] Hint Resolve MastercardConversion_lawful : codec.

Definition fields_CardTransaction : list (field CardTransaction) := [
  fld "id" (c_ptr c_int) CardTransaction_ID;
  fld "vaultId" (c_ptr c_int) CardTransaction_VaultID;
  fld "cardId" (c_ptr c_int) CardTransaction_CardID;
  fld "transactionId" c_string CardTransaction_TransactionID;
  fld "refTransactionId" (c_ptr c_string) CardTransaction_RefTransactionID;
  fld "responseCode" (c_ptr c_string) CardTransaction_ResponseCode;
  fld "ghResponseCode" c_string CardTransaction_GHResponseCode;
  fld "ghResponseDescription" c_string CardTransaction_GHResponseDescription;
  fld "transactionAmount" (c_ptr c_string) CardTransaction_TransactionAmount;
  fld "transactionCurrency" (c_ptr c_string) CardTransaction_TransactionCurrency;
  fld "billingAmount" (c_ptr c_string) CardTransaction_BillingAmount;
  fld "billingCurrency" (c_ptr c_string) CardTransaction_BillingCurrency;
  fld "isTrxAmountConverted" c_bool CardTransaction_IsTrxAmountConverted;
  fld "terminalId" c_string CardTransaction_TerminalID;
  fld "cardScheme" c_int CardTransaction_CardScheme;
  fld "type" c_int CardTransaction_Type;
  fld "source" (c_ptr c_string) CardTransaction_Source;
  fld "entryMode" (c_ptr c_int) CardTransaction_EntryMode;
  fld "authorizationCode" (c_ptr c_string) CardTransaction_AuthorizationCode;
  fld "splitIntoMultiple" (c_ptr c_bool) CardTransaction_SplitIntoMultiple;
  fld "authentication" (c_ptr c_int) CardTransaction_Authentication;
  fld "authenticationProtocol" (c_ptr c_int) CardTransaction_AuthenticationProtocol;
  fld "wallet" (c_ptr c_int) CardTransaction_Wallet;
  fld "transactionDateTime" (c_ptr c_string) CardTransaction_TransactionDateTime;
  fld "processDateTime" (c_ptr c_string) CardTransaction_ProcessDateTime;
  fld "createdAt" c_string CardTransaction_CreatedAt;
  fld "txStatus" (c_ptr c_string) CardTransaction_TxStatus;
  fld "operation" c_int CardTransaction_Operation;
  fld "mcc" (c_ptr c_string) CardTransaction_Mcc;
  fld "merchantStreet" (c_ptr c_string) CardTransaction_MerchantStreet;
  fld "merchantCity" (c_ptr c_string) CardTransaction_MerchantCity;
  fld "merchantZip" (c_ptr c_string) CardTransaction_MerchantZip;
  fld "merchantCountry" (c_ptr c_string) CardTransaction_MerchantCountry;
  fld "merchantName" (c_ptr c_string) CardTransaction_MerchantName;
  fld "merchantId" (c_ptr c_string) CardTransaction_MerchantID;
  fld "transactionClassification" (c_ptr c_string) CardTransaction_TransactionClassification;
  fld "spendExchangeRate" (c_ptr c_string) CardTransaction_SpendExchangeRate;
  fld "spendCurrency" (c_ptr c_string) CardTransaction_SpendCurrency;
  fld "mastercardConversion" (c_ptr c_MastercardConversion) CardTransaction_MastercardConversion].
Definition c_CardTransaction : codec CardTransaction := c_struct fields_CardTransaction
    zero_CardTransaction.

Lemma enc_CardTransaction r : enc c_CardTransaction r = json_of_CardTransaction r.
Proof. reflexivity. Qed.
Lemma CardTransaction_lawful : lawful 2 c_CardTransaction.
Proof. change 2 with (1 + 1). struct_law. Qed.
#[export] Hint Resolve CardTransaction_lawful : codec.

Definition fields_Wallet : list (field Wallet) := [
  fld "address" c_string Wallet_Address;
  fld "user_id" c_string Wallet_UserID;
  fld "name" c_string Wallet_Name;
  fld "type" c_int Wallet_Type;
  fld "network" c_int Wallet_Network;
  fld "created_at" c_time Wallet_CreatedAt].
Definition c_Wallet : codec Wallet := c_struct fields_Wallet zero_Wallet.

Lemma enc_Wallet r : enc c_Wallet r = json_of_Wallet r.
Proof. reflexivity. Qed.
Lemma Wallet_lawful : lawful 1 c_Wallet.
Proof. change 1 with (1 + 0). struct_law. Qed.
#[export] Hint Resolve Wallet_lawful : codec.

Definition fields_Transaction : list (field Transaction) := [
  fld "uuid" c_string Transaction_ID;
  fld "user_id" c_string Transaction_UserID;
  fld "uid" c_string Transaction_UID;
  fld "amount" c_string Transaction_Amount;
  fld "total_amount" c_string Transaction_TotalAmount;
  fld "fee" c_string Transaction_Fee;
  fld "currency" c_string Transaction_Currency;
  fld "vault_uuid" c_string Transaction_VaultUUID;
  fld "sending_address" c_string Transaction_SendingAddress;
  fld "receiving_address" c_string Transaction_ReceivingAddress;
  fld "type" c_int Transaction_Type;
  fld "deposit_type" c_string Transaction_DepositType;
  fld "status" c_int Transaction_Status;
  fld "created_at" c_time Transaction_CreatedAt;
  fld_omitempty "account_iban" Transaction_AccountIBAN;
  fld_omitempty "account_legal_name" Transaction_AccountLegalName;
  fld_omitempty "message" Transaction_Message].
Definition c_Transaction : codec Transaction := c_struct fields_Transaction zero_Transaction.

Lemma enc_Transaction r : enc c_Transaction r = json_of_Transaction r.
Proof.
  destruct r. unfold json_of_Transaction, enc, c_Transaction, c_struct, enc_struct, enc_field.
  cbn -[str_eqb]. by repeat (case_match; cbn -[str_eqb]).
Qed.

(** An empty field that was left out is empty again in the variable the decoder
    starts from, as [unmarshal] does. *)
Lemma Transaction_decodes r :
  codec_ok c_Transaction r = true →
  dec c_Transaction (read_back (enc c_Transaction r)) zero_Transaction = Some r.
Proof.
  intros Hok. eapply (struct_decodes _ 0); [by apply (bool_decide_unpack _);
    vm_compute|field_laws|exact Hok|].
  destruct r. cbn -[str_eqb]. by repeat (case_match; case_go; subst; cbn -[str_eqb]).
Qed.

Definition fields_ThreeDSChallenge : list (field ThreeDSChallenge) := [
  fld "transactionId" c_string ThreeDSChallenge_TransactionID;
  fld "cardId" c_string ThreeDSChallenge_CardID;
  fld "userId" c_string ThreeDSChallenge_UserID;
  fld "merchantName" c_string ThreeDSChallenge_MerchantName;
  fld "purchaseAmount" c_string ThreeDSChallenge_PurchaseAmount;
  fld "purchaseCurrency" c_string ThreeDSChallenge_PurchaseCurrency;
  fld "purchaseDate" c_string ThreeDSChallenge_PurchaseDate;
  fld "timeout" c_time ThreeDSChallenge_Timeout;
  fld "status" c_string ThreeDSChallenge_Status;
  fld "createdAt" c_time ThreeDSChallenge_CreatedAt].
Definition c_ThreeDSChallenge : codec ThreeDSChallenge := c_struct fields_ThreeDSChallenge
    zero_ThreeDSChallenge.

Lemma enc_ThreeDSChallenge r : enc c_ThreeDSChallenge r = json_of_ThreeDSChallenge r.
Proof. reflexivity. Qed.
Lemma ThreeDSChallenge_lawful : lawful 1 c_ThreeDSChallenge.
Proof. change 1 with (1 + 0). struct_law. Qed.
#[export] Hint Resolve ThreeDSChallenge_lawful : codec.

Definition fields_Organization : list (field Organization) := [
  fld "id" c_string Organization_ID;
  fld "apiBaseUrl" c_string Organization_APIBaseURL;
  fld "type2fa" c_string Organization_TwoFAType;
  fld "createdAt" c_time Organization_CreatedAt;
  fld "updatedAt" c_time Organization_UpdatedAt].
Definition c_Organization : codec Organization := c_struct fields_Organization zero_Organization.

Lemma enc_Organization r : enc c_Organization r = json_of_Organization r.
Proof. reflexivity. Qed.
Lemma Organization_lawful : lawful 1 c_Organization.
Proof. change 1 with (1 + 0). struct_law. Qed.
#[export] Hint Resolve Organization_lawful : codec.

(** ** Objects that survive their storage

    [faithful c x]: [json.Marshal] accepts [x], and [json.Unmarshal] gives it
    back. *)
Definition faithful {T} (c : codec T) (x : T) : Prop :=
  marshal c x = Some (json_text (enc c x)) ∧ unmarshal c (json_text (enc c x)) = Some x.

Lemma lawful_faithful {T} d (c : codec T) x :
  lawful d c → d <= max_depth → codec_ok c x = true → faithful c x.
Proof. apply unmarshal_marshal. Qed.

Lemma Transaction_faithful r : codec_ok c_Transaction r = true → faithful c_Transaction r.
Proof.
  intros Hok. split.
  - unfold marshal. rw (struct_encodes _ 0); [done|field_laws|exact Hok].
  - apply unmarshal_read; [by apply (struct_readable _ 0); [field_laws|]| |by apply
    Transaction_decodes].
    transitivity (1 + 0); [apply struct_depth; [lia|field_laws]|done].
Qed.

Lemma User_faithful r : codec_ok c_User r = true → faithful c_User r.
Proof. by apply (lawful_faithful _ _ _ User_lawful). Qed.
Lemma CustomerDeliveryAddress_faithful r : codec_ok c_CustomerDeliveryAddress r = true → faithful
    c_CustomerDeliveryAddress r.
Proof. by apply (lawful_faithful _ _ _ CustomerDeliveryAddress_lawful). Qed.
Lemma Card_faithful r : codec_ok c_Card r = true → faithful c_Card r.
Proof. by apply (lawful_faithful _ _ _ Card_lawful). Qed.
Lemma Account_faithful r : codec_ok c_Account r = true → faithful c_Account r.
Proof. by apply (lawful_faithful _ _ _ Account_lawful). Qed.
Lemma Customer_faithful r : codec_ok c_Customer r = true → faithful c_Customer r.
Proof. by apply (lawful_faithful _ _ _ Customer_lawful). Qed.
Lemma CardLimit_faithful r : codec_ok c_CardLimit r = true → faithful c_CardLimit r.
Proof. by apply (lawful_faithful _ _ _ CardLimit_lawful). Qed.
Lemma MastercardConversion_faithful r : codec_ok c_MastercardConversion r = true → faithful
    c_MastercardConversion r.
Proof. by apply (lawful_faithful _ _ _ MastercardConversion_lawful). Qed.
Lemma CardTransaction_faithful r : codec_ok c_CardTransaction r = true → faithful
    c_CardTransaction r.
Proof. by apply (lawful_faithful _ _ _ CardTransaction_lawful). Qed.
Lemma Wallet_faithful r : codec_ok c_Wallet r = true → faithful c_Wallet r.
Proof. by apply (lawful_faithful _ _ _ Wallet_lawful). Qed.
Lemma ThreeDSChallenge_faithful r : codec_ok c_ThreeDSChallenge r = true → faithful
    c_ThreeDSChallenge r.
Proof. by apply (lawful_faithful _ _ _ ThreeDSChallenge_lawful). Qed.
Lemma Organization_faithful r : codec_ok c_Organization r = true → faithful c_Organization r.
Proof. by apply (lawful_faithful _ _ _ Organization_lawful). Qed.
#[export] Hint Resolve User_faithful CustomerDeliveryAddress_faithful Card_faithful
    Account_faithful Customer_faithful CardLimit_faithful MastercardConversion_faithful
    CardTransaction_faithful Wallet_faithful Transaction_faithful ThreeDSChallenge_faithful
    Organization_faithful : codec.


(** A user with text outside ASCII, a transaction with a fraction. *)
Definition demo_user : User :=
  zero_User <| User_ID := "u1" |> <| User_Email := "zoë@example.com" |>
    <| User_Features := ["wallet"; "a\b"] |> <| User_BirthYear := 1980 |>.
Definition demo_transaction : Transaction :=
  zero_Transaction <| Transaction_ID := "t1" |> <| Transaction_Status := 100 |>.

