(* ===== verification/World.v ===== *)
(** * The state of the process

    The object heap, the environment and the [World] a request runs in.

    Records the source passes around by pointer and mutates in place (users,
    customers, accounts, cards, card transactions, transactions and 3DS
    challenges) live in a heap, so that two holders of one pointer see each
    other's writes; wallets, delivery addresses and organizations, which are
    never mutated through a shared pointer, are plain values.

    Everything the code asks the outside world for is numbered: the [k]-th
    reading of the clock, the [k]-th UUID, the [k]-th random draw, the [k]-th
    iteration over a Go map and the [k]-th outgoing HTTP request. *)
From S2P Require Import Prelude GoFloat GoStd GoText Models Config.

(** ** Heap *)
Abbreviation loc := positive.

Record Heap := mkHeap {
  heap_next : loc;
  heap_users : gmap loc User;
  heap_customers : gmap loc Customer;
  heap_accounts : gmap loc Account;
  heap_cards : gmap loc Card;
  heap_cardtxs : gmap loc CardTransaction;
  heap_txs : gmap loc Transaction;
  heap_challenges : gmap loc ThreeDSChallenge }.
#[export] Instance eta_Heap : Eta Heap := fun r =>
  mkHeap (heap_next r) (heap_users r) (heap_customers r) (heap_accounts r) (heap_cards r)
    (heap_cardtxs r) (heap_txs r) (heap_challenges r).

Definition empty_heap : Heap := mkHeap 1 ∅ ∅ ∅ ∅ ∅ ∅ ∅.

(** Where objects of one type live. *)
Class Cell (T : Type) := {
  cells : Heap → gmap loc T;
  with_cells : gmap loc T → Heap → Heap;
  cells_with : ∀ m h, cells (with_cells m h) = m;
  next_with : ∀ m h, heap_next (with_cells m h) = heap_next h }.

#[export] Program Instance cell_User : Cell User :=
  {| cells := heap_users; with_cells m h := h <| heap_users := m |> |}.
Solve Obligations with done.
#[export] Program Instance cell_Customer : Cell Customer :=
  {| cells := heap_customers; with_cells m h := h <| heap_customers := m |> |}.
Solve Obligations with done.
#[export] Program Instance cell_Account : Cell Account :=
  {| cells := heap_accounts; with_cells m h := h <| heap_accounts := m |> |}.
Solve Obligations with done.
#[export] Program Instance cell_Card : Cell Card :=
  {| cells := heap_cards; with_cells m h := h <| heap_cards := m |> |}.
Solve Obligations with done.
#[export] Program Instance cell_CardTransaction : Cell CardTransaction :=
  {| cells := heap_cardtxs; with_cells m h := h <| heap_cardtxs := m |> |}.
Solve Obligations with done.
#[export] Program Instance cell_Transaction : Cell Transaction :=
  {| cells := heap_txs; with_cells m h := h <| heap_txs := m |> |}.
Solve Obligations with done.
#[export] Program Instance cell_Challenge : Cell ThreeDSChallenge :=
  {| cells := heap_challenges; with_cells m h := h <| heap_challenges := m |> |}.
Solve Obligations with done.

Definition heap_alloc {T} `{!Cell T} (x : T) (h : Heap) : loc * Heap :=
  (heap_next h, with_cells (<[heap_next h := x]> (cells h)) h <| heap_next := Pos.succ (heap_next h) |>).
Definition heap_write {T} `{!Cell T} (l : loc) (x : T) (h : Heap) : Heap :=
  with_cells (<[l := x]> (cells h)) h.

(** ** Fee configuration, goroutines, webhook jobs, received webhooks *)
Record userFeeOverride := mkOverride {
  depositPercent : option f64;
  withdrawalPercent : option f64 }.
#[export] Instance eta_override : Eta userFeeOverride := fun r =>
  mkOverride (depositPercent r) (withdrawalPercent r).

Record FeeConfig := mkFeeConfig {
  depositFeePercent : f64;
  withdrawalFeePercent : f64;
  userOverrides : gmap string userFeeOverride }.
#[export] Instance eta_FeeConfig : Eta FeeConfig := fun r =>
  mkFeeConfig (depositFeePercent r) (withdrawalFeePercent r) (userOverrides r).

(** [webhook.Queue]: its minimum delay, in nanoseconds. *)
Record Queue := mkQueue { minDelay : Z }.

(** [webhook.Manager]; a nil queue is [None], and its storage is the world's. *)
Record Manager := mkManager {
  webhookURL : string;
  webhookSecret : string;
  queue : option Queue;
  defaultOrganizationID : string }.

(** [webhook.StreamJob] *)
Record StreamJob := mkStreamJob {
  MessageID : string;
  JobID : string;
  EventType : string;
  UserID : string;
  Data : list (string * json);
  Attempts : Z;
  CreatedAt : string;
  LastError : string }.
#[export] Instance eta_StreamJob : Eta StreamJob := fun r =>
  mkStreamJob (MessageID r) (JobID r) (EventType r) (UserID r) (Data r) (Attempts r)
    (CreatedAt r) (LastError r).

(** Goroutines a handler started and that have not run yet. *)
Record Completion := mkCompletion {
  c_txID : string;
  c_userID : string;
  c_currency : string;
  c_amount : f64;
  c_feeAmount : f64;
  c_depositType : string;
  c_receivingAddr : string;
  c_isDebit : bool;
  c_hasWebhook : bool }.
Inductive Task : Type :=
| TComplete (c : Completion)
| TSendAsync (eventType userID : string) (data : list (string * json)) (offset : f64).

Record ReceivedWebhook := mkReceived {
  ReceivedAt : Z;
  ReceivedEventType : string;
  UserUUID : string;
  SignatureValid : bool;
  Payload : option (list (string * json));
  Body : string }.

(** ** Environment *)
Record HttpRequest := mkRequest {
  hr_method : string;
  hr_url : string;
  hr_headers : list (string * string);
  hr_body : string }.
(** An answered request carries its status code, its status line and its body
    as a JSON document, or the decoder's syntax error. *)
Inductive HttpResult : Type :=
| HttpFailed (msg : string)
| HttpAnswered (status : Z) (line : string) (body : result json).

Class Env := {
  env_now : nat → Z;
  env_uuid : nat → string;
  env_rand : nat → nat → option (list Z);
  env_int : nat → Z → option Z;
  env_order : ∀ A, nat → list A → list A;
  env_http : nat → HttpRequest → HttpResult }.

(** What the environment is documented to do.  [uuid.New().String()] is 36
    characters; [rand.Read] fills the buffer with bytes and [rand.Int] stays
    below its bound;
    iteration visits every entry of a map once; the monotonic clock does not
    go back. *)
Class EnvLaws `{Env} := {
  env_uuid_length : ∀ k, String.length (env_uuid k) = 36%nat;
  env_rand_length : ∀ k n b, env_rand k n = Some b → length b = n ∧ Forall (λ x, 0 <= x < 256) b;
  env_int_range : ∀ k m v, env_int k m = Some v → 0 <= v < m;
  env_order_perm : ∀ A k (l : list A), env_order A k l ≡ₚ l;
  env_now_mono : ∀ j k, (j <= k)%nat → env_now j <= env_now k }.

(** ** The world, over the state [S] of the storage in use

    [w_jobs] holds the webhook jobs handed to the queue with the delay before
    each enters the stream, [w_tasks] the goroutines started and not yet run. *)
Record World (S : Type) := mkWorld {
  w_store : S;
  w_heap : Heap;
  w_config : Config;
  w_manager : option Manager;
  w_fees : FeeConfig;
  w_tokens : gmap string string;
  w_jobs : list (StreamJob * Z);
  w_tasks : list Task;
  w_sink : list ReceivedWebhook;
  w_ticks : nat }.
Arguments mkWorld {S}.
Arguments w_store {S}. Arguments w_heap {S}. Arguments w_config {S}. Arguments w_manager {S}.
Arguments w_fees {S}. Arguments w_tokens {S}. Arguments w_jobs {S}. Arguments w_tasks {S}.
Arguments w_sink {S}. Arguments w_ticks {S}.
#[export] Instance eta_World {S} : Eta (World S) := fun r =>
  mkWorld (w_store r) (w_heap r) (w_config r) (w_manager r) (w_fees r) (w_tokens r) (w_jobs r)
    (w_tasks r) (w_sink r) (w_ticks r).

Section Operations.
Context {S : Type} `{Env}.

(** Each use of the environment advances one shared counter. *)
Definition tick : prog (World S) nat := fun w =>
  (Ret (w_ticks w), w <| w_ticks := (w_ticks w + 1)%nat |>).
Definition time_Now : prog (World S) Z := k ← tick; mret (env_now k).
Definition GenerateUUID : prog (World S) string := k ← tick; mret (env_uuid k).
Definition rand_Read (n : nat) : prog (World S) (option (list Z)) :=
  k ← tick; mret (env_rand k n).
Definition rand_Int (m : Z) : prog (World S) (option Z) := k ← tick; mret (env_int k m).
Definition range_map {A} (m : gmap string A) : prog (World S) (list (string * A)) :=
  k ← tick; mret (env_order _ k (map_to_list m)).
Definition http_Do (r : HttpRequest) : prog (World S) HttpResult :=
  k ← tick; mret (env_http k r).

(** [go f(...)] *)
Definition spawn (t : Task) : prog (World S) unit :=
  modify (fun w => w <| w_tasks := w_tasks w ++ [t] |>).

(** [&T{...}] *)
Definition new {T} `{!Cell T} (x : T) : prog (World S) loc := fun w =>
  let '(l, h) := heap_alloc x (w_heap w) in (Ret l, w <| w_heap := h |>).
(** [*p]; a pointer outside the heap is a nil dereference. *)
Definition deref {T} `{!Cell T} (l : loc) : prog (World S) T := fun w =>
  match cells (w_heap w) !! l with
  | Some x => (Ret x, w)
  | None => (Panic "invalid memory address or nil pointer dereference", w)
  end.
(** [*p = x] *)
Definition assign {T} `{!Cell T} (l : loc) (x : T) : prog (World S) unit := fun w =>
  match cells (T := T) (w_heap w) !! l with
  | Some _ => (Ret tt, w <| w_heap := heap_write l x (w_heap w) |>)
  | None => (Panic "invalid memory address or nil pointer dereference", w)
  end.
(** Field assignments through a pointer. *)
Definition update {T} `{!Cell T} (l : loc) (f : T → T) : prog (World S) unit :=
  x ← deref l; assign l (f x).
End Operations.

(** ** What the storages share *)
Section Shared.
Context {S : Type}.

(** [fmt.Errorf] *)
Definition Errorf {A} (msg : string) : prog (World S) (result A) := mret (Err msg).
Definition nil_error : prog (World S) (result unit) := mret (Ok tt).

(** [id == nil || *id == ""] *)
Definition no_id (id : option string) : bool :=
  match id with None => true | Some id => id =?s "" end.
Definition id_value (id : option string) : string := default "" id.

(** Sorted by creation time, ties by id. *)
Definition user_before (a b : loc * User) : bool :=
  if User_CreatedAt a.2 =? User_CreatedAt b.2
  then String.ltb (User_ID a.2) (User_ID b.2)
  else User_CreatedAt a.2 <? User_CreatedAt b.2.

(** [(p, *p)] for every pointer of a slice. *)
Definition deref_all {T} `{!Cell T} (l : list loc) : prog (World S) (list (loc * T)) :=
  collect (fun p => x ← deref p; mret (Some (p, x))) l.

(** Newest first, as transactions are listed. *)
Definition tx_after (a b : loc * Transaction) : bool :=
  Transaction_CreatedAt b.2 <? Transaction_CreatedAt a.2.

(** [json.Unmarshal] into a map, [m["txStatus"] = status], [json.Marshal]: the
    document comes back as a map is written.  One that is not an object, or
    that does not marshal again, is left alone, and [null] gives a nil map,
    whose assignment panics. *)
Definition set_raw_status (raw : json) (status : string) : prog (World S) (option json) :=
  match as_interface raw with
  | JObj fs =>
      let updated := sort_maps (JObj (assoc_set "txStatus" (JStr status) (last_wins fs))) in
      mret (if marshals updated then Some updated else None)
  | JNull => panic "assignment to entry in nil map"
  | _ => mret None
  end.
End Shared.

(** ** Running heap and environment operations *)
Section Run.
Context {S : Type} `{Env}.
Implicit Types w : World S.

Lemma run_deref {T} `{!Cell T} l (x : T) w :
  cells (w_heap w) !! l = Some x → deref l w = (Ret x, w).
Proof. by unfold deref => ->. Qed.

Lemma run_assign {T} `{!Cell T} l (x y : T) w :
  cells (w_heap w) !! l = Some x →
  assign l y w = (Ret tt, w <| w_heap := heap_write l y (w_heap w) |>).
Proof. by unfold assign => ->. Qed.

Lemma run_update {T} `{!Cell T} l (x : T) f w :
  cells (w_heap w) !! l = Some x →
  update l f w = (Ret tt, w <| w_heap := heap_write l (f x) (w_heap w) |>).
Proof.
  intros Hl. unfold update. rw (run_bind_ret _ _ _ _ _ (run_deref _ _ _ Hl)).
  by apply run_assign with x.
Qed.

Lemma run_time_Now w :
  time_Now w = (Ret (env_now (w_ticks w)), w <| w_ticks := (w_ticks w + 1)%nat |>).
Proof. done. Qed.

Lemma run_GenerateUUID w :
  GenerateUUID w = (Ret (env_uuid (w_ticks w)), w <| w_ticks := (w_ticks w + 1)%nat |>).
Proof. done. Qed.
End Run.

#[export] Hint Rewrite @run_time_Now @run_GenerateUUID : prog.

Lemma heap_write_lookup {T} `{!Cell T} l (x : T) h : cells (heap_write l x h) !! l = Some x.
Proof. unfold heap_write. by rw cells_with lookup_insert_eq. Qed.

Lemma heap_write_lookup_ne {T} `{!Cell T} l l' (x : T) h :
  l ≠ l' → cells (heap_write l x h) !! l' = cells (T := T) h !! l'.
Proof. intros Hne. unfold heap_write. by rw cells_with lookup_insert_ne. Qed.

#[export] Hint Rewrite @heap_write_lookup : prog.
