(* ===== verification/Storage.v ===== *)
(** * The storage interface ([internal/storage/interface.go])

    What a storage promises to its clients: one operation per method of the
    [Storage] interface.  The handlers are written against this class; each
    backend is an instance.  Pointers the interface takes and returns are heap
    locations; a raw card transaction is the JSON document it encodes. *)
From S2P Require Import Prelude GoFloat GoStd Models Config World.

Class Storage (S : Type) := {
  (* Users *)
  CreateUser : loc → prog (World S) (result unit);
  GetUser : string → prog (World S) (result loc);
  GetUserByEmail : string → prog (World S) (result loc);
  UpdateUser : loc → prog (World S) (result unit);

  (* Card customers, accounts and delivery addresses *)
  CreateCustomer : loc → prog (World S) (result unit);
  GetCustomer : string → prog (World S) (result loc);
  GetCustomerBySourceID : string → prog (World S) (result loc);
  UpdateCustomer : loc → prog (World S) (result unit);
  CreateAccount : loc → prog (World S) (result unit);
  GetAccount : string → prog (World S) (result loc);
  UpdateAccount : loc → prog (World S) (result unit);
  CreateCustomerAddress :
    string → CustomerDeliveryAddress → prog (World S) (result CustomerDeliveryAddress);
  GetCustomerAddresses : string → prog (World S) (result (list CustomerDeliveryAddress));

  (* Cards *)
  CreateCard : loc → prog (World S) (result unit);
  GetCard : string → prog (World S) (result loc);
  UpdateCard : loc → prog (World S) (result unit);
  GetCardsByCustomer : string → prog (World S) (result (list loc));
  GetCardsByAccount : string → prog (World S) (result (list loc));
  GetCardLimits : string → prog (World S) (result (list CardLimit));
  SetCardLimits : string → list CardLimit → prog (World S) (result unit);

  (* Card transactions *)
  CreateCardTransaction : loc → prog (World S) (result unit);
  GetCardTransaction : string → prog (World S) (result loc);
  UpdateCardTransactionStatus : string → string → prog (World S) (result unit);
  AddCardTransactionIndex : string → string → prog (World S) (result unit);
  GetCardTransactionIDs : string → prog (World S) (result (list string));
  StoreRawCardTransaction : string → json → prog (World S) (result unit);
  GetRawCardTransaction : string → prog (World S) (result json);

  ListUsers : prog (World S) (result (list loc));
  SetCardPIN : string → string → prog (World S) (result unit);
  GetCardPIN : string → prog (World S) (result string);
  NextCardTransactionSeqID : prog (World S) (result Z);
  PeekCardTransactionSeqID : prog (World S) (result Z);

  (* Wallets *)
  CreateWallet : Wallet → prog (World S) (result Wallet);
  GetWallet : string → prog (World S) (result Wallet);
  GetWalletsByUser : string → prog (World S) (result (list Wallet));

  (* Transactions *)
  CreateTransaction : loc → prog (World S) (result unit);
  GetTransaction : string → prog (World S) (result loc);
  UpdateTransactionStatus : string → Z → prog (World S) (result unit);
  ListTransactionsByUser : string → prog (World S) (result (list loc));

  (* Balances *)
  GetBalance : string → string → prog (World S) (result f64);
  GetAllBalances : string → prog (World S) (result (gmap string f64));
  AddBalance : string → string → f64 → prog (World S) (result unit);
  DeductBalance : string → string → f64 → prog (World S) (result unit);

  (* 3DS challenges *)
  CreateThreeDSChallenge : loc → prog (World S) (result unit);
  GetThreeDSChallenge : string → prog (World S) (result loc);
  GetPendingThreeDSChallenges : string → prog (World S) (result (list loc));
  UpdateThreeDSChallenge : loc → prog (World S) (result unit);

  (* Organizations *)
  GetOrganization : string → prog (World S) (result Organization);
  CreateOrganization : Organization → prog (World S) (result unit);
  UpdateOrganization : Organization → prog (World S) (result Organization) }.
