(* ===== verification/Memory.v ===== *)
(** * The in-memory storage ([internal/storage/memory.go])

    [MemoryStorage] and its methods, each the body of the Go method under its
    lock.  The maps hold pointers, as in the source: a caller that mutates the
    object it got back mutates what is stored. *)
From S2P Require Import Prelude GoFloat GoStd GoText Models Config World.
From S2P Require Storage.

Record MemoryStorage := mkMemory {
  users : gmap string loc;
  usersByEmail : gmap string loc;
  customers : gmap string loc;
  customersBySource : gmap string loc;
  accounts : gmap string loc;
  cards : gmap string loc;
  cardTransactions : gmap string loc;
  rawCardTransactions : gmap string json;
  cardPINs : gmap string string;
  cardTxSeqID : Z;
  cardTransactionsByCard : gmap string (list string);
  cardLimits : gmap string (list CardLimit);
  customerAddresses : gmap string (list CustomerDeliveryAddress);
  threeDSChallenges : gmap string loc;
  wallets : gmap string Wallet;
  transactions : gmap string loc;
  transactionsByUser : gmap string (list string);
  balances : gmap string (gmap string f64);
  organizations : gmap string Organization }.
#[export] Instance eta_Memory : Eta MemoryStorage := fun r =>
  mkMemory (users r) (usersByEmail r) (customers r) (customersBySource r) (accounts r) (cards r)
    (cardTransactions r) (rawCardTransactions r) (cardPINs r) (cardTxSeqID r)
    (cardTransactionsByCard r) (cardLimits r) (customerAddresses r) (threeDSChallenges r)
    (wallets r) (transactions r) (transactionsByUser r) (balances r) (organizations r).

Definition NewMemoryStorage : MemoryStorage :=
  mkMemory ∅ ∅ ∅ ∅ ∅ ∅ ∅ ∅ ∅ 0 ∅ ∅ ∅ ∅ ∅ ∅ ∅ ∅ ∅.

Section Memory.
Context `{Env}.
Abbreviation M := (prog (World MemoryStorage)).

Definition store : M MemoryStorage := gets w_store.
Definition put (f : MemoryStorage → MemoryStorage) : M unit :=
  modify (fun w => w <| w_store := f (w_store w) |>).

(** ** Users *)
Definition CreateUser (user : loc) : M (result unit) :=
  u ← deref (T := User) user;
  if User_Email u =?s "" then Errorf "email is required"
  else
    s ← store;
    match usersByEmail s !! User_Email u with
    | Some _ => Errorf ("user with email " +:+ User_Email u +:+ " already exists")
    | None =>
        id ← (if User_ID u =?s "" then GenerateUUID else mret (User_ID u));
        _ ← update user (fun u => u <| User_ID := id |>);
        created ← (if IsZero (User_CreatedAt u) then time_Now else mret (User_CreatedAt u));
        _ ← update user (fun u => u <| User_CreatedAt := created |>);
        _ ← put (fun s => s <| users := <[id := user]> (users s) |>
                           <| usersByEmail := <[User_Email u := user]> (usersByEmail s) |>);
        nil_error
    end.

Definition GetUser (id : string) : M (result loc) :=
  s ← store;
  match users s !! id with
  | None => Errorf "user not found"
  | Some user => mret (Ok user)
  end.

Definition GetUserByEmail (email : string) : M (result loc) :=
  s ← store;
  match usersByEmail s !! email with
  | None => Errorf "user not found"
  | Some user => mret (Ok user)
  end.

Definition UpdateUser (user : loc) : M (result unit) :=
  u ← deref (T := User) user;
  s ← store;
  match users s !! User_ID u with
  | None => Errorf "user not found"
  | Some existing =>
      e ← deref (T := User) existing;
      _ ← (if negb (User_Email e =?s User_Email u)
           then put (fun s => s <| usersByEmail :=
                      <[User_Email u := user]> (delete (User_Email e) (usersByEmail s)) |>)
           else mret tt);
      _ ← put (fun s => s <| users := <[User_ID u := user]> (users s) |>);
      nil_error
  end.

Definition ListUsers : M (result (list loc)) :=
  s ← store;
  entries ← range_map (users s);
  out ← deref_all (T := User) entries.*2;
  mret (Ok (slice_stable user_before out).*1).

(** ** Card customers *)
Definition CreateCustomer (customer : loc) : M (result unit) :=
  c ← deref (T := Customer) customer;
  id ← (if no_id (Customer_ID c) then GenerateUUID else mret (id_value (Customer_ID c)));
  _ ← update customer (fun c => c <| Customer_ID := Some id |>);
  if Customer_SourceID c =?s "" then Errorf "sourceId is required"
  else
    created ← (if IsZero (Customer_CreatedAt c) then time_Now else mret (Customer_CreatedAt c));
    _ ← update customer (fun c => c <| Customer_CreatedAt := created |>);
    s ← store;
    match customers s !! id with
    | Some _ => Errorf "customer already exists"
    | None =>
        _ ← put (fun s => s <| customers := <[id := customer]> (customers s) |>
                   <| customersBySource := <[Customer_SourceID c := customer]> (customersBySource s) |>);
        nil_error
    end.

Definition GetCustomer (id : string) : M (result loc) :=
  s ← store;
  match customers s !! id with
  | None => Errorf "customer not found"
  | Some customer => mret (Ok customer)
  end.

Definition GetCustomerBySourceID (sourceID : string) : M (result loc) :=
  s ← store;
  match customersBySource s !! sourceID with
  | None => Errorf "customer not found"
  | Some customer => mret (Ok customer)
  end.

Definition UpdateCustomer (customer : loc) : M (result unit) :=
  c ← deref (T := Customer) customer;
  if no_id (Customer_ID c) then Errorf "customer ID is required"
  else
    let id := id_value (Customer_ID c) in
    s ← store;
    match customers s !! id with
    | None => Errorf "customer not found"
    | Some _ =>
        _ ← put (fun s => s <| customers := <[id := customer]> (customers s) |>
                   <| customersBySource := <[Customer_SourceID c := customer]> (customersBySource s) |>);
        nil_error
    end.

(** ** Card accounts *)
Definition CreateAccount (account : loc) : M (result unit) :=
  a ← deref (T := Account) account;
  id ← (if no_id (Account_ID a) then GenerateUUID else mret (id_value (Account_ID a)));
  _ ← update account (fun a => a <| Account_ID := Some id |>);
  s ← store;
  match accounts s !! id with
  | Some _ => Errorf "account already exists"
  | None =>
      created ← (if IsZero (Account_CreatedAt a) then time_Now else mret (Account_CreatedAt a));
      _ ← update account (fun a => a <| Account_CreatedAt := created |>);
      _ ← put (fun s => s <| accounts := <[id := account]> (accounts s) |>);
      nil_error
  end.

Definition GetAccount (id : string) : M (result loc) :=
  s ← store;
  match accounts s !! id with
  | None => Errorf "account not found"
  | Some account => mret (Ok account)
  end.

Definition UpdateAccount (account : loc) : M (result unit) :=
  a ← deref (T := Account) account;
  if no_id (Account_ID a) then Errorf "account ID is required"
  else
    let id := id_value (Account_ID a) in
    s ← store;
    match accounts s !! id with
    | None => Errorf "account not found"
    | Some _ =>
        _ ← put (fun s => s <| accounts := <[id := account]> (accounts s) |>);
        nil_error
    end.

(** ** Delivery addresses *)
Definition CreateCustomerAddress (customerID : string) (address : CustomerDeliveryAddress) :
    M (result CustomerDeliveryAddress) :=
  if customerID =?s "" then Errorf "customer ID is required"
  else
    id ← (if CustomerDeliveryAddress_ID address =?s "" then GenerateUUID
          else mret (CustomerDeliveryAddress_ID address));
    let address := address <| CustomerDeliveryAddress_ID := id |> in
    _ ← put (fun s => s <| customerAddresses :=
          <[customerID := default [] (customerAddresses s !! customerID) ++ [address]]>
            (customerAddresses s) |>);
    mret (Ok address).

Definition GetCustomerAddresses (customerID : string) :
    M (result (list CustomerDeliveryAddress)) :=
  s ← store;
  mret (Ok (default [] (customerAddresses s !! customerID))).

(** ** Cards *)
Definition CreateCard (card : loc) : M (result unit) :=
  c ← deref (T := Card) card;
  id ← (if Card_ID c =?s "" then GenerateUUID else mret (Card_ID c));
  _ ← update card (fun c => c <| Card_ID := id |>);
  created ← (if IsZero (Card_CreatedAt c) then time_Now else mret (Card_CreatedAt c));
  _ ← update card (fun c => c <| Card_CreatedAt := created |>);
  s ← store;
  match cards s !! id with
  | Some _ => Errorf "card already exists"
  | None =>
      _ ← put (fun s => s <| cards := <[id := card]> (cards s) |>);
      nil_error
  end.

Definition GetCard (id : string) : M (result loc) :=
  s ← store;
  match cards s !! id with
  | None => Errorf "card not found"
  | Some card => mret (Ok card)
  end.

Definition UpdateCard (card : loc) : M (result unit) :=
  c ← deref (T := Card) card;
  if Card_ID c =?s "" then Errorf "card ID is required"
  else
    s ← store;
    match cards s !! Card_ID c with
    | None => Errorf "card not found"
    | Some _ =>
        _ ← put (fun s => s <| cards := <[Card_ID c := card]> (cards s) |>);
        nil_error
    end.

(** [for _, x := range m { if keep(x) { out = append(out, x) } }] *)
Definition select {T} `{!Cell T} (keep : T → bool) (m : gmap string loc) : M (list loc) :=
  entries ← range_map m;
  collect (fun p => x ← deref p; mret (if keep x then Some p else None)) entries.*2.

Definition GetCardsByCustomer (customerID : string) : M (result (list loc)) :=
  s ← store;
  out ← select (fun card => Card_CustomerID card =?s customerID) (cards s);
  mret (Ok out).

Definition GetCardsByAccount (accountID : string) : M (result (list loc)) :=
  s ← store;
  out ← select (fun card => Card_AccountID card =?s accountID) (cards s);
  mret (Ok out).

Definition GetCardLimits (cardID : string) : M (result (list CardLimit)) :=
  s ← store;
  mret (Ok (default [] (cardLimits s !! cardID))).

Definition SetCardLimits (cardID : string) (limits : list CardLimit) : M (result unit) :=
  _ ← put (fun s => s <| cardLimits := <[cardID := limits]> (cardLimits s) |>);
  nil_error.

(** ** Card transactions *)
Definition CreateCardTransaction (tx : loc) : M (result unit) :=
  t ← deref (T := CardTransaction) tx;
  let id := CardTransaction_TransactionID t in
  if id =?s "" then Errorf "transactionId is required"
  else
    s ← store;
    match cardTransactions s !! id with
    | Some _ => Errorf "card transaction already exists"
    | None =>
        _ ← put (fun s => s <| cardTransactions := <[id := tx]> (cardTransactions s) |>);
        nil_error
    end.

Definition GetCardTransaction (id : string) : M (result loc) :=
  s ← store;
  match cardTransactions s !! id with
  | None => Errorf "card transaction not found"
  | Some tx => mret (Ok tx)
  end.

Definition UpdateCardTransactionStatus (txID status : string) : M (result unit) :=
  s ← store;
  match cardTransactions s !! txID with
  | None => Errorf "card transaction not found"
  | Some tx =>
      _ ← update tx (fun t => t <| CardTransaction_TxStatus := Some status |>);
      match rawCardTransactions s !! txID with
      | Some raw =>
          updated ← set_raw_status raw status;
          match updated with
          | Some raw' =>
              _ ← put (fun s => s <| rawCardTransactions :=
                                <[txID := raw']> (rawCardTransactions s) |>);
              nil_error
          | None => nil_error
          end
      | None => nil_error
      end
  end.

Definition StoreRawCardTransaction (txID : string) (data : json) : M (result unit) :=
  if txID =?s "" then Errorf "txID is required"
  else
    _ ← put (fun s => s <| rawCardTransactions := <[txID := data]> (rawCardTransactions s) |>);
    nil_error.

Definition GetRawCardTransaction (txID : string) : M (result json) :=
  s ← store;
  match rawCardTransactions s !! txID with
  | None => Errorf "raw card transaction not found"
  | Some data => mret (Ok data)
  end.

Definition SetCardPIN (cardID pin : string) : M (result unit) :=
  if cardID =?s "" then Errorf "cardID is required"
  else
    s ← store;
    match cards s !! cardID with
    | None => Errorf "card not found"
    | Some _ =>
        _ ← put (fun s => s <| cardPINs := <[cardID := pin]> (cardPINs s) |>);
        nil_error
    end.

Definition GetCardPIN (cardID : string) : M (result string) :=
  s ← store;
  match cardPINs s !! cardID with
  | None => Errorf "card pin not set"
  | Some pin => mret (Ok pin)
  end.

(** [atomic.Int64]: the counter wraps at 64 bits. *)
Definition NextCardTransactionSeqID : M (result Z) :=
  _ ← put (fun s => s <| cardTxSeqID := wrap64 (cardTxSeqID s + 1) |>);
  s ← store;
  mret (Ok (cardTxSeqID s)).

Definition PeekCardTransactionSeqID : M (result Z) :=
  s ← store;
  mret (Ok (cardTxSeqID s)).

Definition AddCardTransactionIndex (cardID transactionID : string) : M (result unit) :=
  if (cardID =?s "") || (transactionID =?s "")
  then Errorf "cardID and transactionID are required"
  else
    _ ← put (fun s => s <| cardTransactionsByCard :=
          <[cardID := default [] (cardTransactionsByCard s !! cardID) ++ [transactionID]]>
            (cardTransactionsByCard s) |>);
    nil_error.

Definition GetCardTransactionIDs (cardID : string) : M (result (list string)) :=
  s ← store;
  mret (Ok (default [] (cardTransactionsByCard s !! cardID))).

(** ** Wallets *)
Definition CreateWallet (wallet : Wallet) : M (result Wallet) :=
  if Wallet_Address wallet =?s "" then Errorf "address is required"
  else
    s ← store;
    match wallets s !! Wallet_Address wallet with
    | Some _ => Errorf ("wallet with address " +:+ Wallet_Address wallet +:+ " already exists")
    | None =>
        created ← (if IsZero (Wallet_CreatedAt wallet) then time_Now
                   else mret (Wallet_CreatedAt wallet));
        let wallet := wallet <| Wallet_CreatedAt := created |> in
        _ ← put (fun s => s <| wallets := <[Wallet_Address wallet := wallet]> (wallets s) |>);
        mret (Ok wallet)
    end.

Definition GetWallet (address : string) : M (result Wallet) :=
  s ← store;
  match wallets s !! address with
  | None => Errorf "wallet not found"
  | Some wallet => mret (Ok wallet)
  end.

Definition GetWalletsByUser (userID : string) : M (result (list Wallet)) :=
  s ← store;
  entries ← range_map (wallets s);
  mret (Ok (filter (fun w => Wallet_UserID w =?s userID = true) entries.*2)).

(** ** Transactions *)
Definition CreateTransaction (tx : loc) : M (result unit) :=
  t ← deref (T := Transaction) tx;
  id ← (if Transaction_ID t =?s "" then GenerateUUID else mret (Transaction_ID t));
  _ ← update tx (fun t => t <| Transaction_ID := id |>);
  created ← (if IsZero (Transaction_CreatedAt t) then time_Now
             else mret (Transaction_CreatedAt t));
  _ ← update tx (fun t => t <| Transaction_CreatedAt := created |>);
  _ ← put (fun s => s <| transactions := <[id := tx]> (transactions s) |>
             <| transactionsByUser :=
               <[Transaction_UserID t :=
                  default [] (transactionsByUser s !! Transaction_UserID t) ++ [id]]>
                 (transactionsByUser s) |>);
  nil_error.

Definition ListTransactionsByUser (userID : string) : M (result (list loc)) :=
  s ← store;
  let ids := default [] (transactionsByUser s !! userID) in
  out ← deref_all (T := Transaction) (omap (fun id => transactions s !! id) ids);
  mret (Ok (slice_stable tx_after out).*1).

Definition GetTransaction (id : string) : M (result loc) :=
  s ← store;
  match transactions s !! id with
  | None => Errorf "transaction not found"
  | Some tx => mret (Ok tx)
  end.

Definition UpdateTransactionStatus (id : string) (status : Z) : M (result unit) :=
  s ← store;
  match transactions s !! id with
  | None => Errorf "transaction not found"
  | Some tx =>
      _ ← update tx (fun t => t <| Transaction_Status := status |>);
      _ ← put (fun s => s <| transactions := <[id := tx]> (transactions s) |>);
      nil_error
  end.

(** ** Balances *)
Definition balance_of (s : MemoryStorage) (userID currency : string) : f64 :=
  default fzero (balances s !! userID ≫= fun m => m !! currency).

Definition GetAllBalances (userID : string) : M (result (gmap string f64)) :=
  s ← store;
  mret (Ok (filter (fun kv => feq kv.2 fzero = false) (default ∅ (balances s !! userID)))).

Definition GetBalance (userID currency : string) : M (result f64) :=
  s ← store;
  mret (Ok (balance_of s userID currency)).

Definition AddBalance (userID currency : string) (amount : f64) : M (result unit) :=
  _ ← put (fun s => s <| balances :=
        <[userID := <[currency := fadd (balance_of s userID currency) amount]>
                      (default ∅ (balances s !! userID))]> (balances s) |>);
  nil_error.

Definition DeductBalance (userID currency : string) (amount : f64) : M (result unit) :=
  s ← store;
  match balances s !! userID with
  | None => Errorf "insufficient balance"
  | Some m =>
      let currentBalance := default fzero (m !! currency) in
      if flt currentBalance amount
      then Errorf ("insufficient balance: have " +:+ Sprintf_2f currentBalance
                     +:+ ", need " +:+ Sprintf_2f amount)
      else
        _ ← put (fun s => s <| balances :=
              <[userID := <[currency := fsub currentBalance amount]> m]> (balances s) |>);
        nil_error
  end.

(** ** 3DS challenges *)
Definition CreateThreeDSChallenge (challenge : loc) : M (result unit) :=
  c ← deref (T := ThreeDSChallenge) challenge;
  if ThreeDSChallenge_TransactionID c =?s "" then Errorf "transaction ID is required"
  else
    created ← (if IsZero (ThreeDSChallenge_CreatedAt c) then time_Now
               else mret (ThreeDSChallenge_CreatedAt c));
    _ ← update challenge (fun c => c <| ThreeDSChallenge_CreatedAt := created |>);
    _ ← put (fun s => s <| threeDSChallenges :=
          <[ThreeDSChallenge_TransactionID c := challenge]> (threeDSChallenges s) |>);
    nil_error.

Definition GetThreeDSChallenge (txID : string) : M (result loc) :=
  s ← store;
  match threeDSChallenges s !! txID with
  | None => Errorf "3DS challenge not found"
  | Some challenge => mret (Ok challenge)
  end.

Definition GetPendingThreeDSChallenges (userID : string) : M (result (list loc)) :=
  s ← store;
  now ← time_Now;
  out ← select (fun c => (ThreeDSChallenge_UserID c =?s userID)
                         && (ThreeDSChallenge_Status c =?s "pending")
                         && (now <? ThreeDSChallenge_Timeout c)) (threeDSChallenges s);
  mret (Ok out).

Definition UpdateThreeDSChallenge (challenge : loc) : M (result unit) :=
  c ← deref (T := ThreeDSChallenge) challenge;
  s ← store;
  match threeDSChallenges s !! ThreeDSChallenge_TransactionID c with
  | None => Errorf "3DS challenge not found"
  | Some _ =>
      _ ← put (fun s => s <| threeDSChallenges :=
            <[ThreeDSChallenge_TransactionID c := challenge]> (threeDSChallenges s) |>);
      nil_error
  end.

(** ** Organizations: stored and returned by copy *)
Definition GetOrganization (orgID : string) : M (result Organization) :=
  s ← store;
  match organizations s !! orgID with
  | None => Errorf "organization not found"
  | Some org => mret (Ok org)
  end.

Definition CreateOrganization (org : Organization) : M (result unit) :=
  s ← store;
  match organizations s !! Organization_ID org with
  | Some _ => Errorf "organization already exists"
  | None =>
      _ ← put (fun s => s <| organizations := <[Organization_ID org := org]> (organizations s) |>);
      nil_error
  end.

Definition UpdateOrganization (org : Organization) : M (result Organization) :=
  s ← store;
  match organizations s !! Organization_ID org with
  | None => Errorf "organization not found"
  | Some _ =>
      now ← time_Now;
      let org := org <| Organization_UpdatedAt := now |> in
      _ ← put (fun s => s <| organizations := <[Organization_ID org := org]> (organizations s) |>);
      mret (Ok org)
  end.
End Memory.

#[export] Instance memory_storage `{Env} : Storage.Storage MemoryStorage := {|
  Storage.CreateUser := CreateUser; Storage.GetUser := GetUser;
  Storage.GetUserByEmail := GetUserByEmail; Storage.UpdateUser := UpdateUser;
  Storage.CreateCustomer := CreateCustomer; Storage.GetCustomer := GetCustomer;
  Storage.GetCustomerBySourceID := GetCustomerBySourceID; Storage.UpdateCustomer := UpdateCustomer;
  Storage.CreateAccount := CreateAccount; Storage.GetAccount := GetAccount;
  Storage.UpdateAccount := UpdateAccount; Storage.CreateCustomerAddress := CreateCustomerAddress;
  Storage.GetCustomerAddresses := GetCustomerAddresses; Storage.CreateCard := CreateCard;
  Storage.GetCard := GetCard; Storage.UpdateCard := UpdateCard;
  Storage.GetCardsByCustomer := GetCardsByCustomer; Storage.GetCardsByAccount := GetCardsByAccount;
  Storage.GetCardLimits := GetCardLimits; Storage.SetCardLimits := SetCardLimits;
  Storage.CreateCardTransaction := CreateCardTransaction;
  Storage.GetCardTransaction := GetCardTransaction;
  Storage.UpdateCardTransactionStatus := UpdateCardTransactionStatus;
  Storage.AddCardTransactionIndex := AddCardTransactionIndex;
  Storage.GetCardTransactionIDs := GetCardTransactionIDs;
  Storage.StoreRawCardTransaction := StoreRawCardTransaction;
  Storage.GetRawCardTransaction := GetRawCardTransaction; Storage.ListUsers := ListUsers;
  Storage.SetCardPIN := SetCardPIN; Storage.GetCardPIN := GetCardPIN;
  Storage.NextCardTransactionSeqID := NextCardTransactionSeqID;
  Storage.PeekCardTransactionSeqID := PeekCardTransactionSeqID;
  Storage.CreateWallet := CreateWallet; Storage.GetWallet := GetWallet;
  Storage.GetWalletsByUser := GetWalletsByUser; Storage.CreateTransaction := CreateTransaction;
  Storage.GetTransaction := GetTransaction;
  Storage.UpdateTransactionStatus := UpdateTransactionStatus;
  Storage.ListTransactionsByUser := ListTransactionsByUser; Storage.GetBalance := GetBalance;
  Storage.GetAllBalances := GetAllBalances; Storage.AddBalance := AddBalance;
  Storage.DeductBalance := DeductBalance;
  Storage.CreateThreeDSChallenge := CreateThreeDSChallenge;
  Storage.GetThreeDSChallenge := GetThreeDSChallenge;
  Storage.GetPendingThreeDSChallenges := GetPendingThreeDSChallenges;
  Storage.UpdateThreeDSChallenge := UpdateThreeDSChallenge;
  Storage.GetOrganization := GetOrganization; Storage.CreateOrganization := CreateOrganization;
  Storage.UpdateOrganization := UpdateOrganization |}.
