(* ===== verification/Redis.v ===== *)
(** * The Redis storage ([internal/storage/redis.go])

    [RedisStorage] and its methods.  Redis is a third-party service behind a
    third-party client: the methods are written against the class
    [RedisClient] of the commands they issue, over the state [R] of the server.
    A command answers, finds nothing ([redis.Nil]) or fails.  Objects are stored
    as JSON text and decoded into fresh memory, so that, unlike in the in-memory
    storage, two readers share nothing.  The text of a decoding error is not
    modelled; it stands as [json_error]. *)
From S2P Require Import Prelude GoFloat GoStd GoText JsonText Codec Stored Models Config World.
From S2P Require Storage.

Inductive reply (A : Type) : Type :=
| Reply (a : A)
| NilReply
| Fault (msg : string).
Arguments Reply {A} a.
Arguments NilReply {A}.
Arguments Fault {A} msg.

(** The commands, as the client returns them.  A [SET]'s expiration is in
    nanoseconds, [0] for none; [TTL] answers [-1] for a key that does not expire.
    [rc_rounds] bounds the [SCAN] calls one full iteration takes. *)
Class RedisClient (R : Type) := {
  rc_Get : string → R → reply string * R;
  rc_Set : string → string → Z → R → reply unit * R;
  rc_Exists : string → R → reply Z * R;
  rc_TTL : string → R → reply Z * R;
  rc_SAdd : string → string → R → reply unit * R;
  rc_SMembers : string → R → reply (list string) * R;
  rc_LPush : string → string → R → reply unit * R;
  rc_LRange : string → Z → Z → R → reply (list string) * R;
  rc_Incr : string → R → reply Z * R;
  rc_IncrByFloat : string → f64 → R → reply f64 * R;
  rc_ZAdd : string → f64 → string → R → reply unit * R;
  rc_ZRangeByScore : string → string → string → R → reply (list string) * R;
  rc_ZRem : string → string → R → reply unit * R;
  rc_Scan : Z → string → Z → R → reply (list string * Z) * R;
  rc_rounds : R → string → nat }.

(** ** Keys *)
Definition userKey (id : string) : string := "user:" +:+ id.
Definition emailKey (email : string) : string := "email:" +:+ email.
Definition customerKey (id : string) : string := "customer:" +:+ id.
Definition customerSourceKey (sourceID : string) : string := "customer:source:" +:+ sourceID.
Definition customerAccountsKey (customerID : string) : string :=
  "customer:" +:+ customerID +:+ ":accounts".
Definition accountKey (id : string) : string := "account:" +:+ id.
Definition customerCardsKey (customerID : string) : string := "customer:" +:+ customerID +:+ ":cards".
Definition accountCardsKey (accountID : string) : string := "account:" +:+ accountID +:+ ":cards".
Definition cardKey (id : string) : string := "card:" +:+ id.
Definition cardLimitsKey (cardID : string) : string := "card:" +:+ cardID +:+ ":limits".
Definition customerAddressesKey (customerID : string) : string :=
  "customer:" +:+ customerID +:+ ":addresses".
Definition customerAddressKey (addressID : string) : string := "customer:address:" +:+ addressID.
Definition cardTransactionKey (id : string) : string := "cardtx:" +:+ id.
Definition cardTransactionsKey (cardID : string) : string := "card:" +:+ cardID +:+ ":transactions".
Definition cardTransactionRawKey (id : string) : string := "cardtx:" +:+ id +:+ ":raw".
Definition cardTransactionSeqKey : string := "cardtx:seq".
Definition userTransactionsKey (userID : string) : string := "user:" +:+ userID +:+ ":transactions".
Definition cardPINKey (cardID : string) : string := "card:" +:+ cardID +:+ ":pin".
Definition walletKey (address : string) : string := "wallet:" +:+ address.
Definition userWalletsKey (userID : string) : string := "user:" +:+ userID +:+ ":wallets".
Definition txKey (id : string) : string := "tx:" +:+ id.
Definition balanceKey (userID currency : string) : string :=
  "balance:" +:+ userID +:+ ":" +:+ currency.
Definition threeDSChallengeKey (txID : string) : string := "3ds:challenge:" +:+ txID.
Definition userThreeDSChallengesKey (userID : string) : string :=
  "user:" +:+ userID +:+ ":3ds:challenges".
Definition organizationKey (orgID : string) : string := "organization:" +:+ orgID.



Section Redis.
Context {R : Type} `{!RedisClient R} `{Env}.
Abbreviation M := (prog (World R)).

(** ** Commands and their errors *)
Definition cmd {A} (f : R → reply A * R) : M (reply A) := fun w =>
  let '(a, r) := f (w_store w) in (Ret a, w <| w_store := r |>).

(** [x, err := cmd; if err != nil { return ..., fmt.Errorf("what: %w", err) }] *)
Definition exec {A B} (what : string) (f : R → reply A * R) (k : A → M (result B)) : M (result B) :=
  r ← cmd f;
  match r with
  | Reply a => k a
  | NilReply => Errorf (what +:+ ": redis: nil")
  | Fault e => Errorf (what +:+ ": " +:+ e)
  end.

(** The same, after [if err == redis.Nil { return ..., missing }]. *)
Definition fetch {B} (what : string) (missing : M (result B)) (key : string)
    (k : string → M (result B)) : M (result B) :=
  r ← cmd (rc_Get key);
  match r with
  | Reply data => k data
  | NilReply => missing
  | Fault e => Errorf (what +:+ ": " +:+ e)
  end.

(** [json.Unmarshal] and [json.Marshal] with their error branches. *)
Definition decode {T B} (what : string) (c : codec T) (data : string) (k : T → M (result B)) :
    M (result B) :=
  match unmarshal c data with
  | Some x => k x
  | None => Errorf (what +:+ ": " +:+ json_error)
  end.
Definition encode {T B} (what : string) (c : codec T) (x : T) (k : string → M (result B)) :
    M (result B) :=
  match marshal c x with
  | Some data => k data
  | None => Errorf (what +:+ ": " +:+ json_error)
  end.

(** ** Users *)
Definition CreateUser (user : loc) : M (result unit) :=
  u ← deref (T := User) user;
  if User_Email u =?s "" then Errorf "email is required"
  else
    id ← (if User_ID u =?s "" then GenerateUUID else mret (User_ID u));
    _ ← update user (fun u => u <| User_ID := id |>);
    created ← (if IsZero (User_CreatedAt u) then time_Now else mret (User_CreatedAt u));
    _ ← update user (fun u => u <| User_CreatedAt := created |>);
    exec "failed to check user existence" (rc_Exists (userKey id)) (fun exists_ =>
      if 0 <? exists_ then Errorf "user already exists"
      else
        u ← deref (T := User) user;
        encode "failed to marshal user" c_User u (fun data =>
        exec "failed to store user" (rc_Set (userKey id) data 0) (fun _ =>
        exec "failed to store email mapping" (rc_Set (emailKey (User_Email u)) id 0) (fun _ =>
        nil_error)))).

Definition GetUser (id : string) : M (result loc) :=
  fetch "failed to get user" (Errorf "user not found") (userKey id) (fun data =>
  decode "failed to unmarshal user" c_User data (fun u =>
    user ← new u; mret (Ok user))).

Definition GetUserByEmail (email : string) : M (result loc) :=
  fetch "failed to get user by email" (Errorf "user not found") (emailKey email) GetUser.

Definition UpdateUser (user : loc) : M (result unit) :=
  u ← deref (T := User) user;
  if User_ID u =?s "" then Errorf "user ID is required"
  else
    exec "failed to check user existence" (rc_Exists (userKey (User_ID u))) (fun exists_ =>
      if exists_ =? 0 then Errorf "user not found"
      else
        encode "failed to marshal user" c_User u (fun data =>
        exec "failed to update user" (rc_Set (userKey (User_ID u)) data 0) (fun _ =>
        nil_error))).

(** ** Card customers *)
Definition CreateCustomer (customer : loc) : M (result unit) :=
  c ← deref (T := Customer) customer;
  id ← (if no_id (Customer_ID c) then GenerateUUID else mret (id_value (Customer_ID c)));
  _ ← update customer (fun c => c <| Customer_ID := Some id |>);
  if Customer_SourceID c =?s "" then Errorf "sourceId is required"
  else
    created ← (if IsZero (Customer_CreatedAt c) then time_Now else mret (Customer_CreatedAt c));
    _ ← update customer (fun c => c <| Customer_CreatedAt := created |>);
    c ← deref (T := Customer) customer;
    encode "failed to marshal customer" c_Customer c (fun data =>
    exec "failed to store customer" (rc_Set (customerKey id) data 0) (fun _ =>
    exec "failed to store customer source mapping"
      (rc_Set (customerSourceKey (Customer_SourceID c)) id 0) (fun _ =>
    nil_error))).

Definition GetCustomer (id : string) : M (result loc) :=
  fetch "failed to get customer" (Errorf "customer not found") (customerKey id) (fun data =>
  decode "failed to unmarshal customer" c_Customer data (fun c =>
    customer ← new c; mret (Ok customer))).

Definition GetCustomerBySourceID (sourceID : string) : M (result loc) :=
  fetch "failed to get customer by sourceId" (Errorf "customer not found")
    (customerSourceKey sourceID) GetCustomer.

Definition UpdateCustomer (customer : loc) : M (result unit) :=
  c ← deref (T := Customer) customer;
  if no_id (Customer_ID c) then Errorf "customer ID is required"
  else
    let id := id_value (Customer_ID c) in
    encode "failed to marshal customer" c_Customer c (fun data =>
    exec "failed to update customer" (rc_Set (customerKey id) data 0) (fun _ =>
    if negb (Customer_SourceID c =?s "")
    then exec "failed to update customer source mapping"
           (rc_Set (customerSourceKey (Customer_SourceID c)) id 0) (fun _ => nil_error)
    else nil_error)).

(** ** Card accounts *)
Definition CreateAccount (account : loc) : M (result unit) :=
  a ← deref (T := Account) account;
  id ← (if no_id (Account_ID a) then GenerateUUID else mret (id_value (Account_ID a)));
  _ ← update account (fun a => a <| Account_ID := Some id |>);
  created ← (if IsZero (Account_CreatedAt a) then time_Now else mret (Account_CreatedAt a));
  _ ← update account (fun a => a <| Account_CreatedAt := created |>);
  a ← deref (T := Account) account;
  encode "failed to marshal account" c_Account a (fun data =>
  exec "failed to store account" (rc_Set (accountKey id) data 0) (fun _ =>
  match Account_CustomerID a with
  | Some customerID =>
      exec "failed to add account to customer set"
        (rc_SAdd (customerAccountsKey customerID) id) (fun _ => nil_error)
  | None => nil_error
  end)).

Definition GetAccount (id : string) : M (result loc) :=
  fetch "failed to get account" (Errorf "account not found") (accountKey id) (fun data =>
  decode "failed to unmarshal account" c_Account data (fun a =>
    account ← new a; mret (Ok account))).

Definition UpdateAccount (account : loc) : M (result unit) :=
  a ← deref (T := Account) account;
  if no_id (Account_ID a) then Errorf "account ID is required"
  else
    encode "failed to marshal account" c_Account a (fun data =>
    exec "failed to update account" (rc_Set (accountKey (id_value (Account_ID a))) data 0) (fun _ =>
    nil_error)).

(** ** Delivery addresses *)
Definition CreateCustomerAddress (customerID : string) (address : CustomerDeliveryAddress) :
    M (result CustomerDeliveryAddress) :=
  if customerID =?s "" then Errorf "customer ID is required"
  else
    id ← (if CustomerDeliveryAddress_ID address =?s "" then GenerateUUID
          else mret (CustomerDeliveryAddress_ID address));
    let address := address <| CustomerDeliveryAddress_ID := id |> in
    encode "failed to marshal address" c_CustomerDeliveryAddress address (fun data =>
    exec "failed to store address" (rc_Set (customerAddressKey id) data 0) (fun _ =>
    exec "failed to add address to customer set"
      (rc_SAdd (customerAddressesKey customerID) id) (fun _ =>
    mret (Ok address)))).

(** One turn of a loop that skips what cannot be read. *)
Definition read_address (id : string) : M (option CustomerDeliveryAddress) :=
  r ← cmd (rc_Get (customerAddressKey id));
  mret (match r with Reply data => unmarshal c_CustomerDeliveryAddress data | _ => None end).

Definition GetCustomerAddresses (customerID : string) : M (result (list CustomerDeliveryAddress)) :=
  exec "failed to get customer addresses" (rc_SMembers (customerAddressesKey customerID)) (fun ids =>
    addresses ← collect read_address ids;
    mret (Ok addresses)).

(** [for _, id := range ids { x, err := get(id); if err == nil { append } }] *)
Definition found {A} (get : string → M (result A)) (id : string) : M (option A) :=
  r ← get id;
  mret (match r with Ok x => Some x | Err _ => None end).

(** ** Cards *)
Definition CreateCard (card : loc) : M (result unit) :=
  c ← deref (T := Card) card;
  id ← (if Card_ID c =?s "" then GenerateUUID else mret (Card_ID c));
  _ ← update card (fun c => c <| Card_ID := id |>);
  created ← (if IsZero (Card_CreatedAt c) then time_Now else mret (Card_CreatedAt c));
  _ ← update card (fun c => c <| Card_CreatedAt := created |>);
  c ← deref (T := Card) card;
  encode "failed to marshal card" c_Card c (fun data =>
  exec "failed to store card" (rc_Set (cardKey id) data 0) (fun _ =>
    let to_account :=
      if negb (Card_AccountID c =?s "")
      then exec "failed to add card to account set"
             (rc_SAdd (accountCardsKey (Card_AccountID c)) id) (fun _ => nil_error)
      else nil_error in
    if negb (Card_CustomerID c =?s "")
    then exec "failed to add card to customer set"
           (rc_SAdd (customerCardsKey (Card_CustomerID c)) id) (fun _ => to_account)
    else to_account)).

Definition GetCard (id : string) : M (result loc) :=
  fetch "failed to get card" (Errorf "card not found") (cardKey id) (fun data =>
  decode "failed to unmarshal card" c_Card data (fun c =>
    card ← new c; mret (Ok card))).

Definition UpdateCard (card : loc) : M (result unit) :=
  c ← deref (T := Card) card;
  if Card_ID c =?s "" then Errorf "card ID is required"
  else
    encode "failed to marshal card" c_Card c (fun data =>
    exec "failed to update card" (rc_Set (cardKey (Card_ID c)) data 0) (fun _ =>
    nil_error)).

Definition GetCardsByCustomer (customerID : string) : M (result (list loc)) :=
  exec "failed to get customer cards" (rc_SMembers (customerCardsKey customerID)) (fun cardIDs =>
    cards ← collect (found GetCard) cardIDs;
    mret (Ok cards)).

Definition GetCardsByAccount (accountID : string) : M (result (list loc)) :=
  exec "failed to get account cards" (rc_SMembers (accountCardsKey accountID)) (fun cardIDs =>
    cards ← collect (found GetCard) cardIDs;
    mret (Ok cards)).

Definition c_CardLimits : codec (list CardLimit) := c_slice c_CardLimit.

Definition GetCardLimits (cardID : string) : M (result (list CardLimit)) :=
  fetch "failed to get card limits" (mret (Ok [])) (cardLimitsKey cardID) (fun data =>
  decode "failed to unmarshal card limits" c_CardLimits data (fun limits =>
    mret (Ok limits))).

Definition SetCardLimits (cardID : string) (limits : list CardLimit) : M (result unit) :=
  encode "failed to marshal card limits" c_CardLimits limits (fun data =>
  exec "failed to store card limits" (rc_Set (cardLimitsKey cardID) data 0) (fun _ =>
  nil_error)).

(** ** Card transactions *)
Definition CreateCardTransaction (tx : loc) : M (result unit) :=
  t ← deref (T := CardTransaction) tx;
  if CardTransaction_TransactionID t =?s "" then Errorf "transactionId is required"
  else
    encode "failed to marshal card transaction" c_CardTransaction t (fun data =>
    exec "failed to store card transaction"
      (rc_Set (cardTransactionKey (CardTransaction_TransactionID t)) data 0) (fun _ =>
    nil_error)).

Definition GetCardTransaction (id : string) : M (result loc) :=
  fetch "failed to get card transaction" (Errorf "card transaction not found")
    (cardTransactionKey id) (fun data =>
  decode "failed to unmarshal card transaction" c_CardTransaction data (fun t =>
    tx ← new t; mret (Ok tx))).

(** A raw document is kept as its text. *)
Definition StoreRawCardTransaction (txID : string) (data : json) : M (result unit) :=
  if txID =?s "" then Errorf "txID is required"
  else
    exec "failed to store raw card transaction"
      (rc_Set (cardTransactionRawKey txID) (json_text data) 0) (fun _ =>
    nil_error).

Definition GetRawCardTransaction (txID : string) : M (result json) :=
  fetch "failed to get raw card transaction" (Errorf "raw card transaction not found")
    (cardTransactionRawKey txID) (fun data =>
    match parse_json data with
    | Some raw => mret (Ok raw)
    | None => Errorf json_error
    end).

Definition UpdateCardTransactionStatus (txID status : string) : M (result unit) :=
  let? tx := GetCardTransaction txID else e => Errorf e in
  _ ← update tx (fun t => t <| CardTransaction_TxStatus := Some status |>);
  t ← deref (T := CardTransaction) tx;
  encode "failed to marshal card transaction" c_CardTransaction t (fun data =>
  exec "failed to update card transaction" (rc_Set (cardTransactionKey txID) data 0) (fun _ =>
    let? raw := GetRawCardTransaction txID else e => nil_error in
    updated ← set_raw_status raw status;
    match updated with
    | Some raw' => _ ← StoreRawCardTransaction txID raw'; nil_error
    | None => nil_error
    end)).

Definition SetCardPIN (cardID pin : string) : M (result unit) :=
  if cardID =?s "" then Errorf "cardID is required"
  else
    let? card := GetCard cardID else e => Errorf e in
    exec "failed to store card pin" (rc_Set (cardPINKey cardID) pin 0) (fun _ => nil_error).

Definition GetCardPIN (cardID : string) : M (result string) :=
  fetch "failed to get card pin" (Errorf "card pin not set") (cardPINKey cardID) (fun pin =>
    mret (Ok pin)).

Definition NextCardTransactionSeqID : M (result Z) :=
  exec "failed to increment card transaction sequence" (rc_Incr cardTransactionSeqKey) (fun next =>
    mret (Ok next)).

(** [*strconv.NumError], of text that is no number. *)
Definition num_error (fn text : string) : string :=
  "strconv." +:+ fn +:+ ": parsing " +:+ Quote text +:+ ": invalid syntax".

(** [Int64()] of the reply. *)
Definition PeekCardTransactionSeqID : M (result Z) :=
  fetch "failed to read card transaction sequence" (mret (Ok 0)) cardTransactionSeqKey (fun text =>
    match Atoi text with
    | Some val => mret (Ok val)
    | None => Errorf ("failed to read card transaction sequence: " +:+ num_error "ParseInt" text)
    end).

Definition AddCardTransactionIndex (cardID transactionID : string) : M (result unit) :=
  if (cardID =?s "") || (transactionID =?s "")
  then Errorf "cardID and transactionID are required"
  else
    exec "failed to index card transaction" (rc_LPush (cardTransactionsKey cardID) transactionID)
      (fun _ => nil_error).

Definition GetCardTransactionIDs (cardID : string) : M (result (list string)) :=
  exec "failed to get card transaction IDs" (rc_LRange (cardTransactionsKey cardID) 0 (-1))
    (fun ids => mret (Ok ids)).

(** ** Wallets *)
Definition CreateWallet (wallet : Wallet) : M (result Wallet) :=
  if Wallet_Address wallet =?s "" then Errorf "wallet address is required"
  else
    now ← time_Now;
    let wallet := wallet <| Wallet_CreatedAt := now |> in
    encode "failed to marshal wallet" c_Wallet wallet (fun data =>
    exec "failed to store wallet" (rc_Set (walletKey (Wallet_Address wallet)) data 0) (fun _ =>
    exec "failed to add wallet to user list"
      (rc_SAdd (userWalletsKey (Wallet_UserID wallet)) (Wallet_Address wallet)) (fun _ =>
    mret (Ok wallet)))).

Definition GetWallet (address : string) : M (result Wallet) :=
  fetch "failed to get wallet" (Errorf "wallet not found") (walletKey address) (fun data =>
  decode "failed to unmarshal wallet" c_Wallet data (fun wallet =>
    mret (Ok wallet))).

Definition GetWalletsByUser (userID : string) : M (result (list Wallet)) :=
  exec "failed to get user wallets" (rc_SMembers (userWalletsKey userID)) (fun addresses =>
    wallets ← collect (found GetWallet) addresses;
    mret (Ok wallets)).

(** ** Transactions *)
Definition CreateTransaction (tx : loc) : M (result unit) :=
  t ← deref (T := Transaction) tx;
  id ← (if Transaction_ID t =?s "" then GenerateUUID else mret (Transaction_ID t));
  _ ← update tx (fun t => t <| Transaction_ID := id |>);
  now ← time_Now;
  _ ← update tx (fun t => t <| Transaction_CreatedAt := now |>);
  t ← deref (T := Transaction) tx;
  encode "failed to marshal transaction" c_Transaction t (fun data =>
  exec "failed to store transaction" (rc_Set (txKey id) data 0) (fun _ =>
    if negb (Transaction_UserID t =?s "")
    then exec "failed to index transaction by user"
           (rc_LPush (userTransactionsKey (Transaction_UserID t)) id) (fun _ => nil_error)
    else nil_error)).

Definition GetTransaction (id : string) : M (result loc) :=
  fetch "failed to get transaction" (Errorf "transaction not found") (txKey id) (fun data =>
  decode "failed to unmarshal transaction" c_Transaction data (fun t =>
    tx ← new t; mret (Ok tx))).

Definition ListTransactionsByUser (userID : string) : M (result (list loc)) :=
  r ← cmd (rc_LRange (userTransactionsKey userID) 0 (-1));
  match r with
  | NilReply => mret (Ok [])
  | Fault e => Errorf ("failed to list user transactions: " +:+ e)
  | Reply ids =>
      found_txs ← collect (found GetTransaction) ids;
      out ← deref_all (T := Transaction) found_txs;
      mret (Ok (slice_stable tx_after out).*1)
  end.

Definition UpdateTransactionStatus (id : string) (status : Z) : M (result unit) :=
  let? tx := GetTransaction id else e => Errorf e in
  _ ← update tx (fun t => t <| Transaction_Status := status |>);
  t ← deref (T := Transaction) tx;
  encode "failed to marshal transaction" c_Transaction t (fun data =>
  exec "failed to update transaction" (rc_Set (txKey id) data 0) (fun _ =>
  nil_error)).

(** ** Balances *)
Definition GetBalance (userID currency : string) : M (result f64) :=
  fetch "failed to get balance" (mret (Ok fzero)) (balanceKey userID currency) (fun val =>
    match ParseFloat val with
    | Some balance => mret (Ok balance)
    | None => Errorf ("failed to parse balance: " +:+ num_error "ParseFloat" val)
    end).

Definition AddBalance (userID currency : string) (amount : f64) : M (result unit) :=
  exec "failed to update balance" (rc_IncrByFloat (balanceKey userID currency) amount)
    (fun _ => nil_error).

Definition DeductBalance (userID currency : string) (amount : f64) : M (result unit) :=
  AddBalance userID currency (fneg amount).

(** ** SCAN loops

    [each_key] is the loop over one page; the loop over the pages is
    [for { keys, next, err := Scan(cursor, ...); ...; if next == 0 { break };
    cursor = next }]: at most [rounds] calls, after which the model gives up;
    [scan_finishes] shows that it never does on a server that keeps the
    documented guarantee. *)
Fixpoint each_key {A} (body : string → A → M A) (keys : list string) (acc : A) : M A :=
  match keys with
  | [] => mret acc
  | key :: keys => acc ← body key acc; each_key body keys acc
  end.
Fixpoint scan_loop {A} (rounds : nat) (what pattern : string) (body : string → A → M A)
    (cursor : Z) (acc : A) : M (result A) :=
  match rounds with
  | 0%nat => panic "scan does not end"
  | S rounds =>
      exec what (rc_Scan cursor pattern 100) (fun '(keys, next) =>
        acc ← each_key body keys acc;
        if next =? 0 then mret (Ok acc) else scan_loop rounds what pattern body next acc)
  end.
Definition scan_all {A} (what pattern : string) (body : string → A → M A) (acc : A) : M (result A) :=
  r ← gets w_store;
  scan_loop (rc_rounds r pattern) what pattern body 0 acc.

(** [key[strings.LastIndex(key, ":")+1:]] *)
Definition after_last_colon (key : string) : string :=
  match LastIndex ":" key with Some i => str_drop (S i) key | None => key end.

Definition read_balance (key : string) (out : gmap string f64) : M (gmap string f64) :=
  r ← cmd (rc_Get key);
  mret (match r with
        | Reply text =>
            match ParseFloat text with
            | Some amount => if feq amount fzero then out else <[after_last_colon key := amount]> out
            | None => out
            end
        | _ => out
        end).

Definition GetAllBalances (userID : string) : M (result (gmap string f64)) :=
  scan_all "failed to scan balances" (balanceKey userID "*") read_balance ∅.

(** [strings.Count(key, ":")] *)
Definition count_colons (key : string) : nat := length (filter (is_char ":") (chars key)).

Definition read_user (key : string) (out : list (loc * User)) : M (list (loc * User)) :=
  if negb (count_colons key =? 1)%nat then mret out
  else
    r ← cmd (rc_Get key);
    match r with
    | Reply data =>
        match unmarshal c_User data with
        | Some u => user ← new u; mret (out ++ [(user, u)])
        | None => mret out
        end
    | _ => mret out
    end.

Definition ListUsers : M (result (list loc)) :=
  let? out := scan_all "failed to scan users" "user:*" read_user [] else e => Errorf e in
  mret (Ok (slice_stable user_before out).*1).

(** ** 3DS challenges *)
Definition CreateThreeDSChallenge (challenge : loc) : M (result unit) :=
  c ← deref (T := ThreeDSChallenge) challenge;
  let txID := ThreeDSChallenge_TransactionID c in
  if txID =?s "" then Errorf "transaction ID is required"
  else
    created ← (if IsZero (ThreeDSChallenge_CreatedAt c) then time_Now
               else mret (ThreeDSChallenge_CreatedAt c));
    _ ← update challenge (fun c => c <| ThreeDSChallenge_CreatedAt := created |>);
    c ← deref (T := ThreeDSChallenge) challenge;
    encode "failed to marshal 3DS challenge" c_ThreeDSChallenge c (fun data =>
    now ← time_Now;
    let ttl := ThreeDSChallenge_Timeout c - now in
    if ttl <? 0 then Errorf "3DS challenge timeout is in the past"
    else
      exec "failed to store 3DS challenge"
        (rc_Set (threeDSChallengeKey txID) data (ttl + 10 * minute_ns)) (fun _ =>
      exec "failed to index 3DS challenge"
        (rc_ZAdd (userThreeDSChallengesKey (ThreeDSChallenge_UserID c))
           (f_of_Z (Unix (ThreeDSChallenge_Timeout c))) txID) (fun _ =>
      nil_error))).

Definition GetThreeDSChallenge (txID : string) : M (result loc) :=
  fetch "failed to get 3DS challenge" (Errorf "3DS challenge not found")
    (threeDSChallengeKey txID) (fun data =>
  decode "failed to unmarshal 3DS challenge" c_ThreeDSChallenge data (fun c =>
    challenge ← new c; mret (Ok challenge))).

Definition pending_challenge (txID : string) : M (option loc) :=
  r ← GetThreeDSChallenge txID;
  match r with
  | Ok challenge =>
      c ← deref (T := ThreeDSChallenge) challenge;
      mret (if ThreeDSChallenge_Status c =?s "pending" then Some challenge else None)
  | Err _ => mret None
  end.

Definition GetPendingThreeDSChallenges (userID : string) : M (result (list loc)) :=
  now ← time_Now;
  exec "failed to get pending 3DS challenges"
    (rc_ZRangeByScore (userThreeDSChallengesKey userID) (Itoa (Unix now)) "+inf") (fun txIDs =>
    pending ← collect pending_challenge txIDs;
    mret (Ok pending)).

Definition UpdateThreeDSChallenge (challenge : loc) : M (result unit) :=
  c ← deref (T := ThreeDSChallenge) challenge;
  let key := threeDSChallengeKey (ThreeDSChallenge_TransactionID c) in
  exec "failed to check 3DS challenge existence" (rc_Exists key) (fun exists_ =>
    if exists_ =? 0 then Errorf "3DS challenge not found"
    else
      encode "failed to marshal 3DS challenge" c_ThreeDSChallenge c (fun data =>
      exec "failed to get TTL" (rc_TTL key) (fun ttl =>
      exec "failed to update 3DS challenge" (rc_Set key data ttl) (fun _ =>
        if negb (ThreeDSChallenge_Status c =?s "pending")
        then exec "failed to remove from pending set"
               (rc_ZRem (userThreeDSChallengesKey (ThreeDSChallenge_UserID c))
                  (ThreeDSChallenge_TransactionID c)) (fun _ => nil_error)
        else nil_error)))).

(** ** Organizations *)
Definition GetOrganization (orgID : string) : M (result Organization) :=
  fetch "failed to get organization" (Errorf "organization not found") (organizationKey orgID)
    (fun data =>
  decode "failed to unmarshal organization" c_Organization data (fun org =>
    mret (Ok org))).

(** [return s.client.Set(...).Err()] *)
Definition set_raw_error {A} (key data : string) (value : A) : M (result A) :=
  r ← cmd (rc_Set key data 0);
  match r with
  | Reply _ => mret (Ok value)
  | NilReply => Errorf "redis: nil"
  | Fault e => Errorf e
  end.

Definition CreateOrganization (org : Organization) : M (result unit) :=
  let key := organizationKey (Organization_ID org) in
  exec "failed to check organization existence" (rc_Exists key) (fun exists_ =>
    if 0 <? exists_ then Errorf "organization already exists"
    else
      encode "failed to marshal organization" c_Organization org (fun data =>
      set_raw_error key data tt)).

Definition UpdateOrganization (org : Organization) : M (result Organization) :=
  let key := organizationKey (Organization_ID org) in
  exec "failed to check organization existence" (rc_Exists key) (fun exists_ =>
    if exists_ =? 0 then Errorf "organization not found"
    else
      now ← time_Now;
      let org := org <| Organization_UpdatedAt := now |> in
      encode "failed to marshal organization" c_Organization org (fun data =>
      set_raw_error key data org)).
End Redis.

#[export] Instance redis_storage {R : Type} `{!RedisClient R} `{Env} : Storage.Storage R := {|
  Storage.CreateUser := CreateUser; Storage.GetUser := GetUser;
  Storage.GetUserByEmail := GetUserByEmail; Storage.UpdateUser := UpdateUser;
  Storage.CreateCustomer := CreateCustomer; Storage.GetCustomer := GetCustomer;
  Storage.GetCustomerBySourceID := GetCustomerBySourceID; Storage.UpdateCustomer := UpdateCustomer;
  Storage.CreateAccount := CreateAccount; Storage.GetAccount := GetAccount;
  Storage.UpdateAccount := UpdateAccount; Storage.CreateCustomerAddress := CreateCustomerAddress;
  Storage.GetCustomerAddresses := GetCustomerAddresses; Storage.CreateCard := CreateCard;
  Storage.GetCard := GetCard; Storage.UpdateCard := UpdateCard;
  Storage.GetCardsByCustomer := GetCardsByCustomer; Storage.GetCardsByAccount := GetCardsByAccount;
  Storage.GetCardLimits := GetCardLimits; Storage.SetCardLimits := SetCardLimits;
  Storage.CreateCardTransaction := CreateCardTransaction;
  Storage.GetCardTransaction := GetCardTransaction;
  Storage.UpdateCardTransactionStatus := UpdateCardTransactionStatus;
  Storage.AddCardTransactionIndex := AddCardTransactionIndex;
  Storage.GetCardTransactionIDs := GetCardTransactionIDs;
  Storage.StoreRawCardTransaction := StoreRawCardTransaction;
  Storage.GetRawCardTransaction := GetRawCardTransaction; Storage.ListUsers := ListUsers;
  Storage.SetCardPIN := SetCardPIN; Storage.GetCardPIN := GetCardPIN;
  Storage.NextCardTransactionSeqID := NextCardTransactionSeqID;
  Storage.PeekCardTransactionSeqID := PeekCardTransactionSeqID;
  Storage.CreateWallet := CreateWallet; Storage.GetWallet := GetWallet;
  Storage.GetWalletsByUser := GetWalletsByUser; Storage.CreateTransaction := CreateTransaction;
  Storage.GetTransaction := GetTransaction;
  Storage.UpdateTransactionStatus := UpdateTransactionStatus;
  Storage.ListTransactionsByUser := ListTransactionsByUser; Storage.GetBalance := GetBalance;
  Storage.GetAllBalances := GetAllBalances; Storage.AddBalance := AddBalance;
  Storage.DeductBalance := DeductBalance;
  Storage.CreateThreeDSChallenge := CreateThreeDSChallenge;
  Storage.GetThreeDSChallenge := GetThreeDSChallenge;
  Storage.GetPendingThreeDSChallenges := GetPendingThreeDSChallenges;
  Storage.UpdateThreeDSChallenge := UpdateThreeDSChallenge;
  Storage.GetOrganization := GetOrganization; Storage.CreateOrganization := CreateOrganization;
  Storage.UpdateOrganization := UpdateOrganization |}.
