(* ===== verification/Api.v ===== *)
(** * Responses ([internal/handler/helpers.go], [apierror.go])

    What a handler writes: a status, headers and a body.  JSON bodies are
    value trees; [sendJSON] marshals before it commits to a status, so a body
    [encoding/json] refuses (a NaN or an infinity) becomes a 500. *)
From S2P Require Import Prelude GoFloat GoStd GoText Models Config World.

Inductive ResponseBody : Type :=
| BodyJSON (j : json)
| BodyRaw (contents : string)
| BodyText (contents : string)
| BodyPage (template : string) (data : json)
| BodyNone.

Record Response := mkResponse {
  resp_status : Z;
  resp_headers : list (string * string);
  resp_body : ResponseBody }.
#[export] Instance eta_Response : Eta Response := fun r =>
  mkResponse (resp_status r) (resp_headers r) (resp_body r).

Definition StatusOK : Z := 200.
Definition StatusCreated : Z := 201.
Definition StatusBadRequest : Z := 400.
Definition StatusUnauthorized : Z := 401.
Definition StatusForbidden : Z := 403.
Definition StatusNotFound : Z := 404.
Definition StatusConflict : Z := 409.
Definition StatusInternalServerError : Z := 500.

Definition StatusText (code : Z) : string :=
  if code =? 200 then "OK"
  else if code =? 201 then "Created"
  else if code =? 400 then "Bad Request"
  else if code =? 401 then "Unauthorized"
  else if code =? 403 then "Forbidden"
  else if code =? 404 then "Not Found"
  else if code =? 409 then "Conflict"
  else if code =? 500 then "Internal Server Error"
  else "".

Definition sendJSON (status : Z) (data : json) : Response :=
  if marshals data
  then mkResponse status [("Content-Type", "application/json")] (BodyJSON data)
  else mkResponse StatusInternalServerError [("Content-Type", "application/json")]
         (BodyJSON (JObj [("error", JStr "internal server error")])).

Definition formatAmount (amount : f64) : string := Sprintf_2f amount.

Definition sendError (status : Z) (message : string) : Response :=
  sendJSON status (json_of_ErrorResponse (mkErrorResponse (StatusText status) message)).

Definition setCORSHeaders (r : Response) : Response :=
  r <| resp_headers := ("Access-Control-Allow-Origin", "*") :: resp_headers r |>.
Definition sendJSONWithCORS (status : Z) (data : json) : Response :=
  setCORSHeaders (sendJSON status data).
Definition sendErrorWithCORS (status : Z) (message : string) : Response :=
  setCORSHeaders (sendError status message).

(** [http.Error] *)
Definition http_Error (message : string) (status : Z) : Response :=
  mkResponse status [("Content-Type", "text/plain; charset=utf-8")] (BodyText message).

(** [map[string]string{...}] *)
Definition strings_json (l : list (string * string)) : json :=
  JObj (map (fun kv => (kv.1, JStr kv.2)) l).

(** ** [apiError] *)
Record apiError := mkApiError {
  api_status : Z;
  api_msg : string;
  api_details : list (string * json) }.
#[export] Instance eta_apiError : Eta apiError := fun r =>
  mkApiError (api_status r) (api_msg r) (api_details r).

Definition badRequest (msg : string) : apiError := mkApiError StatusBadRequest msg [].
Definition notFound (msg : string) : apiError := mkApiError StatusNotFound msg [].
Definition conflict (msg : string) : apiError := mkApiError StatusConflict msg [].
Definition internalErr (msg : string) : apiError := mkApiError StatusInternalServerError msg [].
Definition withDetails (e : apiError) (details : list (string * json)) : apiError :=
  e <| api_details := details |>.

(** An error of the core operations is always an [*apiError]. *)
Definition sendAPIError (e : apiError) : Response :=
  if (length (api_details e) =? 0)%nat then sendError (api_status e) (api_msg e)
  else
    sendJSON (api_status e)
      (JObj (fold_left (fun body kv => assoc_set kv.1 kv.2 body) (api_details e)
               [("error", JStr (StatusText (api_status e))); ("message", JStr (api_msg e))])).

Definition errFailedToUpdateUser : apiError := internalErr "failed to update user".

(** The outcome of a core operation: Go's [error] that is nil or an [apiError]. *)
Definition api_result (A : Type) : Type := (A + apiError)%type.

(** ** Facts *)
Lemma sendJSON_status status data :
  resp_status (sendJSON status data) = if marshals data then status else 500.
Proof. unfold sendJSON. by destruct (marshals data). Qed.

Lemma marshals_error e : marshals (json_of_ErrorResponse e) = true.
Proof. unfold json_of_ErrorResponse. by destruct (_ =?s _). Qed.

Lemma sendError_status status message : resp_status (sendError status message) = status.
Proof. unfold sendError. by rw sendJSON_status marshals_error. Qed.

Lemma sendErrorWithCORS_status status message :
  resp_status (sendErrorWithCORS status message) = status.
Proof. apply sendError_status. Qed.

Lemma marshals_strings l : marshals (strings_json l) = true.
Proof. simpl. induction l as [|kv l IH]; simpl; [done|]. by rw IH. Qed.

Lemma sendJSON_strings_status status l :
  resp_status (sendJSON status (strings_json l)) = status.
Proof. by rw sendJSON_status marshals_strings. Qed.

#[export] Hint Rewrite sendError_status sendErrorWithCORS_status sendJSON_strings_status
  marshals_error marshals_strings : prog.
