(* ===== verification/Fees.v ===== *)
(** * Fees ([internal/handler/fees.go])

    The fee configuration, the fee computation and the admin endpoints.  A
    handler takes its URL parameters and its decoded body ([None]: the body did
    not decode) and returns the response it writes. *)
From S2P Require Import Prelude GoFloat GoStd Models Config World Api.

(** ** The configuration *)
Definition NewFeeConfig : FeeConfig := mkFeeConfig fzero fzero ∅.

Definition GetDepositFeePercent (fc : FeeConfig) : f64 := depositFeePercent fc.
Definition GetWithdrawalFeePercent (fc : FeeConfig) : f64 := withdrawalFeePercent fc.

Definition GetDepositFeeForUser (userID : string) (fc : FeeConfig) : f64 * bool :=
  match userOverrides fc !! userID with
  | Some (mkOverride (Some pct) _) => (pct, true)
  | _ => (depositFeePercent fc, false)
  end.

Definition GetWithdrawalFeeForUser (userID : string) (fc : FeeConfig) : f64 * bool :=
  match userOverrides fc !! userID with
  | Some (mkOverride _ (Some pct)) => (pct, true)
  | _ => (withdrawalFeePercent fc, false)
  end.

Definition SetDepositFeePercent (pct : f64) (fc : FeeConfig) : FeeConfig :=
  fc <| depositFeePercent := pct |>.
Definition SetWithdrawalFeePercent (pct : f64) (fc : FeeConfig) : FeeConfig :=
  fc <| withdrawalFeePercent := pct |>.

(** A nil percentage leaves the existing override unchanged. *)
Definition FeeConfig_SetUserFees (userID : string) (depositPct withdrawalPct : option f64)
    (fc : FeeConfig) : FeeConfig :=
  let override := default (mkOverride None None) (userOverrides fc !! userID) in
  let override := match depositPct with
                  | Some _ => override <| depositPercent := depositPct |>
                  | None => override end in
  let override := match withdrawalPct with
                  | Some _ => override <| withdrawalPercent := withdrawalPct |>
                  | None => override end in
  fc <| userOverrides := <[userID := override]> (userOverrides fc) |>.

Definition FeeConfig_ClearUserFees (userID : string) (fc : FeeConfig) : FeeConfig :=
  fc <| userOverrides := delete userID (userOverrides fc) |>.

(** [amount * percent / 100.0], then [math.Round(raw*100) / 100]. *)
Definition CalculateFee (amount percent : f64) : f64 :=
  let hundred := f_of_Z 100 in
  let raw := fdiv (fmul amount percent) hundred in
  fdiv (math_Round (fmul raw hundred)) hundred.

(** ** Admin endpoints *)
Record feeResponse := mkFeeResponse {
  DepositFeePercentage : f64;
  WithdrawalFeePercentage : f64 }.
Definition json_of_feeResponse (r : feeResponse) : json :=
  JObj [("deposit_fee_percentage", JFloat (DepositFeePercentage r));
        ("withdrawal_fee_percentage", JFloat (WithdrawalFeePercentage r))].

Record feeUpdateRequest := mkFeeUpdate {
  UpdateDepositFeePercentage : option f64;
  UpdateWithdrawalFeePercentage : option f64 }.

Record userFeeResponse := mkUserFeeResponse {
  uf_UserID : string;
  uf_DepositFeePercentage : f64;
  uf_WithdrawalFeePercentage : f64;
  uf_DepositFeeSource : string;
  uf_WithdrawalFeeSource : string }.
Definition json_of_userFeeResponse (r : userFeeResponse) : json :=
  JObj [("user_id", JStr (uf_UserID r));
        ("deposit_fee_percentage", JFloat (uf_DepositFeePercentage r));
        ("withdrawal_fee_percentage", JFloat (uf_WithdrawalFeePercentage r));
        ("deposit_fee_source", JStr (uf_DepositFeeSource r));
        ("withdrawal_fee_source", JStr (uf_WithdrawalFeeSource r))].

Definition feeSource (userOverride : bool) : string := if userOverride then "user" else "global".

(** [p < 0 || p > 100] *)
Definition fee_out_of_range (p : f64) : bool := flt p (f_of_Z 0) || flt (f_of_Z 100) p.

Section Endpoints.
Context {S : Type} `{Env}.
Abbreviation M := (prog (World S)).

Definition fees : M FeeConfig := gets w_fees.
Definition set_fees (f : FeeConfig → FeeConfig) : M unit :=
  modify (fun w => w <| w_fees := f (w_fees w) |>).

Definition current_fees : M Response :=
  fc ← fees;
  mret (sendJSON StatusOK (json_of_feeResponse
          (mkFeeResponse (GetDepositFeePercent fc) (GetWithdrawalFeePercent fc)))).

Definition GetFees : M Response := current_fees.

Definition SetFees (body : option feeResponse) : M Response :=
  match body with
  | None => mret (sendError StatusBadRequest "invalid request body")
  | Some req =>
      if fee_out_of_range (DepositFeePercentage req)
      then mret (sendError StatusBadRequest "deposit_fee_percentage must be between 0 and 100")
      else if fee_out_of_range (WithdrawalFeePercentage req)
      then mret (sendError StatusBadRequest "withdrawal_fee_percentage must be between 0 and 100")
      else
        _ ← set_fees (SetDepositFeePercent (DepositFeePercentage req));
        _ ← set_fees (SetWithdrawalFeePercent (WithdrawalFeePercentage req));
        current_fees
  end.

Definition GetUserFees (userID : string) : M Response :=
  if userID =?s "" then mret (sendError StatusBadRequest "user_id is required")
  else
    fc ← fees;
    let '(depositPct, depositOverride) := GetDepositFeeForUser userID fc in
    let '(withdrawalPct, withdrawalOverride) := GetWithdrawalFeeForUser userID fc in
    mret (sendJSON StatusOK (json_of_userFeeResponse
      (mkUserFeeResponse userID depositPct withdrawalPct
         (feeSource depositOverride) (feeSource withdrawalOverride)))).

Definition opt_out_of_range (p : option f64) : bool :=
  match p with Some p => fee_out_of_range p | None => false end.

Definition SetUserFees (userID : string) (body : option feeUpdateRequest) : M Response :=
  if userID =?s "" then mret (sendError StatusBadRequest "user_id is required")
  else
    match body with
    | None => mret (sendError StatusBadRequest "invalid request body")
    | Some (mkFeeUpdate None None) =>
        mret (sendError StatusBadRequest "at least one fee percentage must be provided")
    | Some (mkFeeUpdate depositPct withdrawalPct) =>
        if opt_out_of_range depositPct
        then mret (sendError StatusBadRequest "deposit_fee_percentage must be between 0 and 100")
        else if opt_out_of_range withdrawalPct
        then mret (sendError StatusBadRequest "withdrawal_fee_percentage must be between 0 and 100")
        else
          _ ← set_fees (FeeConfig_SetUserFees userID depositPct withdrawalPct);
          GetUserFees userID
    end.

Definition ClearUserFees (userID : string) : M Response :=
  if userID =?s "" then mret (sendError StatusBadRequest "user_id is required")
  else
    _ ← set_fees (FeeConfig_ClearUserFees userID);
    GetUserFees userID.
End Endpoints.
