(* ===== verification/Webhook.v ===== *)
(** * Webhooks: enqueueing ([internal/webhook/manager.go], [queue.go])

    [SendAsync] decides whether an event is worth queueing and hands it to the
    queue; [Enqueue] stamps the job and computes the delay before it enters
    the stream.  [normalizeVerificationPayload] is the last transformation of
    a payload before delivery. *)
From S2P Require Import Prelude GoFloat GoStd GoText Consts Models Config World Api.
From S2P Require Storage.

(** [time.Duration(sec * float64(time.Second))] *)
Definition seconds_duration (sec : f64) : Z := f_trunc (fmul sec (f_of_Z second_ns)).

Definition NewQueue (minDelaySec : f64) : Queue :=
  let minDelaySec := if flt minDelaySec (f_of_Z 0) then f_of_Z 0 else minDelaySec in
  mkQueue (seconds_duration minDelaySec).

Definition NewManager (url secret : string) (q : option Queue) (defaultOrgID : string) : Manager :=
  mkManager url secret q defaultOrgID.

Section Manager.
Context {S : Type} `{Env} `{!Storage.Storage S}.
Abbreviation M := (prog (World S)).

(** The organization's URL when the default organization has one. *)
Definition org_base_url (m : Manager) : M (option string) :=
  if negb (defaultOrganizationID m =?s "") then
    org ← Storage.GetOrganization (defaultOrganizationID m);
    match org with
    | Ok org => if negb (Organization_APIBaseURL org =?s "")
                then mret (Some (Organization_APIBaseURL org)) else mret None
    | Err _ => mret None
    end
  else mret None.

Definition resolveCallbackURL (m : Manager) : M string :=
  url ← org_base_url m;
  match url with Some url => mret url | None => mret (webhookURL m) end.

Definition ResolveOrgBaseURL (m : Manager) : M string :=
  url ← org_base_url m;
  match url with Some url => mret (TrimRight "/" url) | None => mret "" end.

(** A method call on the handler's manager; a nil one panics when it is used. *)
Definition manager : M Manager :=
  m ← gets w_manager;
  match m with
  | Some m => mret m
  | None => panic "invalid memory address or nil pointer dereference"
  end.

Definition HasURL : M bool :=
  m ← gets w_manager;
  match m with
  | None => mret false
  | Some m => url ← resolveCallbackURL m; mret (negb (url =?s ""))
  end.

(** The job enters the stream after the greater of the two delays; data that
    does not marshal is refused. *)
Definition Enqueue (q : Queue) (eventType userID : string) (data : list (string * json))
    (offsetDelaySeconds : f64) : M (result string) :=
  jobID ← GenerateUUID;
  now ← time_Now;
  let job := mkStreamJob "" jobID eventType userID data 0 (Format_RFC3339Nano now) "" in
  if negb (marshals (JObj data)) then mret (Err "failed to serialize job data")
  else
    let totalDelay := Z.max (minDelay q) (seconds_duration offsetDelaySeconds) in
    _ ← modify (fun w => w <| w_jobs := w_jobs w ++ [(job, totalDelay)] |>);
    mret (Ok jobID).

Definition isInternal (eventType : string) : bool :=
  (9 <? String.length eventType)%nat && (str_take 9 eventType =?s "internal.").

Definition SendAsync (eventType userID : string) (data : list (string * json))
    (offsetDelaySeconds : f64) : M unit :=
  m ← manager;
  (* internal events are queued whether or not a URL is configured *)
  skip ← (if isInternal eventType then mret false
          else callbackURL ← resolveCallbackURL m; mret (callbackURL =?s ""));
  if skip : bool then mret tt
  else
    match queue m with
    | None => mret tt
    | Some q => _ ← Enqueue q eventType userID data offsetDelaySeconds; mret tt
    end.
End Manager.

(** ** Payload normalisation *)
Definition isVerificationOutcome (eventType : string) : bool :=
  (eventType =?s WebhookEventKYCAccepted) || (eventType =?s WebhookEventKYCRejected)
  || (eventType =?s WebhookEventKYCActionRequired).

Definition isVerificationEvent (eventType : string) : bool :=
  isVerificationOutcome eventType || (eventType =?s WebhookEventKYCResubmission)
  || (eventType =?s WebhookEventDocumentNoticeExpired)
  || (eventType =?s WebhookEventDocumentNoticeWarning).

(** The ["verified"] summary of an outcome. *)
Definition verified_summary (eventType : string) : json :=
  let '(short, status) :=
    if eventType =?s WebhookEventKYCAccepted then ("accepted", 1)
    else if eventType =?s WebhookEventKYCRejected then ("rejected", 2)
    else ("action_required", 0) in
  JObj [("short", JStr short); ("status", JInt status)].

Definition set_default {A} (k : string) (v : A) (m : list (string * A)) : list (string * A) :=
  match assoc k m with Some _ => m | None => assoc_set k v m end.

Definition normalizeVerificationPayload (eventType : string) (data : list (string * json)) :
    list (string * json) :=
  if isVerificationEvent eventType then
    let converted := set_default "gateway" (JStr "paywiser") data in
    if negb (isVerificationOutcome eventType) then converted
    else set_default "verified" (verified_summary eventType) converted
  else data.
