(* ===== verification/Utils.v ===== *)
(** * Identifiers and bearer tokens

    [internal/utils/utils.go] and the token helpers of
    [internal/handler/handler.go]. *)
From S2P Require Import Prelude GoFloat GoStd Crypto Config World.

Definition xrpl_charset : string :=
  "123456789ABCDEFGHJKLMNPQRSTUVWXYZabcdefghijkmnopqrstuvwxyz".
Definition xrpl_length : nat := 33.

Definition xrpl_char (b : Z) : ascii :=
  nth (Z.to_nat (b mod Z.of_nat (String.length xrpl_charset))) (chars xrpl_charset) "000"%char.

Section Utils.
Context {S : Type} `{Env}.
Abbreviation M := (prog (World S)).

(** One address character per random byte; a failed read falls back to a UUID. *)
Definition GenerateMockXRPLAddress : M string :=
  b ← rand_Read xrpl_length;
  match b with
  | None => uuid ← GenerateUUID; s ← slice_to 32 uuid; mret ("r" +:+ s)
  | Some b => mret ("r" +:+ of_chars (map xrpl_char b))
  end.

(** [fmt.Sprintf("%X", b)]: upper-case hexadecimal. *)
Definition hex_upper (d : Z) : ascii := char_of (if d <? 10 then 48 + d else 55 + d).
Definition GenerateMockTransactionHash : M string :=
  b ← rand_Read 32;
  match b with
  | None => GenerateUUID
  | Some b => mret (of_chars (flat_map (fun x => [hex_upper (x / 16); hex_upper (x mod 16)]) b))
  end.

(** The token to user mapping; an unknown token maps to the empty string. *)
Definition extractUserFromBearer (bearer : string) : M string :=
  tokens ← gets w_tokens;
  mret (default "" (tokens !! bearer)).
End Utils.

Definition tokenPrefix (token : string) : string :=
  if (20 <? String.length token)%nat then str_take 20 token else token.

Definition extractBearerFromAuthHeader (authHeader : string) : string :=
  if (String.length authHeader <? 7)%nat then ""
  else if negb (str_take 7 authHeader =?s "Bearer ") then ""
  else str_drop 7 authHeader.
