(* ===== verification/Core.v ===== *)
(** * Wallets and transactions ([internal/handler/core.go])

    The [/core/v1] handlers.  A handler takes its URL parameters, the headers
    and query parameters it reads and its decoded body ([None]: decoding
    failed), and returns the response.  The asynchronous half of
    [CreateTransaction] is [complete]; with a webhook URL configured it is
    left in [w_tasks] for the scheduler ([Tasks.v]) to run. *)
From S2P Require Import Prelude GoFloat GoStd Consts Models Config World Api Fees Webhook Utils.
From S2P Require Storage.

Section Core.
Context {S : Type} `{Env} `{!Storage.Storage S}.
Abbreviation M := (prog (World S)).

Definition CreateWallet (userID : string) (body : option CreateWalletRequest) : M Response :=
  match body with
  | None => mret (sendError StatusBadRequest "Invalid request body")
  | Some req =>
      let req_UserID :=
        if (CreateWalletRequest_UserID req =?s "") && negb (userID =?s "")
        then userID else CreateWalletRequest_UserID req in
      if req_UserID =?s "" then mret (sendError StatusBadRequest "user_id is required")
      else
        let? _ := Storage.GetUser req_UserID
          else _ => mret (sendError StatusNotFound "User not found") in
        address ← GenerateMockXRPLAddress;
        let type := if CreateWalletRequest_Type req =? 0 then WalletTypeStandard
                    else CreateWalletRequest_Type req in
        let network := if CreateWalletRequest_Network req =? 0 then NetworkXRPLedger
                       else CreateWalletRequest_Network req in
        let wallet := zero_Wallet <| Wallet_Address := address |>
                        <| Wallet_UserID := req_UserID |>
                        <| Wallet_Name := CreateWalletRequest_Name req |>
                        <| Wallet_Type := type |> <| Wallet_Network := network |> in
        let? wallet := Storage.CreateWallet wallet
          else _ => mret (sendError StatusInternalServerError "Failed to create wallet") in
        mret (sendJSON StatusCreated (json_of_Wallet wallet))
  end.

Definition default_wallet (address userID : string) : Wallet :=
  zero_Wallet <| Wallet_Address := address |> <| Wallet_UserID := userID |>
    <| Wallet_Name := "Default Wallet" |> <| Wallet_Type := WalletTypeStandard |>
    <| Wallet_Network := NetworkXRPLedger |>.

(** The wallets of a response: the first one is primary. *)
Definition wallet_responses (wallets : list Wallet) : list UserWalletResponse :=
  imap (fun i w => mkUserWalletResponse (Wallet_Address w) (Wallet_Address w) (Wallet_Name w)
                     (Wallet_Type w) (i =? 0)%nat true true) wallets.

Definition GetUserWallets (userID : string) : M Response :=
  if userID =?s "" then mret (sendError StatusBadRequest "User ID is required")
  else
    let? _ := Storage.GetUser userID
      else _ => mret (sendError StatusNotFound "User not found") in
    let? wallets := Storage.GetWalletsByUser userID
      else _ => mret (sendError StatusInternalServerError "Failed to get wallets") in
    let respond wallets :=
      mret (sendJSON StatusOK (json_of_UserWalletsResponse
              (mkUserWalletsResponse (wallet_responses wallets)))) in
    match wallets with
    | [] =>
        address ← GenerateMockXRPLAddress;
        let? wallet := Storage.CreateWallet (default_wallet address userID)
          else _ => mret (sendError StatusInternalServerError "Failed to create wallet") in
        respond [wallet]
    | _ => respond wallets
    end.

(** The [walletID] URL parameter, or the legacy [address]. *)
Definition resolveWalletParam (walletID address : string) : string :=
  if negb (walletID =?s "") then walletID else address.

Definition GetWallet (walletID address : string) : M Response :=
  let walletID := resolveWalletParam walletID address in
  if walletID =?s "" then mret (sendError StatusBadRequest "Wallet address is required")
  else
    let? wallet := Storage.GetWallet walletID
      else _ => mret (sendError StatusNotFound "Wallet not found") in
    mret (sendJSON StatusOK (json_of_Wallet wallet)).

(** One currency of a balance listing; an unreadable balance reads as zero. *)
Definition wallet_balance (userID currency : string) : M (option WalletBalanceResponse) :=
  balance ← Storage.GetBalance userID currency;
  let balance := match balance with Ok b => b | Err _ => fzero end in
  created ← time_Now;
  updated ← time_Now;
  mret (Some (mkWalletBalanceResponse (formatAmount balance) "0.00" (formatAmount balance)
    (mkVaultSummary (default "" (SandboxVaultIDs !! currency)) ("Sandbox Vault " +:+ currency)
       currency (Format_RFC3339 created) (Format_RFC3339 updated)))).

Definition GetWalletBalance (walletID address : string) : M Response :=
  let walletID := resolveWalletParam walletID address in
  if walletID =?s "" then mret (sendError StatusBadRequest "Wallet address is required")
  else
    let? wallet := Storage.GetWallet walletID
      else _ => mret (sendError StatusNotFound "Wallet not found") in
    balances ← collect (wallet_balance (Wallet_UserID wallet)) SandboxCurrencies;
    mret (sendJSON StatusOK (JArr (map json_of_WalletBalanceResponse balances))).

(** ** [CreateTransaction] *)

(** The user a transaction is for: body, header, then receiving wallet. *)
Definition resolve_user (req : CreateTransactionRequest) (managedUser : string) : M string :=
  let userID := CreateTransactionRequest_UserID req in
  let userID := if userID =?s "" then managedUser else userID in
  let receiving := CreateTransactionRequest_ReceivingAddress req in
  if (userID =?s "") && negb (receiving =?s "") then
    wallet ← Storage.GetWallet receiving;
    match wallet with
    | Ok wallet => mret (Wallet_UserID wallet)
    | Err _ => mret userID
    end
  else mret userID.

(** The currency: inferred from the vault when absent, and corrected to the
    vault's when the two disagree.  [Err] is the message of a 400. *)
Definition resolve_currency (currency vault : string) : result string :=
  if currency =?s "" then
    if vault =?s "" then Err "either currency or vault_uuid is required"
    else match VaultUUIDToCurrency !! vault with
         | Some currency => Ok currency
         | None => Err "invalid vault_uuid"
         end
  else if negb (vault =?s "") && negb (vault =?s default "" (SandboxVaultIDs !! currency)) then
    match VaultUUIDToCurrency !! vault with
    | Some inferred => Ok inferred
    | None => Ok currency
    end
  else Ok currency.

Definition resolve_deposit_type (type : Z) (depositType : string) : string :=
  if depositType =?s "" then
    if type =? TransactionTypeDeposit then DepositTypeExternal else DepositTypeHosted
  else depositType.

(** External deposits and withdrawals pay; hosted transfers are free. *)
Definition fee_percent (depositType userID : string) (fc : FeeConfig) : f64 :=
  if depositType =?s DepositTypeExternal then (GetDepositFeeForUser userID fc).1
  else if depositType =?s DepositTypeWithdrawal then (GetWithdrawalFeeForUser userID fc).1
  else fzero.

(** A hosted transfer out of one of the user's own wallets is a debit. *)
Definition is_debit (depositType sendingAddr userID : string) : M bool :=
  if (depositType =?s DepositTypeHosted) && negb (sendingAddr =?s "") then
    wallet ← Storage.GetWallet sendingAddr;
    match wallet with
    | Ok wallet => mret (Wallet_UserID wallet =?s userID)
    | Err _ => mret false
    end
  else mret false.

Definition completed_payload (c : Completion) : list (string * json) :=
  [("transaction_id", JStr (c_txID c)); ("tx_uuid", JStr (c_txID c));
   ("amount", JStr (formatAmount (c_amount c))); ("currency", JStr (c_currency c));
   ("address", JStr (c_receivingAddr c)); ("deposit_type", JStr (c_depositType c));
   ("status", JStr "completed")].

(** The [complete] closure. *)
Definition complete (c : Completion) : M unit :=
  updated ← (if c_hasWebhook c
             then Storage.UpdateTransactionStatus (c_txID c) TransactionStatusCompleted
             else mret (Ok tt));
  match updated with
  | Err _ => mret tt
  | Ok _ =>
      let netAmount := fsub (c_amount c) (c_feeAmount c) in
      moved ← (if c_isDebit c
               then Storage.DeductBalance (c_userID c) (c_currency c) netAmount
               else Storage.AddBalance (c_userID c) (c_currency c) netAmount);
      match moved with
      | Err _ => mret tt
      | Ok _ =>
          if c_hasWebhook c
          then SendAsync WebhookEventDepositCompleted (c_userID c) (completed_payload c) fzero
          else mret tt
      end
  end.

Definition user_required : string :=
  "user_id is required (provide in body, x-gatehub-managed-user-uuid header, or use a valid receiving_address)".

Definition CreateTransaction (managedUser : string) (body : option CreateTransactionRequest) :
    M Response :=
  match body with
  | None => mret (sendError StatusBadRequest "Invalid request body")
  | Some req =>
  userID ← resolve_user req managedUser;
  if userID =?s "" then mret (sendError StatusBadRequest user_required)
  else if fle (CreateTransactionRequest_Amount req) (f_of_Z 0)
  then mret (sendError StatusBadRequest "amount must be positive")
  else
  match resolve_currency (CreateTransactionRequest_Currency req)
          (CreateTransactionRequest_VaultUUID req) with
  | Err msg => mret (sendError StatusBadRequest msg)
  | Ok currency =>
  let? _ := Storage.GetUser userID
    else _ => mret (sendError StatusNotFound "User not found") in
  let amount := CreateTransactionRequest_Amount req in
  let type := if CreateTransactionRequest_Type req =? 0 then TransactionTypeDeposit
              else CreateTransactionRequest_Type req in
  let depositType := resolve_deposit_type type (CreateTransactionRequest_DepositType req) in
  let vault := if CreateTransactionRequest_VaultUUID req =?s ""
               then default "" (SandboxVaultIDs !! currency)
               else CreateTransactionRequest_VaultUUID req in
  fc ← fees;
  let amountStr := formatAmount amount in
  let feeAmount := CalculateFee amount (fee_percent depositType userID fc) in
  let totalAmountStr := if depositType =?s DepositTypeWithdrawal
                        then formatAmount (fadd amount feeAmount) else amountStr in
  tx ← new (zero_Transaction <| Transaction_UserID := userID |>
    <| Transaction_UID := CreateTransactionRequest_UID req |>
    <| Transaction_Amount := amountStr |> <| Transaction_TotalAmount := totalAmountStr |>
    <| Transaction_Fee := formatAmount feeAmount |> <| Transaction_Currency := currency |>
    <| Transaction_VaultUUID := vault |>
    <| Transaction_SendingAddress := CreateTransactionRequest_SendingAddress req |>
    <| Transaction_ReceivingAddress := CreateTransactionRequest_ReceivingAddress req |>
    <| Transaction_Type := type |> <| Transaction_DepositType := depositType |>
    <| Transaction_Status := TransactionStatusPending |>);
  let? _ := Storage.CreateTransaction tx
    else _ => mret (sendError StatusInternalServerError "Failed to create transaction") in
  respTx ← deref (T := Transaction) tx;
  let respond := mret (sendJSON StatusCreated (json_of_Transaction respTx)) in
  if (depositType =?s DepositTypeExternal) || (depositType =?s DepositTypeHosted) then
    hasWebhook ← HasURL;
    isDebit ← is_debit depositType (CreateTransactionRequest_SendingAddress req) userID;
    let c := mkCompletion (Transaction_ID respTx) userID currency amount feeAmount depositType
               (CreateTransactionRequest_ReceivingAddress req) isDebit hasWebhook in
    _ ← (if negb hasWebhook then complete c else spawn (TComplete c));
    respond
  else respond
  end
  end.

(** ** Reading back *)
Definition transaction_json (tx : Transaction) : json :=
  JObj [("uuid", JStr (Transaction_ID tx)); ("user_id", JStr (Transaction_UserID tx));
        ("amount", JStr (Transaction_Amount tx));
        ("total_amount", JStr (Transaction_TotalAmount tx)); ("fee", JStr (Transaction_Fee tx));
        ("currency", JStr (Transaction_Currency tx)); ("type", JInt (Transaction_Type tx));
        ("deposit_type", JStr (Transaction_DepositType tx));
        ("status", JInt (Transaction_Status tx));
        ("created_at", JStr (Format_RFC3339 (Transaction_CreatedAt tx)));
        ("vault", JObj [("uuid", JStr (Transaction_VaultUUID tx));
                        ("asset_code", JStr (Transaction_Currency tx));
                        ("name", JStr (Transaction_Currency tx +:+ " Vault"))]);
        ("sending_wallet", JObj [("address", JStr (Transaction_ReceivingAddress tx))]);
        ("receiving_wallet", JObj [("address", JStr (Transaction_ReceivingAddress tx))])].

Definition GetTransaction (txID : string) : M Response :=
  if txID =?s "" then mret (sendError StatusBadRequest "Transaction ID is required")
  else
    let? tx := Storage.GetTransaction txID
      else _ => mret (sendError StatusNotFound "Transaction not found") in
    tx ← deref (T := Transaction) tx;
    mret (sendJSON StatusOK (transaction_json tx)).

Definition ListGatewayTransactions : M Response := mret (sendJSON StatusOK (JArr [])).

(** The bearer token of the query, or of the [Authorization] header. *)
Definition query_or_header_bearer (bearer authorization : string) : string :=
  if bearer =?s "" then
    if (7 <? String.length authorization)%nat && (str_take 7 authorization =?s "Bearer ")
    then str_drop 7 authorization else authorization
  else bearer.

Definition GetUserCurrencies (bearer authorization : string) : M Response :=
  let bearer := query_or_header_bearer bearer authorization in
  let respond l := mret (sendJSON StatusOK (json_of_CurrenciesResponse (mkCurrenciesResponse l))) in
  if bearer =?s "" then mret (sendError StatusBadRequest "Missing bearer token")
  else
    userUUID ← extractUserFromBearer bearer;
    if userUUID =?s "" then respond SandboxCurrencies
    else
      userCurrencies ← collect (fun currency =>
        balance ← Storage.GetBalance userUUID currency;
        mret (match balance with
              | Ok b => if flt (f_of_Z 0) b then Some currency else None
              | Err _ => None
              end)) SandboxCurrencies;
      if (length userCurrencies =? 0)%nat then respond SandboxCurrencies
      else respond userCurrencies.
End Core.
