(* ===== verification/Auth.v ===== *)
(** * Request authentication ([internal/auth])

    Signatures and the HMAC middleware.  The middleware either answers the
    request or hands it on: [None] is [next.ServeHTTP]. *)
From S2P Require Import Prelude GoFloat GoStd Crypto World Api GoText.

(** ** [signature.go] *)

(** [HMAC-SHA256(timestamp|method|url|body, secret)], in hexadecimal. *)
Definition signed_message (timestamp method url body : string) : string :=
  Trim "|" (timestamp +:+ "|" +:+ method +:+ "|" +:+ url +:+ "|" +:+ body).
Definition GenerateSignature (timestamp method url body secret : string) : string :=
  hex_EncodeToString
    (hmac_sha256 (bytes_of secret) (bytes_of (signed_message timestamp method url body))).

(** The parts of an outgoing [http.Request]. *)
Record OutgoingRequest := mkOutgoing {
  out_method : string;
  out_scheme : string;
  out_urlHost : string;
  out_host : string;
  out_path : string;
  out_rawQuery : string;
  out_headers : list (string * string) }.
#[export] Instance eta_Outgoing : Eta OutgoingRequest := fun r =>
  mkOutgoing (out_method r) (out_scheme r) (out_urlHost r) (out_host r) (out_path r)
    (out_rawQuery r) (out_headers r).

Definition buildOutgoingURL (r : OutgoingRequest) : string :=
  let scheme := if out_scheme r =?s "" then "http" else out_scheme r in
  let host := if out_urlHost r =?s "" then out_host r else out_urlHost r in
  let fullURL := scheme +:+ "://" +:+ host +:+ out_path r in
  if negb (out_rawQuery r =?s "") then fullURL +:+ "?" +:+ out_rawQuery r else fullURL.

Definition SignRequest {S} `{Env} (r : OutgoingRequest) (secret body : string) :
    prog (World S) OutgoingRequest :=
  now ← time_Now;
  let timestamp := Itoa (UnixMilli now) in
  let signature := GenerateSignature timestamp (out_method r) (buildOutgoingURL r) body secret in
  mret (r <| out_headers :=
    assoc_set "x-gatehub-app-id" "mockgatehub"
      (assoc_set "x-gatehub-signature" signature
         (assoc_set "x-gatehub-timestamp" timestamp (out_headers r))) |>).

(** The secret is hexadecimal when it decodes, and is used as it is otherwise. *)
Definition GenerateGateHubWebhookSignature (jsonBody hexSecret : string) : string :=
  let key := match hex_DecodeString hexSecret with
             | Some key => key
             | None => bytes_of hexSecret
             end in
  hex_EncodeToString (hmac_sha256 key (bytes_of jsonBody)).

(** ** [middleware.go] *)
Definition PublicEndpoints : list string :=
  ["/health"; "/"; "/iframe/onboarding"; "/iframe/submit"; "/transaction/complete";
   "/api/user-currencies"; "/cards/v1/token/card-data/data"; "/cards/v1/token/pin/data";
   "/cards/v1/token/pin/public-key"].
Definition PublicEndpointPatterns : list string := [].

Fixpoint match_segments (pattern path : list string) : bool :=
  match pattern, path with
  | [], [] => true
  | p :: pattern, s :: path => ((p =?s "*") || (p =?s s)) && match_segments pattern path
  | _, _ => false
  end.
Definition matchPattern (pattern path : string) : bool :=
  match_segments (Split "/" (Trim "/" pattern)) (Split "/" (Trim "/" path)).
Definition matchesPublicPattern (path : string) : bool :=
  existsb (fun pattern => matchPattern pattern path) PublicEndpointPatterns.

(** What the middleware reads of a request; the body is [Err] when reading it
    fails.  [in_header] is [r.Header.Get]. *)
Record IncomingRequest := mkIncoming {
  in_method : string;
  in_path : string;
  in_rawQuery : string;
  in_host : string;
  in_tls : bool;
  in_header : string → string;
  in_body : result string }.

Definition reconstructURL (r : IncomingRequest) : string :=
  let scheme := in_header r "X-Forwarded-Proto" in
  let scheme := if scheme =?s "" then (if in_tls r then "https" else "http") else scheme in
  let host := in_header r "X-Forwarded-Host" in
  let host := if host =?s "" then in_host r else host in
  let fullURL := scheme +:+ "://" +:+ host +:+ in_path r in
  if negb (in_rawQuery r =?s "") then fullURL +:+ "?" +:+ in_rawQuery r else fullURL.

Definition quoted (s : string) : string := String dquote (s +:+ String dquote "").
Definition auth_error (code status : string) : string :=
  "{" +:+ quoted "error" +:+ ": {" +:+ quoted "status_code" +:+ ": " +:+ code +:+ ", "
    +:+ quoted "status" +:+ ": " +:+ quoted status +:+ "}}".
Definition unauthorized : Response :=
  http_Error (auth_error "401" "Unauthorized") StatusUnauthorized.

Definition Middleware (validCredentials : gmap string string) (r : IncomingRequest) :
    option Response :=
  if existsb (str_eqb (in_path r)) PublicEndpoints then None
  else if matchesPublicPattern (in_path r) then None
  else
    let appID := in_header r "x-gatehub-app-id" in
    let timestamp := in_header r "x-gatehub-timestamp" in
    let signature := in_header r "x-gatehub-signature" in
    if (appID =?s "") || (timestamp =?s "") || (signature =?s "") then Some unauthorized
    else
      match validCredentials !! appID with
      | None => Some unauthorized
      | Some secret =>
          match in_body r with
          | Err _ => Some (http_Error (auth_error "400" "Bad Request") StatusBadRequest)
          | Ok body =>
              let expectedSig :=
                GenerateSignature timestamp (in_method r) (reconstructURL r) body secret in
              if negb (signature =?s expectedSig) then Some unauthorized else None
          end
      end.
