(* ===== verification/Identity.v ===== *)
(** * Identity and KYC ([internal/handler/identity.go])

    Users are mutated through the pointer the storage returned, as in the
    source: what a handler writes before it fails stays written when the
    storage shares its objects.  A form is the list of its fields; a failed
    parse is the error's message. *)
From S2P Require Import Prelude GoFloat GoStd GoText Consts Models Config World Api Webhook Auth Utils.
From S2P Require Storage.

(** The (status, state) pair the provider reports. *)
Definition sumsubVerificationStatusState (user : User) : Z * Z :=
  if User_KYCState user =?s KYCStateAccepted then (1, 1)
  else if User_KYCState user =?s KYCStateRejected then (2, 0)
  else if User_KYCState user =?s KYCStateResubmission then (10, 0)
  else (0, 0).

Definition isKnownKYCState (state : string) : bool :=
  (state =?s KYCStateAccepted) || (state =?s KYCStateRejected)
  || (state =?s KYCStateActionRequired) || (state =?s KYCStateResubmission).

(** The state, webhook event and message of an outcome. *)
Definition applyKYCOutcome (user : User) (outcome : string) : result (User * string * string) :=
  if outcome =?s KYCStateAccepted then
    Ok (user <| User_KYCState := KYCStateAccepted |>, WebhookEventKYCAccepted,
        "KYC verification completed successfully")
  else if outcome =?s KYCStateRejected then
    Ok (user <| User_KYCState := KYCStateRejected |>, WebhookEventKYCRejected,
        "KYC verification rejected")
  else if outcome =?s KYCStateActionRequired then
    Ok (user <| User_KYCState := KYCStateActionRequired |>, WebhookEventKYCActionRequired,
        "KYC verification requires additional action")
  else if outcome =?s KYCStateResubmission then
    Ok (user <| User_KYCState := KYCStateResubmission |>, WebhookEventKYCResubmission,
        "KYC documents must be resubmitted")
  else Err ("unknown kyc_outcome " +:+ Quote outcome
              +:+ ": expected accepted, rejected, action_required or resubmission").

Definition shouldSkipAcceptedWebhook (previousKYCState webhookEvent : string) : bool :=
  (webhookEvent =?s WebhookEventKYCAccepted) && (previousKYCState =?s KYCStateResubmission).

(** The [dob] field, [YYYY-MM-DD]: each part that is a number is kept. *)
Definition apply_dob (dob : string) (user : User) : User :=
  match Split "-" dob with
  | [y; m; d] =>
      let user := match Atoi y with Some year => user <| User_BirthYear := year |> | None => user end in
      let user := match Atoi m with Some month => user <| User_BirthMonth := month |> | None => user end in
      match Atoi d with Some day => user <| User_BirthDay := day |> | None => user end
  | _ => user
  end.

(** [json.Decode] into [struct { Success bool }]: keys match in any case, the
    last one wins, and the first type error is the result. *)
Definition json_kind (j : json) : string :=
  match j with
  | JNull => "null" | JBool _ => "bool" | JInt _ | JFloat _ => "number"
  | JStr _ => "string" | JArr _ => "array" | JObj _ => "object"
  end.
Definition cannot_unmarshal (j : json) (target : string) : string :=
  "json: cannot unmarshal " +:+ json_kind j +:+ " into Go " +:+ target.
Definition decode_success_field (acc : bool * option string) (kv : string * json) :
    bool * option string :=
  let '(success, err) := acc in
  if ToLower kv.1 =?s "success" then
    match kv.2 with
    | JBool v => (v, err)
    | JNull => (success, err)
    | j => (success, Some (default (cannot_unmarshal j "struct field .success of type bool") err))
    end
  else (success, err).
Definition decode_success (body : result json) : result bool :=
  match body with
  | Err e => Err e
  | Ok JNull => Ok false
  | Ok (JObj fs) =>
      match fold_left decode_success_field fs (false, None) with
      | (success, None) => Ok success
      | (_, Some e) => Err e
      end
  | Ok j => Err (cannot_unmarshal j ("value of type struct { Success bool " +:+
                   Quote ("json:" +:+ Quote "success") +:+ " }"))
  end.

Section Identity.
Context {S : Type} `{Env} `{!Storage.Storage S}.
Abbreviation M := (prog (World S)).

Definition user_profile (user : User) : UserProfile :=
  mkUserProfile (User_ID user) (User_BirthDay user) (User_BirthMonth user) (User_BirthYear user)
    (User_Gender user) (User_FirstName user) (User_MiddleName user) (User_LastName user)
    (User_Citizenship user) (User_AddressPostalCode user) (User_AddressSubdivision user)
    (User_AddressCountryCode user) (User_AddressCity user) (User_AddressStreet1 user)
    (User_AddressStreet2 user) (User_BirthCity user) (User_BirthCountryCode user)
    (User_TaxResidency user) (User_ExpectedVolume user).

Definition GetUser (userID : string) : M Response :=
  if userID =?s "" then mret (sendError StatusBadRequest "User ID is required")
  else
    let? user := Storage.GetUser userID
      else _ => mret (sendError StatusNotFound "User not found") in
    user ← deref (T := User) user;
    let '(status, state) := sumsubVerificationStatusState user in
    mret (sendJSON StatusOK (json_of_GetUserResponse
      (mkGetUserResponse (User_ID user) (User_ID user) (User_Email user) (User_Activated user)
         (User_Managed user) (User_Role user) (User_Features user) (User_KYCState user)
         (User_RiskLevel user) (User_IsProfileCreationDisabled user) (User_CreatedAt user)
         (user_profile user)
         [mkUserVerification "mock-verification-uuid" status state "Sumsub" "sumsub"]))).

(** A completed KYC is not reset; a failed update is only logged. *)
Definition StartKYC (userID gatewayID : string) : M Response :=
  if (userID =?s "") || (gatewayID =?s "")
  then mret (sendError StatusBadRequest "User ID and Gateway ID are required")
  else
    let? user := Storage.GetUser userID
      else _ => mret (sendError StatusNotFound "User not found") in
    let token := "kyc-token-" +:+ userID +:+ "-" +:+ gatewayID in
    let iframeURL := "/iframe/onboarding?token=" +:+ token +:+ "&user_id=" +:+ userID in
    u ← deref (T := User) user;
    _ ← (if negb (User_KYCState u =?s KYCStateAccepted) then
           _ ← update user (fun u => u <| User_KYCState := KYCStateActionRequired |>
                                       <| User_RiskLevel := RiskLevelLow |>);
           _ ← Storage.UpdateUser user;
           mret tt
         else mret tt);
    mret (sendJSON StatusOK (json_of_StartKYCResponse (mkStartKYCResponse iframeURL token))).

(** The webhook of an imposed state; [""]: none. *)
Definition kyc_state_event (state : string) : string :=
  if state =?s KYCStateAccepted then WebhookEventKYCAccepted
  else if state =?s KYCStateRejected then WebhookEventKYCRejected
  else if state =?s KYCStateActionRequired then WebhookEventKYCActionRequired
  else "".

Definition UpdateKYCState (userID gatewayID : string) (body : option UpdateKYCStateRequest) :
    M Response :=
  if (userID =?s "") || (gatewayID =?s "")
  then mret (sendError StatusBadRequest "User ID and Gateway ID are required")
  else
    match body with
    | None => mret (sendError StatusBadRequest "Invalid request body")
    | Some req =>
        let? user := Storage.GetUser userID
          else _ => mret (sendError StatusNotFound "User not found") in
        _ ← update user (fun u => u <| User_KYCState := UpdateKYCStateRequest_State req |>
                                    <| User_RiskLevel := UpdateKYCStateRequest_RiskLevel req |>);
        let? _ := Storage.UpdateUser user
          else _ => mret (sendError StatusInternalServerError "Failed to update user") in
        let eventType := kyc_state_event (UpdateKYCStateRequest_State req) in
        _ ← (if negb (eventType =?s "") then
               spawn (TSendAsync eventType userID
                 [("state", JStr (UpdateKYCStateRequest_State req));
                  ("risk_level", JStr (UpdateKYCStateRequest_RiskLevel req))] fzero)
             else mret tt);
        u ← deref (T := User) user;
        mret (sendJSON StatusOK (json_of_User u))
    end.

Definition OverrideRiskLevel (userID gatewayID : string) (riskLevel : option string) : M Response :=
  if (userID =?s "") || (gatewayID =?s "")
  then mret (sendError StatusBadRequest "User ID and Gateway ID are required")
  else
    match riskLevel with
    | None => mret (sendError StatusBadRequest "Invalid request body")
    | Some riskLevel =>
        let? user := Storage.GetUser userID
          else _ => mret (sendError StatusNotFound "User not found") in
        _ ← update user (fun u => u <| User_RiskLevel := riskLevel |>);
        let? _ := Storage.UpdateUser user
          else _ => mret (sendError StatusInternalServerError "Failed to update user") in
        u ← deref (T := User) user;
        mret (sendJSON StatusOK (json_of_User u))
    end.

(** ** Second factor *)
Definition resolve2FACallbackURL : M string :=
  m ← gets w_manager;
  match m with None => mret "" | Some m => ResolveOrgBaseURL m end.

Definition call2FAVerify (endpoint code : string) : M (result bool) :=
  let body := json_text (JObj [("action", JStr "VERIFY"); ("code", JStr code)]) in
  match url_Parse endpoint with
  | Err e => mret (Err ("failed to build callback request: " +:+ e))
  | Ok _ =>
      cfg ← gets w_config;
      resp ← http_Do (mkRequest "POST" endpoint
        [("Content-Type", "application/json");
         ("X-GH-Webhook-Signature", GenerateGateHubWebhookSignature body (WebhookSecret cfg))] body);
      match resp with
      | HttpFailed e => mret (Err ("callback request failed: " +:+ e))
      | HttpAnswered status _ body =>
          if (status <? 200) || (300 <=? status)
          then mret (Err ("callback returned status " +:+ Itoa status))
          else match decode_success body with
               | Err e => mret (Err ("failed to decode callback response: " +:+ e))
               | Ok success => mret (Ok success)
               end
      end
  end.

Definition verify2FA (userID totpCode : string) : M (result unit) :=
  callbackURL ← resolve2FACallbackURL;
  if callbackURL =?s ""
  then mret (Err "2FA verification requested but no organization callback URL configured")
  else
    let endpoint := TrimRight "/" callbackURL +:+ "/v1/users/managed/" +:+ userID +:+ "/2fa" in
    let? success := call2FAVerify endpoint totpCode
      else e => mret (Err ("2FA verification failed: " +:+ e)) in
    if negb success then mret (Err "2FA verification rejected") else mret (Ok tt).

(** ** The KYC form *)
Definition FormValue (key : string) (form : list (string * string)) : string :=
  default "" (assoc key form).

Definition apply_kyc_form (form : list (string * string)) (user : User) : User :=
  let user := user <| User_FirstName := FormValue "first_name" form |>
                <| User_LastName := FormValue "last_name" form |>
                <| User_AddressStreet1 := FormValue "address" form |>
                <| User_AddressCity := FormValue "city" form |>
                <| User_AddressCountryCode := FormValue "country" form |> in
  let dob := FormValue "dob" form in
  if negb (dob =?s "") then apply_dob dob user else user.

Definition or_default (value fallback : string) : string :=
  if value =?s "" then fallback else value.

(** The onboarding page: the first template file that exists, with the token
    (under its new or its old name) and the user. *)
Definition kyc_template_paths : list string :=
  ["web/kyc-iframe.html"; "./web/kyc-iframe.html"; "../web/kyc-iframe.html";
   "../../web/kyc-iframe.html"].
Definition KYCIframe (file_exists : string → bool) (bearer token user_id : string) : M Response :=
  let token := if bearer =?s "" then token else bearer in
  mret (match List.find file_exists kyc_template_paths with
        | None => sendError StatusInternalServerError "Template not found"
        | Some path => mkResponse StatusOK [("Content-Type", "text/html; charset=utf-8")]
                         (BodyPage path (strings_json [("Token", token); ("UserID", user_id)]))
        end).

Definition KYCIframeSubmit (form : result (list (string * string))) : M Response :=
  match form with
  | Err e => mret (sendError StatusBadRequest ("Invalid form data: " +:+ e))
  | Ok form =>
      userID ← (if FormValue "user_id" form =?s ""
                then extractUserFromBearer (FormValue "token" form)
                else mret (FormValue "user_id" form));
      if userID =?s "" then
        mret (sendError StatusBadRequest "User ID is required (not found in form or token mapping)")
      else
        let? user := Storage.GetUser userID
          else _ => mret (sendError StatusNotFound "User not found") in
        u ← deref (T := User) user;
        let previousKYCState := User_KYCState u in
        _ ← assign user (apply_kyc_form form u);
        verified ← (if FormValue "trigger_2fa" form =?s "on"
                    then verify2FA userID (FormValue "totp_code" form) else mret (Ok tt));
        match verified with
        | Err e => mret (sendError StatusBadRequest e)
        | Ok _ =>
            let kycOutcome := or_default (FormValue "kyc_outcome" form) KYCStateAccepted in
            let riskLevel := or_default (FormValue "risk_level" form) RiskLevelLow in
            _ ← update user (fun u => u <| User_RiskLevel := riskLevel |>);
            u ← deref (T := User) user;
            match applyKYCOutcome u kycOutcome with
            | Err e => mret (sendError StatusBadRequest e)
            | Ok (u, webhookEvent, responseMessage) =>
                _ ← assign user u;
                let? _ := Storage.UpdateUser user
                  else _ => mret (sendError StatusInternalServerError "Failed to update user") in
                _ ← (if negb (shouldSkipAcceptedWebhook previousKYCState webhookEvent)
                     then SendAsync webhookEvent userID [("message", JStr responseMessage)]
                            (f_of_Z 2)
                     else mret tt);
                u ← deref (T := User) user;
                mret (sendJSON StatusOK (strings_json
                  [("status", User_KYCState u); ("message", responseMessage)]))
            end
        end
  end.

(** ** Test setup *)
Definition SetUserKYCStateQuiet (userID : string) (body : option (string * string)) : M Response :=
  if userID =?s "" then mret (sendError StatusBadRequest "user ID is required")
  else
    match body with
    | None => mret (sendError StatusBadRequest "invalid request body")
    | Some (kycState, riskLevel) =>
        if kycState =?s "" then mret (sendError StatusBadRequest "kyc_state is required")
        else if negb (isKnownKYCState kycState) then
          mret (sendError StatusBadRequest ("unknown kyc_state " +:+ Quote kycState
                  +:+ ": expected accepted, rejected, action_required or resubmission"))
        else
          let? user := Storage.GetUser userID
            else _ => mret (sendError StatusNotFound "user not found") in
          _ ← update user (fun u =>
                let u := u <| User_KYCState := kycState |> in
                if negb (riskLevel =?s "") then u <| User_RiskLevel := riskLevel |> else u);
          let? _ := Storage.UpdateUser user
            else _ => mret (sendError StatusInternalServerError "failed to update user") in
          u ← deref (T := User) user;
          mret (sendJSON StatusOK (strings_json
            [("kyc_state", User_KYCState u); ("risk_level", User_RiskLevel u)]))
    end.
End Identity.
