(* ===== verification/Payments.v ===== *)
(** * Iframe payments ([internal/handler/handler.go])

    The deposit and withdrawal flows behind [/transaction/complete]: request
    validation, the optional second factor, and the two balance movements. *)
From S2P Require Import Prelude GoFloat GoStd GoText Consts Models Config World Api Fees Webhook Utils Identity Core.
From S2P Require Storage.

Record TransactionRequest := mkTransactionRequest {
  Amount : string;
  Currency : string;
  TriggerSCA : bool;
  TOTPCode : string }.
Definition zero_TransactionRequest : TransactionRequest := mkTransactionRequest "" "" false "".

Definition isSupportedCurrency (currency : string) : bool :=
  existsb (fun c => c =?s currency) SandboxCurrencies.

Definition validateTransactionRequest (txReq : TransactionRequest) : result unit :=
  if Amount txReq =?s "" then Err "amount is required"
  else if Currency txReq =?s "" then Err "currency is required"
  else match ParseFloat (Amount txReq) with
       | None => Err "amount must be a valid number"
       | Some _ =>
           if negb (isSupportedCurrency (Currency txReq))
           then Err ("unsupported currency: " +:+ Currency txReq)
           else Ok tt
       end.

Definition invalid_amount (amount : string) : string :=
  "invalid amount format " +:+ Quote amount +:+ ": expected a decimal number".

Section Payments.
Context {S : Type} `{Env} `{!Storage.Storage S}.
Abbreviation M := (prog (World S)).

Definition deposit_webhook (txID amountStr currency vaultUUID walletAddress : string) :
    list (string * json) :=
  [("tx_uuid", JStr txID); ("amount", JStr amountStr); ("currency", JStr currency);
   ("vault_uuid", JStr vaultUUID); ("address", JStr walletAddress);
   ("deposit_type", JStr "external"); ("total_fees", JStr "0")].

(** [wallets[0].Address], with a default wallet created when there is none. *)
Definition deposit_wallet (userUUID : string) (wallets : list Wallet) : M (result string) :=
  match wallets with
  | wallet :: _ => mret (Ok (Wallet_Address wallet))
  | [] =>
      address ← GenerateMockXRPLAddress;
      let? wallet := Storage.CreateWallet (default_wallet address userUUID)
        else e => mret (Err e) in
      mret (Ok (Wallet_Address wallet))
  end.

Definition processDeposit (bearer : string) (txReq : TransactionRequest) : M Response :=
  userUUID ← extractUserFromBearer bearer;
  if userUUID =?s "" then mret (sendErrorWithCORS StatusBadRequest "Invalid bearer token")
  else
    let? _ := Storage.GetUser userUUID
      else _ => mret (sendErrorWithCORS StatusNotFound "User not found") in
    let? wallets := Storage.GetWalletsByUser userUUID
      else _ => mret (sendErrorWithCORS StatusInternalServerError "Failed to get wallets") in
    let? walletAddress := deposit_wallet userUUID wallets
      else _ => mret (sendErrorWithCORS StatusInternalServerError "Failed to create wallet") in
    let vaultUUID := default "" (SandboxVaultIDs !! Currency txReq) in
    match ParseFloat (Amount txReq) with
    | None => mret (sendErrorWithCORS StatusBadRequest (invalid_amount (Amount txReq)))
    | Some amountFloat =>
        let amountStr := formatAmount amountFloat in
        fc ← fees;
        let feeStr := formatAmount (CalculateFee amountFloat (GetDepositFeeForUser userUUID fc).1) in
        txID ← GenerateUUID;
        tx ← new (zero_Transaction <| Transaction_ID := txID |>
          <| Transaction_UserID := userUUID |> <| Transaction_Amount := amountStr |>
          <| Transaction_TotalAmount := amountStr |> <| Transaction_Fee := feeStr |>
          <| Transaction_Currency := Currency txReq |> <| Transaction_VaultUUID := vaultUUID |>
          <| Transaction_ReceivingAddress := walletAddress |>
          <| Transaction_Type := TransactionTypeDeposit |>
          <| Transaction_DepositType := DepositTypeExternal |> <| Transaction_Status := 1 |>);
        let? _ := Storage.CreateTransaction tx
          else _ => mret (sendErrorWithCORS StatusInternalServerError
                            "Failed to create transaction") in
        let? _ := Storage.AddBalance userUUID (Currency txReq) amountFloat
          else _ => mret (sendErrorWithCORS StatusInternalServerError
                            "Failed to update balance") in
        _ ← SendAsync "core.deposit.completed" userUUID
              (deposit_webhook txID amountStr (Currency txReq) vaultUUID walletAddress) fzero;
        mret (sendJSONWithCORS StatusOK
          (strings_json [("status", "success"); ("message", "Transaction completed")]))
    end.

Definition withdrawal_response (message txID : string) : Response :=
  sendJSONWithCORS StatusOK (strings_json
    [("status", "success"); ("message", message); ("transaction_id", txID); ("uuid", txID)]).

(** The balance moves at once, or when the withdrawal settles. *)
Definition processWithdrawal (bearer : string) (txReq : TransactionRequest) : M Response :=
  userUUID ← extractUserFromBearer bearer;
  if userUUID =?s "" then mret (sendErrorWithCORS StatusBadRequest "Invalid bearer token")
  else
    let? _ := Storage.GetUser userUUID
      else _ => mret (sendErrorWithCORS StatusNotFound "User not found") in
    let? wallets := Storage.GetWalletsByUser userUUID
      else _ => mret (sendErrorWithCORS StatusInternalServerError "Failed to get wallets") in
    match wallets with
    | [] => mret (sendErrorWithCORS StatusBadRequest "User has no wallets")
    | wallet :: _ =>
    let walletAddress := Wallet_Address wallet in
    let vaultUUID := default "" (SandboxVaultIDs !! Currency txReq) in
    match ParseFloat (Amount txReq) with
    | None => mret (sendErrorWithCORS StatusBadRequest (invalid_amount (Amount txReq)))
    | Some amountFloat =>
    fc ← fees;
    let feeAmount := CalculateFee amountFloat (GetWithdrawalFeeForUser userUUID fc).1 in
    let totalAmount := fadd amountFloat feeAmount in
    balance ← Storage.GetBalance userUUID (Currency txReq);
    let currentBalance := match balance with Ok b => b | Err _ => fzero end in
    if flt currentBalance totalAmount then
      mret (sendErrorWithCORS StatusBadRequest
        ("Insufficient balance. Required: " +:+ formatAmount totalAmount
           +:+ ", Available: " +:+ formatAmount currentBalance))
    else
      txID ← GenerateUUID;
      cfg ← gets w_config;
      let async := AsyncWithdrawals cfg in
      let status := if async then TransactionStatusPending else TransactionStatusCompleted in
      let message := if async then "Withdrawal pending" else "Withdrawal completed" in
      tx ← new (zero_Transaction <| Transaction_ID := txID |>
        <| Transaction_UserID := userUUID |> <| Transaction_Amount := formatAmount amountFloat |>
        <| Transaction_TotalAmount := formatAmount totalAmount |>
        <| Transaction_Fee := formatAmount feeAmount |>
        <| Transaction_Currency := Currency txReq |> <| Transaction_VaultUUID := vaultUUID |>
        <| Transaction_SendingAddress := walletAddress |>
        <| Transaction_ReceivingAddress := walletAddress |>
        <| Transaction_Type := TransactionTypeWithdrawal |>
        <| Transaction_DepositType := DepositTypeWithdrawal |>
        <| Transaction_Status := status |> <| Transaction_AccountIBAN := MockWithdrawalIBAN |>
        <| Transaction_AccountLegalName := MockWithdrawalLegalName |>
        <| Transaction_Message := MockWithdrawalReference |>);
      let? _ := Storage.CreateTransaction tx
        else _ => mret (sendErrorWithCORS StatusInternalServerError
                          "Failed to create transaction") in
      if async then mret (withdrawal_response message txID)
      else
        let? _ := Storage.DeductBalance userUUID (Currency txReq) totalAmount
          else _ =>
            (_ ← Storage.UpdateTransactionStatus txID TransactionStatusFailed;
             mret (sendErrorWithCORS StatusInternalServerError "Failed to deduct balance")) in
        mret (withdrawal_response message txID)
    end
    end.

(** The second factor of a payment; [Err] is the answer of a refusal. *)
Definition check_sca (bearer : string) (txReq : TransactionRequest) : M (result unit) :=
  if TriggerSCA txReq then
    userUUID ← extractUserFromBearer bearer;
    if userUUID =?s "" then mret (Err "Invalid bearer token for SCA verification")
    else verify2FA userUUID (TOTPCode txReq)
  else mret (Ok tt).

(** The body is the request [json.Unmarshal] left behind: the zero request
    for an empty, unreadable or malformed body. *)
Definition TransactionCompleteHandler (method paymentType bearer authHeader : string)
    (txReq : TransactionRequest) : M Response :=
  if method =?s "OPTIONS" then
    mret (mkResponse StatusOK
      [("Access-Control-Allow-Origin", "*"); ("Access-Control-Allow-Methods", "POST, OPTIONS");
       ("Access-Control-Allow-Headers", "Content-Type, Authorization")] BodyNone)
  else
    let bearer := if (bearer =?s "") && negb (authHeader =?s "")
                  then extractBearerFromAuthHeader authHeader else bearer in
    if bearer =?s "" then mret (sendErrorWithCORS StatusBadRequest "Missing bearer token")
    else
      match validateTransactionRequest txReq with
      | Err e => mret (sendErrorWithCORS StatusBadRequest e)
      | Ok _ =>
          let? _ := check_sca bearer txReq
            else e => mret (sendErrorWithCORS StatusBadRequest e) in
          if paymentType =?s "deposit" then processDeposit bearer txReq
          else if (paymentType =?s "withdraw") || (paymentType =?s "withdrawal")
          then processWithdrawal bearer txReq
          else mret (sendJSONWithCORS StatusOK
                 (strings_json [("status", "success"); ("message", "Transaction completed")]))
      end.

(** ** Pages *)
Definition HealthCheck : M Response :=
  mret (mkResponse StatusOK [("Content-Type", "application/json")]
    (BodyJSON (strings_json [("status", "ok"); ("service", "mockgatehub")]))).

Definition page_headers : list (string * string) :=
  [("Content-Type", "text/html; charset=utf-8"); ("Access-Control-Allow-Origin", "*");
   ("Access-Control-Allow-Methods", "GET, POST, OPTIONS");
   ("Access-Control-Allow-Headers", "Content-Type, Authorization")].

Definition payment_template (paymentType : string) : string :=
  if paymentType =?s "deposit" then "deposit.html"
  else if paymentType =?s "withdrawal" then "withdrawal.html"
  else "index.html".

(** Which page the root serves, and with which data; the template engine and
    the template files are outside the model. *)
Definition RootHandler (paymentType bearer user_id : string) : M Response :=
  if bearer =?s "" then mret (http_Error "Missing bearer token" StatusBadRequest)
  else if (paymentType =?s "") || (paymentType =?s "onboarding") then
    userUUID ← extractUserFromBearer bearer;
    let userUUID := if userUUID =?s "" then user_id else userUUID in
    mret (mkResponse StatusOK page_headers
      (BodyPage "kyc-iframe.html" (strings_json [("Token", bearer); ("UserID", userUUID)])))
  else
    mret (mkResponse StatusOK page_headers
      (BodyPage (payment_template paymentType)
        (JObj [("PaymentType", JStr paymentType); ("Bearer", JStr bearer);
               ("BearerShort", JStr (tokenPrefix bearer));
               ("VaultUUIDToCurrency",
                  JObj (sort_keys (map (fun kv => (kv.1, JStr kv.2))
                                     (map_to_list VaultUUIDToCurrency))));
               ("AvailableCurrencies", JStrs SandboxCurrencies)]))).
End Payments.
