(* ===== verification/Withdrawals.v ===== *)
(** * Settling withdrawals ([internal/handler/withdrawals_admin.go])

    The admin side of asynchronous withdrawals: listing, and the settlement
    that completes or rejects a pending one. *)
From S2P Require Import Prelude GoFloat GoStd GoText Consts Models Config World Api Webhook.
From S2P Require Storage.

(** [Some None]: no filtering. *)
Definition withdrawalStatusFilter (filter : string) : result (option Z) :=
  if filter =?s "" then Ok None
  else if filter =?s "pending" then Ok (Some TransactionStatusPending)
  else if filter =?s "completed" then Ok (Some TransactionStatusCompleted)
  else if (filter =?s "failed") || (filter =?s "rejected") then Ok (Some TransactionStatusFailed)
  else Err ("unknown status " +:+ Quote filter +:+ ": expected pending, completed or failed").

Section Withdrawals.
Context {S : Type} `{Env} `{!Storage.Storage S}.
Abbreviation M := (prog (World S)).

Definition listed (wantStatus : option Z) (tx : Transaction) : bool :=
  (Transaction_DepositType tx =?s DepositTypeWithdrawal)
  && match wantStatus with None => true | Some s => Transaction_Status tx =? s end.

Definition ListWithdrawals (userID statusFilter : string) : M Response :=
  if userID =?s "" then mret (sendError StatusBadRequest "user ID is required")
  else
    match withdrawalStatusFilter statusFilter with
    | Err e => mret (sendError StatusBadRequest e)
    | Ok wantStatus =>
        let? transactions := Storage.ListTransactionsByUser userID
          else _ => mret (sendError StatusInternalServerError "failed to list transactions") in
        withdrawals ← collect (fun p =>
          tx ← deref (T := Transaction) p;
          mret (if listed wantStatus tx then Some tx else None)) transactions;
        mret (sendJSON StatusOK (JObj
          [("withdrawals", JArr (map json_of_Transaction withdrawals));
           ("count", JInt (Z.of_nat (length withdrawals)))]))
    end.

Definition api_fail (e : apiError) : M (api_result unit) := mret (inr e).
Definition api_ok : M (api_result unit) := mret (inl tt).

(** Charge first, then publish. *)
Definition completeWithdrawal (p : loc) : M (api_result unit) :=
  tx ← deref (T := Transaction) p;
  match ParseFloat (Transaction_TotalAmount tx) with
  | None => api_fail (internalErr "transaction total is not a number")
  | Some totalAmount =>
      let? _ := Storage.DeductBalance (Transaction_UserID tx) (Transaction_Currency tx) totalAmount
        else e => api_fail (conflict ("could not deduct balance: " +:+ e)) in
      let? _ := Storage.UpdateTransactionStatus (Transaction_ID tx) TransactionStatusCompleted
        else _ => api_fail (internalErr "failed to update transaction status") in
      tx ← deref (T := Transaction) p;
      _ ← SendAsync WebhookEventWithdrawalCompleted (Transaction_UserID tx)
            [("tx_uuid", JStr (Transaction_ID tx)); ("amount", JStr (Transaction_Amount tx));
             ("currency", JStr (Transaction_Currency tx));
             ("address", JStr (Transaction_ReceivingAddress tx));
             ("total_fees", JStr (Transaction_Fee tx))] fzero;
      api_ok
  end.

(** No balance moves. *)
Definition rejectWithdrawal (p : loc) : M (api_result unit) :=
  tx ← deref (T := Transaction) p;
  let? _ := Storage.UpdateTransactionStatus (Transaction_ID tx) TransactionStatusFailed
    else _ => api_fail (internalErr "failed to update transaction status") in
  tx ← deref (T := Transaction) p;
  _ ← SendAsync WebhookEventWithdrawalRejected (Transaction_UserID tx)
        [("tx_uuid", JStr (Transaction_ID tx)); ("user_id", JStr (Transaction_UserID tx));
         ("status", JStr "REJECTED"); ("currency", JStr (Transaction_Currency tx));
         ("amount", JStr (Transaction_Amount tx))] fzero;
  api_ok.

(** The checks of a settlement, up to the point where it is decided: the
    pending transaction and whether to complete it. *)
Definition check_settlement (txID event : string) : M (api_result (loc * bool)) :=
  if negb ((event =?s WebhookEventWithdrawalCompleted)
           || (event =?s WebhookEventWithdrawalRejected)) then
    mret (inr (badRequest ("unsupported event " +:+ event +:+ "; use "
      +:+ WebhookEventWithdrawalCompleted +:+ " or " +:+ WebhookEventWithdrawalRejected)))
  else
    let? p := Storage.GetTransaction txID
      else _ => mret (inr (notFound "transaction not found")) in
    tx ← deref (T := Transaction) p;
    if negb (Transaction_DepositType tx =?s DepositTypeWithdrawal)
    then mret (inr (badRequest "transaction is not a withdrawal"))
    else if negb (Transaction_Status tx =? TransactionStatusPending)
    then mret (inr (conflict "withdrawal is not pending; it has already been settled"))
    else mret (inl (p, event =?s WebhookEventWithdrawalCompleted)).

Definition settle_checked (checked : api_result (loc * bool)) : M (api_result unit) :=
  match checked with
  | inr e => api_fail e
  | inl (p, complete) => if complete then completeWithdrawal p else rejectWithdrawal p
  end.

Definition settleWithdrawal (txID event : string) : M (api_result unit) :=
  checked ← check_settlement txID event;
  settle_checked checked.

Definition TriggerWithdrawalEvent (txID : string) (event : option string) : M Response :=
  if txID =?s "" then mret (sendError StatusBadRequest "transaction ID is required")
  else
    match event with
    | None => mret (sendError StatusBadRequest "invalid request body")
    | Some event =>
        settled ← settleWithdrawal txID event;
        match settled with
        | inr e => mret (sendAPIError e)
        | inl _ => mret (sendJSON StatusOK
                     (strings_json [("transaction_id", txID); ("event", event)]))
        end
    end.
End Withdrawals.
