(* ===== verification/Session.v ===== *)
(** * Tokens, managed users and organizations ([internal/handler/auth.go]) *)
From S2P Require Import Prelude GoFloat GoStd GoText Consts Models Config World Api Webhook Utils.
From S2P Require Storage.

Section Session.
Context {S : Type} `{Env} `{!Storage.Storage S}.
Abbreviation M := (prog (World S)).

(** The header, or its legacy name. *)
Definition CreateToken (managedUser legacyManagedUser : string) : M Response :=
  let managedUserUuid := if managedUser =?s "" then legacyManagedUser else managedUser in
  token ← (if negb (managedUserUuid =?s "") then
             uuid ← GenerateUUID;
             let token := "iframe-token-" +:+ uuid in
             _ ← modify (fun w : World S =>
                   w <| w_tokens := <[token := managedUserUuid]> (w_tokens w) |>);
             mret token
           else mret ("mock-access-token-" +:+ TestUser1ID));
  mret (sendJSON StatusOK (json_of_TokenResponse (mkTokenResponse token token "Bearer" 3600))).

Definition CreateManagedUser (body : option CreateManagedUserRequest) : M Response :=
  match body with
  | None => mret (sendError StatusBadRequest "Invalid request body")
  | Some req =>
      let email := CreateManagedUserRequest_Email req in
      if email =?s "" then mret (sendError StatusBadRequest "Email is required")
      else
        existing ← Storage.GetUserByEmail email;
        match existing with
        | Ok existing =>
            u ← deref (T := User) existing;
            mret (sendJSON StatusOK (json_of_User u))
        | Err _ =>
            id ← GenerateUUID;
            user ← new (zero_User <| User_ID := id |> <| User_Email := email |>
              <| User_Activated := true |> <| User_Managed := true |> <| User_Role := "user" |>
              <| User_Features := ["wallet"] |>);
            let? _ := Storage.CreateUser user
              else _ => mret (sendError StatusInternalServerError "Failed to create user") in
            u ← deref (T := User) user;
            mret (sendJSON StatusCreated (json_of_User u))
        end
  end.

Definition GetManagedUser (email : string) : M Response :=
  if email =?s "" then mret (sendError StatusBadRequest "Email parameter is required")
  else
    let? user := Storage.GetUserByEmail email
      else _ => mret (sendError StatusNotFound "User not found") in
    u ← deref (T := User) user;
    mret (sendJSON StatusOK (json_of_GetManagedUserResponse (mkGetManagedUserResponse u))).

Definition UpdateManagedUserEmail (body : option UpdateEmailRequest) : M Response :=
  match body with
  | None => mret (sendError StatusBadRequest "Invalid request body")
  | Some req =>
      if (UpdateEmailRequest_Email req =?s "") || (UpdateEmailRequest_NewEmail req =?s "")
      then mret (sendError StatusBadRequest "Both email and new_email are required")
      else
        let? user := Storage.GetUserByEmail (UpdateEmailRequest_Email req)
          else _ => mret (sendError StatusNotFound "User not found") in
        _ ← update user (fun u => u <| User_Email := UpdateEmailRequest_NewEmail req |>);
        let? _ := Storage.UpdateUser user
          else _ => mret (sendError StatusInternalServerError "Failed to update user") in
        u ← deref (T := User) user;
        mret (sendJSON StatusOK (json_of_GetManagedUserResponse (mkGetManagedUserResponse u)))
  end.

Definition enqueue2FACallbackTestJob (orgID : string) (offsetDelaySeconds : Z) : M unit :=
  m ← gets w_manager;
  match m with
  | None => mret tt
  | Some _ =>
      SendAsync "internal.2fa_callback_test" TestUser1ID
        [("organization_id", JStr orgID); ("test_user_id", JStr TestUser1ID)]
        (f_of_Z offsetDelaySeconds)
  end.

Definition UpdateOrganizationConfiguration (orgID : string)
    (body : option UpdateOrganizationConfigurationRequest) : M Response :=
  if orgID =?s "" then mret (sendError StatusBadRequest "organization ID is required")
  else
    match body with
    | None => mret (sendError StatusBadRequest "invalid request body")
    | Some req =>
        let apiBaseURL := UpdateOrganizationConfigurationRequest_APIBaseURL req in
        let twoFA := UpdateOrganizationConfigurationRequest_TwoFAType req in
        match url_Parse apiBaseURL with
        | Err _ => mret (sendError StatusBadRequest "invalid API base URL")
        | Ok (scheme, host) =>
            if host =?s "" then mret (sendError StatusBadRequest "invalid API base URL")
            else if negb (scheme =?s "https") && negb (scheme =?s "http")
            then mret (sendError StatusBadRequest "API base URL must use HTTPS")
            else if negb (twoFA =?s "sms") && negb (twoFA =?s "totp")
            then mret (sendError StatusBadRequest "2FA type must be 'sms' or 'totp'")
            else
              let? org := Storage.GetOrganization orgID
                else _ => mret (sendError StatusNotFound "organization not found") in
              let org := org <| Organization_APIBaseURL := TrimRight "/" apiBaseURL |>
                           <| Organization_TwoFAType := twoFA |> in
              let? org := Storage.UpdateOrganization org
                else _ => mret (sendError StatusInternalServerError
                                  "failed to update organization") in
              _ ← enqueue2FACallbackTestJob orgID 3;
              mret (sendJSON StatusOK (json_of_UpdateOrganizationConfigurationResponse
                (mkUpdateOrganizationConfigurationResponse (Organization_ID org)
                   (Organization_APIBaseURL org) (Organization_TwoFAType org)
                   (Format_micro (Organization_CreatedAt org))
                   (Format_micro (Organization_UpdatedAt org)))))
        end
    end.
End Session.
