(* ===== verification/Rates.v ===== *)
(** * Exchange rates and vaults ([internal/handler/rates.go]) *)
From S2P Require Import Prelude GoFloat GoStd Consts Models Config World Api.

Section Rates.
Context {S : Type} `{Env}.
Abbreviation M := (prog (World S)).

(** A rate in USD, denominated in the counter currency. *)
Definition rate_in (counterRateInUSD rateInUSD : f64) : f64 := fdiv rateInUSD counterRateInUSD.

Definition rate_entry (counterRateInUSD : f64) (entry : string * f64) : string * json :=
  (entry.1, JObj [("type", JStr "ExchangeRate"); ("rate", JFloat (rate_in counterRateInUSD entry.2));
                  ("amount", JStr "1"); ("change", JStr "0")]).

(** The response is a map: an entry named ["counter"] would replace the first one. *)
Definition GetCurrentRates (counter : string) : M Response :=
  let counter := if counter =?s "" then "USD" else counter in
  match SandboxRates !! counter with
  | None => mret (sendError StatusBadRequest ("unsupported counter currency: " +:+ counter))
  | Some counterRateInUSD =>
      rates ← range_map SandboxRates;
      mret (sendJSON StatusOK (JObj
        (fold_left (fun response entry =>
           let '(k, v) := rate_entry counterRateInUSD entry in assoc_set k v response)
           rates [("counter", JStr counter)])))
  end.

Definition GetVaults : M Response :=
  entries ← range_map SandboxVaultIDs;
  mret (sendJSON StatusOK (json_of_GetVaultsResponse
    (mkGetVaultsResponse (map (fun kv => mkVaultItem kv.1 kv.2) entries)))).
End Rates.
