(* ===== verification/Seeder.v ===== *)
(** * Seed data ([internal/storage/seeder.go]) *)
From S2P Require Import Prelude GoFloat GoStd Consts Models Config World.
From S2P Require Storage.

(** [strings.Contains] *)
Fixpoint contains_chars (sub l : list ascii) : bool :=
  match l with
  | [] => (length sub =? 0)%nat
  | _ :: l' => bool_decide (firstn (length sub) l = sub) || contains_chars sub l'
  end.
Definition Contains (s sub : string) : bool := contains_chars (chars sub) (chars s).

Section Seeder.
Context {S : Type} `{Env} `{!Storage.Storage S}.
Abbreviation M := (prog (World S)).

Definition seed_user (id email : string) : User :=
  zero_User <| User_ID := id |> <| User_Email := email |> <| User_Activated := true |>
    <| User_Managed := true |> <| User_Role := "user" |> <| User_Features := ["wallet"; "kyc"] |>
    <| User_KYCState := KYCStateActionRequired |> <| User_RiskLevel := RiskLevelLow |>.

(** One user: a failed creation is only logged, and 10,000 of [currency] are
    added to an empty balance. *)
Definition seed_one (id email currency : string) : M (result unit) :=
  user ← new (seed_user id email);
  _ ← Storage.CreateUser user;
  u ← deref (T := User) user;
  bal ← Storage.GetBalance (User_ID u) currency;
  if feq (match bal with Ok b => b | Err _ => fzero end) fzero
  then Storage.AddBalance (User_ID u) currency (f_of_Z 10000)
  else mret (Ok tt).

Definition SeedTestUsersWithOrgID (defaultOrgID : string) : M (result unit) :=
  let? _ := seed_one TestUser1ID TestUser1Email "USD" else e => mret (Err e) in
  let? _ := seed_one TestUser2ID TestUser2Email "EUR" else e => mret (Err e) in
  now ← time_Now;
  created ← Storage.CreateOrganization
    (zero_Organization <| Organization_ID := defaultOrgID |>
       <| Organization_TwoFAType := "sms" |> <| Organization_CreatedAt := now |>
       <| Organization_UpdatedAt := now |>);
  match created with
  | Err e =>
      if negb (Contains e "already exists")
      then mret (Err ("failed to create default organization: " +:+ e)) else mret (Ok tt)
  | Ok _ => mret (Ok tt)
  end.

Definition SeedTestUsers : M (result unit) := SeedTestUsersWithOrgID "default-org".
End Seeder.
