(* ===== verification/Sink.v ===== *)
(** * The webhook sink ([internal/handler/webhook_sink.go])

    A bounded record of the webhooks delivered back to this service. *)
From S2P Require Import Prelude GoFloat GoStd Models Config World Api Auth.

Definition receivedWebhookLimit : nat := 500.

(** [webhookSink.record] on the slice. *)
Definition record (entry : ReceivedWebhook) (received : list ReceivedWebhook) :
    list ReceivedWebhook :=
  let received := received ++ [entry] in
  if (receivedWebhookLimit <? length received)%nat
  then last_n receivedWebhookLimit received else received.

Definition json_of_ReceivedWebhook (r : ReceivedWebhook) : json :=
  JObj [("received_at", JTime (ReceivedAt r)); ("event_type", JStr (ReceivedEventType r));
        ("user_uuid", JStr (UserUUID r)); ("signature_valid", JBool (SignatureValid r));
        ("payload", match Payload r with Some fs => JObj fs | None => JNull end);
        ("body", JStr (Body r))].

(** A string member of a decoded payload. *)
Definition string_member (key : string) (payload : option (list (string * json))) : string :=
  match payload ≫= assoc key with Some (JStr s) => s | _ => "" end.

Section Sink.
Context {S : Type} `{Env}.
Abbreviation M := (prog (World S)).

(** [payload] is the body decoded into a map; [None]: it did not decode. *)
Definition TestWebhookSink (signature : string) (body : result string)
    (payload : option (list (string * json))) : M Response :=
  match body with
  | Err _ => mret (sendError StatusBadRequest "could not read body")
  | Ok body =>
      now ← time_Now;
      cfg ← gets w_config;
      let expected := GenerateGateHubWebhookSignature body (WebhookSecret cfg) in
      let entry := mkReceived now (string_member "event_type" payload)
                     (string_member "user_uuid" payload) (signature =?s expected) payload body in
      _ ← modify (fun w : World S => w <| w_sink := record entry (w_sink w) |>);
      mret (sendJSON StatusOK (strings_json [("status", "received")]))
  end.

Definition sink_matches (eventFilter userFilter : string) (entry : ReceivedWebhook) : bool :=
  ((eventFilter =?s "") || (ReceivedEventType entry =?s eventFilter))
  && ((userFilter =?s "") || (UserUUID entry =?s userFilter)).

Definition ListReceivedWebhooks (eventFilter userFilter : string) : M Response :=
  entries ← gets w_sink;
  let matched := filter (fun e => sink_matches eventFilter userFilter e = true) entries in
  mret (sendJSON StatusOK (JObj [("webhooks", JArr (map json_of_ReceivedWebhook matched));
                                 ("count", JInt (Z.of_nat (length matched)))])).

Definition ClearReceivedWebhooks : M Response :=
  _ ← modify (fun w : World S => w <| w_sink := [] |>);
  mret (sendJSON StatusOK (strings_json [("status", "cleared")])).
End Sink.

(** ** Facts *)
Lemma last_n_snoc {A} n (l : list A) x :
  (0 < n)%nat → (if (n <? length (last_n n l ++ [x]))%nat
                 then last_n n (last_n n l ++ [x]) else last_n n l ++ [x]) = last_n n (l ++ [x]).
Proof.
  intros Hn. unfold last_n. rw !length_app !length_drop /=.
  destruct (Nat.ltb_spec n (length l - (length l - n) + 1)).
  - rw drop_app_le; [|rw length_drop; lia].
    rw drop_app_le; [|lia]. rw drop_drop. do 2 f_equal. lia.
  - rw drop_app_le; [|lia]. do 2 f_equal. lia.
Qed.

(** Whatever is delivered, the sink holds exactly the last 500 deliveries,
    oldest first. *)
Lemma sink_keeps_last_500 (deliveries : list ReceivedWebhook) :
  fold_left (fun received entry => record entry received) deliveries [] = last_n 500 deliveries.
Proof.
  induction deliveries as [|x l IH] using rev_ind; [done|].
  rw fold_left_app IH /=. rw /record /receivedWebhookLimit. apply last_n_snoc. lia.
Qed.
