(* ===== verification/CardNumbers.v ===== *)
(** * Derived card data

    The digits and identifiers the card handlers make up: random and derived
    PANs and PINs, and the integer id of a card ([internal/handler/cards.go],
    [card_token.go], [cardtx_admin.go]). *)
From S2P Require Import Prelude GoFloat GoStd Crypto World.

(** ['0' + d]; digits are below ten. *)
Definition digit_of (d : Z) : ascii := char_of (48 + d).

Definition isPlausiblePIN (pin : string) : bool :=
  let len := String.length pin in
  negb ((len <? 4)%nat || (12 <? len)%nat) && forallb is_digit (chars pin).

(** [binary.BigEndian.Uint32(sum[:4]) & 0x7FFFFFFF] *)
Definition masked_word (sum : list Z) : Z := Z.land (be_value (firstn 4 sum) 0) 2147483647.

Definition numericCardID (cardUUID : string) : Z :=
  if cardUUID =?s "" then 0
  else
    let n := masked_word (Sum256 (bytes_of cardUUID)) in
    if n =? 0 then 1 else n.

(** The first [n] bytes of a hash, each reduced to a digit. *)
Definition hash_digits (n : nat) (text : string) : string :=
  of_chars (map (fun b => digit_of (b mod 10)) (firstn n (Sum256 (bytes_of text)))).

Section Random.
Context {S : Type} `{Env}.
Abbreviation M := (prog (World S)).

(** A failed draw leaves a nil [*big.Int], whose use panics. *)
Fixpoint randomDigits (n : nat) : M string :=
  match n with
  | 0%nat => mret ""
  | Datatypes.S n =>
      num ← rand_Int 10;
      match num with
      | None => panic "invalid memory address or nil pointer dereference"
      | Some num => rest ← randomDigits n; mret (String (digit_of num) rest)
      end
  end.

Definition generateMaskedPan : M string :=
  a ← randomDigits 6;
  b ← randomDigits 4;
  mret (a +:+ "******" +:+ b).

Definition generateUnmaskedPAN (cardID : string) : M string :=
  if cardID =?s "" then randomDigits 16 else mret (hash_digits 16 cardID).

Definition generateCardPIN (cardID : string) : M string :=
  if cardID =?s "" then randomDigits 4 else mret (hash_digits 4 ("pin:" +:+ cardID)).
End Random.
