(* ===== verification/Cards.v ===== *)
(** * Cards ([internal/handler/cards.go])

    Customers, cards and their status, limits, delivery addresses, card
    transactions and 3DS challenges.  The endpoints that exchange a token for
    encrypted card data are in [CardTokens.v]. *)
From S2P Require Import Prelude GoFloat GoStd GoText Consts Models Config World Api Webhook CardNumbers.
From S2P Require Storage.

Definition defaultCardTxPageSize : Z := 20.
Definition maxCardTxPageSize : Z := 200.

Definition defaultCardLimits : list CardLimit :=
  [mkCardLimit "dailyOverall" (f_of_Z 1000) "EUR" false;
   mkCardLimit "perTransaction" (f_of_Z 500) "EUR" false;
   mkCardLimit "monthlyOverall" (f_of_Z 5000) "EUR" false;
   mkCardLimit "dailyAtm" (f_of_Z 300) "EUR" false;
   mkCardLimit "dailyEcomm" (f_of_Z 800) "EUR" false].

(** ** Pagination *)

(** A query parameter that is a positive number. *)
Definition positive_param (raw : string) : option Z :=
  if raw =?s "" then None
  else match Atoi raw with
       | Some v => if 0 <? v then Some v else None
       | None => None
       end.
Definition parsePagination (rawNumber rawSize : string) : Z * Z :=
  (default 1 (positive_param rawNumber),
   match positive_param rawSize with
   | Some v => if maxCardTxPageSize <? v then maxCardTxPageSize else v
   | None => defaultCardTxPageSize
   end).

(** [items[start:end]]: bounds outside [0 <= start <= end <= len] panic. *)
Definition slice_range {W A} (lo hi : Z) (items : list A) : prog W (list A) :=
  if (0 <=? lo) && (lo <=? hi) && (hi <=? Z.of_nat (length items))
  then mret (firstn (Z.to_nat (hi - lo)) (skipn (Z.to_nat lo) items))
  else panic "slice bounds out of range".

(** [int] arithmetic wraps at 64 bits. *)
Definition paginate {W A} (items : list A) (pageNumber pageSize : Z) : prog W (list A) :=
  let len := Z.of_nat (length items) in
  let start := wrap64 (wrap64 (pageNumber - 1) * pageSize) in
  if len <=? start then mret []
  else
    let fin := wrap64 (start + pageSize) in
    let fin := if len <? fin then len else fin in
    slice_range start fin items.

Definition totalPages (totalRecords pageSize : Z) : Z :=
  if pageSize <=? 0 then 0
  else
    let pages := Z.quot (wrap64 (wrap64 (totalRecords + pageSize) - 1)) pageSize in
    if pages =? 0 then 1 else pages.

(** ** Card status transitions *)
Definition delete_card (card : Card) : result Card :=
  if Card_Status card =?s CardStatusSoftDelete then Err "card is already deleted"
  else Ok (card <| Card_Status := CardStatusSoftDelete |> <| Card_StatusReasonCode := None |>
                <| Card_LockLevel := None |>).

Definition lock_card (reasonCode : string) (card : Card) : result Card :=
  let reasonCode := if reasonCode =?s "" then "ClientRequestedLock" else reasonCode in
  if Card_Status card =?s CardStatusSoftDelete then Err "cannot lock a deleted card"
  else if Card_Status card =?s CardStatusBlocked then Err "cannot lock a permanently blocked card"
  else if Card_Status card =?s CardStatusTemporaryBlocked then Err "card is already locked"
  else
    let card := card <| Card_Status := CardStatusTemporaryBlocked |>
                     <| Card_LockLevel := Some reasonCode |> in
    Ok (if negb (Card_IsFirstTimeLock card) then card <| Card_IsFirstTimeLock := true |> else card).

Definition unlock_card (card : Card) : result Card :=
  if negb (Card_Status card =?s CardStatusTemporaryBlocked) then Err "card is not locked"
  else Ok (card <| Card_Status := CardStatusActive |> <| Card_LockLevel := None |>).

Definition block_card (reasonCode : string) (card : Card) : result Card :=
  if Card_Status card =?s CardStatusSoftDelete then Err "cannot block a deleted card"
  else if Card_Status card =?s CardStatusBlocked then Err "card is already blocked"
  else Ok (card <| Card_Status := CardStatusBlocked |>
                <| Card_StatusReasonCode := Some reasonCode |> <| Card_LockLevel := None |>).

(** ** Customer validation *)

(** What follows the last underscore of a currency. *)
Definition base_currency (currency : string) : string :=
  match LastIndex "_" currency with
  | Some idx => str_drop (idx + 1) currency
  | None => currency
  end.

(** The argument of a customer creation, checked: its currency and product. *)
Definition check_customer_args (req : CreateCustomerAndCardArgs) : result (string * string) :=
  let name := CreateCustomerAndCardArgs_NameOnCard req in
  let len := String.length name in
  if name =?s "" then Err "nameOnCard is required"
  else if (26 <? len)%nat then
    Err ("nameOnCard must be 26 characters or less (provided: " +:+ Itoa (Z.of_nat len)
           +:+ " characters)")
  else
    let account := CreateCustomerAndCardArgs_Account req in
    let currency := if CardAccount_Currency account =?s "" then "EUR"
                    else CardAccount_Currency account in
    if negb (base_currency currency =?s "EUR") then
      Err ("invalid currency '" +:+ currency
             +:+ "': only EUR-based currencies are supported for cards (e.g., 'EUR', 'PW_EUR', 'DEB_EUR')")
    else
      Ok (currency, if CardAccount_ProductCode account =?s "" then DefaultCardProductCode
                    else CardAccount_ProductCode account).

Section Cards.
Context {S : Type} `{Env} `{!Storage.Storage S}.
Abbreviation M := (prog (World S)).

Definition delivery_address (id sourceID customerID userID : string)
    (d : CreateCustomerDeliveryAddressArgs) : CustomerDeliveryAddress :=
  mkCustomerDeliveryAddress id sourceID customerID userID
    (CreateCustomerDeliveryAddressArgs_Type d) (CreateCustomerDeliveryAddressArgs_Line1 d)
    (CreateCustomerDeliveryAddressArgs_Line2 d) (CreateCustomerDeliveryAddressArgs_Line3 d)
    (CreateCustomerDeliveryAddressArgs_City d) (CreateCustomerDeliveryAddressArgs_PostOffice d)
    (CreateCustomerDeliveryAddressArgs_ZipCode d) (CreateCustomerDeliveryAddressArgs_CountryCode d)
    DefaultStatusActive.

(** A failed address is only logged. *)
Definition create_delivery (customerID userID : string)
    (delivery : option CreateCustomerDeliveryAddressArgs) : M unit :=
  match delivery with
  | None => mret tt
  | Some d =>
      id ← GenerateUUID;
      sourceID ← GenerateUUID;
      _ ← Storage.CreateCustomerAddress customerID
            (delivery_address id sourceID customerID userID d);
      mret tt
  end.

Definition new_account (accountID customerID userID productCode currency accountNumber : string)
    (now : Z) : Account :=
  zero_Account <| Account_ID := Some accountID |> <| Account_SourceID := accountID |>
    <| Account_CustomerID := Some customerID |> <| Account_CustomerSourceID := userID |>
    <| Account_ProductCode := productCode |> <| Account_Currency := currency |>
    <| Account_AccountNumber := accountNumber |> <| Account_Type := DefaultAccountType |>
    <| Account_Status := DefaultStatusActive |> <| Account_CreatedAt := now |>.

Definition new_card (cardID accountID customerID userID nameOnCard productCode maskedPan
    expiryDate : string) (now : Z) : Card :=
  zero_Card <| Card_ID := cardID |> <| Card_SourceID := cardID |>
    <| Card_AccountID := accountID |> <| Card_AccountSourceID := accountID |>
    <| Card_CustomerID := customerID |> <| Card_CustomerSourceID := userID |>
    <| Card_NameOnCard := nameOnCard |> <| Card_ProductCode := productCode |>
    <| Card_PanToken := "pan_" +:+ cardID |> <| Card_MaskedPan := maskedPan |>
    <| Card_Status := CardStatusActive |> <| Card_ExpiryDate := expiryDate |>
    <| Card_RelationType := CardRelationPrimary |> <| Card_CreatedAt := now |>.

Definition card_created_payload (card : Card) : list (string * json) :=
  [("cardId", JStr (Card_ID card)); ("cardSourceId", JStr (Card_ID card));
   ("nameOnCard", JStr (Card_NameOnCard card)); ("productCode", JStr (Card_ProductCode card));
   ("maskedPan", JStr (Card_MaskedPan card)); ("accountId", JStr (Card_AccountID card));
   ("accountSourceId", JStr (Card_AccountID card)); ("lockLevel", JNull);
   ("customerId", JStr (Card_CustomerID card));
   ("customerSourceId", JStr (Card_CustomerSourceID card))].

Definition issue_card (userID : string) (req : CreateCustomerAndCardArgs)
    (currency productCode : string) : M Response :=
  customerID ← GenerateUUID;
  code ← slice_to 8 customerID;
  now ← time_Now;
  customer ← new (zero_Customer <| Customer_ID := Some customerID |>
    <| Customer_SourceID := userID |> <| Customer_Type := DefaultCustomerType |>
    <| Customer_Code := "CUST-" +:+ code |> <| Customer_KYCStatus := KYCStateAccepted |>
    <| Customer_CreatedAt := now |>);
  let? _ := Storage.CreateCustomer customer
    else _ => mret (sendError StatusInternalServerError "failed to create customer") in
  _ ← create_delivery customerID userID (CreateCustomerAndCardArgs_Delivery req);
  accountID ← GenerateUUID;
  number ← GenerateUUID;
  number ← slice_to 12 number;
  now ← time_Now;
  account ← new (new_account accountID customerID userID productCode currency
                   ("GB29NWBK" +:+ number) now);
  let? _ := Storage.CreateAccount account
    else _ => mret (sendError StatusInternalServerError "failed to create account") in
  cardID ← GenerateUUID;
  maskedPan ← generateMaskedPan;
  expiry ← time_Now;
  now ← time_Now;
  card ← new (new_card cardID accountID customerID userID
                (CreateCustomerAndCardArgs_NameOnCard req) productCode maskedPan
                (Format_date (AddYears 3 expiry)) now);
  let? _ := Storage.CreateCard card
    else _ => mret (sendError StatusInternalServerError "failed to create card") in
  _ ← Storage.SetCardLimits cardID defaultCardLimits;
  (* account and customer are the objects the storage was given *)
  c ← deref (T := Card) card;
  _ ← update account (fun a => a <| Account_Cards := [c] |>);
  a ← deref (T := Account) account;
  _ ← update customer (fun x => x <| Customer_Accounts := [a] |>);
  x ← deref (T := Customer) customer;
  let response := sendJSON StatusCreated (json_of_CustomerResponse
    (mkCustomerResponse (CreateCustomerAndCardArgs_WalletAddress req) x)) in
  _ ← SendAsync WebhookEventCardCreated userID (card_created_payload c) fzero;
  mret response.

Definition CreateManagedCustomer (userID : string) (body : option CreateCustomerAndCardArgs) :
    M Response :=
  if userID =?s ""
  then mret (sendError StatusBadRequest "missing x-gatehub-managed-user-uuid header")
  else
    let? user := Storage.GetUser userID
      else _ => mret (sendError StatusNotFound "user not found in GateHub") in
    u ← deref (T := User) user;
    if negb (User_KYCState u =?s KYCStateAccepted) then
      mret (sendError StatusForbidden ("user KYC state is '" +:+ User_KYCState u
              +:+ "' but must be 'accepted' before ordering cards"))
    else
      match body with
      | None => mret (sendError StatusBadRequest "invalid request body")
      | Some req =>
          match check_customer_args req with
          | Err e => mret (sendError StatusBadRequest e)
          | Ok (currency, productCode) => issue_card userID req currency productCode
          end
      end.
Definition CreateCustomer := CreateManagedCustomer.

(** ** Reading cards *)
Definition ListCards (customerID : string) : M Response :=
  let? cards := Storage.GetCardsByCustomer customerID
    else _ => mret (sendError StatusInternalServerError "failed to get cards") in
  activeCards ← collect (fun p =>
    c ← deref (T := Card) p;
    mret (if negb (Card_Status c =?s CardStatusSoftDelete) then Some c else None)) cards;
  mret (sendJSON StatusOK (json_of_ListCardsResponse
    (mkListCardsResponse activeCards (mkPagination 1 100 1)))).

Definition CreateCard : M Response :=
  id ← GenerateUUID;
  mret (sendJSON StatusOK (strings_json [("id", id); ("status", CardStatusActive)])).

Definition GetCard (cardID : string) : M Response :=
  let? card := Storage.GetCard cardID
    else _ => mret (sendError StatusNotFound "card not found") in
  c ← deref (T := Card) card;
  mret (sendJSON StatusOK (json_of_Card c)).

(** A status transition of a stored card: refused with a 400, or written
    back. *)
Definition change_card (cardID : string) (step : Card → result Card) (failed : string)
    (answer : Card → json) : M Response :=
  let? card := Storage.GetCard cardID
    else _ => mret (sendError StatusNotFound "card not found") in
  c ← deref (T := Card) card;
  match step c with
  | Err e => mret (sendError StatusBadRequest e)
  | Ok c' =>
      _ ← assign card c';
      let? _ := Storage.UpdateCard card
        else _ => mret (sendError StatusInternalServerError failed) in
      c ← deref (T := Card) card;
      mret (sendJSON StatusOK (answer c))
  end.

Definition DeleteCard (cardID : string) : M Response :=
  change_card cardID delete_card "failed to delete card"
    (fun _ => JObj [("success", JBool true)]).
Definition LockCard (cardID reasonCode : string) : M Response :=
  change_card cardID (lock_card reasonCode) "failed to lock card" json_of_Card.
Definition UnlockCard (cardID : string) : M Response :=
  change_card cardID unlock_card "failed to unlock card" json_of_Card.
Definition BlockCard (cardID reasonCode : string) : M Response :=
  change_card cardID (block_card reasonCode) "failed to block card" json_of_Card.
End Cards.
