(* ===== verification/CardOps.v ===== *)
(** * Card limits, addresses, transactions and 3DS ([internal/handler/cards.go]) *)
From S2P Require Import Prelude GoFloat GoStd GoText Consts Models Config World Api CardNumbers Cards.
From S2P Require Storage.

(** [time.Until(t).Seconds()] as an [int]; a [Duration] saturates. *)
Definition seconds_until (now t : Z) : Z :=
  let d := Z.max int_min (Z.min int_max (t - now)) in
  f_trunc (fadd (f_of_Z (Z.quot d second_ns)) (fdiv (f_of_Z (Z.rem d second_ns)) (f_of_Z second_ns))).

Section CardOps.
Context {S : Type} `{Env} `{!Storage.Storage S}.
Abbreviation M := (prog (World S)).

(** ** Limits *)
Definition limits_json (limits : list CardLimit) : json := JArr (map json_of_CardLimit limits).

Definition GetCardLimits (cardID : string) : M Response :=
  let? limits := Storage.GetCardLimits cardID
    else _ => mret (sendError StatusInternalServerError "failed to get limits") in
  match limits with
  | [] =>
      _ ← Storage.SetCardLimits cardID defaultCardLimits;
      mret (sendJSON StatusOK (limits_json defaultCardLimits))
  | _ => mret (sendJSON StatusOK (limits_json limits))
  end.

Definition UpdateCardLimits (cardID : string) (limits : option (list CardLimit)) : M Response :=
  match limits with
  | None => mret (sendError StatusBadRequest "invalid request body")
  | Some limits =>
      let? _ := Storage.SetCardLimits cardID limits
        else _ => mret (sendError StatusInternalServerError "failed to update limits") in
      mret (sendJSON StatusOK (limits_json limits))
  end.

(** ** Delivery addresses *)

(** [fmt.Sprintf("%v", req[key])]; a missing key is nil. *)
Definition member_text (key : string) (req : list (string * json)) : string :=
  Sprint_v (default JNull (assoc key req)).

Definition CreateCustomerAddress (customerID : string) (body : option (list (string * json))) :
    M Response :=
  match body with
  | None => mret (sendError StatusBadRequest "invalid request body")
  | Some req =>
      id ← GenerateUUID;
      let address := mkCustomerDeliveryAddress id "" customerID "" (member_text "type" req)
        (member_text "line1" req) None None (member_text "city" req) None
        (member_text "zipCode" req)
        (match assoc "countryCode" req with Some (JStr cc) => cc | _ => "" end) "ACTIVE" in
      let? address := Storage.CreateCustomerAddress customerID address
        else _ => mret (sendError StatusInternalServerError "failed to create address") in
      mret (sendJSON StatusCreated (JArr [json_of_CustomerDeliveryAddress address]))
  end.

Definition GetCustomerAddresses (customerID : string) : M Response :=
  let? addresses := Storage.GetCustomerAddresses customerID
    else _ => mret (sendJSON StatusOK (JArr [])) in
  mret (sendJSON StatusOK (JArr (map json_of_CustomerDeliveryAddress addresses))).

Definition OrderAdditionalCard (accountID : string) : M Response :=
  id ← GenerateUUID;
  now ← time_Now;
  mret (sendJSON StatusCreated (strings_json
    [("id", id); ("accountID", accountID); ("status", "PENDING"); ("cardNumber", "****1234");
     ("createdAt", Format_RFC3339 now)])).

Definition OrderPlasticCard (cardID : string) : M Response :=
  id ← GenerateUUID;
  now ← time_Now;
  mret (sendJSON StatusCreated (strings_json
    [("orderId", id); ("cardId", cardID); ("status", "PENDING"); ("type", "PLASTIC");
     ("createdAt", Format_RFC3339 now)])).

Definition product (uuid code name cost : string) : json :=
  JObj [("uuid", JStr uuid); ("accountProductCode", JStr "PROD_EUR_ACCOUNT"); ("code", JStr code);
        ("name", JStr name); ("cost", JStr cost);
        ("cardProductLimits",
          JArr [JObj [("type", JStr "dailyOverall"); ("currency", JStr "EUR");
                      ("limit", JStr "1000.00"); ("isDisabled", JBool false)]])].
Definition GetCardApplicationProducts : M Response :=
  virtual ← GenerateUUID;
  physical ← GenerateUUID;
  mret (sendJSON StatusOK (JArr
    [product virtual "PWSR_DEBP_2404" "Virtual Debit Card" "0.00";
     product physical "PROD_PLASTIC_CARD" "Physical Debit Card" "5.00"])).

(** ** Card transactions *)
Definition new_card_transaction (req : CreateCardTransactionArgs) (seqID numericCard : Z)
    (txID now : string) : CardTransaction :=
  zero_CardTransaction <| CardTransaction_ID := Some seqID |>
    <| CardTransaction_CardID := Some numericCard |> <| CardTransaction_TransactionID := txID |>
    <| CardTransaction_GHResponseCode := "00" |>
    <| CardTransaction_GHResponseDescription := "Approved" |>
    <| CardTransaction_TransactionAmount := Some (CreateCardTransactionArgs_Amount req) |>
    <| CardTransaction_TransactionCurrency := Some (CreateCardTransactionArgs_Currency req) |>
    <| CardTransaction_BillingAmount := Some (CreateCardTransactionArgs_Amount req) |>
    <| CardTransaction_BillingCurrency := Some (CreateCardTransactionArgs_Currency req) |>
    <| CardTransaction_Type := CreateCardTransactionArgs_Type req |>
    <| CardTransaction_CardScheme := 2 |> <| CardTransaction_TerminalID := "TERM001" |>
    <| CardTransaction_CreatedAt := now |> <| CardTransaction_TxStatus := Some "COMPLETED" |>
    <| CardTransaction_Operation := 0 |>
    <| CardTransaction_MerchantName := CreateCardTransactionArgs_MerchantName req |>
    <| CardTransaction_MerchantCity := CreateCardTransactionArgs_MerchantCity req |>
    <| CardTransaction_MerchantCountry := CreateCardTransactionArgs_MerchantCountry req |>
    <| CardTransaction_TransactionDateTime := Some now |>
    <| CardTransaction_ProcessDateTime := Some now |>.

Definition CreateCardTransaction (body : option CreateCardTransactionArgs) : M Response :=
  match body with
  | None => mret (sendError StatusBadRequest "invalid request body")
  | Some req =>
      let cardUUID := if CreateCardTransactionArgs_CardID req =?s ""
                      then CreateCardTransactionArgs_CardGUID req
                      else CreateCardTransactionArgs_CardID req in
      uuid ← GenerateUUID;
      short ← slice_to 8 uuid;
      let txID := "tx-" +:+ short in
      now ← time_Now;
      let? seqID := Storage.NextCardTransactionSeqID
        else _ => mret (sendError StatusInternalServerError
                          "failed to allocate transaction id") in
      tx ← new (new_card_transaction req seqID (numericCardID cardUUID) txID (Format_RFC3339 now));
      let? _ := Storage.CreateCardTransaction tx
        else _ => mret (sendError StatusInternalServerError "failed to create transaction") in
      _ ← (if negb (cardUUID =?s "")
           then _ ← Storage.AddCardTransactionIndex cardUUID txID; mret tt else mret tt);
      t ← deref (T := CardTransaction) tx;
      mret (sendJSON StatusCreated (json_of_CardTransaction t))
  end.

(** The raw document of a simulated transaction wins. *)
Definition GetCardTransaction (txID : string) : M Response :=
  raw ← Storage.GetRawCardTransaction txID;
  match raw with
  | Ok raw => mret (mkResponse StatusOK [("Content-Type", "application/json")] (BodyJSON raw))
  | Err _ =>
      let? tx := Storage.GetCardTransaction txID
        else _ => mret (sendError StatusNotFound "transaction not found") in
      t ← deref (T := CardTransaction) tx;
      mret (sendJSON StatusOK (json_of_CardTransaction t))
  end.

(** The document of one listed transaction. *)
Definition listed_transaction (txID : string) : M (option json) :=
  raw ← Storage.GetRawCardTransaction txID;
  match raw with
  | Ok raw => mret (Some raw)
  | Err _ =>
      tx ← Storage.GetCardTransaction txID;
      match tx with
      | Err _ => mret None
      | Ok tx =>
          t ← deref (T := CardTransaction) tx;
          let encoded := json_of_CardTransaction t in
          mret (if marshals encoded then Some encoded else None)
      end
  end.

Definition ListCardTransactions (cardID rawPageNumber rawPageSize : string) : M Response :=
  let '(pageNumber, pageSize) := parsePagination rawPageNumber rawPageSize in
  txIDs ← Storage.GetCardTransactionIDs cardID;
  let txIDs := match txIDs with Ok ids => ids | Err _ => [] end in
  all ← collect listed_transaction txIDs;
  page ← paginate all pageNumber pageSize;
  let totalRecords := Z.of_nat (length all) in
  mret (sendJSON StatusOK (JObj
    [("data", JArr page);
     ("pagination", JObj [("pageNumber", JInt pageNumber); ("pageSize", JInt pageSize);
                          ("totalPages", JInt (totalPages totalRecords pageSize));
                          ("totalRecords", JInt totalRecords)])])).

(** ** 3DS *)
Definition pending_confirmation (p : loc) : M (option json) :=
  c ← deref (T := ThreeDSChallenge) p;
  now ← time_Now;
  let remaining := seconds_until now (ThreeDSChallenge_Timeout c) in
  let remaining := if remaining <? 0 then 0 else remaining in
  mret (Some (json_of_PendingThreeDSConfirmation
    (mkPendingThreeDSConfirmation (ThreeDSChallenge_TransactionID c)
       (ThreeDSChallenge_MerchantName c) (ThreeDSChallenge_PurchaseAmount c)
       (ThreeDSChallenge_PurchaseCurrency c) (ThreeDSChallenge_PurchaseDate c)
       (Itoa remaining)))).

Definition GetPendingConfirmations (userID : string) : M Response :=
  let? challenges := Storage.GetPendingThreeDSChallenges userID
    else _ => mret (sendJSON StatusOK (JObj [("pendingConfirmations", JArr [])])) in
  pending ← collect pending_confirmation challenges;
  mret (sendJSON StatusOK (JObj [("pendingConfirmations", JArr pending)])).

(** The five fields of the request body. *)
Record ChallengeRequest := mkChallengeRequest {
  cr_CardID : string;
  cr_UserID : string;
  cr_MerchantName : string;
  cr_PurchaseAmount : string;
  cr_PurchaseCurrency : string }.

Definition CreateThreeDSChallenge (body : option ChallengeRequest) : M Response :=
  match body with
  | None => mret (sendError StatusBadRequest "invalid request body")
  | Some req =>
      uuid ← GenerateUUID;
      short ← slice_to 8 uuid;
      purchased ← time_Now;
      deadline ← time_Now;
      created ← time_Now;
      challenge ← new (mkThreeDSChallenge ("3ds-" +:+ short) (cr_CardID req) (cr_UserID req)
        (cr_MerchantName req) (cr_PurchaseAmount req) (cr_PurchaseCurrency req)
        (Format_RFC3339 purchased) (deadline + 5 * minute_ns) "pending" created);
      let? _ := Storage.CreateThreeDSChallenge challenge
        else _ => mret (sendError StatusInternalServerError "failed to create 3DS challenge") in
      c ← deref (T := ThreeDSChallenge) challenge;
      mret (sendJSON StatusCreated (json_of_ThreeDSChallenge c))
  end.

Definition ConfirmThreeDS (txID : string) (body : option ThreeDSPaymentConfirmationArgs) :
    M Response :=
  match body with
  | None => mret (sendError StatusBadRequest "invalid request body")
  | Some req =>
      let confirmed := ThreeDSPaymentConfirmationArgs_Confirmed req in
      let? challenge := Storage.GetThreeDSChallenge txID
        else _ => mret (sendError StatusNotFound "3DS challenge not found") in
      _ ← update challenge (fun c =>
            c <| ThreeDSChallenge_Status := if confirmed then "approved" else "declined" |>);
      let? _ := Storage.UpdateThreeDSChallenge challenge
        else _ => mret (sendError StatusInternalServerError "failed to update 3DS challenge") in
      mret (sendJSON StatusOK (JObj [("transactionId", JStr txID);
                                     ("confirmed", JBool confirmed)]))
  end.
End CardOps.
