(* ===== verification/CardTokens.v ===== *)
(** * Card tokens ([internal/handler/card_token.go], token endpoints of [cards.go])

    The signed tokens a browser exchanges for sensitive card data, the RSA
    encryption of that data and the endpoints around them.  HMAC, base 64 and
    the JSON of the claims are computed; RSA and the DER coding of its keys are
    [crypto/rsa] and [crypto/x509], given by the class [Rsa], with what is
    documented of them in [RsaLaws].  The service's own key pair is a global of
    the process, made on first use: the two handlers that use it run on a
    [Process], the world and that pair. *)
From S2P Require Import Prelude GoFloat GoStd Crypto Base64 GoText JsonText GoTime Codec Stored.
From S2P Require Import Models Config World Api CardNumbers Cards.
From S2P Require Storage.

Definition cardDataTokenTTL : Z := 5 * minute_ns.
Definition cardDataTokenMaxTTL : Z := 10 * minute_ns.
Definition cardTokenTypeCardData : string := "card-data".
Definition cardTokenTypePin : string := "pin".
Definition cardTokenTypePinChange : string := "pin-change".
Definition cardDataPath : string := "/cards/v1/token/card-data/data".
Definition cardPinPath : string := "/cards/v1/token/pin/data".

Record CardTokenClaims := mkCardTokenClaims {
  TokenType : string;
  CardID : string;
  PublicKey : string;
  IssuedAt : Z;
  ExpiresAt : Z }.
#[export] Instance eta_CardTokenClaims : Eta CardTokenClaims := fun r =>
  mkCardTokenClaims (TokenType r) (CardID r) (PublicKey r) (IssuedAt r) (ExpiresAt r).
Definition zero_CardTokenClaims : CardTokenClaims := mkCardTokenClaims "" "" "" 0 0.
Definition fields_CardTokenClaims : list (field CardTokenClaims) := [
  fld "tokenType" c_string TokenType;
  fld "cardId" c_string CardID;
  fld_omitempty "publicKey" PublicKey;
  fld "iat" c_int IssuedAt;
  fld "exp" c_int ExpiresAt].
Definition c_CardTokenClaims : codec CardTokenClaims :=
  c_struct fields_CardTokenClaims zero_CardTokenClaims.

(** ** Signing and reading a token *)
Definition token_header : string :=
  json_text (JObj [("alg", JStr "HS256"); ("typ", JStr "JWT")]).
Definition token_signature (secret signingInput : string) : string :=
  EncodeToString RawURLEncoding (hmac_sha256 (bytes_of secret) (bytes_of signingInput)).

(** Strings and integers always marshal: neither error branch is taken. *)
Definition generateCardToken (secret : string) (claims : CardTokenClaims) : result string :=
  match marshal c_CardTokenClaims claims with
  | None => Err json_error
  | Some payload =>
      let signingInput := EncodeToString RawURLEncoding (bytes_of token_header) +:+ "." +:+
                          EncodeToString RawURLEncoding (bytes_of payload) in
      Ok (signingInput +:+ "." +:+ token_signature secret signingInput)
  end.

(** The checks on [exp], at [now] seconds. *)
Definition check_expiry (claims : CardTokenClaims) (now : Z) : result CardTokenClaims :=
  if ExpiresAt claims <? now then Err "token expired"
  else if cardDataTokenMaxTTL / second_ns <? wrap64 (ExpiresAt claims - now)
  then Err "token exceeds maximum allowed validity"
  else Ok claims.

(** The three parts of a token whose signature is the one of its first two, and
    the claims in the second. *)
Definition signed_claims (secret token : string) : result CardTokenClaims :=
  match Split "." token with
  | [p0; p1; p2] =>
      if negb (token_signature secret (p0 +:+ "." +:+ p1) =?s p2)
      then Err "invalid token signature"
      else
        match DecodeString RawURLEncoding p1 with
        | Err e => Err ("invalid token payload: " +:+ e)
        | Ok payload =>
            match unmarshal c_CardTokenClaims (string_of payload) with
            | None => Err ("invalid token claims: " +:+ json_error)
            | Some claims => Ok claims
            end
        end
  | _ => Err "invalid token format"
  end.

Definition parseCardToken {S} `{Env} (secret token : string) :
    prog (World S) (result CardTokenClaims) :=
  match signed_claims secret token with
  | Err e => mret (Err e)
  | Ok claims =>
      if ExpiresAt claims <=? 0 then mret (Err "token missing exp claim")
      else
        now ← time_Now;
        mret (check_expiry claims (Unix now))
  end.

(** ** RSA

    [rsa_parse] is [x509.ParsePKIXPublicKey] followed by the type assertion:
    [None] is a key of another kind.  Encryption draws its padding from the
    random source, at a moment of the environment. *)
Class Rsa := {
  rsa_public : Type;
  rsa_private : Type;
  rsa_generate : nat → result rsa_private;
  rsa_public_of : rsa_private → rsa_public;
  rsa_marshal : rsa_public → result (list Z);
  rsa_parse : list Z → result (option rsa_public);
  rsa_encrypt : nat → rsa_public → list Z → result (list Z);
  rsa_decrypt : rsa_private → list Z → result (list Z) }.

Class RsaLaws `{Rsa} := {
  rsa_marshal_bytes : ∀ pk der, rsa_marshal pk = Ok der → der ≠ [] ∧ Forall (λ x, 0 <= x < 256) der;
  rsa_parse_marshal : ∀ pk der, rsa_marshal pk = Ok der → rsa_parse der = Ok (Some pk);
  rsa_encrypt_bytes : ∀ k pk m c, rsa_encrypt k pk m = Ok c → c ≠ [] ∧ Forall (λ x, 0 <= x < 256) c;
  rsa_decrypt_encrypt : ∀ k sk m c,
    rsa_encrypt k (rsa_public_of sk) m = Ok c → rsa_decrypt sk c = Ok m }.

Section Tokens.
Context {S : Type} `{Env} `{!Storage.Storage S} `{Rsa}.
Abbreviation M := (prog (World S)).

Definition encryptWithBase64SPKI (publicKeyB64 : string) (plaintext : list Z) : M (result string) :=
  match DecodeString StdEncoding (TrimSpace publicKeyB64) with
  | Err e => mret (Err ("public key is not valid base64: " +:+ e))
  | Ok der =>
      match rsa_parse der with
      | Err e => mret (Err ("public key is not a valid SPKI key: " +:+ e))
      | Ok None => mret (Err "public key is not RSA")
      | Ok (Some rsaPub) =>
          k ← tick;
          mret (match rsa_encrypt k rsaPub plaintext with
                | Err e => Err ("encryption failed: " +:+ e)
                | Ok cipherText => Ok (EncodeToString StdEncoding cipherText)
                end)
      end
  end.

(** ** Minting a token *)
Definition token_response (token href method : string) : Response :=
  sendJSON StatusOK (json_of_CardTokenResponse
    (mkCardTokenResponse token [mkCardTokenLink href "data" method])).

Definition sendPlaceholderCardToken (tokenType cardID : string) : Response :=
  let token := "mock-" +:+ tokenType +:+ "-" +:+ cardID in
  token_response token ("/cards/v1/proxy/clientDevice/" +:+ tokenType +:+ "?token=" +:+ token) "GET".

(** The data path of a token type; [None] is the [default] of the switch. *)
Definition data_path (tokenType : string) : option string :=
  if tokenType =?s cardTokenTypeCardData then Some cardDataPath
  else if (tokenType =?s cardTokenTypePin) || (tokenType =?s cardTokenTypePinChange)
  then Some cardPinPath else None.

(** The key the data will be encrypted with; [None] answers 400. *)
Definition token_key (tokenType : string) (publicKey : option string) : option string :=
  if negb (tokenType =?s cardTokenTypePinChange) then
    match publicKey with
    | None => None
    | Some pk => if TrimSpace pk =?s "" then None else Some (TrimSpace pk)
    end
  else Some "".

Definition minted_claims (tokenType cardID publicKey : string) (now : Z) : CardTokenClaims :=
  mkCardTokenClaims tokenType cardID publicKey (Unix now) (Unix (now + cardDataTokenTTL)).

Definition GetCardToken (urlTokenType : string) (body : option GetCardTokenArgs) : M Response :=
  let tokenType := if urlTokenType =?s "" then cardTokenTypeCardData else urlTokenType in
  match body with
  | None => mret (sendError StatusBadRequest "invalid request body")
  | Some req =>
      if GetCardTokenArgs_CardID req =?s ""
      then mret (sendError StatusBadRequest "cardId is required")
      else
        match data_path tokenType with
        | None => mret (sendPlaceholderCardToken tokenType (GetCardTokenArgs_CardID req))
        | Some dataPath =>
            match token_key tokenType (GetCardTokenArgs_PublicKey req) with
            | None =>
                mret (sendError StatusBadRequest
                  ("publicKey is required for a " +:+ tokenType
                     +:+ " token: the response is encrypted with it"))
            | Some publicKey =>
                now ← time_Now;
                config ← gets w_config;
                match generateCardToken (CardDataTokenSecret config)
                        (minted_claims tokenType (GetCardTokenArgs_CardID req) publicKey now) with
                | Err _ => mret (sendError StatusInternalServerError "failed to generate token")
                | Ok token =>
                    let method := if tokenType =?s cardTokenTypePinChange then "POST" else "GET" in
                    mret (token_response token (PublicBaseURL config +:+ dataPath) method)
                end
            end
        end
  end.

(** ** Spending it *)
Definition bearerCardToken (authz wantType : string) : M (result CardTokenClaims) :=
  if negb (HasPrefix "Bearer " authz) then mret (Err "missing bearer token")
  else
    config ← gets w_config;
    let? claims := parseCardToken (CardDataTokenSecret config) (TrimPrefix "Bearer " authz)
      else e => mret (Err e) in
    if negb (TokenType claims =?s wantType)
    then mret (Err ("token is for " +:+ Quote (TokenType claims) +:+ ", not " +:+ Quote wantType))
    else mret (Ok claims).

(** A bare string is encrypted as it is, an object as its JSON text. *)
Inductive CardPayload : Type :=
| PlainText (v : string)
| Encoded (fields : list (string * string)).
Definition payload_bytes (payload : CardPayload) : list Z :=
  match payload with
  | PlainText v => bytes_of v
  | Encoded fields => bytes_of (json_text (sort_maps (strings_json fields)))
  end.

Definition sendEncryptedCardPayload (publicKey : string) (payload : CardPayload) : M Response :=
  if publicKey =?s "" then mret (sendError StatusBadRequest "token carries no publicKey")
  else
    let? cypher := encryptWithBase64SPKI publicKey (payload_bytes payload)
      else e => mret (sendError StatusBadRequest
                        ("failed to encrypt with the supplied publicKey: " +:+ e)) in
    mret (sendJSON StatusOK (strings_json [("cypher", cypher)])).

(** [time.Parse("2006-01-02", s)], as a calendar day. *)
Definition Parse_date (s : string) : option (Z * Z * Z) :=
  '(y, l) ← take_digits 4 (chars s); l ← take_char "-" l;
  '(m, l) ← take_digits 2 l; l ← take_char "-" l;
  '(d, l) ← take_digits 2 l;
  if bool_decide (l = []) && (1 <=? m) && (m <=? 12) && (1 <=? d) && (d <=? days_in y m)
  then Some (y, m, d) else None.

(** The stored [YYYY-MM-DD] as [MM/YYYY]. *)
Definition expiry_text (stored : string) : option string :=
  match Parse_date stored with
  | Some (y, m, _) => Some (pad0 2 m +:+ "/" +:+ pad0 4 y)
  | None => None
  end.
Definition cardDataExpiryDate (cardID : string) : M string :=
  let? p := Storage.GetCard cardID else _ => mret "12/2030" in
  card ← deref (T := Card) p;
  if Card_ExpiryDate card =?s "" then mret "12/2030"
  else mret (default "12/2030" (expiry_text (Card_ExpiryDate card))).

Definition unauthorized_token : Response := sendError StatusUnauthorized "invalid or expired token".

Definition GetCardData (authz : string) : M Response :=
  let? claims := bearerCardToken authz cardTokenTypeCardData else _ => mret unauthorized_token in
  pan ← generateUnmaskedPAN (CardID claims);
  expiry ← cardDataExpiryDate (CardID claims);
  cvc ← randomDigits 3;
  sendEncryptedCardPayload (PublicKey claims)
    (Encoded [("Pan", pan); ("ExpiryDate", expiry); ("Cvc2", cvc)]).

(** The PIN that was set, or the one derived from the card. *)
Definition current_pin (cardID : string) : M string :=
  r ← Storage.GetCardPIN cardID;
  match r with
  | Ok pin => if pin =?s "" then generateCardPIN cardID else mret pin
  | Err _ => generateCardPIN cardID
  end.
Definition GetCardPin (authz : string) : M Response :=
  let? claims := bearerCardToken authz cardTokenTypePin else _ => mret unauthorized_token in
  pin ← current_pin (CardID claims);
  sendEncryptedCardPayload (PublicKey claims) (PlainText pin).

(** ** The service's own key

    [sync.Once]: the first use generates the pair or fails, for good. *)
Record serviceKeyPair := mkServiceKeyPair { once : option (result rsa_private) }.
Record Process := mkProcess { p_world : World S; serviceKeys : serviceKeyPair }.
Abbreviation P := (prog Process).

Definition in_world {A} (m : M A) : P A := fun p =>
  let '(a, w) := m (p_world p) in (a, mkProcess w (serviceKeys p)).

Definition serviceKeys_get : P (result rsa_private) := fun p =>
  match once (serviceKeys p) with
  | Some key => (Ret key, p)
  | None =>
      let key := rsa_generate (w_ticks (p_world p)) in
      (Ret key, mkProcess ((p_world p) <| w_ticks := (w_ticks (p_world p) + 1)%nat |>)
                  (mkServiceKeyPair (Some key)))
  end.

Definition servicePublicKeyBase64 : P (result string) :=
  let? key := serviceKeys_get else e => mret (Err e) in
  mret (match rsa_marshal (rsa_public_of key) with
        | Err e => Err e
        | Ok der => Ok (EncodeToString StdEncoding der)
        end).

Definition decryptWithServiceKey (cipherB64 : string) : P (result (list Z)) :=
  let? key := serviceKeys_get else e => mret (Err e) in
  mret (match DecodeString StdEncoding (TrimSpace cipherB64) with
        | Err e => Err ("cypher is not valid base64: " +:+ e)
        | Ok raw =>
            match rsa_decrypt key raw with
            | Err e => Err ("decryption failed: " +:+ e)
            | Ok plaintext => Ok plaintext
            end
        end).

Definition SetCardPin (authz : string) (cypher : option string) : P Response :=
  let? claims := in_world (bearerCardToken authz cardTokenTypePinChange)
    else _ => mret unauthorized_token in
  match cypher with
  | None => mret (sendError StatusBadRequest "invalid request body")
  | Some cypher =>
      if cypher =?s "" then mret (sendError StatusBadRequest "cypher is required")
      else
        let? plaintext := decryptWithServiceKey cypher
          else _ => mret (sendError StatusBadRequest
            "could not decrypt cypher; it must be encrypted with this service's public key from GET /cards/v1/token/pin/public-key") in
        let pin := TrimSpace (string_of plaintext) in
        if negb (isPlausiblePIN pin)
        then mret (sendError StatusBadRequest "decrypted pin must be 4 to 12 digits")
        else
          let? _ := in_world (Storage.SetCardPIN (CardID claims) pin)
            else _ => mret (sendError StatusInternalServerError "failed to store pin") in
          mret (sendJSON StatusOK (strings_json [("status", "success")]))
  end.

Definition GetCardPinPublicKey : P Response :=
  let? publicKey := servicePublicKeyBase64
    else _ => mret (sendError StatusInternalServerError "public key unavailable") in
  mret (sendJSON StatusOK (strings_json
    [("publicKey", publicKey); ("format", "base64-spki"); ("algorithm", "RSA-PKCS1v15")])).
End Tokens.
Arguments Process S {_}.
Arguments mkProcess {S _}.
Arguments p_world {S _}.
Arguments serviceKeys {S _}.
