(* ===== verification/Mocks.v ===== *)
(** * The scenario catalogue ([internal/handler/mockdata/cardtransaction_mocks.json])

    The file the program embeds, line by line, with its double quotes spelled as
    back quotes, of which it has none. *)
From S2P Require Import Prelude GoFloat GoStd GoText.

Definition unquoted (text : string) : string :=
  of_chars (map (fun c => if bool_decide (c = "`"%char) then dquote else c) (chars text)).

Definition mock_lines_1 : list string := [
"{";
"  `Operation - Withdrawal`: {";
"    `Transaction Classification - Authorization`: [";
"      {";
"        `case`: `Purchase Transaction`,";
"        `payload`: {";
"          `operation`: 0,";
"          `transactionClassification`: `Authorization`,";
"          `type`: 0,";
"          `isTrxAmountConverted`: false,";
"          `txStatus`: `PROCESSING`,";
"          `ghResponseCode`: `OK`,";
"          `responseCode`: `OK`,";
"          `transactionAmount`: `1.89`,";
"          `transactionCurrency`: `EUR`,";
"          `billingAmount`: `1.89`,";
"          `billingCurrency`: `EUR`,";
"          `vaultId`: 1,";
"          `cardId`: 277,";
"          `transactionId`: `TX_PURCHASE`,";
"          `refTransactionId`: null,";
"          `ghResponseDescription`: `Approved`,";
"          `terminalId`: `C0A17138`,";
"          `cardScheme`: 3,";
"          `source`: `P`,";
"          `mcc`: `5399`,";
"          `merchantName`: `SPAR IVANCNA GORICA`,";
"          `merchantCountry`: `SVN`,";
"          `merchantCity`: `IVANCNA GORIC`,";
"          `merchantZip`: `1295`,";
"          `merchantStreet`: `STANTETOVA ULICA 1A`,";
"          `merchantId`: `002295628`,";
"          `transactionDateTime`: `2024-12-19T13:15:38.000Z`,";
"          `processDateTime`: `2024-12-19T13:15:38.000Z`,";
"          `createdAt`: `2024-12-19T13:15:38.000Z`,";
"          `spendExchangeRate`: null,";
"          `spendCurrency`: null,";
"          `mastercardConversion`: null";
"        }";
"      },";
"      {";
"        `case`: `Purchase Transaction with FX`,";
"        `payload`: {";
"          `operation`: 0,";
"          `transactionClassification`: `Authorization`,";
"          `type`: 0,";
"          `isTrxAmountConverted`: true,";
"          `txStatus`: `PROCESSING`,";
"          `ghResponseCode`: `OK`,";
"          `responseCode`: `OK`,";
"          `transactionAmount`: `50`,";
"          `transactionCurrency`: `RON`,";
"          `billingAmount`: `9.67`,";
"          `billingCurrency`: `EUR`,";
"          `vaultId`: 1,";
"          `cardId`: 277,";
"          `transactionId`: `TX_PURCHASE`,";
"          `refTransactionId`: null,";
"          `ghResponseDescription`: `Approved`,";
"          `terminalId`: `C0A17138`,";
"          `cardScheme`: 3,";
"          `source`: `P`,";
"          `mcc`: `5399`,";
"          `merchantName`: `SPAR IVANCNA GORICA`,";
"          `merchantCountry`: `SVN`,";
"          `merchantCity`: `IVANCNA GORIC`,";
"          `merchantZip`: `1295`,";
"          `merchantStreet`: `STANTETOVA ULICA 1A`,";
"          `merchantId`: `002295628`,";
"          `transactionDateTime`: `2024-12-19T13:15:38.000Z`,";
"          `processDateTime`: `2024-12-19T13:15:38.000Z`,";
"          `createdAt`: `2024-12-19T13:15:38.000Z`,";
"          `spendExchangeRate`: null,";
"          `spendCurrency`: null,";
"          `mastercardConversion`: {";
"            `convRate`: `0.1934`,";
"            `refConRate`: null,";
"            `refConfRateDiff`: `0.66`";
"          }";
"        }"].
Definition mock_lines_2 : list string := [
"      },";
"      {";
"        `case`: `ATM Withdrawal`,";
"        `payload`: {";
"          `operation`: 0,";
"          `transactionClassification`: `Authorization`,";
"          `type`: 1,";
"          `isTrxAmountConverted`: false,";
"          `txStatus`: `PROCESSING`,";
"          `ghResponseCode`: `OK`,";
"          `responseCode`: `OK`,";
"          `transactionAmount`: `50.00`,";
"          `transactionCurrency`: `EUR`,";
"          `billingAmount`: `50.00`,";
"          `billingCurrency`: `EUR`,";
"          `vaultId`: 1,";
"          `cardId`: 277,";
"          `transactionId`: `TX_ATM`,";
"          `refTransactionId`: null,";
"          `ghResponseDescription`: `Approved`,";
"          `terminalId`: `ATM17138`,";
"          `cardScheme`: 3,";
"          `source`: `P`,";
"          `mcc`: `6011`,";
"          `merchantName`: `RAIFFEISEN ATM`,";
"          `merchantCountry`: `SVN`,";
"          `merchantCity`: `LJUBLJANA`,";
"          `merchantZip`: `1000`,";
"          `merchantStreet`: `SLOVENSKA 1`,";
"          `merchantId`: `ATM0001`,";
"          `transactionDateTime`: `2024-12-19T13:15:38.000Z`,";
"          `processDateTime`: `2024-12-19T13:15:38.000Z`,";
"          `createdAt`: `2024-12-19T13:15:38.000Z`,";
"          `spendExchangeRate`: null,";
"          `spendCurrency`: null,";
"          `mastercardConversion`: null";
"        }";
"      },";
"      {";
"        `case`: `Cash Advanced`,";
"        `payload`: {";
"          `operation`: 0,";
"          `transactionClassification`: `Authorization`,";
"          `type`: 17,";
"          `isTrxAmountConverted`: false,";
"          `txStatus`: `PROCESSING`,";
"          `ghResponseCode`: `OK`,";
"          `responseCode`: `OK`,";
"          `transactionAmount`: `0.01`,";
"          `transactionCurrency`: `EUR`,";
"          `billingAmount`: `0.01`,";
"          `billingCurrency`: `EUR`,";
"          `vaultId`: 1,";
"          `cardId`: 277,";
"          `transactionId`: `TX_CASH_ADVANCED`,";
"          `refTransactionId`: null,";
"          `ghResponseDescription`: `Approved`,";
"          `terminalId`: `C0A17138`,";
"          `cardScheme`: 3,";
"          `source`: `P`,";
"          `mcc`: `5399`,";
"          `merchantName`: `SPAR IVANCNA GORICA`,";
"          `merchantCountry`: `SVN`,";
"          `merchantCity`: `IVANCNA GORIC`,";
"          `merchantZip`: `1295`,";
"          `merchantStreet`: `STANTETOVA ULICA 1A`,";
"          `merchantId`: `002295628`,";
"          `transactionDateTime`: `2024-12-19T13:15:38.000Z`,";
"          `processDateTime`: `2024-12-19T13:15:38.000Z`,";
"          `createdAt`: `2024-12-19T13:15:38.000Z`,";
"          `spendExchangeRate`: null,";
"          `spendCurrency`: null,";
"          `mastercardConversion`: null";
"        }";
"      },";
"      {";
"        `case`: `Preauthorization`,";
"        `payload`: {";
"          `operation`: 0,";
"          `transactionClassification`: `Authorization`,"].
Definition mock_lines_3 : list string := [
"          `type`: 101,";
"          `isTrxAmountConverted`: false,";
"          `txStatus`: `PROCESSING`,";
"          `ghResponseCode`: `OK`,";
"          `responseCode`: `OK`,";
"          `transactionAmount`: `5.00`,";
"          `transactionCurrency`: `EUR`,";
"          `billingAmount`: `5.00`,";
"          `billingCurrency`: `EUR`,";
"          `vaultId`: 1,";
"          `cardId`: 277,";
"          `transactionId`: `TX_PREAUTH`,";
"          `refTransactionId`: null,";
"          `ghResponseDescription`: `Approved`,";
"          `terminalId`: `C0A17138`,";
"          `cardScheme`: 3,";
"          `source`: `P`,";
"          `mcc`: `5399`,";
"          `merchantName`: `SPAR IVANCNA GORICA`,";
"          `merchantCountry`: `SVN`,";
"          `merchantCity`: `IVANCNA GORIC`,";
"          `merchantZip`: `1295`,";
"          `merchantStreet`: `STANTETOVA ULICA 1A`,";
"          `merchantId`: `002295628`,";
"          `transactionDateTime`: `2024-12-19T13:15:38.000Z`,";
"          `processDateTime`: `2024-12-19T13:15:38.000Z`,";
"          `createdAt`: `2024-12-19T13:15:38.000Z`,";
"          `spendExchangeRate`: null,";
"          `spendCurrency`: null,";
"          `mastercardConversion`: null";
"        }";
"      },";
"      {";
"        `case`: `Transfer from Account`,";
"        `payload`: {";
"          `operation`: 0,";
"          `transactionClassification`: `Authorization`,";
"          `type`: 108,";
"          `isTrxAmountConverted`: false,";
"          `txStatus`: `PROCESSING`,";
"          `ghResponseCode`: `OK`,";
"          `responseCode`: `OK`,";
"          `transactionAmount`: `10.00`,";
"          `transactionCurrency`: `EUR`,";
"          `billingAmount`: `10.00`,";
"          `billingCurrency`: `EUR`,";
"          `vaultId`: 1,";
"          `cardId`: 277,";
"          `transactionId`: `TX_TRANSFER_FROM_ACC`,";
"          `refTransactionId`: null,";
"          `ghResponseDescription`: `Approved`,";
"          `terminalId`: `C0A17138`,";
"          `cardScheme`: 3,";
"          `source`: `P`,";
"          `mcc`: null,";
"          `merchantName`: null,";
"          `merchantCountry`: null,";
"          `merchantCity`: null,";
"          `merchantZip`: null,";
"          `merchantStreet`: null,";
"          `merchantId`: null,";
"          `transactionDateTime`: `2024-12-19T13:15:38.000Z`,";
"          `processDateTime`: `2024-12-19T13:15:38.000Z`,";
"          `createdAt`: `2024-12-19T13:15:38.000Z`,";
"          `spendExchangeRate`: null,";
"          `spendCurrency`: null,";
"          `mastercardConversion`: null";
"        }";
"      },";
"      {";
"        `case`: `Preauthorization Incremental (no refTransactionId)`,";
"        `payload`: {";
"          `operation`: 0,";
"          `transactionClassification`: `Authorization`,";
"          `type`: 102,";
"          `isTrxAmountConverted`: false,";
"          `txStatus`: `PROCESSING`,";
"          `ghResponseCode`: `OK`,";
"          `responseCode`: `OK`,";
"          `transactionAmount`: `5.00`,"].
Definition mock_lines_4 : list string := [
"          `transactionCurrency`: `EUR`,";
"          `billingAmount`: `5.00`,";
"          `billingCurrency`: `EUR`,";
"          `vaultId`: 1,";
"          `cardId`: 277,";
"          `transactionId`: `TX_PREAUTH_INCREMENTAL`,";
"          `refTransactionId`: null,";
"          `ghResponseDescription`: `Approved`,";
"          `terminalId`: `C0A17138`,";
"          `cardScheme`: 3,";
"          `source`: `P`,";
"          `mcc`: `5399`,";
"          `merchantName`: `SPAR IVANCNA GORICA`,";
"          `merchantCountry`: `SVN`,";
"          `merchantCity`: `IVANCNA GORIC`,";
"          `merchantZip`: `1295`,";
"          `merchantStreet`: `STANTETOVA ULICA 1A`,";
"          `merchantId`: `002295628`,";
"          `transactionDateTime`: `2024-12-19T13:15:38.000Z`,";
"          `processDateTime`: `2024-12-19T13:15:38.000Z`,";
"          `createdAt`: `2024-12-19T13:15:38.000Z`,";
"          `spendExchangeRate`: null,";
"          `spendCurrency`: null,";
"          `mastercardConversion`: null";
"        }";
"      },";
"      {";
"        `case`: `Preauthorization Incremental (with refTransactionId)`,";
"        `payload`: {";
"          `operation`: 0,";
"          `transactionClassification`: `Authorization`,";
"          `type`: 102,";
"          `isTrxAmountConverted`: false,";
"          `txStatus`: `PROCESSING`,";
"          `ghResponseCode`: `OK`,";
"          `responseCode`: `OK`,";
"          `transactionAmount`: `5.00`,";
"          `transactionCurrency`: `EUR`,";
"          `billingAmount`: `5.00`,";
"          `billingCurrency`: `EUR`,";
"          `vaultId`: 1,";
"          `cardId`: 277,";
"          `transactionId`: `TX_PREAUTH_INCREMENTAL_REF`,";
"          `refTransactionId`: `CHANGE_WITH_ID_OF_PREAUTH_TX`,";
"          `ghResponseDescription`: `Approved`,";
"          `terminalId`: `C0A17138`,";
"          `cardScheme`: 3,";
"          `source`: `P`,";
"          `mcc`: `5399`,";
"          `merchantName`: `SPAR IVANCNA GORICA`,";
"          `merchantCountry`: `SVN`,";
"          `merchantCity`: `IVANCNA GORIC`,";
"          `merchantZip`: `1295`,";
"          `merchantStreet`: `STANTETOVA ULICA 1A`,";
"          `merchantId`: `002295628`,";
"          `transactionDateTime`: `2024-12-19T13:15:38.000Z`,";
"          `processDateTime`: `2024-12-19T13:15:38.000Z`,";
"          `createdAt`: `2024-12-19T13:15:38.000Z`,";
"          `spendExchangeRate`: null,";
"          `spendCurrency`: null,";
"          `mastercardConversion`: null";
"        }";
"      }";
"    ]";
"  },";
"  `Operation - Deposit`: {";
"    `Transaction Classification - Authorization`: [";
"      {";
"        `case`: `Transfer to Account (Mastercard Send)`,";
"        `payload`: {";
"          `operation`: 1,";
"          `transactionClassification`: `Authorization`,";
"          `type`: 107,";
"          `isTrxAmountConverted`: false,";
"          `txStatus`: `ACQUIRED`,";
"          `ghResponseCode`: `OK`,";
"          `responseCode`: `OK`,";
"          `transactionAmount`: `2`,";
"          `transactionCurrency`: `EUR`,";
"          `billingAmount`: `2`,"].
Definition mock_lines_5 : list string := [
"          `billingCurrency`: `EUR`,";
"          `vaultId`: 1,";
"          `cardId`: 277,";
"          `transactionId`: `TX_TRANSFER_TO_ACC`,";
"          `refTransactionId`: null,";
"          `ghResponseDescription`: `Approved`,";
"          `terminalId`: `C0A17138`,";
"          `cardScheme`: 3,";
"          `source`: `P`,";
"          `mcc`: `5399`,";
"          `merchantName`: `SPAR IVANCNA GORICA`,";
"          `merchantCountry`: `SVN`,";
"          `merchantCity`: `IVANCNA GORIC`,";
"          `merchantZip`: `1295`,";
"          `merchantStreet`: `STANTETOVA ULICA 1A`,";
"          `merchantId`: `002295628`,";
"          `transactionDateTime`: `2024-12-19T13:15:38.000Z`,";
"          `processDateTime`: `2024-12-19T13:15:38.000Z`,";
"          `createdAt`: `2024-12-19T13:15:38.000Z`,";
"          `spendExchangeRate`: null,";
"          `spendCurrency`: null,";
"          `mastercardConversion`: null";
"        }";
"      }";
"    ],";
"    `Transaction Classification - Reversal`: [";
"      {";
"        `case`: `Purchase Transaction`,";
"        `payload`: {";
"          `operation`: 1,";
"          `transactionClassification`: `Reversal`,";
"          `type`: 0,";
"          `isTrxAmountConverted`: false,";
"          `txStatus`: `PROCESSING`,";
"          `ghResponseCode`: `OK`,";
"          `responseCode`: `OK`,";
"          `transactionAmount`: `1.89`,";
"          `transactionCurrency`: `EUR`,";
"          `billingAmount`: `1.89`,";
"          `billingCurrency`: `EUR`,";
"          `vaultId`: 1,";
"          `cardId`: 277,";
"          `transactionId`: `TX_PURCHASE_REVERSAL`,";
"          `refTransactionId`: `CHANGE_WITH_ID_OF_PURHCASE_TX`,";
"          `ghResponseDescription`: `Approved`,";
"          `terminalId`: `C0A17138`,";
"          `cardScheme`: 3,";
"          `source`: `P`,";
"          `mcc`: `5399`,";
"          `merchantName`: `SPAR IVANCNA GORICA`,";
"          `merchantCountry`: `SVN`,";
"          `merchantCity`: `IVANCNA GORIC`,";
"          `merchantZip`: `1295`,";
"          `merchantStreet`: `STANTETOVA ULICA 1A`,";
"          `merchantId`: `002295628`,";
"          `transactionDateTime`: `2024-12-19T13:15:38.000Z`,";
"          `processDateTime`: `2024-12-19T13:15:38.000Z`,";
"          `createdAt`: `2024-12-19T13:15:38.000Z`,";
"          `spendExchangeRate`: null,";
"          `spendCurrency`: null,";
"          `mastercardConversion`: null";
"        }";
"      },";
"      {";
"        `case`: `ATM Withdrawal`,";
"        `payload`: {";
"          `operation`: 1,";
"          `transactionClassification`: `Reversal`,";
"          `type`: 1,";
"          `isTrxAmountConverted`: false,";
"          `txStatus`: `PROCESSING`,";
"          `ghResponseCode`: `OK`,";
"          `responseCode`: `OK`,";
"          `transactionAmount`: `50.00`,";
"          `transactionCurrency`: `EUR`,";
"          `billingAmount`: `50.00`,";
"          `billingCurrency`: `EUR`,";
"          `vaultId`: 1,";
"          `cardId`: 277,";
"          `transactionId`: `TX_ATM_REVERSAL`,"].
Definition mock_lines_6 : list string := [
"          `refTransactionId`: `CHANGE_WITH_ID_OF_ATM_TX`,";
"          `ghResponseDescription`: `Approved`,";
"          `terminalId`: `ATM17138`,";
"          `cardScheme`: 3,";
"          `source`: `P`,";
"          `mcc`: `6011`,";
"          `merchantName`: `RAIFFEISEN ATM`,";
"          `merchantCountry`: `SVN`,";
"          `merchantCity`: `LJUBLJANA`,";
"          `merchantZip`: `1000`,";
"          `merchantStreet`: `SLOVENSKA 1`,";
"          `merchantId`: `ATM0001`,";
"          `transactionDateTime`: `2024-12-19T13:15:38.000Z`,";
"          `processDateTime`: `2024-12-19T13:15:38.000Z`,";
"          `createdAt`: `2024-12-19T13:15:38.000Z`,";
"          `spendExchangeRate`: null,";
"          `spendCurrency`: null,";
"          `mastercardConversion`: null";
"        }";
"      }";
"    ]";
"  },";
"  `Operation - None`: [";
"    {";
"      `case`: `Insufficient Balance`,";
"      `payload`: {";
"        `operation`: 2,";
"        `transactionClassification`: `Authorization`,";
"        `type`: 0,";
"        `isTrxAmountConverted`: false,";
"        `txStatus`: null,";
"        `ghResponseCode`: `CRGUI`,";
"        `responseCode`: `OK`,";
"        `transactionAmount`: `100.00`,";
"        `transactionCurrency`: `EUR`,";
"        `billingAmount`: `100.00`,";
"        `billingCurrency`: `EUR`,";
"        `vaultId`: 1,";
"        `cardId`: 277,";
"        `transactionId`: `TX_DECLINED_CRGUI`,";
"        `refTransactionId`: null,";
"        `ghResponseDescription`: `Insufficient Balance`,";
"        `terminalId`: `C0A17138`,";
"        `cardScheme`: 3,";
"        `source`: `P`,";
"        `mcc`: `5399`,";
"        `merchantName`: `SPAR IVANCNA GORICA`,";
"        `merchantCountry`: `SVN`,";
"        `merchantCity`: `IVANCNA GORIC`,";
"        `merchantZip`: `1295`,";
"        `merchantStreet`: `STANTETOVA ULICA 1A`,";
"        `merchantId`: `002295628`,";
"        `transactionDateTime`: `2024-12-19T13:15:38.000Z`,";
"        `processDateTime`: `2024-12-19T13:15:38.000Z`,";
"        `createdAt`: `2024-12-19T13:15:38.000Z`,";
"        `spendExchangeRate`: null,";
"        `spendCurrency`: null,";
"        `mastercardConversion`: null";
"      }";
"    },";
"    {";
"      `case`: `Card Verification Inquiry`,";
"      `payload`: {";
"        `operation`: 2,";
"        `transactionClassification`: `Authorization`,";
"        `type`: 6,";
"        `isTrxAmountConverted`: false,";
"        `txStatus`: null,";
"        `ghResponseCode`: `OK`,";
"        `responseCode`: `OK`,";
"        `transactionAmount`: `0`,";
"        `transactionCurrency`: `EUR`,";
"        `billingAmount`: `0`,";
"        `billingCurrency`: `EUR`,";
"        `vaultId`: 1,";
"        `cardId`: 277,";
"        `transactionId`: `TX_CARD_VERIFICATION_INQUIRY`,";
"        `refTransactionId`: null,";
"        `ghResponseDescription`: `Card Verification Inquiry`,";
"        `terminalId`: `C0A17138`,"].
Definition mock_lines_7 : list string := [
"        `cardScheme`: 3,";
"        `source`: `P`,";
"        `mcc`: `5399`,";
"        `merchantName`: `SPAR IVANCNA GORICA`,";
"        `merchantCountry`: `SVN`,";
"        `merchantCity`: `IVANCNA GORIC`,";
"        `merchantZip`: `1295`,";
"        `merchantStreet`: `STANTETOVA ULICA 1A`,";
"        `merchantId`: `002295628`,";
"        `transactionDateTime`: `2024-12-19T13:15:38.000Z`,";
"        `processDateTime`: `2024-12-19T13:15:38.000Z`,";
"        `createdAt`: `2024-12-19T13:15:38.000Z`,";
"        `spendExchangeRate`: null,";
"        `spendCurrency`: null,";
"        `mastercardConversion`: null";
"      }";
"    },";
"    {";
"      `case`: `Incorrect CVV`,";
"      `payload`: {";
"        `operation`: 2,";
"        `transactionClassification`: `Advice`,";
"        `type`: 0,";
"        `isTrxAmountConverted`: false,";
"        `txStatus`: null,";
"        `ghResponseCode`: `OK`,";
"        `responseCode`: `WCVV1`,";
"        `transactionAmount`: `100.00`,";
"        `transactionCurrency`: `EUR`,";
"        `billingAmount`: `100.00`,";
"        `billingCurrency`: `EUR`,";
"        `vaultId`: 1,";
"        `cardId`: 277,";
"        `transactionId`: `TX_DECLINED_WCVV1`,";
"        `refTransactionId`: null,";
"        `ghResponseDescription`: `Wrong CVV`,";
"        `terminalId`: `C0A17138`,";
"        `cardScheme`: 3,";
"        `source`: `P`,";
"        `mcc`: `5399`,";
"        `merchantName`: `SPAR IVANCNA GORICA`,";
"        `merchantCountry`: `SVN`,";
"        `merchantCity`: `IVANCNA GORIC`,";
"        `merchantZip`: `1295`,";
"        `merchantStreet`: `STANTETOVA ULICA 1A`,";
"        `merchantId`: `002295628`,";
"        `transactionDateTime`: `2024-12-19T13:15:38.000Z`,";
"        `processDateTime`: `2024-12-19T13:15:38.000Z`,";
"        `createdAt`: `2024-12-19T13:15:38.000Z`,";
"        `spendExchangeRate`: null,";
"        `spendCurrency`: null,";
"        `mastercardConversion`: null";
"      }";
"    },";
"    {";
"      `case`: `Wrong PIN`,";
"      `payload`: {";
"        `operation`: 2,";
"        `transactionClassification`: `Advice`,";
"        `type`: 0,";
"        `isTrxAmountConverted`: false,";
"        `txStatus`: null,";
"        `ghResponseCode`: `OK`,";
"        `responseCode`: `WPIN`,";
"        `transactionAmount`: `1.89`,";
"        `transactionCurrency`: `EUR`,";
"        `billingAmount`: `1.89`,";
"        `billingCurrency`: `EUR`,";
"        `vaultId`: 1,";
"        `cardId`: 277,";
"        `transactionId`: `TX_DECLINED_WPIN`,";
"        `refTransactionId`: null,";
"        `ghResponseDescription`: `Wrong PIN`,";
"        `terminalId`: `C0A17138`,";
"        `cardScheme`: 3,";
"        `source`: `P`,";
"        `mcc`: `5399`,";
"        `merchantName`: `SPAR IVANCNA GORICA`,";
"        `merchantCountry`: `SVN`,";
"        `merchantCity`: `IVANCNA GORIC`,"].
Definition mock_lines_8 : list string := [
"        `merchantZip`: `1295`,";
"        `merchantStreet`: `STANTETOVA ULICA 1A`,";
"        `merchantId`: `002295628`,";
"        `transactionDateTime`: `2024-12-19T13:15:38.000Z`,";
"        `processDateTime`: `2024-12-19T13:15:38.000Z`,";
"        `createdAt`: `2024-12-19T13:15:38.000Z`,";
"        `spendExchangeRate`: null,";
"        `spendCurrency`: null,";
"        `mastercardConversion`: null";
"      }";
"    },";
"    {";
"      `case`: `Wrong Card Expiration Date`,";
"      `payload`: {";
"        `operation`: 2,";
"        `transactionClassification`: `Advice`,";
"        `type`: 0,";
"        `isTrxAmountConverted`: false,";
"        `txStatus`: null,";
"        `ghResponseCode`: `OK`,";
"        `responseCode`: `CAEDM`,";
"        `transactionAmount`: `1.89`,";
"        `transactionCurrency`: `EUR`,";
"        `billingAmount`: `1.89`,";
"        `billingCurrency`: `EUR`,";
"        `vaultId`: 1,";
"        `cardId`: 277,";
"        `transactionId`: `TX_DECLINED_CAEDM`,";
"        `refTransactionId`: null,";
"        `ghResponseDescription`: `Wrong Card Expiration Date`,";
"        `terminalId`: `C0A17138`,";
"        `cardScheme`: 3,";
"        `source`: `P`,";
"        `mcc`: `5399`,";
"        `merchantName`: `SPAR IVANCNA GORICA`,";
"        `merchantCountry`: `SVN`,";
"        `merchantCity`: `IVANCNA GORIC`,";
"        `merchantZip`: `1295`,";
"        `merchantStreet`: `STANTETOVA ULICA 1A`,";
"        `merchantId`: `002295628`,";
"        `transactionDateTime`: `2024-12-19T13:15:38.000Z`,";
"        `processDateTime`: `2024-12-19T13:15:38.000Z`,";
"        `createdAt`: `2024-12-19T13:15:38.000Z`,";
"        `spendExchangeRate`: null,";
"        `spendCurrency`: null,";
"        `mastercardConversion`: null";
"      }";
"    },";
"    {";
"      `case`: `Locked / Frozen Card`,";
"      `payload`: {";
"        `operation`: 2,";
"        `transactionClassification`: `Advice`,";
"        `type`: 0,";
"        `isTrxAmountConverted`: false,";
"        `txStatus`: null,";
"        `ghResponseCode`: `OK`,";
"        `responseCode`: `CASUS`,";
"        `transactionAmount`: `1.89`,";
"        `transactionCurrency`: `EUR`,";
"        `billingAmount`: `1.89`,";
"        `billingCurrency`: `EUR`,";
"        `vaultId`: 1,";
"        `cardId`: 277,";
"        `transactionId`: `TX_DECLINED_CASUS`,";
"        `refTransactionId`: null,";
"        `ghResponseDescription`: `Frozen Card`,";
"        `terminalId`: `C0A17138`,";
"        `cardScheme`: 3,";
"        `source`: `P`,";
"        `mcc`: `5399`,";
"        `merchantName`: `SPAR IVANCNA GORICA`,";
"        `merchantCountry`: `SVN`,";
"        `merchantCity`: `IVANCNA GORIC`,";
"        `merchantZip`: `1295`,";
"        `merchantStreet`: `STANTETOVA ULICA 1A`,";
"        `merchantId`: `002295628`,";
"        `transactionDateTime`: `2024-12-19T13:15:38.000Z`,";
"        `processDateTime`: `2024-12-19T13:15:38.000Z`,";
"        `createdAt`: `2024-12-19T13:15:38.000Z`,"].
Definition mock_lines_9 : list string := [
"        `spendExchangeRate`: null,";
"        `spendCurrency`: null,";
"        `mastercardConversion`: null";
"      }";
"    }";
"  ]";
"}";
""].

Definition cardTransactionMocks : string :=
  unquoted (Join (String "010" "")
    (mock_lines_1 ++ mock_lines_2 ++ mock_lines_3 ++ mock_lines_4 ++ mock_lines_5 ++ mock_lines_6 ++ mock_lines_7 ++ mock_lines_8 ++ mock_lines_9)).
