(* ===== verification/CardScenarios.v ===== *)
(** * The card transaction catalogue ([internal/handler/cardscenarios.go])

    The embedded catalogue is parsed when the program starts; a failure is a
    panic.  Go walks a map in any order: [ops_order] and [cls_order] are the
    orders in which the operations, and the classifications of an operation,
    come up. *)
From S2P Require Import Prelude GoFloat GoStd GoText JsonText Codec Stored.

(** A payload is kept verbatim; [None] is one that was missing. *)
Record CardTxScenario := mkCardTxScenario {
  Key : string;
  Operation : string;
  Classification : string;
  Case : string;
  Payload : option json }.

Record scenarioEntry := mkScenarioEntry { entry_Case : string; entry_Payload : option json }.
#[export] Instance eta_scenarioEntry : Eta scenarioEntry := fun r =>
  mkScenarioEntry (entry_Case r) (entry_Payload r).

(** [json.RawMessage] *)
Definition c_raw : codec (option json) := {|
  enc := default JNull;
  can_encode _ := true;
  dec j _ := Some (Some j);
  zero := None;
  codec_ok _ := true |}.
Definition c_scenarioEntry : codec scenarioEntry :=
  c_struct [fld "case" c_string entry_Case; fld "payload" c_raw entry_Payload]
    (mkScenarioEntry "" None).

(** ** Keys *)
Definition trimLabel (label pre : string) : string :=
  TrimSpace (TrimPrefix (pre +:+ " - ") label).

(** The lower-case letters and digits a rune is written as by [strings.ToLower]:
    ASCII ones, the Kelvin sign and the dotted capital I; [None] otherwise. *)
Definition slug_rune (r : rune) : option ascii :=
  let c := rune_code r in
  if (97 <=? c) && (c <=? 122) || (48 <=? c) && (c <=? 57) then Some (Crypto.char_of c)
  else if (65 <=? c) && (c <=? 90) then Some (Crypto.char_of (c + 32))
  else if c =? 8490 then Some "k"%char
  else if c =? 304 then Some "i"%char
  else None.
Fixpoint slug_loop (rs : list rune) (lastDash : bool) : list ascii :=
  match rs with
  | [] => []
  | r :: rs =>
      match slug_rune r with
      | Some c => c :: slug_loop rs false
      | None => if lastDash then slug_loop rs true else "-"%char :: slug_loop rs true
      end
  end.
Definition slugify (s : string) : string := Trim "-" (of_chars (slug_loop (runes s) true)).

Definition scenarioKey (operation classification caseName : string) : string :=
  Join "." (filter (fun slug => slug ≠ "") (map slugify [operation; classification; caseName])).

Definition newScenario (operation classification : string) (e : scenarioEntry) : CardTxScenario :=
  mkCardTxScenario (scenarioKey operation classification (entry_Case e)) operation classification
    (entry_Case e) (entry_Payload e).

Fixpoint unique_from (seen : gmap string string) (scenarios : list CardTxScenario) : result unit :=
  match scenarios with
  | [] => Ok tt
  | s :: scenarios =>
      match seen !! Key s with
      | Some prev => Err ("duplicate scenario key " +:+ Quote (Key s) +:+ " (" +:+ prev +:+ " and "
                            +:+ Case s +:+ ")")
      | None => unique_from (<[Key s := Case s]> seen) scenarios
      end
  end.
Definition assertUniqueKeys (scenarios : list CardTxScenario) : result unit :=
  unique_from ∅ scenarios.

(** ** Loading *)

(** [json.Unmarshal] of an object into a map; [null] is an empty one. *)
Definition decode_members (j : json) : option (list (string * json)) :=
  match j with
  | JObj fs => Some (last_wins fs)
  | JNull => Some []
  | _ => None
  end.
(** The same, decoding every value. *)
Definition decode_classes (j : json) : option (list (string * list scenarioEntry)) :=
  fs ← decode_members j;
  mapM (fun kv => entries ← dec (c_slice c_scenarioEntry) kv.2 []; Some (kv.1, entries)) fs.

Section Load.
Context (ops_order : list (string * json) → list (string * json)).
Context (cls_order : list (string * list scenarioEntry) → list (string * list scenarioEntry)).

Definition load_operation (opLabel : string) (opBody : json) : result (list CardTxScenario) :=
  let operation := trimLabel opLabel "Operation" in
  match dec (c_slice c_scenarioEntry) opBody [] with
  | Some flat => Ok (map (newScenario operation "") flat)
  | None =>
      match decode_classes opBody with
      | None => Err ("operation " +:+ Quote opLabel +:+ ": " +:+ json_error)
      | Some byClassification =>
          Ok (flat_map (fun kv =>
                map (newScenario operation (trimLabel kv.1 "Transaction Classification")) kv.2)
              (cls_order byClassification))
      end
  end.
Fixpoint load_operations (ops : list (string * json)) : result (list CardTxScenario) :=
  match ops with
  | [] => Ok []
  | (opLabel, opBody) :: ops =>
      match load_operation opLabel opBody with
      | Err e => Err e
      | Ok scenarios =>
          match load_operations ops with
          | Err e => Err e
          | Ok rest => Ok (scenarios ++ rest)
          end
      end
  end.

Definition scenario_before (a b : CardTxScenario) : bool := String.ltb (Key a) (Key b).
Definition loadCardScenarios (raw : string) : result (list CardTxScenario) :=
  match parse_json raw with
  | None => Err ("top level: " +:+ json_error)
  | Some j =>
      match decode_members j with
      | None => Err ("top level: " +:+ json_error)
      | Some byOperation =>
          match load_operations (ops_order byOperation) with
          | Err e => Err e
          | Ok scenarios =>
              let scenarios := slice_stable scenario_before scenarios in
              match assertUniqueKeys scenarios with
              | Err e => Err e
              | Ok _ => Ok scenarios
              end
          end
      end
  end.

(** [None] is the panic at start-up. *)
Definition mustLoadCardScenarios (raw : string) : option (list CardTxScenario) :=
  match loadCardScenarios raw with Ok scenarios => Some scenarios | Err _ => None end.
End Load.

(** ** Looking up

    [cardScenarioIndex] is the package variable. *)
Section Index.
Context (cardScenarioIndex : list CardTxScenario).

Definition listCardScenarios : list CardTxScenario := cardScenarioIndex.
Definition scenarioKeys : list string :=
  slice_stable (fun a b => String.ltb a b) (map Key listCardScenarios).

(** [strings.ToLower], as far as a comparison with an ASCII text can tell. *)
Definition lower_rune (r : rune) : list ascii :=
  match slug_rune r with Some c => [c] | None => rune_bytes r end.
Definition lower_key (s : string) : string := of_chars (flat_map lower_rune (runes s)).
Definition findCardScenario (key : string) : option CardTxScenario :=
  let want := lower_key (TrimSpace key) in
  find (fun s => Key s =?s want) cardScenarioIndex.
End Index.
