(* ===== verification/CardSim.v ===== *)
(** * Simulated card transactions ([internal/handler/cardtx_admin.go])

    A catalogue scenario, filled in by the caller and stamped with identity
    fields of the service, becomes a stored card transaction and a webhook. *)
From S2P Require Import Prelude GoFloat GoStd GoText JsonText Codec Stored Consts Models Config World.
From S2P Require Import Api Webhook CardNumbers CardScenarios.
From S2P Require Storage.

Record CardTxNotification := mkCardTxNotification { Title : string; Body : string }.

(** [Overrides] as decoded: its values are what [interface{}] holds, a nil map
    is empty. *)
Record SimulateCardTransactionRequest := mkSimulateRequest {
  UserID : string;
  CardID : string;
  Scenario : string;
  Overrides : list (string * json);
  Event : string;
  Notification : option CardTxNotification }.
#[export] Instance eta_SimulateRequest : Eta SimulateCardTransactionRequest := fun r =>
  mkSimulateRequest (UserID r) (CardID r) (Scenario r) (Overrides r) (Event r) (Notification r).

Record SimulateCardTransactionResult := mkSimulateResult {
  result_Scenario : string;
  result_Event : string;
  result_TransactionID : string;
  result_Transaction : json }.

Definition isKnownCardTxStatus (status : string) : bool :=
  (status =?s CardTxStatusProcessing) || (status =?s CardTxStatusCompleted)
  || (status =?s CardTxStatusReversed) || (status =?s CardTxStatusDeclined).

(** [json.Unmarshal] of a text into a [map[string]interface{}]. *)
Definition decode_map (text : string) : option (list (string * json)) :=
  match parse_json text with
  | Some j => match as_interface j with
              | JObj fs => Some (last_wins fs)
              | JNull => Some []
              | _ => None
              end
  | None => None
  end.

Section Simulation.
Context {S : Type} `{Env} `{!Storage.Storage S}.
Context (cardScenarioIndex : list CardTxScenario).
Abbreviation M := (prog (World S)).

Definition ListCardTxScenarios : M Response :=
  let out := map (fun s => JObj [("key", JStr (Key s)); ("operation", JStr (Operation s));
                                 ("classification", JStr (Classification s)); ("case", JStr (Case s))])
               (listCardScenarios cardScenarioIndex) in
  mret (sendJSON StatusOK (JObj [("scenarios", JArr out); ("count", JInt (Z.of_nat (length out)))])).

(** ** Materialising a scenario *)

(** [for k, v := range overrides { fields[k] = v }]; the keys are distinct, so
    the order does not matter. *)
Definition set_all (overrides fields : list (string * json)) : list (string * json) :=
  fold_left (fun fields kv => assoc_set kv.1 kv.2 fields) overrides fields.

(** The identity fields of the service, set last. *)
Definition set_identity (txID : string) (seqID numericCard : Z) (now : Z)
    (fields : list (string * json)) : list (string * json) :=
  assoc_set "createdAt" (JStr (Format_RFC3339 now))
    (assoc_set "cardId" (JInt numericCard)
       (assoc_set "id" (JInt seqID) (assoc_set "transactionId" (JStr txID) fields))).

(** [json.Marshal(fields)] and [json.Unmarshal] of that text. *)
Definition normalise (fields : list (string * json)) : option (CardTransaction * json) :=
  let normalised := sort_maps (JObj fields) in
  if marshals normalised
  then tx ← unmarshal c_CardTransaction (json_text normalised); Some (tx, normalised)
  else None.

Definition materialiseCardTransaction (payload : option json) (overrides : list (string * json))
    (seqID : Z) (cardUUID : string) : M (result (CardTransaction * json * string)) :=
  match payload with
  | None => Errorf json_error
  | Some payload =>
      match as_interface payload with
      | JObj fields =>
          let fields := set_all overrides (last_wins fields) in
          txID ← GenerateUUID;
          now ← time_Now;
          match normalise (set_identity txID seqID (numericCardID cardUUID) now fields) with
          | None => Errorf json_error
          | Some (tx, normalised) => mret (Ok (tx, normalised, txID))
          end
      | JNull =>
          (* a nil map: the first assignment panics *)
          match overrides with
          | [] => _ ← GenerateUUID; panic "assignment to entry in nil map"
          | _ => panic "assignment to entry in nil map"
          end
      | _ => Errorf json_error
      end
  end.

(** ** The webhook *)
Definition emitCardTransactionWebhook (event : string) (req : SimulateCardTransactionRequest)
    (raw : json) (txID : string) : M unit :=
  if event =?s WebhookEventCardTransaction then
    let notification := default (mkCardTxNotification "Card transaction" "A card transaction was recorded")
                          (Notification req) in
    SendAsync event (UserID req)
      [("title", JStr (Title notification)); ("body", JStr (Body notification));
       ("transactionId", JStr txID); ("cardId", JStr (CardID req))] fzero
  else
    match decode_map (json_text raw) with
    | None => mret tt
    | Some authorizationData =>
        SendAsync event (UserID req) [("authorizationData", JObj authorizationData)] fzero
    end.

(** ** Simulating *)
Definition default_event (event : string) : string :=
  if event =?s "" then WebhookEventCardTransactionAuthorization else event.

(** Storing what was materialised: the record, its raw JSON, the index. *)
Definition store_simulated (tx : CardTransaction) (raw : json) (txID cardID : string) :
    M (api_result unit) :=
  p ← new tx;
  let? _ := Storage.CreateCardTransaction p
    else _ => mret (inr (internalErr "failed to create transaction")) in
  let? _ := Storage.StoreRawCardTransaction txID raw
    else _ => mret (inr (internalErr "failed to store transaction payload")) in
  _ ← Storage.AddCardTransactionIndex cardID txID;
  mret (inl tt).

Definition simulateCardTransaction (req : SimulateCardTransactionRequest) :
    M (api_result SimulateCardTransactionResult) :=
  if UserID req =?s "" then mret (inr (badRequest "userId is required"))
  else if CardID req =?s "" then mret (inr (badRequest "cardId is required"))
  else if Scenario req =?s "" then
    mret (inr (badRequest
      "scenario is required; GET /admin/card-transactions/scenarios lists the available keys"))
  else
    let? _ := Storage.GetUser (UserID req) else _ => mret (inr (notFound "user not found")) in
    let? card := Storage.GetCard (CardID req) else _ => mret (inr (notFound "card not found")) in
    match findCardScenario cardScenarioIndex (Scenario req) with
    | None =>
        mret (inr (withDetails (badRequest ("unknown scenario " +:+ Scenario req))
                     [("validScenarios", JStrs (scenarioKeys cardScenarioIndex))]))
    | Some scenario =>
        let event := default_event (Event req) in
        if negb (event =?s WebhookEventCardTransactionAuthorization)
           && negb (event =?s WebhookEventCardTransaction)
        then mret (inr (badRequest ("unsupported event " +:+ event +:+ "; use "
               +:+ WebhookEventCardTransactionAuthorization +:+ " or " +:+ WebhookEventCardTransaction)))
        else
          let? seqID := Storage.NextCardTransactionSeqID
            else _ => mret (inr (internalErr "failed to allocate transaction id")) in
          let? made := materialiseCardTransaction (Payload scenario) (Overrides req) seqID (CardID req)
            else _ => mret (inr (internalErr "failed to build transaction from scenario")) in
          let '(tx, raw, txID) := made in
          stored ← store_simulated tx raw txID (CardID req);
          match stored with
          | inr e => mret (inr e)
          | inl _ =>
              _ ← emitCardTransactionWebhook event req raw txID;
              (* the log entry reads the card's status *)
              _ ← deref (T := Card) card;
              mret (inl (mkSimulateResult (Key scenario) event txID raw))
          end
    end.

Definition SimulateCardTransaction (body : option SimulateCardTransactionRequest) : M Response :=
  match body with
  | None => mret (sendError StatusBadRequest "invalid request body")
  | Some req =>
      simulated ← simulateCardTransaction req;
      match simulated with
      | inr e => mret (sendAPIError e)
      | inl r => mret (sendJSON StatusCreated
                   (JObj [("scenario", JStr (result_Scenario r)); ("event", JStr (result_Event r));
                          ("transactionId", JStr (result_TransactionID r));
                          ("transaction", result_Transaction r)]))
      end
  end.

(** ** Driving its status *)
Definition SetCardTransactionStatus (txID : string) (body : option string) : M Response :=
  if txID =?s "" then mret (sendError StatusBadRequest "txID is required")
  else
    match body with
    | None => mret (sendError StatusBadRequest "invalid request body")
    | Some status =>
        if status =?s "" then mret (sendError StatusBadRequest "status is required")
        else if negb (isKnownCardTxStatus status)
        then mret (sendError StatusBadRequest ("unknown status " +:+ status))
        else
          let? _ := Storage.GetCardTransaction txID
            else _ => mret (sendError StatusNotFound "card transaction not found") in
          let? _ := Storage.UpdateCardTransactionStatus txID status
            else _ => mret (sendError StatusInternalServerError "failed to update status") in
          mret (sendJSON StatusOK (strings_json [("transactionId", txID); ("txStatus", status)]))
    end.
End Simulation.
