(* ===== verification/Delivery.v ===== *)
(** * Webhook delivery ([internal/webhook/job.go], [queue.go], [worker.go], [manager.go])

    The consumer side: stream messages, the HTTP delivery of a job and the
    retry of a failed one.  Redis Streams is a third-party service: the queue
    is written against the class [StreamClient] of the commands it issues.  A
    field that holds JSON text is the document it encodes. *)
From S2P Require Import Prelude GoFloat GoStd GoText Consts Models Config World Api Auth Webhook.
From S2P Require Storage.

Definition maxAttempts : Z := 10.
Definition retryDelay : Z := 3 * second_ns.
Definition batchSize : nat := 10.
Definition maxStreamLen : Z := 10000.
Definition staleIdleDuration : Z := 2 * minute_ns.

(** ** Stream messages *)
Inductive field : Type :=
| FText (s : string)
| FDoc (j : json).
Record XMessage := mkMessage { msg_ID : string; msg_Values : list (string * field) }.

Definition stream_fields (j : StreamJob) : list (string * field) :=
  [("job_id", FText (JobID j)); ("event_type", FText (EventType j));
   ("user_id", FText (UserID j)); ("data", FDoc (JObj (Data j)));
   ("attempts", FText (Itoa (Attempts j))); ("created_at", FText (CreatedAt j))]
  ++ (if negb (LastError j =?s "") then [("last_error", FText (LastError j))] else []).

Definition toStreamFields (j : StreamJob) : result (list (string * field)) :=
  if negb (marshals (JObj (Data j))) then Err "failed to serialize job data"
  else Ok (stream_fields j).

Definition text_value (key : string) (values : list (string * field)) : string :=
  match assoc key values with Some (FText s) => s | _ => "" end.

Definition data_value (id : string) (values : list (string * field)) :
    result (list (string * json)) :=
  match assoc "data" values with
  | Some (FDoc j) =>
      match as_interface j with
      | JObj fs => Ok (last_wins fs)
      | JNull => Ok []
      | _ => Err ("failed to parse data field in " +:+ id)
      end
  | Some (FText s) => if s =?s "" then Ok [] else Err ("failed to parse data field in " +:+ id)
  | None => Ok []
  end.

Definition parseStreamMessage (msg : XMessage) : result StreamJob :=
  let values := msg_Values msg in
  let jobID := text_value "job_id" values in
  let eventType := text_value "event_type" values in
  if (jobID =?s "") || (eventType =?s "")
  then Err ("stream message " +:+ msg_ID msg +:+ " missing required fields")
  else
    match data_value (msg_ID msg) values with
    | Err e => Err e
    | Ok data =>
        Ok (mkStreamJob (msg_ID msg) jobID eventType (text_value "user_id" values) data
              (match assoc "attempts" values with
               | Some (FText s) => default 0 (Atoi s) | _ => 0 end)
              (text_value "created_at" values) (text_value "last_error" values))
    end.

(** ** The HTTP side ([manager.go]) *)
Section Send.
Context {S : Type} `{Env} `{!Storage.Storage S}.
Abbreviation M := (prog (World S)).

Definition post2FACallback (org : Organization) (userID : string)
    (payload : list (string * json)) : M (result unit) :=
  let endpoint := TrimRight "/" (Organization_APIBaseURL org) +:+ "/v1/users/managed/"
                    +:+ userID +:+ "/2fa" in
  match url_Parse endpoint with
  | Err e => mret (Err ("failed to create 2FA request: " +:+ e))
  | Ok _ =>
      resp ← http_Do (mkRequest "POST" endpoint [("Content-Type", "application/json")]
                        (json_text (JObj payload)));
      mret (match resp with HttpFailed e => Err e | HttpAnswered _ _ _ => Ok tt end)
  end.

Definition initiate_payload : list (string * json) := [("action", JStr "INITIATE")].
Definition verify_payload : list (string * json) :=
  [("action", JStr "VERIFY"); ("code", JStr "123456")].

Definition test2FASMSWorkflow (org : Organization) (userID : string) : M (result unit) :=
  let? _ := post2FACallback org userID initiate_payload else e => mret (Err e) in
  post2FACallback org userID verify_payload.
Definition test2FATOTPWorkflow (org : Organization) (userID : string) : M (result unit) :=
  post2FACallback org userID verify_payload.

Definition string_of_member (key : string) (data : list (string * json)) : string :=
  match assoc key data with Some (JStr s) => s | _ => "" end.

Definition execute2FACallbackTest (data : list (string * json)) : M (result unit) :=
  let orgID := string_of_member "organization_id" data in
  let testUserID := string_of_member "test_user_id" data in
  let? org := Storage.GetOrganization orgID else e => mret (Err e) in
  if Organization_APIBaseURL org =?s "" then mret (Ok tt)
  else if Organization_TwoFAType org =?s "sms" then test2FASMSWorkflow org testUserID
  else if Organization_TwoFAType org =?s "totp" then test2FATOTPWorkflow org testUserID
  else mret (Err ("unknown 2fa type: " +:+ Organization_TwoFAType org)).

(** [WebhookPayload]; its data is a map. *)
Definition webhook_body (uuid timestamp eventType userID : string)
    (data : list (string * json)) : json :=
  JObj [("uuid", JStr uuid); ("timestamp", JStr timestamp); ("event_type", JStr eventType);
        ("user_uuid", JStr userID); ("environment", JStr "sandbox");
        ("data", sort_maps (JObj data))].

(** The signed request of a job, and the job's data afterwards: normalisation
    adds its defaults to the map it is given. *)
Definition webhook_request (m : Manager) (eventType userID : string)
    (data : list (string * json)) : M (result HttpRequest * list (string * json)) :=
  let normalized := normalizeVerificationPayload eventType data in
  now ← time_Now;
  uuid ← GenerateUUID;
  let payload := webhook_body uuid (Itoa (UnixMilli now)) eventType userID normalized in
  if negb (marshals payload) then mret (Err "failed to marshal payload", normalized)
  else
    let body := json_text payload in
    match url_Parse (webhookURL m) with
    | Err e => mret (Err ("failed to create request: " +:+ e), normalized)
    | Ok _ =>
        mret (Ok (mkRequest "POST" (webhookURL m)
          [("Content-Type", "application/json");
           ("X-GH-Webhook-Signature", GenerateGateHubWebhookSignature body (webhookSecret m))]
          body), normalized)
    end.

(** The outcome of a delivery. *)
Definition send (m : Manager) (eventType userID : string) (data : list (string * json)) :
    M (result unit * list (string * json)) :=
  if eventType =?s "internal.2fa_callback_test" then
    r ← execute2FACallbackTest data;
    mret (r, data)
  else if webhookURL m =?s "" then mret (Err "no webhook URL available", data)
  else
    prepared ← webhook_request m eventType userID data;
    let '(request, normalized) := prepared in
    match request with
    | Err e => mret (Err e, normalized)
    | Ok req =>
        resp ← http_Do req;
        mret (match resp with
              | HttpFailed e => Err ("request failed: " +:+ e)
              | HttpAnswered status line _ =>
                  if (status <? 200) || (300 <=? status)
                  then Err ("unexpected status code: " +:+ Itoa status +:+ " " +:+ line)
                  else Ok tt
              end, normalized)
    end.
End Send.

(** ** Redis Streams

    The commands the queue issues for its one stream and consumer group, over
    the server's state [R]. *)
Class StreamClient (R : Type) := {
  XAdd : list (string * field) → R → result string * R;
  XTrimMaxLenApprox : Z → R → R;
  XReadGroup : nat → R → result (list XMessage) * R;
  XAck : string → R → result unit * R;
  XAutoClaim : Z → nat → R → result (list XMessage) * R }.

(** The worker's process: the world, the server, and the retry timers that
    are running. *)
Record Worker (S R : Type) := mkWorker {
  d_world : World S;
  d_redis : R;
  d_timers : list (list (string * field)) }.
Arguments mkWorker {S R}.
Arguments d_world {S R}. Arguments d_redis {S R}. Arguments d_timers {S R}.
#[export] Instance eta_Worker {S R} : Eta (Worker S R) := fun r =>
  mkWorker (d_world r) (d_redis r) (d_timers r).

Section Worker.
Context {S R : Type} `{Env} `{!Storage.Storage S} `{!StreamClient R}.
Abbreviation D := (prog (Worker S R)).

Definition on_world {A} (m : prog (World S) A) : D A := fun d =>
  let '(r, w) := m (d_world d) in (r, d <| d_world := w |>).
Definition on_redis {A} (f : R → A * R) : D A := fun d =>
  let '(a, r) := f (d_redis d) in (Ret a, d <| d_redis := r |>).

Definition addToStream (fields : list (string * field)) : D (result unit) :=
  let? _ := on_redis (XAdd fields) else e => mret (Err ("XADD failed: " +:+ e)) in
  _ ← on_redis (fun r => (tt, XTrimMaxLenApprox maxStreamLen r));
  mret (Ok tt).

(** Parsed messages in order; a corrupt one is acknowledged and skipped. *)
Definition parse_or_skip (msg : XMessage) : D (option StreamJob) :=
  match parseStreamMessage msg with
  | Ok job => mret (Some job)
  | Err _ => _ ← on_redis (XAck (msg_ID msg)); mret None
  end.

Definition ReadJobs (count : nat) : D (result (list StreamJob)) :=
  let? messages := on_redis (XReadGroup count)
    else e => mret (Err ("XREADGROUP failed: " +:+ e)) in
  jobs ← collect parse_or_skip messages;
  mret (Ok jobs).

Definition ClaimStale (idle : Z) : D (result (list StreamJob)) :=
  let? messages := on_redis (XAutoClaim idle batchSize)
    else e => mret (Err ("XAUTOCLAIM failed: " +:+ e)) in
  jobs ← collect parse_or_skip messages;
  mret (Ok jobs).

Definition Ack (messageID : string) : D (result unit) := on_redis (XAck messageID).

(** The delivery is acknowledged first; the retry waits on a timer. *)
Definition RetryLater (job : StreamJob) (errMsg : string) : D (result unit) :=
  let? _ := Ack (MessageID job)
    else e => mret (Err ("failed to ack message for retry: " +:+ e)) in
  let newAttempts := Attempts job + 1 in
  if maxAttempts <=? newAttempts then mret (Ok tt)
  else
    let retry := job <| MessageID := "" |> <| Attempts := newAttempts |>
                     <| LastError := errMsg |> in
    match toStreamFields retry with
    | Err e => mret (Err ("failed to serialize retry: " +:+ e))
    | Ok fields =>
        _ ← modify (fun d : Worker S R => d <| d_timers := d_timers d ++ [fields] |>);
        mret (Ok tt)
    end.

Definition processJob (m : Manager) (job : StreamJob) : D unit :=
  sent ← on_world (send m (EventType job) (UserID job) (Data job));
  let '(err, data) := sent in
  match err with
  | Err e => _ ← RetryLater (job <| Data := data |>) e; mret tt
  | Ok _ => _ ← Ack (MessageID job); mret tt
  end.

Definition readAndProcess (m : Manager) : D unit :=
  let? jobs := ReadJobs batchSize else _ => mret tt in
  for_each jobs (processJob m).

Definition reclaimStale (m : Manager) : D unit :=
  let? jobs := ClaimStale staleIdleDuration else _ => mret tt in
  for_each jobs (processJob m).

(** The [i]-th retry timer fires. *)
Definition retry_timer (i : nat) : D unit :=
  timers ← gets d_timers;
  match timers !! i with
  | None => mret tt
  | Some fields =>
      _ ← modify (fun d : Worker S R => d <| d_timers := delete i timers |>);
      _ ← addToStream fields;
      mret tt
  end.

(** The delay of the [i]-th enqueued job is over. *)
Definition enqueue_timer (i : nat) : D unit :=
  jobs ← gets (fun d => w_jobs (d_world d));
  match jobs !! i with
  | None => mret tt
  | Some (job, _) =>
      _ ← on_world (modify (fun w => w <| w_jobs := delete i jobs |>));
      match toStreamFields job with
      | Err _ => mret tt
      | Ok fields => _ ← addToStream fields; mret tt
      end
  end.
End Worker.

(** ** The queue's consumer group, and its figures *)
Class StreamAdmin (R : Type) := {
  XGroupCreateMkStream : R → result unit * R;
  XLen : R → result Z * R;
  XPending : R → result Z * R;
  Del : R → result unit * R }.

Section Queue.
Context {S R : Type} `{!StreamAdmin R}.
Abbreviation D := (prog (Worker S R)).

(** [NewQueue] makes sure of the group; an error is at most logged. *)
Definition create_group : D unit := _ ← on_redis XGroupCreateMkStream; mret tt.

(** A group that does not exist yet has nothing pending. *)
Definition GetStats : D (result (list (string * Z))) :=
  let? streamLen := on_redis XLen else e => mret (Err e) in
  pending ← on_redis XPending;
  mret (Ok [("stream_length", streamLen);
            ("pending", match pending with Ok count => count | Err _ => 0 end)]).
Definition StreamLength : D (result Z) := on_redis XLen.
Definition PendingCount : D (result Z) := on_redis XPending.
Definition FlushStream : D (result unit) := on_redis Del.
End Queue.

(** ** The life of the worker

    [Start] reclaims what a crashed worker left, then reads until its context
    is cancelled, which it looks at between two reads; a panic ends it, and it
    is started again unless the context is cancelled.  The timers fire at any
    time, also after the worker has stopped.  A read is one step: an operation
    the cancellation interrupts is one the client fails. *)
Inductive Phase := Starting | Polling | Recovering | Stopped.
Record Running (S R : Type) := mkRunning {
  run_worker : Worker S R;
  run_phase : Phase;
  run_cancelled : bool }.
Arguments mkRunning {S R}.
Arguments run_worker {S R}. Arguments run_phase {S R}. Arguments run_cancelled {S R}.

Section Life.
Context {S R : Type} `{Env} `{!Storage.Storage S} `{!StreamClient R}.
Context (m : Manager).
Implicit Types (d : Worker S R) (c : bool).

Definition after {A} (o : outcome A) : Phase := match o with Ret _ => Polling | Panic _ => Recovering end.

(** The worker's own steps, and what others do to it. *)
Inductive worker_step : Running S R → Running S R → Prop :=
| step_start d c :
    worker_step (mkRunning d Starting c)
      (mkRunning (reclaimStale m d).2 (after (reclaimStale m d).1) c)
| step_read d :
    worker_step (mkRunning d Polling false)
      (mkRunning (readAndProcess m d).2 (after (readAndProcess m d).1) false)
| step_stop d : worker_step (mkRunning d Polling true) (mkRunning d Stopped true)
| step_restart d : worker_step (mkRunning d Recovering false) (mkRunning d Starting false)
| step_stay_down d : worker_step (mkRunning d Recovering true) (mkRunning d Stopped true).
Inductive outside_step : Running S R → Running S R → Prop :=
| step_Stop d p c : outside_step (mkRunning d p c) (mkRunning d p true)
| step_retry d p c i : outside_step (mkRunning d p c) (mkRunning (retry_timer i d).2 p c)
| step_enqueue d p c i : outside_step (mkRunning d p c) (mkRunning (enqueue_timer i d).2 p c).
Definition step (a b : Running S R) : Prop := worker_step a b ∨ outside_step a b.
End Life.
