(* ===== verification/Pdf.v ===== *)
(** * PDF documents ([internal/pdf/pdf.go])

    Single-page text documents, built as the source builds them: objects with
    their byte offsets, the cross-reference table and the trailer. *)
From S2P Require Import Prelude GoFloat GoStd Crypto GoText.

Definition pageWidth : Z := 595.
Definition pageHeight : Z := 842.
Definition marginLeft : Z := 56.
Definition marginTop : Z := 64.
Definition titleFontSize : Z := 18.
Definition bodyFontSize : Z := 11.
Definition lineHeight : Z := 18.

Record Document := mkDocument { Title : string; Lines : list string }.

Definition NL : string := String "010" "".

(** The structural characters are escaped; a rune outside printable ASCII is
    one question mark. *)
Definition escape_rune (r : rune) : list ascii :=
  let c := rune_code r in
  if (c =? 40) || (c =? 41) || (c =? 92) then backslash :: rune_bytes r
  else if (32 <=? c) && (c <? 127) then rune_bytes r
  else ["?"%char].
Definition escapeText (s : string) : string := of_chars (flat_map escape_rune (runes s)).

(** One text line at height [y]. *)
Definition text_line (y : Z) (s : string) : string :=
  "1 0 0 1 " +:+ Itoa marginLeft +:+ " " +:+ Itoa y +:+ " Tm" +:+ NL
    +:+ "(" +:+ escapeText s +:+ ") Tj" +:+ NL.

(** The lines that fit below [y]. *)
Fixpoint text_lines (y : Z) (lines : list string) : string :=
  match lines with
  | [] => ""
  | line :: lines =>
      if y <? lineHeight then "" else text_line y line +:+ text_lines (y - lineHeight) lines
  end.

Definition buildContentStream (doc : Document) : string :=
  let y := pageHeight - marginTop in
  "BT" +:+ NL
    +:+ "/F1 " +:+ Itoa titleFontSize +:+ " Tf" +:+ NL +:+ text_line y (Title doc)
    +:+ "/F1 " +:+ Itoa bodyFontSize +:+ " Tf" +:+ NL
    +:+ text_lines (y - lineHeight * 2) (Lines doc)
    +:+ "ET".

Definition pdf_objects (doc : Document) : list string :=
  let content := buildContentStream doc in
  ["<< /Type /Catalog /Pages 2 0 R >>";
   "<< /Type /Pages /Kids [3 0 R] /Count 1 >>";
   "<< /Type /Page /Parent 2 0 R /MediaBox [0 0 " +:+ Itoa pageWidth +:+ " " +:+ Itoa pageHeight
     +:+ "] /Resources << /Font << /F1 4 0 R >> >> /Contents 5 0 R >>";
   "<< /Type /Font /Subtype /Type1 /BaseFont /Helvetica >>";
   "<< /Length " +:+ Itoa (Z.of_nat (String.length content)) +:+ " >>" +:+ NL +:+ "stream" +:+ NL
     +:+ content +:+ NL +:+ "endstream"].

Definition object_text (i : Z) (body : string) : string :=
  Itoa i +:+ " 0 obj" +:+ NL +:+ body +:+ NL +:+ "endobj" +:+ NL.

(** Writes objects [i], [i + 1], ... to [out], recording where each starts. *)
Fixpoint write_objects (i : Z) (bodies : list string) (out : string) (offsets : list Z) :
    string * list Z :=
  match bodies with
  | [] => (out, offsets)
  | body :: bodies =>
      write_objects (i + 1) bodies (out +:+ object_text i body)
        (offsets ++ [Z.of_nat (String.length out)])
  end.

Definition xref_entry (offset : Z) : string := pad0 10 offset +:+ " 00000 n " +:+ NL.
Fixpoint concat_strings (l : list string) : string :=
  match l with [] => "" | s :: l => s +:+ concat_strings l end.

Definition Render (doc : Document) : string :=
  let objects := pdf_objects doc in
  let count := Z.of_nat (length objects) + 1 in
  let '(out, offsets) := write_objects 1 objects ("%PDF-1.4" +:+ NL) [] in
  let xrefOffset := Z.of_nat (String.length out) in
  out +:+ "xref" +:+ NL +:+ "0 " +:+ Itoa count +:+ NL
    +:+ "0000000000 65535 f " +:+ NL
    +:+ concat_strings (map xref_entry offsets)
    +:+ "trailer" +:+ NL +:+ "<< /Size " +:+ Itoa count +:+ " /Root 1 0 R >>" +:+ NL
    +:+ "startxref" +:+ NL +:+ Itoa xrefOffset +:+ NL +:+ "%%EOF" +:+ NL.
