(* ===== verification/Statements.v ===== *)
(** * Statements ([internal/handler/statements.go]) *)
From S2P Require Import Prelude GoFloat GoStd GoText Consts Models Config World Api Pdf.
From S2P Require Storage.

Definition joinNonEmpty (sep : string) (parts : list string) : string :=
  match filter (fun p => (p =?s "") = false) parts with
  | [] => ""
  | p :: kept => fold_left (fun out p => out +:+ sep +:+ p) kept p
  end.

Definition orNotRecorded (value : string) : string :=
  if value =?s "" then "not recorded" else value.

Definition transactionStatusName (status : Z) : string :=
  if status =? TransactionStatusPending then "pending"
  else if status =? TransactionStatusCompleted then "completed"
  else if status =? TransactionStatusFailed then "failed"
  else "unknown (" +:+ Itoa status +:+ ")".

Definition parseStatementPeriod (yearParam monthParam : string) : result (Z * Z) :=
  let bad_year := Err ("invalid year " +:+ Quote yearParam +:+ ": expected a four-digit year") in
  let bad_month := Err ("invalid month " +:+ Quote monthParam +:+ ": expected 1 to 12") in
  if yearParam =?s "" then Err "year is required"
  else if monthParam =?s "" then Err "month is required"
  else
    match Atoi yearParam with
    | None => bad_year
    | Some year =>
        if (year <? 1970) || (9999 <? year) then bad_year
        else match Atoi monthParam with
             | None => bad_month
             | Some month =>
                 if (month <? 1) || (12 <? month) then bad_month else Ok (year, month)
             end
    end.

(** [%-ns] and [%ns]: padding counts runes. *)
Definition pad_right (n : nat) (s : string) : string :=
  s +:+ of_chars (repeat " "%char (n - length (runes s))).
Definition pad_left (n : nat) (s : string) : string :=
  of_chars (repeat " "%char (n - length (runes s))) +:+ s.

Definition in_period (year month : Z) (tx : Transaction) : bool :=
  let '(y, m, _) := date_of (Transaction_CreatedAt tx) in (y =? year) && (m =? month).

Definition activity_line (tx : Transaction) : string :=
  "  " +:+ Format_date (Transaction_CreatedAt tx) +:+ "  "
    +:+ pad_right 10 (Transaction_DepositType tx) +:+ "  "
    +:+ pad_left 10 (Transaction_Amount tx) +:+ " " +:+ Transaction_Currency tx +:+ "  "
    +:+ Transaction_ID tx.

Definition activity_lines (year month : Z) (transactions : list Transaction) : list string :=
  let matched := filter (fun tx => in_period year month tx = true) transactions in
  match matched with
  | [] => ["Transactions"; "  No activity in this period"]
  | _ => "Transactions" :: map activity_line matched
           ++ [""; Itoa (Z.of_nat (length matched)) +:+ " transaction(s) in period"]
  end.

Definition sendStatementPDF (filename : string) (doc : Document) : Response :=
  let body := Render doc in
  mkResponse StatusOK
    [("Content-Type", "application/pdf");
     ("Content-Disposition", "attachment; filename=" +:+ String dquote (filename +:+ String dquote ""));
     ("Content-Length", Itoa (Z.of_nat (String.length body)))] (BodyRaw body).

Section Statements.
Context {S : Type} `{Env} `{!Storage.Storage S}.
Abbreviation M := (prog (World S)).

Definition accountHolderName (userID : string) : M string :=
  let? user := Storage.GetUser userID else _ => mret "not on record" in
  u ← deref (T := User) user;
  let name := joinNonEmpty " " [User_FirstName u; User_LastName u] in
  mret (if name =?s "" then User_Email u else name).

Definition statementActivityLines (userID : string) (year month : Z) : M (list string) :=
  let? transactions := Storage.ListTransactionsByUser userID
    else _ => mret ["Activity unavailable"] in
  txs ← collect (fun p => tx ← deref (T := Transaction) p; mret (Some tx)) transactions;
  mret (activity_lines year month txs).

Definition issued_line : M string :=
  now ← time_Now;
  mret ("Issued: " +:+ Format_RFC1123 now).

Definition GetAccountConfirmation (walletAddress : string) : M Response :=
  if walletAddress =?s "" then mret (sendError StatusBadRequest "wallet address is required")
  else
    wallet ← Storage.GetWallet walletAddress;
    holder ← (match wallet with
              | Ok wallet =>
                  name ← accountHolderName (Wallet_UserID wallet);
                  mret ["Account holder: " +:+ name; "Wallet name: " +:+ Wallet_Name wallet]
              | Err _ => mret ["Account holder: not on record"]
              end);
    issued ← issued_line;
    mret (sendStatementPDF "account-confirmation.pdf" (mkDocument "Account Confirmation"
      (["Wallet address: " +:+ walletAddress; ""] ++ holder ++ [""; issued]))).

Definition GetAccountStatement (walletAddress yearParam monthParam : string) : M Response :=
  if walletAddress =?s "" then mret (sendError StatusBadRequest "wallet address is required")
  else
    match parseStatementPeriod yearParam monthParam with
    | Err e => mret (sendError StatusBadRequest e)
    | Ok (year, month) =>
        let period := days_of_civil year month 1 * day_ns in
        wallet ← Storage.GetWallet walletAddress;
        activity ← (match wallet with
                    | Ok wallet =>
                        name ← accountHolderName (Wallet_UserID wallet);
                        lines ← statementActivityLines (Wallet_UserID wallet) year month;
                        mret (["Account holder: " +:+ name; ""] ++ lines)
                    | Err _ => mret ["Account holder: not on record"]
                    end);
        issued ← issued_line;
        mret (sendStatementPDF "account-statement.pdf" (mkDocument "Account Statement"
          (["Wallet address: " +:+ walletAddress; "Period: " +:+ Format_month_year period; ""]
             ++ activity ++ [""; issued])))
    end.

Definition confirmation_lines (tx : Transaction) (issued : string) : list string :=
  ["Transaction: " +:+ Transaction_ID tx; "Type: " +:+ Transaction_DepositType tx;
   "Status: " +:+ transactionStatusName (Transaction_Status tx); "";
   "Amount: " +:+ Transaction_Amount tx +:+ " " +:+ Transaction_Currency tx;
   "Fee: " +:+ Transaction_Fee tx +:+ " " +:+ Transaction_Currency tx;
   "Total: " +:+ Transaction_TotalAmount tx +:+ " " +:+ Transaction_Currency tx; "";
   "Sending address: " +:+ orNotRecorded (Transaction_SendingAddress tx);
   "Receiving address: " +:+ orNotRecorded (Transaction_ReceivingAddress tx); "";
   "Created: " +:+ Format_RFC1123 (Transaction_CreatedAt tx); issued].

Definition GetTransferConfirmation (transactionUUID : string) : M Response :=
  if transactionUUID =?s "" then mret (sendError StatusBadRequest "transaction UUID is required")
  else
    let? tx := Storage.GetTransaction transactionUUID
      else _ => mret (sendError StatusNotFound "transaction not found") in
    tx ← deref (T := Transaction) tx;
    if negb ((Transaction_Type tx =? TransactionTypeDeposit)
             || (Transaction_Type tx =? TransactionTypeWithdrawal)) then
      mret (sendError StatusBadRequest
        ("transaction " +:+ transactionUUID +:+ " is neither a deposit nor a withdrawal"))
    else
      issued ← issued_line;
      mret (sendStatementPDF "transfer-confirmation.pdf"
        (mkDocument "Transfer Confirmation" (confirmation_lines tx issued))).
End Statements.
