(* ===== verification/Urls.v ===== *)
(** * Paths and queries of URLs

    The parts of [net/url] and [path] that the pages and the router use:
    escaping a query value, cleaning a path, and the two paths of a parsed
    target. *)
From S2P Require Import Prelude GoFloat GoStd Crypto GoText.

(** ** [url.QueryEscape] and [path.Clean] *)
Definition upper_hex (d : Z) : ascii := char_of (if d <? 10 then 48 + d else 55 + d).
Definition query_escape_char (c : ascii) : list ascii :=
  if is_alnum c || one_of "-_.~" c then [c]
  else if bool_decide (c = " "%char) then ["+"%char]
  else ["%"%char; upper_hex (byte_of c / 16); upper_hex (byte_of c mod 16)].
Definition QueryEscape (s : string) : string := of_chars (flat_map query_escape_char (chars s)).

(** [path.Clean] of a rooted path. *)
Definition clean_step (kept : list string) (segment : string) : list string :=
  if (segment =?s "") || (segment =?s ".") then kept
  else if segment =?s ".." then removelast kept
  else kept ++ [segment].
Definition path_Clean (p : string) : string := "/" +:+ Join "/" (fold_left clean_step (Split "/" p) []).

(** ** The path of a request target

    [url.Parse] keeps the decoded path, and the path as it was sent when
    escaping the decoded one would not give it back. *)
Fixpoint unescape_chars (plus : bool) (l : list ascii) : option (list ascii) :=
  match l with
  | [] => Some []
  | c :: l' =>
      if bool_decide (c = "%"%char) then
        match l' with
        | a :: b :: rest =>
            match hex_digit_val a, hex_digit_val b with
            | Some x, Some y => cons (char_of (x * 16 + y)) <$> unescape_chars plus rest
            | _, _ => None
            end
        | _ => None
        end
      else cons (if plus && is_char "+" c then " "%char else c) <$> unescape_chars plus l'
  end.
Definition unescape_path (s : string) : option string := of_chars <$> unescape_chars false (chars s).
Definition QueryUnescape (s : string) : option string := of_chars <$> unescape_chars true (chars s).

Definition escape_path_char (c : ascii) : list ascii :=
  if is_alnum c || one_of "-_.~$&+,/:;=@" c then [c]
  else ["%"%char; upper_hex (byte_of c / 16); upper_hex (byte_of c mod 16)].
Definition escape_path (s : string) : string := of_chars (flat_map escape_path_char (chars s)).

(** [URL.setPath]: [Path] and [RawPath]. *)
Definition setPath (p : string) : option (string * string) :=
  match unescape_path p with
  | None => None
  | Some path => Some (path, if escape_path path =?s p then "" else p)
  end.

(** ** [URL.Query] and its [Get]

    Pieces with a semicolon or a bad escape are left out. *)
Definition Cut (sep : ascii) (s : string) : string * string :=
  match cut_chars sep (chars s) with
  | Some (a, b) => (of_chars a, of_chars b)
  | None => (s, "")
  end.
Definition query_pair (piece : string) : option (string * string) :=
  if existsb (is_char ";") (chars piece) || (piece =?s "") then None
  else
    let '(key, value) := Cut "=" piece in
    match QueryUnescape key, QueryUnescape value with
    | Some key, Some value => Some (key, value)
    | _, _ => None
    end.
Definition Query (rawQuery : string) : list (string * string) :=
  omap query_pair (Split "&" rawQuery).
Definition Query_Get (rawQuery key : string) : string := default "" (assoc key (Query rawQuery)).

(** ** Facts *)
Lemma unescape_plain l rest :
  forallb (fun c => negb (is_char "%" c)) l = true →
  unescape_chars false (l ++ rest) = app l <$> unescape_chars false rest.
Proof.
  induction l as [|c l IH]; cbn [forallb app]; intros Hl; [by destruct (unescape_chars _ rest)|].
  apply andb_prop in Hl as [Hc Hl]. cbn [unescape_chars]. unfold is_char in Hc.
  case_bool_decide; [done|]. rw (IH Hl). by destruct (unescape_chars _ rest).
Qed.

(** Escaping then unescaping a value gives it back, byte by byte. *)
Lemma unescape_escaped c rest :
  unescape_chars true (query_escape_char c ++ rest) = cons c <$> unescape_chars true rest.
Proof. destruct c as [[] [] [] [] [] [] [] []]; reflexivity. Qed.
Lemma query_escape_roundtrip s : QueryUnescape (QueryEscape s) = Some s.
Proof.
  unfold QueryUnescape, QueryEscape. rw chars_of_chars.
  assert (unescape_chars true (flat_map query_escape_char (chars s)) = Some (chars s)) as ->.
  { induction (chars s) as [|c l IH]; [done|]. cbn [flat_map]. by rw unescape_escaped IH. }
  cbn. by rw of_chars_chars.
Qed.

Example setPath_plain : setPath "/id/v1/users/a%20b" = Some ("/id/v1/users/a b", "").
Proof. reflexivity. Qed.
Example setPath_slash :
  setPath "/cards/v1/token/pin%2Fdata" = Some ("/cards/v1/token/pin/data", "/cards/v1/token/pin%2Fdata").
Proof. reflexivity. Qed.
Example setPath_bad : setPath "/a%2" = None.
Proof. reflexivity. Qed.
Example Query_example : Query "flash=Sent+a%26b&&x;y&error=1" = [("flash", "Sent a&b"); ("error", "1")].
Proof. reflexivity. Qed.
