(* ===== verification/Ui.v ===== *)
(** * The admin user interface ([internal/handler/ui.go])

    Pages and form actions over the same operations as the API.  A page is the
    template it names and the data it is given; the template engine and the
    embedded files are outside the model.  Form values and query parameters are
    arguments, as the browser sent them. *)
From S2P Require Import Prelude GoFloat GoStd Crypto GoText Consts Models Config World Api Webhook.
From S2P Require Import CardScenarios CardSim Urls.
From S2P Require Identity Withdrawals Statements.
From S2P Require Storage.

(** ** [http.Redirect] *)
(** A local target is cleaned up to its query; bytes beyond ASCII are escaped. *)
Definition hex_escape_char (c : ascii) : list ascii :=
  if 128 <=? byte_of c then "%"%char :: hex2 (byte_of c) else [c].
Definition hexEscapeNonASCII (s : string) : string := of_chars (flat_map hex_escape_char (chars s)).
Definition ends_in_slash (s : string) : bool :=
  match rev (chars s) with c :: _ => is_char "/" c | [] => false end.
Definition clean_target (target : string) : string :=
  let '(path, query) := match cut_chars "?" (chars target) with
                        | Some (a, b) => (of_chars a, "?" +:+ of_chars b)
                        | None => (target, "")
                        end in
  let cleaned := path_Clean path in
  (if ends_in_slash path && negb (ends_in_slash cleaned) then cleaned +:+ "/" else cleaned) +:+ query.

(** The answer to a [POST]: no body.  The targets here start with a slash. *)
Definition http_Redirect (target : string) (code : Z) : Response :=
  let target := match url_Parse target with
                | Ok (scheme, host) =>
                    if (scheme =?s "") && (host =?s "") then clean_target target else target
                | Err _ => target
                end in
  mkResponse code [("Location", hexEscapeNonASCII target)] BodyNone.
Definition StatusSeeOther : Z := 303.

(** ** What a page is given *)
Definition uiPages : list (string * string) :=
  [("dashboard", "web/ui/dashboard.html"); ("user", "web/ui/user.html");
   ("kyc", "web/ui/kyc_action.html"); ("cardTx", "web/ui/card_tx_action.html")].

Record uiUserSummary := mkUserSummary { summary_User : User; summary_Balances : gmap string f64 }.
Record uiTransaction := mkUiTransaction {
  ui_Transaction : Transaction;
  StatusName : string;
  CanSettle : bool }.
Record uiOption := mkUiOption { Value : string; Label : string }.

Record uiView := mkUiView {
  view_Title : string;
  Flash : string;
  FlashIsError : bool;
  Users : list uiUserSummary;
  view_User : option User;
  FullName : string;
  Balances : gmap string f64;
  Cards : list Card;
  Transactions : list uiTransaction;
  Scenarios : list CardTxScenario;
  Outcomes : list uiOption;
  Events : list uiOption;
  SelectedUserID : string;
  SelectedCardID : string }.
#[export] Instance eta_uiView : Eta uiView := fun r =>
  mkUiView (view_Title r) (Flash r) (FlashIsError r) (Users r) (view_User r) (FullName r)
    (Balances r) (Cards r) (Transactions r) (Scenarios r) (Outcomes r) (Events r)
    (SelectedUserID r) (SelectedCardID r).
Definition zero_uiView : uiView := mkUiView "" "" false [] None "" ∅ [] [] [] [] [] "" "".

Definition json_of_balances (m : gmap string f64) : json :=
  JObj (sort_keys (map (fun kv => (kv.1, JFloat kv.2)) (map_to_list m))).
Definition json_of_option (o : uiOption) : json :=
  JObj [("Value", JStr (Value o)); ("Label", JStr (Label o))].
Definition json_of_uiView (v : uiView) : json :=
  JObj [("Title", JStr (view_Title v)); ("Flash", JStr (Flash v));
        ("FlashIsError", JBool (FlashIsError v));
        ("Users", JArr (map (fun s => JObj [("User", json_of_User (summary_User s));
                                            ("Balances", json_of_balances (summary_Balances s))]) (Users v)));
        ("User", match view_User v with Some u => json_of_User u | None => JNull end);
        ("FullName", JStr (FullName v)); ("Balances", json_of_balances (Balances v));
        ("Cards", JArr (map json_of_Card (Cards v)));
        ("Transactions", JArr (map (fun t => JObj [("Transaction", json_of_Transaction (ui_Transaction t));
                                                   ("StatusName", JStr (StatusName t));
                                                   ("CanSettle", JBool (CanSettle t))]) (Transactions v)));
        ("Scenarios", JArr (map (fun s => JObj [("Key", JStr (Key s)); ("Operation", JStr (Operation s));
                                                ("Classification", JStr (Classification s));
                                                ("Case", JStr (Case s))]) (Scenarios v)));
        ("Outcomes", JArr (map json_of_option (Outcomes v)));
        ("Events", JArr (map json_of_option (Events v)));
        ("SelectedUserID", JStr (SelectedUserID v)); ("SelectedCardID", JStr (SelectedCardID v))].

Definition kycOutcomeOptions : list uiOption :=
  [mkUiOption KYCStateAccepted "Accepted"; mkUiOption KYCStateRejected "Rejected";
   mkUiOption KYCStateActionRequired "Action required";
   mkUiOption KYCStateResubmission "Resubmission requested";
   mkUiOption WebhookEventDocumentNoticeWarning "Document notice: expiring soon";
   mkUiOption WebhookEventDocumentNoticeExpired "Document notice: expired"].
Definition cardTxEventOptions : list uiOption :=
  [mkUiOption WebhookEventCardTransactionAuthorization "Authorization (carries the transaction)";
   mkUiOption WebhookEventCardTransaction "Notification only (no transaction)"].

Definition renderUI (page : string) (view : uiView) : Response :=
  match assoc page uiPages with
  | None => http_Error "unknown page" StatusInternalServerError
  | Some file => mkResponse StatusOK [("Content-Type", "text/html; charset=utf-8")]
                   (BodyPage file (json_of_uiView view))
  end.

(** The [flash] and [error] parameters. *)
Definition flashFrom (flash error : string) : string * bool := (flash, error =?s "1").
Definition redirectWithFlash (path message : string) (isError : bool) : Response :=
  let target := path +:+ "?flash=" +:+ QueryEscape message in
  http_Redirect (if isError then target +:+ "&error=1" else target) StatusSeeOther.

Section Ui.
Context {S : Type} `{Env} `{!Storage.Storage S}.
Context (cardScenarioIndex : list CardTxScenario).
Abbreviation M := (prog (World S)).

(** ** Pages *)
Definition balances_of (userID : string) : M (gmap string f64) :=
  r ← Storage.GetAllBalances userID;
  mret (match r with Ok balances => balances | Err _ => ∅ end).

Definition userSummaries : M (list uiUserSummary) :=
  let? users := Storage.ListUsers else _ => mret [] in
  collect (fun p =>
    u ← deref (T := User) p;
    balances ← balances_of (User_ID u);
    mret (Some (mkUserSummary u balances))) users.

Definition UIDashboard (flash error : string) : M Response :=
  let '(message, isError) := flashFrom flash error in
  users ← userSummaries;
  mret (renderUI "dashboard"
    (zero_uiView <| view_Title := "Users" |> <| Flash := message |> <| FlashIsError := isError |>
                 <| Users := users |>)).

(** The user's cards, across their card customer. *)
Definition cardsForUser (userID : string) : M (list Card) :=
  let? p := Storage.GetCustomerBySourceID userID else _ => mret [] in
  customer ← deref (T := Customer) p;
  match Customer_ID customer with
  | None => mret []
  | Some id =>
      let? cards := Storage.GetCardsByCustomer id else _ => mret [] in
      collect (fun p => c ← deref (T := Card) p; mret (Some c)) cards
  end.

Definition can_settle (tx : Transaction) : bool :=
  (Transaction_DepositType tx =?s DepositTypeWithdrawal)
  && (Transaction_Status tx =? TransactionStatusPending).
Definition transactionsForUser (userID : string) : M (list uiTransaction) :=
  let? transactions := Storage.ListTransactionsByUser userID else _ => mret [] in
  collect (fun p =>
    tx ← deref (T := Transaction) p;
    mret (Some (mkUiTransaction tx (Statements.transactionStatusName (Transaction_Status tx))
                  (can_settle tx)))) transactions.

Definition UIUserDetail (userID flash error : string) : M Response :=
  let? p := Storage.GetUser userID else _ => mret (http_Error "user not found" StatusNotFound) in
  balances ← balances_of userID;
  let '(message, isError) := flashFrom flash error in
  u ← deref (T := User) p;
  cards ← cardsForUser userID;
  transactions ← transactionsForUser userID;
  mret (renderUI "user"
    (zero_uiView <| view_Title := User_Email u |> <| Flash := message |> <| FlashIsError := isError |>
       <| view_User := Some u |>
       <| FullName := Statements.joinNonEmpty " " [User_FirstName u; User_LastName u] |>
       <| Balances := balances |> <| Cards := cards |> <| Transactions := transactions |>)).

(** ** KYC events *)
Definition UIKYCForm (userID flash error : string) : M Response :=
  let '(message, isError) := flashFrom flash error in
  users ← userSummaries;
  mret (renderUI "kyc"
    (zero_uiView <| view_Title := "KYC event" |> <| Flash := message |> <| FlashIsError := isError |>
       <| Users := users |> <| Outcomes := kycOutcomeOptions |> <| SelectedUserID := userID |>)).

Definition applyUIKYCOutcome (user : loc) (outcome : string) : M (result string) :=
  if (outcome =?s WebhookEventDocumentNoticeExpired) || (outcome =?s WebhookEventDocumentNoticeWarning)
  then mret (Ok outcome)
  else
    u ← deref (T := User) user;
    match Identity.applyKYCOutcome u outcome with
    | Err e => mret (Err e)
    | Ok (u, event, _) =>
        _ ← assign user u;
        _ ← (if User_RiskLevel u =?s "" then update user (fun u => u <| User_RiskLevel := RiskLevelLow |>)
             else mret tt);
        let? _ := Storage.UpdateUser user else _ => mret (Err (api_msg errFailedToUpdateUser)) in
        mret (Ok event)
    end.

Definition UIKYCAction (userID outcome message : string) : M Response :=
  let userID := TrimSpace userID in
  let outcome := TrimSpace outcome in
  let message := TrimSpace message in
  let message := if message =?s "" then "Sent from the MockGatehub admin UI" else message in
  if (userID =?s "") || (outcome =?s "")
  then mret (redirectWithFlash "/ui/actions/kyc" "Choose a user and an outcome" true)
  else
    let? user := Storage.GetUser userID
      else _ => mret (redirectWithFlash "/ui/actions/kyc" "User not found" true) in
    let? event := applyUIKYCOutcome user outcome
      else e => mret (redirectWithFlash "/ui/actions/kyc" e true) in
    _ ← SendAsync event userID [("message", JStr message)] fzero;
    mret (redirectWithFlash ("/ui/users/" +:+ userID) ("Sent " +:+ event) false).

(** ** Card transactions *)
Definition UICardTxForm (userID cardID flash error : string) : M Response :=
  let '(message, isError) := flashFrom flash error in
  users ← userSummaries;
  cards ← (if negb (userID =?s "") then cardsForUser userID else mret []);
  mret (renderUI "cardTx"
    (zero_uiView <| view_Title := "Card transaction" |> <| Flash := message |>
       <| FlashIsError := isError |> <| Users := users |>
       <| Scenarios := listCardScenarios cardScenarioIndex |> <| Events := cardTxEventOptions |>
       <| SelectedUserID := userID |> <| SelectedCardID := cardID |> <| Cards := cards |>)).

(** The overrides of the form: both amounts together, and the merchant. *)
Definition form_overrides (amount merchantName : string) : list (string * json) :=
  let amount := TrimSpace amount in
  let merchant := TrimSpace merchantName in
  (if amount =?s "" then []
   else [("transactionAmount", JStr amount); ("billingAmount", JStr amount)])
  ++ (if merchant =?s "" then [] else [("merchantName", JStr merchant)]).

(** What the form asks the simulation for. *)
Definition form_request (userID cardID scenario amount merchantName event : string) :
    SimulateCardTransactionRequest :=
  mkSimulateRequest (TrimSpace userID) (TrimSpace cardID) (TrimSpace scenario)
    (form_overrides amount merchantName) (TrimSpace event) None.

Definition UICardTxAction (userID cardID scenario amount merchantName event : string) : M Response :=
  let req := form_request userID cardID scenario amount merchantName event in
  if (UserID req =?s "") || (CardID req =?s "") || (Scenario req =?s "")
  then mret (redirectWithFlash "/ui/actions/card-transaction" "Choose a user, a card and a scenario" true)
  else
    simulated ← simulateCardTransaction cardScenarioIndex req;
    match simulated with
    | inr e => mret (redirectWithFlash "/ui/actions/card-transaction" (api_msg e) true)
    | inl r => mret (redirectWithFlash ("/ui/users/" +:+ UserID req)
                 ("Simulated " +:+ result_Scenario r +:+ " and sent " +:+ result_Event r) false)
    end.

(** ** Settlement *)
Definition UIWithdrawalSettle (userID txID event : string) : M Response :=
  let userID := TrimSpace userID in
  let txID := TrimSpace txID in
  let event := TrimSpace event in
  let redirect := if negb (userID =?s "") then "/ui/users/" +:+ userID else "/ui" in
  if (txID =?s "") || (event =?s "")
  then mret (redirectWithFlash redirect "A transaction and an event are required" true)
  else
    settled ← Withdrawals.settleWithdrawal txID event;
    match settled with
    | inr e => mret (redirectWithFlash redirect (api_msg e) true)
    | inl _ => mret (redirectWithFlash redirect ("Sent " +:+ event) false)
    end.
End Ui.
