(* ===== verification/Routes.v ===== *)
(** * Routes and listeners ([cmd/mockgatehub/main.go])

    The tables of the two listeners, as they are registered, and what a
    listener does with a request: the authentication of the application port,
    then the route.  The router is the third-party [chi]; what is used of it is
    stated as the class [Mux]. *)
From S2P Require Import Prelude GoFloat GoStd Crypto GoText Urls Config World Api Auth.

(** ** Handlers, by the name of their method *)
Inductive Handler :=
| RootHandler | TransactionCompleteHandler | HealthCheck | GetUserCurrencies
| CreateToken | CreateManagedUser | GetManagedUser | UpdateManagedUserEmail
| UpdateOrganizationConfiguration
| GetUser | StartKYC | UpdateKYCState | OverrideRiskLevel | KYCIframe | KYCIframeSubmit
| GetUserWallets | CreateWallet | GetWallet | GetWalletBalance
| CreateTransaction | GetTransaction | ListGatewayTransactions
| GetCardLimits | UpdateCardLimits | GetCardApplicationProducts
| GetAccountConfirmation | GetAccountStatement | GetTransferConfirmation
| GetCurrentRates | GetVaults
| CreateCustomer | CreateManagedCustomer | CreateCustomerAddress | GetCustomerAddresses
| OrderAdditionalCard | ListCards | CreateCard | GetCard | DeleteCard
| LockCard | UnlockCard | BlockCard
| GetCardToken | GetCardData | GetCardPin | SetCardPin | GetCardPinPublicKey
| CreateCardTransaction | GetCardTransaction | ListCardTransactions
| GetPendingConfirmations | CreateThreeDSChallenge | ConfirmThreeDS | OrderPlasticCard
| GetFees | SetFees | GetUserFees | SetUserFees | ClearUserFees | SetUserKYCStateQuiet
| ListWithdrawals | TriggerWithdrawalEvent
| ListCardTxScenarios | SimulateCardTransaction | SetCardTransactionStatus
| TestWebhookSink | ListReceivedWebhooks | ClearReceivedWebhooks
| UIDashboard | UIUserDetail | UIKYCForm | UIKYCAction | UICardTxForm | UICardTxAction
| UIWithdrawalSettle.

Record Route := Handle { Method : string; Pattern : string; To : Handler }.
Definition Get := Handle "GET".
Definition Post := Handle "POST".
Definition Put := Handle "PUT".
Definition Patch := Handle "PATCH".
Definition Delete := Handle "DELETE".

(** [r.Route]: the routes of a router mounted under a prefix; its root answers
    with and without the slash. *)
Definition under (prefix : string) (routes : list Route) : list Route :=
  flat_map (fun r =>
    if Pattern r =?s "/" then [Handle (Method r) prefix (To r); Handle (Method r) (prefix +:+ "/") (To r)]
    else [Handle (Method r) (prefix +:+ Pattern r) (To r)]) routes.

Definition setupRoutes : list Route :=
  [Get "/" RootHandler;
   Post "/transaction/complete" TransactionCompleteHandler;
   Get "/health" HealthCheck;
   Get "/api/user-currencies" GetUserCurrencies]
  ++ under "/auth/v1"
    [Post "/tokens" CreateToken;
     Post "/users/managed" CreateManagedUser;
     Get "/users/managed" GetManagedUser;
     Put "/users/managed/email" UpdateManagedUserEmail;
     Patch "/users/organization/{organizationID}" UpdateOrganizationConfiguration]
  ++ under "/id/v1"
    [Get "/users/{userID}" GetUser;
     Post "/users/{userID}/hubs/{gatewayID}" StartKYC;
     Put "/hubs/{gatewayID}/users/{userID}" UpdateKYCState;
     Post "/hubs/{gatewayID}/users/{userID}/overrideRiskLevel" OverrideRiskLevel]
  ++ [Get "/iframe/onboarding" KYCIframe;
      Post "/iframe/submit" KYCIframeSubmit]
  ++ under "/core/v1"
    [Get "/users/{userID}" GetUserWallets;
     Post "/users/{userID}/wallets" CreateWallet;
     Get "/users/{userID}/wallets/{walletID}" GetWallet;
     Get "/wallets/{walletID}/balances" GetWalletBalance;
     Post "/transactions" CreateTransaction;
     Get "/transactions/{txID}" GetTransaction;
     Post "/gateways/{gatewayID}/transactions" ListGatewayTransactions]
  ++ under "/v1"
    [Get "/cards/{cardID}/limits" GetCardLimits;
     Put "/cards/{cardID}/limits" UpdateCardLimits;
     Post "/cards/{cardID}/limits" UpdateCardLimits;
     Get "/card-applications/{appID}/card-products" GetCardApplicationProducts]
  ++ under "/statement/v1"
    [Get "/statements/account-confirmation/{walletAddress}" GetAccountConfirmation;
     Get "/statements/account-statement/{walletAddress}/{year}/{month}" GetAccountStatement;
     Get "/statements/transfer-confirmation/{transactionUUID}" GetTransferConfirmation]
  ++ under "/rates/v1"
    [Get "/rates/current" GetCurrentRates;
     Get "/liquidity_provider/vaults" GetVaults]
  ++ under "/cards/v1"
    [Post "/customers" CreateCustomer;
     Post "/customers/managed" CreateManagedCustomer;
     Post "/customers/{customerID}/addresses" CreateCustomerAddress;
     Get "/customers/{customerID}/addresses" GetCustomerAddresses;
     Post "/accounts/{accountID}/cards" OrderAdditionalCard;
     Post "/cards/{accountID}/card" OrderAdditionalCard;
     Get "/cards/{customerID}" ListCards;
     Get "/customers/{customerID}/cards" ListCards;
     Post "/cards" CreateCard;
     Get "/cards/{cardID}/card" GetCard;
     Delete "/cards/{cardID}/card" DeleteCard;
     Put "/cards/{cardID}/lock" LockCard;
     Put "/cards/{cardID}/unlock" UnlockCard;
     Put "/cards/{cardID}/block" BlockCard;
     Get "/cards/{cardID}/limits" GetCardLimits;
     Put "/cards/{cardID}/limits" UpdateCardLimits;
     Post "/cards/{cardID}/limits" UpdateCardLimits;
     Post "/token/{tokenType}" GetCardToken;
     Get "/token/card-data/data" GetCardData;
     Get "/token/pin/data" GetCardPin;
     Post "/token/pin/data" SetCardPin;
     Get "/token/pin/public-key" GetCardPinPublicKey;
     Post "/transactions" CreateCardTransaction;
     Get "/transactions/{txID}" GetCardTransaction;
     Get "/cards/{cardID}/transactions" ListCardTransactions;
     Get "/transaction/pending-confirmations" GetPendingConfirmations;
     Post "/test/3ds/challenge" CreateThreeDSChallenge;
     Post "/transaction/{txID}" ConfirmThreeDS;
     Get "/card-applications/{appID}/card-products" GetCardApplicationProducts;
     Post "/cards/{cardID}/plastic" OrderPlasticCard].

Definition setupAdminRoutes : list Route :=
  [Get "/health" HealthCheck;
   Get "/admin/fees" GetFees;
   Put "/admin/fees" SetFees;
   Get "/admin/users/{userID}/fees" GetUserFees;
   Put "/admin/users/{userID}/fees" SetUserFees;
   Delete "/admin/users/{userID}/fees" ClearUserFees;
   Put "/admin/users/{userID}/kyc-state" SetUserKYCStateQuiet;
   Get "/admin/users/{userID}/withdrawals" ListWithdrawals;
   Post "/admin/withdrawals/{txID}/trigger-event" TriggerWithdrawalEvent;
   Get "/admin/card-transactions/scenarios" ListCardTxScenarios;
   Post "/admin/card-transactions/simulate" SimulateCardTransaction;
   Post "/admin/card-transactions/{txID}/status" SetCardTransactionStatus;
   Post "/test-webhook" TestWebhookSink;
   Get "/admin/received-webhooks" ListReceivedWebhooks;
   Delete "/admin/received-webhooks" ClearReceivedWebhooks]
  ++ under "/ui"
    [Get "/" UIDashboard;
     Get "/users/{userID}" UIUserDetail;
     Get "/actions/kyc" UIKYCForm;
     Post "/actions/kyc" UIKYCAction;
     Get "/actions/card-transaction" UICardTxForm;
     Post "/actions/card-transaction" UICardTxAction;
     Post "/actions/withdrawal/settle" UIWithdrawalSettle].

(** ** Patterns

    A placeholder in braces stands for the text up to the next slash. *)
Definition Params : Type := list (string * string).
Definition placeholder (segment : string) : option string :=
  match chars segment with
  | "{"%char :: rest =>
      match rev rest with "}"%char :: name => Some (of_chars (rev name)) | _ => None end
  | _ => None
  end.
Fixpoint bind_segments (pattern path : list string) : option Params :=
  match pattern, path with
  | [], [] => Some []
  | p :: pattern, s :: path =>
      match placeholder p with
      | Some name => cons (name, s) <$> bind_segments pattern path
      | None => if p =?s s then bind_segments pattern path else None
      end
  | _, _ => None
  end.
Definition match_pattern (pattern path : string) : option Params :=
  bind_segments (Split "/" pattern) (Split "/" path).

(** What the program relies on of the router: a request goes to a route of the
    table with its method and a pattern that matches its path, and to one
    whenever there is one whose placeholders stand for some text.  It has an
    answer of its own for a path it knows under other methods. *)
Class Mux := {
  mux_find : list Route → string → string → option (Route * Params);
  mux_sound table method path r ps :
    mux_find table method path = Some (r, ps) →
    r ∈ table ∧ Method r = method ∧ match_pattern (Pattern r) path = Some ps;
  mux_complete table method path r ps :
    r ∈ table → Method r = method → match_pattern (Pattern r) path = Some ps →
    Forall (λ kv, kv.2 ≠ "") ps → is_Some (mux_find table method path);
  mux_not_allowed : list Route → string → option Response }.

(** ** Requests *)

(** What the server reads of a request, and the path as it was sent where that
    is not the escaped form of the path. *)
Record HttpRequest := mkRequest { incoming : IncomingRequest; in_rawPath : string }.
Definition sent_to (target : string) (r : HttpRequest) : Prop :=
  setPath target = Some (in_path (incoming r), in_rawPath r).

(** The router goes by the path as it was sent. *)
Definition route_path (r : HttpRequest) : string :=
  let path := if in_rawPath r =?s "" then in_path (incoming r) else in_rawPath r in
  if path =?s "" then "/" else path.

Inductive Served :=
| Refused (answer : Response)
| Dispatched (handler : Handler) (params : Params)
| NoRoute.

Section Listeners.
Context `{Mux}.

Definition dispatch (table : list Route) (r : HttpRequest) : Served :=
  match mux_find table (in_method (incoming r)) (route_path r) with
  | Some (route, params) => Dispatched (To route) params
  | None => NoRoute
  end.

(** The application port: the middleware, when it is configured, then the
    routes.  The admin port has no middleware of its own. *)
Definition application (cfg : Config) (r : HttpRequest) : Served :=
  if EnforceAuthentication cfg then
    match Middleware (ValidCredentials cfg) (incoming r) with
    | Some answer => Refused answer
    | None => dispatch setupRoutes r
    end
  else dispatch setupRoutes r.
Definition admin (r : HttpRequest) : Served := dispatch setupAdminRoutes r.
End Listeners.

(** ** Start-up

    The choices of [main] from the configuration and from what the logger's
    set-up, the connections and the seeding answer; [Err] is a fatal exit. *)
Inductive StorageChoice := RedisStorage | MemoryStore.
Inductive QueueChoice := StorageQueue | DedicatedQueue | NoQueue.
Record Deployment := mkDeployment {
  dep_storage : StorageChoice;
  dep_queue : QueueChoice;
  dep_worker : bool;
  dep_authenticated : bool;
  dep_port : string;
  dep_adminPort : string }.

Definition startup (cfg : Config) (logger redisStorage seeded redisClient : result unit) :
    result Deployment :=
  let storage :=
    match logger with Err _ => Err "failed to initialize logger" | Ok _ =>
    if UseRedis cfg then
      match redisStorage with
      | Err _ => Err "failed to connect to redis"
      | Ok _ => Ok RedisStorage
      end
    else Ok MemoryStore
    end in
  match storage with
  | Err e => Err e
  | Ok storage =>
      match seeded with
      | Err _ => Err "failed to seed test users"
      | Ok _ =>
          let queue :=
            if UseRedis cfg then Ok StorageQueue
            else if negb (RedisURL cfg =?s "") then
              match redisClient with
              | Err _ => Err "failed to connect to redis for webhook queue"
              | Ok _ => Ok DedicatedQueue
              end
            else Ok NoQueue in
          match queue with
          | Err e => Err e
          | Ok queue =>
              let worker := match queue with NoQueue => false | _ => true end in
              if AdminPort cfg =?s Port cfg
              then Err "admin port must differ from the application port"
              else Ok (mkDeployment storage queue worker (EnforceAuthentication cfg)
                         (Port cfg) (AdminPort cfg))
          end
      end
  end.
