(* ===== verification/Requests.v ===== *)
(** * What a handler reads of a request

    Bodies: [decodeJSON] reads the first JSON value of the body into the
    request type of the handler, whose codec is the table of its fields with
    the tags of the source.  Forms: the values of a URL-encoded body, of the
    query and, through a parameter, of a multipart body. *)
From S2P Require Import Prelude GoFloat GoStd Crypto GoText Urls JsonText Codec.
From S2P Require Import Stored Models Auth.
From S2P Require Identity Fees Payments CardOps CardSim.

(** ** Request types

    A pointer, a map or a flag with [omitempty] is left out when it is nil,
    empty or false. *)
Notation fld_omit empty name c p := (Field name c p (fun v r => r <| p := v |>) (fun r => empty (p r))).
Definition is_nil {A} (o : option A) : bool := match o with None => true | Some _ => false end.
Definition is_empty {A} (l : list A) : bool := match l with [] => true | _ => false end.

(** [map[string]interface{}]: a number past the largest is an error; a map that
    is there is added to. *)
Definition c_map : codec (list (string * json)) := {|
  enc l := sort_maps (JObj l);
  can_encode l := marshals (JObj l);
  dec j old :=
    match as_interface j with
    | JObj fs => if forallb (fun kv => marshals kv.2) fs
                 then Some (fold_left (fun acc kv => assoc_set kv.1 kv.2 acc) fs old) else None
    | JNull => Some []
    | _ => None
    end;
  zero := [];
  codec_ok l := false |}.

Definition fields_CreateManagedUserRequest : list (field CreateManagedUserRequest) := [
  fld "email" c_string CreateManagedUserRequest_Email].
Definition c_CreateManagedUserRequest :=
  c_struct fields_CreateManagedUserRequest zero_CreateManagedUserRequest.

Definition fields_UpdateEmailRequest : list (field UpdateEmailRequest) := [
  fld "email" c_string UpdateEmailRequest_Email;
  fld "new_email" c_string UpdateEmailRequest_NewEmail].
Definition c_UpdateEmailRequest := c_struct fields_UpdateEmailRequest zero_UpdateEmailRequest.

Definition fields_UpdateKYCStateRequest : list (field UpdateKYCStateRequest) := [
  fld "state" c_string UpdateKYCStateRequest_State;
  fld "risk_level" c_string UpdateKYCStateRequest_RiskLevel].
Definition c_UpdateKYCStateRequest := c_struct fields_UpdateKYCStateRequest zero_UpdateKYCStateRequest.

Definition fields_CreateWalletRequest : list (field CreateWalletRequest) := [
  fld "user_id" c_string CreateWalletRequest_UserID;
  fld "name" c_string CreateWalletRequest_Name;
  fld "type" c_int CreateWalletRequest_Type;
  fld "network" c_int CreateWalletRequest_Network].
Definition c_CreateWalletRequest := c_struct fields_CreateWalletRequest zero_CreateWalletRequest.

Definition fields_CreateTransactionRequest : list (field CreateTransactionRequest) := [
  fld "user_id" c_string CreateTransactionRequest_UserID;
  fld "uid" c_string CreateTransactionRequest_UID;
  fld "amount" c_float CreateTransactionRequest_Amount;
  fld "currency" c_string CreateTransactionRequest_Currency;
  fld "vault_uuid" c_string CreateTransactionRequest_VaultUUID;
  fld "sending_address" c_string CreateTransactionRequest_SendingAddress;
  fld "receiving_address" c_string CreateTransactionRequest_ReceivingAddress;
  fld "type" c_int CreateTransactionRequest_Type;
  fld "deposit_type" c_string CreateTransactionRequest_DepositType].
Definition c_CreateTransactionRequest :=
  c_struct fields_CreateTransactionRequest zero_CreateTransactionRequest.

Definition fields_UpdateOrganizationConfigurationRequest :
    list (field UpdateOrganizationConfigurationRequest) := [
  fld "apiBaseUrl" c_string UpdateOrganizationConfigurationRequest_APIBaseURL;
  fld "type2fa" c_string UpdateOrganizationConfigurationRequest_TwoFAType].
Definition c_UpdateOrganizationConfigurationRequest :=
  c_struct fields_UpdateOrganizationConfigurationRequest zero_UpdateOrganizationConfigurationRequest.

Definition fields_NewCardArgs : list (field NewCardArgs) := [
  fld "productCode" c_string NewCardArgs_ProductCode].
Definition c_NewCardArgs := c_struct fields_NewCardArgs zero_NewCardArgs.
Definition fields_CardAccount : list (field CardAccount) := [
  fld "productCode" c_string CardAccount_ProductCode;
  fld "currency" c_string CardAccount_Currency;
  fld "card" c_NewCardArgs CardAccount_Card].
Definition c_CardAccount := c_struct fields_CardAccount zero_CardAccount.
Definition fields_CreateCustomerDeliveryAddressArgs :
    list (field CreateCustomerDeliveryAddressArgs) := [
  fld "type" c_string CreateCustomerDeliveryAddressArgs_Type;
  fld "countryCode" c_string CreateCustomerDeliveryAddressArgs_CountryCode;
  fld "line1" c_string CreateCustomerDeliveryAddressArgs_Line1;
  fld_omit is_nil "line2" (c_ptr c_string) CreateCustomerDeliveryAddressArgs_Line2;
  fld_omit is_nil "line3" (c_ptr c_string) CreateCustomerDeliveryAddressArgs_Line3;
  fld "city" c_string CreateCustomerDeliveryAddressArgs_City;
  fld_omit is_nil "postOffice" (c_ptr c_string) CreateCustomerDeliveryAddressArgs_PostOffice;
  fld "zipCode" c_string CreateCustomerDeliveryAddressArgs_ZipCode;
  fld "reason" c_string CreateCustomerDeliveryAddressArgs_Reason].
Definition c_CreateCustomerDeliveryAddressArgs :=
  c_struct fields_CreateCustomerDeliveryAddressArgs zero_CreateCustomerDeliveryAddressArgs.
Definition fields_CreateCustomerAndCardArgs : list (field CreateCustomerAndCardArgs) := [
  fld "walletAddress" c_string CreateCustomerAndCardArgs_WalletAddress;
  fld "account" c_CardAccount CreateCustomerAndCardArgs_Account;
  fld_omit is_nil "delivery" (c_ptr c_CreateCustomerDeliveryAddressArgs)
    CreateCustomerAndCardArgs_Delivery;
  fld "nameOnCard" c_string CreateCustomerAndCardArgs_NameOnCard].
Definition c_CreateCustomerAndCardArgs :=
  c_struct fields_CreateCustomerAndCardArgs zero_CreateCustomerAndCardArgs.

Definition fields_GetCardTokenArgs : list (field GetCardTokenArgs) := [
  fld "cardId" c_string GetCardTokenArgs_CardID;
  fld_omit is_nil "publicKey" (c_ptr c_string) GetCardTokenArgs_PublicKey].
Definition c_GetCardTokenArgs := c_struct fields_GetCardTokenArgs zero_GetCardTokenArgs.

Definition fields_CreateCardTransactionArgs : list (field CreateCardTransactionArgs) := [
  fld "cardId" c_string CreateCardTransactionArgs_CardID;
  fld "cardGuid" c_string CreateCardTransactionArgs_CardGUID;
  fld "amount" c_string CreateCardTransactionArgs_Amount;
  fld "currency" c_string CreateCardTransactionArgs_Currency;
  fld "type" c_int CreateCardTransactionArgs_Type;
  fld_omit is_nil "merchantName" (c_ptr c_string) CreateCardTransactionArgs_MerchantName;
  fld_omit is_nil "merchantCity" (c_ptr c_string) CreateCardTransactionArgs_MerchantCity;
  fld_omit is_nil "merchantCountry" (c_ptr c_string) CreateCardTransactionArgs_MerchantCountry].
Definition c_CreateCardTransactionArgs :=
  c_struct fields_CreateCardTransactionArgs zero_CreateCardTransactionArgs.

(** [TransactionID] has the tag "-": it is no member. *)
Definition fields_ThreeDSPaymentConfirmationArgs : list (field ThreeDSPaymentConfirmationArgs) := [
  fld "confirmed" c_bool ThreeDSPaymentConfirmationArgs_Confirmed;
  fld "authMethod" c_string ThreeDSPaymentConfirmationArgs_AuthMethod].
Definition c_ThreeDSPaymentConfirmationArgs :=
  c_struct fields_ThreeDSPaymentConfirmationArgs zero_ThreeDSPaymentConfirmationArgs.

(** The requests of anonymous struct types. *)
Record StatusRequest := mkStatusRequest { req_Status : string }.
#[export] Instance eta_StatusRequest : Eta StatusRequest := fun r => mkStatusRequest (req_Status r).
Definition c_StatusRequest := c_struct [fld "status" c_string req_Status] (mkStatusRequest "").

Record EventRequest := mkEventRequest { req_Event : string }.
#[export] Instance eta_EventRequest : Eta EventRequest := fun r => mkEventRequest (req_Event r).
Definition c_EventRequest := c_struct [fld "event" c_string req_Event] (mkEventRequest "").

Record CypherRequest := mkCypherRequest { req_Cypher : string }.
#[export] Instance eta_CypherRequest : Eta CypherRequest := fun r => mkCypherRequest (req_Cypher r).
Definition c_CypherRequest := c_struct [fld "cypher" c_string req_Cypher] (mkCypherRequest "").

Record RiskLevelRequest := mkRiskLevelRequest { req_RiskLevel : string; req_Reason : string }.
#[export] Instance eta_RiskLevelRequest : Eta RiskLevelRequest := fun r =>
  mkRiskLevelRequest (req_RiskLevel r) (req_Reason r).
Definition c_RiskLevelRequest :=
  c_struct [fld "risk_level" c_string req_RiskLevel; fld "reason" c_string req_Reason]
    (mkRiskLevelRequest "" "").

Record KYCStateRequest := mkKYCStateRequest { req_KYCState : string; req_KYCRiskLevel : string }.
#[export] Instance eta_KYCStateRequest : Eta KYCStateRequest := fun r =>
  mkKYCStateRequest (req_KYCState r) (req_KYCRiskLevel r).
Definition c_KYCStateRequest :=
  c_struct [fld "kyc_state" c_string req_KYCState; fld_omitempty "risk_level" req_KYCRiskLevel]
    (mkKYCStateRequest "" "").

#[export] Instance eta_feeResponse : Eta Fees.feeResponse := fun r =>
  Fees.mkFeeResponse (Fees.DepositFeePercentage r) (Fees.WithdrawalFeePercentage r).
Definition c_feeResponse :=
  c_struct [fld "deposit_fee_percentage" c_float Fees.DepositFeePercentage;
            fld "withdrawal_fee_percentage" c_float Fees.WithdrawalFeePercentage]
    (Fees.mkFeeResponse fzero fzero).

#[export] Instance eta_feeUpdateRequest : Eta Fees.feeUpdateRequest := fun r =>
  Fees.mkFeeUpdate (Fees.UpdateDepositFeePercentage r) (Fees.UpdateWithdrawalFeePercentage r).
Definition c_feeUpdateRequest :=
  c_struct [fld "deposit_fee_percentage" (c_ptr c_float) Fees.UpdateDepositFeePercentage;
            fld "withdrawal_fee_percentage" (c_ptr c_float) Fees.UpdateWithdrawalFeePercentage]
    (Fees.mkFeeUpdate None None).

#[export] Instance eta_ChallengeRequest : Eta CardOps.ChallengeRequest := fun r =>
  CardOps.mkChallengeRequest (CardOps.cr_CardID r) (CardOps.cr_UserID r) (CardOps.cr_MerchantName r)
    (CardOps.cr_PurchaseAmount r) (CardOps.cr_PurchaseCurrency r).
Definition c_ChallengeRequest :=
  c_struct [fld "cardId" c_string CardOps.cr_CardID; fld "userId" c_string CardOps.cr_UserID;
            fld "merchantName" c_string CardOps.cr_MerchantName;
            fld "purchaseAmount" c_string CardOps.cr_PurchaseAmount;
            fld "purchaseCurrency" c_string CardOps.cr_PurchaseCurrency]
    (CardOps.mkChallengeRequest "" "" "" "" "").

#[export] Instance eta_CardTxNotification : Eta CardSim.CardTxNotification := fun r =>
  CardSim.mkCardTxNotification (CardSim.Title r) (CardSim.Body r).
Definition c_CardTxNotification :=
  c_struct [fld "title" c_string CardSim.Title; fld "body" c_string CardSim.Body]
    (CardSim.mkCardTxNotification "" "").
#[local] Existing Instance CardSim.eta_SimulateRequest.
Definition c_SimulateCardTransactionRequest :=
  c_struct [fld "userId" c_string CardSim.UserID; fld "cardId" c_string CardSim.CardID;
            fld "scenario" c_string CardSim.Scenario;
            fld_omit is_empty "overrides" c_map CardSim.Overrides;
            fld_omitempty "event" CardSim.Event;
            fld_omit is_nil "notification" (c_ptr c_CardTxNotification) CardSim.Notification]
    (CardSim.mkSimulateRequest "" "" "" [] "" None).

#[export] Instance eta_TransactionRequest : Eta Payments.TransactionRequest := fun r =>
  Payments.mkTransactionRequest (Payments.Amount r) (Payments.Currency r) (Payments.TriggerSCA r)
    (Payments.TOTPCode r).
Definition fields_TransactionRequest : list (field Payments.TransactionRequest) := [
  fld "amount" c_string Payments.Amount;
  fld "currency" c_string Payments.Currency;
  fld_omit negb "trigger_sca" c_bool Payments.TriggerSCA;
  fld_omitempty "totp_code" Payments.TOTPCode].

(** ** Bodies *)

(** [Decoder.Decode] reads one value and leaves what follows it. *)
Definition first_value (text : string) : option json :=
  let l := chars text in fst <$> parse_value (value_fuel l) 0 l.
Definition decodeJSON {T} (c : codec T) (body : result string) : option T :=
  match body with
  | Ok text => j ← first_value text; dec c j (zero c)
  | Err _ => None
  end.

(** [json.Unmarshal] whose error is only logged: a member of the wrong type is
    skipped, the others are set. *)
Fixpoint dec_lenient {R} (fs : list (field R)) (members : list (string * json)) (r : R) : R :=
  match members with
  | [] => r
  | (name, j) :: members =>
      dec_lenient fs members
        (match find_field name fs with Some f => default r (dec_field f j r) | None => r end)
  end.
Definition transaction_request (body : result string) : Payments.TransactionRequest :=
  match body with
  | Ok text => match parse_json text with
               | Some (JObj members) =>
                   dec_lenient fields_TransactionRequest members Payments.zero_TransactionRequest
               | _ => Payments.zero_TransactionRequest
               end
  | Err _ => Payments.zero_TransactionRequest
  end.

(** The payload the webhook sink records: the whole body as a map. *)
Definition sink_payload (body : result string) : option (list (string * json)) :=
  match body with
  | Ok text => match parse_json text with
               | Some (JObj members) => dec c_map (JObj members) []
               | _ => None
               end
  | Err _ => None
  end.

(** ** Forms

    [FormValue] looks at the URL-encoded body of a [POST], [PUT] or [PATCH],
    then at the query, then at the values of a multipart body.  The type of
    the content is the text before its parameters. *)
Definition media_type (contentType : string) : string :=
  ToLower (TrimSpace (Cut ";" contentType).1).
Definition has_body_form (method : string) : bool :=
  (method =?s "POST") || (method =?s "PUT") || (method =?s "PATCH").

Section Forms.
(** The values of a multipart body with a given content type; none when it is
    malformed. *)
Context (multipart : string → string → list (string * string)).

Definition form_values (r : IncomingRequest) : list (string * string) :=
  let contentType := in_header r "Content-Type" in
  let body := match in_body r with Ok text => text | Err _ => "" end in
  (if has_body_form (in_method r) && (media_type contentType =?s "application/x-www-form-urlencoded")
   then Query body else [])
  ++ Query (in_rawQuery r)
  ++ (if media_type contentType =?s "multipart/form-data" then multipart contentType body else []).
End Forms.
