(* ===== verification/Server.v ===== *)
(** * The service as one program

    What each handler name of the routing tables runs, with the placeholders,
    query parameters, headers, form values and the body it reads, and what a
    listener answers to a request.  A program of the service runs over the
    process: the world and the service's key pair. *)
From S2P Require Import Prelude GoFloat GoStd GoText Urls Models Config World Api Auth CardTokens.
From S2P Require Import Stored Codec Requests Routes.
From S2P Require Identity Core Session Rates Sink Statements Cards CardOps Withdrawals Payments.
From S2P Require Fees CardScenarios CardSim Ui.
From S2P Require Storage.

Section Server.
Context {S : Type} `{Env} `{!Storage.Storage S} `{Rsa} `{Mux}.
Context (cardScenarioIndex : list CardScenarios.CardTxScenario) (file_exists : string → bool).
Context (multipart : string → string → list (string * string)).

(** The placeholders each handler reads ([chi.URLParam]). *)
Definition reads (h : Handler) : list string :=
  match h with
  | UpdateOrganizationConfiguration => ["organizationID"]
  | GetUser | GetUserWallets | CreateWallet | UIUserDetail
  | GetUserFees | SetUserFees | ClearUserFees | SetUserKYCStateQuiet | ListWithdrawals => ["userID"]
  | StartKYC | UpdateKYCState | OverrideRiskLevel => ["userID"; "gatewayID"]
  | GetWallet | GetWalletBalance => ["walletID"]
  | GetTransaction | GetCardTransaction | ConfirmThreeDS
  | TriggerWithdrawalEvent | SetCardTransactionStatus => ["txID"]
  | ListGatewayTransactions => ["gatewayID"]
  | GetCardLimits | UpdateCardLimits | GetCard | DeleteCard | LockCard | UnlockCard | BlockCard
  | ListCardTransactions | OrderPlasticCard => ["cardID"]
  | GetCardApplicationProducts => ["appID"]
  | GetAccountConfirmation => ["walletAddress"]
  | GetAccountStatement => ["walletAddress"; "year"; "month"]
  | GetTransferConfirmation => ["transactionUUID"]
  | CreateCustomerAddress | GetCustomerAddresses | ListCards => ["customerID"]
  | OrderAdditionalCard => ["accountID"]
  | GetCardToken => ["tokenType"]
  | _ => []
  end.

Section Request.
Context (r : HttpRequest) (ps : Params).
Definition param (k : string) : string := default "" (assoc k ps).
Definition query (k : string) : string := Query_Get (in_rawQuery (incoming r)) k.
Definition header (k : string) : string := in_header (incoming r) k.
Definition form : list (string * string) := form_values multipart (incoming r).
Definition form_field (k : string) : string := Identity.FormValue k form.
Abbreviation body := (in_body (incoming r)).
Abbreviation W m := (in_world (S := S) m).
Abbreviation managed := "x-gatehub-managed-user-uuid".

(** What a handler runs for the request. *)
Definition handle (h : Handler) : prog (Process S) Response :=
  match h with
  | RootHandler => W (Payments.RootHandler (query "paymentType") (query "bearer") (query "user_id"))
  | TransactionCompleteHandler =>
      W (Payments.TransactionCompleteHandler (in_method (incoming r)) (query "paymentType")
          (query "bearer") (header "Authorization") (transaction_request body))
  | HealthCheck => W Payments.HealthCheck
  | GetUserCurrencies => W (Core.GetUserCurrencies (query "bearer") (header "Authorization"))
  | CreateToken => W (Session.CreateToken (header managed) (header "managedUserUuid"))
  | CreateManagedUser => W (Session.CreateManagedUser (decodeJSON c_CreateManagedUserRequest body))
  | GetManagedUser => W (Session.GetManagedUser (query "email"))
  | UpdateManagedUserEmail =>
      W (Session.UpdateManagedUserEmail (decodeJSON c_UpdateEmailRequest body))
  | UpdateOrganizationConfiguration =>
      W (Session.UpdateOrganizationConfiguration (param "organizationID")
         (decodeJSON c_UpdateOrganizationConfigurationRequest body))
  | GetUser => W (Identity.GetUser (param "userID"))
  | StartKYC => W (Identity.StartKYC (param "userID") (param "gatewayID"))
  | UpdateKYCState =>
      W (Identity.UpdateKYCState (param "userID") (param "gatewayID")
         (decodeJSON c_UpdateKYCStateRequest body))
  | OverrideRiskLevel =>
      W (Identity.OverrideRiskLevel (param "userID") (param "gatewayID")
         (req_RiskLevel <$> decodeJSON c_RiskLevelRequest body))
  | KYCIframe =>
      W (Identity.KYCIframe file_exists (query "bearer") (query "token") (query "user_id"))
  | KYCIframeSubmit => W (Identity.KYCIframeSubmit (Ok form))
  | GetUserWallets => W (Core.GetUserWallets (param "userID"))
  | CreateWallet => W (Core.CreateWallet (param "userID") (decodeJSON c_CreateWalletRequest body))
  | GetWallet => W (Core.GetWallet (param "walletID") (param "address"))
  | GetWalletBalance => W (Core.GetWalletBalance (param "walletID") (param "address"))
  | CreateTransaction =>
      W (Core.CreateTransaction (header managed) (decodeJSON c_CreateTransactionRequest body))
  | GetTransaction => W (Core.GetTransaction (param "txID"))
  | ListGatewayTransactions => W Core.ListGatewayTransactions
  | GetCardLimits => W (CardOps.GetCardLimits (param "cardID"))
  | UpdateCardLimits =>
      W (CardOps.UpdateCardLimits (param "cardID") (decodeJSON (c_slice c_CardLimit) body))
  | GetCardApplicationProducts => W CardOps.GetCardApplicationProducts
  | GetAccountConfirmation => W (Statements.GetAccountConfirmation (param "walletAddress"))
  | GetAccountStatement =>
      W (Statements.GetAccountStatement (param "walletAddress") (param "year") (param "month"))
  | GetTransferConfirmation => W (Statements.GetTransferConfirmation (param "transactionUUID"))
  | GetCurrentRates => W (Rates.GetCurrentRates (query "counter"))
  | GetVaults => W Rates.GetVaults
  | CreateCustomer =>
      W (Cards.CreateCustomer (header managed) (decodeJSON c_CreateCustomerAndCardArgs body))
  | CreateManagedCustomer =>
      W (Cards.CreateManagedCustomer (header managed) (decodeJSON c_CreateCustomerAndCardArgs body))
  | CreateCustomerAddress =>
      W (CardOps.CreateCustomerAddress (param "customerID") (decodeJSON c_map body))
  | GetCustomerAddresses => W (CardOps.GetCustomerAddresses (param "customerID"))
  | OrderAdditionalCard => W (CardOps.OrderAdditionalCard (param "accountID"))
  | ListCards => W (Cards.ListCards (param "customerID"))
  | CreateCard => W Cards.CreateCard
  | GetCard => W (Cards.GetCard (param "cardID"))
  | DeleteCard => W (Cards.DeleteCard (param "cardID"))
  | LockCard => W (Cards.LockCard (param "cardID") (query "reasonCode"))
  | UnlockCard => W (Cards.UnlockCard (param "cardID"))
  | BlockCard => W (Cards.BlockCard (param "cardID") (query "reasonCode"))
  | GetCardToken =>
      W (CardTokens.GetCardToken (param "tokenType") (decodeJSON c_GetCardTokenArgs body))
  | GetCardData => W (CardTokens.GetCardData (header "Authorization"))
  | GetCardPin => W (CardTokens.GetCardPin (header "Authorization"))
  | SetCardPin =>
      CardTokens.SetCardPin (header "Authorization") (req_Cypher <$> decodeJSON c_CypherRequest body)
  | GetCardPinPublicKey => CardTokens.GetCardPinPublicKey
  | CreateCardTransaction =>
      W (CardOps.CreateCardTransaction (decodeJSON c_CreateCardTransactionArgs body))
  | GetCardTransaction => W (CardOps.GetCardTransaction (param "txID"))
  | ListCardTransactions =>
      W (CardOps.ListCardTransactions (param "cardID") (query "pageNumber") (query "pageSize"))
  | GetPendingConfirmations => W (CardOps.GetPendingConfirmations (header managed))
  | CreateThreeDSChallenge =>
      W (CardOps.CreateThreeDSChallenge (decodeJSON c_ChallengeRequest body))
  | ConfirmThreeDS =>
      W (CardOps.ConfirmThreeDS (param "txID") (decodeJSON c_ThreeDSPaymentConfirmationArgs body))
  | OrderPlasticCard => W (CardOps.OrderPlasticCard (param "cardID"))
  | GetFees => W Fees.GetFees
  | SetFees => W (Fees.SetFees (decodeJSON c_feeResponse body))
  | GetUserFees => W (Fees.GetUserFees (param "userID"))
  | SetUserFees => W (Fees.SetUserFees (param "userID") (decodeJSON c_feeUpdateRequest body))
  | ClearUserFees => W (Fees.ClearUserFees (param "userID"))
  | SetUserKYCStateQuiet =>
      W (Identity.SetUserKYCStateQuiet (param "userID")
         ((fun q => (req_KYCState q, req_KYCRiskLevel q)) <$> decodeJSON c_KYCStateRequest body))
  | ListWithdrawals => W (Withdrawals.ListWithdrawals (param "userID") (query "status"))
  | TriggerWithdrawalEvent =>
      W (Withdrawals.TriggerWithdrawalEvent (param "txID")
         (req_Event <$> decodeJSON c_EventRequest body))
  | ListCardTxScenarios => W (CardSim.ListCardTxScenarios cardScenarioIndex)
  | SimulateCardTransaction =>
      W (CardSim.SimulateCardTransaction cardScenarioIndex
         (decodeJSON c_SimulateCardTransactionRequest body))
  | SetCardTransactionStatus =>
      W (CardSim.SetCardTransactionStatus (param "txID")
         (req_Status <$> decodeJSON c_StatusRequest body))
  | TestWebhookSink =>
      W (Sink.TestWebhookSink (header "X-GH-Webhook-Signature") body (sink_payload body))
  | ListReceivedWebhooks => W (Sink.ListReceivedWebhooks (query "event") (query "user"))
  | ClearReceivedWebhooks => W Sink.ClearReceivedWebhooks
  | UIDashboard => W (Ui.UIDashboard (query "flash") (query "error"))
  | UIUserDetail => W (Ui.UIUserDetail (param "userID") (query "flash") (query "error"))
  | UIKYCForm => W (Ui.UIKYCForm (query "userID") (query "flash") (query "error"))
  | UIKYCAction => W (Ui.UIKYCAction (form_field "userID") (form_field "outcome") (form_field "message"))
  | UICardTxForm =>
      W (Ui.UICardTxForm cardScenarioIndex (query "userID") (query "cardID") (query "flash")
          (query "error"))
  | UICardTxAction =>
      W (Ui.UICardTxAction cardScenarioIndex (form_field "userID") (form_field "cardID") (form_field "scenario")
          (form_field "amount") (form_field "merchantName") (form_field "event"))
  | UIWithdrawalSettle => W (Ui.UIWithdrawalSettle (form_field "userID") (form_field "txID") (form_field "event"))
  end.
End Request.

Definition StatusMethodNotAllowed : Z := 405.

(** The two listeners: a refusal and an unknown route are answered at once. *)
Inductive Listener := Application | Admin.
Definition decided (cfg : Config) (l : Listener) (r : HttpRequest) : Served :=
  match l with Application => application cfg r | Admin => admin r end.
Definition no_route (l : Listener) (r : HttpRequest) : Response :=
  match l with
  | Application =>
      match mux_not_allowed setupRoutes (route_path r) with
      | Some _ => http_Error "Method Not Allowed" StatusMethodNotAllowed
      | None => http_Error "404 page not found" StatusNotFound
      end
  | Admin =>
      match mux_not_allowed setupAdminRoutes (route_path r) with
      | Some answer => answer
      | None => http_Error "404 page not found" StatusNotFound
      end
  end.
Definition respond (cfg : Config) (l : Listener) (r : HttpRequest) : prog (Process S) Response :=
  match decided cfg l r with
  | Refused answer => mret answer
  | Dispatched h ps => handle r ps h
  | NoRoute => mret (no_route l r)
  end.
End Server.
