(* ===== verification/Boot.v ===== *)
(** * From the environment to a running process

    The logger's two sinks ([internal/logger/logger.go]), the handler's
    construction ([NewHandlerWithConfig]) and what [main] builds before it
    listens: configuration, storage, seed data, queue, manager and handler. *)
From S2P Require Import Prelude GoFloat GoStd Consts Models Config World Fees Webhook Seeder.
From S2P Require Import CardTokens Routes.
From S2P Require Storage.

(** ** The logger

    A level is zap's, a number; below [ErrorLevel] a message goes to standard
    output, unless it is under the configured minimum. *)
Module Logger.
Definition ErrorLevel : Z := 2.
Inductive Sink := Stdout | Stderr.
Record Logger := mkLogger { minLevel : option Z }.

Definition stdoutEnabled (l : Logger) (lvl : Z) : bool :=
  if ErrorLevel <=? lvl then false
  else match minLevel l with
       | None => true
       | Some m => m <=? lvl
       end.
Definition stderrEnabled (l : Logger) (lvl : Z) : bool := ErrorLevel <=? lvl.

(** The sinks of the tee a message of the level is written to. *)
Definition written (l : Logger) (lvl : Z) : list Sink :=
  (if stdoutEnabled l lvl then [Stdout] else []) ++ (if stderrEnabled l lvl then [Stderr] else []).

Definition buildLogger (m : option Z) : Logger := mkLogger m.
Definition init : Logger := buildLogger None.

(** [UnmarshalText] is zap's reading of a level's name; what does not parse
    leaves the logger as it was. *)
Definition Initialize (UnmarshalText : string → result Z) (logLevel : string) (l : Logger) :
    result unit * Logger :=
  match UnmarshalText logLevel with
  | Err e => (Err ("invalid log level: " +:+ e), l)
  | Ok level => (Ok tt, buildLogger (Some level))
  end.
End Logger.

(** ** The process before its first request *)
Section Boot.
Context {S : Type} `{Env} `{!Storage.Storage S} `{Rsa}.
Context (environ : gmap string string) (random : option (list Z)).

(** Before the handler exists nothing but the storage is read or written. *)
Definition blank (cfg : Config) (store : S) : World S :=
  mkWorld store empty_heap cfg None NewFeeConfig ∅ [] [] [] 0.

(** A missing configuration is loaded from the environment. *)
Definition NewHandlerWithConfig (cfg : option Config) (manager : Manager) (w : World S) : World S :=
  w <| w_config := match cfg with Some cfg => cfg | None => Load environ random end |>
    <| w_manager := Some manager |> <| w_fees := NewFeeConfig |> <| w_tokens := ∅ |>.
Definition NewHandler : Manager → World S → World S := NewHandlerWithConfig None.

(** What [main] has built when it starts to listen, on the storage it opened;
    what it could not connect to or parse ends it. *)
Definition boot (UnmarshalText : string → result Z) (store : S)
    (redisStorage redisClient : result unit) :
    result (Logger.Logger * Deployment * Process S) :=
  let cfg := Load environ random in
  let '(initialized, logger) := Logger.Initialize UnmarshalText (LogLevel cfg) Logger.init in
  let '(outcome, w) := SeedTestUsersWithOrgID (DefaultOrganizationID cfg) (blank cfg store) in
  match outcome with
  | Panic e => Err e
  | Ret seeded =>
      match startup cfg initialized redisStorage seeded redisClient with
      | Err e => Err e
      | Ok deployment =>
          let webhookQueue :=
            match dep_queue deployment with
            | NoQueue => None
            | StorageQueue | DedicatedQueue => Some (NewQueue (WebhookMinDelaySec cfg))
            end in
          let webhookManager :=
            NewManager (WebhookURL cfg) (WebhookSecret cfg) webhookQueue (DefaultOrganizationID cfg) in
          Ok (logger, deployment,
              mkProcess (NewHandlerWithConfig (Some cfg) webhookManager w) (mkServiceKeyPair None))
      end
  end.
End Boot.
