(* ===== verification/Demo.v ===== *)
(** * A concrete process

    An environment that keeps [EnvLaws], and a freshly started service with
    in-memory storage: what the witnesses of the theorems run on. *)
From S2P Require Import Prelude GoFloat GoStd Models Config World Memory Fees Webhook.
From S2P Require Storage.

Definition demo_uuid (k : nat) : string :=
  of_chars (chars "00000000-0000-0000-0000-"
    ++ map (fun i => if Z.testbit (Z.of_nat k) i then "1"%char else "0"%char)
         [11; 10; 9; 8; 7; 6; 5; 4; 3; 2; 1; 0]).

#[export] Instance demo_env : Env := {|
  env_now k := 1768920404 * second_ns + Z.of_nat k;
  env_uuid := demo_uuid;
  env_rand k n := Some (repeat (Z.of_nat k mod 256) n);
  env_int k m := if 0 <? m then Some (Z.of_nat k mod m) else None;
  env_order A k l := l;
  env_http k r := HttpAnswered 200 "200 OK" (Ok (JObj [("success", JBool true)])) |}.

#[export] Program Instance demo_env_laws : EnvLaws (H := demo_env).
Next Obligation. intros k. reflexivity. Qed.
Next Obligation.
  intros k n b [= <-]. split; [apply repeat_length|]. apply Forall_forall. intros x Hx.
  apply list_elem_of_In, repeat_spec in Hx as ->. apply Z.mod_pos_bound. lia.
Qed.
Next Obligation.
  intros k m v. simpl. destruct (Z.ltb_spec 0 m); [|done]. intros [= <-].
  by apply Z.mod_pos_bound.
Qed.
Next Obligation. done. Qed.
Next Obligation. intros j k Hjk. simpl. lia. Qed.

Definition demo_config : Config :=
  Load (<["MOCKGATEHUB_ASYNC_WITHDRAWALS" := "true"]> ∅) (Some (repeat 7 32)).
Definition demo_manager : Manager :=
  NewManager "http://backend/webhooks" "secret" (Some (NewQueue (f_of_Z 0))) "default-org".

Definition world_with (s : MemoryStorage) (h : Heap) : World MemoryStorage :=
  mkWorld s h demo_config (Some demo_manager) NewFeeConfig ∅ [] [] [] 0.
Definition demo_world : World MemoryStorage := world_with NewMemoryStorage empty_heap.
