(* ===== verification/Pointers.v ===== *)
(** * Pointers that are never nil

    A judgement for programs that dereference: [runs ρ h m Q] says that in every
    world whose heap holds at least what [h] holds, [m] frees nothing, does not
    panic (but for the messages [ρ] tolerates) and returns a value with [Q].
    What a storage owes its callers for their dereferences to be safe is the
    class [SafeStorage]: the pointers it returns point to objects if the ones
    it was given did.  Both storages keep it. *)
From S2P Require Import Prelude GoFloat GoStd GoText Models Config World Memory.
From S2P Require Redis Codec.
From S2P Require Storage.

(** ** The heap grows *)
Definition live (T : Type) `{!Cell T} (h : Heap) (l : loc) : Prop := is_Some (cells (T := T) h !! l).

Record grows (h h' : Heap) : Prop := {
  grows_users : dom (heap_users h) ⊆ dom (heap_users h');
  grows_customers : dom (heap_customers h) ⊆ dom (heap_customers h');
  grows_accounts : dom (heap_accounts h) ⊆ dom (heap_accounts h');
  grows_cards : dom (heap_cards h) ⊆ dom (heap_cards h');
  grows_cardtxs : dom (heap_cardtxs h) ⊆ dom (heap_cardtxs h');
  grows_txs : dom (heap_txs h) ⊆ dom (heap_txs h');
  grows_challenges : dom (heap_challenges h) ⊆ dom (heap_challenges h') }.
#[export] Instance grows_preorder : PreOrder grows.
Proof.
  split; [by split|]. intros h1 h2 h3 [] []. split; (etrans; [eassumption|done]).
Qed.

(** The objects of a type stay where they are while the heap grows. *)
Class StableCell (T : Type) `{!Cell T} := {
  live_grows : ∀ h h' l, grows h h' → live T h l → live T h' l;
  grows_cells : ∀ h m n, dom (cells (T := T) h) ⊆ dom m →
    grows h (with_cells m h) ∧ grows h (with_cells m h <| heap_next := n |>);
  cells_next : ∀ h m n, cells (T := T) (with_cells m h <| heap_next := n |>) = m }.
Ltac stable_cell :=
  split;
  [ intros h h' l [] Hl; unfold live in *; apply elem_of_dom in Hl; apply elem_of_dom;
    cbn in *; set_solver
  | intros h m n Hm; cbn in *; split; split; cbn; done
  | done ].
#[export] Instance stable_User : StableCell User.
Proof. stable_cell. Qed.
#[export] Instance stable_Customer : StableCell Customer.
Proof. stable_cell. Qed.
#[export] Instance stable_Account : StableCell Account.
Proof. stable_cell. Qed.
#[export] Instance stable_Card : StableCell Card.
Proof. stable_cell. Qed.
#[export] Instance stable_CardTransaction : StableCell CardTransaction.
Proof. stable_cell. Qed.
#[export] Instance stable_Transaction : StableCell Transaction.
Proof. stable_cell. Qed.
#[export] Instance stable_Challenge : StableCell ThreeDSChallenge.
Proof. stable_cell. Qed.

Definition all_live (T : Type) `{!Cell T} (h : Heap) (ls : list loc) : Prop := Forall (live T h) ls.
Lemma all_live_grows {T} `{StableCell T} h h' ls : grows h h' → all_live T h ls → all_live T h' ls.
Proof. intros Hg Hl. eapply Forall_impl; [exact Hl|]. intros l. by apply live_grows. Qed.

(** ** The judgement

    A storage says when its state points into a heap ([store_ok]); that stays
    so while the heap grows. *)
Class StoreOk (S : Type) := {
  store_ok : S → Heap → Prop;
  store_ok_grows : ∀ s h h', grows h h' → store_ok s h → store_ok s h' }.

(** Whether the handler's manager exists, and which panics are allowed. *)
Record Regime := mkRegime { managed : bool; may_panic : string → Prop }.

Section Judgement.
Context {S : Type} `{Env} `{!StoreOk S} (ρ : Regime).
Abbreviation M := (prog (World S)).

Definition good (w : World S) : Prop :=
  (managed ρ = true → is_Some (w_manager w)) ∧ store_ok (w_store w) (w_heap w).

Definition runs {A} (h : Heap) (m : M A) (Q : Heap → A → Prop) : Prop :=
  ∀ w, good w → grows h (w_heap w) →
    good (m w).2 ∧ grows (w_heap w) (w_heap (m w).2)
    ∧ match (m w).1 with Ret a => Q (w_heap (m w).2) a | Panic e => may_panic ρ e end.
Definition any {A} : Heap → A → Prop := λ _ _, True.

Lemma runs_bind {A B} h (m : M A) (k : A → M B) Q R :
  runs h m Q → (∀ h' a, grows h h' → Q h' a → runs h' (k a) R) → runs h (m ≫= k) R.
Proof.
  intros Hm Hk w Hw Hh. rw run_bind. destruct (Hm w Hw Hh) as (Hw1 & Hg & Ha).
  destruct (m w) as [[a|e] w1]; cbn in *; [|done].
  destruct (Hk (w_heap w1) a) with w1 as (Hw2 & Hg2 & Hb); [by etrans|done..|].
  split; [done|]. split; [by etrans|done].
Qed.
Lemma runs_weaken {A} h (m : M A) (Q R : Heap → A → Prop) :
  runs h m Q → (∀ h' a, grows h h' → Q h' a → R h' a) → runs h m R.
Proof.
  intros Hm HQ w Hw Hh. destruct (Hm w Hw Hh) as (Hw1 & Hg & Ha). do 2 (split; [done|]).
  destruct (m w).1; [|done]. apply HQ; [by etrans|done].
Qed.
Lemma runs_any {A} h (m : M A) Q : runs h m Q → runs h m any.
Proof. intros Hm. by eapply runs_weaken. Qed.

Lemma runs_mret {A} h (a : A) (Q : Heap → A → Prop) : (∀ h', grows h h' → Q h' a) → runs h (mret a) Q.
Proof. intros HQ w Hw Hh. split; [done|]. split; [done|]. by apply HQ. Qed.
Lemma runs_gets {A} h (f : World S → A) : runs h (gets f) any.
Proof. by intros w Hw Hh. Qed.
Lemma runs_modify h f :
  (∀ w, (w_store (f w), w_heap (f w), w_manager (f w)) = (w_store w, w_heap w, w_manager w)) →
  runs h (modify f) any.
Proof.
  intros Hf w Hw Hh. cbn. specialize (Hf w). injection Hf as Hs Hp Hm.
  unfold good in *. by rw Hs Hp Hm.
Qed.
Lemma runs_tick h : runs h tick any.
Proof. by intros w Hw Hh. Qed.

(** A loop over a slice, for what is known of its elements ([P]) and of the
    results it keeps ([Q]) and stays true while the heap grows. *)
Lemma runs_collect {A B} h (f : A → M (option B)) (P : Heap → A → Prop) (Q : Heap → B → Prop) l :
  (∀ h h' x, grows h h' → P h x → P h' x) → (∀ h h' y, grows h h' → Q h y → Q h' y) →
  Forall (P h) l →
  (∀ h' x, grows h h' → P h' x → runs h' (f x) (λ h y, ∀ z, y = Some z → Q h z)) →
  runs h (collect f l) (λ h', Forall (Q h')).
Proof.
  intros HP HQ. revert h. induction l as [|x l IH]; intros h Hl Hf; cbn [collect].
  - apply runs_mret. intros. constructor.
  - apply Forall_cons in Hl as [Hx Hl]. eapply runs_bind; [by apply Hf|]. intros h1 y Hg Hy.
    eapply runs_bind.
    + apply IH; [by eapply Forall_impl; [exact Hl|]; intros z; apply HP|].
      intros h2 z Hg2. apply Hf. by etrans.
    + intros h2 ys Hg2 Hys. apply runs_mret. intros h3 Hg3.
      assert (Forall (Q h3) ys) by (eapply Forall_impl; [exact Hys|]; intros z; by apply HQ).
      destruct y as [y|]; [|done]. constructor; [|done].
      apply (HQ h1); [by etrans|by apply Hy].
Qed.
Lemma runs_collect_live {T B} `{StableCell T} h (f : loc → M (option B)) l :
  all_live T h l → (∀ h' x, grows h h' → live T h' x → runs h' (f x) any) → runs h (collect f l) any.
Proof.
  intros Hl Hf. eapply runs_any, (runs_collect h f (live T) any); [by apply live_grows|done|done|].
  intros h' x Hg Hx. by eapply runs_weaken; [apply Hf|].
Qed.
Lemma runs_collect_any {A B} h (f : A → M (option B)) l :
  (∀ h' x, grows h h' → runs h' (f x) any) → runs h (collect f l) any.
Proof.
  intros Hf. eapply runs_any, (runs_collect h f any any); [done|done|by apply Forall_true|].
  intros h' x Hg _. by eapply runs_weaken; [apply Hf|].
Qed.

(** Objects *)
Section Cells.
Context {T : Type} `{StableCell T}.
Lemma runs_new h (x : T) : runs h (new x) (live T).
Proof.
  intros w [Hm Hs] Hh. unfold new, heap_alloc. cbn.
  destruct (grows_cells (w_heap w) (<[heap_next (w_heap w):=x]> (cells (w_heap w)))
              (Pos.succ (heap_next (w_heap w)))) as [_ Hg]; [rw dom_insert; set_solver|].
  split; [split; [done|by eapply store_ok_grows]|]. split; [done|].
  unfold live. rw cells_next lookup_insert_eq. by eexists.
Qed.
Lemma runs_deref h l : live T h l → runs h (deref (T := T) l) any.
Proof.
  intros Hl w Hw Hh. destruct (live_grows _ _ _ Hh Hl) as [x Hx]. by rw (run_deref _ _ _ Hx).
Qed.
Lemma runs_assign h l (x : T) : live T h l → runs h (assign l x) any.
Proof.
  intros Hl w [Hm Hs] Hh. destruct (live_grows _ _ _ Hh Hl) as [y Hy]. rw (run_assign _ _ _ _ Hy). cbn.
  destruct (grows_cells (w_heap w) (<[l:=x]> (cells (w_heap w))) 1%positive) as [Hg _];
    [rw dom_insert; set_solver|].
  unfold heap_write. split; [split; [done|by eapply store_ok_grows]|]. done.
Qed.
Lemma runs_update h l (f : T → T) : live T h l → runs h (update l f) any.
Proof.
  intros Hl. eapply runs_bind; [by apply runs_deref|]. intros h' x Hg _. apply runs_assign.
  by apply (live_grows h).
Qed.
End Cells.
End Judgement.
#[export] Hint Resolve runs_gets runs_tick : runs.

(** ** The environment *)
Section Environment.
Context {S : Type} `{EnvLaws} `{!StoreOk S} (ρ : Regime).
Abbreviation M := (prog (World S)).

Lemma runs_time_Now h : runs ρ h (time_Now (S := S)) any.
Proof. by intros w Hw Hh. Qed.
Lemma runs_GenerateUUID h :
  runs ρ h (GenerateUUID (S := S)) (λ _ id, String.length id = 36%nat).
Proof. intros w Hw Hh. do 2 (split; [done|]). apply env_uuid_length. Qed.
Lemma runs_rand_Read h n : runs ρ h (rand_Read (S := S) n) any.
Proof. by intros w Hw Hh. Qed.
Lemma runs_http_Do h r : runs ρ h (http_Do (S := S) r) any.
Proof. by intros w Hw Hh. Qed.
Lemma runs_spawn h t : runs ρ h (spawn (S := S) t) any.
Proof. by apply runs_modify. Qed.
Lemma runs_range_map {A} h (m : gmap string A) (P : A → Prop) :
  map_Forall (λ _, P) m → runs ρ h (range_map (S := S) m) (λ _ l, Forall P l.*2).
Proof.
  intros Hm w Hw Hh. do 2 (split; [done|]).
  change (Forall P (env_order (string * A) (w_ticks w) (map_to_list m)).*2).
  rw env_order_perm. apply Forall_fmap, Forall_forall.
  intros [k x] Hx%elem_of_map_to_list. by eapply Hm.
Qed.
Lemma runs_slice_to h n s :
  (n <= String.length s)%nat → runs ρ h (slice_to (W := World S) n s) any.
Proof.
  intros Hn. unfold slice_to. destruct (Nat.leb_spec n (String.length s)); [by apply runs_mret|lia].
Qed.
Lemma runs_deref_all {T} `{StableCell T} h l :
  all_live T h l → runs ρ h (deref_all (S := S) (T := T) l) (λ h' out, all_live T h' out.*1).
Proof.
  intros Hl. eapply runs_weaken.
  - apply (runs_collect _ _ _ (live T) (λ h' y, live T h' y.1)); [by apply live_grows|..|exact Hl|].
    { intros h1 h2 y. by apply live_grows. }
    intros h' x Hg Hx. eapply runs_bind; [by apply runs_deref|]. intros h2 y Hg2 _.
    apply runs_mret. intros h3 Hg3 z [= <-]. cbn. apply (live_grows h'); [by etrans|done].
  - intros h' a _ Ha. by apply Forall_fmap.
Qed.
End Environment.

(** ** What a storage owes its callers *)
Definition finds (T : Type) `{!Cell T} (h : Heap) (r : result loc) : Prop :=
  match r with Ok l => live T h l | Err _ => True end.
Definition finds_all (T : Type) `{!Cell T} (h : Heap) (r : result (list loc)) : Prop :=
  match r with Ok ls => all_live T h ls | Err _ => True end.

Class SafeStorage (ρ : Regime) (S : Type) `{Env} `{!StoreOk S} `{!Storage.Storage S} := {
  CreateUser_runs h p : live User h p → runs ρ h (Storage.CreateUser p) any;
  GetUser_runs h id : runs ρ h (Storage.GetUser id) (finds User);
  GetUserByEmail_runs h email : runs ρ h (Storage.GetUserByEmail email) (finds User);
  UpdateUser_runs h p : live User h p → runs ρ h (Storage.UpdateUser p) any;
  CreateCustomer_runs h p : live Customer h p → runs ρ h (Storage.CreateCustomer p) any;
  GetCustomer_runs h id : runs ρ h (Storage.GetCustomer id) (finds Customer);
  GetCustomerBySourceID_runs h id : runs ρ h (Storage.GetCustomerBySourceID id) (finds Customer);
  UpdateCustomer_runs h p : live Customer h p → runs ρ h (Storage.UpdateCustomer p) any;
  CreateAccount_runs h p : live Account h p → runs ρ h (Storage.CreateAccount p) any;
  GetAccount_runs h id : runs ρ h (Storage.GetAccount id) (finds Account);
  UpdateAccount_runs h p : live Account h p → runs ρ h (Storage.UpdateAccount p) any;
  CreateCustomerAddress_runs h id a : runs ρ h (Storage.CreateCustomerAddress id a) any;
  GetCustomerAddresses_runs h id : runs ρ h (Storage.GetCustomerAddresses id) any;
  CreateCard_runs h p : live Card h p → runs ρ h (Storage.CreateCard p) any;
  GetCard_runs h id : runs ρ h (Storage.GetCard id) (finds Card);
  UpdateCard_runs h p : live Card h p → runs ρ h (Storage.UpdateCard p) any;
  GetCardsByCustomer_runs h id : runs ρ h (Storage.GetCardsByCustomer id) (finds_all Card);
  GetCardsByAccount_runs h id : runs ρ h (Storage.GetCardsByAccount id) (finds_all Card);
  GetCardLimits_runs h id : runs ρ h (Storage.GetCardLimits id) any;
  SetCardLimits_runs h id l : runs ρ h (Storage.SetCardLimits id l) any;
  CreateCardTransaction_runs h p :
    live CardTransaction h p → runs ρ h (Storage.CreateCardTransaction p) any;
  GetCardTransaction_runs h id : runs ρ h (Storage.GetCardTransaction id) (finds CardTransaction);
  UpdateCardTransactionStatus_runs h id s :
    runs ρ h (Storage.UpdateCardTransactionStatus id s) any;
  AddCardTransactionIndex_runs h card id : runs ρ h (Storage.AddCardTransactionIndex card id) any;
  GetCardTransactionIDs_runs h card : runs ρ h (Storage.GetCardTransactionIDs card) any;
  StoreRawCardTransaction_runs h id raw :
    as_interface raw ≠ JNull → runs ρ h (Storage.StoreRawCardTransaction id raw) any;
  GetRawCardTransaction_runs h id : runs ρ h (Storage.GetRawCardTransaction id) any;
  ListUsers_runs h : runs ρ h Storage.ListUsers (finds_all User);
  SetCardPIN_runs h card pin : runs ρ h (Storage.SetCardPIN card pin) any;
  GetCardPIN_runs h card : runs ρ h (Storage.GetCardPIN card) any;
  NextCardTransactionSeqID_runs h : runs ρ h Storage.NextCardTransactionSeqID any;
  PeekCardTransactionSeqID_runs h : runs ρ h Storage.PeekCardTransactionSeqID any;
  CreateWallet_runs h w : runs ρ h (Storage.CreateWallet w) any;
  GetWallet_runs h a : runs ρ h (Storage.GetWallet a) any;
  GetWalletsByUser_runs h u : runs ρ h (Storage.GetWalletsByUser u) any;
  CreateTransaction_runs h p : live Transaction h p → runs ρ h (Storage.CreateTransaction p) any;
  GetTransaction_runs h id : runs ρ h (Storage.GetTransaction id) (finds Transaction);
  UpdateTransactionStatus_runs h id s : runs ρ h (Storage.UpdateTransactionStatus id s) any;
  ListTransactionsByUser_runs h u :
    runs ρ h (Storage.ListTransactionsByUser u) (finds_all Transaction);
  GetBalance_runs h u c : runs ρ h (Storage.GetBalance u c) any;
  GetAllBalances_runs h u : runs ρ h (Storage.GetAllBalances u) any;
  AddBalance_runs h u c x : runs ρ h (Storage.AddBalance u c x) any;
  DeductBalance_runs h u c x : runs ρ h (Storage.DeductBalance u c x) any;
  CreateThreeDSChallenge_runs h p :
    live ThreeDSChallenge h p → runs ρ h (Storage.CreateThreeDSChallenge p) any;
  GetThreeDSChallenge_runs h id :
    runs ρ h (Storage.GetThreeDSChallenge id) (finds ThreeDSChallenge);
  GetPendingThreeDSChallenges_runs h u :
    runs ρ h (Storage.GetPendingThreeDSChallenges u) (finds_all ThreeDSChallenge);
  UpdateThreeDSChallenge_runs h p :
    live ThreeDSChallenge h p → runs ρ h (Storage.UpdateThreeDSChallenge p) any;
  GetOrganization_runs h id : runs ρ h (Storage.GetOrganization id) any;
  CreateOrganization_runs h o : runs ρ h (Storage.CreateOrganization o) any;
  UpdateOrganization_runs h o : runs ρ h (Storage.UpdateOrganization o) any }.

#[export] Hint Resolve CreateUser_runs GetUser_runs GetUserByEmail_runs UpdateUser_runs
  CreateCustomer_runs GetCustomer_runs GetCustomerBySourceID_runs UpdateCustomer_runs
  CreateAccount_runs GetAccount_runs UpdateAccount_runs CreateCustomerAddress_runs
  GetCustomerAddresses_runs CreateCard_runs GetCard_runs UpdateCard_runs GetCardsByCustomer_runs
  GetCardsByAccount_runs GetCardLimits_runs SetCardLimits_runs CreateCardTransaction_runs
  GetCardTransaction_runs UpdateCardTransactionStatus_runs AddCardTransactionIndex_runs
  GetCardTransactionIDs_runs StoreRawCardTransaction_runs GetRawCardTransaction_runs ListUsers_runs
  SetCardPIN_runs GetCardPIN_runs NextCardTransactionSeqID_runs PeekCardTransactionSeqID_runs
  CreateWallet_runs GetWallet_runs GetWalletsByUser_runs CreateTransaction_runs GetTransaction_runs
  UpdateTransactionStatus_runs ListTransactionsByUser_runs GetBalance_runs GetAllBalances_runs
  AddBalance_runs DeductBalance_runs CreateThreeDSChallenge_runs GetThreeDSChallenge_runs
  GetPendingThreeDSChallenges_runs UpdateThreeDSChallenge_runs GetOrganization_runs
  CreateOrganization_runs UpdateOrganization_runs : runs.
#[export] Hint Resolve runs_rand_Read runs_http_Do runs_spawn : runs.


(** ** Following a program

    What is known of pointers is carried along as the heap grows. *)
Ltac grow Hg :=
  repeat match type of Hg with grows ?h ?h' =>
    match goal with
    | H : live _ h _ |- _ => apply (live_grows _ _ _ Hg) in H
    | H : all_live _ h _ |- _ => apply (all_live_grows _ _ _ Hg) in H
    | H : store_ok _ h |- _ => apply (store_ok_grows _ _ _ Hg) in H
    end
  end.
Ltac run_on :=
  let Hg := fresh "Hg" in let Hq := fresh "Hq" in
  intros ? ? Hg Hq; grow Hg; unfold any, finds, finds_all in Hq; cbv beta in Hq.
(** One instruction whose result is known. *)
Ltac run_instruction :=
  lazymatch goal with
  | |- runs _ _ (@deref_all _ ?T _ _) _ => apply (runs_deref_all (T := T) _); assumption
  | |- runs _ _ (deref _) _ => apply runs_deref; first [assumption|exact _]
  | |- runs _ _ (new _) _ => apply runs_new; exact _
  | |- runs _ _ (assign _ _) _ => apply runs_assign; first [assumption|exact _]
  | |- runs _ _ (update _ _) _ => apply runs_update; first [assumption|exact _]
  | |- runs _ _ time_Now _ => apply runs_time_Now
  | |- runs _ _ (Errorf _) _ => apply runs_mret; intros; exact I
  | |- runs _ _ nil_error _ => apply runs_mret; intros; exact I
  | |- runs _ _ (slice_to _ _) _ => apply runs_slice_to; lia
  | |- runs _ _ GenerateUUID _ => apply runs_GenerateUUID
  | |- runs _ _ (modify _) _ => apply runs_modify; intros; reflexivity
  | |- runs _ _ _ _ => solve [eauto 3 with runs nocore]
  end.
Ltac run_step :=
  lazymatch goal with
  | |- runs _ _ (mbind _ _) _ =>
      first [eapply runs_bind; [run_instruction|] | eapply (runs_bind _ _ _ _ any)];
      [..|run_on]
  | |- runs _ _ (mret _) any => by apply runs_mret
  | |- runs _ _ (match ?x with _ => _ end) _ =>
      destruct x eqn:?; repeat match goal with H : match _ with _ => _ end |- _ => progress cbn iota in H end
  | |- runs _ _ (let _ := _ in _) _ => cbv zeta
  | |- runs _ _ _ any => first [run_instruction | eapply runs_any; run_instruction]
  end.

(** Opens the operations that have no rule of their own. *)
Ltac run :=
  repeat first
    [ progress case_go; subst | progress run_step
    | match goal with
      | Hl : all_live ?T _ ?l |- runs _ _ (collect _ ?l) any =>
          apply (runs_collect_live _ (T := T)); [exact Hl|]; let Hg := fresh "Hg" in intros ? ? Hg ?; grow Hg
      | |- runs _ _ (collect _ _) any => apply runs_collect_any; intros
      end
    | lazymatch goal with
      | |- runs _ _ (deref _) _ => fail
      | |- runs _ _ (assign _ _) _ => fail
      | |- runs _ _ (update _ _) _ => fail
      | |- runs _ _ ?m _ => let f := head_of m in unfold f
      end ].

(** ** The in-memory storage

    Its maps hold pointers to objects, and no raw document is [null]. *)
Record memory_ok (s : MemoryStorage) (h : Heap) : Prop := {
  live_users : map_Forall (λ _, live User h) (users s);
  live_usersByEmail : map_Forall (λ _, live User h) (usersByEmail s);
  live_customers : map_Forall (λ _, live Customer h) (customers s);
  live_customersBySource : map_Forall (λ _, live Customer h) (customersBySource s);
  live_accounts : map_Forall (λ _, live Account h) (accounts s);
  live_cards : map_Forall (λ _, live Card h) (cards s);
  live_cardTransactions : map_Forall (λ _, live CardTransaction h) (cardTransactions s);
  live_challenges : map_Forall (λ _, live ThreeDSChallenge h) (threeDSChallenges s);
  live_transactions : map_Forall (λ _, live Transaction h) (transactions s);
  raw_not_null : map_Forall (λ _ raw, as_interface raw ≠ JNull) (rawCardTransactions s) }.
Lemma live_map_grows {T} `{StableCell T} h h' (m : gmap string loc) :
  grows h h' → map_Forall (λ _, live T h) m → map_Forall (λ _, live T h') m.
Proof. intros Hg Hm k l Hl. by eapply live_grows, Hm. Qed.
#[export] Program Instance memory_store_ok : StoreOk MemoryStorage := {| store_ok := memory_ok |}.
Next Obligation. intros s h h' Hg []. split; [by eapply live_map_grows..|done]. Qed.

Section MemorySafe.
Context `{EnvLaws} (ρ : Regime).

Lemma runs_store h : runs ρ h store (λ h s, store_ok s h).
Proof. by intros w [Hm Hs] Hh. Qed.
Lemma runs_put h f :
  (∀ s h', grows h h' → memory_ok s h' → memory_ok (f s) h') → runs ρ h (put f) any.
Proof. intros Hf w [Hm Hs] Hh. split; [split; [done|by apply Hf]|done]. Qed.


(** Iterating over a map of pointers, and sorting what came out. *)
Lemma runs_select {T} `{StableCell T} h (keep : T → bool) m :
  map_Forall (λ _, live T h) m → runs ρ h (select keep m) (all_live T).
Proof.
  intros Hm. eapply runs_bind; [by apply (runs_range_map ρ h m (live T h))|].
  intros h1 ps Hg Hps. apply (all_live_grows _ _ _ Hg) in Hps.
  apply (runs_collect ρ h1 _ (live T) (live T)); [by apply live_grows..|done|].
  intros h2 p Hg2 Hp. eapply runs_bind; [by apply runs_deref|]. intros h3 x Hg3 _.
  apply runs_mret. intros h4 Hg4 z Hz. destruct (keep x); [|done]. injection Hz as <-.
  apply (live_grows h2); [by etrans|done].
Qed.
Lemma sorted_live {T} `{Cell T} h (less : loc * T → loc * T → bool) out :
  all_live T h out.*1 → all_live T h (slice_stable less out).*1.
Proof. unfold all_live. by rw slice_stable_perm. Qed.

Lemma runs_set_raw_status h raw status :
  as_interface raw ≠ JNull →
  runs ρ h (set_raw_status (S := MemoryStorage) raw status)
    (λ _ out, ∀ j, out = Some j → as_interface j ≠ JNull).
Proof.
  intros Hraw. unfold set_raw_status.
  destruct (as_interface raw) as [| | | | | |fs]; [done|by apply runs_mret..|]. apply runs_mret.
  intros h' _ j. destruct (marshals _); [|done]. by intros [= <-].
Qed.

Lemma ListUsers_live h : runs ρ h ListUsers (finds_all User).
Proof.
  eapply runs_bind; [apply runs_store|]. intros h1 s _ Hs.
  eapply runs_bind; [apply (runs_range_map ρ h1 _ (live User h1)), Hs|]. intros h2 ps Hg Hps.
  apply (all_live_grows _ _ _ Hg) in Hps. eapply runs_bind; [by apply (runs_deref_all (T := User) ρ)|].
  intros h3 out _ Hout. apply runs_mret. intros h4 Hg4. eapply all_live_grows; [exact Hg4|].
  by apply sorted_live.
Qed.
Lemma ListTransactionsByUser_live h u : runs ρ h (ListTransactionsByUser u) (finds_all Transaction).
Proof.
  eapply runs_bind; [apply runs_store|]. intros h1 s _ Hs. eapply runs_bind.
  - apply (runs_deref_all (T := Transaction) ρ), Forall_forall. intros p (id & _ & Hid)%list_elem_of_omap.
    by eapply (live_transactions _ _ Hs).
  - intros h3 out _ Hout. apply runs_mret. intros h4 Hg4. eapply all_live_grows; [exact Hg4|].
    by apply sorted_live.
Qed.
End MemorySafe.
#[export] Hint Resolve runs_store : runs.
Ltac look_up :=
  match goal with
  | Hs : store_ok ?s ?h, Hl : _ ?s !! _ = Some ?p |- _ =>
      lazymatch goal with
      | _ : live _ h p |- _ => fail
      | _ =>
          let H := fresh in
          first [ pose proof (live_users _ _ Hs _ _ Hl) as H
            | pose proof (live_usersByEmail _ _ Hs _ _ Hl) as H
            | pose proof (live_customers _ _ Hs _ _ Hl) as H
            | pose proof (live_customersBySource _ _ Hs _ _ Hl) as H
            | pose proof (live_accounts _ _ Hs _ _ Hl) as H
            | pose proof (live_cards _ _ Hs _ _ Hl) as H
            | pose proof (live_cardTransactions _ _ Hs _ _ Hl) as H
            | pose proof (live_challenges _ _ Hs _ _ Hl) as H
            | pose proof (live_transactions _ _ Hs _ _ Hl) as H ];
          cbv beta in H
      end
  end.
Ltac run_put :=
  apply runs_put; intros ? ? ? [];
  split; cbn; repeat first [assumption | apply map_Forall_insert_2 | apply map_Forall_delete | by eapply live_grows].
Ltac run_mret :=
  apply runs_mret; intros; cbn;
  first [done|by constructor|by eapply live_grows|by eapply all_live_grows
        |by apply sorted_live; eapply all_live_grows].
Ltac run_memory :=
  repeat first
    [ look_up | progress case_go; subst
    | lazymatch goal with
      | |- runs _ _ (mbind _ (select _ _)) _ =>
          eapply runs_bind;
          [apply runs_select; first [exact _|apply live_cards; assumption|apply live_challenges; assumption]|];
          run_on
      | |- runs _ _ (mbind _ (set_raw_status _ _)) _ =>
          eapply runs_bind; [apply runs_set_raw_status;
             match goal with Hs : store_ok _ _ |- _ =>
               exact (raw_not_null _ _ Hs _ _ ltac:(eassumption)) end|];
          run_on
      end
    | progress run_step
    | lazymatch goal with
      | |- _ ≠ JNull => auto
      | |- runs _ _ ListUsers _ => apply ListUsers_live
      | |- runs _ _ (ListTransactionsByUser _) _ => apply ListTransactionsByUser_live
      | |- runs _ _ (put _) _ => run_put
      | |- runs _ _ (mret _) _ => run_mret
      | |- runs _ _ ?m _ => let f := head_of m in unfold f
      end ].

#[export] Instance memory_safe `{EnvLaws} ρ : SafeStorage ρ MemoryStorage.
Proof. split; intros; cbn; run_memory. Qed.

(** ** The Redis storage

    Whatever the server answers, an object is decoded into memory of its own.
    A raw document that reads as [null], and a server whose [SCAN] never comes
    to an end, are the panics left. *)
Definition redis_store_ok (R : Type) : StoreOk R :=
  {| store_ok _ _ := True; store_ok_grows _ _ _ _ Hs := Hs |}.

Section RedisSafe.
Context {R : Type} `{!Redis.RedisClient R} `{EnvLaws} (ρ : Regime).
#[local] Existing Instance redis_store_ok.
Context (null_map : may_panic ρ "assignment to entry in nil map").
Context (endless : may_panic ρ "scan does not end").

Lemma runs_cmd h {A} (f : R → Redis.reply A * R) : runs ρ h (Redis.cmd f) any.
Proof. intros w [Hm Hs] Hh. unfold Redis.cmd. by destruct (f (w_store w)). Qed.
Lemma runs_exec h {A B} what (f : R → Redis.reply A * R) (k : A → _) (Q : Heap → result B → Prop) :
  (∀ h e, Q h (Err e)) → (∀ h' a, grows h h' → runs ρ h' (k a) Q) → runs ρ h (Redis.exec what f k) Q.
Proof.
  intros HQ Hk. eapply runs_bind; [apply runs_cmd|]. intros h' [a| |e] Hg _; [by apply Hk|..]; by apply runs_mret.
Qed.
Lemma runs_fetch h {B} what missing key k (Q : Heap → result B → Prop) :
  (∀ h e, Q h (Err e)) → (∀ h', grows h h' → runs ρ h' missing Q) →
  (∀ h' a, grows h h' → runs ρ h' (k a) Q) → runs (S := R) ρ h (Redis.fetch what missing key k) Q.
Proof.
  intros HQ Hmiss Hk. eapply runs_bind; [apply runs_cmd|].
  intros h' [a| |e] Hg _; [by apply Hk|by apply Hmiss|by apply runs_mret].
Qed.
Lemma runs_decode h {T B} what (c : Codec.codec T) data k (Q : Heap → result B → Prop) :
  (∀ h e, Q h (Err e)) → (∀ x, runs ρ h (k x) Q) → runs (S := R) ρ h (Redis.decode what c data k) Q.
Proof. intros HQ Hk. unfold Redis.decode. destruct (Codec.unmarshal c data); [by apply Hk|by apply runs_mret]. Qed.
Lemma runs_encode h {T B} what (c : Codec.codec T) x k (Q : Heap → result B → Prop) :
  (∀ h e, Q h (Err e)) → (∀ data, runs ρ h (k data) Q) → runs (S := R) ρ h (Redis.encode what c x k) Q.
Proof. intros HQ Hk. unfold Redis.encode. destruct (Codec.marshal c x); [by apply Hk|by apply runs_mret]. Qed.

(** Loops that skip what cannot be read, and loops over the key space. *)
Lemma runs_collect_found h {T} `{StableCell T} (get : string → prog (World R) (result loc)) ids :
  (∀ h id, runs ρ h (get id) (finds T)) → runs ρ h (collect (Redis.found get) ids) (all_live T).
Proof.
  intros Hget. apply (runs_collect ρ h _ any (live T)); [done|by apply live_grows|by apply Forall_true|].
  intros h' id _ _. eapply runs_bind; [apply Hget|]. intros h1 r _ Hr. apply runs_mret.
  intros h2 Hg z Hz. destruct r as [p|e]; [|done]. injection Hz as <-. by eapply live_grows.
Qed.
Lemma runs_scan_all h {A} what pattern (body : string → A → prog (World R) A) acc (P : Heap → A → Prop) :
  (∀ h h' x, grows h h' → P h x → P h' x) → P h acc →
  (∀ h' key x, P h' x → runs ρ h' (body key x) P) →
  runs ρ h (Redis.scan_all what pattern body acc) (λ h r, match r with Ok x => P h x | Err _ => True end).
Proof.
  intros HP Hacc Hbody.
  assert (∀ h keys x, P h x → runs ρ h (Redis.each_key body keys x) P) as Hkeys.
  { intros h1 keys. revert h1. induction keys as [|key keys IH]; intros h1 x Hx; cbn [Redis.each_key].
    - apply runs_mret. intros. by eapply HP.
    - eapply runs_bind; [by apply Hbody|]. intros h2 y _ Hy. by apply IH. }
  eapply runs_bind; [apply runs_gets|]. intros h1 r Hg _. apply (HP _ _ _ Hg) in Hacc.
  generalize (Redis.rc_rounds r pattern) as rounds. generalize 0 as cursor. intros cursor rounds.
  clear Hg. revert h1 acc Hacc cursor. induction rounds as [|rounds IH]; intros h1 acc Hacc cursor; cbn [Redis.scan_loop].
  - intros w Hw Hh. done.
  - apply runs_exec; [done|]. intros h2 [keys next] Hg. apply (HP _ _ _ Hg) in Hacc.
    eapply runs_bind; [by apply Hkeys|]. intros h3 x _ Hx. destruct (_ =? _); [|by apply IH].
    apply runs_mret. intros. by eapply HP.
Qed.
Lemma runs_set_raw_any h raw status : runs ρ h (set_raw_status (S := R) raw status) any.
Proof.
  unfold set_raw_status. destruct (as_interface raw); try by apply runs_mret.
  by intros w Hw Hh.
Qed.
Ltac run_redis :=
  repeat first
    [ progress case_go; subst
    | lazymatch goal with
      | |- runs _ _ (Redis.exec _ _ _) _ =>
          apply runs_exec; [done|]; let Hg := fresh "Hg" in intros ? ? Hg; grow Hg
      | |- runs _ _ (Redis.fetch _ _ _ _) _ =>
          apply runs_fetch;
          [done|let Hg := fresh "Hg" in intros ? Hg; grow Hg|let Hg := fresh "Hg" in intros ? ? Hg; grow Hg]
      | |- runs _ _ (Redis.decode _ _ _ _) _ => apply runs_decode; [done|intros]
      | |- runs _ _ (Redis.encode _ _ _ _) _ => apply runs_encode; [done|intros]
      | |- runs _ _ (Redis.cmd _) _ => apply runs_cmd
      end
    | progress run_step
    | lazymatch goal with
      | |- runs _ _ (set_raw_status _ _) _ => by apply runs_set_raw_any
      | |- runs _ _ (mret _) _ => run_mret
      | |- runs _ _ (Errorf _) _ => run_mret
      | |- runs _ _ (collect (Redis.found _) _) any => apply runs_collect_any; intros
      | |- runs _ _ (collect _ _) any => apply runs_collect_any; intros
      | |- runs _ _ (deref _) _ => fail
      | |- runs _ _ (update _ _) _ => fail
      | |- runs _ _ (collect _ _) _ => fail
      | |- runs _ _ (Redis.scan_all _ _ _ _) _ => fail
      | |- runs _ _ ?m _ => let f := head_of m in unfold f
      end ].

Lemma Redis_GetCard_found h id : runs ρ h (Redis.GetCard (R := R) id) (finds Card).
Proof. run_redis. Qed.
Lemma Redis_GetCardTransaction_found h id :
  runs ρ h (Redis.GetCardTransaction (R := R) id) (finds CardTransaction).
Proof. run_redis. Qed.
Lemma Redis_GetTransaction_found h id : runs ρ h (Redis.GetTransaction (R := R) id) (finds Transaction).
Proof. run_redis. Qed.
Lemma Redis_GetThreeDSChallenge_found h id :
  runs ρ h (Redis.GetThreeDSChallenge (R := R) id) (finds ThreeDSChallenge).
Proof. run_redis. Qed.
#[local] Hint Resolve Redis_GetCard_found Redis_GetCardTransaction_found Redis_GetTransaction_found
  Redis_GetThreeDSChallenge_found : runs.

Lemma Redis_cards_found h ids : runs ρ h (collect (Redis.found (Redis.GetCard (R := R))) ids) (all_live Card).
Proof. apply (runs_collect_found h (T := Card)); intros; apply Redis_GetCard_found. Qed.
Lemma Redis_transactions_found h ids :
  runs ρ h (collect (Redis.found (Redis.GetTransaction (R := R))) ids) (all_live Transaction).
Proof. apply (runs_collect_found h (T := Transaction)); intros; apply Redis_GetTransaction_found. Qed.
Lemma Redis_pending_found h ids :
  runs ρ h (collect (Redis.pending_challenge (R := R)) ids) (all_live ThreeDSChallenge).
Proof.
  apply (runs_collect ρ h _ any (live ThreeDSChallenge)); [done|by apply live_grows|by apply Forall_true|].
  intros h' id _ _. eapply runs_bind; [apply Redis_GetThreeDSChallenge_found|].
  intros h1 [p|e] _ Hp; [|by apply runs_mret].
  eapply runs_bind; [by apply (runs_deref (T := ThreeDSChallenge) ρ)|]. intros h2 c Hg _.
  apply runs_mret. intros h3 Hg3 z Hz.
  destruct (_ =?s _); [|done]. injection Hz as <-. apply (live_grows h1); [by etrans|done].
Qed.
Lemma Redis_users_scanned h :
  runs ρ h (Redis.scan_all (R := R) "failed to scan users" "user:*" Redis.read_user [])
    (λ h r, match r with Ok out => all_live User h out.*1 | Err _ => True end).
Proof.
  apply (runs_scan_all h _ _ _ _ (λ h out, all_live User h out.*1)); [|constructor|].
  { intros h1 h2 out. by apply all_live_grows. }
  intros h1 key out Hout. unfold Redis.read_user.
  destruct (negb _); [by apply runs_mret; intros; eapply all_live_grows|].
  eapply runs_bind; [apply runs_cmd|]. intros h2 r Hg _. grow Hg.
  assert (∀ h3, grows h2 h3 → all_live User h3 out.*1) as Hmore by (intros; by eapply all_live_grows).
  destruct r as [data| |e]; [|by apply runs_mret..].
  destruct (Codec.unmarshal _ data) as [u|]; [|by apply runs_mret].
  eapply runs_bind; [apply (runs_new (T := User) ρ)|]. intros h3 p Hg3 Hp.
  apply runs_mret. intros h4 Hg4.
  rw fmap_app. apply Forall_app. split; [apply Hmore; by etrans|].
  constructor; [by eapply live_grows|constructor].
Qed.
Lemma Redis_balances_scanned h what pattern acc :
  runs ρ h (Redis.scan_all (R := R) what pattern Redis.read_balance acc) any.
Proof.
  eapply runs_any, (runs_scan_all h _ _ _ _ any); [done..|]. intros. unfold Redis.read_balance. run_redis.
Qed.
#[local] Hint Resolve Redis_cards_found Redis_transactions_found Redis_pending_found Redis_users_scanned
  Redis_balances_scanned : runs.

Lemma redis_safe : SafeStorage ρ R (H0 := Redis.redis_storage).
Proof. split; intros; cbn; run_redis. Qed.
End RedisSafe.
