(* ===== verification/LedgerFacts.v ===== *)
(** * The ledger: its contract and what it guarantees

    What the payment handlers rely on when they move money, stated as a class
    over any storage ([LedgerLaws]): a view of the balances, and how reading,
    crediting and debiting act on it.  The in-memory storage keeps the
    contract.  From the contract: sequences of credits and debits, and the
    abstract account they refine; the properties state it of the in-memory
    storage. *)
From S2P Require Import Prelude GoFloat GoStd Models Config World Memory.
From S2P Require Import Demo.
From S2P Require Storage.

(** [s'] holds [x] at one place and what [s] holds everywhere else. *)
Definition balance_set {S} (balance : S → string → string → f64) (s s' : S)
    (userID currency : string) (x : f64) : Prop :=
  balance s' userID currency = x
  ∧ ∀ u c, (u, c) ≠ (userID, currency) → balance s' u c = balance s u c.

Class LedgerLaws (S : Type) `{Env} `{!Storage.Storage S} := {
  balance : S → string → string → f64;
  ledger_get : ∀ u c (w : World S),
    Storage.GetBalance u c w = (Ret (Ok (balance (w_store w) u c)), w);
  ledger_add : ∀ u c a (w : World S), ∃ s',
    Storage.AddBalance u c a w = (Ret (Ok tt), w <| w_store := s' |>)
    ∧ balance_set balance (w_store w) s' u c (fadd (balance (w_store w) u c) a);
  (** A debit is refused, leaving the world as it was, or it is covered and
      charged exactly once. *)
  ledger_deduct : ∀ u c a (w : World S),
    (∃ e, Storage.DeductBalance u c a w = (Ret (Err e), w))
    ∨ (flt (balance (w_store w) u c) a = false
       ∧ ∃ s', Storage.DeductBalance u c a w = (Ret (Ok tt), w <| w_store := s' |>)
       ∧ balance_set balance (w_store w) s' u c (fsub (balance (w_store w) u c) a)) }.

(** ** The in-memory storage keeps it *)
Section Memory.
Context `{Env}.
Implicit Types (s : MemoryStorage) (w : World MemoryStorage).

Definition put_balance (u c : string) (x : f64) (s : MemoryStorage) : MemoryStorage :=
  s <| balances := <[u := <[c := x]> (default ∅ (balances s !! u))]> (balances s) |>.

Lemma put_balance_set u c x s : balance_set balance_of s (put_balance u c x s) u c x.
Proof.
  unfold balance_set, balance_of, put_balance. simpl. split.
  - by rw lookup_insert_eq /= lookup_insert_eq.
  - intros u' c' Hne. destruct (decide (u' = u)) as [->|Hu].
    + rw lookup_insert_eq /= lookup_insert_ne; [by destruct (balances s !! u)|].
      congruence.
    + by rw lookup_insert_ne.
Qed.

Lemma run_GetBalance u c w : GetBalance u c w = (Ret (Ok (balance_of (w_store w) u c)), w).
Proof. done. Qed.

Lemma run_AddBalance u c a w :
  AddBalance u c a w =
  (Ret (Ok tt), w <| w_store := put_balance u c (fadd (balance_of (w_store w) u c) a) (w_store w) |>).
Proof. done. Qed.

Lemma run_DeductBalance u c a w :
  DeductBalance u c a w =
  match balances (w_store w) !! u with
  | None => (Ret (Err "insufficient balance"), w)
  | Some _ =>
      if flt (balance_of (w_store w) u c) a
      then (Ret (Err ("insufficient balance: have " +:+ Sprintf_2f (balance_of (w_store w) u c)
                        +:+ ", need " +:+ Sprintf_2f a)), w)
      else (Ret (Ok tt),
            w <| w_store := put_balance u c (fsub (balance_of (w_store w) u c) a) (w_store w) |>)
  end.
Proof.
  unfold DeductBalance, balance_of, put_balance, store. rw run_bind run_gets.
  destruct (balances (w_store w) !! u) as [m|] eqn:Hm; [simpl|done].
  by destruct (flt _ a).
Qed.

#[export] Program Instance memory_ledger : LedgerLaws MemoryStorage := {| balance := balance_of |}.
Next Obligation. apply run_GetBalance. Qed.
Next Obligation.
  intros u c a w. eexists. split; [apply run_AddBalance|]. apply put_balance_set.
Qed.
Next Obligation.
  intros u c a w. change (Storage.DeductBalance u c a) with (DeductBalance u c a).
  rw run_DeductBalance. destruct (balances (w_store w) !! u); [|by left; eauto].
  destruct (flt _ a) eqn:Hlt; [by left; eauto|]. right. split; [done|].
  eexists. split; [done|]. apply put_balance_set.
Qed.
End Memory.

(** ** Sequences of movements *)
Inductive entry : Type :=
| Credit (userID currency : string) (amount : f64)
| Debit (userID currency : string) (amount : f64).

Definition run_entry {S} `{Env} `{!Storage.Storage S} (e : entry) : prog (World S) bool :=
  match e with
  | Credit u c a => r ← Storage.AddBalance u c a; mret (is_ok r)
  | Debit u c a => r ← Storage.DeductBalance u c a; mret (is_ok r)
  end.

(** Which of the movements were accepted. *)
Fixpoint run_entries {S} `{Env} `{!Storage.Storage S} (es : list entry) :
    prog (World S) (list bool) :=
  match es with
  | [] => mret []
  | e :: es => ok ← run_entry e; oks ← run_entries es; mret (ok :: oks)
  end.

(** ** The abstract account: one number per user and currency *)
Definition account : Type := string → string → f64.

Definition post (acc : account) (e : entry) : account := fun u c =>
  match e with
  | Credit u' c' a => if (u =?s u') && (c =?s c') then fadd (acc u c) a else acc u c
  | Debit u' c' a => if (u =?s u') && (c =?s c') then fsub (acc u c) a else acc u c
  end.

(** Only accepted movements are posted. *)
Fixpoint post_accepted (acc : account) (es : list entry) (oks : list bool) : account :=
  match es, oks with
  | e :: es, true :: oks => post_accepted (post acc e) es oks
  | _ :: es, false :: oks => post_accepted acc es oks
  | _, _ => acc
  end.

(** A movement Go code could ask for without creating debt: a credit of a
    non-negative amount, a debit of a finite one. *)
Definition sound_entry (e : entry) : Prop :=
  match e with
  | Credit _ _ a => valid64 a ∧ fle fzero a = true
  | Debit _ _ a => valid64 a ∧ is_finite a = true
  end.

Definition solvent (acc : account) : Prop :=
  ∀ u c, valid64 (acc u c) ∧ fle fzero (acc u c) = true.

Section Contract.
Context {S : Type} `{Env} `{!Storage.Storage S} `{!LedgerLaws S}.
Implicit Types w : World S.

Lemma balance_set_post (s s' : S) u c x (acc : account) (e : entry) :
  balance_set balance s s' u c x →
  (∀ u' c', acc u' c' = balance s u' c') →
  (∀ u' c', post acc e u' c' = if (u' =?s u) && (c' =?s c) then x else acc u' c') →
  ∀ u' c', post acc e u' c' = balance s' u' c'.
Proof.
  intros [Heq Hne] Hacc Hpost u' c'. rw Hpost.
  destruct ((u' =?s u) && (c' =?s c)) eqn:Hb; case_go; [by subst|].
  rw Hacc Hne; [done|]. intros [= -> ->]. by rw !str_eqb_refl in Hb.
Qed.

(** One movement: it returns, and the balances change by what was accepted. *)
Lemma run_entry_spec e w (acc : account) :
  (∀ u c, acc u c = balance (w_store w) u c) →
  ∃ ok s', run_entry e w = (Ret ok, w <| w_store := s' |>)
    ∧ (∀ u c, post_accepted acc [e] [ok] u c = balance s' u c)
    ∧ (ok = true → match e with
                   | Credit _ _ _ => True
                   | Debit u c a => flt (acc u c) a = false end).
Proof.
  intros Hacc. destruct e as [u c a|u c a]; simpl.
  - destruct (ledger_add u c a w) as (s' & Hrun & Hset).
    exists true, s'. rw (run_bind_ret _ _ _ _ _ Hrun). split; [done|]. split; [|done].
    apply (balance_set_post _ _ _ _ _ _ (Credit u c a) Hset Hacc). intros u' c'. simpl.
    destruct (_ && _) eqn:Hb; [|done]. case_go. subst. by rw Hacc.
  - destruct (ledger_deduct u c a w) as [[e Hrun]|(Hlt & s' & Hrun & Hset)].
    + exists false, (w_store w). rw (run_bind_ret _ _ _ _ _ Hrun). by destruct w.
    + exists true, s'. rw (run_bind_ret _ _ _ _ _ Hrun). split; [done|].
      split; [|by rw Hacc].
      apply (balance_set_post _ _ _ _ _ _ (Debit u c a) Hset Hacc). intros u' c'. simpl.
      destruct (_ && _) eqn:Hb; [|done]. case_go. subst. by rw Hacc.
Qed.

Lemma post_solvent acc e ok :
  solvent acc → sound_entry e →
  (ok = true → match e with Credit _ _ _ => True | Debit u c a => flt (acc u c) a = false end) →
  solvent (post_accepted acc [e] [ok]).
Proof.
  intros Hs He Hguard. destruct ok; [|done]. specialize (Hguard eq_refl).
  intros u c. destruct (Hs u c) as [Hv Hn]. destruct e as [u' c' a|u' c' a]; simpl in *;
    destruct (_ && _) eqn:Hb; try done; case_go; subst; destruct He as [Ha1 Ha2].
  - auto with f64.
  - split; [by auto with f64|]. by apply fsub_covered_nonneg.
Qed.

Lemma post_accepted_cons acc e es ok oks :
  post_accepted acc (e :: es) (ok :: oks) = post_accepted (post_accepted acc [e] [ok]) es oks.
Proof. by destruct ok. Qed.

(** Any sequence: all of it returns, the balances are the abstract account's,
    and soundness of the movements keeps it solvent. *)
Lemma run_entries_spec es w (acc : account) :
  (∀ u c, acc u c = balance (w_store w) u c) →
  ∃ oks s', run_entries es w = (Ret oks, w <| w_store := s' |>)
    ∧ length oks = length es
    ∧ (∀ u c, post_accepted acc es oks u c = balance s' u c)
    ∧ (solvent acc → Forall sound_entry es → solvent (post_accepted acc es oks)).
Proof.
  revert w acc. induction es as [|e es IH]; intros w acc Hacc; cbn [run_entries].
  - exists [], (w_store w). by destruct w.
  - destruct (run_entry_spec e w acc Hacc) as (ok & s1 & Hrun & Hbal & Hguard).
    destruct (IH (w <| w_store := s1 |>) (post_accepted acc [e] [ok])) as
      (oks & s' & Hrun' & Hlen & Hbal' & Hsolv); [done|].
    exists (ok :: oks), s'. rw (run_bind_ret _ _ _ _ _ Hrun) (run_bind_ret _ _ _ _ _ Hrun').
    rw post_accepted_cons. split; [done|]. split; [simpl; congruence|]. split; [done|].
    intros Hs Hes. inversion Hes; subst. apply Hsolv; [|done]. by apply post_solvent.
Qed.
End Contract.

(** ** Properties of the in-memory storage *)
Section Properties.
Context `{Env}.
Implicit Types w : World MemoryStorage.

(** C1. Refinement of the abstract account: any sequence of credits and debits
    returns, touches nothing but the store, and leaves every balance of every
    user equal to the accepted movements posted in order. *)
Theorem ledger_refines_account (es : list entry) w :
  ∃ oks s', run_entries es w = (Ret oks, w <| w_store := s' |>)
    ∧ length oks = length es
    ∧ ∀ u c, balance_of s' u c = post_accepted (balance_of (w_store w)) es oks u c.
Proof.
  destruct (run_entries_spec es w (balance_of (w_store w))) as (oks & s' & Hrun & Hl & Hb & _);
    [done|].
  exists oks, s'. split; [done|]. split; [done|]. intros u c. symmetry. apply Hb.
Qed.

(** C2. No overdraft: from non-negative balances, no sequence of non-negative
    credits and finite debits, whatever the amounts asked for, makes any
    balance negative or NaN. *)
Theorem never_overdrawn (es : list entry) w oks w' :
  solvent (balance_of (w_store w)) → Forall sound_entry es →
  run_entries es w = (Ret oks, w') →
  solvent (balance_of (w_store w')).
Proof.
  intros Hs Hes Hrun.
  destruct (run_entries_spec es w (balance_of (w_store w))) as (oks' & s' & Hrun' & _ & Hb & Hsolv);
    [done|].
  rw Hrun' in Hrun. injection Hrun as <- <-. intros u c. simpl. unfold balance in Hb. simpl in Hb.
  rw -Hb. by apply Hsolv.
Qed.
End Properties.

Definition demo_entries : list entry :=
  [Credit "u" "USD" (f_of_Z 100); Debit "u" "USD" (f_of_Z 70); Debit "u" "USD" (f_of_Z 70)].

Lemma never_overdrawn_witness :
  (run_entries demo_entries demo_world).1 = Ret [true; true; false]
  ∧ solvent (balance_of (w_store (run_entries demo_entries demo_world).2)).
Proof.
  split; [by vm_compute|].
  apply (never_overdrawn demo_entries demo_world [true; true; false]).
  - intros u c. unfold balance_of. simpl. rw lookup_empty. done.
  - repeat constructor.
  - destruct (run_entries demo_entries demo_world) as [r w'] eqn:Hr. simpl.
    f_equal. change r with (r, w').1. rw -Hr. by vm_compute.
Defined.
