(* ===== verification/MemoryFacts.v ===== *)
(** * Running the in-memory storage

    The effect of the storage operations the handlers use, as equations, and
    the frame of the webhook enqueueing: which parts of the world it leaves
    alone. *)
From S2P Require Import Prelude GoFloat GoStd GoText Consts Models Config World Memory Api Webhook.
From S2P Require Storage.

(** Everything a handler can observe of the money and the objects. *)
Definition same_books {S} (w w' : World S) : Prop :=
  w_store w' = w_store w ∧ w_heap w' = w_heap w ∧ w_fees w' = w_fees w
  ∧ w_config w' = w_config w ∧ w_manager w' = w_manager w ∧ w_tokens w' = w_tokens w
  ∧ w_tasks w' = w_tasks w.

Lemma same_books_refl {S} (w : World S) : same_books w w.
Proof. done. Qed.
#[export] Hint Resolve same_books_refl : core.

Section Memory.
Context `{Env}.
Implicit Types w : World MemoryStorage.

(** A transaction stored under [id], at [p]. *)
Definition stored (w : World MemoryStorage) (id : string) (p : loc) (t : Transaction) : Prop :=
  transactions (w_store w) !! id = Some p
  ∧ heap_txs (w_heap w) !! p = Some t ∧ Transaction_ID t = id.

Lemma run_GetTransaction id w :
  GetTransaction id w =
  (Ret (match transactions (w_store w) !! id with
        | Some p => Ok p | None => Err "transaction not found" end), w).
Proof. unfold GetTransaction, store. rw run_bind run_gets. by destruct (_ !! id). Qed.

Lemma run_UpdateTransactionStatus id status w p t :
  transactions (w_store w) !! id = Some p → heap_txs (w_heap w) !! p = Some t →
  UpdateTransactionStatus id status w =
  (Ret (Ok tt), w <| w_heap := heap_write p (t <| Transaction_Status := status |>) (w_heap w) |>).
Proof.
  intros Hid Hp. unfold UpdateTransactionStatus, store. rw run_bind run_gets Hid.
  change (cells (T := Transaction) (w_heap w) !! p = Some t) in Hp.
  rw (run_bind_ret _ _ _ _ _ (run_update _ _ _ _ Hp)).
  unfold put. rw run_bind run_modify. simpl. destruct w as [s h ? ? ? ? ? ? ? ?]. simpl in *.
  unfold nil_error. rw run_mret. do 2 f_equal. destruct s. simpl in *. f_equal.
  by apply insert_id.
Qed.

Lemma run_GetOrganization id w :
  GetOrganization id w =
  (Ret (match organizations (w_store w) !! id with
        | Some org => Ok org | None => Err "organization not found" end), w).
Proof. unfold GetOrganization, store. rw run_bind run_gets. by destruct (_ !! id). Qed.

(** The URL [resolveCallbackURL] finds. *)
Definition org_url (m : Manager) (s : MemoryStorage) : option string :=
  if defaultOrganizationID m =?s "" then None
  else org ← organizations s !! defaultOrganizationID m;
       if Organization_APIBaseURL org =?s "" then None else Some (Organization_APIBaseURL org).

Lemma run_org_base_url m w : org_base_url m w = (Ret (org_url m (w_store w)), w).
Proof.
  unfold org_base_url, org_url. destruct (_ =?s ""); [done|]. simpl.
  change (Storage.GetOrganization (S := MemoryStorage)) with GetOrganization.
  rw run_bind run_GetOrganization. destruct (organizations _ !! _) as [org|]; [simpl|done].
  by destruct (_ =?s "").
Qed.

Lemma run_resolveCallbackURL m w :
  resolveCallbackURL m w = (Ret (default (webhookURL m) (org_url m (w_store w))), w).
Proof. unfold resolveCallbackURL. rw run_bind run_org_base_url. by destruct (org_url _ _). Qed.

(** Whether an event is queued: a queue, and a URL unless it is internal. *)
Definition queued (m : Manager) (s : MemoryStorage) (eventType : string)
    (data : list (string * json)) : bool :=
  (isInternal eventType || negb (default (webhookURL m) (org_url m s) =?s ""))
  && match queue m with Some _ => marshals (JObj data) | None => false end.

Lemma run_SendAsync m eventType userID data offset w :
  w_manager w = Some m →
  ∃ w', SendAsync eventType userID data offset w = (Ret tt, w')
    ∧ same_books w w' ∧ w_sink w' = w_sink w
    ∧ w_jobs w' = w_jobs w ++
        match queue m with
        | Some q =>
            if queued m (w_store w) eventType data
            then [(mkStreamJob "" (env_uuid (w_ticks w)) eventType userID data 0
                     (Format_RFC3339Nano (env_now (w_ticks w + 1))) "",
                   Z.max (minDelay q) (seconds_duration offset))]
            else []
        | None => []
        end.
Proof.
  intros Hm. unfold SendAsync, manager. rw !run_bind run_gets Hm.
  unfold queued. destruct (isInternal eventType) eqn:Hi; cbn [orb];
    rw ?run_bind ?run_mret ?run_bind ?run_resolveCallbackURL ?run_mret.
  2: destruct (_ =?s "") eqn:Hu; cbn [negb andb];
       [exists w; destruct (queue m); by rw app_nil_r|].
  all: destruct (queue m) as [q|]; [|exists w; by rw app_nil_r].
  all: cbn [andb]; unfold Enqueue, GenerateUUID, time_Now, tick; run_binds.
  all: destruct (marshals (JObj data)) eqn:Hmar; cbn [negb];
    eexists; (split; [reflexivity|]); by rw ?app_nil_r.
Qed.
End Memory.
