(* ===== verification/WithdrawalFacts.v ===== *)
(** * Settlement of withdrawals: a state machine

    A withdrawal is pending until it is settled; settling completes it and
    charges the balance, or rejects it and moves nothing. *)
From S2P Require Import Prelude GoFloat GoStd Consts Models Config World Memory Api Webhook.
From S2P Require Import Withdrawals LedgerFacts MemoryFacts Demo.
From S2P Require Storage.

Section Facts.
Context `{Env}.
Implicit Types w : World MemoryStorage.

Lemma stored_cells w id p t :
  stored w id p t → cells (T := Transaction) (w_heap w) !! p = Some t.
Proof. by intros (? & ? & ?). Qed.

Lemma run_deref_tx id p t w : stored w id p t → deref (T := Transaction) p w = (Ret t, w).
Proof. intros Hs. by apply run_deref, (stored_cells w id). Qed.

(** A charge moves one balance and keeps the transactions. *)
Definition charged (t : Transaction) (a : f64) (s : MemoryStorage) : MemoryStorage :=
  put_balance (Transaction_UserID t) (Transaction_Currency t)
    (fsub (balance_of s (Transaction_UserID t) (Transaction_Currency t)) a) s.

(** What settling does to the books: [settled w id p t event r w']. *)
Definition settled w (p : loc) (t : Transaction) (event : string) (r : api_result unit)
    (w' : World MemoryStorage) : Prop :=
  match r with
  | inr _ => w' = w
  | inl _ =>
      if event =?s WebhookEventWithdrawalCompleted then
        ∃ a, ParseFloat (Transaction_TotalAmount t) = Some a
          ∧ flt (balance_of (w_store w) (Transaction_UserID t) (Transaction_Currency t)) a = false
          ∧ w_store w' = charged t a (w_store w)
          ∧ w_heap w' = heap_write p (t <| Transaction_Status := TransactionStatusCompleted |>)
                          (w_heap w)
      else
        w_store w' = w_store w
        ∧ w_heap w' = heap_write p (t <| Transaction_Status := TransactionStatusFailed |>) (w_heap w)
  end.

(** The total is a number the user's balance covers. *)
Definition chargeable w (t : Transaction) (a : f64) : Prop :=
  ParseFloat (Transaction_TotalAmount t) = Some a
  ∧ is_Some (balances (w_store w) !! Transaction_UserID t)
  ∧ flt (balance_of (w_store w) (Transaction_UserID t) (Transaction_Currency t)) a = false.

(** Marking a stored transaction. *)
Lemma stored_marked w id p t status (s : MemoryStorage) :
  stored w id p t → transactions s = transactions (w_store w) →
  stored (w <| w_store := s |> <| w_heap := heap_write p (t <| Transaction_Status := status |>)
                                              (w_heap w) |>) id p
    (t <| Transaction_Status := status |>).
Proof.
  intros (Hid & Hp & Ht) Hs. split; [simpl; by rw Hs|]. split; [|done].
  exact (heap_write_lookup (T := Transaction) p _ (w_heap w)).
Qed.

Lemma complete_spec w id p t m :
  stored w id p t → w_manager w = Some m →
  ∃ r w', completeWithdrawal p w = (Ret r, w')
    ∧ settled w p t WebhookEventWithdrawalCompleted r w'
    ∧ ∀ a, chargeable w t a → r = inl tt.
Proof.
  intros Hs Hm. unfold completeWithdrawal, settled, chargeable. rw str_eqb_refl.
  rw (run_bind_ret _ _ _ _ _ (run_deref_tx _ _ _ _ Hs)).
  destruct (ParseFloat _) as [a|] eqn:Ha;
    [|eexists (inr _), w; split_and!; [done..|]; by intros a (? & _)].
  rw run_bind. change (Storage.DeductBalance (S := MemoryStorage)) with DeductBalance.
  rw run_DeductBalance.
  destruct (balances (w_store w) !! Transaction_UserID t) as [row|];
    [|eexists (inr _), w; split_and!; [done..|]; by intros ? (_ & [? ?] & _)].
  destruct (flt _ a) eqn:Hlt;
    [eexists (inr _), w; split_and!; [done..|]; intros ? ([= <-] & _ & ?); congruence|].
  destruct (Hs) as (Hid & Hp & Ht). rw run_bind.
  change (Storage.UpdateTransactionStatus (S := MemoryStorage)) with UpdateTransactionStatus.
  rw (run_UpdateTransactionStatus _ _ _ p t); [|simpl; by rw Ht|done].
  set (w1 := _ <| w_heap := _ |>).
  assert (stored w1 id p (t <| Transaction_Status := TransactionStatusCompleted |>)) as Hs1.
  { by apply (stored_marked w). }
  rw (run_bind_ret _ _ _ _ _ (run_deref_tx _ _ _ _ Hs1)).
  destruct (run_SendAsync m WebhookEventWithdrawalCompleted
    (Transaction_UserID (t <| Transaction_Status := TransactionStatusCompleted |>))
    [("tx_uuid", JStr (Transaction_ID t)); ("amount", JStr (Transaction_Amount t));
     ("currency", JStr (Transaction_Currency t));
     ("address", JStr (Transaction_ReceivingAddress t));
     ("total_fees", JStr (Transaction_Fee t))] fzero w1 Hm) as (w' & Hrun & (Hst & Hh & _) & _).
  rw (run_bind_ret _ _ _ _ _ Hrun). exists (inl tt), w'. split; [done|]. split; [|done].
  exists a. by rw Hst Hh.
Qed.

Lemma reject_spec w id p t m event :
  stored w id p t → w_manager w = Some m → event ≠ WebhookEventWithdrawalCompleted →
  ∃ r w', rejectWithdrawal p w = (Ret r, w') ∧ settled w p t event r w' ∧ r = inl tt.
Proof.
  intros Hs Hm Hev. unfold rejectWithdrawal, settled. rw (str_eqb_ne _ _ Hev).
  rw (run_bind_ret _ _ _ _ _ (run_deref_tx _ _ _ _ Hs)).
  destruct (Hs) as (Hid & Hp & Ht). rw run_bind.
  change (Storage.UpdateTransactionStatus (S := MemoryStorage)) with UpdateTransactionStatus.
  rw (run_UpdateTransactionStatus _ _ _ p t); [|simpl; by rw Ht|done].
  set (w1 := _ <| w_heap := _ |>).
  assert (stored w1 id p (t <| Transaction_Status := TransactionStatusFailed |>)) as Hs1.
  { replace w1 with (w <| w_store := w_store w |> <| w_heap := w_heap w1 |>); [|by destruct w].
    by apply (stored_marked w). }
  rw (run_bind_ret _ _ _ _ _ (run_deref_tx _ _ _ _ Hs1)).
  destruct (run_SendAsync m WebhookEventWithdrawalRejected
    (Transaction_UserID (t <| Transaction_Status := TransactionStatusFailed |>))
    [("tx_uuid", JStr (Transaction_ID t)); ("user_id", JStr (Transaction_UserID t));
     ("status", JStr "REJECTED"); ("currency", JStr (Transaction_Currency t));
     ("amount", JStr (Transaction_Amount t))] fzero w1 Hm) as (w' & Hrun & (Hst & Hh & _) & _).
  rw (run_bind_ret _ _ _ _ _ Hrun). exists (inl tt), w'. by rw Hst Hh.
Qed.

(** A withdrawal that can still be settled. *)
Definition pending (t : Transaction) : Prop :=
  Transaction_DepositType t = DepositTypeWithdrawal
  ∧ Transaction_Status t = TransactionStatusPending.

(** The guards of a settlement, for a stored transaction. *)
Lemma run_check_settlement w id p t event :
  stored w id p t →
  ∃ checked, check_settlement id event w = (Ret checked, w)
    ∧ (pending t → event = WebhookEventWithdrawalCompleted ∨ event = WebhookEventWithdrawalRejected →
       checked = inl (p, event =?s WebhookEventWithdrawalCompleted))
    ∧ match checked with
      | inr _ => True
      | inl (p', complete) =>
          p' = p ∧ complete = (event =?s WebhookEventWithdrawalCompleted) ∧ pending t
      end.
Proof.
  intros Hs. unfold check_settlement, pending.
  destruct ((event =?s _) || (event =?s _)) eqn:Hev; cbn [negb].
  2: { eexists (inr _). split_and!; [done| |done]. case_go. intros _ [?|?]; contradiction. }
  rw run_bind. change (Storage.GetTransaction (S := MemoryStorage)) with GetTransaction.
  rw run_GetTransaction. destruct (Hs) as (Hid & _). rw Hid.
  rw (run_bind_ret _ _ _ _ _ (run_deref_tx _ _ _ _ Hs)).
  destruct (Transaction_DepositType t =?s _) eqn:Hd; cbn [negb]; case_go.
  2: { eexists (inr _). split_and!; [done| |done]. by intros [? ?]. }
  destruct (Transaction_Status t =? _) eqn:Hst; cbn [negb].
  2: { eexists (inr _). split_and!; [done| |done]. intros [? ?]. lia. }
  eexists (inl (p, _)). split_and!; [done..|lia].
Qed.

Lemma settle_spec w id p t m event :
  stored w id p t → w_manager w = Some m →
  ∃ r w', settleWithdrawal id event w = (Ret r, w') ∧ settled w p t event r w'
    ∧ (pending t → event = WebhookEventWithdrawalRejected → r = inl tt)
    ∧ (pending t → event = WebhookEventWithdrawalCompleted → ∀ a, chargeable w t a → r = inl tt)
    ∧ (¬ pending t → ∃ e, r = inr e).
Proof.
  intros Hs Hm. destruct (run_check_settlement w id p t event Hs) as (checked & Hrun & Hp & Hc).
  unfold settleWithdrawal. rw (run_bind_ret _ _ _ _ _ Hrun).
  destruct checked as [[p' complete]|e].
  2: { exists (inr e), w. split_and!; try done; [| |by eauto]; intros Hpt He;
         specialize (Hp Hpt); rw He in Hp; exfalso; by intuition congruence. }
  destruct Hc as (-> & -> & Hpt). unfold settle_checked.
  destruct (event =?s WebhookEventWithdrawalCompleted) eqn:He; case_go.
  - subst. destruct (complete_spec w id p t m Hs Hm) as (r & w' & ? & ? & ?).
    exists r, w'. by split_and!.
  - destruct (reject_spec w id p t m event Hs Hm He) as (r & w' & ? & ? & ?).
    exists r, w'. by split_and!.
Qed.

Lemma settled_stored w id p t event w' :
  stored w id p t → settled w p t event (inl tt) w' →
  ∃ status, status ≠ TransactionStatusPending
    ∧ stored w' id p (t <| Transaction_Status := status |>).
Proof.
  intros Hs. unfold settled.
  assert (∀ status, w_heap w' = heap_write p (t <| Transaction_Status := status |>) (w_heap w) →
    transactions (w_store w') = transactions (w_store w) →
    stored w' id p (t <| Transaction_Status := status |>)) as Hmk.
  { intros status Hh Htx. destruct Hs as (Hid & _ & Ht). split; [by rw Htx|]. split; [|done].
    rw Hh. exact (heap_write_lookup (T := Transaction) p _ (w_heap w)). }
  destruct (event =?s _).
  - intros (a & _ & _ & Hst & Hh). exists TransactionStatusCompleted. split; [done|].
    apply Hmk; [done|]. by rw Hst.
  - intros (Hst & Hh). exists TransactionStatusFailed. split; [done|]. apply Hmk; [done|].
    by rw Hst.
Qed.

(** ** Properties *)

(** C15. Completing a pending withdrawal whose total the balance covers succeeds:
    the balance is charged the total, exactly once and nowhere else, and the
    withdrawal is completed. *)
Theorem completion_charges_once w id p t m a :
  stored w id p t → w_manager w = Some m → pending t → chargeable w t a →
  ∃ w', settleWithdrawal id WebhookEventWithdrawalCompleted w = (Ret (inl tt), w')
    ∧ balance_set balance_of (w_store w) (w_store w') (Transaction_UserID t)
        (Transaction_Currency t)
        (fsub (balance_of (w_store w) (Transaction_UserID t) (Transaction_Currency t)) a)
    ∧ stored w' id p (t <| Transaction_Status := TransactionStatusCompleted |>).
Proof.
  intros Hs Hm Hp Hc.
  destruct (settle_spec w id p t m WebhookEventWithdrawalCompleted Hs Hm)
    as (r & w' & Hrun & Hset & _ & Hok & _).
  specialize (Hok Hp eq_refl a Hc) as ->. exists w'. split; [done|].
  destruct Hset as (a' & Ha' & _ & Hst & Hh). destruct Hc as (Ha & _). split.
  - rw Hst. unfold charged. replace a' with a by congruence. apply put_balance_set.
  - destruct Hs as (Hid & _ & Ht). split; [by rw Hst|]. split; [|done]. rw Hh.
    exact (heap_write_lookup (T := Transaction) p _ (w_heap w)).
Qed.

(** Rejecting a pending withdrawal always succeeds, marks it failed, and
    moves no balance: the store is the one before. *)
Lemma rejection_moves_nothing w id p t m :
  stored w id p t → w_manager w = Some m → pending t →
  ∃ w', settleWithdrawal id WebhookEventWithdrawalRejected w = (Ret (inl tt), w')
    ∧ w_store w' = w_store w
    ∧ stored w' id p (t <| Transaction_Status := TransactionStatusFailed |>).
Proof.
  intros Hs Hm Hp.
  destruct (settle_spec w id p t m WebhookEventWithdrawalRejected Hs Hm)
    as (r & w' & Hrun & Hset & Hok & _).
  specialize (Hok Hp eq_refl) as ->. exists w'. split; [done|].
  destruct Hset as [Hst Hh]. split; [done|]. destruct Hs as (Hid & _ & Ht).
  split; [by rw Hst|]. split; [|done]. rw Hh.
  exact (heap_write_lookup (T := Transaction) p _ (w_heap w)).
Qed.

(** C4. A withdrawal is settled at most once: after a settlement succeeded,
    whatever it was, every further settlement of that withdrawal, whatever the
    event, is refused and changes nothing at all. *)
Theorem settled_at_most_once w id p t m event w1 event' :
  stored w id p t → w_manager w = Some m →
  settleWithdrawal id event w = (Ret (inl tt), w1) →
  ∃ e, settleWithdrawal id event' w1 = (Ret (inr e), w1).
Proof.
  intros Hs Hm Hrun. destruct (settle_spec w id p t m event Hs Hm) as (r & w' & Hrun' & Hset & _).
  rw Hrun' in Hrun. injection Hrun as -> ->.
  destruct (settled_stored w id p t event w1 Hs Hset) as (status & Hne & Hs1).
  destruct (run_check_settlement w1 id p _ event' Hs1) as (checked & Hc & _ & Hp).
  unfold settleWithdrawal. rw (run_bind_ret _ _ _ _ _ Hc).
  destruct checked as [[p' complete]|e]; [|by exists e].
  destruct Hp as (_ & _ & _ & Hst). by apply Hne in Hst.
Qed.

(** A settlement that is refused leaves the whole world as it was, so the
    withdrawal can be settled later. *)
Lemma refused_settlement_changes_nothing w id p t m event e w' :
  stored w id p t → w_manager w = Some m →
  settleWithdrawal id event w = (Ret (inr e), w') → w' = w.
Proof.
  intros Hs Hm Hrun. destruct (settle_spec w id p t m event Hs Hm) as (r & w1 & Hrun' & Hset & _).
  rw Hrun' in Hrun. by injection Hrun as -> ->.
Qed.
End Facts.

(** ** A pending withdrawal, settled *)
Definition demo_withdrawal : Transaction :=
  zero_Transaction <| Transaction_ID := "w1" |> <| Transaction_UserID := "u" |>
    <| Transaction_Amount := "30.00" |> <| Transaction_TotalAmount := "30.00" |>
    <| Transaction_Currency := "USD" |> <| Transaction_DepositType := DepositTypeWithdrawal |>
    <| Transaction_Status := TransactionStatusPending |>.
Definition demo_pending : World MemoryStorage :=
  world_with (put_balance "u" "USD" (f_of_Z 100)
                (NewMemoryStorage <| transactions := <["w1" := 1%positive]> ∅ |>))
    (heap_alloc demo_withdrawal empty_heap).2.

Lemma completion_charges_once_witness :
  ∃ w', settleWithdrawal "w1" WebhookEventWithdrawalCompleted demo_pending = (Ret (inl tt), w')
    ∧ balance_of (w_store w') "u" "USD" = f_of_Z 70.
Proof.
  destruct (completion_charges_once demo_pending "w1" 1%positive demo_withdrawal demo_manager
    (f_of_Z 30)) as (w' & Hrun & [Hb _] & _).
  - by vm_compute.
  - by vm_compute.
  - by vm_compute.
  - split; [by vm_compute|]. split; [by vm_compute; eauto|by vm_compute].
  - exists w'. split; [exact Hrun|]. rw Hb. by vm_compute.
Defined.

Lemma rejection_moves_nothing_witness :
  ∃ w', settleWithdrawal "w1" WebhookEventWithdrawalRejected demo_pending = (Ret (inl tt), w')
    ∧ w_store w' = w_store demo_pending.
Proof.
  destruct (rejection_moves_nothing demo_pending "w1" 1%positive demo_withdrawal demo_manager)
    as (w' & Hrun & Hst & _); try by vm_compute.
  by exists w'.
Defined.

Lemma settled_at_most_once_witness :
  let w1 := (settleWithdrawal "w1" WebhookEventWithdrawalRejected demo_pending).2 in
  ∃ e, settleWithdrawal "w1" WebhookEventWithdrawalCompleted w1 = (Ret (inr e), w1).
Proof.
  apply (settled_at_most_once demo_pending "w1" 1%positive demo_withdrawal demo_manager
    WebhookEventWithdrawalRejected); by vm_compute.
Defined.

Lemma refused_settlement_changes_nothing_witness :
  (settleWithdrawal "w1" "core.withdrawal.unknown" demo_pending).2 = demo_pending.
Proof.
  apply (refused_settlement_changes_nothing demo_pending "w1" 1%positive demo_withdrawal
    demo_manager "core.withdrawal.unknown"
    (badRequest ("unsupported event core.withdrawal.unknown; use "
        +:+ WebhookEventWithdrawalCompleted +:+ " or " +:+ WebhookEventWithdrawalRejected)));
    by vm_compute.
Defined.

(** ** Two settlements at once

    Nothing holds a lock across the check and the charge: two requests can
    both pass the check before either settles. *)
Definition settle_twice_interleaved `{Env} (id event : string) :
    prog (World MemoryStorage) (api_result unit * api_result unit) :=
  first ← check_settlement id event;
  second ← check_settlement id event;
  r1 ← settle_checked first;
  r2 ← settle_checked second;
  mret (r1, r2).

