(* ===== verification/FeesFacts.v ===== *)
(** * What the fee configuration guarantees *)
From Stdlib Require Import Floats.SpecFloat.
From S2P Require Import Prelude GoFloat GoStd Models Config World Memory Api Fees Demo.

(** ** Sequences of admin calls *)
Inductive fee_call : Type :=
| CallGetFees
| CallSetFees (body : option feeResponse)
| CallGetUserFees (userID : string)
| CallSetUserFees (userID : string) (body : option feeUpdateRequest)
| CallClearUserFees (userID : string).

Definition run_fee_call {S} (c : fee_call) : prog (World S) Response :=
  match c with
  | CallGetFees => GetFees
  | CallSetFees body => SetFees body
  | CallGetUserFees userID => GetUserFees userID
  | CallSetUserFees userID body => SetUserFees userID body
  | CallClearUserFees userID => ClearUserFees userID
  end.
Fixpoint run_fee_calls {S} (cs : list fee_call) : prog (World S) (list Response) :=
  match cs with
  | [] => mret []
  | c :: cs => r ← run_fee_call c; rs ← run_fee_calls cs; mret (r :: rs)
  end.

(** Every percentage in force is between 0 and 100. *)
Definition percent_ok (p : f64) : Prop := fee_out_of_range p = false.
Definition override_ok (o : userFeeOverride) : Prop :=
  (∀ p, depositPercent o = Some p → percent_ok p)
  ∧ (∀ p, withdrawalPercent o = Some p → percent_ok p).
Definition fees_ok (fc : FeeConfig) : Prop :=
  percent_ok (depositFeePercent fc) ∧ percent_ok (withdrawalFeePercent fc)
  ∧ map_Forall (fun _ o => override_ok o) (userOverrides fc).

Lemma new_fees_ok : fees_ok NewFeeConfig.
Proof. split; [done|]. split; [done|]. apply map_Forall_empty. Qed.

Lemma opt_in_range p : opt_out_of_range p = false → ∀ x, p = Some x → percent_ok x.
Proof. by destruct p as [y|]; intros Hy x [= <-]. Qed.

Lemma set_user_fees_ok userID d wd fc :
  fees_ok fc → opt_out_of_range d = false → opt_out_of_range wd = false →
  fees_ok (FeeConfig_SetUserFees userID d wd fc).
Proof.
  intros (Hd & Hw & Ho) H1 H2. split; [done|]. split; [done|]. simpl.
  apply map_Forall_insert_2; [|done].
  assert (override_ok (default (mkOverride None None) (userOverrides fc !! userID))) as [Ha Hb].
  { destruct (userOverrides fc !! userID) as [o|] eqn:Ho'; [by eapply Ho|done]. }
  split; intros p; destruct d, wd; simpl; intros Hp; eauto using opt_in_range.
Qed.

Section Facts.
Context {S : Type}.
Implicit Types w : World S.

(** A call touches only the configuration, and keeps it in range. *)
Lemma run_fee_call_ok c w :
  fees_ok (w_fees w) →
  ∃ r fc, run_fee_call c w = (Ret r, w <| w_fees := fc |>) ∧ fees_ok fc.
Proof.
  assert (w = w <| w_fees := w_fees w |>) as Hw by (by destruct w).
  assert (∀ userID (v : World S), ∃ r, GetUserFees userID v = (Ret r, v)) as Hget.
  { intros userID v. unfold GetUserFees, fees. destruct (_ =?s ""); [by eexists|].
    rw run_bind run_gets. destruct (GetDepositFeeForUser _ _), (GetWithdrawalFeeForUser _ _).
    by eexists. }
  intros Hok. destruct c as [|body|userID|userID body|userID]; cbn [run_fee_call].
  - eexists _, (w_fees w). by rw -Hw.
  - unfold SetFees. destruct body as [req|]; [|eexists _, (w_fees w); by rw -Hw].
    destruct (fee_out_of_range (DepositFeePercentage req)) eqn:H1;
      [eexists _, (w_fees w); by rw -Hw|].
    destruct (fee_out_of_range (WithdrawalFeePercentage req)) eqn:H2;
      [eexists _, (w_fees w); by rw -Hw|].
    eexists _, _. split; [reflexivity|]. destruct Hok as (_ & _ & Ho). by split.
  - destruct (Hget userID w) as [r Hr]. exists r, (w_fees w). by rw -Hw Hr.
  - unfold SetUserFees. destruct (userID =?s ""); [eexists _, (w_fees w); by rw -Hw|].
    assert (∀ d wd, opt_out_of_range d = false → opt_out_of_range wd = false →
      ∃ r fc, (set_fees (FeeConfig_SetUserFees userID d wd) ≫= (fun _ => GetUserFees userID)) w
        = (Ret r, w <| w_fees := fc |>) ∧ fees_ok fc) as Hset.
    { intros d wd H1 H2. unfold set_fees. rw run_bind run_modify.
      destruct (Hget userID (w <| w_fees := FeeConfig_SetUserFees userID d wd (w_fees w) |>))
        as [r Hr].
      eexists r, _. split; [exact Hr|]. by apply set_user_fees_ok. }
    destruct body as [[d wd]|]; [|eexists _, (w_fees w); by rw -Hw].
    destruct d as [d|], wd as [wd|]; try (eexists _, (w_fees w); by rw -Hw).
    all: destruct (opt_out_of_range _) eqn:H1;
    [solve [discriminate H1 | eexists _, (w_fees w); by rw -Hw]|].
    all: destruct (opt_out_of_range _) eqn:H2 in |- *;
    [solve [discriminate H2 | eexists _, (w_fees w); by rw -Hw]|].
    all: by apply Hset.
  - unfold ClearUserFees. destruct (userID =?s ""); [eexists _, (w_fees w); by rw -Hw|].
    unfold set_fees. rw run_bind run_modify.
    destruct (Hget userID (w <| w_fees := FeeConfig_ClearUserFees userID (w_fees w) |>)) as [r Hr].
    eexists r, _. split; [exact Hr|]. destruct Hok as (? & ? & Ho). split; [done|].
    split; [done|]. by apply map_Forall_delete.
Qed.
End Facts.

(** ** Properties *)


Definition demo_fee_calls : list fee_call :=
  [CallSetFees (Some (mkFeeResponse (f_of_Z 2) (f_of_Z 101)));
   CallSetUserFees "u" (Some (mkFeeUpdate (Some (f_of_Z 5)) None)); CallGetUserFees "u"].

(** Overrides win, partially and per user: setting one percentage for a user
    makes it that user's, leaves the user's other percentage and everybody
    else's alone, and clearing the override brings back the global ones. *)
Lemma user_override_precedence (userID : string) (d wd : option f64) (fc : FeeConfig) :
  let fc' := FeeConfig_SetUserFees userID d wd fc in
  GetDepositFeeForUser userID fc' =
    match d with Some p => (p, true) | None => GetDepositFeeForUser userID fc end
  ∧ GetWithdrawalFeeForUser userID fc' =
    match wd with Some p => (p, true) | None => GetWithdrawalFeeForUser userID fc end
  ∧ (∀ other, other ≠ userID →
       GetDepositFeeForUser other fc' = GetDepositFeeForUser other fc
       ∧ GetWithdrawalFeeForUser other fc' = GetWithdrawalFeeForUser other fc)
  ∧ GetDepositFeeForUser userID (FeeConfig_ClearUserFees userID fc') = (depositFeePercent fc, false)
  ∧ GetWithdrawalFeeForUser userID (FeeConfig_ClearUserFees userID fc')
    = (withdrawalFeePercent fc, false).
Proof.
  cbn zeta. unfold GetDepositFeeForUser, GetWithdrawalFeeForUser, FeeConfig_SetUserFees,
    FeeConfig_ClearUserFees. cbn. rw lookup_insert_eq lookup_delete_eq.
  split_and!; try done.
  - destruct (userOverrides fc !! userID) as [[[]]|], d, wd; done.
  - destruct (userOverrides fc !! userID) as [[? []]|], d, wd; done.
  - intros other Hne. by rw lookup_insert_ne.
Qed.

(** The fee of a non-negative amount at a percentage in range is a
    non-negative number: never NaN, never a rebate. *)
Lemma fee_is_nonnegative (amount percent : f64) :
  valid64 amount → valid64 percent → is_finite amount = true → is_finite percent = true →
  fle fzero amount = true → percent_ok percent →
  valid64 (CalculateFee amount percent) ∧ fle fzero (CalculateFee amount percent) = true.
Proof.
  intros Ha Hp Hfa Hfp H0 Hok. unfold CalculateFee.
  assert (fle fzero percent = true) as Hp0.
  { unfold percent_ok, fee_out_of_range in Hok. apply orb_false_iff in Hok as [Hlt _].
    by destruct percent as [|[]| |[]]. }
  assert (valid64 (fdiv (fmul amount percent) (f_of_Z 100))
          ∧ fle fzero (fdiv (fmul amount percent) (f_of_Z 100)) = true) as [Hv Hn].
  { split; [eauto 6 with f64|]. apply fdiv_nonneg; [|done|done]. by apply fmul_nonneg. }
  set (raw := fdiv (fmul amount percent) (f_of_Z 100)) in *.
  split; [eauto 8 with f64|]. apply fdiv_nonneg; [|done|done]. apply math_Round_nonneg.
  destruct (is_finite raw) eqn:Hf.
  - by apply fmul_nonneg.
  - destruct raw as [|[]| |]; try done.
Qed.

Lemma fee_is_nonnegative_witness :
  CalculateFee (f_lit 12345 2) (f_lit 25 1) = f_lit 309 2
  ∧ fle fzero (CalculateFee (f_lit 12345 2) (f_lit 25 1)) = true.
Proof. split; [by vm_compute|]. apply fee_is_nonnegative; by vm_compute. Defined.
