(* ===== verification/AuthFacts.v ===== *)
(** * What request authentication guarantees *)
From S2P Require Import Prelude GoFloat GoStd Crypto World Api GoText Auth Demo Memory.

(** ** Trimming *)
Lemma trim_left_snoc p (l : list ascii) c :
  p c = true → trim_left_by p l ≠ [] → trim_left_by p (l ++ [c]) = trim_left_by p l ++ [c].
Proof. intros Hc. induction l as [|x l IH]; simpl; [done|]. destruct (p x); [done|]. done. Qed.

Lemma trim_left_all p (l : list ascii) c :
  p c = true → trim_left_by p l = [] → trim_left_by p (l ++ [c]) = [].
Proof. intros Hc. induction l as [|x l IH]; simpl; [by rw Hc|]. by destruct (p x). Qed.

Lemma trim_right_snoc p (l : list ascii) c :
  p c = true → trim_right_by p (l ++ [c]) = trim_right_by p l.
Proof. intros Hc. unfold trim_right_by. by rw rev_app_distr /= Hc. Qed.

Lemma Trim_snoc c s : Trim c (s +:+ String c "") = Trim c s.
Proof.
  unfold Trim. f_equal. rw chars_app. change (chars (String c "")) with [c].
  assert (is_char c c = true) as Hc by (by apply bool_decide_eq_true).
  destruct (decide (trim_left_by (is_char c) (chars s) = [])) as [He|Hne].
  - by rw (trim_left_all _ _ _ Hc He) He.
  - by rw (trim_left_snoc _ _ _ Hc Hne) (trim_right_snoc _ _ _ Hc).
Qed.

Lemma str_app_assoc a b c : (a +:+ b) +:+ c = a +:+ (b +:+ c).
Proof. apply chars_inj. by rw !chars_app app_assoc. Qed.

(** ** The middleware *)
Definition public (path : string) : bool :=
  existsb (str_eqb path) PublicEndpoints || matchesPublicPattern path.

(** The signature the middleware expects of a request under [secret]. *)
Definition expected_signature (r : IncomingRequest) (body secret : string) : string :=
  GenerateSignature (in_header r "x-gatehub-timestamp") (in_method r) (reconstructURL r) body secret.

Lemma hex_signature_length ts m u b s : String.length (GenerateSignature ts m u b s) = 64%nat.
Proof.
  unfold GenerateSignature. by rw hex_EncodeToString_length hmac_sha256_length.
Qed.

Lemma nonempty_length s : String.length s ≠ 0%nat → s ≠ "".
Proof. by intros H ->. Qed.

(** A request that carries its own signature under a registered secret. *)
Definition signed (creds : gmap string string) (r : IncomingRequest) : Prop :=
  in_header r "x-gatehub-app-id" ≠ "" ∧ in_header r "x-gatehub-timestamp" ≠ ""
  ∧ ∃ secret body,
      creds !! in_header r "x-gatehub-app-id" = Some secret
      ∧ in_body r = Ok body
      ∧ in_header r "x-gatehub-signature" = expected_signature r body secret.

Lemma admitted_iff creds r : Middleware creds r = None ↔ public (in_path r) = true ∨ signed creds r.
Proof.
  unfold Middleware, public, signed, expected_signature.
  destruct (existsb _ _); [split; [by left|done]|].
  destruct (matchesPublicPattern _); [split; [by left|done]|].
  cbn [orb]. set (app := in_header r "x-gatehub-app-id").
  set (ts := in_header r "x-gatehub-timestamp"). set (sig := in_header r "x-gatehub-signature").
  destruct ((app =?s "") || (ts =?s "") || (sig =?s "")) eqn:He.
  { split; [done|]. intros [?|(Ha & Ht & secret & body & _ & _ & Hsig)]; [done|].
    apply orb_true_iff in He as [[He|He]%orb_true_iff|He]; apply str_eqb_eq in He; try done.
    exfalso. apply (nonempty_length sig); [|done]. by rw Hsig hex_signature_length. }
  case_go. destruct (creds !! app) as [secret|] eqn:Hs.
  2: { split; [done|]. by intros [?|(_ & _ & ? & ? & ? & _)]. }
  destruct (in_body r) as [body|e] eqn:Hb.
  2: { split; [done|]. by intros [?|(_ & _ & ? & ? & _ & ? & _)]. }
  destruct (sig =?s _) eqn:Hsig; cbn [negb]; case_go.
  - split; [|done]. intros _. right. split; [done|]. split; [done|]. by exists secret, body.
  - split; [done|]. intros [?|(_ & _ & s' & b' & Hs' & Hb' & Hsig')]; [done|].
    exfalso. apply Hsig. by injection Hs' as <-; injection Hb' as <-.
Qed.

(** C11. The only way past the middleware: a request is handed on exactly when
    its path is public, or it names a registered application, carries a
    timestamp, its body can be read, and its signature is the one of its own
    timestamp, method, URL and body under that application's secret. *)
Theorem middleware_admits_iff (creds : gmap string string) (r : IncomingRequest) :
  Middleware creds r = None ↔
  public (in_path r) = true
  ∨ in_header r "x-gatehub-app-id" ≠ "" ∧ in_header r "x-gatehub-timestamp" ≠ ""
    ∧ ∃ secret body,
        creds !! in_header r "x-gatehub-app-id" = Some secret
        ∧ in_body r = Ok body
        ∧ in_header r "x-gatehub-signature" = expected_signature r body secret.
Proof. apply admitted_iff. Qed.

(** ** Signing and verifying *)

(** The request a server sees when [r] was sent to it over plain HTTP with
    [body]: same method, path, query and headers, and the host it was sent to. *)
Definition received (r : OutgoingRequest) (body : string) : IncomingRequest :=
  mkIncoming (out_method r) (out_path r) (out_rawQuery r)
    (if out_urlHost r =?s "" then out_host r else out_urlHost r) false
    (fun k => default "" (assoc k (out_headers r))) (Ok body).

Lemma Itoa_nonempty n : Itoa n ≠ "".
Proof.
  unfold Itoa. destruct (Z.ltb_spec n 0); [done|].
  destruct (nat_string_spec n) as (ds & Hc & Hne & _); [lia|].
  intros He. rw He in Hc. by destruct ds.
Qed.

Lemma signing_headers ts sig hs :
  let signed := assoc_set "x-gatehub-app-id" "mockgatehub"
    (assoc_set "x-gatehub-signature" sig (assoc_set "x-gatehub-timestamp" ts hs)) in
  assoc "x-gatehub-app-id" signed = Some "mockgatehub"
  ∧ assoc "x-gatehub-timestamp" signed = Some ts
  ∧ assoc "x-gatehub-signature" signed = Some sig
  ∧ ∀ k, HasPrefix "x-gatehub-" k = false → assoc k signed = assoc k hs.
Proof.
  cbn zeta. split; [by rw assoc_set_eq|]. split.
  { rw assoc_set_ne; [|done]. rw assoc_set_ne; [|done]. by rw assoc_set_eq. }
  split; [by rw assoc_set_ne; [rw assoc_set_eq|]|].
  intros k Hk. by rw !assoc_set_ne; [|intros ->; discriminate Hk..].
Qed.

#[local] Opaque GenerateSignature.

(** Round trip: whatever [SignRequest] signs, the middleware of a server
    that knows this service under the same secret lets through, for every
    method, path, query, host and body. *)
Lemma signed_requests_are_admitted `{Env} {S} (r : OutgoingRequest) (secret body : string)
    (creds : gmap string string) (w : World S) :
  creds !! "mockgatehub" = Some secret →
  out_scheme r = "" ∨ out_scheme r = "http" →
  assoc "X-Forwarded-Proto" (out_headers r) = None →
  assoc "X-Forwarded-Host" (out_headers r) = None →
  ∃ signed w', SignRequest r secret body w = (Ret signed, w')
    ∧ Middleware creds (received signed body) = None.
Proof.
  intros Hc Hscheme Hp Hh. unfold SignRequest. rw run_bind run_time_Now.
  eexists _, _. split; [reflexivity|].
  set (ts := Itoa _). set (sig := GenerateSignature _ _ _ _ _).
  destruct (signing_headers ts sig (out_headers r)) as (Ha & Ht & Hs & Hne).
  set (hs := assoc_set _ _ _) in *.
  apply middleware_admits_iff. right. unfold received. cbn [in_header in_body out_headers upd].
  cbn beta. rw Ha Ht Hs. cbn [default]. split; [done|]. split; [apply Itoa_nonempty|].
  exists secret, body. split; [done|]. split; [done|].
  unfold expected_signature, reconstructURL.
  cbn [in_header in_method in_host in_tls in_path in_rawQuery out_headers out_method out_path
       out_rawQuery out_urlHost out_host upd].
  rw Ht (Hne "X-Forwarded-Proto") //. rw (Hne "X-Forwarded-Host") //. rw Hp Hh. cbn.
  subst sig. f_equal. unfold buildOutgoingURL. by destruct Hscheme as [-> | ->].
Qed.

Definition demo_outgoing : OutgoingRequest :=
  mkOutgoing "POST" "" "wallet:3000" "" "/api/hook" "a=1" [].
Lemma signed_requests_are_admitted_witness :
  ∃ signed w', SignRequest demo_outgoing "s3cret" "{}" demo_world = (Ret signed, w')
    ∧ Middleware {["mockgatehub" := "s3cret"]} (received signed "{}") = None.
Proof. by apply (signed_requests_are_admitted demo_outgoing "s3cret"); [|left|..]. Defined.

#[local] Transparent GenerateSignature.

(** What a signature does not cover: bars at the end of the body are
    trimmed away, and a bar at the end of the method reads the same as one at
    the start of the URL, so distinct requests share a signature. *)
Lemma signature_not_injective (timestamp method url body secret : string) :
  GenerateSignature timestamp method url (body +:+ "|") secret
    = GenerateSignature timestamp method url body secret
  ∧ GenerateSignature timestamp (method +:+ "|") url body secret
    = GenerateSignature timestamp method ("|" +:+ url) body secret.
Proof.
  unfold GenerateSignature, signed_message. split; do 3 f_equal.
  - rw -(Trim_snoc "|" (timestamp +:+ "|" +:+ method +:+ "|" +:+ url +:+ "|" +:+ body)).
    by rw !str_app_assoc.
  - by rw !str_app_assoc.
Qed.
