(* ===== verification/CardFacts.v ===== *)
(** * What the card handlers guarantee

    The status machine of a card, the endpoints that drive it, the derived
    card numbers and the pages of the listings. *)
From S2P Require Import Prelude GoFloat GoStd GoText Consts Models Config World Memory Api.
From S2P Require Import Crypto CardNumbers Cards Demo.
From S2P Require Storage.

(** ** The status machine *)
Inductive card_op : Type :=
| OpLock (reason : string)
| OpUnlock
| OpBlock (reason : string)
| OpDelete.
Definition card_step (op : card_op) : Card → result Card :=
  match op with
  | OpLock reason => lock_card reason
  | OpUnlock => unlock_card
  | OpBlock reason => block_card reason
  | OpDelete => delete_card
  end.

(** A refused operation leaves the card. *)
Definition card_after (c : Card) (op : card_op) : Card :=
  match card_step op c with Ok c' => c' | Err _ => c end.
Definition run_card_ops (ops : list card_op) (c : Card) : Card := fold_left card_after ops c.

(** A lock level is set exactly while the card is temporarily blocked. *)
Definition lock_consistent (c : Card) : Prop :=
  is_Some (Card_LockLevel c) ↔ Card_Status c = CardStatusTemporaryBlocked.

Ltac split_ifs := repeat match goal with |- context [if ?b then _ else _] => destruct b end.

(** What an accepted operation leaves: a locked card with its reason, or an
    unlocked one without. *)
Lemma card_step_shape op c c' :
  card_step op c = Ok c' →
  Card_ID c' = Card_ID c
  ∧ (Card_Status c' = CardStatusTemporaryBlocked ∧ is_Some (Card_LockLevel c')
     ∨ Card_Status c' ≠ CardStatusTemporaryBlocked ∧ Card_LockLevel c' = None).
Proof.
  destruct op as [reason| |reason|]; cbn [card_step]; unfold lock_card, unlock_card, block_card,
    delete_card; cbn zeta.
  - split_ifs; try discriminate; intros [= <-]; (split; [reflexivity|]); left; cbn; eauto.
  - split_ifs; try discriminate; intros [= <-]; (split; [reflexivity|]); right; by split.
  - split_ifs; try discriminate; intros [= <-]; (split; [reflexivity|]); right; by split.
  - split_ifs; try discriminate; intros [= <-]; (split; [reflexivity|]); right; by split.
Qed.

Lemma card_after_lock_consistent op c : lock_consistent c → lock_consistent (card_after c op).
Proof.
  unfold lock_consistent, card_after. intros Hc.
  destruct (card_step op c) as [c'|] eqn:Hs; [|exact Hc].
  apply card_step_shape in Hs as [_ [[Hst Hl]|[Hst Hl]]]; [by split|].
  rw Hl. split; [by intros []|]. intros ?. contradiction.
Qed.

(** An operation never touches the identity of a card. *)
Lemma card_step_id op c c' : card_step op c = Ok c' → Card_ID c' = Card_ID c.
Proof. intros Hs. by apply card_step_shape in Hs as [? _]. Qed.

Lemma card_after_final op c : Card_Status c = CardStatusSoftDelete → card_after c op = c.
Proof. intros Hc. unfold card_after. destruct op; cbn; unfold lock_card, unlock_card, block_card, delete_card; by rw Hc. Qed.

Lemma card_after_blocked op c :
  Card_Status c = CardStatusBlocked →
  Card_Status (card_after c op) = CardStatusBlocked
  ∨ Card_Status (card_after c op) = CardStatusSoftDelete.
Proof.
  intros Hc. unfold card_after.
  destruct op; cbn; unfold lock_card, unlock_card, block_card, delete_card; rw Hc; cbn; auto.
Qed.

(** C14. The life of a card, over any sequence of operations with any reasons: a
    deleted card never changes again; a blocked one stays blocked until it is
    deleted; a lock level is set exactly while the card is temporarily blocked;
    and unlocking an active card that was locked gives back the same card but
    for the mark that it was locked once. *)
Theorem card_lifecycle (ops : list card_op) (c : Card) :
  (Card_Status c = CardStatusSoftDelete → run_card_ops ops c = c)
  ∧ (Card_Status c = CardStatusBlocked →
       Card_Status (run_card_ops ops c) = CardStatusBlocked
       ∨ Card_Status (run_card_ops ops c) = CardStatusSoftDelete)
  ∧ (lock_consistent c → lock_consistent (run_card_ops ops c))
  ∧ (Card_Status c = CardStatusActive → Card_LockLevel c = None → ∀ reason,
       run_card_ops [OpLock reason; OpUnlock] c = c <| Card_IsFirstTimeLock := true |>).
Proof.
  split_and!.
  - intros Hc. unfold run_card_ops. induction ops as [|op ops IH]; [done|].
    cbn [fold_left]. by rw card_after_final.
  - assert (∀ c, Card_Status c = CardStatusBlocked ∨ Card_Status c = CardStatusSoftDelete →
      Card_Status (run_card_ops ops c) = CardStatusBlocked
      ∨ Card_Status (run_card_ops ops c) = CardStatusSoftDelete) as Hg; [|by auto].
    unfold run_card_ops. induction ops as [|op ops IH]; intros c' Hc'; [done|].
    cbn [fold_left]. apply IH. destruct Hc' as [Hc'|Hc']; [by apply card_after_blocked|].
    rw card_after_final; auto.
  - revert c. unfold run_card_ops. induction ops as [|op ops IH]; intros c Hc; [done|].
    cbn [fold_left]. by apply IH, card_after_lock_consistent.
  - intros Hs Hl reason. unfold run_card_ops, card_after. cbn [fold_left card_step].
    unfold lock_card, unlock_card. rw Hs. cbn.
    destruct (Card_IsFirstTimeLock c) eqn:Hb; cbn; destruct c; cbn in *; by subst.
Qed.

(** ** The endpoints *)
Section Endpoints.
Context `{Env}.
Implicit Types w : World MemoryStorage.

(** The endpoint of an operation. *)
Definition card_endpoint (op : card_op) (cardID : string) : prog (World MemoryStorage) Response :=
  match op with
  | OpLock reason => LockCard cardID reason
  | OpUnlock => UnlockCard cardID
  | OpBlock reason => BlockCard cardID reason
  | OpDelete => DeleteCard cardID
  end.

Definition card_stored (w : World MemoryStorage) (id : string) (p : loc) (c : Card) : Prop :=
  cards (w_store w) !! id = Some p ∧ heap_cards (w_heap w) !! p = Some c
  ∧ Card_ID c = id ∧ id ≠ "".

Lemma run_GetCard id w :
  Memory.GetCard id w = (Ret (match cards (w_store w) !! id with
                       | Some p => Ok p | None => Err "card not found" end), w).
Proof. unfold Memory.GetCard, store. rw run_bind run_gets. by destruct (_ !! id). Qed.

Lemma run_UpdateCard p id c w :
  card_stored w id p c → UpdateCard p w = (Ret (Ok tt), w).
Proof.
  intros (Hid & Hp & Hc & Hne). unfold UpdateCard.
  change (cells (T := Card) (w_heap w) !! p = Some c) in Hp.
  rw (run_bind_ret _ _ _ _ _ (run_deref p c w Hp)). rw Hc (str_eqb_ne _ _ Hne).
  unfold store. rw run_bind run_gets Hid. unfold put. rw run_bind run_modify. cbn.
  destruct w as [s ? ? ? ? ? ? ? ? ?]. unfold nil_error. rw run_mret. cbn in *. do 2 f_equal.
  destruct s. cbn in *. f_equal. by apply insert_id.
Qed.

Lemma change_card_refused id p c step failed answer e w :
  card_stored w id p c → step c = Err e →
  change_card id step failed answer w = (Ret (sendError StatusBadRequest e), w).
Proof.
  intros (Hid & Hp & _) Hstep. unfold change_card. rw run_bind.
  change (Storage.GetCard (S := MemoryStorage)) with Memory.GetCard. rw run_GetCard Hid.
  change (cells (T := Card) (w_heap w) !! p = Some c) in Hp.
  rw (run_bind_ret _ _ _ _ _ (run_deref p c w Hp)). by rw Hstep.
Qed.

Lemma change_card_done id p c c' step failed answer w :
  card_stored w id p c → step c = Ok c' → Card_ID c' = id →
  change_card id step failed answer w
  = (Ret (sendJSON StatusOK (answer c')), w <| w_heap := heap_write p c' (w_heap w) |>).
Proof.
  intros (Hid & Hp & Hc & Hne) Hstep Hc'. unfold change_card. rw run_bind.
  change (Storage.GetCard (S := MemoryStorage)) with Memory.GetCard. rw run_GetCard Hid.
  change (cells (T := Card) (w_heap w) !! p = Some c) in Hp.
  rw (run_bind_ret _ _ _ _ _ (run_deref p c w Hp)). rw Hstep.
  rw (run_bind_ret _ _ _ _ _ (run_assign p c c' w Hp)).
  set (w1 := w <| w_heap := _ |>).
  assert (cells (T := Card) (w_heap w1) !! p = Some c') as Hp1 by apply heap_write_lookup.
  rw run_bind. change (Storage.UpdateCard (S := MemoryStorage)) with Memory.UpdateCard.
  rw (run_UpdateCard p id c'); [|done]. cbn iota.
  by rw (run_bind_ret _ _ _ _ _ (run_deref p c' w1 Hp1)).
Qed.

Definition endpoint_answer (op : card_op) (c : Card) : json :=
  match op with OpDelete => JObj [("success", JBool true)] | _ => json_of_Card c end.

Lemma marshals_optstr s : marshals (JOptStr s) = true.
Proof. by destruct s. Qed.

Lemma marshals_card c : marshals (json_of_Card c) = true.
Proof. unfold json_of_Card. cbn [marshals forallb snd]. by rw !marshals_optstr. Qed.

(** C29. The endpoints follow the machine: for a stored card, an operation the
    machine refuses answers 400 and changes nothing; one it accepts answers
    200 and replaces that one card by the machine's next state. *)
Theorem card_endpoints_follow_machine (op : card_op) id p c w :
  card_stored w id p c →
  match card_step op c with
  | Err e => card_endpoint op id w = (Ret (sendError StatusBadRequest e), w)
  | Ok c' => card_endpoint op id w
      = (Ret (sendJSON StatusOK (endpoint_answer op c')),
         w <| w_heap := heap_write p c' (w_heap w) |>)
      ∧ marshals (endpoint_answer op c') = true
  end.
Proof.
  intros Hs. destruct (card_step op c) as [c'|e] eqn:Hstep.
  - assert (Card_ID c' = id) as Hid.
    { rw (card_step_id op c c' Hstep). by destruct Hs as (_ & _ & ? & _). }
    split; [|by destruct op; [apply marshals_card..|done]].
    destruct op; exact (change_card_done id p c c' _ _ _ w Hs Hstep Hid).
  - destruct op; exact (change_card_refused id p c _ _ _ e w Hs Hstep).
Qed.
End Endpoints.

Definition demo_card : Card :=
  zero_Card <| Card_ID := "c1" |> <| Card_Status := CardStatusActive |>.
Definition demo_cards : World MemoryStorage :=
  world_with (NewMemoryStorage <| cards := <["c1" := 1%positive]> ∅ |>)
    (heap_alloc demo_card empty_heap).2.
Lemma card_endpoints_follow_machine_witness :
  (card_endpoint (OpBlock "Lost") "c1" demo_cards).2
  = demo_cards <| w_heap := heap_write 1%positive
      (demo_card <| Card_Status := CardStatusBlocked |>
                 <| Card_StatusReasonCode := Some "Lost" |>) (w_heap demo_cards) |>.
Proof.
  destruct (card_endpoints_follow_machine (OpBlock "Lost") "c1" 1%positive demo_card demo_cards)
    as (Hrun & _); [by vm_compute|]. by rw Hrun.
Defined.

(** ** Pages *)
Section Pages.
Context {W A : Type}.
Implicit Types (items : list A) (w : W).

(** The [n]-th page of [size] items. *)
Definition page (n size : nat) items : list A := firstn size (skipn ((n - 1) * size) items).

Lemma run_slice_range lo hi items w :
  0 <= lo <= hi → hi <= Z.of_nat (length items) →
  slice_range lo hi items w
  = (Ret (firstn (Z.to_nat (hi - lo)) (skipn (Z.to_nat lo) items)), w).
Proof.
  intros Hlo Hhi. unfold slice_range.
  replace ((0 <=? lo) && (lo <=? hi) && (hi <=? Z.of_nat (length items))) with true by lia. done.
Qed.

Lemma firstn_past {B} n m (l : list B) :
  (length l <= n)%nat → (length l <= m)%nat → firstn n l = firstn m l.
Proof. intros Hn Hm. by rw !firstn_all2. Qed.

(** Without overflow, [paginate] returns the page. *)
Lemma run_paginate (n size : nat) items w :
  (1 <= n)%nat → (1 <= size)%nat →
  Z.of_nat n * Z.of_nat size <= int_max →
  paginate items (Z.of_nat n) (Z.of_nat size) w = (Ret (page n size items), w).
Proof.
  intros Hn Hs Hmax. unfold paginate.
  assert (0 <= (Z.of_nat n - 1) * Z.of_nat size) as H0 by nia.
  assert ((Z.of_nat n - 1) * Z.of_nat size + Z.of_nat size <= int_max) as H1 by nia.
  unfold int_max in *.
  assert (int_min <= 0) by done. unfold int_min in *.
  rw (wrap64_id (Z.of_nat n - 1)); [|unfold int_min, int_max; nia].
  rw (wrap64_id ((Z.of_nat n - 1) * Z.of_nat size)); [|unfold int_min, int_max; nia].
  set (start := (Z.of_nat n - 1) * Z.of_nat size) in *.
  assert (Z.to_nat start = ((n - 1) * size)%nat) as Hst.
  { subst start. rw Z2Nat.inj_mul; [|lia|lia]. f_equal; lia. }
  unfold page. destruct (Z.leb_spec (Z.of_nat (length items)) start) as [Hle|Hlt].
  { rw skipn_all2; [by rw firstn_nil|lia]. }
  rw (wrap64_id (start + Z.of_nat size)); [|unfold int_min, int_max; lia].
  destruct (Z.ltb_spec (Z.of_nat (length items)) (start + Z.of_nat size)).
  - rw run_slice_range; [|lia|lia]. rw Hst. do 2 f_equal.
    apply firstn_past; rw length_skipn; lia.
  - rw run_slice_range; [|lia|lia]. rw Hst. do 3 f_equal. lia.
Qed.

Lemma firstn_skipn_firstn {B} j n (l : list B) : firstn j l ++ firstn n (skipn j l) = firstn (j + n) l.
Proof.
  revert l. induction j as [|j IH]; intros [|x l]; [done|done|by rw /= firstn_nil|].
  cbn [firstn skipn app Nat.add]. f_equal. apply IH.
Qed.

Lemma pages_concat (k size : nat) items :
  concat (map (fun n => page n size items) (seq 1 k)) = firstn (k * size) items.
Proof.
  induction k as [|k IH]; [done|].
  rw seq_S map_app concat_app IH. cbn [map concat]. rw app_nil_r. unfold page.
  replace (1 + k - 1)%nat with k by lia. replace (S k * size)%nat with (k * size + size)%nat by lia.
  apply firstn_skipn_firstn.
Qed.
End Pages.

Lemma totalPages_spec (records size : nat) :
  (1 <= size)%nat → Z.of_nat records + Z.of_nat size <= int_max →
  ∃ k, totalPages (Z.of_nat records) (Z.of_nat size) = Z.of_nat k ∧ (1 <= k)%nat
    ∧ (records <= k * size)%nat ∧ (records = 0%nat ∨ ((k - 1) * size < records)%nat).
Proof.
  intros Hs Hmax. unfold totalPages. destruct (Z.leb_spec (Z.of_nat size) 0); [lia|].
  unfold int_max in Hmax.
  rw (wrap64_id (_ + _)); [|unfold int_min, int_max; lia].
  rw wrap64_id; [|unfold int_min, int_max; lia].
  rw Z.quot_div_nonneg; [|lia|lia].
  set (p := (Z.of_nat records + Z.of_nat size - 1) / Z.of_nat size).
  assert (Z.of_nat records <= p * Z.of_nat size
          ∧ (p - 1) * Z.of_nat size < Z.of_nat records) as [H1 H2].
  { subst p. pose proof (Z.div_mod (Z.of_nat records + Z.of_nat size - 1) (Z.of_nat size) ltac:(lia)).
    pose proof (Z.mod_pos_bound (Z.of_nat records + Z.of_nat size - 1) (Z.of_nat size) ltac:(lia)).
    nia. }
  assert (0 <= p) by (apply Z.div_pos; lia).
  destruct (Z.eqb_spec p 0) as [Hp|Hp].
  - exists 1%nat. rw Hp in H1. split; [done|]. split; [lia|]. split; [lia|]. left. lia.
  - exists (Z.to_nat p). split; [lia|]. split; [lia|]. split; nia.
Qed.

(** Pagination loses and repeats nothing: for any page size a request can
    have, every page up to the reported total is returned without a panic, and
    the pages put together are exactly the items, in order. *)
Lemma pages_partition_items {W A} (items : list A) (size : nat) (w : W) :
  (1 <= size <= 200)%nat → Z.of_nat (length items) <= 2 ^ 62 →
  ∃ k, totalPages (Z.of_nat (length items)) (Z.of_nat size) = Z.of_nat k ∧ (1 <= k)%nat
    ∧ (∀ n, (1 <= n <= k)%nat →
         paginate items (Z.of_nat n) (Z.of_nat size) w = (Ret (page n size items), w))
    ∧ concat (map (fun n => page n size items) (seq 1 k)) = items.
Proof.
  intros [Hs Hs2] Hlen.
  destruct (totalPages_spec (length items) size Hs) as (k & Hk & Hk1 & Hall & Hlast);
    [unfold int_max; lia|].
  exists k. split; [done|]. split; [done|]. split.
  - intros n [Hn Hnk]. apply run_paginate; [done|done|]. unfold int_max.
    destruct Hlast as [H0|Hlast].
    + assert (k = 1%nat) as ->.
      { destruct (decide (k = 1%nat)) as [|Hne]; [done|]. exfalso. revert Hk. rw H0.
        unfold totalPages. destruct (Z.leb_spec (Z.of_nat size) 0); [lia|].
        rw (wrap64_id (_ + _)); [|unfold int_min, int_max; lia].
        rw wrap64_id; [|unfold int_min, int_max; lia].
        rw Z.quot_small; [cbn; lia|lia]. }
      nia.
    + nia.
  - rw pages_concat. by rw firstn_all2.
Qed.

(** The overflow behind a large page number: the query parameters accept
    it, the 64-bit product wraps to a negative start, and the slice panics
    instead of returning an empty page, whatever is listed. *)
Lemma huge_page_number_panics {W A} (items : list A) (w : W) :
  parsePagination "46116860184273881" "200" = (46116860184273881, 200)
  ∧ paginate items 46116860184273881 200 w = (Panic "slice bounds out of range", w).
Proof.
  split; [by vm_compute|]. unfold paginate.
  replace (wrap64 (wrap64 (46116860184273881 - 1) * 200)) with (-9223372036854775616) by done.
  destruct (Z.leb_spec (Z.of_nat (length items)) (-9223372036854775616)); [lia|].
  replace (wrap64 (-9223372036854775616 + 200)) with (-9223372036854775416) by done.
  destruct (Z.ltb_spec (Z.of_nat (length items)) (-9223372036854775416)); [lia|].
  done.
Qed.

(** ** Derived numbers *)
Lemma masked_word_range sum : 0 <= masked_word sum <= 2147483647.
Proof.
  unfold masked_word. replace 2147483647 with (Z.ones 31) by done. rw Z.land_ones; [|lia].
  pose proof (Z.mod_pos_bound (be_value (firstn 4 sum) 0) (2 ^ 31) ltac:(lia)).
  change (Z.ones 31) with (2 ^ 31 - 1). lia.
Qed.

Lemma digit_of_digit d : 0 <= d < 10 → is_digit (digit_of d) = true.
Proof.
  intros Hd. assert (d = 0 ∨ d = 1 ∨ d = 2 ∨ d = 3 ∨ d = 4 ∨ d = 5 ∨ d = 6 ∨ d = 7 ∨ d = 8 ∨ d = 9)
    as Hc by lia.
  by destruct Hc as [->|[->|[->|[->|[->|[->|[->|[->|[->| ->]]]]]]]]].
Qed.

Lemma hash_digits_spec n text :
  (n <= 32)%nat →
  String.length (hash_digits n text) = n ∧ forallb is_digit (chars (hash_digits n text)) = true.
Proof.
  intros Hn. unfold hash_digits. rw length_of_chars chars_of_chars length_map length_firstn.
  rw Sum256_length. split; [lia|]. apply forallb_forall. intros c Hc.
  apply in_map_iff in Hc as (b & <- & _). apply digit_of_digit, Z.mod_pos_bound. lia.
Qed.

Section Numbers.
Context {S : Type} `{EnvLaws}.
Implicit Types w : World S.

Lemma run_randomDigits n w r w' :
  randomDigits n w = (Ret r, w') → String.length r = n ∧ forallb is_digit (chars r) = true.
Proof.
  revert w r. induction n as [|n IH]; intros w r; cbn [randomDigits]; [by intros [= <- <-]|].
  unfold rand_Int, tick. run_binds.
  destruct (env_int (w_ticks w) 10) as [v|] eqn:Hv; [|done].
  apply env_int_range in Hv. run_binds.
  destruct (randomDigits n _) as [[rest|msg] w1] eqn:Hrest; [|done]. intros [= <- <-].
  apply IH in Hrest as [Hl Hd]. cbn [String.length chars forallb]. rw Hl Hd digit_of_digit; done.
Qed.

(** The numbers a card is shown with: a derived PIN is one the PIN policy
    accepts (four digits) and a derived PAN has sixteen digits, whether they
    come from the hash of the card id or from the random source. *)
Lemma derived_pin_and_pan (cardID : string) w pin w1 pan w2 :
  generateCardPIN cardID w = (Ret pin, w1) → generateUnmaskedPAN cardID w = (Ret pan, w2) →
  isPlausiblePIN pin = true ∧ String.length pin = 4%nat
  ∧ String.length pan = 16%nat ∧ forallb is_digit (chars pan) = true.
Proof.
  unfold generateCardPIN, generateUnmaskedPAN, isPlausiblePIN. intros Hpin Hpan.
  assert (String.length pin = 4%nat ∧ forallb is_digit (chars pin) = true) as [Hl Hd].
  { destruct (cardID =?s ""); [by eapply run_randomDigits|]. injection Hpin as <- _.
    apply hash_digits_spec. lia. }
  assert (String.length pan = 16%nat ∧ forallb is_digit (chars pan) = true) as [Hl' Hd'].
  { destruct (cardID =?s ""); [by eapply run_randomDigits|]. injection Hpan as <- _.
    apply hash_digits_spec. lia. }
  by rw Hl Hd.
Qed.
End Numbers.

Lemma derived_pin_and_pan_witness :
  ∃ pin pan, (generateCardPIN "card-1" demo_world).1 = Ret pin
    ∧ (generateUnmaskedPAN "card-1" demo_world).1 = Ret pan
    ∧ isPlausiblePIN pin = true ∧ String.length pan = 16%nat.
Proof.
  exists (hash_digits 4 "pin:card-1"), (hash_digits 16 "card-1"). split; [done|]. split; [done|].
  destruct (derived_pin_and_pan (S := MemoryStorage) "card-1" demo_world
    (hash_digits 4 "pin:card-1") demo_world (hash_digits 16 "card-1") demo_world) as (? & ? & ? & ?);
    [done|done|by split].
Defined.

(** The integer id of a card is a function of its id alone that is zero
    only for no card, and always a positive signed 32-bit number otherwise. *)
Lemma numericCardID_range (cardUUID : string) :
  (cardUUID = "" → numericCardID cardUUID = 0)
  ∧ (cardUUID ≠ "" → 1 <= numericCardID cardUUID <= 2147483647).
Proof.
  unfold numericCardID. split; [by intros ->|]. intros Hne. rw (str_eqb_ne _ _ Hne).
  pose proof (masked_word_range (Sum256 (bytes_of cardUUID))).
  destruct (Z.eqb_spec (masked_word (Sum256 (bytes_of cardUUID))) 0); lia.
Qed.
