(* ===== verification/PdfFacts.v ===== *)
(** * What the PDF writer guarantees

    The byte offsets of the cross-reference table, and the text escape. *)
From S2P Require Import Prelude GoFloat GoStd Crypto GoText Pdf.

(** ** Offsets *)
Lemma str_length_app a b : String.length (a +:+ b) = (String.length a + String.length b)%nat.
Proof. by rw -!length_chars chars_app length_app. Qed.

Lemma str_drop_app a b : str_drop (String.length a) (a +:+ b) = b.
Proof.
  unfold str_drop. rw chars_app -length_chars skipn_app skipn_all Nat.sub_diag /=.
  apply of_chars_chars.
Qed.

Lemma prefix_app a b : HasPrefix a (a +:+ b) = true.
Proof.
  unfold HasPrefix. induction a as [|c a IH]; [by destruct b|].
  change (String c a +:+ b) with (String c (a +:+ b)). simpl.
  destruct (Ascii.ascii_dec c c); [exact IH|congruence].
Qed.

Lemma str_assoc a b c : (a +:+ b) +:+ c = a +:+ (b +:+ c).
Proof. apply chars_inj. by rw !chars_app app_assoc. Qed.

(** What [write_objects] appends: its output only grows, and every offset it
    records is where the text of that object starts. *)
Lemma write_objects_spec i bodies out offsets out' offsets' :
  write_objects i bodies out offsets = (out', offsets') →
  ∃ tail added, out' = out +:+ tail ∧ offsets' = offsets ++ added
    ∧ length added = length bodies
    ∧ ∀ n off body, added !! n = Some off → bodies !! n = Some body →
        ∃ rest, out' = rest +:+ str_drop (Z.to_nat off) out' ∧ String.length rest = Z.to_nat off
          ∧ ∃ after, str_drop (Z.to_nat off) out' = object_text (i + Z.of_nat n) body +:+ after.
Proof.
  revert i out offsets. induction bodies as [|body bodies IH]; intros i out offsets; cbn [write_objects].
  - intros [= <- <-]. exists "", []. rw app_nil_r. split; [|done].
    apply chars_inj. by rw chars_app app_nil_r.
  - intros Hw. apply IH in Hw as (tail & added & Hout & Hoff & Hlen & Hspec).
    exists (object_text i body +:+ tail), (Z.of_nat (String.length out) :: added).
    split; [by rw Hout str_assoc|]. split; [by rw Hoff -app_assoc|].
    split; [simpl; congruence|]. intros [|n] off b.
    + intros [= <-] [= <-]. rw Nat2Z.id Z.add_0_r. exists out.
      assert (str_drop (String.length out) out' = object_text i body +:+ tail) as Hd.
      { by rw Hout str_assoc str_drop_app. }
      split; [by rw Hd Hout str_assoc|]. split; [done|]. by exists tail.
    + intros Ha Hb. destruct (Hspec n off b Ha Hb) as (rest & H1 & H2 & after & H3).
      exists rest. split; [done|]. split; [done|]. exists after. rw H3.
      by replace (i + Z.of_nat (S n)) with (i + 1 + Z.of_nat n) by lia.
Qed.

Lemma prefix_of_app a b c : a = b +:+ c → HasPrefix b a = true.
Proof. intros ->. apply prefix_app. Qed.

(** The cross-reference table is right: for every document, the table has
    one offset per object, in a rendered document the bytes at the n-th offset
    are the n-th object, and the bytes at the [startxref] offset are the table
    itself. *)
Lemma xref_offsets (doc : Document) (out : string) (offsets : list Z) :
  write_objects 1 (pdf_objects doc) ("%PDF-1.4" +:+ NL) [] = (out, offsets) →
  length offsets = length (pdf_objects doc)
  ∧ (∀ n off body, offsets !! n = Some off → pdf_objects doc !! n = Some body →
       HasPrefix (object_text (1 + Z.of_nat n) body) (str_drop (Z.to_nat off) (Render doc)) = true)
  ∧ HasPrefix ("xref" +:+ NL) (str_drop (String.length out) (Render doc)) = true.
Proof.
  intros Hw. pose proof Hw as Hw'. apply write_objects_spec in Hw as (tail & added & Hout & Hoff & Hlen & Hspec).
  assert (∃ trailer, Render doc = out +:+ ("xref" +:+ NL +:+ trailer)) as [trailer Hr].
  { unfold Render. rw Hw'. eexists. reflexivity. }
  rw Hoff app_nil_l. split; [done|]. split.
  - intros n off body Ha Hb. destruct (Hspec n off body Ha Hb) as (rest & H1 & H2 & after & H3).
    rw Hr {1}H1 str_assoc -H2 str_drop_app H2 H3 str_assoc. apply prefix_app.
  - rw Hr str_drop_app -str_assoc. apply prefix_app.
Qed.

Definition demo_document : Document := mkDocument "Statement (copy)" ["line 1"; "a\b"].
Lemma xref_offsets_witness :
  let '(out, offsets) := write_objects 1 (pdf_objects demo_document) ("%PDF-1.4" +:+ NL) [] in
  length offsets = 5%nat
  ∧ HasPrefix ("xref" +:+ NL) (str_drop (String.length out) (Render demo_document)) = true.
Proof.
  destruct (write_objects 1 (pdf_objects demo_document) ("%PDF-1.4" +:+ NL) []) as [out offsets] eqn:Hw.
  destruct (xref_offsets demo_document out offsets Hw) as (Hl & _ & Hx). by split.
Defined.

(** ** Text *)

(** A PDF string literal read from its opening parenthesis: a backslash takes
    the next character with it, and an unescaped parenthesis would end or nest
    the string. *)
Fixpoint literal_ok (l : list ascii) : bool :=
  match l with
  | [] => true
  | c :: l' =>
      if bool_decide (c = backslash) then match l' with [] => false | _ :: l'' => literal_ok l'' end
      else negb (bool_decide (c = "("%char) || bool_decide (c = ")"%char)) && literal_ok l'
  end.
Definition printable (c : ascii) : bool := (32 <=? byte_of c) && (byte_of c <? 127).


(** A rune below 128 is the one byte it is written as. *)
Definition rune_ascii (r : rune) : Prop :=
  rune_code r < 128 → ∃ c, rune_bytes r = [c] ∧ byte_of c = rune_code r.

Lemma low6_range c : 0 <= low6 c < 64.
Proof. apply Z.mod_pos_bound. lia. Qed.

Lemma mod_ge b m lo : lo <= b < lo + m → (m | lo) → 0 < m → b mod m = b - lo.
Proof.
  intros Hb [k ->] Hm. replace b with ((b - k * m) + k * m) at 1 by lia.
  rw Z.mod_add; [|lia]. rw Z.mod_small; lia.
Qed.

Ltac split_seq := match goal with |- Forall _ (if ?b then _ else _) => destruct b eqn:Hs end.

Lemma decode_utf8_ascii fuel l : Forall rune_ascii (decode_utf8 fuel l).
Proof.
  revert l. induction fuel as [|fuel IH]; intros [|c0 l]; cbn [decode_utf8]; try by constructor.
  assert (Forall rune_ascii (invalid_rune c0 :: decode_utf8 fuel l)) as Hinv.
  { constructor; [|done]. intros Hc. cbn in Hc. lia. }
  destruct (Z.ltb_spec (byte_of c0) 128) as [Hb|Hb].
  { constructor; [|done]. intros _. by exists c0. }
  unfold in_range, is_cont.
  destruct ((194 <=? byte_of c0) && (byte_of c0 <=? 223)) eqn:H2.
  { destruct l as [|c1 l]; [done|]. split_seq; [|done]. constructor; [|done].
    intros Hc. cbn in Hc. pose proof (low6_range c1).
    rw (mod_ge _ 32 192) in Hc; [lia|lia|by exists 6|lia]. }
  destruct ((224 <=? byte_of c0) && (byte_of c0 <=? 239)) eqn:H3.
  { destruct l as [|c1 [|c2 l]]; [done|done|].
    split_seq; [|done]. constructor; [|done]. intros Hc. cbn in Hc.
    pose proof (low6_range c1). pose proof (low6_range c2).
    rw (mod_ge _ 16 224) in Hc; [|lia|by exists 14|lia].
    destruct (Z.eqb_spec (byte_of c0) 224) as [He|He]; [|lia].
    unfold low6 in Hc at 1. rw (mod_ge (byte_of c1) 64 128) in Hc; [lia|lia|by exists 2|lia]. }
  destruct ((240 <=? byte_of c0) && (byte_of c0 <=? 244)) eqn:H4; [|done].
  destruct l as [|c1 [|c2 [|c3 l]]]; [done..|].
  split_seq; [|done]. constructor; [|done]. intros Hc. cbn in Hc.
  pose proof (low6_range c1). pose proof (low6_range c2). pose proof (low6_range c3).
  rw (mod_ge _ 8 240) in Hc; [|lia|by exists 30|lia].
  destruct (Z.eqb_spec (byte_of c0) 240) as [He|He]; [|lia].
  unfold low6 in Hc at 1. rw (mod_ge (byte_of c1) 64 128) in Hc; [lia|lia|by exists 2|lia].
Qed.

Lemma char_eq_byte c (k : Z) (x : ascii) : byte_of c = k → byte_of x = k → c = x.
Proof.
  intros Hc Hx. unfold byte_of in *. rw -(ascii_N_embedding c) -(ascii_N_embedding x). f_equal. lia.
Qed.

(** What one rune becomes is safe wherever it is put. *)
Lemma escape_rune_safe r l :
  rune_ascii r →
  forallb printable (escape_rune r) = true
  ∧ literal_ok (escape_rune r ++ l) = literal_ok l.
Proof.
  intros Hr. unfold escape_rune. cbn zeta.
  destruct ((rune_code r =? 40) || (rune_code r =? 41) || (rune_code r =? 92)) eqn:Hsp.
  { destruct Hr as (c & Hb & Hc); [lia|]. rw Hb. split; [|done].
    cbn [forallb]. replace (printable backslash) with true by done. unfold printable. lia. }
  destruct ((32 <=? rune_code r) && (rune_code r <? 127)) eqn:Hp; [|done].
  destruct Hr as (c & Hb & Hc); [lia|]. rw Hb. split; [cbn; unfold printable; lia|].
  cbn [app literal_ok].
  assert (∀ x, byte_of x ≠ rune_code r → bool_decide (c = x) = false) as Hne.
  { intros x Hx. apply bool_decide_eq_false. by intros ->. }
  assert (byte_of backslash = 92 ∧ byte_of "(" = 40 ∧ byte_of ")" = 41) as (E1 & E2 & E3) by done.
  rw !Hne; [done|lia..].
Qed.

(** The text escape: whatever the text, valid UTF-8 or not, what is put
    between the parentheses of a PDF string is printable ASCII, contains no
    unescaped parenthesis and does not end in the middle of an escape. *)
Lemma escapeText_safe (s : string) :
  forallb printable (chars (escapeText s)) = true ∧ literal_ok (chars (escapeText s)) = true.
Proof.
  unfold escapeText. rw chars_of_chars. unfold runes.
  induction (decode_utf8_ascii (String.length s) (chars s)) as [|r l Hr _ [IH1 IH2]]; [done|].
  cbn [flat_map]. destruct (escape_rune_safe r (flat_map escape_rune l) Hr) as [H1 H2].
  by rw forallb_app H1 IH1 H2 IH2.
Qed.
