(* ===== verification/Frames.v ===== *)
(** * Frames: what a handler leaves alone

    [keeps f m]: whatever the world and whether or not it panics, running [m]
    does not change what [f] reads of it.  The lemmas of the sequencing
    constructs and of the primitive operations let [keep] prove it of a whole
    handler by following its code. *)
From S2P Require Import Prelude GoFloat GoStd Consts Models Config World Memory Api Fees Webhook.
From S2P Require Import Utils Identity CardNumbers Cards.
From S2P Require CardTokens.
From S2P Require Storage.

Definition keeps {W A B} (f : W → B) (m : prog W A) : Prop := ∀ w, f (m w).2 = f w.

Create HintDb keeps.

Section Sequencing.
Context {W B : Type} (f : W → B).

Lemma keeps_bind {A C} (m : prog W A) (k : A → prog W C) :
  keeps f m → (∀ a, keeps f (k a)) → keeps f (m ≫= k).
Proof.
  intros Hm Hk w. rw run_bind. specialize (Hm w).
  destruct (m w) as [[a|msg] w'] eqn:Hrun; simpl in *; [by rw Hk|done].
Qed.

Lemma keeps_mret {A} (a : A) : keeps f (mret (M := prog W) a).
Proof. done. Qed.

Lemma keeps_gets {A} (g : W → A) : keeps f (gets g).
Proof. done. Qed.

Lemma keeps_panic {A} msg : keeps (B := B) f (panic (A := A) msg).
Proof. done. Qed.

Lemma keeps_modify g : (∀ w, f (g w) = f w) → keeps f (modify g).
Proof. intros Hg w. apply Hg. Qed.

Lemma keeps_collect {A C} (g : A → prog W (option C)) l :
  (∀ x, keeps f (g x)) → keeps f (collect g l).
Proof.
  intros Hg. induction l as [|x l IH]; cbn [collect]; [apply keeps_mret|].
  apply keeps_bind; [done|]. intros y. apply keeps_bind; [done|]. intros ys. apply keeps_mret.
Qed.
End Sequencing.

(** ** Reading the world

    An observation [f] of a world is blind to the counter, to the goroutines,
    to the queued jobs or to the objects of a type when writing those does not
    change it. *)
Section Observations.
Context {St B : Type} (f : World St → B).
Class BlindTicks := blind_ticks : ∀ w n, f (w <| w_ticks := n |>) = f w.
Class BlindTasks := blind_tasks : ∀ w l, f (w <| w_tasks := l |>) = f w.
Class BlindHeap (T : Type) `{!Cell T} := {
  blind_write : ∀ w (m : gmap loc T), f (w <| w_heap := with_cells m (w_heap w) |>) = f w;
  blind_alloc : ∀ w (m : gmap loc T) n,
    f (w <| w_heap := with_cells m (w_heap w) <| heap_next := n |> |>) = f w }.

Context `{Env}.

Lemma keeps_tick `{!BlindTicks} : keeps f tick.
Proof. intros w. apply blind_ticks. Qed.
Lemma keeps_spawn `{!BlindTasks} t : keeps f (spawn t).
Proof. intros w. apply blind_tasks. Qed.
Lemma keeps_deref {T} `{!Cell T} l : keeps f (deref (T := T) l).
Proof. intros w. unfold deref. by destruct (_ !! l). Qed.
Lemma keeps_new {T} `{!Cell T} `{!BlindHeap T} (x : T) : keeps f (new x).
Proof. intros w. apply blind_alloc. Qed.
Lemma keeps_assign {T} `{!Cell T} `{!BlindHeap T} l (x : T) : keeps f (assign l x).
Proof. intros w. unfold assign. destruct (_ !! l); [|done]. apply blind_write. Qed.
Lemma keeps_update {T} `{!Cell T} `{!BlindHeap T} l (g : T → T) : keeps f (update l g).
Proof. apply keeps_bind; [apply keeps_deref|]. intros x. apply keeps_assign. Qed.
End Observations.

(** Running past a step that keeps what matters. *)
Lemma after_keeps {W A B C} (f : W → B) (m : prog W A) (k : A → prog W C) (Q : W → Prop) w :
  keeps f m → (∀ w', f w' = f w → Q w') → (∀ a w', f w' = f w → Q (k a w').2) →
  Q ((m ≫= k) w).2.
Proof.
  intros Hm Hpanic Hk. rw run_bind. specialize (Hm w).
  destruct (m w) as [[a|msg] w'] eqn:Hrun; simpl in *; auto.
Qed.

(** ** What a program answers *)
Definition yields {W A} (Q : A → Prop) (m : prog W A) : Prop :=
  ∀ w, match (m w).1 with Ret a => Q a | Panic _ => True end.

Lemma yields_bind {W A B} (P : A → Prop) (Q : B → Prop) (m : prog W A) (k : A → prog W B) :
  yields P m → (∀ a, P a → yields Q (k a)) → yields Q (m ≫= k).
Proof.
  intros Hm Hk w. rw run_bind. specialize (Hm w). destruct (m w) as [[a|e] w']; [|done].
  by apply Hk.
Qed.
Lemma yields_any {W A} (m : prog W A) : yields (λ _, True) m.
Proof. intros w. by destruct (m w) as [[]]. Qed.
Lemma yields_mret {W A} (Q : A → Prop) (a : A) : Q a → yields (W := W) Q (mret a).
Proof. by intros Hq w. Qed.
Lemma yields_panic {W A} (Q : A → Prop) e : yields (W := W) Q (panic e).
Proof. by intros w. Qed.

Lemma yields_collect {W A C} (Q : list C → Prop) (g : A → prog W (option C)) l :
  (∀ r, Q r) → yields Q (collect g l).
Proof. intros HQ w. destruct (collect g l w) as [[a|e] w']; [apply HQ|done]. Qed.

(** Follows the code of a handler: splits binds and conditions, opens the
    operations that have no hint; a storage operation is the in-memory one. *)
Ltac keep_step :=
  lazymatch goal with
  | |- forall _, _ => intros
  | |- keeps _ (mbind _ _) => apply keeps_bind
  | |- keeps _ (mret _) => apply keeps_mret
  | |- keeps _ (gets _) => apply keeps_gets
  | |- keeps _ (panic _) => apply keeps_panic
  | |- keeps _ (collect _ _) => apply keeps_collect
  | |- keeps _ tick => apply keeps_tick; exact _
  | |- keeps _ (spawn _) => apply keeps_spawn; exact _
  | |- keeps _ (deref _) => apply keeps_deref
  | |- keeps _ (new _) => apply keeps_new; exact _
  | |- keeps _ (assign _ _) => apply keeps_assign; exact _
  | |- keeps _ (update _ _) => apply keeps_update; exact _
  | |- keeps _ (modify _) => apply keeps_modify; reflexivity
  | |- keeps _ (put _) => apply keeps_modify; reflexivity
  | |- keeps _ (match ?x with _ => _ end) => destruct x
  | |- keeps _ (let _ := _ in _) => cbv zeta
  | |- keeps _ (_ _) => idtac
  end.
Ltac open_operation :=
  lazymatch goal with
  | |- keeps _ ?m =>
      let h := head_of m in unfold h; try unfold memory_storage; cbv beta iota zeta
  end.
Ltac keep := repeat first [progress (eauto 2 with keeps nocore) | progress keep_step | open_operation].

(** ** The books: balances and transactions *)
Definition books (w : World MemoryStorage) :
    gmap string (gmap string f64) * gmap string loc * gmap string (list string)
      * gmap loc Transaction :=
  (balances (w_store w), transactions (w_store w), transactionsByUser (w_store w),
   heap_txs (w_heap w)).
#[export] Instance books_ticks : BlindTicks books.
Proof. done. Qed.
#[export] Instance books_tasks : BlindTasks books.
Proof. done. Qed.
#[export] Instance books_User : BlindHeap books User.
Proof. done. Qed.
#[export] Instance books_Customer : BlindHeap books Customer.
Proof. done. Qed.
#[export] Instance books_Account : BlindHeap books Account.
Proof. done. Qed.
#[export] Instance books_Card : BlindHeap books Card.
Proof. done. Qed.
#[export] Instance books_CardTransaction : BlindHeap books CardTransaction.
Proof. done. Qed.
#[export] Instance books_Challenge : BlindHeap books ThreeDSChallenge.
Proof. done. Qed.

(** ** Balances and what prices a payment *)
Definition priced (w : World MemoryStorage) :
    gmap string (gmap string f64) * FeeConfig * Config * gmap string string :=
  (balances (w_store w), w_fees w, w_config w, w_tokens w).
#[export] Instance priced_ticks : BlindTicks priced.
Proof. done. Qed.
#[export] Instance priced_tasks : BlindTasks priced.
Proof. done. Qed.
#[export] Instance priced_User : BlindHeap priced User.
Proof. done. Qed.
#[export] Instance priced_Transaction : BlindHeap priced Transaction.
Proof. done. Qed.

(** ** The process: the world and the service's key pair *)
Import CardTokens.

Section Process.
Context `{Env} `{Rsa}.

Lemma keeps_in_world {A B} (f : World MemoryStorage → B) (m : prog (World MemoryStorage) A) :
  keeps f m → keeps (λ p, f (p_world p)) (in_world m).
Proof. intros Hm p. unfold in_world. specialize (Hm (p_world p)). by destruct (m (p_world p)). Qed.
Lemma keeps_serviceKeys {B} (f : World MemoryStorage → B) (Hblind : BlindTicks f) :
  keeps (λ p, f (p_world p)) (serviceKeys_get (S := MemoryStorage)).
Proof. intros p. unfold serviceKeys_get. destruct (once (serviceKeys p)); [done|]. exact (Hblind (p_world p) _). Qed.
Lemma yields_in_world {A} (Q : A → Prop) (m : prog (World MemoryStorage) A) :
  yields Q m → yields Q (in_world m).
Proof. intros Hm p. unfold in_world. specialize (Hm (p_world p)). by destruct (m (p_world p)). Qed.
End Process.

(** A program of the process, for an observation of its world. *)
Ltac keep_process f :=
  repeat lazymatch goal with
  | |- keeps _ (in_world _) => apply (keeps_in_world f); keep
  | |- keeps _ serviceKeys_get => apply (keeps_serviceKeys f); exact _
  | |- keeps _ (CardTokens.SetCardPin _ _) => unfold CardTokens.SetCardPin
  | |- keeps _ (decryptWithServiceKey _) => unfold decryptWithServiceKey
  | |- keeps _ CardTokens.GetCardPinPublicKey => unfold CardTokens.GetCardPinPublicKey
  | |- keeps _ servicePublicKeyBase64 => unfold servicePublicKeyBase64
  | |- _ => keep_step
  end.
