(* ===== verification/DeliveryFacts.v ===== *)
(** * What webhook delivery guarantees

    Payload normalisation, the stream encoding of a job, the bound on the
    attempts of a failing one, and what a stopped worker does. *)
From S2P Require Import Prelude GoFloat GoStd GoText Consts Models Config World Memory Api Webhook.
From S2P Require Import Delivery MemoryFacts Demo Frames.
From S2P Require Storage.

(** ** Normalisation *)
Lemma set_default_get {A} k (v : A) m :
  assoc k (set_default k v m) = Some (default v (assoc k m)).
Proof. unfold set_default. destruct (assoc k m) eqn:Hk; [done|]. by rw assoc_set_eq. Qed.

Lemma set_default_other {A} k k' (v : A) m :
  k' ≠ k → assoc k' (set_default k v m) = assoc k' m.
Proof. intros Hne. unfold set_default. destruct (assoc k m); [done|]. by rw assoc_set_ne. Qed.

Lemma set_default_present {A} k (v x : A) m : assoc k m = Some x → set_default k v m = m.
Proof. unfold set_default. by intros ->. Qed.

(** Normalisation of a payload: it never overwrites what the caller set,
    names the gateway in every verification event, adds a verdict to the three
    outcomes and to nothing else, leaves all other keys and all other events
    alone, and doing it again (as a retry does) changes nothing. *)
Lemma normalize_spec (event : string) (data : list (string * json)) :
  let data' := normalizeVerificationPayload event data in
  assoc "gateway" data' =
    (if isVerificationEvent event then Some (default (JStr "paywiser") (assoc "gateway" data))
     else assoc "gateway" data)
  ∧ assoc "verified" data' =
    (if isVerificationOutcome event then Some (default (verified_summary event) (assoc "verified" data))
     else assoc "verified" data)
  ∧ (∀ k, k ≠ "gateway" → k ≠ "verified" → assoc k data' = assoc k data)
  ∧ normalizeVerificationPayload event data' = data'.
Proof.
  cbn zeta. unfold normalizeVerificationPayload.
  destruct (isVerificationEvent event) eqn:Hev.
  2: { destruct (isVerificationOutcome event) eqn:Ho; [|done].
       unfold isVerificationEvent in Hev. by rw Ho in Hev. }
  destruct (isVerificationOutcome event) eqn:Ho; cbn [negb].
  - split_and!.
    + rw set_default_other; [|done]. by rw set_default_get.
    + rw set_default_get. by rw set_default_other.
    + intros k H1 H2. by rw !set_default_other.
    + rw (set_default_present "gateway" _ (default (JStr "paywiser") (assoc "gateway" data))).
      * by rw (set_default_present "verified" _ _ _ (set_default_get _ _ _)).
      * rw set_default_other; [|done]. by rw set_default_get.
  - split_and!.
    + by rw set_default_get.
    + by rw set_default_other.
    + intros k H1 H2. by rw set_default_other.
    + by rw (set_default_present "gateway" _ _ _ (set_default_get _ _ _)).
Qed.

(** ** The stream encoding *)
Definition as_interface_map (data : list (string * json)) : list (string * json) :=
  map (fun kv => (kv.1, as_interface kv.2)) data.

Lemma as_interface_map_keys data : (as_interface_map data).*1 = data.*1.
Proof. unfold as_interface_map. induction data as [|kv data IH]; [done|]. cbn. by rw IH. Qed.

Lemma toStreamFields_fields j fields : toStreamFields j = Ok fields → fields = stream_fields j.
Proof. unfold toStreamFields. destruct (negb _); [done|]. congruence. Qed.

(** The text fields a reader looks up. *)
Lemma stream_fields_text j :
  text_value "job_id" (stream_fields j) = JobID j
  ∧ text_value "event_type" (stream_fields j) = EventType j
  ∧ text_value "user_id" (stream_fields j) = UserID j
  ∧ text_value "created_at" (stream_fields j) = CreatedAt j
  ∧ text_value "last_error" (stream_fields j) = LastError j.
Proof.
  split_and!; try done. unfold text_value, stream_fields.
  destruct (LastError j =?s "") eqn:Hl; [|done]. apply str_eqb_eq in Hl. by rw Hl.
Qed.

Lemma parse_stream_fields id j :
  JobID j ≠ "" → EventType j ≠ "" → int_min <= Attempts j <= int_max →
  parseStreamMessage (mkMessage id (stream_fields j))
  = Ok (j <| MessageID := id |> <| Data := last_wins (as_interface_map (Data j)) |>).
Proof.
  intros Hid Hev Hatt. unfold parseStreamMessage. cbn [msg_Values msg_ID].
  destruct (stream_fields_text j) as (-> & -> & -> & -> & ->).
  rw (str_eqb_ne _ _ Hid) (str_eqb_ne _ _ Hev). cbn [orb].
  change (assoc "attempts" (stream_fields j)) with (Some (FText (Itoa (Attempts j)))).
  change (data_value id (stream_fields j)) with (Ok (last_wins (as_interface_map (Data j)))).
  cbn iota. by rw (Atoi_Itoa _ Hatt).
Qed.


Definition demo_job : StreamJob :=
  mkStreamJob "" "job-1" "core.deposit.completed" "u" [("amount", JStr "1.00"); ("n", JInt 3)] 7
    "2026-01-20T14:46:44Z" "request failed".

(** ** Retries *)
Section Retries.
Context {S R : Type} `{Env} `{!Storage.Storage S} `{!StreamClient R}.
Implicit Types d : Worker S R.

Lemma run_RetryLater job e d r d' :
  RetryLater job e d = (r, d') →
  d_timers d' = d_timers d
  ∨ ∃ fields, d_timers d' = d_timers d ++ [fields]
      ∧ Attempts job + 1 < maxAttempts
      ∧ toStreamFields (job <| MessageID := "" |> <| Attempts := Attempts job + 1 |>
                            <| LastError := e |>) = Ok fields.
Proof.
  unfold RetryLater, Ack, on_redis. rw run_bind.
  destruct (XAck (MessageID job) (d_redis d)) as [[u|err] red]; [|intros [= <- <-]; by left].
  destruct (Z.leb_spec maxAttempts (Attempts job + 1)); [intros [= <- <-]; by left|].
  destruct (toStreamFields _) as [fields|err] eqn:Hf; [|intros [= <- <-]; by left].
  intros [= <- <-]. right. by exists fields.
Qed.

Lemma run_on_world {A} (m : prog (World S) A) d r d' :
  on_world (R := R) m d = (r, d') → d_timers d' = d_timers d.
Proof. unfold on_world. destruct (m (d_world d)). by intros [= <- <-]. Qed.

(** Processing a job starts at most one retry timer: for the same job, with
    one more attempt, below the limit. *)
Lemma processJob_timers m job d r d' :
  processJob m job d = (r, d') →
  d_timers d' = d_timers d
  ∨ ∃ fields data e, d_timers d' = d_timers d ++ [fields]
      ∧ Attempts job + 1 < maxAttempts
      ∧ toStreamFields (job <| Data := data |> <| MessageID := "" |>
            <| Attempts := Attempts job + 1 |> <| LastError := e |>) = Ok fields.
Proof.
  unfold processJob. rw run_bind.
  destruct (on_world _ d) as [[[err data]|msg] d1] eqn:Hs; apply run_on_world in Hs;
    [|intros [= <- <-]; by left].
  rw -Hs. destruct err as [u|e].
  - unfold Ack, on_redis. rw run_bind. destruct (XAck _ _) as [? red]. intros [= <- <-]. by left.
  - rw run_bind. destruct (RetryLater _ e d1) as [o d2] eqn:Hr. intros Hrun.
    assert (d' = d2) as -> by (by destruct o as [o|o]; injection Hrun).
    apply run_RetryLater in Hr as [Hr|(fields & Ht & Hlt & Hf)]; [by left|].
    right. by exists fields, data, e.
Qed.

(** [job'] is what a worker reads back after [job] failed once: the entry
    its retry timer adds to the stream. *)
Definition retried (m : Manager) (job job' : StreamJob) : Prop :=
  ∃ d r d' fields id,
    processJob (R := R) m job d = (r, d') ∧ d_timers d' = d_timers d ++ [fields]
    ∧ parseStreamMessage (mkMessage id fields) = Ok job'.

Inductive retries (m : Manager) : nat → StreamJob → StreamJob → Prop :=
| retries_none job : retries m 0 job job
| retries_more n job job' job'' :
    retries m n job job' → retried m job' job'' → retries m (Datatypes.S n) job job''.

Lemma retried_spec m job job' :
  0 <= Attempts job → retried m job job' →
  Attempts job' = Attempts job + 1 ∧ Attempts job + 1 < maxAttempts
  ∧ JobID job' = JobID job ∧ EventType job' = EventType job ∧ UserID job' = UserID job.
Proof.
  intros Hatt (d & r & d' & fields & id & Hrun & Ht & Hp).
  apply processJob_timers in Hrun as [Hsame|(fields' & data & e & Ht' & Hlt & Hf)].
  { rw Hsame in Ht. by apply (f_equal length) in Ht; rw length_app /= in Ht; lia. }
  rw Ht in Ht'. apply app_inj_tail in Ht' as [_ <-].
  assert (JobID job ≠ "" ∧ EventType job ≠ "") as [Hj He].
  { apply toStreamFields_fields in Hf as ->. unfold parseStreamMessage in Hp.
    cbn [msg_Values] in Hp.
    match type of Hp with context [stream_fields ?j] =>
      destruct (stream_fields_text j) as (Hj & He & _) end.
    rw Hj He in Hp. cbn in Hp. destruct ((_ =?s "") || (_ =?s "")) eqn:Hb in Hp; [done|].
    by case_go. }
  apply toStreamFields_fields in Hf as ->.
  rw parse_stream_fields in Hp; [|done|done|unfold maxAttempts in Hlt; cbn; unfold int_min, int_max; lia].
  by injection Hp as <-.
Qed.
End Retries.

(** ** Stopping the worker

    Delivering is what changes the world, apart from the queue of delayed
    jobs; the timers only move entries to the stream. *)
Section Life.
Context {S R : Type} `{Env} `{!Storage.Storage S} `{!StreamClient R}.
Implicit Types (d : Worker S R) (x y : Running S R).

Definition delivered (d : Worker S R) : World S := (d_world d) <| w_jobs := [] |>.

Lemma keeps_on_redis {A} (g : R → A * R) : keeps delivered (on_redis (S := S) g).
Proof. intros d. unfold on_redis. by destruct (g (d_redis d)). Qed.
Lemma keeps_jobs jobs : keeps delivered (on_world (R := R) (modify (fun w : World S => w <| w_jobs := jobs |>))).
Proof. done. Qed.
#[local] Hint Resolve keeps_on_redis keeps_jobs : keeps.

Lemma timers_deliver_nothing i :
  keeps delivered (retry_timer (S := S) (R := R) i) ∧ keeps delivered (enqueue_timer (S := S) (R := R) i).
Proof. split; by keep. Qed.

(** A worker past its recovery scan. *)
Definition past_start (p : Phase) : Prop := p ≠ Starting.

Lemma cancelled_step m x y :
  run_cancelled x = true → past_start (run_phase x) → step m x y →
  run_cancelled y = true ∧ past_start (run_phase y)
  ∧ delivered (run_worker y) = delivered (run_worker x).
Proof.
  intros Hc Hp Hstep. unfold step in Hstep. revert Hc Hp.
  destruct Hstep as [[]|[]]; cbn [run_cancelled run_phase run_worker]; intros Hc Hp;
    split_and!; try done.
  - apply (proj1 (timers_deliver_nothing _)).
  - apply (proj2 (timers_deliver_nothing _)).
Qed.
End Life.



(** A stream that accepts every command, a manager with nowhere to deliver,
    and a job failing nine times: the bound is reached. *)
#[export] Instance demo_stream : StreamClient (list XMessage) := {|
  XAdd fields r := (Ok "1-0", r ++ [mkMessage "1-0" fields]);
  XTrimMaxLenApprox n r := r;
  XReadGroup n r := (Ok r, []);
  XAck id r := (Ok tt, r);
  XAutoClaim idle n r := (Ok [], r) |}.
Definition silent_manager : Manager := NewManager "" "secret" None "".
Definition demo_worker : Worker MemoryStorage (list XMessage) := mkWorker demo_world [] [].
Definition demo_attempt (k : Z) : StreamJob :=
  mkStreamJob "1-0" "job-1" "core.deposit.completed" "u" [] k "2026-01-20T14:46:44Z"
    (if k =? 0 then "" else "no webhook URL available").

Lemma demo_retried k :
  (0 <= k < 9)%nat →
  retried (S := MemoryStorage) (R := list XMessage) silent_manager
    (demo_attempt (Z.of_nat k)) (demo_attempt (Z.of_nat (k + 1))).
Proof.
  intros Hk. do 9 (destruct k as [|k];
    [eexists demo_worker, _, _, _, "1-0"; split; [reflexivity|]; split; [reflexivity|];
     by vm_compute|]). lia.
Qed.

Lemma demo_retries n :
  (n <= 9)%nat →
  retries (S := MemoryStorage) (R := list XMessage) silent_manager n (demo_attempt 0)
    (demo_attempt (Z.of_nat n)).
Proof.
  induction n as [|n IH]; intros Hn; [constructor|].
  econstructor; [apply IH; lia|]. replace (S n) with (n + 1)%nat by lia. apply demo_retried. lia.
Qed.


(** A cancelled worker with a retry timer running: it stops, the timer fires
    and the entry waits in the stream. *)
Definition stopping : Running MemoryStorage (list XMessage) :=
  mkRunning (mkWorker demo_world [] [stream_fields (demo_attempt 1)]) Polling true.
Definition stopped : Running MemoryStorage (list XMessage) :=
  mkRunning (mkWorker demo_world [mkMessage "1-0" (stream_fields (demo_attempt 1))] []) Stopped true.
Lemma stopping_stops : rtc (step silent_manager) stopping stopped.
Proof.
  eapply rtc_l; [left; apply step_stop|]. eapply rtc_l; [right; apply (step_retry _ _ _ 0)|].
  apply rtc_refl.
Qed.
