(* ===== verification/CardTokenFacts.v ===== *)
(** * What a card token is good for

    Which tokens the browser endpoints accept, that a minted token is accepted
    at its own endpoint until it expires and nowhere else, and that a PIN set
    through the service's key is the PIN its holder reads back. *)
From Stdlib Require Import ZifyBool ZifyN.
From S2P Require Import Prelude GoFloat GoStd Crypto Base64 GoText JsonText GoTime.
From S2P Require Import Codec Stored Models Config World Api CardNumbers Cards CardTokens Memory Demo AuthFacts.
From S2P Require Storage.

(** ** Bytes and texts *)
Definition bytes_ok (b : list Z) : Prop := Forall (λ x, 0 <= x < 256) b.

Lemma bytes_of_ok s : bytes_ok (bytes_of s).
Proof. apply Forall_forall. intros x (c & -> & _)%list_elem_of_fmap. apply byte_of_range. Qed.

Lemma string_of_bytes_of s : string_of (bytes_of s) = s.
Proof.
  unfold string_of, bytes_of. rw map_map -{2}(of_chars_chars s). f_equal.
  induction (chars s) as [|c l IH]; [done|]. cbn. by rw char_of_byte_of IH.
Qed.

Lemma hmac_ok key msg : bytes_ok (hmac_sha256 key msg).
Proof. apply Forall_forall. intros x Hx. by eapply Sum256_range. Qed.
#[local] Hint Resolve bytes_of_ok hmac_ok : core.

Lemma url_text_without_dot b : bytes_ok b → without "." (EncodeToString RawURLEncoding b) = true.
Proof.
  intros Hb. unfold without, EncodeToString. rw chars_of_chars. apply negb_true_iff.
  assert (forallb (fun c => negb (is_char "." c)) (encode_bytes RawURLEncoding b) = true) as Hall.
  { apply encode_all; [|done|done]. intros v Hv. apply negb_true_iff, bool_decide_eq_false. intros He.
    pose proof (proj1 RawURLEncoding_sound v Hv) as Hd. rw He in Hd. by vm_compute in Hd. }
  induction (encode_bytes _ b) as [|c l IH]; [done|]. cbn in Hall |- *.
  apply andb_true_iff in Hall as [Hc Hl]. by rw (proj1 (negb_true_iff _) Hc) IH.
Qed.

(** ** The parts of a token *)
Definition joined (p0 p1 p2 : string) : string := p0 +:+ "." +:+ p1 +:+ "." +:+ p2.

Lemma split_joined p0 p1 p2 :
  without "." p0 = true → without "." p1 = true → without "." p2 = true →
  Split "." (joined p0 p1 p2) = [p0; p1; p2].
Proof.
  intros H0 H1 H2. apply (Split_Join "." p0 [p1; p2]). cbn. by rw H0 H1 H2.
Qed.

Lemma split_chars_without_all sep l p : p ∈ split_chars sep l → forallb (fun c => negb (is_char sep c)) p = true.
Proof.
  revert p. induction l as [|c l IH]; intros p; cbn; [by intros ->%list_elem_of_singleton|].
  case_bool_decide as Hc.
  - intros [->|Hp]%elem_of_cons; [done|by apply IH].
  - destruct (split_chars sep l) as [|q qs] eqn:Hs.
    + intros ->%list_elem_of_singleton. cbn. unfold is_char. by rw bool_decide_eq_false_2.
    + intros [->|Hp]%elem_of_cons; [|apply IH; by right].
      cbn. unfold is_char at 1. rw bool_decide_eq_false_2; [|done]. apply IH. by left.
Qed.

Lemma signature_without_dot secret text : without "." (token_signature secret text) = true.
Proof. by apply url_text_without_dot. Qed.

(** The claims of the payload part. *)
Definition payload_claims (p1 : string) : option CardTokenClaims :=
  match DecodeString RawURLEncoding p1 with
  | Ok payload => unmarshal c_CardTokenClaims (string_of payload)
  | Err _ => None
  end.

Lemma signed_claims_joined secret p0 p1 claims :
  without "." p0 = true → without "." p1 = true → payload_claims p1 = Some claims →
  signed_claims secret (joined p0 p1 (token_signature secret (p0 +:+ "." +:+ p1))) = Ok claims.
Proof.
  intros H0 H1 Hc. unfold signed_claims.
  rw split_joined; [|done|done|apply signature_without_dot]. rw str_eqb_refl. cbn [negb].
  unfold payload_claims in Hc. destruct (DecodeString _ p1); [|done]. by rw Hc.
Qed.

Lemma without_split sep s p : p ∈ Split sep s → without sep p = true.
Proof.
  intros (l & -> & Hl)%list_elem_of_fmap. apply split_chars_without_all in Hl.
  unfold without. rw chars_of_chars. apply negb_true_iff.
  induction l as [|c l IH]; [done|]. cbn in Hl |- *. apply andb_true_iff in Hl as [Hc Hl].
  by rw (proj1 (negb_true_iff _) Hc) IH.
Qed.

Lemma signed_claims_inv secret token claims :
  signed_claims secret token = Ok claims →
  ∃ p0 p1, token = joined p0 p1 (token_signature secret (p0 +:+ "." +:+ p1))
    ∧ without "." p0 = true ∧ without "." p1 = true ∧ payload_claims p1 = Some claims.
Proof.
  unfold signed_claims. pose proof (Join_Split "." token) as Hj.
  pose proof (without_split "." token) as Hw.
  destruct (Split "." token) as [|p0 [|p1 [|p2 [|]]]]; try done.
  destruct (_ =?s p2) eqn:Hs; cbn [negb]; [|done]. case_go. subst p2.
  intros Hc. exists p0, p1. split; [by rw -{1}Hj|].
  split; [apply Hw; by left|]. split; [apply Hw; right; by left|].
  unfold payload_claims. destruct (DecodeString _ p1); [|done]. by destruct (unmarshal _ _); simplify_eq.
Qed.

(** ** The claims *)
Lemma find_field_in {R} name (fs : list (field R)) f : find_field name fs = Some f → f ∈ fs.
Proof.
  assert (find_exact name fs = Some f → f ∈ fs) as He.
  { induction fs as [|g fs IH]; cbn; [done|]. case_match; [intros [= <-]; by left|]. right. by apply IH. }
  assert (find_folded name fs = Some f → f ∈ fs) as Hf.
  { clear He. induction fs as [|g fs IH]; cbn; [done|].
    case_match; [intros [= <-]; by left|]. right. by apply IH. }
  unfold find_field. destruct (find_exact name fs); [by intros [= ->]; apply He|done].
Qed.

(** What every field's decoder preserves, the object's decoder preserves. *)
Lemma dec_members_keeps {R} (Q : R → Prop) (fs : list (field R)) :
  (∀ f j r r', f ∈ fs → dec_field f j r = Some r' → Q r → Q r') →
  ∀ members r r', dec_members fs members r = Some r' → Q r → Q r'.
Proof.
  intros Hf members. induction members as [|[name j] members IH]; cbn; intros r r'; [by intros [= <-]|].
  destruct (find_field name fs) as [f|] eqn:Hn; [|by apply IH].
  destruct (dec_field f j r) as [r1|] eqn:Hd; cbn; [|done]. intros Hr Hq.
  apply (IH _ _ Hr). eapply Hf; [by eapply find_field_in|done|done].
Qed.

Definition exp_in_range (claims : CardTokenClaims) : Prop := int_min <= ExpiresAt claims <= int_max.

Lemma field_keeps_exp f j r r' :
  f ∈ fields_CardTokenClaims → dec_field f j r = Some r' → exp_in_range r → exp_in_range r'.
Proof.
  unfold fields_CardTokenClaims, exp_in_range. intros Hin Hd Hr.
  repeat (apply elem_of_cons in Hin as [->|Hin];
    [unfold dec_field in Hd; cbn in Hd; repeat (case_match; cbn in Hd; try discriminate Hd);
     injection Hd as <-; cbn; try done|]).
  all: try by apply not_elem_of_nil in Hin.
  match goal with H : in_int64 _ = true |- _ => apply andb_true_iff in H as [?%Z.leb_le ?%Z.leb_le] end.
  lia.
Qed.

Lemma decoded_exp_range text claims :
  unmarshal c_CardTokenClaims text = Some claims → exp_in_range claims.
Proof.
  unfold unmarshal. destruct (parse_json text) as [j|]; [|done]. cbn.
  assert (exp_in_range zero_CardTokenClaims) as Hz by done.
  destruct j; cbn; try done; [by intros [= <-]|].
  intros Hd. exact (dec_members_keeps _ _ field_keeps_exp _ _ _ Hd Hz).
Qed.

Lemma claims_faithful claims : codec_ok c_CardTokenClaims claims = true → faithful c_CardTokenClaims claims.
Proof.
  intros Hok. split.
  - unfold marshal. rw (struct_encodes _ 0); [done|field_laws|exact Hok].
  - apply unmarshal_read; [by apply (struct_readable _ 0); [field_laws|]| |].
    + transitivity (1 + 0); [apply struct_depth; [lia|field_laws]|done].
    + eapply (struct_decodes _ 0); [by apply (bool_decide_unpack _); vm_compute|field_laws|exact Hok|].
      destruct claims. cbn -[str_eqb]. by repeat (case_match; case_go; subst; cbn -[str_eqb]).
Qed.

(** A token that was generated holds its claims. *)
Lemma generated_claims secret claims :
  codec_ok c_CardTokenClaims claims = true →
  ∃ token, generateCardToken secret claims = Ok token ∧ signed_claims secret token = Ok claims.
Proof.
  intros Hok. destruct (claims_faithful claims Hok) as [Hm Hu]. unfold generateCardToken. rw Hm.
  set (p0 := EncodeToString _ (bytes_of token_header)). set (p1 := EncodeToString _ (bytes_of _)).
  eexists. split; [reflexivity|]. rw !str_app_assoc.
  apply (signed_claims_joined secret p0 p1); [by apply url_text_without_dot..|].
  unfold payload_claims, p1. rw decode_string_encode; [|apply RawURLEncoding_sound|apply bytes_of_ok].
  by rw string_of_bytes_of.
Qed.

(** ** Acceptance *)
Section Acceptance.
Context {S : Type} `{Env}.
Implicit Types (w : World S).

Definition seconds w : Z := Unix (env_now (w_ticks w)).

Lemma check_expiry_ok claims now c :
  0 <= now → exp_in_range claims →
  check_expiry claims now = Ok c ↔ c = claims ∧ now <= ExpiresAt claims <= now + 600.
Proof.
  intros Hnow Hr. unfold check_expiry, exp_in_range in *. change (cardDataTokenMaxTTL / second_ns) with 600.
  destruct (Z.ltb_spec (ExpiresAt claims) now) as [?|Hge]; [split; [done|intros [_ ?]; lia]|].
  rw wrap64_id; [|unfold int_min, int_max in *; lia].
  destruct (Z.ltb_spec 600 (ExpiresAt claims - now)); [split; [done|intros [_ ?]; lia]|].
  split; [intros [= <-]; split; [done|lia]|by intros [-> _]].
Qed.

(** C26. A card token is accepted exactly when it has three parts, the third is the
    HMAC-SHA256 of the first two under the server's secret, the second decodes
    to the claims, and their expiry is set, not past, and at most ten minutes
    ahead: no token is valid for longer, whatever it claims. *)
Theorem card_token_accepted_iff secret token claims w :
  0 <= seconds w →
  (parseCardToken secret token w).1 = Ret (Ok claims) ↔
  (∃ p0 p1, token = joined p0 p1 (token_signature secret (p0 +:+ "." +:+ p1))
     ∧ without "." p0 = true ∧ without "." p1 = true ∧ payload_claims p1 = Some claims)
  ∧ 0 < ExpiresAt claims ∧ seconds w <= ExpiresAt claims <= seconds w + 600.
Proof.
  intros Hnow. unfold parseCardToken. split.
  - destruct (signed_claims secret token) as [c|e] eqn:Hs; [|done].
    apply signed_claims_inv in Hs as (p0 & p1 & -> & H0 & H1 & Hc).
    destruct (Z.leb_spec (ExpiresAt c) 0); [done|]. rw run_bind run_time_Now run_mret. cbn [fst].
    assert (exp_in_range c) as Hr.
    { unfold payload_claims in Hc. destruct (DecodeString _ p1); [|done]. by eapply decoded_exp_range. }
    intros [= Hok%check_expiry_ok]; [|done|done]. destruct Hok as [-> Hok].
    split; [|done]. by exists p0, p1.
  - intros [(p0 & p1 & -> & H0 & H1 & Hc) [Hpos Hok]]. rw (signed_claims_joined _ _ _ _ H0 H1 Hc).
    destruct (Z.leb_spec (ExpiresAt claims) 0); [lia|]. rw run_bind run_time_Now run_mret. cbn [fst].
    do 2 f_equal. apply check_expiry_ok; [done| |done].
    unfold payload_claims in Hc. destruct (DecodeString _ p1); [|done]. by eapply decoded_exp_range.
Qed.

Lemma run_parse_signed secret token claims w :
  signed_claims secret token = Ok claims → 0 < ExpiresAt claims →
  parseCardToken secret token w
  = (Ret (check_expiry claims (seconds w)), w <| w_ticks := (w_ticks w + 1)%nat |>).
Proof.
  intros Hs Hpos. unfold parseCardToken. rw Hs. destruct (Z.leb_spec (ExpiresAt claims) 0); [lia|].
  by rw run_bind run_time_Now run_mret.
Qed.

Lemma bearer_header token : HasPrefix "Bearer " ("Bearer " +:+ token) = true
  ∧ TrimPrefix "Bearer " ("Bearer " +:+ token) = token.
Proof.
  assert (HasPrefix "Bearer " ("Bearer " +:+ token) = true) as Hp by (by destruct token).
  split; [done|]. unfold TrimPrefix. rw Hp. unfold str_drop. apply chars_inj. by rw chars_of_chars.
Qed.

Lemma run_bearer token claims want w :
  signed_claims (CardDataTokenSecret (w_config w)) token = Ok claims → 0 < ExpiresAt claims →
  bearerCardToken ("Bearer " +:+ token) want w
  = (Ret (match check_expiry claims (seconds w) with
          | Ok c =>
              if negb (TokenType c =?s want)
              then Err ("token is for " +:+ Quote (TokenType c) +:+ ", not " +:+ Quote want)
              else Ok c
          | Err e => Err e
          end), w <| w_ticks := (w_ticks w + 1)%nat |>).
Proof.
  intros Hs Hpos. unfold bearerCardToken. destruct (bearer_header token) as [-> ->]. cbn [negb].
  rw run_bind run_gets. rw (run_bind_ret _ _ _ _ _ (run_parse_signed _ _ _ w Hs Hpos)).
  destruct (check_expiry _ _) as [c|e]; [|done]. by case_match.
Qed.
End Acceptance.

(** ** Minting *)
Section Minting.
Context {S : Type} `{Env}.
Implicit Types (w : World S).

Lemma data_path_types ty path :
  data_path ty = Some path → ty ≠ "" ∧ utf8 ty = true.
Proof.
  unfold data_path. repeat (case_match; case_go); intros [= <-]; try by subst.
  match goal with H : _ || _ = true |- _ => apply orb_true_iff in H as [H|H]; apply str_eqb_eq in H; by subst end.
Qed.

Lemma Unix_add t : Unix (t + cardDataTokenTTL) = Unix t + 300.
Proof.
  unfold Unix, cardDataTokenTTL, minute_ns, second_ns.
  replace (t + 5 * (60 * 1000000000)) with (t + 300 * 1000000000) by lia. apply Z.div_add. lia.
Qed.

(** C12. A minted token opens exactly the endpoint it was minted for, for five
    minutes: [GetCardToken] answers a token that, sent back as a bearer token to
    a server with the same secret, yields the card and the public key it was
    minted with if the endpoint is of its type and the five minutes are not
    over, and is refused otherwise: a token to read a PIN cannot change one. *)
Theorem minted_token_scope ty req path key w :
  data_path ty = Some path → GetCardTokenArgs_CardID req ≠ "" →
  token_key ty (GetCardTokenArgs_PublicKey req) = Some key →
  utf8 (GetCardTokenArgs_CardID req) = true → utf8 key = true →
  0 < seconds w → seconds w + 300 <= int_max →
  ∃ token,
    GetCardToken ty (Some req) w
    = (Ret (token_response token (PublicBaseURL (w_config w) +:+ path)
              (if ty =?s cardTokenTypePinChange then "POST" else "GET")),
       w <| w_ticks := (w_ticks w + 1)%nat |>)
    ∧ ∀ w2 want claims,
        CardDataTokenSecret (w_config w2) = CardDataTokenSecret (w_config w) →
        seconds w <= seconds w2 →
        (bearerCardToken ("Bearer " +:+ token) want w2).1 = Ret (Ok claims) ↔
        want = ty ∧ seconds w2 <= seconds w + 300
        ∧ claims = minted_claims ty (GetCardTokenArgs_CardID req) key (env_now (w_ticks w)).
Proof.
  intros Hpath Hcard Hkey Hu Huk Hpos Hmax. destruct (data_path_types _ _ Hpath) as [Hty Huty].
  set (claims := minted_claims ty (GetCardTokenArgs_CardID req) key (env_now (w_ticks w))).
  assert (ExpiresAt claims = seconds w + 300) as Hexp by apply Unix_add.
  destruct (generated_claims (CardDataTokenSecret (w_config w)) claims) as (token & Hgen & Hsig).
  { unfold codec_ok, c_CardTokenClaims, c_struct, field_ok. cbn -[utf8 in_int64].
    assert (in_int64 (Unix (env_now (w_ticks w))) = true
            ∧ in_int64 (Unix (env_now (w_ticks w) + cardDataTokenTTL)) = true) as [-> ->].
    { rw Unix_add. unfold in_int64. change (Unix (env_now (w_ticks w))) with (seconds w).
      unfold int_min, int_max in *. split; apply andb_true_iff; rw !Z.leb_le; lia. }
    by rw Huty Hu Huk. }
  exists token. split.
  - unfold GetCardToken. rw (str_eqb_ne _ _ Hty) (str_eqb_ne _ _ Hcard) Hpath Hkey.
    rw run_bind run_time_Now run_bind run_gets. cbn [w_config]. fold claims. by rw Hgen.
  - intros w2 want c Hsec Hle. rw (run_bearer token claims); [|by rw Hsec|lia]. cbn [fst].
    destruct (check_expiry claims (seconds w2)) as [c'|e] eqn:Hc.
    + apply check_expiry_ok in Hc as [-> Hc]; [|lia|unfold exp_in_range, int_min; lia].
      change (TokenType claims) with ty. destruct (ty =?s want) eqn:Hw; cbn [negb]; case_go.
      * split; [intros [= <-]; split_and!; [done|lia|done]|by intros (_ & _ & ->)].
      * split; [done|]. by intros (-> & _).
    + split; [done|]. intros (-> & Hlt & ->). exfalso.
      assert (check_expiry claims (seconds w2) = Ok claims) as Hok; [|by rw Hok in Hc].
      apply check_expiry_ok; [lia|unfold exp_in_range, int_min; lia|]. split; [done|lia].
Qed.
End Minting.

(** ** Examples *)
Definition demo_claims : CardTokenClaims := mkCardTokenClaims "pin" "c1" "KEY" 1768920404 1768920704.
Definition demo_part (text : string) : string := EncodeToString RawURLEncoding (bytes_of text).
Definition demo_input : string * string :=
  (demo_part token_header, demo_part (json_text (enc c_CardTokenClaims demo_claims))).

Lemma card_token_accepted_iff_witness :
  (parseCardToken "secret" (joined demo_input.1 demo_input.2
     (token_signature "secret" (demo_input.1 +:+ "." +:+ demo_input.2))) demo_world).1
  = Ret (Ok demo_claims).
Proof.
  apply (card_token_accepted_iff "secret"); [by vm_compute|]. split.
  - exists demo_input.1, demo_input.2. split; [done|]. split_and!; vm_compute; reflexivity.
  - by vm_compute.
Defined.

Lemma minted_token_scope_witness :
  ∃ token, (GetCardToken "pin" (Some (mkGetCardTokenArgs "c1" (Some " KEY "))) demo_world).1
    = Ret (token_response token "http://localhost:8080/cards/v1/token/pin/data" "GET")
    ∧ (bearerCardToken ("Bearer " +:+ token) "pin" demo_world).1
      = Ret (Ok (minted_claims "pin" "c1" "KEY" (env_now 0)))
    ∧ (bearerCardToken ("Bearer " +:+ token) "pin-change" demo_world).1
      ≠ Ret (Ok (minted_claims "pin" "c1" "KEY" (env_now 0))).
Proof.
  destruct (minted_token_scope "pin" (mkGetCardTokenArgs "c1" (Some " KEY ")) cardPinPath "KEY" demo_world)
    as (token & Hrun & Hscope); [by vm_compute..|].
  exists token. split; [by rw Hrun|]. split.
  - by apply Hscope.
  - intros H. by apply Hscope in H as [? _].
Defined.

(** ** Text without white space is not trimmed *)
Definition visible (c : ascii) : bool := (33 <=? byte_of c) && (byte_of c <=? 126).

Lemma visible_no_space c : visible c = true →
  is_space c = false
  ∧ (∀ b, space2 c b = false ∧ space2 b c = false)
  ∧ (∀ b d, space3 c b d = false ∧ space3 d b c = false).
Proof.
  unfold visible, byte_of, is_space, space2, space3. intros [Hlo Hhi]%andb_true_iff.
  apply Z.leb_le in Hlo, Hhi. set (n := N_of_ascii c) in *. clearbody n.
  split; [|split; intros; split]; repeat match goal with
  | |- context [N_of_ascii ?x] => generalize (N_of_ascii x); intros
  end; lia.
Qed.

Lemma trim_spaces_visible sp2 sp3 l :
  (∀ c b d, visible c = true → is_space c = false ∧ sp2 c b = false ∧ sp3 c b d = false) →
  forallb visible l = true → trim_spaces sp2 sp3 l = l.
Proof.
  intros Hsp. destruct l as [|a [|b [|c l]]]; [done| | |]; intros [Ha _]%andb_true_iff.
  - cbn. by rw (proj1 (Hsp a a a Ha)).
  - cbn. destruct (Hsp a b b Ha) as (-> & -> & _). done.
  - cbn. destruct (Hsp a b c Ha) as (-> & -> & ->). done.
Qed.

Lemma forallb_rev {A} (p : A → bool) l : forallb p (rev l) = forallb p l.
Proof.
  induction l as [|x l IH]; [done|]. cbn. rw forallb_app IH. cbn. by rw andb_true_r andb_comm.
Qed.

Lemma TrimSpace_visible s : forallb visible (chars s) = true → TrimSpace s = s.
Proof.
  intros Hs. unfold TrimSpace. rw (trim_spaces_visible space2 space3); [| |done].
  - rw trim_spaces_visible; [by rw rev_involutive of_chars_chars| |by rw forallb_rev].
    intros c b d Hc. by destruct (visible_no_space c Hc) as (? & H2 & H3); split_and!; [|apply H2|apply H3].
  - intros c b d Hc. by destruct (visible_no_space c Hc) as (? & H2 & H3); split_and!; [|apply H2|apply H3].
Qed.

Lemma plausible_visible pin : isPlausiblePIN pin = true → forallb visible (chars pin) = true ∧ pin ≠ "".
Proof.
  unfold isPlausiblePIN. intros [Hlen Hd]%andb_true_iff. split; [|by intros ->].
  eapply forallb_weaken; [|exact Hd]. intros c. unfold is_digit, visible, byte_of.
  destruct c as [[] [] [] [] [] [] [] []]; done.
Qed.

(** ** What is encoded in base 64 has no white space *)
Lemma std_char_visible v : 0 <= v < 64 → visible (std_char v) = true.
Proof.
  intros Hv. assert (forallb (fun i => visible (std_char (Z.of_nat i))) (seq 0 64) = true) as Hall
    by (vm_compute; reflexivity).
  pose proof (proj1 (forallb_forall _ _) Hall (Z.to_nat v)) as Hi. rw Z2Nat.id in Hi; [|lia].
  apply Hi, in_seq. lia.
Qed.

Lemma std_text_visible b : bytes_ok b → forallb visible (chars (EncodeToString StdEncoding b)) = true.
Proof.
  intros Hb. unfold EncodeToString. rw chars_of_chars.
  apply encode_all; [exact std_char_visible|by intros c [= <-]|done].
Qed.

(** Base 64 text arrives as it was sent. *)
Lemma decode_trimmed b :
  bytes_ok b → DecodeString StdEncoding (TrimSpace (EncodeToString StdEncoding b)) = Ok b.
Proof.
  intros Hb. rw TrimSpace_visible; [|by apply std_text_visible].
  by apply decode_string_encode; [apply StdEncoding_sound|].
Qed.

Lemma encoded_nonempty b : b ≠ [] → EncodeToString StdEncoding b ≠ "".
Proof. by destruct b as [|x [|y [|z b]]]. Qed.

(** ** What the two parties do *)
Section Parties.
Context `{Rsa}.

(** A caller encrypts [m] under a published key. *)
Definition encrypts_to (key64 : string) (m : list Z) (cypher : string) : Prop :=
  ∃ der pk k c, DecodeString StdEncoding key64 = Ok der ∧ rsa_parse der = Ok (Some pk)
    ∧ rsa_encrypt k pk m = Ok c ∧ cypher = EncodeToString StdEncoding c.
(** The holder of [sk] opens a cypher. *)
Definition opens (sk : rsa_private) (cypher : string) (m : list Z) : Prop :=
  ∃ c, DecodeString StdEncoding cypher = Ok c ∧ rsa_decrypt sk c = Ok m.
(** [key64] is the public key of [sk], as keys are published. *)
Definition published (sk : rsa_private) (key64 : string) : Prop :=
  ∃ der, rsa_marshal (rsa_public_of sk) = Ok der ∧ key64 = EncodeToString StdEncoding der.

Definition public_key_answer (key64 : string) : Response :=
  sendJSON StatusOK (strings_json
    [("publicKey", key64); ("format", "base64-spki"); ("algorithm", "RSA-PKCS1v15")]).
Definition pin_stored : Response := sendJSON StatusOK (strings_json [("status", "success")]).
Definition cypher_answer (cypher : string) : Response :=
  sendJSON StatusOK (strings_json [("cypher", cypher)]).
End Parties.

Section PinFacts.
Context `{Env} `{Rsa} `{!RsaLaws}.
Implicit Types (w : World MemoryStorage) (p : Process MemoryStorage).

Lemma bearer_reads {S} authz want (w w' : World S) r :
  bearerCardToken authz want w = (r, w') → w_store w' = w_store w.
Proof.
  unfold bearerCardToken. destruct (negb _); [by intros [= _ <-]|].
  rw run_bind run_gets run_bind. unfold parseCardToken.
  destruct (signed_claims _ _) as [c|e]; [|by intros [= _ <-]].
  destruct (_ <=? 0); [by intros [= _ <-]|]. rw run_bind run_time_Now run_mret.
  destruct (check_expiry _ _) as [c'|e]; [|by intros [= _ <-]].
  by destruct (negb _); intros [= _ <-].
Qed.

Lemma run_in_world {S A} (m : prog (World S) A) (p : Process S) a (w : World S) :
  m (p_world p) = (a, w) → in_world m p = (a, mkProcess w (serviceKeys p)).
Proof. unfold in_world. by intros ->. Qed.

Lemma key_answered {A} key key' (x x' : A) :
  (Ret (public_key_answer key), x) = (Ret (public_key_answer key'), x') → key = key' ∧ x = x'.
Proof. unfold public_key_answer, sendJSON. cbn. by intros [= <- <-]. Qed.

(** The first use settles the key. *)
Lemma run_serviceKeys p : ∃ key p', serviceKeys_get p = (Ret key, p') ∧ once (serviceKeys p') = Some key.
Proof.
  unfold serviceKeys_get. destruct (once (serviceKeys p)) as [key|] eqn:Hk; [by exists key, p|].
  by eexists _, _.
Qed.

Lemma published_key p0 p key64 :
  GetCardPinPublicKey p0 = (Ret (public_key_answer key64), p) →
  ∃ sk, once (serviceKeys p) = Some (Ok sk) ∧ published sk key64.
Proof.
  unfold GetCardPinPublicKey, servicePublicKeyBase64.
  destruct (run_serviceKeys p0) as (key & p' & Hget & Hk). rw run_bind (run_bind_ret _ _ _ _ _ Hget).
  destruct key as [sk|e]; [|by intros [= ]]. rw run_mret.
  destruct (rsa_marshal (rsa_public_of sk)) as [der|e] eqn:Hm; [|by intros [= ]].
  intros [<- <-]%key_answered. exists sk. split; [done|]. by exists der.
Qed.

(** The service opens what was encrypted under its published key. *)
Lemma run_decrypt p sk key64 m cypher :
  once (serviceKeys p) = Some (Ok sk) → published sk key64 → encrypts_to key64 m cypher →
  cypher ≠ "" ∧ decryptWithServiceKey cypher p = (Ret (Ok m), p).
Proof.
  intros Hk (der & Hder & ->) (der' & pk & k & c & Hd & Hpk & Hc & ->).
  destruct (rsa_marshal_bytes _ _ Hder) as [_ Hb]. destruct (rsa_encrypt_bytes _ _ _ _ Hc) as [Hne Hcb].
  rw (decode_string_encode _ StdEncoding_sound _ Hb) in Hd. injection Hd as <-.
  rw (rsa_parse_marshal _ _ Hder) in Hpk. injection Hpk as <-.
  split; [by apply encoded_nonempty|]. unfold decryptWithServiceKey, serviceKeys_get.
  rw run_bind Hk (decode_trimmed _ Hcb) (rsa_decrypt_encrypt _ _ _ _ Hc). done.
Qed.

(** A payload sent to a published key is opened by its holder, or the encryption
    failed. *)
Lemma send_encrypted {S} sk key64 v (w : World S) :
  published sk key64 →
  ∃ r (w' : World S), sendEncryptedCardPayload key64 (PlainText v) w = (Ret r, w')
    ∧ ((∃ e, r = sendError StatusBadRequest
                   ("failed to encrypt with the supplied publicKey: encryption failed: " +:+ e))
       ∨ ∃ cypher, r = cypher_answer cypher ∧ opens sk cypher (bytes_of v)).
Proof.
  intros (der & Hder & ->). destruct (rsa_marshal_bytes _ _ Hder) as [Hne Hb].
  unfold sendEncryptedCardPayload. rw (str_eqb_ne _ _ (encoded_nonempty _ Hne)).
  unfold encryptWithBase64SPKI. rw (decode_trimmed _ Hb) (rsa_parse_marshal _ _ Hder).
  unfold tick. run_binds. cbn [payload_bytes].
  destruct (rsa_encrypt _ _ _) as [c|e] eqn:Hc; [|by eexists _, _; split; [reflexivity|left; exists e]].
  eexists _, _. split; [reflexivity|]. right. exists (EncodeToString StdEncoding c). split; [done|].
  exists c. destruct (rsa_encrypt_bytes _ _ _ _ Hc) as [_ Hcb].
  split; [by apply decode_string_encode; [apply StdEncoding_sound|]|by eapply rsa_decrypt_encrypt].
Qed.

(** C13. A PIN is read back as it was set, and is never readable on the way: a
    caller that fetches the service's public key, encrypts a plausible PIN under
    it and sends it with an accepted pin-change token for a stored card gets it
    stored, and from then on whoever presents an accepted pin token for that
    card is answered with a cypher that the holder of the token's key opens to
    that PIN, unless RSA refuses to encrypt it. *)
Theorem pin_roundtrip p0 p key64 pin cypher authz claims w1 card :
  GetCardPinPublicKey p0 = (Ret (public_key_answer key64), p) →
  isPlausiblePIN pin = true → encrypts_to key64 (bytes_of pin) cypher →
  bearerCardToken authz cardTokenTypePinChange (p_world p) = (Ret (Ok claims), w1) →
  CardID claims ≠ "" → cards (w_store (p_world p)) !! CardID claims = Some card →
  ∃ p', SetCardPin authz (Some cypher) p = (Ret pin_stored, p')
    ∧ ∀ authz2 w2 w3 claims2 sk2,
        w_store w2 = w_store (p_world p') →
        bearerCardToken authz2 cardTokenTypePin w2 = (Ret (Ok claims2), w3) →
        CardID claims2 = CardID claims → published sk2 (PublicKey claims2) →
        ∃ r w4, GetCardPin authz2 w2 = (Ret r, w4)
          ∧ ((∃ e, r = sendError StatusBadRequest
                     ("failed to encrypt with the supplied publicKey: encryption failed: " +:+ e))
             ∨ ∃ answer, r = cypher_answer answer ∧ opens sk2 answer (bytes_of pin)).
Proof.
  intros Hpub Hpin Henc Hbear Hid Hcard. destruct (published_key _ _ _ Hpub) as (sk & Hk & Hsk).
  destruct (plausible_visible _ Hpin) as [Hvis Hne].
  set (p1 := mkProcess w1 (serviceKeys p)).
  destruct (run_decrypt p1 sk key64 _ _ Hk Hsk Henc) as [Hcy Hdec].
  pose proof (bearer_reads _ _ _ _ _ Hbear) as Hstore.
  unfold SetCardPin. rw (run_bind_ret _ _ _ _ _ (run_in_world _ _ _ _ Hbear)).
  rw (str_eqb_ne _ _ Hcy) (run_bind_ret _ _ _ _ _ Hdec) string_of_bytes_of (TrimSpace_visible _ Hvis) Hpin.
  cbn [negb]. eexists. split.
  - rw run_bind. unfold in_world. cbn [p_world p1].
    change (Storage.SetCardPIN (CardID claims) pin w1) with (Memory.SetCardPIN (CardID claims) pin w1).
    unfold SetCardPIN, store, put. rw (str_eqb_ne _ _ Hid). run_binds. rw Hstore Hcard. reflexivity.
  - cbn [p_world]. intros authz2 w2 w3 claims2 sk2 Hw2 Hbear2 Hsame Hsk2.
    pose proof (bearer_reads _ _ _ _ _ Hbear2) as Hstore2. unfold GetCardPin.
    rw (run_bind_ret _ _ _ _ _ Hbear2).
    assert (current_pin (CardID claims2) w3 = (Ret pin, w3)) as Hcur.
    { unfold current_pin. rw run_bind.
      change (Storage.GetCardPIN (CardID claims2) w3) with (Memory.GetCardPIN (CardID claims2) w3).
      unfold GetCardPIN, store. rw run_bind run_gets Hstore2 Hw2 Hsame. cbn.
      rw lookup_insert_eq run_mret. by rw (str_eqb_ne _ _ Hne). }
    rw (run_bind_ret _ _ _ _ _ Hcur). by apply send_encrypted.
Qed.
End PinFacts.

(** ** Examples

    A toy cipher: a key is a bit, a message of bytes is masked with it. *)
Definition mask (key : bool) : Z := if key then 85 else 170.
Definition is_byte (x : Z) : bool := (0 <=? x) && (x <? 256).
Definition mask_bytes (key : bool) (m : list Z) : result (list Z) :=
  if forallb is_byte m && negb (bool_decide (m = []))
  then Ok (map (fun x => (x + mask key) mod 256) m) else Err "message".
Definition unmask_bytes (key : bool) (m : list Z) : result (list Z) :=
  Ok (map (fun x => (x - mask key) mod 256) m).
#[export] Instance demo_rsa : Rsa := {|
  rsa_public := bool; rsa_private := bool;
  rsa_generate k := Ok true;
  rsa_public_of key := key;
  rsa_marshal key := Ok [if key then 1 else 0];
  rsa_parse der := Ok (Some (bool_decide (der = [1])));
  rsa_encrypt k := mask_bytes;
  rsa_decrypt := unmask_bytes |}.

#[export] Program Instance demo_rsa_laws : RsaLaws (H := demo_rsa).
Next Obligation. intros [] der [= <-]; split; [done|by repeat constructor..|done|by repeat constructor]. Qed.
Next Obligation. by intros [] der [= <-]. Qed.
Next Obligation.
  intros k pk m c. cbn. unfold mask_bytes. destruct (forallb is_byte m && _) eqn:Hm; intros [= <-].
  apply andb_true_iff in Hm as [_ Hne%negb_true_iff%bool_decide_eq_false].
  split; [by destruct m|]. apply Forall_forall. intros x (y & -> & _)%list_elem_of_fmap.
  by apply Z.mod_pos_bound.
Qed.
Next Obligation.
  intros k sk m c. cbn. unfold mask_bytes, unmask_bytes.
  destruct (forallb is_byte m && _) eqn:Hm; intros [= <-]. f_equal.
  apply andb_true_iff in Hm as [Hm _]. rw map_map. induction m as [|x m IH]; [done|]. cbn in Hm |- *.
  apply andb_true_iff in Hm as [Hx Hm]. rw IH; [|done]. f_equal.
  unfold is_byte in Hx. rw Zminus_mod_idemp_l Z.add_simpl_r. apply Z.mod_small. lia.
Qed.

Definition demo_token (ty key : string) : string :=
  match generateCardToken (CardDataTokenSecret demo_config) (minted_claims ty "c1" key (env_now 0)) with
  | Ok token => "Bearer " +:+ token
  | Err _ => ""
  end.
Definition demo_key : string := EncodeToString StdEncoding [1].
Definition demo_card_process : Process MemoryStorage :=
  mkProcess (world_with (NewMemoryStorage <| cards := <["c1" := 1%positive]> ∅ |>)
               (heap_alloc (zero_Card <| Card_ID := "c1" |>) empty_heap).2)
    (mkServiceKeyPair (Some (Ok (true : rsa_private)))).
Definition demo_cypher : string := EncodeToString StdEncoding (map (fun x => (x + 85) mod 256) (bytes_of "4321")).

Lemma pin_roundtrip_witness :
  ∃ p', SetCardPin (demo_token "pin-change" "") (Some demo_cypher) demo_card_process = (Ret pin_stored, p')
    ∧ ∃ r w4, GetCardPin (demo_token "pin" demo_key) (p_world p') = (Ret r, w4)
      ∧ ((∃ e, r = sendError StatusBadRequest
                 ("failed to encrypt with the supplied publicKey: encryption failed: " +:+ e))
         ∨ ∃ answer, r = cypher_answer answer ∧ opens (true : rsa_private) answer (bytes_of "4321")).
Proof.
  destruct (pin_roundtrip demo_card_process demo_card_process demo_key "4321" demo_cypher
    (demo_token "pin-change" "") (minted_claims "pin-change" "c1" "" (env_now 0))
    ((p_world demo_card_process) <| w_ticks := 1%nat |>) 1%positive) as (p' & Hset & Hget).
  - by vm_compute.
  - by vm_compute.
  - exists [1], true, 0%nat, (map (fun x => (x + 85) mod 256) (bytes_of "4321")).
    split_and!; vm_compute; reflexivity.
  - by vm_compute.
  - done.
  - by vm_compute.
  - exists p'. split; [exact Hset|].
    assert (∃ w3, bearerCardToken (demo_token "pin" demo_key) cardTokenTypePin (p_world p')
      = (Ret (Ok (minted_claims "pin" "c1" demo_key (env_now 0))), w3)) as [w3 Hb].
    { assert (p' = (SetCardPin (demo_token "pin-change" "") (Some demo_cypher) demo_card_process).2) as ->
        by (by rw Hset). eexists. vm_compute. reflexivity. }
    apply (Hget (demo_token "pin" demo_key) (p_world p') w3
      (minted_claims "pin" "c1" demo_key (env_now 0)) true); [done|exact Hb|done|].
    exists [1]. by split.
Defined.
