(* ===== verification/BooksFacts.v ===== *)
(** * What a withdrawal request does to the balances

    One charge or none, and the amounts that pass the checks. *)
From S2P Require Import Prelude GoFloat GoStd GoText Consts Models Config World Memory Api Fees Webhook.
From S2P Require Import Utils Frames Demo LedgerFacts WithdrawalFacts.
From S2P Require Payments.
From S2P Require Storage.

(** ** Withdrawals asked for *)
Section Withdrawals.
Context `{Env}.

(** What a withdrawal request does to the balances: nothing, or one charge of
    the amount and its fee to the token's user, which the balance covers. *)
Definition withdrawal_charge (bearer : string) (txReq : Payments.TransactionRequest)
    (w w' : World MemoryStorage) : Prop :=
  let u := default "" (w_tokens w !! bearer) in
  let c := Payments.Currency txReq in
  ∃ a, ParseFloat (Payments.Amount txReq) = Some a
    ∧ let total := fadd a (CalculateFee a (GetWithdrawalFeeForUser u (w_fees w)).1) in
      AsyncWithdrawals (w_config w) = false
      ∧ flt (balance_of (w_store w) u c) total = false
      ∧ balances (w_store w')
        = balances (put_balance u c (fsub (balance_of (w_store w) u c) total) (w_store w)).

Lemma priced_eq w w' :
  priced w' = priced w →
  balances (w_store w') = balances (w_store w) ∧ w_fees w' = w_fees w
  ∧ w_config w' = w_config w ∧ w_tokens w' = w_tokens w.
Proof. by intros [= ? ? ? ?]. Qed.

Lemma balance_of_eq s s' u c : balances s = balances s' → balance_of s u c = balance_of s' u c.
Proof. by unfold balance_of => ->. Qed.

(** C23. A withdrawal request charges once or not at all: whatever it asks for and
    whatever goes wrong, either no balance moves, or withdrawals are synchronous and the
    one balance of the token's user in the requested currency is charged the
    amount and its fee, once, and that balance was not below the charge. *)
Theorem withdrawal_charges_or_nothing bearer txReq w :
  let w' := (Payments.processWithdrawal bearer txReq w).2 in
  balances (w_store w') = balances (w_store w) ∨ withdrawal_charge bearer txReq w w'.
Proof.
  cbn zeta. unfold Payments.processWithdrawal.
  assert (∀ w', priced w' = priced w →
    balances (w_store w') = balances (w_store w) ∨ withdrawal_charge bearer txReq w w') as Hkept.
  { intros w' Hw'. apply priced_eq in Hw' as (-> & _). by left. }
  rw run_bind. cbn [extractUserFromBearer mbind prog_bind gets mret prog_ret].
  unfold extractUserFromBearer. rw run_bind run_gets run_mret. set (u := default "" _).
  destruct (u =?s ""); [by left|].
  apply (after_keeps priced); [keep|done|]. intros [_|_] w1 H1; [|by apply Hkept].
  apply (after_keeps priced); [keep|by intros w2 H2; apply Hkept; rw H2|].
  intros [wallets|_] w2 H2; [|by apply Hkept; rw H2]. rw H1 in H2.
  destruct wallets as [|wallet wallets]; [by apply Hkept|].
  destruct (ParseFloat _) as [a|] eqn:Ha; [|by apply Hkept].
  pose proof (priced_eq _ _ H2) as (Hb2 & Hf2 & Hc2 & _).
  unfold fees. rw run_bind run_gets Hf2. set (total := fadd a _). rw run_bind.
  change (Storage.GetBalance (S := MemoryStorage)) with GetBalance. rw run_GetBalance.
  cbn iota. rw (balance_of_eq _ _ u (Payments.Currency txReq) Hb2).
  destruct (flt _ total) eqn:Hlt; [by apply Hkept|].
  apply (after_keeps priced); [keep|by intros w3 H3; apply Hkept; rw H3|].
  intros txID w3 H3. rw H2 in H3. rw run_bind run_gets.
  pose proof (priced_eq _ _ H3) as (_ & _ & Hc3 & _). rw Hc3.
  apply (after_keeps priced); [keep|by intros w4 H4; apply Hkept; rw H4|].
  intros tx w4 H4. rw H3 in H4.
  apply (after_keeps priced); [keep|by intros w5 H5; apply Hkept; rw H5|].
  intros [_|_] w5 H5; rw H4 in H5; [|by apply Hkept].
  destruct (AsyncWithdrawals (w_config w)) eqn:Hasync; [by apply Hkept|].
  pose proof (priced_eq _ _ H5) as (Hb5 & _).
  rw run_bind. change (Storage.DeductBalance (S := MemoryStorage)) with DeductBalance.
  rw run_DeductBalance. rw (balance_of_eq _ _ u (Payments.Currency txReq) Hb5) Hlt.
  destruct (balances (w_store w5) !! u) eqn:Hrow.
  - right. exists a. split; [done|]. cbn zeta. fold u total. split; [done|]. split; [done|].
    cbn. unfold put_balance. cbn. by rw Hb5.
  - apply (after_keeps priced); [keep|by intros w6 H6; apply Hkept; rw H6|].
    intros _ w6 H6. apply Hkept. by rw H6.
Qed.
End Withdrawals.

(** ** Amounts the checks let through

    A user with 100 dollars, synchronous withdrawals and no fees: an amount
    that is not a number, or a negative one, passes the balance check. *)
Definition demo_wallet : Wallet := zero_Wallet <| Wallet_Address := "r1" |> <| Wallet_UserID := "u" |>.
Definition demo_bank : World MemoryStorage :=
  (world_with (put_balance "u" "USD" (f_of_Z 100)
                 (NewMemoryStorage <| users := <["u" := 1%positive]> ∅ |>
                                   <| wallets := <["r1" := demo_wallet]> ∅ |>)) empty_heap)
  <| w_config := demo_config <| AsyncWithdrawals := false |> |>
  <| w_tokens := <["tok" := "u"]> ∅ |>.
Definition withdraw (amount : string) : World MemoryStorage :=
  (Payments.processWithdrawal "tok" (Payments.mkTransactionRequest amount "USD" false "") demo_bank).2.


(** An ordinary withdrawal of 30, for comparison. *)
Lemma ordinary_withdrawal_charges :
  balance_of (w_store (withdraw "30")) "u" "USD" = f_of_Z 70.
Proof. by vm_compute. Qed.

(** A fee is rounded to cents, so a fraction of a cent can cost a whole one:
    0.006 at 90 percent pays 0.01. *)
Lemma fee_exceeds_small_amount :
  flt (f_lit 6 3) (CalculateFee (f_lit 6 3) (f_of_Z 90)) = true.
Proof. by vm_compute. Qed.
