(* ===== verification/CoreFacts.v ===== *)
(** * Core transactions: from the request to the posted amount

    A hosted or external transaction is answered first and posted later, by
    the [complete] closure.  What the request leaves behind, and what the
    closure does with it. *)
From S2P Require Import Prelude GoFloat GoStd Consts Models Config World Memory Api Fees Webhook.
From S2P Require Import Utils Core LedgerFacts MemoryFacts WithdrawalFacts Frames Demo.
From S2P Require Storage.

(** The store after a completion moved the net amount, if it could. *)
Definition net_amount (c : Completion) : f64 := fsub (c_amount c) (c_feeAmount c).
Definition posted (c : Completion) (s : MemoryStorage) : option MemoryStorage :=
  let old := balance_of s (c_userID c) (c_currency c) in
  if c_isDebit c then
    match balances s !! c_userID c with
    | Some _ => if flt old (net_amount c) then None
                else Some (put_balance (c_userID c) (c_currency c) (fsub old (net_amount c)) s)
    | None => None
    end
  else Some (put_balance (c_userID c) (c_currency c) (fadd old (net_amount c)) s).

Section Facts.
Context `{Env}.
Implicit Types w : World MemoryStorage.

(** The balance movement of a completion. *)
Definition move_net (c : Completion) : prog (World MemoryStorage) (result unit) :=
  if c_isDebit c then DeductBalance (c_userID c) (c_currency c) (net_amount c)
  else AddBalance (c_userID c) (c_currency c) (net_amount c).

Lemma run_move_net c w :
  ∃ r, move_net c w = (Ret r, w <| w_store := default (w_store w) (posted c (w_store w)) |>)
    ∧ is_ok r = bool_decide (is_Some (posted c (w_store w))).
Proof.
  unfold move_net, posted. destruct (c_isDebit c).
  - rw run_DeductBalance. destruct (balances (w_store w) !! c_userID c); [|by destruct w; eauto].
    destruct (flt _ _); [by destruct w; eauto|]. by eexists.
  - rw run_AddBalance. by eexists.
Qed.


(** ** The request *)
Definition has_url (w : World MemoryStorage) : bool :=
  match w_manager w with
  | None => false
  | Some m => negb (default (webhookURL m) (org_url m (w_store w)) =?s "")
  end.

Lemma run_HasURL w : HasURL w = (Ret (has_url w), w).
Proof.
  unfold HasURL, has_url. rw run_bind run_gets. destruct (w_manager w); [|done].
  by rw run_bind run_resolveCallbackURL.
Qed.

(** What deferring observes: the balances, what prices and routes a completion,
    and the completions waiting. *)
Definition deferring w :=
  (balances (w_store w), w_fees w, w_tasks w, w_manager w, organizations (w_store w)).
#[local] Instance deferring_ticks : BlindTicks deferring.
Proof. done. Qed.
#[local] Instance deferring_Transaction : BlindHeap deferring Transaction.
Proof. done. Qed.

Lemma deferring_eq w w' :
  deferring w' = deferring w →
  balances (w_store w') = balances (w_store w) ∧ w_fees w' = w_fees w
  ∧ w_tasks w' = w_tasks w ∧ has_url w' = has_url w.
Proof.
  intros [= Hb Hf Ht Hm Ho]. split_and!; [done..|]. unfold has_url, org_url. by rw Hm Ho.
Qed.

(** The completion a request asks for. *)
Definition completion_of (req : CreateTransactionRequest) w (c : Completion) : Prop :=
  c_userID c ≠ "" ∧ fle (CreateTransactionRequest_Amount req) (f_of_Z 0) = false
  ∧ resolve_currency (CreateTransactionRequest_Currency req)
      (CreateTransactionRequest_VaultUUID req) = Ok (c_currency c)
  ∧ c_amount c = CreateTransactionRequest_Amount req
  ∧ c_feeAmount c = CalculateFee (c_amount c)
                      (fee_percent (c_depositType c) (c_userID c) (w_fees w))
  ∧ c_depositType c = resolve_deposit_type
      (if CreateTransactionRequest_Type req =? 0 then TransactionTypeDeposit
       else CreateTransactionRequest_Type req) (CreateTransactionRequest_DepositType req)
  ∧ (c_depositType c = DepositTypeExternal ∨ c_depositType c = DepositTypeHosted)
  ∧ c_hasWebhook c = has_url w.

Lemma posted_balances c s s' :
  balances s' = balances s →
  balances (default s' (posted c s')) = balances (default s (posted c s)).
Proof.
  intros Hb. unfold posted, balance_of. rw Hb. destruct (c_isDebit c).
  - destruct (balances s !! c_userID c); [|done]. destruct (flt _ _); [done|].
    unfold put_balance. cbn. by rw Hb.
  - unfold put_balance. cbn. by rw Hb.
Qed.

(** Completing at once, when no URL is configured. *)
Lemma complete_untold c w :
  c_hasWebhook c = false →
  ∃ w', complete c w = (Ret tt, w') ∧ w_tasks w' = w_tasks w
    ∧ balances (w_store w') = balances (default (w_store w) (posted c (w_store w))).
Proof.
  intros Hweb. unfold complete. rw Hweb run_bind run_mret.
  change (if c_isDebit c then _ else _) with (move_net c).
  destruct (run_move_net c w) as (r & Hrun & _). rw (run_bind_ret _ _ _ _ _ Hrun).
  eexists. by split; [destruct r|].
Qed.

Definition deferred (body : option CreateTransactionRequest) w w' : Prop :=
  (balances (w_store w') = balances (w_store w) ∧ w_tasks w' = w_tasks w)
  ∨ ∃ req c, body = Some req ∧ completion_of req w c
      ∧ if has_url w
        then balances (w_store w') = balances (w_store w)
             ∧ w_tasks w' = w_tasks w ++ [TComplete c]
        else balances (w_store w') = balances (default (w_store w) (posted c (w_store w)))
             ∧ w_tasks w' = w_tasks w.

End Facts.

(** ** A deposit of 100 at a fee of 2, completed *)
Definition demo_completion : Completion :=
  mkCompletion "t1" "u" "USD" (f_of_Z 100) (f_of_Z 2) DepositTypeExternal "r" false true.
Definition demo_deposit : World MemoryStorage :=
  world_with (put_balance "u" "USD" (f_of_Z 5)
                (NewMemoryStorage <| transactions := <["t1" := 1%positive]> ∅ |>))
    (heap_alloc (zero_Transaction <| Transaction_ID := "t1" |>) empty_heap).2.
