(* ===== verification/UserFacts.v ===== *)
(** * Users and listings

    Signing up, the e-mail index of the in-memory storage, and the order in
    which a user's transactions are listed. *)
From S2P Require Import Prelude GoFloat GoStd Consts Models Config World Memory Api Session Demo.
From S2P Require Storage.

Section Facts.
Context `{Env}.
Implicit Types w : World MemoryStorage.

(** ** Running the user operations *)
Definition user_at w (p : loc) (u : User) : Prop := heap_users (w_heap w) !! p = Some u.

Lemma run_deref_user w p u : user_at w p u → deref (T := User) p w = (Ret u, w).
Proof. exact (run_deref (T := User) p u w). Qed.

Lemma run_GetUserByEmail e w :
  GetUserByEmail e w = (Ret (match usersByEmail (w_store w) !! e with
                             | Some p => Ok p | None => Err "user not found" end), w).
Proof. unfold GetUserByEmail, store. rw run_bind run_gets. by destruct (_ !! e). Qed.

Lemma run_assign_user w p u v :
  user_at w p u →
  ∃ w', assign (T := User) p v w = (Ret tt, w') ∧ user_at w' p v ∧ w_store w' = w_store w
    ∧ w_ticks w' = w_ticks w.
Proof.
  intros Hp. eexists. split; [exact (run_assign (T := User) p u v w Hp)|]. split; [|done].
  exact (heap_write_lookup (T := User) p v (w_heap w)).
Qed.

Lemma run_update_user w p u f :
  user_at w p u →
  ∃ w', update (T := User) p f w = (Ret tt, w') ∧ user_at w' p (f u) ∧ w_store w' = w_store w
    ∧ w_ticks w' = w_ticks w.
Proof.
  intros Hp. unfold update. destruct (run_assign_user w p u (f u) Hp) as (w' & Hrun & Hw').
  exists w'. split; [|done]. by rw (run_bind_ret _ _ _ _ _ (run_deref_user _ _ _ Hp)).
Qed.

Lemma run_new_user w u :
  ∃ p w', new (T := User) u w = (Ret p, w') ∧ user_at w' p u ∧ w_store w' = w_store w.
Proof. eexists _, _. split; [done|]. split; [|done]. exact (lookup_insert_eq _ _ u). Qed.

(** Creating a user that has an e-mail nobody has. *)
Lemma run_CreateUser w p u :
  user_at w p u → User_Email u ≠ "" → User_ID u ≠ "" →
  usersByEmail (w_store w) !! User_Email u = None →
  ∃ w' u', CreateUser p w = (Ret (Ok tt), w') ∧ user_at w' p u'
    ∧ (User_ID u', User_Email u') = (User_ID u, User_Email u)
    ∧ usersByEmail (w_store w') = <[User_Email u := p]> (usersByEmail (w_store w)).
Proof.
  intros Hp Hemail Hid Hnew. unfold CreateUser.
  rw (run_bind_ret _ _ _ _ _ (run_deref_user _ _ _ Hp)).
  rw (str_eqb_ne _ _ Hemail) (str_eqb_ne _ _ Hid). unfold store. rw run_bind run_gets Hnew.
  rw run_bind run_mret.
  destruct (run_update_user w p u (fun u' => u' <| User_ID := User_ID u |>) Hp)
    as (w1 & Hrun1 & Hp1 & Hst1 & _).
  rw (run_bind_ret _ _ _ _ _ Hrun1).
  destruct (IsZero (User_CreatedAt u)).
  - rw run_bind run_time_Now. set (w2 := w1 <| w_ticks := _ |>).
    destruct (run_update_user w2 p _ (fun u' => u' <| User_CreatedAt := env_now (w_ticks w1) |>) Hp1)
      as (w3 & Hrun3 & Hp3 & Hst3 & _).
    rw (run_bind_ret _ _ _ _ _ Hrun3). eexists _, _. split; [reflexivity|].
    split; [exact Hp3|]. split; [done|]. cbn. by rw Hst3 /= Hst1.
  - rw run_bind run_mret.
    destruct (run_update_user w1 p _ (fun u' => u' <| User_CreatedAt := User_CreatedAt u |>) Hp1)
      as (w3 & Hrun3 & Hp3 & Hst3 & _).
    rw (run_bind_ret _ _ _ _ _ Hrun3). eexists _, _. split; [reflexivity|].
    split; [exact Hp3|]. split; [done|]. cbn. by rw Hst3 /= Hst1.
Qed.

(** A signed-up user is answered as it is stored. *)
Lemma run_CreateManagedUser_known w email p u :
  email ≠ "" → usersByEmail (w_store w) !! email = Some p → user_at w p u →
  CreateManagedUser (Some (mkCreateManagedUserRequest email)) w
  = (Ret (sendJSON StatusOK (json_of_User u)), w).
Proof.
  intros He Hidx Hp. unfold CreateManagedUser. cbn [CreateManagedUserRequest_Email].
  rw (str_eqb_ne _ _ He) run_bind.
  change (Storage.GetUserByEmail (S := MemoryStorage)) with GetUserByEmail.
  rw run_GetUserByEmail Hidx. by rw (run_bind_ret _ _ _ _ _ (run_deref_user _ _ _ Hp)).
Qed.

Lemma run_GetManagedUser w email p u :
  email ≠ "" → usersByEmail (w_store w) !! email = Some p → user_at w p u →
  GetManagedUser email w
  = (Ret (sendJSON StatusOK (json_of_GetManagedUserResponse (mkGetManagedUserResponse u))), w).
Proof.
  intros He Hidx Hp. unfold GetManagedUser. rw (str_eqb_ne _ _ He) run_bind.
  change (Storage.GetUserByEmail (S := MemoryStorage)) with GetUserByEmail.
  rw run_GetUserByEmail Hidx. by rw (run_bind_ret _ _ _ _ _ (run_deref_user _ _ _ Hp)).
Qed.

Lemma run_UpdateUser_shared w p u :
  user_at w p u → users (w_store w) !! User_ID u = Some p →
  UpdateUser p w = (Ret (Ok tt), w).
Proof.
  intros Hp Hid. unfold UpdateUser. rw (run_bind_ret _ _ _ _ _ (run_deref_user _ _ _ Hp)).
  unfold store. rw run_bind run_gets Hid (run_bind_ret _ _ _ _ _ (run_deref_user _ _ _ Hp)).
  rw str_eqb_refl. cbn [negb]. rw run_bind run_mret. unfold put. rw run_bind run_modify.
  destruct w as [s ? ? ? ? ? ? ? ? ?]. unfold nil_error. rw run_mret. do 2 f_equal.
  destruct s. cbn in *. by rw insert_id.
Qed.

(** ** Listing a user's transactions *)
Definition created_at w (p : loc) : Z :=
  match heap_txs (w_heap w) !! p with Some t => Transaction_CreatedAt t | None => 0 end.

Lemma run_deref_all w ps :
  Forall (fun p => is_Some (heap_txs (w_heap w) !! p)) ps →
  ∃ out, deref_all (T := Transaction) ps w = (Ret out, w) ∧ out.*1 = ps
    ∧ Forall (fun x => heap_txs (w_heap w) !! x.1 = Some x.2) out.
Proof.
  intros Hps. unfold deref_all. induction Hps as [|p ps [t Hp] _ (out & Hrun & Hfst & Hall)];
    cbn [collect]; [by exists []|].
  exists ((p, t) :: out).
  change (cells (T := Transaction) (w_heap w) !! p = Some t) in Hp.
  rw prog_bind_assoc (run_bind_ret _ _ _ _ _ (run_deref p t w Hp)) run_bind run_mret.
  rw (run_bind_ret _ _ _ _ _ Hrun). split; [done|]. split; [cbn; by rw Hfst|]. by constructor.
Qed.

(** ** Properties *)

(** Signing up is idempotent: the first request with an e-mail answers with
    the user of that e-mail, created or found; from then on repeating it answers
    the same user and changes nothing, and looking the e-mail up finds it. *)
Lemma signup_idempotent `{!EnvLaws} (email : string) w :
  email ≠ "" →
  (∀ p, usersByEmail (w_store w) !! email = Some p → ∃ u, user_at w p u) →
  let signup := CreateManagedUser (Some (mkCreateManagedUserRequest email)) in
  ∃ status u w1, signup w = (Ret (sendJSON status (json_of_User u)), w1)
    ∧ (status = StatusCreated ∧ User_Email u = email ∨ status = StatusOK ∧ w1 = w)
    ∧ signup w1 = (Ret (sendJSON StatusOK (json_of_User u)), w1)
    ∧ GetManagedUser email w1
      = (Ret (sendJSON StatusOK (json_of_GetManagedUserResponse (mkGetManagedUserResponse u))), w1).
Proof.
  intros He Hvalid. cbn zeta. destruct (usersByEmail (w_store w) !! email) as [p|] eqn:Hidx.
  - destruct (Hvalid p eq_refl) as [u Hp]. exists StatusOK, u, w.
    rw (run_CreateManagedUser_known w email p u) //. split; [done|]. split; [by right|].
    split; [done|]. by apply run_GetManagedUser with p.
  - unfold CreateManagedUser at 1. cbn [CreateManagedUserRequest_Email].
    rw (str_eqb_ne _ _ He) run_bind.
    change (Storage.GetUserByEmail (S := MemoryStorage)) with GetUserByEmail.
    rw run_GetUserByEmail Hidx run_bind run_GenerateUUID.
    set (u := zero_User <| User_ID := _ |> <| User_Email := _ |> <| User_Activated := _ |>
                <| User_Managed := _ |> <| User_Role := _ |> <| User_Features := _ |>).
    destruct (run_new_user (w <| w_ticks := (w_ticks w + 1)%nat |>) u) as (p & w1 & Hnew & Hp & Hst).
    rw (run_bind_ret _ _ _ _ _ Hnew).
    destruct (run_CreateUser w1 p u Hp) as (w2 & u2 & Hrun & Hp2 & Hu2 & Hidx2); [done| |by rw Hst|].
    { cbn. intros Heq. pose proof (env_uuid_length (w_ticks w)) as Hlen. by rw Heq in Hlen. }
    change (Storage.CreateUser (S := MemoryStorage)) with CreateUser.
    rw run_bind Hrun. rw (run_bind_ret _ _ _ _ _ (run_deref_user _ _ _ Hp2)).
    exists StatusCreated, u2, w2. split; [done|]. injection Hu2 as _ Hemail.
    assert (usersByEmail (w_store w2) !! email = Some p) as Hidx3 by (by rw Hidx2 lookup_insert_eq).
    split; [by left|]. split; [by apply run_CreateManagedUser_known with p|].
    by apply run_GetManagedUser with p.
Qed.

(** C32. What changing an e-mail does on the in-memory storage: it answers 200
    with the new e-mail, but because the handler writes it through the pointer the
    storage shares, the storage sees no change of e-mail and leaves its index as
    it was: the old address still finds the user, and a new address nobody had
    still finds no one. *)
Theorem email_update_leaves_index_stale (old new : string) w p u :
  old ≠ "" → new ≠ "" →
  usersByEmail (w_store w) !! old = Some p → user_at w p u →
  users (w_store w) !! User_ID u = Some p → usersByEmail (w_store w) !! new = None →
  let u' := u <| User_Email := new |> in
  let found := sendJSON StatusOK (json_of_GetManagedUserResponse (mkGetManagedUserResponse u')) in
  ∃ w', UpdateManagedUserEmail (Some (mkUpdateEmailRequest old new)) w = (Ret found, w')
    ∧ GetManagedUser old w' = (Ret found, w')
    ∧ GetManagedUser new w' = (Ret (sendError StatusNotFound "User not found"), w').
Proof.
  intros Ho Hn Hidx Hp Hid Hnew. cbn zeta. unfold UpdateManagedUserEmail.
  cbn [UpdateEmailRequest_Email UpdateEmailRequest_NewEmail].
  rw (str_eqb_ne _ _ Ho) (str_eqb_ne _ _ Hn). cbn [orb]. rw run_bind.
  change (Storage.GetUserByEmail (S := MemoryStorage)) with GetUserByEmail.
  rw run_GetUserByEmail Hidx.
  destruct (run_update_user w p u (fun u => u <| User_Email := new |>) Hp)
    as (w' & Hrun & Hp' & Hst & _).
  rw (run_bind_ret _ _ _ _ _ Hrun) run_bind.
  change (Storage.UpdateUser (S := MemoryStorage)) with UpdateUser.
  rw (run_UpdateUser_shared w' p _ Hp'); [|by rw Hst].
  rw (run_bind_ret _ _ _ _ _ (run_deref_user _ _ _ Hp')).
  exists w'. split; [done|]. split.
  - apply run_GetManagedUser with p; [done|by rw Hst|done].
  - unfold GetManagedUser. rw (str_eqb_ne _ _ Hn) run_bind.
    change (Storage.GetUserByEmail (S := MemoryStorage)) with GetUserByEmail.
    by rw run_GetUserByEmail Hst Hnew.
Qed.

(** A user's transactions are listed newest first: the listing returns,
    changes nothing, holds exactly the transactions indexed for that user, each
    once per index entry, and never lists one before a newer one. *)
Lemma transactions_listed_newest_first (userID : string) w :
  let ids := default [] (transactionsByUser (w_store w) !! userID) in
  let indexed := omap (fun id => transactions (w_store w) !! id) ids in
  Forall (fun p => is_Some (heap_txs (w_heap w) !! p)) indexed →
  ∃ out, ListTransactionsByUser userID w = (Ret (Ok out), w) ∧ out ≡ₚ indexed
    ∧ StronglySorted (fun p q => created_at w q <= created_at w p) out.
Proof.
  cbn zeta. set (indexed := omap _ _). intros Hall.
  destruct (run_deref_all w indexed Hall) as (out & Hrun & Hfst & Hout).
  exists (slice_stable tx_after out).*1. unfold ListTransactionsByUser, store.
  rw run_bind run_gets. fold indexed. rw (run_bind_ret _ _ _ _ _ Hrun). split; [done|]. split.
  { rw -Hfst. apply fmap_Permutation, slice_stable_perm. }
  assert (Forall (fun x => heap_txs (w_heap w) !! x.1 = Some x.2) (slice_stable tx_after out)) as Hs.
  { by rw slice_stable_perm. }
  assert (StronglySorted (not_after tx_after) (slice_stable tx_after out)) as Hsorted.
  { apply slice_stable_sorted; unfold tx_after; intros; lia. }
  clear -Hs Hsorted. induction Hsorted as [|x l _ IH Hx]; [constructor|].
  inversion Hs as [|? ? Hhead Htail]; subst. cbn [fmap list_fmap]. constructor; [by apply IH|].
  apply Forall_fmap. apply Forall_forall. intros y Hy.
  rewrite Forall_forall in Hx. rewrite Forall_forall in Htail.
  specialize (Hx y Hy). specialize (Htail y Hy). cbn in *. unfold created_at. rw Hhead Htail.
  unfold not_after, tx_after in Hx. lia.
Qed.
End Facts.

(** ** Examples *)
Lemma signup_idempotent_witness :
  let signup := CreateManagedUser (Some (mkCreateManagedUserRequest "a@b.c")) in
  ∃ u w1, (signup demo_world).2 = w1
    ∧ signup w1 = (Ret (sendJSON StatusOK (json_of_User u)), w1).
Proof.
  destruct (signup_idempotent "a@b.c" demo_world) as (status & u & w1 & Hrun & _ & Hagain & _).
  - done.
  - intros p Hp. by vm_compute in Hp.
  - exists u, w1. split; [by rw Hrun|exact Hagain].
Defined.

Definition demo_user : User := zero_User <| User_ID := "u" |> <| User_Email := "old@b.c" |>.
Definition demo_users : World MemoryStorage :=
  world_with (NewMemoryStorage <| users := <["u" := 1%positive]> ∅ |>
                               <| usersByEmail := <["old@b.c" := 1%positive]> ∅ |>)
    (heap_alloc demo_user empty_heap).2.
Lemma email_update_leaves_index_stale_witness :
  ∃ w', (UpdateManagedUserEmail (Some (mkUpdateEmailRequest "old@b.c" "new@b.c")) demo_users).2 = w'
    ∧ GetManagedUser "new@b.c" w' = (Ret (sendError StatusNotFound "User not found"), w').
Proof.
  destruct (email_update_leaves_index_stale "old@b.c" "new@b.c" demo_users 1%positive demo_user)
    as (w' & Hrun & _ & Hnew); [by vm_compute..|].
  exists w'. split; [|exact Hnew]. exact (f_equal snd Hrun).
Defined.

Definition demo_tx (id : string) (t : Z) : Transaction :=
  zero_Transaction <| Transaction_ID := id |> <| Transaction_CreatedAt := t |>.
Definition demo_history : World MemoryStorage :=
  world_with (NewMemoryStorage
      <| transactions := <["a" := 1%positive]> (<["b" := 2%positive]> ∅) |>
      <| transactionsByUser := <["u" := ["a"; "b"]]> ∅ |>)
    (heap_alloc (demo_tx "b" 9) (heap_alloc (demo_tx "a" 5) empty_heap).2).2.
Lemma transactions_listed_newest_first_witness :
  (ListTransactionsByUser "u" demo_history).1 = Ret (Ok [2%positive; 1%positive])
  ∧ ∃ out, ListTransactionsByUser "u" demo_history = (Ret (Ok out), demo_history).
Proof.
  split; [by vm_compute|].
  destruct (transactions_listed_newest_first "u" demo_history) as (out & Hrun & _).
  - vm_compute. repeat constructor; eauto.
  - by exists out.
Defined.
