(* ===== verification/BootFacts.v ===== *)
(** * What start-up leaves behind

    Where messages are logged, what the seed does to a storage, and the
    process the service begins to serve with. *)
From S2P Require Import Prelude GoFloat GoStd Consts Models Config World Memory Fees Webhook Seeder.
From S2P Require Import CardTokens Routes Boot UserFacts Demo AuthFacts CardTokenFacts Frames.
From S2P Require Storage.

(** ** Logging *)
(** Every message goes to one sink at most; the configured level silences no
    error, and an unknown level changes nothing. *)
Lemma logged_once (l : Logger.Logger) lvl :
  Logger.written l lvl =
    (if Logger.ErrorLevel <=? lvl then [Logger.Stderr]
     else if default true ((λ m, m <=? lvl) <$> Logger.minLevel l) then [Logger.Stdout] else []).
Proof.
  unfold Logger.written, Logger.stdoutEnabled, Logger.stderrEnabled.
  destruct (Logger.ErrorLevel <=? lvl); [done|]. by destruct (Logger.minLevel l) as [m|]; cbn; [destruct (m <=? lvl)|].
Qed.

(** ** Seeding *)
Section Seed.
Context `{Env}.
Implicit Types w : World MemoryStorage.

Definition seed_account (u c : string) : bool :=
  ((u =?s TestUser1ID) && (c =?s "USD")) || ((u =?s TestUser2ID) && (c =?s "EUR")).

Lemma feq_zero b : feq b fzero = true → fadd b (f_of_Z 10000) = f_of_Z 10000.
Proof. destruct b as [[]|[]| |[] m e]; done. Qed.

(** What creating a user does not touch, the balances apart. *)
Definition rest w := (organizations (w_store w), w_config w, w_jobs w, w_tasks w, w_sink w).
Definition known (e : string) w : Prop := is_Some (usersByEmail (w_store w) !! e).

Definition apart w := (balances (w_store w), rest w).
#[local] Instance apart_ticks : BlindTicks apart.
Proof. done. Qed.
#[local] Instance apart_User : BlindHeap apart User.
Proof. done. Qed.

Lemma CreateUser_keeps_apart p : keeps apart (CreateUser p).
Proof. by keep. Qed.

(** Whether or not its e-mail is taken, a seed user's object is there after
    its creation, and its e-mail is known. *)
Lemma CreateUser_leaves_user p u w :
  user_at w p u → User_Email u ≠ "" → User_ID u ≠ "" →
  ∃ r w' u', CreateUser p w = (Ret r, w') ∧ user_at w' p u' ∧ User_ID u' = User_ID u
    ∧ known (User_Email u) w' ∧ (∀ e, known e w → known e w')
    ∧ balances (w_store w') = balances (w_store w) ∧ rest w' = rest w.
Proof.
  intros Hp He Hid. pose proof (CreateUser_keeps_apart p w) as Hk.
  destruct (usersByEmail (w_store w) !! User_Email u) as [q|] eqn:Hidx.
  - exists (Err ("user with email " +:+ User_Email u +:+ " already exists")), w, u.
    split; [|by split_and!; try done; eexists].
    unfold CreateUser. rw (run_bind_ret _ _ _ _ _ (run_deref_user _ _ _ Hp)) (str_eqb_ne _ _ He).
    unfold store. by rw run_bind run_gets Hidx.
  - destruct (run_CreateUser w p u Hp He Hid Hidx) as (w' & u' & Hrun & Hp' & [= Hid' _] & Hidx').
    rw Hrun /= in Hk. injection Hk as Hb Horg Hc Hj Ht Hs.
    exists (Ok tt), w', u'. unfold known, rest. rw Hidx' Horg Hc Hj Ht Hs.
    split_and!; try done; [by rw lookup_insert_eq|].
    intros e Hk. apply lookup_insert_is_Some. destruct (decide (User_Email u = e)); auto.
Qed.

Definition topped_up (id currency : string) (balance : string → string → f64) (u c : string) : f64 :=
  if (u =?s id) && (c =?s currency) && feq (balance u c) fzero then f_of_Z 10000 else balance u c.

Lemma run_seed_one id email currency w :
  id ≠ "" → email ≠ "" →
  ∃ w', seed_one id email currency w = (Ret (Ok tt), w')
    ∧ (∀ u c, balance_of (w_store w') u c = topped_up id currency (balance_of (w_store w)) u c)
    ∧ rest w' = rest w ∧ known email w' ∧ ∀ e, known e w → known e w'.
Proof.
  intros Hid He. unfold seed_one.
  destruct (run_new_user w (seed_user id email)) as (p & w1 & Hnew & Hp & Hst1).
  assert (rest w1 = rest w) as Hr1 by by injection Hnew as _ <-.
  rw (run_bind_ret _ _ _ _ _ Hnew).
  destruct (CreateUser_leaves_user p _ w1 Hp He Hid)
    as (r & w2 & u & Hrun & Hp2 & Hu & Hk & Hks & Hb & Hr2).
  change (Storage.CreateUser (S := MemoryStorage)) with CreateUser.
  rw (run_bind_ret _ _ _ _ _ Hrun) (run_bind_ret _ _ _ _ _ (run_deref_user _ _ _ Hp2)) Hu.
  change (Storage.GetBalance (S := MemoryStorage)) with GetBalance.
  unfold GetBalance, store. rw run_bind run_bind run_gets run_mret.
  assert (∀ u c, balance_of (w_store w2) u c = balance_of (w_store w) u c) as Hbal.
  { intros v c. unfold balance_of. by rw Hb Hst1. }
  assert (∀ e, known e w → known e w2) as Hks2.
  { intros e Hke. apply Hks. unfold known in *. by rw Hst1. }
  unfold topped_up. cbn [seed_user User_ID].
  destruct (feq _ fzero) eqn:Hz.
  - eexists. split; [reflexivity|]. split; [|split; [by rw -Hr1 -Hr2|done]].
    intros v c. rw -(Hbal v c). unfold balance_of at 1. cbn.
    destruct (decide (v = id)) as [->|Hv].
    + rw str_eqb_refl lookup_insert_eq /=. destruct (decide (c = currency)) as [->|Hc].
      * rw str_eqb_refl lookup_insert_eq Hz /=. by apply feq_zero.
      * rw (str_eqb_ne _ _ Hc) lookup_insert_ne; [|congruence].
        unfold balance_of. by destruct (balances (w_store w2) !! id).
    + rw (str_eqb_ne _ _ Hv) lookup_insert_ne; [done|congruence].
  - exists w2. split; [done|]. split; [|by rw Hr2 Hr1].
    intros v c. rw Hbal. destruct (decide (v = id)) as [->|Hv]; [|by rw (str_eqb_ne _ _ Hv)].
    destruct (decide (c = currency)) as [->|Hc]; [|by rw (str_eqb_ne _ _ Hc) andb_false_r].
    by rw -Hbal Hz andb_false_r.
Qed.
End Seed.

(** Seeding, on any in-memory storage: it succeeds; it gives 10,000 to each of
    the two seed accounts whose balance is zero and changes no other balance,
    so that an account that was emptied is filled again; both seed e-mails are
    known afterwards, and every e-mail that was; the default organization is
    created, and kept as it is when there is one. *)
Lemma seeding_tops_up `{Env} (org : string) (w : World MemoryStorage) :
  ∃ w', SeedTestUsersWithOrgID org w = (Ret (Ok tt), w')
    ∧ (∀ u c, balance_of (w_store w') u c =
         if seed_account u c && feq (balance_of (w_store w) u c) fzero
         then f_of_Z 10000 else balance_of (w_store w) u c)
    ∧ known TestUser1Email w' ∧ known TestUser2Email w' ∧ (∀ e, known e w → known e w')
    ∧ (∃ now, organizations (w_store w') !! org =
         Some (default (zero_Organization <| Organization_ID := org |>
                          <| Organization_TwoFAType := "sms" |> <| Organization_CreatedAt := now |>
                          <| Organization_UpdatedAt := now |>)
                 (organizations (w_store w) !! org)))
    ∧ (∀ o, o ≠ org → organizations (w_store w') !! o = organizations (w_store w) !! o)
    ∧ (w_jobs w', w_tasks w', w_sink w') = (w_jobs w, w_tasks w, w_sink w).
Proof.
  destruct (run_seed_one TestUser1ID TestUser1Email "USD" w) as (w1 & Hrun1 & Hb1 & Hr1 & Hk1 & Hks1); [done..|].
  destruct (run_seed_one TestUser2ID TestUser2Email "EUR" w1) as (w2 & Hrun2 & Hb2 & Hr2 & Hk2 & Hks2); [done..|].
  assert (organizations (w_store w2) = organizations (w_store w)) as Horg.
  { unfold rest in *. congruence. }
  assert ((w_jobs w2, w_tasks w2, w_sink w2) = (w_jobs w, w_tasks w, w_sink w)) as Hrest.
  { unfold rest in *. congruence. }
  assert (∀ u c, balance_of (w_store w2) u c =
         if seed_account u c && feq (balance_of (w_store w) u c) fzero
         then f_of_Z 10000 else balance_of (w_store w) u c) as Hbal.
  { intros u c. rw Hb2 /topped_up Hb1 /topped_up /seed_account.
    destruct (decide (u = TestUser1ID)) as [->|Hu]; [by rw str_eqb_refl /= orb_false_r|].
    by rw (str_eqb_ne _ _ Hu). }
  unfold SeedTestUsersWithOrgID.
  rw (run_bind_ret _ _ _ _ _ Hrun1) (run_bind_ret _ _ _ _ _ Hrun2) run_bind run_time_Now.
  change (Storage.CreateOrganization (S := MemoryStorage)) with CreateOrganization.
  unfold CreateOrganization, store. rw run_bind run_bind run_gets /= Horg.
  destruct (organizations (w_store w) !! org) as [o|] eqn:Ho.
  - eexists. split; [reflexivity|]. cbn. rw Horg Ho.
    split_and!; [done|by apply Hks2|done|intros e He; by apply Hks2, Hks1|by exists 0|done|done].
  - eexists. split; [reflexivity|]. cbn. rw lookup_insert_eq /=.
    split_and!; [done|by apply Hks2|done|intros e He; by apply Hks2, Hks1|by eexists| |done].
    intros o Hne. rw lookup_insert_ne; [by rw Horg|congruence].
Qed.

(** ** The started service *)
Section Started.
Context {S : Type} `{Env} `{!Storage.Storage S} `{Rsa}.
Context (environ : gmap string string) (random : option (list Z)).

Lemma Load_Redis :
  RedisURL (Load environ random) = Getenv environ "MOCKGATEHUB_REDIS_URL"
  ∧ UseRedis (Load environ random) = negb (Getenv environ "MOCKGATEHUB_REDIS_URL" =?s "").
Proof.
  assert (∀ v, getEnv environ v "" = Getenv environ v) as Hget.
  { intros v. unfold getEnv. by destruct (Getenv environ v =?s "") eqn:Hv; case_go. }
  unfold Load. rw !Hget. cbn. by repeat case_match.
Qed.

(** Whatever the storage: the service starts with Redis for both the storage and
    the queue or for neither, so that a queue over a connection of its own
    ([DedicatedQueue]) never is; a worker runs exactly when there is a queue. *)
Lemma boot_choices parse (store : S) redisStorage redisClient l dep p :
  let url := Getenv environ "MOCKGATEHUB_REDIS_URL" in
  let cfg := Load environ random in
  boot environ random parse store redisStorage redisClient = Ok (l, dep, p) →
  (∃ level, parse (LogLevel cfg) = Ok level ∧ l = Logger.buildLogger (Some level))
  ∧ dep = mkDeployment (if url =?s "" then MemoryStore else RedisStorage)
            (if url =?s "" then NoQueue else StorageQueue) (negb (url =?s ""))
            (EnforceAuthentication cfg) (Port cfg) (AdminPort cfg)
  ∧ AdminPort cfg ≠ Port cfg
  ∧ w_config (p_world p) = cfg ∧ w_fees (p_world p) = NewFeeConfig ∧ w_tokens (p_world p) = ∅
  ∧ once (serviceKeys p) = None
  ∧ ∃ m, w_manager (p_world p) = Some m ∧ (queue m = None ↔ url = "").
Proof.
  cbn zeta. unfold boot. destruct Load_Redis as [Hu Hr]. revert Hu Hr.
  generalize (Load environ random) as cfg. intros cfg Hu Hr.
  unfold Logger.Initialize, startup. rw Hr Hu.
  destruct (parse _) as [level|e] eqn:Hp; destruct (SeedTestUsersWithOrgID _ _) as [[seeded|e'] w];
    try done.
  destruct (Getenv environ _ =?s "") eqn:Hurl; case_go; cbn.
  - destruct seeded as [[]|]; [|done]. destruct (_ =?s _) eqn:Hport; [done|]. intros [= <- <- <-].
    case_go. split_and!; try done; [by eexists|by eexists].
  - destruct redisStorage as [[]|], seeded as [[]|]; try done.
    destruct (_ =?s _) eqn:Hport; [done|]. intros [= <- <- <-].
    case_go. split_and!; try done; [by eexists|by eexists].
Qed.
End Started.

(** C35. The service without Redis: it starts exactly when the log level is one
    and the two ports differ; then the two seed users are there with 10,000 each
    and nobody has anything else, the default organization is there, and nothing
    is queued, scheduled or recorded. *)
Theorem fresh_service `{Env} `{Rsa} environ random parse redisStorage redisClient :
  Getenv environ "MOCKGATEHUB_REDIS_URL" = "" →
  let cfg := Load environ random in
  let started := boot environ random parse NewMemoryStorage redisStorage redisClient in
  ((∃ service, started = Ok service) ↔
     (∃ level, parse (LogLevel cfg) = Ok level) ∧ AdminPort cfg ≠ Port cfg)
  ∧ ∀ l dep p, started = Ok (l, dep, p) →
      let w := p_world p in
      (∀ u c, balance_of (w_store w) u c = if seed_account u c then f_of_Z 10000 else fzero)
      ∧ known TestUser1Email w ∧ known TestUser2Email w
      ∧ is_Some (organizations (w_store w) !! DefaultOrganizationID cfg)
      ∧ w_jobs w = [] ∧ w_tasks w = [] ∧ w_sink w = [].
Proof.
  cbn zeta. intros Hurl. unfold boot. destruct (Load_Redis environ random) as [Hu Hr]. revert Hu Hr.
  rw Hurl. generalize (Load environ random) as cfg. intros cfg Hu Hr.
  destruct (seeding_tops_up (DefaultOrganizationID cfg) (blank cfg NewMemoryStorage))
    as (w & -> & Hbal & Hk1 & Hk2 & _ & [now Horg] & _ & [= Hj Ht Hs]).
  unfold Logger.Initialize, startup. rw Hr Hu /=.
  destruct (parse _) as [level|e]; cbn.
  2: { split; [|done]. by split; intros [? ?]; [|destruct_and?; naive_solver]. }
  destruct (AdminPort cfg =?s Port cfg) eqn:Hp; case_go.
  { split; [|done]. split; [by intros [? ?]|]. by intros [_ []]. }
  split; [split; [by split; [eexists|]|by eexists]|].
  intros l dep p [= <- <- <-]. cbn. split_and!; try done.
  intros u c. rw Hbal. by destruct (seed_account u c).
Qed.
Lemma fresh_service_witness :
  ∃ l dep p, boot (H := demo_env) (H1 := demo_rsa) ∅ None (λ _, Ok 0) NewMemoryStorage (Ok tt) (Ok tt)
      = Ok (l, dep, p)
    ∧ balance_of (w_store (p_world p)) TestUser1ID "USD" = f_of_Z 10000.
Proof.
  destruct (fresh_service (H := demo_env) (H0 := demo_rsa) ∅ None (λ _, Ok 0) (Ok tt) (Ok tt))
    as [[_ Hstart] Hready]; [by vm_compute|].
  destruct Hstart as [[[l dep] p] Hrun]; [split; [by exists 0|by vm_compute]|].
  exists l, dep, p. split; [exact Hrun|]. by apply (Hready l dep p Hrun).
Defined.
