(* ===== verification/IdentityFacts.v ===== *)
(** * KYC: outcomes, events and what a submission writes *)
From S2P Require Import Prelude GoFloat GoStd GoText Consts Models Config World Memory Api Webhook.
From S2P Require Import Utils Identity MemoryFacts UserFacts Frames Demo.
From S2P Require Storage.

(** The event that announces a state. *)
Definition event_of_state (state : string) : string :=
  if state =?s KYCStateAccepted then WebhookEventKYCAccepted
  else if state =?s KYCStateRejected then WebhookEventKYCRejected
  else if state =?s KYCStateActionRequired then WebhookEventKYCActionRequired
  else WebhookEventKYCResubmission.

(** An outcome applies exactly when it is a known state, and becomes the state. *)
Lemma applyKYCOutcome_spec u outcome :
  if isKnownKYCState outcome
  then ∃ msg, applyKYCOutcome u outcome
              = Ok (u <| User_KYCState := outcome |>, event_of_state outcome, msg)
  else ∃ e, applyKYCOutcome u outcome = Err e.
Proof.
  unfold isKnownKYCState, applyKYCOutcome, event_of_state.
  repeat match goal with
  | |- context [outcome =?s ?k] => destruct (outcome =?s k) eqn:?; cbn [orb]; case_go; subst
  end; eauto.
Qed.

Lemma apply_kyc_form_id form u : User_ID (apply_kyc_form form u) = User_ID u.
Proof.
  unfold apply_kyc_form, apply_dob. destruct (negb _); [|done].
  by repeat (break_match; try done).
Qed.

Section Facts.
Context `{Env}.
Implicit Types w : World MemoryStorage.

Lemma run_GetUser id w :
  Memory.GetUser id w = (Ret (match users (w_store w) !! id with
                              | Some p => Ok p | None => Err "user not found" end), w).
Proof. unfold Memory.GetUser, store. rw run_bind run_gets. by destruct (_ !! id). Qed.

Lemma user_at_books w w' p u : same_books w w' → user_at w p u → user_at w' p u.
Proof. intros (_ & Hh & _). unfold user_at. by rw Hh. Qed.

(** The events queued in a world, with whom they are for. *)
Definition events w : list (string * string) :=
  map (fun job => (EventType job.1, UserID job.1)) (w_jobs w).

Lemma run_SendAsync_events m eventType userID data offset w :
  w_manager w = Some m →
  ∃ w', SendAsync eventType userID data offset w = (Ret tt, w') ∧ same_books w w'
    ∧ events w' = events w ++
        (if queued m (w_store w) eventType data then [(eventType, userID)] else []).
Proof.
  intros Hm. destruct (run_SendAsync m eventType userID data offset w Hm)
    as (w' & Hrun & Hb & _ & Hj).
  exists w'. split; [done|]. split; [done|]. unfold events. rw Hj map_app. f_equal.
  unfold queued. destruct (queue m); [|by rw andb_false_r]. by destruct (_ && _).
Qed.

Lemma run_assign_user_full w p u v :
  user_at w p u →
  ∃ w', assign (T := User) p v w = (Ret tt, w') ∧ user_at w' p v ∧ w_store w' = w_store w
    ∧ w_jobs w' = w_jobs w ∧ w_manager w' = w_manager w.
Proof.
  intros Hp. eexists. split; [exact (run_assign (T := User) p u v w Hp)|]. split; [|done].
  exact (heap_write_lookup (T := User) p v (w_heap w)).
Qed.

(** The end of a submission: the webhook, unless it is skipped, and the answer. *)
Lemma run_announce w p u m skip ev id msg :
  user_at w p u → w_manager w = Some m →
  let data := [("message", JStr msg)] in
  ∃ r w', (_ ← (if negb skip then SendAsync ev id data (f_of_Z 2) else mret tt);
           u ← deref (T := User) p;
           mret (sendJSON StatusOK (strings_json
             [("status", User_KYCState u); ("message", msg)]))) w = (Ret r, w')
    ∧ resp_status r = StatusOK ∧ same_books w w'
    ∧ events w' = events w ++
        (if negb skip && queued m (w_store w) ev data then [(ev, id)] else []).
Proof.
  intros Hp Hm data. destruct skip; cbn [negb andb].
  - rw run_bind run_mret (run_bind_ret _ _ _ _ _ (run_deref_user _ _ _ Hp)).
    eexists _, w. rw app_nil_r. split; [done|]. by rw sendJSON_strings_status.
  - destruct (run_SendAsync_events m ev id data (f_of_Z 2) w Hm) as (w' & Hrun & Hb & Hev).
    rw (run_bind_ret _ _ _ _ _ Hrun).
    rw (run_bind_ret _ _ _ _ _ (run_deref_user _ _ _ (user_at_books _ _ _ _ Hb Hp))).
    eexists _, w'. split; [done|]. by rw sendJSON_strings_status.
Qed.


(** ** Setting a state quietly *)
Definition told w := (w_jobs w, w_tasks w, w_sink w, w_store w).
#[local] Instance told_ticks : BlindTicks told.
Proof. done. Qed.
#[local] Instance told_User : BlindHeap told User.
Proof. done. Qed.

(** Setting up a KYC state for a test tells no one and invents nothing: for a
    stored user it answers 200 exactly for a known state, which becomes the user's
    state, and any other answer leaves the user as it was; no path queues a
    webhook, starts a goroutine or writes the store. *)
Lemma quiet_state_is_silent id state risk w p u :
  users (w_store w) !! id = Some p → user_at w p u → User_ID u = id → id ≠ "" →
  ∃ r w', SetUserKYCStateQuiet id (Some (state, risk)) w = (Ret r, w') ∧ told w' = told w
    ∧ if isKnownKYCState state
      then resp_status r = StatusOK
           ∧ user_at w' p (u <| User_KYCState := state |>
                             <| User_RiskLevel := or_default risk (User_RiskLevel u) |>)
      else resp_status r = StatusBadRequest ∧ w' = w.
Proof.
  intros Hid Hp Hu Hne. unfold SetUserKYCStateQuiet. rw (str_eqb_ne _ _ Hne).
  destruct (state =?s "") eqn:Hempty; case_go.
  { subst. eexists _, w. split; [done|]. split; [done|]. by rw sendError_status. }
  destruct (isKnownKYCState state) eqn:Hknown; cbn [negb].
  2: { eexists _, w. split; [done|]. split; [done|]. by rw sendError_status. }
  change (Storage.GetUser (S := MemoryStorage)) with Memory.GetUser.
  rw run_bind run_GetUser Hid.
  match goal with |- context [update p ?g] => set (f := g) end.
  set (u' := u <| User_KYCState := state |>
               <| User_RiskLevel := or_default risk (User_RiskLevel u) |>).
  assert (f u = u') as Hf.
  { subst f u'. cbn beta zeta. unfold or_default. destruct (risk =?s ""); [|done].
    by destruct u. }
  unfold update. rw prog_bind_assoc (run_bind_ret _ _ _ _ _ (run_deref_user _ _ _ Hp)) Hf.
  destruct (run_assign_user_full w p u u' Hp) as (w1 & Hrun1 & Hp1 & Hst1 & _).
  pose proof (keeps_assign told (T := User) p u' w) as Hkeep. rw Hrun1 in Hkeep. cbn in Hkeep.
  rw (run_bind_ret _ _ _ _ _ Hrun1).
  change (Storage.UpdateUser (S := MemoryStorage)) with UpdateUser.
  rw run_bind (run_UpdateUser_shared w1 p u' Hp1); [|by rw Hst1 Hu].
  rw (run_bind_ret _ _ _ _ _ (run_deref_user _ _ _ Hp1)).
  eexists _, w1. split; [done|]. split; [exact Hkeep|]. split; [|done].
  by rw sendJSON_strings_status.
Qed.
End Facts.

(** ** A resubmission that is accepted *)
Definition kyc_user : User :=
  zero_User <| User_ID := "u" |> <| User_KYCState := KYCStateResubmission |>.
Definition kyc_world : World MemoryStorage :=
  world_with (NewMemoryStorage <| users := <["u" := 1%positive]> ∅ |>)
    (heap_alloc kyc_user empty_heap).2.
Definition kyc_form : list (string * string) :=
  [("user_id", "u"); ("first_name", "Ada"); ("kyc_outcome", "rejected")].
Lemma quiet_state_is_silent_witness :
  ∃ r w', SetUserKYCStateQuiet "u" (Some ("approved", "")) kyc_world = (Ret r, w') ∧ w' = kyc_world.
Proof.
  destruct (quiet_state_is_silent "u" "approved" "" kyc_world 1%positive kyc_user)
    as (r & w' & Hrun & _ & _ & Hw); [by vm_compute..|].
  exists r, w'. split; [exact Hrun|exact Hw].
Defined.
