(* ===== verification/TableFacts.v ===== *)
(** * Configuration and fixed tables

    The credentials parser, the vault tables and the exchange rates. *)
From S2P Require Import Prelude GoFloat GoStd Consts Models Config World Api Rates Core Demo.

(** ** Credentials *)

(** A piece of a credentials list: neither a comma nor a colon. *)
Definition plain (s : string) : Prop := Forall (fun c => c ≠ ","%char ∧ c ≠ ":"%char) (chars s).
Definition credential (p : string * string) : string := p.1 +:+ ":" +:+ p.2.

Lemma split_chars_plain sep l : Forall (fun c => c ≠ sep) l → split_chars sep l = [l].
Proof.
  induction 1 as [|c l Hc _ IH]; [done|]. cbn. rw (bool_decide_eq_false_2 _ Hc). by rw IH.
Qed.

Lemma split_chars_app sep a b :
  Forall (fun c => c ≠ sep) a → split_chars sep (a ++ sep :: b) = a :: split_chars sep b.
Proof.
  induction 1 as [|c a Hc _ IH]; cbn; [by rw bool_decide_eq_true_2|].
  by rw (bool_decide_eq_false_2 _ Hc) IH.
Qed.

(** The splitter on a piece followed by the separator, and on the last piece. *)
Lemma splitString_pieces sep (pieces : list (list ascii)) (last : list ascii) s :
  last ≠ [] →
  split_chars sep (chars s) = pieces ++ [last] →
  splitString s sep = map of_chars (pieces ++ [last]).
Proof.
  intros Hlast Hs. unfold splitString.
  destruct (split_chars_cons sep (chars s)) as (p & ps & Hp).
  rw (splitString_loop_spec _ _ [] [] p ps Hp). cbn [app].
  assert (p :: ps = pieces ++ [last]) as Heq by congruence.
  rw Heq removelast_last last_last. destruct last; [done|]. cbn [length Nat.ltb Nat.leb].
  by rw map_app.
Qed.

Lemma plain_no sep s : plain s → sep = ","%char ∨ sep = ":"%char → Forall (fun c => c ≠ sep) (chars s).
Proof.
  intros Hs Hsep. apply (Forall_impl _ _ _ Hs). intros c [? ?]. by destruct Hsep as [-> | ->].
Qed.

Lemma splitString_credential p :
  plain p.1 → plain p.2 → p.2 ≠ "" → splitString (credential p) ":" = [p.1; p.2].
Proof.
  destruct p as [i s]. cbn [fst snd]. intros Hi Hs Hne.
  assert (chars (credential (i, s)) = chars i ++ ":"%char :: chars s) as Hchars.
  { unfold credential. cbn [fst snd]. by rw !chars_app. }
  rw (splitString_pieces ":" [chars i] (chars s)).
  - cbn [app map]. by rw !of_chars_chars.
  - intros Hc. apply Hne. by rw -(of_chars_chars s) Hc.
  - rw Hchars split_chars_app; [|by apply plain_no; auto].
    by rw split_chars_plain; [|by apply plain_no; auto].
Qed.

Lemma split_join sep l :
  Forall (fun s => Forall (fun c => c ≠ sep) (chars s)) l → l ≠ [] →
  split_chars sep (chars (Join (of_chars [sep]) l)) = map chars l.
Proof.
  induction 1 as [|x l Hx Hl IH]; [done|]. intros _.
  destruct l as [|y l]; [by apply split_chars_plain|].
  change (Join (of_chars [sep]) (x :: y :: l))
    with (x +:+ of_chars [sep] +:+ Join (of_chars [sep]) (y :: l)).
  rw !chars_app chars_of_chars. cbn [app]. rw split_chars_app; [|done].
  by rw IH.
Qed.

Lemma credential_no_comma p :
  plain p.1 → plain p.2 → Forall (fun c => c ≠ ","%char) (chars (credential p)).
Proof.
  intros H1 H2. unfold credential. rw !chars_app. apply Forall_app. split; [by apply plain_no; auto|].
  constructor; [done|]. by apply plain_no; auto.
Qed.

Lemma splitString_join l :
  Forall (fun s => Forall (fun c => c ≠ ","%char) (chars s) ∧ s ≠ "") l → l ≠ [] →
  splitString (Join "," l) "," = l.
Proof.
  intros Hl Hne. destruct (exists_last Hne) as (init & s & Heq). rewrite Heq in Hl |- *.
  rw (splitString_pieces "," (map chars init) (chars s)).
  - rw map_app map_map. cbn [map]. rw of_chars_chars. f_equal.
    rewrite -{2}(map_id init). apply map_ext. apply of_chars_chars.
  - apply Forall_app in Hl as [_ Hs]. inversion Hs as [|? ? [_ Hs'] _]; subst.
    intros Hc. apply Hs'. by rw -(of_chars_chars s) Hc.
  - change "," with (of_chars [","%char]).
    rw split_join; [by rw map_app| |by destruct init].
    apply (Forall_impl _ _ _ Hl). by intros x [? _].
Qed.

(** Round trip of the credentials: a list of application ids and secrets in
    which no comma and no colon occurs and no secret is empty, written as
    [id:secret,id:secret,...], is read back exactly, later entries replacing
    earlier ones of the same id. *)
Lemma credentials_roundtrip (ps : list (string * string)) :
  Forall (fun p => plain p.1 ∧ plain p.2 ∧ p.2 ≠ "") ps →
  parseCredentials (Join "," (map credential ps))
  = fold_left (fun creds p => <[p.1 := p.2]> creds) ps ∅.
Proof.
  intros Hps. destruct ps as [|p ps]; [done|]. unfold parseCredentials.
  assert (Forall (fun s => Forall (fun c => c ≠ ","%char) (chars s) ∧ s ≠ "")
            (map credential (p :: ps))) as Hcred.
  { apply Forall_map. apply (Forall_impl _ _ _ Hps). intros q (H1 & H2 & _). split.
    - by apply credential_no_comma.
    - unfold credential. by destruct q.1. }
  assert (Join "," (map credential (p :: ps)) ≠ "") as Hne.
  { cbn [map]. inversion Hcred as [|? ? [_ Hp] _]; subst.
    destruct (map credential ps); [done|]. unfold Join; fold Join. by destruct (credential p). }
  rw (str_eqb_ne _ _ Hne) splitString_join //. clear Hcred Hne.
  generalize (∅ : gmap string string) as creds. induction Hps as [|q qs (H1 & H2 & H3) _ IH];
    intros creds; [done|].
  cbn [map fold_left]. by rw splitString_credential.
Qed.

Definition demo_credentials : list (string * string) := [("app", "s3cret"); ("other", "pw")].
Lemma credentials_roundtrip_witness :
  parseCredentials "app:s3cret,other:pw" !! "other" = Some "pw".
Proof.
  change "app:s3cret,other:pw" with (Join "," (map credential demo_credentials)).
  rw credentials_roundtrip; [by vm_compute|].
  repeat constructor; cbn; intros; congruence.
Defined.

(** ** Vaults *)

(** The two vault tables are inverse to each other. *)
Lemma vault_tables_inverse : map_Forall (fun vault currency =>
  SandboxVaultIDs !! currency = Some vault ∧ vault ≠ "" ∧ currency ≠ "") VaultUUIDToCurrency.
Proof. apply (bool_decide_unpack _). by vm_compute. Qed.

(** A known vault decides the currency of a transaction: whatever currency a
    request names, or none, a request that names one of the sandbox vaults is for
    the currency of that vault; and a request is only refused when it names no
    currency and no known vault. *)
Lemma vault_decides_currency (currency vault : string) :
  match VaultUUIDToCurrency !! vault with
  | Some c => resolve_currency currency vault = Ok c ∧ SandboxVaultIDs !! c = Some vault
  | None => if currency =?s "" then ∃ e, resolve_currency currency vault = Err e
            else resolve_currency currency vault = Ok currency
  end.
Proof.
  unfold resolve_currency. destruct (VaultUUIDToCurrency !! vault) as [c|] eqn:Hv.
  - destruct (vault_tables_inverse vault c Hv) as (Hinv & Hvne & Hcne). split; [|done].
    rw (str_eqb_ne _ _ Hvne). cbn [negb andb]. destruct (currency =?s "") eqn:Hc; [done|].
    destruct (vault =?s _) eqn:Hsame; [|done]. case_go. cbn [negb]. f_equal.
    destruct (SandboxVaultIDs !! currency) as [v|] eqn:Hcur; cbn in Hsame; [|done]. subst v.
    assert (VaultUUIDToCurrency !! vault = Some currency) as Hback.
    { revert Hcur. clear. revert currency vault.
      enough (map_Forall (fun c v => VaultUUIDToCurrency !! v = Some c) SandboxVaultIDs) by done.
      apply (bool_decide_unpack _). by vm_compute. }
    congruence.
  - destruct (currency =?s "") eqn:Hc; [by destruct (vault =?s ""); eauto|].
    by destruct (negb _ && _).
Qed.

(** ** Rates *)
Section Rates.
Context {S : Type} `{Env} `{!EnvLaws}.

Lemma fold_assoc_set {A B} (g : string * A → string * B) (l : list (string * A)) acc k v :
  (∀ kv, (g kv).1 = kv.1) → NoDup l.*1 → (k, v) ∈ l →
  assoc k (fold_left (fun acc kv => let '(k, v) := g kv in assoc_set k v acc) l acc)
  = Some (g (k, v)).2.
Proof.
  intros Hg. revert acc. induction l as [|[k' v'] l IH]; intros acc Hnd Hin; [by apply not_elem_of_nil in Hin|].
  cbn in Hnd. apply NoDup_cons in Hnd as [Hk' Hnd]. cbn [fold_left].
  apply elem_of_cons in Hin as [Heq|Hin].
  - injection Heq as <- <-. specialize (Hg (k, v)) as Hgk. destruct (g (k, v)) as [k1 v1].
    cbn in Hgk. subst k1. cbn [snd]. clear IH Hnd. revert acc.
    assert (∀ acc, assoc k acc = Some v1 →
      assoc k (fold_left (fun acc kv => let '(k, v) := g kv in assoc_set k v acc) l acc) = Some v1)
      as Hkeep; [|intros acc; apply Hkeep, assoc_set_eq].
    induction l as [|[k2 v2] l IH]; intros acc Hacc; [done|]. cbn in Hk'.
    apply not_elem_of_cons in Hk' as [Hne Hk']. cbn [fold_left]. apply (IH Hk').
    specialize (Hg (k2, v2)) as Hg2. destruct (g (k2, v2)) as [k3 v3]. cbn in Hg2. subst k3.
    by rw assoc_set_ne.
  - by apply IH.
Qed.

Lemma rates_ordered k : NoDup (env_order _ k (map_to_list SandboxRates)).*1.
Proof. rw env_order_perm. apply NoDup_fst_map_to_list. Qed.

(** The rates answered for a supported counter currency hold one rate for
    every sandbox currency, its dollar rate divided by the counter's, in whatever
    order the table is walked; the counter's own rate is one; and an unsupported
    counter is refused. *)
Lemma rates_are_relative (counter : string) (w : World S) :
  match SandboxRates !! (if counter =?s "" then "USD" else counter) with
  | None => ∃ r, GetCurrentRates counter w = (Ret r, w) ∧ resp_status r = StatusBadRequest
  | Some counterRate => ∃ fs w',
      GetCurrentRates counter w = (Ret (sendJSON StatusOK (JObj fs)), w')
      ∧ (∀ c rate, SandboxRates !! c = Some rate →
           assoc c fs = Some (rate_entry counterRate (c, rate)).2)
      ∧ rate_in counterRate counterRate = f_of_Z 1
  end.
Proof.
  unfold GetCurrentRates. set (c0 := if counter =?s "" then _ else _).
  destruct (SandboxRates !! c0) as [counterRate|] eqn:Hc.
  2: { eexists. split; [done|]. by rw sendError_status. }
  eexists _, _. split; [reflexivity|]. split.
  - intros c rate Hrate.
    apply (fold_assoc_set (rate_entry counterRate)); [done|apply rates_ordered|].
    rw env_order_perm. by apply elem_of_map_to_list.
  - revert Hc. generalize c0. clear.
    enough (map_Forall (fun _ r => rate_in r r = f_of_Z 1) SandboxRates) by (intros; eauto).
    apply (bool_decide_unpack _). by vm_compute.
Qed.
End Rates.

Lemma rates_are_relative_witness :
  ∃ fs w', GetCurrentRates "EUR" demo_world = (Ret (sendJSON StatusOK (JObj fs)), w')
    ∧ assoc "EUR" fs = Some (rate_entry (f_lit 108 2) ("EUR", f_lit 108 2)).2.
Proof.
  destruct (rates_are_relative "EUR" demo_world) as (fs & w' & Hrun & Hall & _).
  exists fs, w'. split; [exact Hrun|]. apply Hall. by vm_compute.
Defined.
