(* ===== verification/Tasks.v ===== *)
(** * Goroutines

    The two goroutines handlers start: the delayed completion of a core
    transaction and the webhook of an imposed KYC state.  They wait in
    [w_tasks]; [schedule] runs one of them, whichever the runtime picks. *)
From S2P Require Import Prelude GoFloat GoStd Models Config World Memory Api Webhook.
From S2P Require Import Core Frames Demo.
From S2P Require Storage.

Section Tasks.
Context {S : Type} `{Env} `{!Storage.Storage S}.
Abbreviation M := (prog (World S)).

Definition run_task (t : Task) : M unit :=
  match t with
  | TComplete c => complete c
  | TSendAsync eventType userID data offset => SendAsync eventType userID data offset
  end.

(** The [i]-th goroutine that waits is run to its end. *)
Definition schedule (i : nat) : M unit :=
  tasks ← gets w_tasks;
  match tasks !! i with
  | None => mret tt
  | Some t =>
      _ ← modify (fun w : World S => w <| w_tasks := delete i tasks |>);
      run_task t
  end.

(** The runtime's choices, one after the other; a goroutine that panics is
    over as well. *)
Fixpoint schedules (picks : list nat) (w : World S) : World S :=
  match picks with
  | [] => w
  | i :: picks => schedules picks (schedule i w).2
  end.
End Tasks.

Section Facts.
Context `{Env}.
Implicit Types w : World MemoryStorage.

#[local] Instance tasks_ticks : BlindTicks (w_tasks (S := MemoryStorage)).
Proof. done. Qed.
#[local] Instance tasks_Transaction : BlindHeap (w_tasks (S := MemoryStorage)) Transaction.
Proof. done. Qed.

Lemma run_task_keeps_tasks t : keeps (w_tasks (S := MemoryStorage)) (run_task t).
Proof. destruct t; keep. Qed.

Lemma schedule_tasks i w :
  is_Some (w_tasks w !! i) → w_tasks (schedule i w).2 = delete i (w_tasks w).
Proof.
  intros [t Ht]. unfold schedule. rw run_bind run_gets Ht run_bind run_modify.
  by rw run_task_keeps_tasks.
Qed.

(** A choice of the runtime is fair when it picks among those that wait. *)
Fixpoint fair (n : nat) (picks : list nat) : Prop :=
  match picks with
  | [] => n = 0%nat
  | i :: picks => (i < n)%nat ∧ fair (n - 1) picks
  end.

End Facts.

Definition demo_started : World MemoryStorage :=
  demo_world <| w_tasks := [TSendAsync "a" "u" [] fzero; TSendAsync "b" "u" [] fzero] |>.
