(* ===== verification/RedisKeys.v ===== *)
(** * The key space of the Redis storage

    Every key the storage builds, as data: what it names and how it is spelled.
    Keys of plain identifiers (no colon, and not one of the three words the
    schema uses in an identifier's place) never coincide, so that no object,
    index or counter overwrites another. *)
From S2P Require Import Prelude GoFloat GoStd Redis.

Inductive Key : Type :=
| KUser (id : string)
| KEmail (email : string)
| KCustomer (id : string)
| KCustomerSource (sourceID : string)
| KCustomerAccounts (customerID : string)
| KAccount (id : string)
| KCustomerCards (customerID : string)
| KAccountCards (accountID : string)
| KCard (id : string)
| KCardLimits (cardID : string)
| KCustomerAddresses (customerID : string)
| KCustomerAddress (addressID : string)
| KCardTransaction (id : string)
| KCardTransactions (cardID : string)
| KCardTransactionRaw (id : string)
| KCardTransactionSeq
| KUserTransactions (userID : string)
| KCardPIN (cardID : string)
| KWallet (address : string)
| KUserWallets (userID : string)
| KTx (id : string)
| KBalance (userID currency : string)
| KThreeDSChallenge (txID : string)
| KUserThreeDSChallenges (userID : string)
| KOrganization (orgID : string).

Definition render (k : Key) : string :=
  match k with
  | KUser id => userKey id
  | KEmail email => emailKey email
  | KCustomer id => customerKey id
  | KCustomerSource sourceID => customerSourceKey sourceID
  | KCustomerAccounts customerID => customerAccountsKey customerID
  | KAccount id => accountKey id
  | KCustomerCards customerID => customerCardsKey customerID
  | KAccountCards accountID => accountCardsKey accountID
  | KCard id => cardKey id
  | KCardLimits cardID => cardLimitsKey cardID
  | KCustomerAddresses customerID => customerAddressesKey customerID
  | KCustomerAddress addressID => customerAddressKey addressID
  | KCardTransaction id => cardTransactionKey id
  | KCardTransactions cardID => cardTransactionsKey cardID
  | KCardTransactionRaw id => cardTransactionRawKey id
  | KCardTransactionSeq => cardTransactionSeqKey
  | KUserTransactions userID => userTransactionsKey userID
  | KCardPIN cardID => cardPINKey cardID
  | KWallet address => walletKey address
  | KUserWallets userID => userWalletsKey userID
  | KTx id => txKey id
  | KBalance userID currency => balanceKey userID currency
  | KThreeDSChallenge txID => threeDSChallengeKey txID
  | KUserThreeDSChallenges userID => userThreeDSChallengesKey userID
  | KOrganization orgID => organizationKey orgID
  end.

(** The same key as the words between its colons. *)
Definition words (k : Key) : list string :=
  match k with
  | KUser id => ["user"; id]
  | KEmail email => ["email"; email]
  | KCustomer id => ["customer"; id]
  | KCustomerSource sourceID => ["customer"; "source"; sourceID]
  | KCustomerAccounts customerID => ["customer"; customerID; "accounts"]
  | KAccount id => ["account"; id]
  | KCustomerCards customerID => ["customer"; customerID; "cards"]
  | KAccountCards accountID => ["account"; accountID; "cards"]
  | KCard id => ["card"; id]
  | KCardLimits cardID => ["card"; cardID; "limits"]
  | KCustomerAddresses customerID => ["customer"; customerID; "addresses"]
  | KCustomerAddress addressID => ["customer"; "address"; addressID]
  | KCardTransaction id => ["cardtx"; id]
  | KCardTransactions cardID => ["card"; cardID; "transactions"]
  | KCardTransactionRaw id => ["cardtx"; id; "raw"]
  | KCardTransactionSeq => ["cardtx"; "seq"]
  | KUserTransactions userID => ["user"; userID; "transactions"]
  | KCardPIN cardID => ["card"; cardID; "pin"]
  | KWallet address => ["wallet"; address]
  | KUserWallets userID => ["user"; userID; "wallets"]
  | KTx id => ["tx"; id]
  | KBalance userID currency => ["balance"; userID; currency]
  | KThreeDSChallenge txID => ["3ds"; "challenge"; txID]
  | KUserThreeDSChallenges userID => ["user"; userID; "3ds"; "challenges"]
  | KOrganization orgID => ["organization"; orgID]
  end.

(** An identifier without a colon. *)
Definition plain : string → bool := without ":".

(** The words a customer or a card transaction must not be called. *)
Definition reserved (k : Key) : bool :=
  match k with
  | KCustomer id | KCustomerAccounts id | KCustomerCards id | KCustomerAddresses id =>
      (id =?s "source") || (id =?s "address")
  | KCardTransaction id => id =?s "seq"
  | _ => false
  end.
Definition proper (k : Key) : bool := forallb plain (words k) && negb (reserved k).

Lemma render_words k : render k = Join ":" (words k).
Proof. by destruct k. Qed.

(** Proper keys with one spelling are one key. *)
Lemma words_proper_inj k k' :
  proper k = true → proper k' = true → words k = words k' → k = k'.
Proof.
  unfold proper. intros [_ Hr]%andb_true_iff [_ Hr']%andb_true_iff Hw.
  destruct k, k'; cbn in Hw; try discriminate Hw; simplify_eq; try done; by cbn in Hr, Hr'.
Qed.

Lemma render_inj k k' : proper k = true → proper k' = true → render k = render k' → k = k'.
Proof.
  intros Hk Hk' Hr. apply words_proper_inj; [done..|].
  apply andb_true_iff in Hk as [Hk _], Hk' as [Hk' _]. rw !render_words in Hr.
  apply (f_equal (Split ":")) in Hr. revert Hr Hk Hk'.
  destruct (words k) as [|w ws] eqn:Hw; [by destruct k|].
  destruct (words k') as [|w' ws'] eqn:Hw'; [by destruct k'|].
  intros Hr Hk Hk'. by rw (Split_Join ":" _ _ Hk) (Split_Join ":" _ _ Hk') in Hr.
Qed.

(** Objects, indexes and counters never overwrite one another in Redis: two keys
    the storage builds from identifiers without a colon, none of them one of the
    words the schema puts in an identifier's place, are spelled alike only if
    they name the same thing. *)
Lemma keys_apart k k' :
  proper k = true → proper k' = true → k ≠ k' → render k ≠ render k'.
Proof. intros Hk Hk' Hne He. by apply Hne, render_inj. Qed.

Lemma keys_apart_witness :
  render (KUserWallets "u1") ≠ render (KUser "u1") ∧ render (KBalance "u1" "XRP") ≠ render (KUser "u1").
Proof. split; apply keys_apart; done. Defined.
