(* ===== verification/RedisServer.v ===== *)
(** * What the Redis commands are documented to do

    [RedisLaws]: how each command acts on the keys a server holds, as far as
    the storage relies on it.  A command is executed at an instant at which the
    server is reachable; keys that expire in between are not modelled.  The
    arithmetic of [INCRBYFLOAT] is the server's own: [incr_text] is the text it
    stores.  A [SCAN] iteration may return a key more than once, but it ends and
    misses none; [scan_left] and [scan_todo] state that guarantee call by call.

    [demo_redis] is a server that keeps the laws. *)
From stdpp Require Import sets.
From S2P Require Import Prelude GoFloat GoStd GoText Redis.

Inductive rvalue : Type :=
| RString (s : string)
| RSet (l : list string)
| RList (l : list string)
| RZSet (l : list (string * f64)).

Definition wrong_type : string :=
  "WRONGTYPE Operation against a key holding the wrong kind of value".

(** The members of a set, the items of a list: none at an absent key. *)
Definition set_at (v : option rvalue) : option (list string) :=
  match v with None => Some [] | Some (RSet l) => Some l | _ => None end.
Definition list_at (v : option rvalue) : option (list string) :=
  match v with None => Some [] | Some (RList l) => Some l | _ => None end.
Definition string_at (default : string) (v : option rvalue) : option string :=
  match v with None => Some default | Some (RString s) => Some s | _ => None end.
Definition get_reply (v : option rvalue) : reply string :=
  match v with
  | Some (RString s) => Reply s
  | Some _ => Fault wrong_type
  | None => NilReply
  end.

(** The members of a sorted set with their scores. *)
Definition zset_at (v : option rvalue) : option (list (string * f64)) :=
  match v with None => Some [] | Some (RZSet l) => Some l | _ => None end.

(** A literal prefix followed by a star; what a pattern of this form matches. *)
Definition glob_special (c : ascii) : bool := one_of "*?[]\" c.
Definition glob_literal (s : string) : bool := negb (existsb glob_special (chars s)).

Class RedisLaws (R : Type) `{!RedisClient R} := {
  keyspace : R → gmap string rvalue;
  incr_text : string → f64 → option string;
  scan_left : R → string → Z → nat;
  scan_todo : R → string → Z → list string;
  law_Get : ∀ k r, rc_Get k r = (get_reply (keyspace r !! k), r);
  law_Exists : ∀ k r, rc_Exists k r = (Reply (if keyspace r !! k then 1 else 0), r);
  law_Set : ∀ k v ttl r, ∃ r',
    rc_Set k v ttl r = (Reply tt, r') ∧ keyspace r' = <[k := RString v]> (keyspace r);
  law_SAdd : ∀ k m l r, set_at (keyspace r !! k) = Some l → ∃ r' l',
    rc_SAdd k m r = (Reply tt, r') ∧ keyspace r' = <[k := RSet l']> (keyspace r)
    ∧ ∀ x, x ∈ l' ↔ x = m ∨ x ∈ l;
  law_SMembers : ∀ k l r, set_at (keyspace r !! k) = Some l → ∃ l',
    rc_SMembers k r = (Reply l', r) ∧ ∀ x, x ∈ l' ↔ x ∈ l;
  law_LPush : ∀ k m l r, list_at (keyspace r !! k) = Some l → ∃ r',
    rc_LPush k m r = (Reply tt, r') ∧ keyspace r' = <[k := RList (m :: l)]> (keyspace r);
  law_LRange : ∀ k l r, list_at (keyspace r !! k) = Some l →
    rc_LRange k 0 (-1) r = (Reply l, r);
  law_Incr : ∀ k s n r, string_at "0" (keyspace r !! k) = Some s → Atoi s = Some n → n < int_max →
    ∃ r', rc_Incr k r = (Reply (n + 1), r')
    ∧ keyspace r' = <[k := RString (Itoa (n + 1))]> (keyspace r);
  (** A counter that is no number, or that would pass 64 bits, stays as it is. *)
  law_Incr_else : ∀ k s r, string_at "0" (keyspace r !! k) = Some s → ∃ a r',
    rc_Incr k r = (a, r')
    ∧ (keyspace r' = keyspace r ∨ ∃ t, keyspace r' = <[k := RString t]> (keyspace r));
  law_IncrByFloat_else : ∀ k s a r, string_at "0" (keyspace r !! k) = Some s →
    incr_text s a = None → ∃ e, rc_IncrByFloat k a r = (Fault e, r);
  law_TTL : ∀ k r, ∃ ttl, rc_TTL k r = (Reply ttl, r);
  law_ZAdd : ∀ k score m l r, zset_at (keyspace r !! k) = Some l → ∃ r' l',
    rc_ZAdd k score m r = (Reply tt, r') ∧ keyspace r' = <[k := RZSet l']> (keyspace r)
    ∧ ∀ x, x ∈ l'.*1 ↔ x = m ∨ x ∈ l.*1;
  law_ZRangeByScore : ∀ k lo hi l r, zset_at (keyspace r !! k) = Some l → ∃ l',
    rc_ZRangeByScore k lo hi r = (Reply l', r) ∧ ∀ x, x ∈ l' → x ∈ l.*1;
  (** A set that becomes empty is removed. *)
  law_ZRem : ∀ k m l r, zset_at (keyspace r !! k) = Some l → ∃ r' l',
    rc_ZRem k m r = (Reply tt, r')
    ∧ (keyspace r' = <[k := RZSet l']> (keyspace r) ∨ keyspace r' = delete k (keyspace r))
    ∧ ∀ x, x ∈ l'.*1 ↔ x ≠ m ∧ x ∈ l.*1;
  law_IncrByFloat : ∀ k s t a r, string_at "0" (keyspace r !! k) = Some s → incr_text s a = Some t →
    ∃ r' x, rc_IncrByFloat k a r = (Reply x, r') ∧ keyspace r' = <[k := RString t]> (keyspace r);
  (** A key that holds a number takes any finite increment, and keeps a number. *)
  law_incr_text : ∀ s x a, ParseFloat s = Some x → is_finite x = true → is_finite a = true →
    ∃ t y, incr_text s a = Some t ∧ ParseFloat t = Some y;
  (** Each call leaves less to do, and what it leaves out it still has to return. *)
  law_rounds : ∀ r p, (scan_left r p 0 < rc_rounds r p)%nat;
  law_Scan : ∀ c p n r, ∃ keys next,
    rc_Scan c p n r = (Reply (keys, next), r)
    ∧ (next = 0 ∨ (scan_left r p next < scan_left r p c)%nat)
    ∧ (∀ k, k ∈ scan_todo r p c → k ∈ keys ∨ (next ≠ 0 ∧ k ∈ scan_todo r p next))
    ∧ (∀ pre k, p = pre +:+ "*" → glob_literal pre = true → k ∈ keys →
         String.prefix pre k = true ∧ is_Some (keyspace r !! k));
  law_scan_start : ∀ r pre k, glob_literal pre = true → String.prefix pre k = true →
    is_Some (keyspace r !! k) → k ∈ scan_todo r (pre +:+ "*") 0 }.

(** ** A server that keeps them

    Its keys never expire and one call of its [SCAN] returns one key. *)
Abbreviation Keys := (gmap string rvalue).

Definition demo_keys (m : Keys) (p : string) : list string :=
  filter (fun k => String.prefix (str_take (String.length p - 1) p) k = true) (map_to_list m).*1.
Definition demo_write {A} (k : string) (v : rvalue) (a : A) (m : Keys) : reply A * Keys :=
  (Reply a, <[k := v]> m).
Definition demo_refuse {A} (m : Keys) : reply A * Keys := (Fault wrong_type, m).

(** The sum, if its text reads as a number. *)
Definition demo_incr (s : string) (a : f64) : option string :=
  match ParseFloat s with
  | Some x =>
      let t := float_text (fadd x a) in
      Some (match ParseFloat t with Some _ => t | None => "0" end)
  | None => None
  end.

Definition demo_scan (m : Keys) (p : string) (c : Z) : list string * Z :=
  let l := demo_keys m p in
  let n := Z.to_nat c in
  (firstn 1 (skipn n l), if (S n <? length l)%nat then Z.of_nat (S n) else 0).

#[export] Instance demo_redis : RedisClient Keys := {|
  rc_Get k m := (get_reply (m !! k), m);
  rc_Set k v _ := demo_write k (RString v) tt;
  rc_Exists k m := (Reply (if m !! k then 1 else 0), m);
  rc_TTL k m := (Reply (if m !! k then -1 else -2), m);
  rc_SAdd k x m :=
    match set_at (m !! k) with
    | Some l => demo_write k (RSet (if decide (x ∈ l) then l else l ++ [x])) tt m
    | None => demo_refuse m
    end;
  rc_SMembers k m :=
    (match set_at (m !! k) with Some l => Reply l | None => Fault wrong_type end, m);
  rc_LPush k x m :=
    match list_at (m !! k) with
    | Some l => demo_write k (RList (x :: l)) tt m
    | None => demo_refuse m
    end;
  rc_LRange k _ _ m :=
    (match list_at (m !! k) with Some l => Reply l | None => Fault wrong_type end, m);
  rc_Incr k m :=
    match string_at "0" (m !! k) ≫= Atoi with
    | Some n => demo_write k (RString (Itoa (n + 1))) (n + 1) m
    | None => demo_refuse m
    end;
  rc_IncrByFloat k a m :=
    match string_at "0" (m !! k) ≫= fun s => demo_incr s a with
    | Some t => demo_write k (RString t) (default fzero (ParseFloat t)) m
    | None => demo_refuse m
    end;
  rc_ZAdd k score x m :=
    match zset_at (m !! k) with
    | Some l => demo_write k (RZSet (assoc_set x score l)) tt m
    | None => demo_refuse m
    end;
  rc_ZRangeByScore k lo _ m :=
    (match zset_at (m !! k) with
     | Some l =>
         Reply (filter (fun x => fle (default fzero (ParseFloat lo)) x.2 = true) l).*1
     | None => Fault wrong_type
     end, m);
  rc_ZRem k x m :=
    match zset_at (m !! k) with
    | Some l => demo_write k (RZSet (filter (fun y => y.1 ≠ x) l)) tt m
    | None => demo_refuse m
    end;
  rc_Scan c p _ m := (Reply (demo_scan m p c), m);
  rc_rounds m p := S (length (demo_keys m p)) |}.

Lemma demo_keys_spec m pre k :
  k ∈ demo_keys m (pre +:+ "*") ↔ String.prefix pre k = true ∧ is_Some (m !! k).
Proof.
  unfold demo_keys, str_take. rw -length_chars chars_app length_app Nat.add_sub.
  rw take_app_length of_chars_chars list_elem_of_filter.
  assert (k ∈ (map_to_list m).*1 ↔ is_Some (m !! k)) as ->; [|done].
  rw list_elem_of_fmap. split.
  - intros ([k' v] & -> & Hin%elem_of_map_to_list). by exists v.
  - intros [v Hv]. exists (k, v). split; [done|]. by apply elem_of_map_to_list.
Qed.

Lemma demo_scan_rest (l : list string) n k :
  k ∈ skipn n l → k ∈ firstn 1 (skipn n l) ∨ (S n < length l)%nat ∧ k ∈ skipn (S n) l.
Proof.
  revert n. induction l as [|x l IH]; intros [|n] Hk; cbn in *; [by apply not_elem_of_nil in Hk..| |].
  - apply elem_of_cons in Hk as [->|Hk]; [left; by left|]. right. split; [|done].
    destruct l; [by apply not_elem_of_nil in Hk|cbn; lia].
  - destruct (IH n Hk) as [?|[? ?]]; [by left|right]. split; [lia|done].
Qed.

#[export] Program Instance demo_redis_laws : RedisLaws Keys := {|
  keyspace m := m;
  incr_text := demo_incr;
  scan_left m p c := (length (demo_keys m p) - Z.to_nat c)%nat;
  scan_todo m p c := skipn (Z.to_nat c) (demo_keys m p) |}.
Next Obligation. done. Qed.
Next Obligation. done. Qed.
Next Obligation. intros k v ttl m. by eexists. Qed.
Next Obligation.
  intros k x l m Hl. cbn. rw Hl. do 2 eexists. split; [done|]. split; [done|].
  intros y. destruct (decide (x ∈ l)); [set_solver|]. set_solver.
Qed.
Next Obligation. intros k l m Hl. cbn. rw Hl. by exists l. Qed.
Next Obligation. intros k x l m Hl. cbn. rw Hl. by eexists. Qed.
Next Obligation. intros k l m Hl. cbn. by rw Hl. Qed.
Next Obligation. intros k s n m Hs Hn Hlt. cbn. rw Hs. cbn. rw Hn. by eexists. Qed.
Next Obligation.
  intros k s m Hs. cbn. rw Hs. cbn. destruct (Atoi s) as [n|]; do 2 eexists; (split; [done|]);
    [right; by eexists|by left].
Qed.
Next Obligation. intros k s a m Hs Ht. cbn. rw Hs. cbn. rw Ht. by eexists. Qed.
Next Obligation. intros k m. by eexists. Qed.
Next Obligation.
  intros k score x l m Hl. cbn. rw Hl. do 2 eexists. split; [done|]. split; [done|].
  intros y. clear Hl. induction l as [|[z v] l IH]; cbn [assoc_set]; [cbn; set_solver|].
  destruct (x =?s z) eqn:Hx; case_go; subst; cbn; rw !elem_of_cons; [|rw IH]; naive_solver.
Qed.
Next Obligation.
  intros k lo hi l m Hl. cbn. rw Hl. eexists. split; [done|].
  intros y ([z v] & -> & Hin)%list_elem_of_fmap. apply list_elem_of_filter in Hin as [_ Hin].
  apply list_elem_of_fmap. by exists (z, v).
Qed.
Next Obligation.
  intros k x l m Hl. cbn. rw Hl. do 2 eexists. split; [done|]. split; [by left|].
  intros y. rw !list_elem_of_fmap. setoid_rewrite list_elem_of_filter. naive_solver.
Qed.
Next Obligation. intros k s t a m Hs Ht. cbn. rw Hs. cbn. rw Ht. by do 2 eexists. Qed.
Next Obligation.
  intros s x a Hx _ _. unfold demo_incr. rw Hx.
  destruct (ParseFloat (float_text (fadd x a))) as [y|] eqn:Ht.
  - by exists (float_text (fadd x a)), y.
  - by exists "0", fzero.
Qed.
Next Obligation. intros m p. cbn. lia. Qed.
Next Obligation.
  intros c p n m. do 2 eexists. split; [done|]. split; [|split].
  - destruct (Nat.ltb_spec (S (Z.to_nat c)) (length (demo_keys m p))); [right; lia|by left].
  - intros k Hk. destruct (demo_scan_rest _ _ _ Hk) as [?|[Hlt Hk']]; [by left|right].
    destruct (Nat.ltb_spec (S (Z.to_nat c)) (length (demo_keys m p))); [|lia].
    split; [lia|]. by rw Nat2Z.id.
  - intros pre k -> _ Hk. apply demo_keys_spec.
    assert (k ∈ skipn (Z.to_nat c) (demo_keys m (pre +:+ "*"))) as Hin.
    { destruct (skipn _ _) as [|x l]; cbn in Hk; [done|]. set_solver. }
    rw -(take_drop (Z.to_nat c) (demo_keys m (pre +:+ "*"))). set_solver.
Qed.
Next Obligation. intros m pre k _ Hpre Hk. cbn. by apply demo_keys_spec. Qed.
