(* ===== verification/RedisFacts.v ===== *)
(** * The Redis storage: what is stored is read back

    The methods of [Redis.v] on a server that keeps [RedisLaws].  What a method
    stored, later reads decode, each into memory of its own; the [SCAN] loops
    end; a debit is never refused and a sign-up never looks at the e-mail index,
    unlike in the in-memory storage. *)
From stdpp Require Import sets.
From S2P Require Import Prelude GoFloat GoStd GoText JsonText GoTime Codec Stored Models World Redis.
From S2P Require Import RedisKeys RedisServer Fees LedgerFacts Demo.
From S2P Require Storage.

Section Facts.
Context {R : Type} `{!RedisClient R} `{!RedisLaws R} `{Env}.
Implicit Types w : World R.

Definition keys_of w : gmap string rvalue := keyspace (w_store w).

(** [key] holds the text of [x]. *)
Definition stored {T} (key : string) (c : codec T) (x : T) w : Prop :=
  keys_of w !! key = Some (RString (json_text (enc c x))).

(** ** Running commands *)
Lemma with_same_store w : w <| w_store := w_store w |> = w.
Proof. by destruct w. Qed.

Lemma run_cmd {A} (f : R → reply A * R) w a r :
  f (w_store w) = (a, r) → cmd f w = (Ret a, w <| w_store := r |>).
Proof. unfold cmd. by intros ->. Qed.

Lemma run_read {A} (f : R → reply A * R) w a :
  f (w_store w) = (a, w_store w) → cmd f w = (Ret a, w).
Proof. intros Hf. by rw (run_cmd _ _ _ _ Hf) with_same_store. Qed.

Lemma run_get key w : cmd (rc_Get key) w = (Ret (get_reply (keys_of w !! key)), w).
Proof. apply run_read. by rw law_Get. Qed.

Lemma run_fetch {B} what (missing : prog (World R) (result B)) key k w :
  fetch what missing key k w =
  match get_reply (keys_of w !! key) with
  | Reply data => k data w
  | NilReply => missing w
  | Fault e => (Ret (Err (what +:+ ": " +:+ e)), w)
  end.
Proof. unfold fetch. rw run_bind run_get. by destruct (get_reply _). Qed.

Lemma run_exec_read {A B} what (f : R → reply A * R) (k : A → prog (World R) (result B)) w a :
  f (w_store w) = (Reply a, w_store w) → exec what f k w = k a w.
Proof. intros Hf. unfold exec. by rw run_bind (run_read _ _ _ Hf). Qed.

Lemma run_exists {B} what key (k : Z → prog (World R) (result B)) w :
  exec what (rc_Exists key) k w = k (if keys_of w !! key then 1 else 0) w.
Proof. apply run_exec_read. apply law_Exists. Qed.

Lemma run_set {B} what key v ttl (k : unit → prog (World R) (result B)) w :
  ∃ w', exec what (rc_Set key v ttl) k w = k tt w'
    ∧ keys_of w' = <[key := RString v]> (keys_of w) ∧ w_heap w' = w_heap w ∧ w_ticks w' = w_ticks w.
Proof.
  destruct (law_Set key v ttl (w_store w)) as (r' & Hr & Hk).
  exists (w <| w_store := r' |>). unfold exec. by rw run_bind (run_cmd _ _ _ _ Hr).
Qed.

Lemma run_lpush {B} what key m l (k : unit → prog (World R) (result B)) w :
  list_at (keys_of w !! key) = Some l →
  ∃ w', exec what (rc_LPush key m) k w = k tt w'
    ∧ keys_of w' = <[key := RList (m :: l)]> (keys_of w) ∧ w_heap w' = w_heap w.
Proof.
  intros Hl. destruct (law_LPush key m l (w_store w) Hl) as (r' & Hr & Hk).
  exists (w <| w_store := r' |>). unfold exec. by rw run_bind (run_cmd _ _ _ _ Hr).
Qed.

(** ** Texts *)
Lemma run_encode {T B} what (c : codec T) x (k : string → prog (World R) (result B)) w :
  faithful c x → encode what c x k w = k (json_text (enc c x)) w.
Proof. unfold encode. by intros [-> _]. Qed.

Lemma run_decode {T B} what (c : codec T) x (k : T → prog (World R) (result B)) w :
  faithful c x → decode what c (json_text (enc c x)) k w = k x w.
Proof. unfold decode. by intros [_ ->]. Qed.

(** The reads of all stored objects have one shape. *)
Lemma run_load {T B} what what' missing (c : codec T) key x (k : T → prog (World R) (result B)) w :
  faithful c x → stored key c x w →
  fetch what missing key (fun data => decode what' c data k) w = k x w.
Proof. intros Hx Hs. rw run_fetch Hs. cbn [get_reply]. by apply run_decode. Qed.

(** [&T{...}] in memory nobody holds. *)
Definition fresh_copy {T} `{!Cell T} (p : loc) (x : T) w w' : Prop :=
  cells (w_heap w') !! p = Some x
  ∧ p = heap_next (w_heap w)
  ∧ (∀ q, q ≠ p → cells (w_heap w') !! q = cells (T := T) (w_heap w) !! q)
  ∧ w_store w' = w_store w.

Lemma run_new_copy {T} `{!Cell T} (x : T) w :
  ∃ p w', new x w = (Ret p, w') ∧ fresh_copy p x w w' ∧ w_ticks w' = w_ticks w.
Proof.
  do 2 eexists. split; [done|]. unfold fresh_copy. cbn. rw cells_with.
  split_and!; [by rw lookup_insert_eq|done| |done|done]. intros q Hq. by rw lookup_insert_ne.
Qed.

Lemma run_load_copy {T} `{!Cell T} what what' missing (c : codec T) key x w :
  faithful c x → stored key c x w →
  ∃ p w', fetch what missing key (fun data =>
            decode what' c data (fun x => p ← new x; mret (Ok p))) w = (Ret (Ok p), w')
    ∧ fresh_copy p x w w'.
Proof.
  intros Hx Hs. destruct (run_new_copy x w) as (p & w' & Hnew & Hcopy & _). exists p, w'.
  split; [|done]. rw (run_load _ _ _ _ _ x) //. by rw (run_bind_ret _ _ _ _ _ Hnew).
Qed.

(** ** Transactions *)
Lemma run_update_at {T} `{!Cell T} p (x : T) f w :
  cells (w_heap w) !! p = Some x →
  ∃ w', update p f w = (Ret tt, w') ∧ cells (w_heap w') !! p = Some (f x)
    ∧ (∀ q, q ≠ p → cells (w_heap w') !! q = cells (T := T) (w_heap w) !! q)
    ∧ w_store w' = w_store w ∧ w_ticks w' = w_ticks w.
Proof.
  intros Hp. eexists. split; [by apply run_update|]. cbn. split_and!; [apply heap_write_lookup| |done..].
  intros q Hq. by apply heap_write_lookup_ne.
Qed.

(** Settling a stored transaction rewrites its record and no other key, and
    leaves every object in memory as it was: whoever read the transaction
    before keeps what it read. *)
Lemma redis_status_update id status t w :
  stored (txKey id) c_Transaction t w → codec_ok c_Transaction t = true → in_int64 status = true →
  ∃ w', UpdateTransactionStatus id status w = (Ret (Ok tt), w')
    ∧ stored (txKey id) c_Transaction (t <| Transaction_Status := status |>) w'
    ∧ (∀ key, key ≠ txKey id → keys_of w' !! key = keys_of w !! key)
    ∧ (∀ p, p ≠ heap_next (w_heap w) → heap_txs (w_heap w') !! p = heap_txs (w_heap w) !! p).
Proof.
  intros Hs Hok Hst. unfold UpdateTransactionStatus, GetTransaction.
  set (t' := t <| Transaction_Status := status |>).
  assert (codec_ok c_Transaction t' = true) as Hok'.
  { revert Hok. unfold codec_ok, c_Transaction, c_struct, field_ok, t'.
    cbn -[utf8 in_int64 time_ok]. rw Hst. destruct (in_int64 (Transaction_Status t)); [done|].
    by rw !andb_false_r. }
  destruct (run_load_copy "failed to get transaction" "failed to unmarshal transaction"
    (Errorf "transaction not found") c_Transaction (txKey id) t w) as (p & w1 & Hget & Hp & -> & Hq & Hs1);
    [by eauto with codec|done|].
  rw (run_bind_ret _ _ _ _ _ Hget).
  destruct (run_update_at _ t (fun t => t <| Transaction_Status := status |>) w1 Hp)
    as (w2 & Hupd & Hp2 & Hq2 & Hs2 & _).
  rw (run_bind_ret _ _ _ _ _ Hupd) (run_bind_ret _ _ _ _ _ (run_deref _ _ _ Hp2)).
  rw run_encode; [|by eauto with codec].
  destruct (run_set "failed to update transaction" (txKey id) (json_text (enc c_Transaction t')) 0
    (fun _ => nil_error) w2) as (w3 & Hset & Hk & Hh & _).
  exists w3. split; [exact Hset|]. unfold stored, keys_of in *. rw Hs2 Hs1 in Hk. rw Hk.
  split; [apply lookup_insert_eq|]. split; [intros key Hne; by apply lookup_insert_ne|].
  intros q Hne. rw Hh. by rw (Hq2 q Hne) (Hq q Hne).
Qed.

(** ** Users *)
Lemma userKey_not_email id email : userKey id ≠ emailKey email.
Proof. done. Qed.

(** Signing up on Redis succeeds whenever the identifier is new: the e-mail
    index is not consulted, and the address leads to the new user from then on,
    whoever had it before.  What is read back is the user, in memory of its
    own. *)
Lemma redis_signup_takes_email p u w :
  heap_users (w_heap w) !! p = Some u → codec_ok c_User u = true →
  User_Email u ≠ "" → User_ID u ≠ "" → IsZero (User_CreatedAt u) = false →
  keys_of w !! userKey (User_ID u) = None →
  ∃ w', CreateUser p w = (Ret (Ok tt), w')
    ∧ keys_of w' = <[emailKey (User_Email u) := RString (User_ID u)]>
                     (<[userKey (User_ID u) := RString (json_text (json_of_User u))]> (keys_of w))
    ∧ ∃ q w'', GetUserByEmail (User_Email u) w' = (Ret (Ok q), w'') ∧ fresh_copy q u w' w''.
Proof.
  intros Hp Hok Hemail Hid Hz Hnew. unfold CreateUser.
  change (cells (T := User) (w_heap w) !! p = Some u) in Hp.
  rw (run_bind_ret _ _ _ _ _ (run_deref _ _ _ Hp)).
  rw (str_eqb_ne _ _ Hemail) (str_eqb_ne _ _ Hid) run_bind run_mret Hz.
  destruct (run_update_at p u (fun u' => u' <| User_ID := User_ID u |>) w Hp)
    as (w1 & Hrun1 & Hp1 & _ & Hs1 & _).
  replace (u <| User_ID := User_ID u |>) with u in Hp1 by by destruct u.
  rw (run_bind_ret _ _ _ _ _ Hrun1) run_bind run_mret.
  destruct (run_update_at p u (fun u' => u' <| User_CreatedAt := User_CreatedAt u |>) w1 Hp1)
    as (w2 & Hrun2 & Hp2 & _ & Hs2 & _).
  replace (u <| User_CreatedAt := User_CreatedAt u |>) with u in Hp2 by by destruct u.
  rw (run_bind_ret _ _ _ _ _ Hrun2) run_exists.
  assert (keys_of w2 = keys_of w) as Hk2 by (unfold keys_of; by rw Hs2 Hs1). rw Hk2 Hnew. cbn [Z.ltb Z.compare].
  rw (run_bind_ret _ _ _ _ _ (run_deref _ _ _ Hp2)) run_encode; [|by eauto with codec].
  destruct (run_set "failed to store user" (userKey (User_ID u)) (json_text (enc c_User u)) 0
    (fun _ => exec "failed to store email mapping" (rc_Set (emailKey (User_Email u)) (User_ID u) 0)
                (fun _ => nil_error)) w2) as (w3 & Hset3 & Hk3 & _).
  destruct (run_set "failed to store email mapping" (emailKey (User_Email u)) (User_ID u) 0
    (fun _ => nil_error) w3) as (w4 & Hset4 & Hk4 & _).
  exists w4. rw Hset3 Hset4. split; [done|]. rw Hk4 Hk3 Hk2. split; [done|].
  unfold GetUserByEmail. rw run_fetch Hk4 lookup_insert_eq. cbn [get_reply].
  apply run_load_copy; [by eauto with codec|].
  unfold stored. rw Hk4 Hk3 lookup_insert_ne; [by rw lookup_insert_eq|done].
Qed.

(** ** Balances *)
Lemma run_debit u c s x a w :
  string_at "0" (keys_of w !! balanceKey u c) = Some s → ParseFloat s = Some x →
  is_finite x = true → is_finite a = true →
  ∃ w' t y, DeductBalance u c a w = (Ret (Ok tt), w')
    ∧ incr_text s (fneg a) = Some t ∧ ParseFloat t = Some y
    ∧ keys_of w' = <[balanceKey u c := RString t]> (keys_of w).
Proof.
  intros Hs Hx Hfx Hfa.
  assert (is_finite (fneg a) = true) as Hfa' by by destruct a.
  destruct (law_incr_text s x (fneg a) Hx Hfx Hfa') as (t & y & Ht & Hy).
  destruct (law_IncrByFloat _ _ _ _ (w_store w) Hs Ht) as (r' & v & Hr & Hk).
  exists (w <| w_store := r' |>), t, y. split_and!; [|done..].
  unfold DeductBalance, AddBalance, exec. by rw run_bind (run_cmd _ _ _ _ Hr).
Qed.

(** A debit on Redis is the credit of the opposite amount: it is accepted
    whatever the balance is, for every finite amount, and the key then holds the
    server's sum. *)
Lemma redis_debit_never_refused u c s x a w :
  string_at "0" (keys_of w !! balanceKey u c) = Some s → ParseFloat s = Some x →
  is_finite x = true → is_finite a = true →
  ∃ w' t y, DeductBalance u c a w = (Ret (Ok tt), w')
    ∧ incr_text s (fneg a) = Some t ∧ ParseFloat t = Some y
    ∧ keys_of w' = <[balanceKey u c := RString t]> (keys_of w)
    ∧ GetBalance u c w' = (Ret (Ok y), w').
Proof.
  intros Hs Hx Hfx Hfa. destruct (run_debit u c s x a w) as (w' & t & y & Hrun & Ht & Hy & Hk); [done..|].
  exists w', t, y. split_and!; [done..|]. unfold GetBalance.
  rw run_fetch Hk lookup_insert_eq. cbn [get_reply]. by rw Hy.
Qed.

Lemma run_GetBalance_absent u c w :
  keys_of w !! balanceKey u c = None → GetBalance u c w = (Ret (Ok fzero), w).
Proof. intros Hk. unfold GetBalance. by rw run_fetch Hk. Qed.

(** C20. The Redis storage does not keep the ledger contract the payment
    handlers are proved against: on a server with an account that was never
    credited no view of the balances makes a debit refused or covered. *)
Theorem redis_is_no_ledger u c w :
  keys_of w !! balanceKey u c = None → ¬ inhabited (LedgerLaws R).
Proof.
  intros Hk [L]. pose proof (ledger_get u c w) as Hget.
  change (Storage.GetBalance u c w) with (GetBalance u c w) in Hget.
  rw (run_GetBalance_absent _ _ _ Hk) in Hget. injection Hget as Hbal.
  destruct (run_debit u c "0" fzero (f_of_Z 1) w) as (w' & t & y & Hd & _); [by rw Hk|done..|].
  destruct (ledger_deduct u c (f_of_Z 1) w) as [[e He]|[Hlt _]].
  - change (Storage.DeductBalance u c (f_of_Z 1) w) with (DeductBalance u c (f_of_Z 1) w) in He.
    by rw Hd in He.
  - by rw -Hbal in Hlt.
Qed.
End Facts.

(** ** Concrete servers *)
Definition redis_world (m : Keys) (h : Heap) : World Keys :=
  mkWorld m h demo_config (Some demo_manager) NewFeeConfig ∅ [] [] [] 0.

Definition demo_transaction : Transaction :=
  zero_Transaction <| Transaction_ID := "t1" |> <| Transaction_UserID := "u1" |>
    <| Transaction_Amount := "12.50" |> <| Transaction_Message := "é <ok>" |>.
Definition demo_tx_keys : Keys :=
  {[ txKey "t1" := RString (json_text (enc c_Transaction demo_transaction)) ]}.

Lemma redis_status_update_witness :
  stored (txKey "t1") c_Transaction demo_transaction (redis_world demo_tx_keys empty_heap)
  ∧ ∃ w', UpdateTransactionStatus "t1" 1 (redis_world demo_tx_keys empty_heap) = (Ret (Ok tt), w')
    ∧ stored (txKey "t1") c_Transaction (demo_transaction <| Transaction_Status := 1 |>) w'.
Proof.
  assert (stored (txKey "t1") c_Transaction demo_transaction (redis_world demo_tx_keys empty_heap))
    as Hs by by vm_compute.
  split; [exact Hs|].
  destruct (redis_status_update "t1" 1 demo_transaction (redis_world demo_tx_keys empty_heap))
    as (w' & Hrun & Hw' & _); [exact Hs|by vm_compute..|].
  exists w'. by split.
Defined.

(** Two users with one e-mail: the address changes hands. *)
Definition demo_user (id : string) : User :=
  zero_User <| User_ID := id |> <| User_Email := "a@b.c" |> <| User_CreatedAt := 0 |>.
Definition demo_user_keys : Keys :=
  <[emailKey "a@b.c" := RString "u1"]>
    {[ userKey "u1" := RString (json_text (json_of_User (demo_user "u1"))) ]}.
Definition demo_signup_world : World Keys :=
  redis_world demo_user_keys (heap_alloc (demo_user "u2") empty_heap).2.

Lemma redis_signup_takes_email_witness :
  keys_of demo_signup_world !! emailKey "a@b.c" = Some (RString "u1")
  ∧ ∃ w', CreateUser 1 demo_signup_world = (Ret (Ok tt), w')
    ∧ keys_of w' !! emailKey "a@b.c" = Some (RString "u2").
Proof.
  split; [by vm_compute|].
  destruct (redis_signup_takes_email 1 (demo_user "u2") demo_signup_world) as (w' & Hrun & Hk & _);
    [by vm_compute..|done|done|by vm_compute|by vm_compute|].
  exists w'. split; [exact Hrun|]. rw Hk. apply lookup_insert_eq.
Defined.

(** An account of 5 is charged 20. *)
Definition demo_balance_keys : Keys := {[ balanceKey "u" "EUR" := RString "5" ]}.

Lemma redis_debit_never_refused_witness :
  ∃ w', DeductBalance "u" "EUR" (f_of_Z 20) (redis_world demo_balance_keys empty_heap) = (Ret (Ok tt), w')
    ∧ GetBalance "u" "EUR" w' = (Ret (Ok (f_of_Z (-15))), w').
Proof.
  destruct (redis_debit_never_refused "u" "EUR" "5" (f_of_Z 5) (f_of_Z 20)
    (redis_world demo_balance_keys empty_heap)) as (w' & t & y & Hrun & Ht & Hy & _ & Hget);
    [by vm_compute..|].
  exists w'. split; [exact Hrun|]. rw Hget. do 3 f_equal.
  assert (t = "-15") as -> by (vm_compute in Ht; congruence). vm_compute in Hy. vm_compute. congruence.
Defined.

Lemma redis_is_no_ledger_witness :
  keys_of (redis_world ∅ empty_heap) !! balanceKey "u" "EUR" = None ∧ ¬ inhabited (LedgerLaws Keys).
Proof.
  split; [done|]. by apply (redis_is_no_ledger "u" "EUR" (redis_world ∅ empty_heap)).
Defined.

Section Scan.
Context {R : Type} `{!RedisClient R} `{!RedisLaws R} `{Env}.
Implicit Types w : World R.

(** ** The walk ends *)

(** A body that only reads the server. *)
Definition reader {A} (body : string → A → prog (World R) A) : Prop := ∀ key acc w,
  ∃ acc' w', body key acc w = (Ret acc', w') ∧ w_store w' = w_store w.

Lemma run_each_key {A} (body : string → A → prog (World R) A) keys acc w :
  reader body → ∃ acc' w', each_key body keys acc w = (Ret acc', w') ∧ w_store w' = w_store w.
Proof.
  intros Hb. revert acc w. induction keys as [|key keys IH]; intros acc w; cbn [each_key].
  - by exists acc, w.
  - destruct (Hb key acc w) as (acc1 & w1 & Hrun & Hs). rw (run_bind_ret _ _ _ _ _ Hrun).
    destruct (IH acc1 w1) as (acc2 & w2 & Hrun2 & Hs2). exists acc2, w2. by rw Hs2 Hs.
Qed.

Lemma scan_loop_ends {A} rounds what p (body : string → A → prog (World R) A) c acc w :
  reader body → (scan_left (w_store w) p c < rounds)%nat →
  ∃ acc' w', scan_loop rounds what p body c acc w = (Ret (Ok acc'), w') ∧ w_store w' = w_store w.
Proof.
  intros Hb. revert c acc w. induction rounds as [|rounds IH]; intros c acc w Hlt; [lia|].
  cbn [scan_loop]. destruct (law_Scan c p 100 (w_store w)) as (keys & next & Hscan & Hnext & _).
  rw (run_exec_read _ _ _ _ _ Hscan).
  destruct (run_each_key body keys acc w Hb) as (acc1 & w1 & Hrun & Hs).
  rw (run_bind_ret _ _ _ _ _ Hrun). destruct (Z.eqb_spec next 0); [by exists acc1, w1|].
  destruct Hnext as [?|Hnext]; [done|].
  destruct (IH next acc1 w1) as (acc2 & w2 & Hrun2 & Hs2); [rw Hs; lia|].
  exists acc2, w2. by rw Hs2 Hs.
Qed.

Lemma scan_all_ends {A} what p (body : string → A → prog (World R) A) acc w :
  reader body → ∃ acc' w', scan_all what p body acc w = (Ret (Ok acc'), w') ∧ w_store w' = w_store w.
Proof.
  intros Hb. unfold scan_all. rw run_bind run_gets. apply scan_loop_ends; [done|]. apply law_rounds.
Qed.

Lemma read_balance_reads : reader read_balance.
Proof. intros key acc w. unfold read_balance. rw run_bind run_get. by do 2 eexists. Qed.

Lemma read_user_reads : reader read_user.
Proof.
  intros key acc w. unfold read_user. destruct (negb _); [by do 2 eexists|]. rw run_bind run_get.
  destruct (get_reply _) as [data| |e]; [|by do 2 eexists..].
  destruct (unmarshal c_User data) as [u|]; [|by do 2 eexists].
  destruct (run_new_copy u w) as (p & w' & Hnew & Hcopy & _).
  rw (run_bind_ret _ _ _ _ _ Hnew). do 2 eexists. split; [done|]. apply Hcopy.
Qed.

(** C19. The two loops that walk the key space end with an answer, whatever the
    keys are and in whatever pages the server returns them. *)
Theorem scans_end userID w :
  (∃ m w', GetAllBalances userID w = (Ret (Ok m), w') ∧ w_store w' = w_store w)
  ∧ (∃ l w', ListUsers w = (Ret (Ok l), w') ∧ w_store w' = w_store w).
Proof.
  split.
  - by apply scan_all_ends, read_balance_reads.
  - destruct (scan_all_ends "failed to scan users" "user:*" read_user [] w read_user_reads)
      as (out & w' & Hrun & Hs).
    exists (slice_stable user_before out).*1, w'. unfold ListUsers.
    by rw (run_bind_ret _ _ _ _ _ Hrun).
Qed.

(** ** The walk visits every key *)

(** A body whose effect is a function of the keys. *)
Definition steps {A} (body : string → A → prog (World R) A) (w : World R) (step : string → A → A) :
    Prop := ∀ key acc, body key acc w = (Ret (step key acc), w).

Lemma run_each_step {A} (body : string → A → prog (World R) A) step keys acc w :
  steps body w step → each_key body keys acc w = (Ret (foldl (flip step) acc keys), w).
Proof.
  intros Hb. revert acc. induction keys as [|key keys IH]; intros acc; cbn [each_key foldl]; [done|].
  by rw (run_bind_ret _ _ _ _ _ (Hb key acc)) IH.
Qed.

Lemma scan_loop_visits {A} rounds what pre (body : string → A → prog (World R) A) step c acc w :
  steps body w step → glob_literal pre = true →
  (scan_left (w_store w) (pre +:+ "*") c < rounds)%nat →
  ∃ visited, scan_loop rounds what (pre +:+ "*") body c acc w
    = (Ret (Ok (foldl (flip step) acc visited)), w)
    ∧ (∀ k, k ∈ visited → String.prefix pre k = true ∧ is_Some (keys_of w !! k))
    ∧ (∀ k, k ∈ scan_todo (w_store w) (pre +:+ "*") c → k ∈ visited).
Proof.
  intros Hb Hpre. revert c acc. induction rounds as [|rounds IH]; intros c acc Hlt; [lia|].
  cbn [scan_loop].
  destruct (law_Scan c (pre +:+ "*") 100 (w_store w)) as (keys & next & Hscan & Hnext & Htodo & Hin).
  rw (run_exec_read _ _ _ _ _ Hscan) (run_bind_ret _ _ _ _ _ (run_each_step _ _ keys acc _ Hb)).
  destruct (Z.eqb_spec next 0) as [->|Hne].
  - exists keys. split; [done|]. split; [intros k; by apply Hin|].
    intros k Hk. by destruct (Htodo k Hk) as [?|[? _]].
  - destruct Hnext as [?|Hnext]; [done|].
    destruct (IH next (foldl (flip step) acc keys)) as (visited & Hrun & Hv1 & Hv2); [lia|].
    exists (keys ++ visited). rw Hrun foldl_app. split; [done|]. split.
    + intros k [Hk|Hk]%elem_of_app; [by eapply Hin|by apply Hv1].
    + intros k Hk. apply elem_of_app. destruct (Htodo k Hk) as [?|[_ ?]]; [by left|right]. by apply Hv2.
Qed.

Lemma scan_all_visits {A} what pre (body : string → A → prog (World R) A) step acc w :
  steps body w step → glob_literal pre = true →
  ∃ visited, scan_all what (pre +:+ "*") body acc w = (Ret (Ok (foldl (flip step) acc visited)), w)
    ∧ ∀ k, k ∈ visited ↔ String.prefix pre k = true ∧ is_Some (keys_of w !! k).
Proof.
  intros Hb Hpre. unfold scan_all. rw run_bind run_gets.
  destruct (scan_loop_visits (rc_rounds (w_store w) (pre +:+ "*")) what pre body step 0 acc w)
    as (visited & Hrun & Hv1 & Hv2); [done..|apply law_rounds|].
  exists visited. split; [done|]. intros k. split; [apply Hv1|]. intros [Hk Hs].
  by apply Hv2, law_scan_start.
Qed.

(** ** Balances *)

(** The non-zero number under a key. *)
Definition shown (v : option rvalue) : option f64 :=
  match get_reply v with
  | Reply text =>
      match ParseFloat text with
      | Some amount => if feq amount fzero then None else Some amount
      | None => None
      end
  | _ => None
  end.
Definition balance_step w (key : string) (out : gmap string f64) : gmap string f64 :=
  match shown (keys_of w !! key) with
  | Some amount => <[after_last_colon key := amount]> out
  | None => out
  end.

Lemma read_balance_steps w : steps read_balance w (balance_step w).
Proof.
  intros key acc. unfold read_balance, balance_step, shown. rw run_bind run_get.
  destruct (get_reply _) as [text| |e]; [|done..]. rw run_mret.
  destruct (ParseFloat text) as [x|]; [|done]. by destruct (feq x fzero).
Qed.

Lemma last_index_plain l i acc :
  forallb (fun c => negb (is_char ":" c)) l = true → last_index_chars ":" i l acc = acc.
Proof.
  revert i acc. induction l as [|c l IH]; intros i acc; cbn; [done|].
  intros [Hc Hl]%andb_true_iff. unfold is_char in Hc. apply negb_true_iff in Hc. rw Hc. by apply IH.
Qed.

Lemma last_index_colon l r i acc :
  forallb (fun c => negb (is_char ":" c)) r = true →
  last_index_chars ":" i (l ++ ":"%char :: r) acc = Some (i + length l)%nat.
Proof.
  intros Hr. revert i acc. induction l as [|c l IH]; intros i acc; cbn.
  - rw last_index_plain; [f_equal; lia|done].
  - rw IH. f_equal. lia.
Qed.

Lemma after_last_colon_plain a c : plain c = true → after_last_colon (a +:+ ":" +:+ c) = c.
Proof.
  intros Hc. unfold after_last_colon, LastIndex, str_drop. rw !chars_app. cbn [chars app].
  rw last_index_colon; [|by apply without_chars]. cbn [Nat.add].
  replace (S (length (chars a))) with (length (chars a ++ [":"%char])) by (rw length_app; cbn; lia).
  rw (cons_middle _ (chars a) (chars c)) app_assoc drop_app_length. apply of_chars_chars.
Qed.

Lemma string_app_inj a b c : a +:+ b = a +:+ c → b = c.
Proof. intros Heq. apply (f_equal chars) in Heq. rw !chars_app in Heq. by apply app_inv_head, chars_inj in Heq. Qed.

Lemma balanceKey_inj u c c' : balanceKey u c = balanceKey u c' → c = c'.
Proof. unfold balanceKey. intros Heq. by do 3 apply string_app_inj in Heq. Qed.

Lemma balanceKey_last u c : plain c = true → after_last_colon (balanceKey u c) = c.
Proof.
  exact (after_last_colon_plain ("balance:" +:+ u) c).
Qed.

Lemma str_prefix_app a b : String.prefix a (a +:+ b) = true.
Proof.
  induction a as [|c a IH]; [by destruct b|].
  change (String.prefix (String c a) (String c (a +:+ b)) = true).
  cbn [String.prefix]. by destruct (ascii_dec c c).
Qed.

Lemma balanceKey_star u c : balanceKey u c = balanceKey u "" +:+ c.
Proof. apply chars_inj. unfold balanceKey. by rw !chars_app -!app_assoc. Qed.

(** The keys of a user's balances are the ones the schema builds. *)
Definition balance_namespace u w : Prop := ∀ k,
  String.prefix (balanceKey u "") k = true → is_Some (keys_of w !! k) →
  ∃ c, plain c = true ∧ k = balanceKey u c.

Lemma balance_fold u w visited c :
  (∀ k, k ∈ visited → ∃ c, plain c = true ∧ k = balanceKey u c) →
  foldl (flip (balance_step w)) ∅ visited !! c =
  if decide (balanceKey u c ∈ visited) then shown (keys_of w !! balanceKey u c) else None.
Proof.
  induction visited as [|k visited IH] using rev_ind; intros Hall; [done|].
  rw foldl_app. cbn [foldl flip]. destruct (Hall k) as (c' & Hc' & ->); [set_solver|].
  assert (∀ k, k ∈ visited → ∃ c, plain c = true ∧ k = balanceKey u c) as Hall' by set_solver.
  specialize (IH Hall'). unfold balance_step at 1. rw (balanceKey_last _ _ Hc').
  destruct (decide (c = c')) as [<-|Hne].
  - rw decide_True; [|set_solver]. destruct (shown _) as [x|] eqn:Hx.
    + by rw lookup_insert_eq.
    + rw IH. by case_decide.
  - set (m := foldl _ ∅ visited) in *.
    transitivity (m !! c); [by destruct (shown (keys_of w !! balanceKey u c')); [apply lookup_insert_ne|]|].
    rw IH. apply decide_ext. split; [set_solver|].
    intros [?|Hin]%elem_of_app; [done|]. apply list_elem_of_singleton, balanceKey_inj in Hin. done.
Qed.

End Scan.

(** Two currencies, one of them spent. *)
Definition demo_balances : Keys :=
  <[balanceKey "u" "EUR" := RString "10.5"]> {[ balanceKey "u" "USD" := RString "0" ]}.

