(* ===== verification/RedisSafe.v ===== *)
(** * The Redis storage keeps its data well typed

    What every key holds: the text of an object of its type, an index of
    identifiers, a counter.  [ok] says so of all proper keys, and of the objects
    in memory that they can be stored; [safe] is a computation that keeps [ok],
    whatever it is run on, and whose result satisfies a condition.  Every
    operation of the storage is [safe] when its arguments are plain
    identifiers; in particular no read ever fails to decode, and no command is
    ever sent to a key of another type. *)
From stdpp Require Import sets.
From S2P Require Import Prelude GoFloat GoStd GoText JsonText GoTime Codec Stored.
From S2P Require Import Models World Redis RedisKeys RedisServer RedisFacts.
From S2P Require Import Demo.
From S2P Require Storage.

(** ** Objects that can be stored and found again *)
Definition plain_opt (s : option string) : bool := match s with Some s => plain s | None => true end.
Definition customer_name (id : string) : bool :=
  plain id && negb (id =?s "source") && negb (id =?s "address").

Definition good_User (u : User) : bool :=
  codec_ok c_User u && plain (User_ID u) && plain (User_Email u).
Definition good_Customer (c : Customer) : bool :=
  codec_ok c_Customer c && customer_name (id_value (Customer_ID c)) && plain (Customer_SourceID c).
Definition good_Account (a : Account) : bool :=
  codec_ok c_Account a && plain (id_value (Account_ID a))
  && customer_name (id_value (Account_CustomerID a)).
Definition good_Card (c : Card) : bool :=
  codec_ok c_Card c && plain (Card_ID c) && customer_name (Card_CustomerID c)
  && plain (Card_AccountID c).
Definition card_tx_name (id : string) : bool := plain id && negb (id =?s "seq").
Definition good_CardTransaction (t : CardTransaction) : bool :=
  codec_ok c_CardTransaction t && card_tx_name (CardTransaction_TransactionID t).
Definition good_Transaction (t : Transaction) : bool :=
  codec_ok c_Transaction t && plain (Transaction_ID t) && plain (Transaction_UserID t).
Definition good_Challenge (c : ThreeDSChallenge) : bool :=
  codec_ok c_ThreeDSChallenge c && plain (ThreeDSChallenge_TransactionID c)
  && plain (ThreeDSChallenge_UserID c).

(** ** What a key holds *)
Definition holds {T} (c : codec T) (good : T → bool) (v : rvalue) : Prop :=
  ∃ text x, v = RString text ∧ unmarshal c text = Some x ∧ good x = true.
Definition holds_name (good : string → bool) (v : rvalue) : Prop :=
  ∃ name, v = RString name ∧ good name = true.
Definition holds_text (v : rvalue) : Prop := ∃ text, v = RString text.
Definition holds_set (v : rvalue) : Prop := ∃ l, v = RSet l ∧ Forall (λ x, plain x = true) l.
Definition holds_list (v : rvalue) : Prop := ∃ l, v = RList l ∧ Forall (λ x, plain x = true) l.
Definition holds_zset (v : rvalue) : Prop := ∃ l, v = RZSet l ∧ Forall (λ x, plain x = true) l.*1.

Definition content (k : Key) (v : rvalue) : Prop :=
  match k with
  | KUser _ => holds c_User good_User v
  | KEmail _ => holds_name plain v
  | KCustomer _ => holds c_Customer good_Customer v
  | KCustomerSource _ => holds_name customer_name v
  | KAccount _ => holds c_Account good_Account v
  | KCard _ => holds c_Card good_Card v
  | KCardLimits _ => holds c_CardLimits (fun _ => true) v
  | KCustomerAddress _ => holds c_CustomerDeliveryAddress (fun _ => true) v
  | KCardTransaction _ => holds c_CardTransaction good_CardTransaction v
  | KWallet _ => holds c_Wallet (fun _ => true) v
  | KTx _ => holds c_Transaction good_Transaction v
  | KThreeDSChallenge _ => holds c_ThreeDSChallenge good_Challenge v
  | KOrganization _ => holds c_Organization (fun _ => true) v
  | KCardTransactionRaw _ | KCardTransactionSeq | KCardPIN _ | KBalance _ _ => holds_text v
  | KCustomerAccounts _ | KCustomerCards _ | KAccountCards _ | KCustomerAddresses _
  | KUserWallets _ => holds_set v
  | KCardTransactions _ | KUserTransactions _ => holds_list v
  | KUserThreeDSChallenges _ => holds_zset v
  end.

Definition well_typed (m : gmap string rvalue) : Prop :=
  ∀ k v, proper k = true → m !! render k = Some v → content k v.

(** ** What memory holds *)
Record heap_ok (h : Heap) : Prop := {
  ok_users : map_Forall (λ _ u, good_User u = true) (heap_users h);
  ok_customers : map_Forall (λ _ c, good_Customer c = true) (heap_customers h);
  ok_accounts : map_Forall (λ _ a, good_Account a = true) (heap_accounts h);
  ok_cards : map_Forall (λ _ c, good_Card c = true) (heap_cards h);
  ok_cardtxs : map_Forall (λ _ t, good_CardTransaction t = true) (heap_cardtxs h);
  ok_txs : map_Forall (λ _ t, good_Transaction t = true) (heap_txs h);
  ok_challenges : map_Forall (λ _ c, good_Challenge c = true) (heap_challenges h) }.

(** The condition on the objects of a type, and where [heap_ok] states it. *)
Class GoodCell (T : Type) `{!Cell T} := {
  good : T → bool;
  heap_ok_cells : ∀ h, heap_ok h → map_Forall (λ _ x, good x = true) (cells h);
  heap_ok_with : ∀ h n m, heap_ok h → map_Forall (λ _ x, good x = true) m →
    heap_ok (with_cells m h) ∧ heap_ok (with_cells m (h <| heap_next := n |>)) }.

Ltac good_cell := intros; cbn in *;
  repeat match goal with H : heap_ok _ |- _ => destruct H end; try done; split; by split.
#[export] Program Instance good_cell_User : GoodCell User := {| good := good_User |}.
Solve Obligations with good_cell.
#[export] Program Instance good_cell_Customer : GoodCell Customer := {| good := good_Customer |}.
Solve Obligations with good_cell.
#[export] Program Instance good_cell_Account : GoodCell Account := {| good := good_Account |}.
Solve Obligations with good_cell.
#[export] Program Instance good_cell_Card : GoodCell Card := {| good := good_Card |}.
Solve Obligations with good_cell.
#[export] Program Instance good_cell_CardTransaction : GoodCell CardTransaction :=
  {| good := good_CardTransaction |}.
Solve Obligations with good_cell.
#[export] Program Instance good_cell_Transaction : GoodCell Transaction :=
  {| good := good_Transaction |}.
Solve Obligations with good_cell.
#[export] Program Instance good_cell_Challenge : GoodCell ThreeDSChallenge :=
  {| good := good_Challenge |}.
Solve Obligations with good_cell.

(** What is documented of the environment's texts: an identifier is made of hex
    digits and dashes, the clock is in the years of four digits. *)
Class EnvText `{Env} : Prop := {
  uuid_plain : ∀ k, plain (env_uuid k) = true;
  uuid_utf8 : ∀ k, utf8 (env_uuid k) = true;
  uuid_long : ∀ k, String.length (env_uuid k) = 36%nat;
  clock_ok : ∀ k, time_ok (env_now k) = true }.

(** ** Proper keys *)
Ltac proper_key :=
  unfold proper, customer_name, card_tx_name; cbn [words forallb reserved]; intros;
  repeat match goal with
  | H : (_ && _) = true |- _ => apply andb_true_iff in H as [? ?]
  | H : negb _ = true |- _ => apply negb_true_iff in H
  | H : _ = true |- _ => rw H; clear H
  | H : _ = false |- _ => rw H; clear H
  end; reflexivity.
Lemma proper_KUser id : plain id = true → proper (KUser id) = true.
Proof. proper_key. Qed.
Lemma proper_KEmail email : plain email = true → proper (KEmail email) = true.
Proof. proper_key. Qed.
Lemma proper_KCustomer id : customer_name id = true → proper (KCustomer id) = true.
Proof. proper_key. Qed.
Lemma proper_KCustomerSource id : plain id = true → proper (KCustomerSource id) = true.
Proof. proper_key. Qed.
Lemma proper_KCustomerAccounts id : customer_name id = true → proper (KCustomerAccounts id) = true.
Proof. proper_key. Qed.
Lemma proper_KAccount id : plain id = true → proper (KAccount id) = true.
Proof. proper_key. Qed.
Lemma proper_KCustomerCards id : customer_name id = true → proper (KCustomerCards id) = true.
Proof. proper_key. Qed.
Lemma proper_KAccountCards id : plain id = true → proper (KAccountCards id) = true.
Proof. proper_key. Qed.
Lemma proper_KCard id : plain id = true → proper (KCard id) = true.
Proof. proper_key. Qed.
Lemma proper_KCardLimits id : plain id = true → proper (KCardLimits id) = true.
Proof. proper_key. Qed.
Lemma proper_KCustomerAddresses id : customer_name id = true → proper (KCustomerAddresses id) = true.
Proof. proper_key. Qed.
Lemma proper_KCustomerAddress id : plain id = true → proper (KCustomerAddress id) = true.
Proof. proper_key. Qed.
Lemma proper_KCardTransaction id : card_tx_name id = true → proper (KCardTransaction id) = true.
Proof. proper_key. Qed.
Lemma proper_KCardTransactions id : plain id = true → proper (KCardTransactions id) = true.
Proof. proper_key. Qed.
Lemma proper_KCardTransactionRaw id : plain id = true → proper (KCardTransactionRaw id) = true.
Proof. proper_key. Qed.
Lemma proper_KUserTransactions id : plain id = true → proper (KUserTransactions id) = true.
Proof. proper_key. Qed.
Lemma proper_KCardPIN id : plain id = true → proper (KCardPIN id) = true.
Proof. proper_key. Qed.
Lemma proper_KWallet id : plain id = true → proper (KWallet id) = true.
Proof. proper_key. Qed.
Lemma proper_KUserWallets id : plain id = true → proper (KUserWallets id) = true.
Proof. proper_key. Qed.
Lemma proper_KTx id : plain id = true → proper (KTx id) = true.
Proof. proper_key. Qed.
Lemma proper_KThreeDSChallenge id : plain id = true → proper (KThreeDSChallenge id) = true.
Proof. proper_key. Qed.
Lemma proper_KUserThreeDSChallenges id : plain id = true → proper (KUserThreeDSChallenges id) = true.
Proof. proper_key. Qed.
Lemma proper_KOrganization id : plain id = true → proper (KOrganization id) = true.
Proof. proper_key. Qed.
Lemma proper_KBalance u c : plain u = true → plain c = true → proper (KBalance u c) = true.
Proof. proper_key. Qed.
Lemma customer_name_plain id : customer_name id = true → plain id = true.
Proof. unfold customer_name. by intros [[? _]%andb_true_iff _]%andb_true_iff. Qed.
Lemma card_tx_name_plain id : card_tx_name id = true → plain id = true.
Proof. unfold card_tx_name. by intros [? _]%andb_true_iff. Qed.

Create HintDb safe.
#[export] Hint Resolve proper_KUser proper_KEmail proper_KCustomer proper_KCustomerSource proper_KCustomerAccounts proper_KAccount proper_KCustomerCards proper_KAccountCards proper_KCard proper_KCardLimits proper_KCustomerAddresses proper_KCustomerAddress proper_KCardTransaction proper_KCardTransactions proper_KCardTransactionRaw proper_KUserTransactions proper_KCardPIN proper_KWallet proper_KUserWallets proper_KTx proper_KThreeDSChallenge proper_KUserThreeDSChallenges proper_KOrganization proper_KBalance
  customer_name_plain card_tx_name_plain : safe.

Lemma holds_holds_text {T} (c : codec T) g v : holds c g v → holds_text v.
Proof. intros (t & x & -> & _). by exists t. Qed.
Lemma holds_name_holds_text g v : holds_name g v → holds_text v.
Proof. intros (t & -> & _). by exists t. Qed.

Section Types.
Context {R : Type} `{!RedisClient R} `{!RedisLaws R} `{EnvText}.
Implicit Types w : World R.

Definition ok w : Prop := well_typed (keys_of w) ∧ heap_ok (w_heap w).

(** ** Computations that keep it *)
Definition safe {A} (m : prog (World R) A) (Q : A → Prop) : Prop := ∀ w, ok w →
  match m w with
  | (Ret a, w') => Q a ∧ ok w'
  | (Panic _, w') => ok w'
  end.

Lemma safe_ret {A} (a : A) (Q : A → Prop) : Q a → safe (mret a) Q.
Proof. by intros Ha w Hw. Qed.

Lemma safe_bind {A B} (m : prog (World R) A) (k : A → prog (World R) B) P Q :
  safe m P → (∀ a, P a → safe (k a) Q) → safe (m ≫= k) Q.
Proof.
  intros Hm Hk w Hw. specialize (Hm w Hw). rw run_bind. destruct (m w) as [[a|e] w']; [|done].
  destruct Hm as [Ha Hw']. by apply Hk.
Qed.

Lemma safe_weaken {A} (m : prog (World R) A) (P Q : A → Prop) :
  safe m P → (∀ a, P a → Q a) → safe m Q.
Proof.
  intros Hm HPQ w Hw. specialize (Hm w Hw). destruct (m w) as [[a|e] w']; [|done].
  destruct Hm. split; [by apply HPQ|done].
Qed.

Lemma safe_panic {A} msg (Q : A → Prop) : safe (panic msg) Q.
Proof. by intros w Hw. Qed.

Lemma safe_gets {A} (f : World R → A) : safe (gets f) (λ _, True).
Proof. by intros w Hw. Qed.

Lemma safe_tick : safe tick (λ _, True).
Proof. by intros w Hw. Qed.
Lemma safe_time : safe time_Now (λ t, time_ok t = true).
Proof. intros w Hw. cbn. split; [apply clock_ok|done]. Qed.
Lemma safe_uuid : safe GenerateUUID (λ id, ∃ k, id = env_uuid k).
Proof. intros w Hw. cbn. split; [by eexists|done]. Qed.

Lemma safe_deref {T} `{!Cell T, !GoodCell T} p : safe (deref (T := T) p) (λ x, good x = true).
Proof.
  intros w [Hk Hh]. unfold deref. destruct (cells _ !! p) as [x|] eqn:Hx; [|done].
  split; [|done]. by apply (heap_ok_cells _ Hh p).
Qed.

Lemma safe_assign {T} `{!Cell T, !GoodCell T} p (x : T) :
  good x = true → safe (assign p x) (λ _, True).
Proof.
  intros Hx w [Hk Hh]. unfold assign. destruct (cells _ !! p) as [y|] eqn:Hy; [|done].
  split; [done|]. split; [done|]. cbn. apply (heap_ok_with _ 1%positive); [done|].
  apply map_Forall_insert_2; [done|]. by apply heap_ok_cells.
Qed.

Lemma safe_update {T} `{!Cell T, !GoodCell T} p (f : T → T) :
  (∀ x, good x = true → good (f x) = true) → safe (update p f) (λ _, True).
Proof.
  intros Hf. eapply safe_bind; [apply safe_deref|]. intros x Hx. by apply safe_assign, Hf.
Qed.

Lemma safe_new {T} `{!Cell T, !GoodCell T} (x : T) : good x = true → safe (new x) (λ _, True).
Proof.
  intros Hx w [Hk Hh]. cbn. split; [done|]. split; [done|]. cbn.
  apply heap_ok_with; [done|]. apply map_Forall_insert_2; [done|]. by apply heap_ok_cells.
Qed.

Lemma safe_collect {A B} (f : A → prog (World R) (option B)) l (P : A → Prop) (Q : B → Prop) :
  Forall P l → (∀ x, P x → safe (f x) (λ o, ∀ y, o = Some y → Q y)) → safe (collect f l) (Forall Q).
Proof.
  intros Hl Hf. induction Hl as [|x l Hx _ IH]; cbn [collect]; [by apply safe_ret|].
  eapply safe_bind; [by apply Hf|]. intros [y|] Hy; (eapply safe_bind; [exact IH|]); intros ys Hys;
    apply safe_ret; [constructor; [by apply Hy|done]|done].
Qed.

(** ** Commands *)
Lemma well_typed_insert m k v :
  well_typed m → proper k = true → content k v → well_typed (<[render k := v]> m).
Proof.
  intros Hm Hk Hv k' v' Hk' Hl. destruct (decide (render k = render k')) as [He|Hne].
  - apply render_inj in He as <-; [|done..]. rw lookup_insert_eq in Hl. by injection Hl as <-.
  - rw lookup_insert_ne in Hl; [|done]. by apply (Hm k').
Qed.

Lemma well_typed_delete m key : well_typed m → well_typed (delete key m).
Proof. intros Hm k' v' Hk' [_ Hl]%lookup_delete_Some. by apply (Hm k'). Qed.

Lemma ok_with_store w r : ok w → well_typed (keyspace r) → ok (w <| w_store := r |>).
Proof. by intros [_ Hh] Hr. Qed.

(** A command that reads: what it answers, the server as it was. *)
Lemma safe_exec_read {A B} what (Q : result B → Prop) (f : R → reply A * R)
    (cont : A → prog (World R) (result B)) (P : A → Prop) :
  (∀ w, ok w → ∃ a, f (w_store w) = (Reply a, w_store w) ∧ P a) →
  (∀ a, P a → safe (cont a) Q) → safe (exec what f cont) Q.
Proof.
  intros Hf Hcont w Hw. destruct (Hf w Hw) as (a & Hrun & Ha).
  rw (run_exec_read _ _ _ _ _ Hrun). by apply Hcont.
Qed.

(** A command that writes one proper key. *)
Lemma safe_exec_write {A B} what (Q : result B → Prop) (f : R → reply A * R)
    (cont : A → prog (World R) (result B)) k :
  proper k = true →
  (∀ w, ok w → ∃ a r' v, f (w_store w) = (Reply a, r')
     ∧ keyspace r' = <[render k := v]> (keys_of w) ∧ content k v) →
  (∀ a, safe (cont a) Q) → safe (exec what f cont) Q.
Proof.
  intros Hk Hf Hcont w Hw. destruct (Hf w Hw) as (a & r' & v & Hrun & Hr' & Hv).
  unfold exec. rw run_bind (run_cmd _ _ _ _ Hrun). apply Hcont.
  apply ok_with_store; [done|]. rw Hr'. apply well_typed_insert; [apply Hw|done..].
Qed.

(** What an index key holds, members and all. *)
Lemma set_content w k :
  ok w → proper k = true → (∀ v, content k v → holds_set v) →
  ∃ l, set_at (keys_of w !! render k) = Some l ∧ Forall (λ x, plain x = true) l.
Proof.
  intros [Hm _] Hk Hc. destruct (keys_of w !! render k) as [v|] eqn:Hv; [|by exists []].
  destruct (Hc v (Hm k v Hk Hv)) as (l & -> & Hl). by exists l.
Qed.
Lemma list_content w k :
  ok w → proper k = true → (∀ v, content k v → holds_list v) →
  ∃ l, list_at (keys_of w !! render k) = Some l ∧ Forall (λ x, plain x = true) l.
Proof.
  intros [Hm _] Hk Hc. destruct (keys_of w !! render k) as [v|] eqn:Hv; [|by exists []].
  destruct (Hc v (Hm k v Hk Hv)) as (l & -> & Hl). by exists l.
Qed.
Lemma zset_content w k :
  ok w → proper k = true → (∀ v, content k v → holds_zset v) →
  ∃ l, zset_at (keys_of w !! render k) = Some l ∧ Forall (λ x, plain x = true) l.*1.
Proof.
  intros [Hm _] Hk Hc. destruct (keys_of w !! render k) as [v|] eqn:Hv; [|by exists []].
  destruct (Hc v (Hm k v Hk Hv)) as (l & -> & Hl). by exists l.
Qed.
Lemma text_content w k :
  ok w → proper k = true → (∀ v, content k v → holds_text v) →
  ∃ t, string_at "0" (keys_of w !! render k) = Some t.
Proof.
  intros [Hm _] Hk Hc. destruct (keys_of w !! render k) as [v|] eqn:Hv; [|by exists "0"].
  destruct (Hc v (Hm k v Hk Hv)) as (t & ->). by exists t.
Qed.

Section Commands.
Context {B : Type} (what : string) (Q : result B → Prop).
Implicit Types (k : Key).

Lemma safe_exists key cont :
  (∀ n, safe (cont n) Q) → safe (exec what (rc_Exists key) cont) Q.
Proof.
  intros Hc. apply (safe_exec_read _ _ _ _ (λ _, True)); [|by intros ? _].
  intros w _. eexists. split; [apply law_Exists|done].
Qed.

Lemma safe_ttl key cont : (∀ n, safe (cont n) Q) → safe (exec what (rc_TTL key) cont) Q.
Proof.
  intros Hc. apply (safe_exec_read _ _ _ _ (λ _, True)); [|by intros ? _].
  intros w _. destruct (law_TTL key (w_store w)) as [ttl Hr]. by exists ttl.
Qed.

Lemma safe_set k data ttl cont :
  proper k = true → content k (RString data) → safe (cont tt) Q →
  safe (exec what (rc_Set (render k) data ttl) cont) Q.
Proof.
  intros Hk Hv Hc. apply (safe_exec_write _ _ _ _ k); [done| |by intros []].
  intros w _. destruct (law_Set (render k) data ttl (w_store w)) as (r' & Hr & Hk').
  by exists tt, r', (RString data).
Qed.

Lemma safe_sadd k m cont :
  proper k = true → (∀ v, content k v ↔ holds_set v) → plain m = true → safe (cont tt) Q →
  safe (exec what (rc_SAdd (render k) m) cont) Q.
Proof.
  intros Hk Hv Hm Hc. apply (safe_exec_write _ _ _ _ k); [done| |by intros []].
  intros w Hw. destruct (set_content w k Hw Hk) as (l & Hl & Hpl); [apply Hv|].
  destruct (law_SAdd _ m _ _ Hl) as (r' & l' & Hr & Hk' & Hin).
  exists tt, r', (RSet l'). split_and!; [done..|]. apply Hv. exists l'. split; [done|].
  apply Forall_forall. intros x [->|Hx]%Hin; [done|]. rw Forall_forall in Hpl. by apply Hpl.
Qed.

Lemma safe_smembers k cont :
  proper k = true → (∀ v, content k v → holds_set v) →
  (∀ l, Forall (λ x, plain x = true) l → safe (cont l) Q) →
  safe (exec what (rc_SMembers (render k)) cont) Q.
Proof.
  intros Hk Hv. apply safe_exec_read.
  intros w Hw. destruct (set_content w k Hw Hk Hv) as (l & Hl & Hpl).
  destruct (law_SMembers _ _ _ Hl) as (l' & Hr & Hin). exists l'. split; [done|].
  apply Forall_forall. intros x Hx%Hin. rw Forall_forall in Hpl. by apply Hpl.
Qed.

Lemma safe_lpush k m cont :
  proper k = true → (∀ v, content k v ↔ holds_list v) → plain m = true → safe (cont tt) Q →
  safe (exec what (rc_LPush (render k) m) cont) Q.
Proof.
  intros Hk Hv Hm Hc. apply (safe_exec_write _ _ _ _ k); [done| |by intros []].
  intros w Hw. destruct (list_content w k Hw Hk) as (l & Hl & Hpl); [apply Hv|].
  destruct (law_LPush _ m _ _ Hl) as (r' & Hr & Hk').
  exists tt, r', (RList (m :: l)). split_and!; [done..|]. apply Hv. exists (m :: l). split; [done|].
  by constructor.
Qed.

Lemma safe_lrange k cont :
  proper k = true → (∀ v, content k v → holds_list v) →
  (∀ l, Forall (λ x, plain x = true) l → safe (cont l) Q) →
  safe (exec what (rc_LRange (render k) 0 (-1)) cont) Q.
Proof.
  intros Hk Hv. apply safe_exec_read.
  intros w Hw. destruct (list_content w k Hw Hk Hv) as (l & Hl & Hpl).
  exists l. split; [by apply law_LRange|done].
Qed.

Lemma safe_zadd k score m cont :
  proper k = true → (∀ v, content k v ↔ holds_zset v) → plain m = true → safe (cont tt) Q →
  safe (exec what (rc_ZAdd (render k) score m) cont) Q.
Proof.
  intros Hk Hv Hm Hc. apply (safe_exec_write _ _ _ _ k); [done| |by intros []].
  intros w Hw. destruct (zset_content w k Hw Hk) as (l & Hl & Hpl); [apply Hv|].
  destruct (law_ZAdd _ score m _ _ Hl) as (r' & l' & Hr & Hk' & Hin).
  exists tt, r', (RZSet l'). split_and!; [done..|]. apply Hv. exists l'. split; [done|].
  apply Forall_forall. intros x [->|Hx]%Hin; [done|]. rw Forall_forall in Hpl. by apply Hpl.
Qed.

Lemma safe_zrange k lo hi cont :
  proper k = true → (∀ v, content k v → holds_zset v) →
  (∀ l, Forall (λ x, plain x = true) l → safe (cont l) Q) →
  safe (exec what (rc_ZRangeByScore (render k) lo hi) cont) Q.
Proof.
  intros Hk Hv. apply safe_exec_read.
  intros w Hw. destruct (zset_content w k Hw Hk Hv) as (l & Hl & Hpl).
  destruct (law_ZRangeByScore _ lo hi _ _ Hl) as (l' & Hr & Hin). exists l'. split; [done|].
  apply Forall_forall. intros x Hx%Hin. rw Forall_forall in Hpl. by apply Hpl.
Qed.

Lemma safe_zrem k m cont :
  proper k = true → (∀ v, content k v ↔ holds_zset v) → safe (cont tt) Q →
  safe (exec what (rc_ZRem (render k) m) cont) Q.
Proof.
  intros Hk Hv Hc w Hw. destruct (zset_content w k Hw Hk) as (l & Hl & Hpl); [apply Hv|].
  destruct (law_ZRem _ m _ _ Hl) as (r' & l' & Hr & Hk' & Hin).
  unfold exec. rw run_bind (run_cmd _ _ _ _ Hr). apply Hc, ok_with_store; [done|].
  destruct Hk' as [-> | ->]; [|by apply well_typed_delete, Hw].
  apply well_typed_insert; [apply Hw|done|]. apply Hv. exists l'. split; [done|]. apply Forall_forall. intros x [_ Hx]%Hin.
  rw Forall_forall in Hpl. by apply Hpl.
Qed.

(** A counter and a balance may refuse; they stay texts. *)
Lemma safe_incr k cont :
  proper k = true → (∀ v, content k v ↔ holds_text v) → (∀ n, safe (cont n) Q) →
  (∀ e, Q (Err (what +:+ ": " +:+ e))) → Q (Err (what +:+ ": redis: nil")) →
  safe (exec what (rc_Incr (render k)) cont) Q.
Proof.
  intros Hk Hv Hc He Hn w Hw. destruct (text_content w k Hw Hk) as (t & Ht); [apply Hv|].
  destruct (law_Incr_else _ _ _ Ht) as (a & r' & Hr & Hk'). unfold exec.
  rw run_bind (run_cmd _ _ _ _ Hr).
  assert (ok (w <| w_store := r' |>)) as Hok.
  { apply ok_with_store; [done|]. destruct Hk' as [->|[t' ->]]; [apply Hw|].
    apply well_typed_insert; [apply Hw|done|]. apply Hv. by exists t'. }
  destruct a as [n| |e]; [by apply Hc|by split..].
Qed.

Lemma safe_incr_float k x cont :
  proper k = true → (∀ v, content k v ↔ holds_text v) → (∀ n, safe (cont n) Q) →
  (∀ e, Q (Err (what +:+ ": " +:+ e))) →
  safe (exec what (rc_IncrByFloat (render k) x) cont) Q.
Proof.
  intros Hk Hv Hc He w Hw. destruct (text_content w k Hw Hk) as (s & Hs); [apply Hv|].
  unfold exec. destruct (incr_text s x) as [t|] eqn:Ht.
  - destruct (law_IncrByFloat _ _ _ _ _ Hs Ht) as (r' & n & Hr & Hk').
    rw run_bind (run_cmd _ _ _ _ Hr). apply Hc, ok_with_store; [done|]. rw Hk'.
    apply well_typed_insert; [apply Hw|done|]. apply Hv. by exists t.
  - destruct (law_IncrByFloat_else _ _ _ _ Hs Ht) as (e & Hr).
    rw run_bind (run_read _ _ _ Hr). by split.
Qed.

(** Reads of texts: a proper key holds what its kind says, or nothing. *)
Lemma safe_fetch k missing cont :
  proper k = true → (∀ v, content k v → holds_text v) → safe missing Q →
  (∀ data, content k (RString data) → safe (cont data) Q) →
  safe (fetch what missing (render k) cont) Q.
Proof.
  intros Hk Hv Hm Hc w Hw. rw run_fetch. destruct (keys_of w !! render k) as [v|] eqn:Hl.
  - pose proof (proj1 Hw k v Hk Hl) as Hcv. destruct (Hv v Hcv) as [t ->]. cbn [get_reply].
    by apply Hc.
  - by apply Hm.
Qed.

Lemma safe_decode {T} (c : codec T) good_x data cont :
  holds c good_x (RString data) → (∀ x, good_x x = true → safe (cont x) Q) →
  safe (decode what c data cont) Q.
Proof.
  intros (t & x & [= <-] & Hu & Hx) Hc. unfold decode. rw Hu. by apply Hc.
Qed.

Lemma safe_encode {T} (c : codec T) good_x x cont :
  faithful c x → good_x x = true →
  (∀ data, holds c good_x (RString data) → safe (cont data) Q) → safe (encode what c x cont) Q.
Proof.
  intros [Hm Hu] Hx Hc. unfold encode. rw Hm. apply Hc. by exists (json_text (enc c x)), x.
Qed.
End Commands.
End Types.

(** ** Fields of objects that can be stored *)
Ltac open_codec :=
  cbv delta [c_User c_Customer c_Account c_Card c_CardTransaction c_Transaction c_ThreeDSChallenge
             c_struct codec_ok field_ok] beta iota;
  cbn -[utf8 in_int64 time_ok].

(** One condition of a struct's: [H] says that all hold. *)
Ltac codec_field H :=
  lazymatch goal with
  | |- ?g = true =>
      let E := fresh in
      destruct g eqn:E; [reflexivity|exfalso; revert H; open_codec; rw E ?andb_false_r; discriminate]
  end.
(** The conditions still hold when one field, [old], takes a value that meets
    them, which [Hnew] says. *)
Ltac codec_update H old Hnew :=
  revert H; open_codec; rw Hnew; destruct old; [done|by rw ?andb_false_r].

Lemma and3 a b c : a = true → b = true → c = true → a && b && c = true.
Proof. by intros -> -> ->. Qed.
Lemma and4 a b c d : a = true → b = true → c = true → d = true → a && b && c && d = true.
Proof. by intros -> -> -> ->. Qed.

Lemma user_fields u : good_User u = true →
  utf8 (User_ID u) = true ∧ plain (User_ID u) = true ∧ plain (User_Email u) = true
  ∧ time_ok (User_CreatedAt u) = true.
Proof.
  unfold good_User. intros [[H H1]%andb_true_iff H2]%andb_true_iff. split_and!; [|done|done|];
    codec_field H.
Qed.
Lemma user_set_id id u : utf8 id = true → plain id = true → good_User u = true →
  good_User (u <| User_ID := id |>) = true.
Proof.
  unfold good_User. intros Hu Hp [[H H1]%andb_true_iff H2]%andb_true_iff.
  apply and3; [|exact Hp|exact H2]. codec_update H (utf8 (User_ID u)) Hu.
Qed.
Lemma user_set_created t u : time_ok t = true → good_User u = true →
  good_User (u <| User_CreatedAt := t |>) = true.
Proof.
  unfold good_User. intros Ht [[H H1]%andb_true_iff H2]%andb_true_iff.
  apply and3; [|exact H1|exact H2]. codec_update H (time_ok (User_CreatedAt u)) Ht.
Qed.

Lemma customer_fields c : good_Customer c = true →
  match Customer_ID c with Some id => utf8 id | None => true end = true
  ∧ customer_name (id_value (Customer_ID c)) = true ∧ plain (Customer_SourceID c) = true
  ∧ time_ok (Customer_CreatedAt c) = true.
Proof.
  unfold good_Customer. intros [[H H1]%andb_true_iff H2]%andb_true_iff. split_and!; [|done|done|];
    codec_field H.
Qed.
Lemma customer_set_id id c : utf8 id = true → customer_name id = true → good_Customer c = true →
  good_Customer (c <| Customer_ID := Some id |>) = true.
Proof.
  unfold good_Customer. intros Hu Hp [[H H1]%andb_true_iff H2]%andb_true_iff.
  apply and3; [|exact Hp|exact H2].
  codec_update H (match Customer_ID c with Some id => utf8 id | None => true end) Hu.
Qed.
Lemma customer_set_created t c : time_ok t = true → good_Customer c = true →
  good_Customer (c <| Customer_CreatedAt := t |>) = true.
Proof.
  unfold good_Customer. intros Ht [[H H1]%andb_true_iff H2]%andb_true_iff.
  apply and3; [|exact H1|exact H2]. codec_update H (time_ok (Customer_CreatedAt c)) Ht.
Qed.

Lemma account_fields a : good_Account a = true →
  match Account_ID a with Some id => utf8 id | None => true end = true
  ∧ plain (id_value (Account_ID a)) = true ∧ customer_name (id_value (Account_CustomerID a)) = true
  ∧ time_ok (Account_CreatedAt a) = true.
Proof.
  unfold good_Account. intros [[H H1]%andb_true_iff H2]%andb_true_iff. split_and!; [|done|done|];
    codec_field H.
Qed.
Lemma account_set_id id a : utf8 id = true → plain id = true → good_Account a = true →
  good_Account (a <| Account_ID := Some id |>) = true.
Proof.
  unfold good_Account. intros Hu Hp [[H H1]%andb_true_iff H2]%andb_true_iff.
  apply and3; [|exact Hp|exact H2].
  codec_update H (match Account_ID a with Some id => utf8 id | None => true end) Hu.
Qed.
Lemma account_set_created t a : time_ok t = true → good_Account a = true →
  good_Account (a <| Account_CreatedAt := t |>) = true.
Proof.
  unfold good_Account. intros Ht [[H H1]%andb_true_iff H2]%andb_true_iff.
  apply and3; [|exact H1|exact H2]. codec_update H (time_ok (Account_CreatedAt a)) Ht.
Qed.

Lemma card_fields c : good_Card c = true →
  utf8 (Card_ID c) = true ∧ plain (Card_ID c) = true ∧ customer_name (Card_CustomerID c) = true
  ∧ plain (Card_AccountID c) = true ∧ time_ok (Card_CreatedAt c) = true.
Proof.
  unfold good_Card. intros [[[H H1]%andb_true_iff H2]%andb_true_iff H3]%andb_true_iff.
  split_and!; [|done..|]; codec_field H.
Qed.
Lemma card_set_id id c : utf8 id = true → plain id = true → good_Card c = true →
  good_Card (c <| Card_ID := id |>) = true.
Proof.
  unfold good_Card. intros Hu Hp [[[H H1]%andb_true_iff H2]%andb_true_iff H3]%andb_true_iff.
  apply and4; [|exact Hp|exact H2|exact H3]. codec_update H (utf8 (Card_ID c)) Hu.
Qed.
Lemma card_set_created t c : time_ok t = true → good_Card c = true →
  good_Card (c <| Card_CreatedAt := t |>) = true.
Proof.
  unfold good_Card. intros Ht [[[H H1]%andb_true_iff H2]%andb_true_iff H3]%andb_true_iff.
  apply and4; [|exact H1|exact H2|exact H3]. codec_update H (time_ok (Card_CreatedAt c)) Ht.
Qed.

Lemma cardtx_set_status status t : utf8 status = true → good_CardTransaction t = true →
  good_CardTransaction (t <| CardTransaction_TxStatus := Some status |>) = true.
Proof.
  unfold good_CardTransaction. intros Hu [H H1]%andb_true_iff.
  apply andb_true_iff. split; [|exact H1].
  codec_update H (match CardTransaction_TxStatus t with Some s => utf8 s | None => true end) Hu.
Qed.

Lemma tx_fields t : good_Transaction t = true →
  utf8 (Transaction_ID t) = true ∧ plain (Transaction_ID t) = true
  ∧ plain (Transaction_UserID t) = true.
Proof.
  unfold good_Transaction. intros [[H H1]%andb_true_iff H2]%andb_true_iff. split_and!; [|done|done].
  codec_field H.
Qed.
Lemma tx_set_id id t : utf8 id = true → plain id = true → good_Transaction t = true →
  good_Transaction (t <| Transaction_ID := id |>) = true.
Proof.
  unfold good_Transaction. intros Hu Hp [[H H1]%andb_true_iff H2]%andb_true_iff.
  apply and3; [|exact Hp|exact H2]. codec_update H (utf8 (Transaction_ID t)) Hu.
Qed.
Lemma tx_set_created c t : time_ok c = true → good_Transaction t = true →
  good_Transaction (t <| Transaction_CreatedAt := c |>) = true.
Proof.
  unfold good_Transaction. intros Ht [[H H1]%andb_true_iff H2]%andb_true_iff.
  apply and3; [|exact H1|exact H2]. codec_update H (time_ok (Transaction_CreatedAt t)) Ht.
Qed.
Lemma tx_set_status st t : in_int64 st = true → good_Transaction t = true →
  good_Transaction (t <| Transaction_Status := st |>) = true.
Proof.
  unfold good_Transaction. intros Hs [[H H1]%andb_true_iff H2]%andb_true_iff.
  apply and3; [|exact H1|exact H2]. codec_update H (in_int64 (Transaction_Status t)) Hs.
Qed.

Lemma challenge_fields c : good_Challenge c = true →
  plain (ThreeDSChallenge_TransactionID c) = true ∧ plain (ThreeDSChallenge_UserID c) = true
  ∧ time_ok (ThreeDSChallenge_CreatedAt c) = true.
Proof.
  unfold good_Challenge. intros [[H H1]%andb_true_iff H2]%andb_true_iff. split_and!; [done|done|].
  codec_field H.
Qed.
Lemma challenge_set_created t c : time_ok t = true → good_Challenge c = true →
  good_Challenge (c <| ThreeDSChallenge_CreatedAt := t |>) = true.
Proof.
  unfold good_Challenge. intros Ht [[H H1]%andb_true_iff H2]%andb_true_iff.
  apply and3; [|exact H1|exact H2]. codec_update H (time_ok (ThreeDSChallenge_CreatedAt c)) Ht.
Qed.

(** ** What an operation answers *)

(** It succeeds, or fails with one of the given messages. *)
Definition fails_only {A} (es : list string) (r : result A) : Prop :=
  match r with Ok _ => True | Err e => e ∈ es end.
Definition answers {A} (P : A → Prop) (es : list string) (r : result A) : Prop :=
  match r with Ok a => P a | Err e => e ∈ es end.

Ltac key_of e :=
  lazymatch e with
  | userKey ?i => constr:(KUser i)
  | emailKey ?i => constr:(KEmail i)
  | customerKey ?i => constr:(KCustomer i)
  | customerSourceKey ?i => constr:(KCustomerSource i)
  | customerAccountsKey ?i => constr:(KCustomerAccounts i)
  | accountKey ?i => constr:(KAccount i)
  | customerCardsKey ?i => constr:(KCustomerCards i)
  | accountCardsKey ?i => constr:(KAccountCards i)
  | cardKey ?i => constr:(KCard i)
  | cardLimitsKey ?i => constr:(KCardLimits i)
  | customerAddressesKey ?i => constr:(KCustomerAddresses i)
  | customerAddressKey ?i => constr:(KCustomerAddress i)
  | cardTransactionKey ?i => constr:(KCardTransaction i)
  | cardTransactionsKey ?i => constr:(KCardTransactions i)
  | cardTransactionRawKey ?i => constr:(KCardTransactionRaw i)
  | cardTransactionSeqKey => constr:(KCardTransactionSeq)
  | userTransactionsKey ?i => constr:(KUserTransactions i)
  | cardPINKey ?i => constr:(KCardPIN i)
  | walletKey ?i => constr:(KWallet i)
  | userWalletsKey ?i => constr:(KUserWallets i)
  | txKey ?i => constr:(KTx i)
  | balanceKey ?u ?c => constr:(KBalance u c)
  | threeDSChallengeKey ?i => constr:(KThreeDSChallenge i)
  | userThreeDSChallengesKey ?i => constr:(KUserThreeDSChallenges i)
  | organizationKey ?i => constr:(KOrganization i)
  end.

Ltac is_text := intros ? Hv; first
  [exact Hv|exact (holds_holds_text _ _ _ Hv)|exact (holds_name_holds_text _ _ Hv)].

Section Rules.
Context {R : Type} `{!RedisClient R} `{!RedisLaws R} `{EnvText}.

Lemma safe_created (b : bool) t {B} (k : Z → prog (World R) B) Q :
  time_ok t = true → (∀ t, time_ok t = true → safe (k t) Q) →
  safe ((if b then time_Now else mret t) ≫= k) Q.
Proof.
  intros Ht Hk. apply (safe_bind _ _ (λ t, time_ok t = true)); [|done].
  destruct b; [apply safe_time|by apply safe_ret].
Qed.

Lemma safe_id (P : string → Prop) (b : bool) id {B} (k : string → prog (World R) B) Q :
  (∀ k, P (env_uuid k)) → (b = false → P id) → (∀ id, P id → safe (k id) Q) →
  safe ((if b then GenerateUUID else mret id) ≫= k) Q.
Proof.
  intros Hu Hid Hk. apply (safe_bind _ _ P); [|done].
  destruct b; [eapply safe_weaken; [apply safe_uuid|by intros ? [j ->]]|by apply safe_ret, Hid].
Qed.

(** A generated identifier has none of the reserved names. *)
Lemma uuid_not k s : String.length s ≠ 36%nat → (env_uuid k =?s s) = false.
Proof. intros Hs. apply str_eqb_ne. intros He. by rw -He uuid_long in Hs. Qed.
Lemma uuid_customer_name k : customer_name (env_uuid k) = true.
Proof. unfold customer_name. by rw uuid_plain !uuid_not. Qed.
End Rules.

Ltac safe_cmd :=
  lazymatch goal with
  | |- safe (exec ?what (rc_Set ?key ?d ?t) ?c) ?Q => let k := key_of key in apply (safe_set what Q k d t c)
  | |- safe (exec ?what (rc_Exists ?key) ?c) ?Q => apply (safe_exists what Q key c); intros ?
  | |- safe (exec ?what (rc_TTL ?key) ?c) ?Q => apply (safe_ttl what Q key c); intros ?
  | |- safe (exec ?what (rc_SAdd ?key ?m) ?c) ?Q =>
      let k := key_of key in apply (safe_sadd what Q k m c); [|done| |]
  | |- safe (exec ?what (rc_SMembers ?key) ?c) ?Q =>
      let k := key_of key in apply (safe_smembers what Q k c); [|done|intros ? ?]
  | |- safe (exec ?what (rc_LPush ?key ?m) ?c) ?Q =>
      let k := key_of key in apply (safe_lpush what Q k m c); [|done| |]
  | |- safe (exec ?what (rc_LRange ?key _ _) ?c) ?Q =>
      let k := key_of key in apply (safe_lrange what Q k c); [|done|intros ? ?]
  | |- safe (exec ?what (rc_ZAdd ?key ?s ?m) ?c) ?Q =>
      let k := key_of key in apply (safe_zadd what Q k s m c); [|done| |]
  | |- safe (exec ?what (rc_ZRangeByScore ?key ?lo ?hi) ?c) ?Q =>
      let k := key_of key in apply (safe_zrange what Q k lo hi c); [|done|intros ? ?]
  | |- safe (exec ?what (rc_ZRem ?key ?m) ?c) ?Q =>
      let k := key_of key in apply (safe_zrem what Q k m c); [|done|]
  | |- safe (fetch ?what ?missing ?key ?c) ?Q =>
      let k := key_of key in apply (safe_fetch what Q k missing c); [|is_text| |intros ? ?]
  end.

(** The rule for the head of a computation, and what it asks of names, times
    and texts where that is known. *)
Ltac good_of c :=
  lazymatch c with
  | c_User => constr:(good_User)
  | c_Customer => constr:(good_Customer)
  | c_Account => constr:(good_Account)
  | c_Card => constr:(good_Card)
  | c_CardTransaction => constr:(good_CardTransaction)
  | c_Transaction => constr:(good_Transaction)
  | c_ThreeDSChallenge => constr:(good_Challenge)
  | @mkCodec ?T _ _ _ _ _ => constr:(fun _ : T => true)
  | _ => let T := type of c in lazymatch T with codec ?X => constr:(fun _ : X => true) end
  end.

Ltac safe_step :=
  lazymatch goal with
  | |- safe (mret _) _ => apply safe_ret
  | |- safe (Errorf _) _ => apply safe_ret
  | |- safe nil_error _ => apply safe_ret
  | |- safe (deref _ ≫= _) _ =>
      eapply safe_bind; [apply safe_deref|let x := fresh "x" in let H := fresh "Hx" in intros x H]
  | |- safe (new _ ≫= _) _ => eapply safe_bind; [apply safe_new|intros ? _]
  | |- safe (update _ _ ≫= _) _ => eapply safe_bind; [apply safe_update|intros ? _]
  | |- safe (time_Now ≫= _) _ => eapply safe_bind; [apply safe_time|intros ? ?]
  | |- safe ((if _ then time_Now else _) ≫= _) _ => apply safe_created; [|intros ? ?]
  | |- safe (if ?b then _ else _) _ => destruct b eqn:?
  | |- safe (decode ?what ?c ?d ?k) ?Q =>
      let g := good_of c in apply (safe_decode what Q c g d k); [|intros ? ?]
  | |- safe (encode ?what ?c ?x ?k) ?Q =>
      let g := good_of c in apply (safe_encode what Q c g x k); [| |intros ? ?]
  | |- safe _ _ => safe_cmd
  end; cbn beta zeta.

Ltac answer := try apply safe_ret; cbn [fails_only answers]; first [done|set_solver].

(** ** What can be stored survives its storage *)
Lemma good_User_faithful u : good_User u = true → faithful c_User u.
Proof. unfold good_User. intros [[H _]%andb_true_iff _]%andb_true_iff. by apply User_faithful. Qed.
Lemma good_Customer_faithful c : good_Customer c = true → faithful c_Customer c.
Proof. unfold good_Customer. intros [[H _]%andb_true_iff _]%andb_true_iff. by apply Customer_faithful. Qed.
Lemma good_Account_faithful a : good_Account a = true → faithful c_Account a.
Proof. unfold good_Account. intros [[H _]%andb_true_iff _]%andb_true_iff. by apply Account_faithful. Qed.
Lemma good_Card_faithful c : good_Card c = true → faithful c_Card c.
Proof.
  unfold good_Card. intros [[[H _]%andb_true_iff _]%andb_true_iff _]%andb_true_iff.
  by apply Card_faithful.
Qed.
Lemma good_CardTransaction_faithful t : good_CardTransaction t = true → faithful c_CardTransaction t.
Proof. unfold good_CardTransaction. intros [H _]%andb_true_iff. by apply CardTransaction_faithful. Qed.
Lemma good_Transaction_faithful t : good_Transaction t = true → faithful c_Transaction t.
Proof. unfold good_Transaction. intros [[H _]%andb_true_iff _]%andb_true_iff. by apply Transaction_faithful. Qed.
Lemma good_Challenge_faithful c : good_Challenge c = true → faithful c_ThreeDSChallenge c.
Proof. unfold good_Challenge. intros [[H _]%andb_true_iff _]%andb_true_iff. by apply ThreeDSChallenge_faithful. Qed.

Lemma holds_name_intro g name : g name = true → holds_name g (RString name).
Proof. by exists name. Qed.
Lemma holds_text_intro t : holds_text (RString t).
Proof. by exists t. Qed.

#[export] Hint Resolve good_User_faithful good_Customer_faithful good_Account_faithful
  good_Card_faithful good_CardTransaction_faithful good_Transaction_faithful good_Challenge_faithful
  holds_name_intro holds_text_intro : safe.
#[export] Hint Extern 1 (content _ _) => cbn [content] : safe.

(** An assignment to a field keeps the object one that can be stored. *)
Ltac good_update :=
  intros ? ?;
  lazymatch goal with
  | |- context [upd User_ID] => apply user_set_id
  | |- context [upd User_CreatedAt] => apply user_set_created
  | |- context [upd Customer_ID] => apply customer_set_id
  | |- context [upd Customer_CreatedAt] => apply customer_set_created
  | |- context [upd Account_ID] => apply account_set_id
  | |- context [upd Account_CreatedAt] => apply account_set_created
  | |- context [upd Card_ID] => apply card_set_id
  | |- context [upd Card_CreatedAt] => apply card_set_created
  | |- context [upd CardTransaction_TxStatus] => apply cardtx_set_status
  | |- context [upd Transaction_ID] => apply tx_set_id
  | |- context [upd Transaction_CreatedAt] => apply tx_set_created
  | |- context [upd Transaction_Status] => apply tx_set_status
  | |- context [upd ThreeDSChallenge_CreatedAt] => apply challenge_set_created
  end; assumption.

Ltac side :=
  lazymatch goal with
  | |- safe _ _ => fail
  | |- fails_only _ _ => answer
  | |- answers _ _ _ => answer
  | |- ∀ _, _ → _ => good_update
  | |- _ => solve [eassumption|done|eauto 5 with safe]
  end.
Ltac safe_go := repeat first [side|safe_step].

Section Operations.
Context {R : Type} `{!RedisClient R} `{!RedisLaws R} `{EnvText}.

Definition name_ok (id : string) : Prop := utf8 id = true ∧ plain id = true.
Lemma uuid_name_ok k : name_ok (env_uuid k).
Proof. split; [apply uuid_utf8|apply uuid_plain]. Qed.
Definition customer_ok (id : string) : Prop := utf8 id = true ∧ customer_name id = true.
Lemma uuid_customer_ok k : customer_ok (env_uuid k).
Proof. split; [apply uuid_utf8|apply uuid_customer_name]. Qed.

(** ** Users *)
Lemma CreateUser_safe p :
  safe (CreateUser p) (fails_only ["email is required"; "user already exists"]).
Proof.
  unfold CreateUser. do 2 safe_step; [answer|]. destruct (user_fields x Hx) as (? & ? & ? & ?).
  apply (safe_id name_ok); [apply uuid_name_ok|done|intros id [? ?]].
  safe_step; [side|]. safe_step; [done|]. safe_step; [side|]. do 2 safe_step; [answer|]. safe_step.
  destruct (user_fields x0 Hx0) as (? & ? & ? & ?). safe_go.
Qed.

Lemma GetUser_safe id : plain id = true → safe (GetUser id) (fails_only ["user not found"]).
Proof. intros Hid. unfold GetUser. safe_go. Qed.

Lemma GetUserByEmail_safe email :
  plain email = true → safe (GetUserByEmail email) (fails_only ["user not found"]).
Proof.
  intros He. unfold GetUserByEmail. safe_step; [side|answer|].
  match goal with H : content _ (RString _) |- _ => destruct H as (id & [= <-] & Hid) end.
  by apply GetUser_safe.
Qed.

Lemma UpdateUser_safe p :
  safe (UpdateUser p) (fails_only ["user ID is required"; "user not found"]).
Proof.
  unfold UpdateUser. safe_step. destruct (user_fields x Hx) as (? & ? & ? & ?). safe_go.
Qed.

(** ** Card customers *)
Lemma no_id_value id : no_id id = false → id = Some (id_value id).
Proof. by destruct id. Qed.

Lemma CreateCustomer_safe p : safe (CreateCustomer p) (fails_only ["sourceId is required"]).
Proof.
  unfold CreateCustomer. safe_step. destruct (customer_fields x Hx) as (Hu & ? & ? & ?).
  apply (safe_id customer_ok); [apply uuid_customer_ok| |intros id [? ?]].
  { intros Hid. rw (no_id_value _ Hid) in Hu. by split. }
  safe_step; [side|]. safe_step; [answer|]. safe_step; [done|]. safe_step; [side|]. safe_step.
  destruct (customer_fields x0 Hx0) as (? & ? & ? & ?). safe_go.
Qed.

Lemma GetCustomer_safe id :
  customer_name id = true → safe (GetCustomer id) (fails_only ["customer not found"]).
Proof. intros Hid. unfold GetCustomer. safe_go. Qed.

Lemma GetCustomerBySourceID_safe sourceID :
  plain sourceID = true → safe (GetCustomerBySourceID sourceID) (fails_only ["customer not found"]).
Proof.
  intros Hs. unfold GetCustomerBySourceID. safe_step; [side|answer|].
  match goal with H : content _ (RString _) |- _ => destruct H as (id & [= <-] & Hid) end.
  by apply GetCustomer_safe.
Qed.

Lemma UpdateCustomer_safe p : safe (UpdateCustomer p) (fails_only ["customer ID is required"]).
Proof.
  unfold UpdateCustomer. safe_step. destruct (customer_fields x Hx) as (? & ? & ? & ?). safe_go.
Qed.

(** ** Card accounts *)
Lemma CreateAccount_safe p : safe (CreateAccount p) (fails_only []).
Proof.
  unfold CreateAccount. safe_step. destruct (account_fields x Hx) as (Hu & ? & ? & ?).
  apply (safe_id name_ok); [apply uuid_name_ok| |intros id [? ?]].
  { intros Hid. rw (no_id_value _ Hid) in Hu. by split. }
  safe_step; [side|]. safe_step; [done|]. safe_step; [side|]. safe_step.
  destruct (account_fields x0 Hx0) as (? & ? & Hc & ?). safe_step; [side..|]. safe_step; [side..|].
  destruct (Account_CustomerID x0) as [customerID|]; cbn [id_value default] in Hc; safe_go.
Qed.

Lemma GetAccount_safe id : plain id = true → safe (GetAccount id) (fails_only ["account not found"]).
Proof. intros Hid. unfold GetAccount. safe_go. Qed.

Lemma UpdateAccount_safe p : safe (UpdateAccount p) (fails_only ["account ID is required"]).
Proof.
  unfold UpdateAccount. safe_step. destruct (account_fields x Hx) as (? & ? & ? & ?). safe_go.
Qed.

(** ** Delivery addresses *)
Lemma safe_get_any key : safe (cmd (rc_Get key)) (λ _, True).
Proof. intros w Hw. by rw run_get. Qed.

Lemma address_set_id id a :
  utf8 id = true → codec_ok c_CustomerDeliveryAddress a = true →
  codec_ok c_CustomerDeliveryAddress (a <| CustomerDeliveryAddress_ID := id |>) = true.
Proof.
  intros Hu H1. unfold c_CustomerDeliveryAddress in *.
  codec_update H1 (utf8 (CustomerDeliveryAddress_ID a)) Hu.
Qed.
Lemma address_id_utf8 a :
  codec_ok c_CustomerDeliveryAddress a = true → utf8 (CustomerDeliveryAddress_ID a) = true.
Proof. intros H1. unfold c_CustomerDeliveryAddress in *. codec_field H1. Qed.

Lemma CreateCustomerAddress_safe customerID a :
  customer_name customerID = true → codec_ok c_CustomerDeliveryAddress a = true →
  plain (CustomerDeliveryAddress_ID a) = true →
  safe (CreateCustomerAddress customerID a) (fails_only ["customer ID is required"]).
Proof.
  intros Hc Ha Hp. unfold CreateCustomerAddress. safe_step; [answer|].
  apply (safe_id name_ok); [apply uuid_name_ok|by split; [apply address_id_utf8|]|intros id [? ?]].
  cbn zeta. safe_step; [by apply CustomerDeliveryAddress_faithful, address_set_id|done|]. safe_go.
Qed.

Lemma GetCustomerAddresses_safe customerID :
  customer_name customerID = true → safe (GetCustomerAddresses customerID) (fails_only []).
Proof.
  intros Hc. unfold GetCustomerAddresses. safe_step; [side|].
  eapply safe_bind; [eapply (safe_collect _ _ _ (λ _, True)); [eassumption|]|intros; answer].
  intros id _. unfold read_address. eapply safe_bind; [apply safe_get_any|]. intros; by apply safe_ret.
Qed.

(** ** Cards *)
Lemma CreateCard_safe p : safe (CreateCard p) (fails_only []).
Proof.
  unfold CreateCard. safe_step. destruct (card_fields x Hx) as (? & ? & ? & ? & ?).
  apply (safe_id name_ok); [apply uuid_name_ok|done|intros id [? ?]].
  safe_step; [side|]. safe_step; [done|]. safe_step; [side|]. safe_step.
  destruct (card_fields x0 Hx0) as (? & ? & ? & ? & ?). safe_go.
Qed.

Lemma GetCard_safe id : plain id = true → safe (GetCard id) (fails_only ["card not found"]).
Proof. intros Hid. unfold GetCard. safe_go. Qed.

Lemma UpdateCard_safe p : safe (UpdateCard p) (fails_only ["card ID is required"]).
Proof.
  unfold UpdateCard. safe_step. destruct (card_fields x Hx) as (? & ? & ? & ? & ?). safe_go.
Qed.

(** Collecting the objects of an index. *)
Lemma safe_found {A} (get : string → prog (World R) (result A)) es l :
  Forall (λ x, plain x = true) l → (∀ id, plain id = true → safe (get id) (fails_only es)) →
  safe (collect (found get) l) (λ _, True).
Proof.
  intros Hl Hget. eapply safe_weaken; [eapply (safe_collect _ _ _ (λ _, True)); [exact Hl|]|done].
  intros id Hid. unfold found. eapply safe_bind; [by apply Hget|]. intros; by apply safe_ret.
Qed.

Lemma GetCardsByCustomer_safe id :
  customer_name id = true → safe (GetCardsByCustomer id) (fails_only []).
Proof.
  intros Hid. unfold GetCardsByCustomer. safe_step; [side|].
  eapply safe_bind; [eapply safe_found; [eassumption|apply GetCard_safe]|intros; answer].
Qed.

Lemma GetCardsByAccount_safe id : plain id = true → safe (GetCardsByAccount id) (fails_only []).
Proof.
  intros Hid. unfold GetCardsByAccount. safe_step; [side|].
  eapply safe_bind; [eapply safe_found; [eassumption|apply GetCard_safe]|intros; answer].
Qed.

Lemma GetCardLimits_safe id : plain id = true → safe (GetCardLimits id) (fails_only []).
Proof. intros Hid. unfold GetCardLimits. safe_go. Qed.

Lemma CardLimits_faithful l : codec_ok c_CardLimits l = true → faithful c_CardLimits l.
Proof.
  intros Hl. apply (lawful_faithful 2); [|done|exact Hl].
  change 2 with (1 + 1). apply slice_lawful; [apply CardLimit_lawful|done].
Qed.

Lemma SetCardLimits_safe id l :
  plain id = true → codec_ok c_CardLimits l = true → safe (SetCardLimits id l) (fails_only []).
Proof.
  intros Hid Hl. unfold SetCardLimits. safe_step; [by apply CardLimits_faithful|done|]. safe_go.
Qed.

(** ** Card transactions *)
Lemma CreateCardTransaction_safe p :
  safe (CreateCardTransaction p) (fails_only ["transactionId is required"]).
Proof.
  unfold CreateCardTransaction. safe_step.
  assert (card_tx_name (CardTransaction_TransactionID x) = true).
  { change (good_CardTransaction x = true) in Hx. unfold good_CardTransaction in Hx.
    by apply andb_true_iff in Hx as [_ ?]. }
  safe_go.
Qed.

Lemma GetCardTransaction_safe id :
  card_tx_name id = true → safe (GetCardTransaction id) (fails_only ["card transaction not found"]).
Proof. intros Hid. unfold GetCardTransaction. safe_go. Qed.

Lemma StoreRawCardTransaction_safe id data :
  plain id = true → safe (StoreRawCardTransaction id data) (fails_only ["txID is required"]).
Proof. intros Hid. unfold StoreRawCardTransaction. safe_go. Qed.

Lemma GetRawCardTransaction_safe id :
  plain id = true →
  safe (GetRawCardTransaction id) (fails_only ["raw card transaction not found"; json_error]).
Proof.
  intros Hid. unfold GetRawCardTransaction. safe_step; [side|answer|].
  destruct (parse_json _); answer.
Qed.

Lemma set_raw_status_safe raw status :
  safe (R := R) (set_raw_status raw status) (λ _, True).
Proof.
  unfold set_raw_status. destruct (as_interface raw); first [by apply safe_ret|by apply safe_panic].
Qed.

Lemma UpdateCardTransactionStatus_safe id status :
  card_tx_name id = true → utf8 status = true →
  safe (UpdateCardTransactionStatus id status) (fails_only ["card transaction not found"]).
Proof.
  intros Hid Hs. pose proof (card_tx_name_plain _ Hid) as Hp. unfold UpdateCardTransactionStatus.
  eapply safe_bind; [by apply GetCardTransaction_safe|]. intros [p|e] He; [|by apply safe_ret].
  safe_step; [side|]. safe_step. safe_step; [side..|]. safe_step; [side..|].
  eapply safe_bind; [by apply GetRawCardTransaction_safe|]. intros [raw|e'] _; [|answer].
  eapply safe_bind; [apply set_raw_status_safe|]. intros [raw'|] _; [|answer].
  eapply safe_bind; [by apply StoreRawCardTransaction_safe|]. intros; answer.
Qed.

Lemma SetCardPIN_safe id pin :
  plain id = true → safe (SetCardPIN id pin) (fails_only ["cardID is required"; "card not found"]).
Proof.
  intros Hid. unfold SetCardPIN. safe_step; [answer|].
  eapply safe_bind; [by apply GetCard_safe|]. intros [p|e] He; [|apply safe_ret; cbn in *; set_solver].
  safe_go.
Qed.

Lemma GetCardPIN_safe id : plain id = true → safe (GetCardPIN id) (fails_only ["card pin not set"]).
Proof. intros Hid. unfold GetCardPIN. safe_go. Qed.

Lemma NextCardTransactionSeqID_safe : safe (R := R) NextCardTransactionSeqID (λ _, True).
Proof.
  unfold NextCardTransactionSeqID.
  apply (safe_incr _ _ KCardTransactionSeq); [done|done|intros; by apply safe_ret|done|done].
Qed.

Lemma PeekCardTransactionSeqID_safe : safe (R := R) PeekCardTransactionSeqID (λ _, True).
Proof.
  unfold PeekCardTransactionSeqID. safe_step; [done|by apply safe_ret|].
  destruct (Atoi _); by apply safe_ret.
Qed.

Lemma AddCardTransactionIndex_safe id txID :
  plain id = true → plain txID = true →
  safe (AddCardTransactionIndex id txID) (fails_only ["cardID and transactionID are required"]).
Proof. intros Hid Htx. unfold AddCardTransactionIndex. safe_go. Qed.

Lemma GetCardTransactionIDs_safe id :
  plain id = true → safe (GetCardTransactionIDs id) (answers (Forall (λ x, plain x = true)) []).
Proof. intros Hid. unfold GetCardTransactionIDs. safe_go. Qed.

(** ** Wallets *)
Lemma wallet_set_created t w :
  time_ok t = true → codec_ok c_Wallet w = true →
  codec_ok c_Wallet (w <| Wallet_CreatedAt := t |>) = true.
Proof.
  intros Ht H1. unfold c_Wallet in *. codec_update H1 (time_ok (Wallet_CreatedAt w)) Ht.
Qed.

Lemma CreateWallet_safe w :
  codec_ok c_Wallet w = true → plain (Wallet_Address w) = true → plain (Wallet_UserID w) = true →
  safe (CreateWallet w) (fails_only ["wallet address is required"]).
Proof.
  intros Hw Ha Hu. unfold CreateWallet. safe_step; [answer|]. safe_step.
  safe_step; [by apply Wallet_faithful, wallet_set_created|done|]. safe_go.
Qed.

Lemma GetWallet_safe address :
  plain address = true → safe (GetWallet address) (fails_only ["wallet not found"]).
Proof. intros Ha. unfold GetWallet. safe_go. Qed.

Lemma GetWalletsByUser_safe userID : plain userID = true → safe (GetWalletsByUser userID) (fails_only []).
Proof.
  intros Hid. unfold GetWalletsByUser. safe_step; [side|].
  eapply safe_bind; [eapply safe_found; [eassumption|apply GetWallet_safe]|intros; answer].
Qed.

(** ** Transactions *)
Lemma CreateTransaction_safe p : safe (CreateTransaction p) (fails_only []).
Proof.
  unfold CreateTransaction. safe_step. destruct (tx_fields x Hx) as (? & ? & ?).
  apply (safe_id name_ok); [apply uuid_name_ok|done|intros id [? ?]].
  safe_step; [side|]. safe_step. safe_step; [side|]. safe_step.
  destruct (tx_fields x0 Hx0) as (? & ? & ?). safe_go.
Qed.

Lemma GetTransaction_safe id :
  plain id = true → safe (GetTransaction id) (fails_only ["transaction not found"]).
Proof. intros Hid. unfold GetTransaction. safe_go. Qed.

Lemma safe_deref_all {T} `{!Cell T, !GoodCell T} l :
  safe (R := R) (deref_all (T := T) l) (λ _, True).
Proof.
  eapply safe_weaken; [|done]. unfold deref_all.
  apply (safe_collect _ _ (λ _, True) (λ _, True)); [by apply Forall_true|]. intros p _.
  eapply safe_bind; [apply safe_deref|]. intros; by apply safe_ret.
Qed.

Lemma ListTransactionsByUser_safe userID :
  plain userID = true → safe (ListTransactionsByUser userID) (fails_only []).
Proof.
  intros Hid. unfold ListTransactionsByUser.
  eapply (safe_bind _ _ (λ r, ∃ l, r = Reply l ∧ Forall (λ x, plain x = true) l)).
  - intros w Hw. destruct (list_content w (KUserTransactions userID) Hw) as (l & Hl & Hpl);
      [by apply proper_KUserTransactions|done|].
    rw (run_read _ _ _ (law_LRange _ _ _ Hl)). split; [by exists l|done].
  - intros r (l & -> & Hl). eapply safe_bind; [eapply safe_found; [exact Hl|apply GetTransaction_safe]|].
    intros found_txs _. eapply safe_bind; [apply safe_deref_all|]. intros; answer.
Qed.

Lemma UpdateTransactionStatus_safe id status :
  plain id = true → in_int64 status = true →
  safe (UpdateTransactionStatus id status) (fails_only ["transaction not found"]).
Proof.
  intros Hid Hs. unfold UpdateTransactionStatus.
  eapply safe_bind; [by apply GetTransaction_safe|]. intros [p|e] He; [|by apply safe_ret].
  safe_step; [side|]. safe_step. safe_go.
Qed.

(** ** Balances *)
Lemma GetBalance_safe u c : plain u = true → plain c = true → safe (GetBalance u c) (λ _, True).
Proof.
  intros Hu Hc. unfold GetBalance. safe_step; [side|by apply safe_ret|].
  destruct (ParseFloat _); by apply safe_ret.
Qed.

Lemma AddBalance_safe u c a : plain u = true → plain c = true → safe (AddBalance u c a) (λ _, True).
Proof.
  intros Hu Hc. unfold AddBalance.
  apply (safe_incr_float _ _ (KBalance u c)); [side|done|intros; by apply safe_ret|done].
Qed.

Lemma DeductBalance_safe u c a :
  plain u = true → plain c = true → safe (DeductBalance u c a) (λ _, True).
Proof. apply AddBalance_safe. Qed.

(** ** Scans *)
Lemma safe_each {A} (body : string → A → prog (World R) A) keys acc (P : string → Prop) (Q : A → Prop) :
  Forall P keys → (∀ key acc, P key → Q acc → safe (body key acc) Q) → Q acc →
  safe (each_key body keys acc) Q.
Proof.
  intros Hkeys Hb. revert acc. induction Hkeys as [|key keys Hk _ IH]; intros acc Hacc; cbn [each_key].
  - by apply safe_ret.
  - eapply safe_bind; [by apply Hb|]. intros acc' Hacc'. by apply IH.
Qed.

Lemma safe_scan {A} what pre (body : string → A → prog (World R) A) acc (Q : A → Prop) :
  glob_literal pre = true →
  (∀ key acc, String.prefix pre key = true → Q acc → safe (body key acc) Q) → Q acc →
  safe (scan_all what (pre +:+ "*") body acc) (answers Q []).
Proof.
  intros Hpre Hb Hacc. unfold scan_all. eapply safe_bind; [apply safe_gets|]. intros r _.
  generalize 0 as c. revert acc Hacc.
  induction (rc_rounds r (pre +:+ "*")) as [|rounds IH]; intros acc Hacc c; cbn [scan_loop];
    [apply safe_panic|].
  apply (safe_exec_read _ _ _ _ (λ kn, Forall (λ k, String.prefix pre k = true) kn.1)).
  - intros w Hw. destruct (law_Scan c (pre +:+ "*") 100 (w_store w)) as (keys & next & Hr & _ & _ & Hin).
    exists (keys, next). split; [done|]. apply Forall_forall. intros k Hk. by eapply Hin.
  - intros [keys next] Hkeys. eapply safe_bind; [by eapply safe_each|]. intros acc' Hacc'.
    destruct (next =? 0); [by apply safe_ret|]. by apply IH.
Qed.

Lemma GetAllBalances_safe userID :
  glob_literal (balanceKey userID "") = true → safe (GetAllBalances userID) (fails_only []).
Proof.
  intros Hg. unfold GetAllBalances. rw (balanceKey_star userID "*").
  apply (safe_scan _ _ _ _ (λ _, True)); [done| |done]. intros key acc _ _. unfold read_balance.
  eapply safe_bind; [apply safe_get_any|]. intros; by apply safe_ret.
Qed.

(** A key of the user namespace with one colon is a user's. *)
Lemma count_colons_app a b : (count_colons (a +:+ b) = count_colons a + count_colons b)%nat.
Proof. unfold count_colons. by rw chars_app filter_app length_app. Qed.

Lemma count_colons_plain s : count_colons s = 0%nat → plain s = true.
Proof.
  unfold count_colons, plain, without. induction (chars s) as [|c l IH]; [done|]. rw filter_cons.
  cbn [existsb]. destruct (is_char ":" c); [done|]. exact IH.
Qed.

Lemma prefix_split a s : String.prefix a s = true → ∃ r, s = a +:+ r.
Proof.
  revert s. induction a as [|c a IH]; intros s; [by exists s|]. destruct s as [|d s]; [done|].
  cbn [String.prefix]. destruct (ascii_dec c d) as [<-|]; [|done]. intros [r ->]%IH. by exists r.
Qed.

Lemma user_key_plain key :
  String.prefix "user:" key = true → count_colons key = 1%nat →
  ∃ id, key = userKey id ∧ plain id = true.
Proof.
  intros [id ->]%prefix_split. rw count_colons_app. change (count_colons "user:") with 1%nat.
  intros Hc. exists id. split; [done|]. apply count_colons_plain. lia.
Qed.

Lemma read_user_safe key acc :
  String.prefix "user:" key = true → safe (read_user key acc) (λ _, True).
Proof.
  intros Hp. unfold read_user. destruct (Nat.eqb_spec (count_colons key) 1) as [Hc|]; cbn [negb];
    [|by apply safe_ret].
  destruct (user_key_plain key Hp Hc) as (id & -> & Hid).
  eapply (safe_bind _ _ (λ r, ∀ data, r = Reply data → content (KUser id) (RString data))).
  - intros w Hw. rw run_get. split; [|done]. intros data Hdata. apply (proj1 Hw).
    + by apply proper_KUser.
    + change (render (KUser id)) with (userKey id).
      by destruct (keys_of w !! userKey id) as [[]|]; cbn in Hdata; simplify_eq.
  - intros [data| |e] Hd; [|by apply safe_ret..].
    destruct (Hd data eq_refl) as (t & u & [= <-] & Hu & Hgood). rw Hu.
    eapply safe_bind; [by apply safe_new|]. intros; by apply safe_ret.
Qed.

Lemma ListUsers_safe : safe (R := R) ListUsers (fails_only []).
Proof.
  unfold ListUsers. eapply safe_bind.
  - apply (safe_scan _ "user:" read_user [] (λ _, True)); [done| |done]. intros; by apply read_user_safe.
  - intros [out|e] He; [answer|]. by apply not_elem_of_nil in He.
Qed.

(** ** 3DS challenges *)
Lemma CreateThreeDSChallenge_safe p :
  safe (CreateThreeDSChallenge p)
    (fails_only ["transaction ID is required"; "3DS challenge timeout is in the past"]).
Proof.
  unfold CreateThreeDSChallenge. safe_step. destruct (challenge_fields x Hx) as (? & ? & ?).
  safe_step; [answer|]. safe_step; [done|]. safe_step; [side|]. safe_step.
  destruct (challenge_fields x0 Hx0) as (? & ? & ?). safe_go.
Qed.

Lemma GetThreeDSChallenge_safe id :
  plain id = true → safe (GetThreeDSChallenge id) (fails_only ["3DS challenge not found"]).
Proof. intros Hid. unfold GetThreeDSChallenge. safe_go. Qed.

Lemma GetPendingThreeDSChallenges_safe userID :
  plain userID = true → safe (GetPendingThreeDSChallenges userID) (fails_only []).
Proof.
  intros Hid. unfold GetPendingThreeDSChallenges. safe_step. safe_step; [side|].
  eapply safe_bind; [eapply (safe_collect _ _ _ (λ _, True)); [eassumption|]|intros; answer].
  intros id Hp. unfold pending_challenge.
  eapply safe_bind; [by apply GetThreeDSChallenge_safe|]. intros [c|e] _; [|by apply safe_ret].
  safe_step. by apply safe_ret.
Qed.

Lemma UpdateThreeDSChallenge_safe p :
  safe (UpdateThreeDSChallenge p) (fails_only ["3DS challenge not found"]).
Proof.
  unfold UpdateThreeDSChallenge. safe_step. destruct (challenge_fields x Hx) as (? & ? & ?). safe_go.
Qed.

(** ** Organizations *)
Lemma safe_set_raw_error {A} k data (value : A) es :
  proper k = true → content k (RString data) → safe (set_raw_error (render k) data value) (fails_only es).
Proof.
  intros Hk Hc w Hw. unfold set_raw_error.
  destruct (law_Set (render k) data 0 (w_store w)) as (r' & Hr & Hk').
  rw run_bind (run_cmd _ _ _ _ Hr). split; [done|]. apply ok_with_store; [done|]. rw Hk'.
  apply well_typed_insert; [apply Hw|done..].
Qed.

Lemma GetOrganization_safe id :
  plain id = true → safe (GetOrganization id) (fails_only ["organization not found"]).
Proof. intros Hid. unfold GetOrganization. safe_go. Qed.

Lemma CreateOrganization_safe org :
  codec_ok c_Organization org = true → plain (Organization_ID org) = true →
  safe (CreateOrganization org) (fails_only ["organization already exists"]).
Proof.
  intros Ho Hid. unfold CreateOrganization. safe_step. safe_step; [answer|].
  safe_step; [by apply Organization_faithful|done|].
  apply (safe_set_raw_error (KOrganization (Organization_ID org))); side.
Qed.

Lemma organization_set_updated t o :
  time_ok t = true → codec_ok c_Organization o = true →
  codec_ok c_Organization (o <| Organization_UpdatedAt := t |>) = true.
Proof.
  intros Ht H1. unfold c_Organization in *. codec_update H1 (time_ok (Organization_UpdatedAt o)) Ht.
Qed.

Lemma UpdateOrganization_safe org :
  codec_ok c_Organization org = true → plain (Organization_ID org) = true →
  safe (UpdateOrganization org) (fails_only ["organization not found"]).
Proof.
  intros Ho Hid. unfold UpdateOrganization. safe_step. safe_step; [answer|]. safe_step.
  safe_step; [by apply Organization_faithful, organization_set_updated|done|].
  apply (safe_set_raw_error (KOrganization (Organization_ID org))); side.
Qed.
End Operations.

(** ** The storage interface, typed *)

(** Every method of a storage keeps the invariant [ok] when it is
    called with names it can be called with. *)
Record TypedStorage {R : Type} `{!RedisClient R} `{!RedisLaws R} `{EnvText} : Prop := {
  t_CreateUser p :
    safe (R := R) (Storage.CreateUser p) (fails_only ["email is required"; "user already exists"]);
  t_GetUser id : plain id = true →
    safe (R := R) (Storage.GetUser id) (fails_only ["user not found"]);
  t_GetUserByEmail e : plain e = true →
    safe (R := R) (Storage.GetUserByEmail e) (fails_only ["user not found"]);
  t_UpdateUser p :
    safe (R := R) (Storage.UpdateUser p) (fails_only ["user ID is required"; "user not found"]);
  t_ListUsers : safe (R := R) Storage.ListUsers (fails_only []);
  t_CreateCustomer p : safe (R := R) (Storage.CreateCustomer p) (fails_only ["sourceId is required"]);
  t_GetCustomer id : customer_name id = true →
    safe (R := R) (Storage.GetCustomer id) (fails_only ["customer not found"]);
  t_GetCustomerBySourceID s : plain s = true →
    safe (R := R) (Storage.GetCustomerBySourceID s) (fails_only ["customer not found"]);
  t_UpdateCustomer p :
    safe (R := R) (Storage.UpdateCustomer p) (fails_only ["customer ID is required"]);
  t_CreateAccount p : safe (R := R) (Storage.CreateAccount p) (fails_only []);
  t_GetAccount id : plain id = true →
    safe (R := R) (Storage.GetAccount id) (fails_only ["account not found"]);
  t_UpdateAccount p :
    safe (R := R) (Storage.UpdateAccount p) (fails_only ["account ID is required"]);
  t_CreateCustomerAddress id a :
    customer_name id = true → codec_ok c_CustomerDeliveryAddress a = true →
    plain (CustomerDeliveryAddress_ID a) = true →
    safe (R := R) (Storage.CreateCustomerAddress id a) (fails_only ["customer ID is required"]);
  t_GetCustomerAddresses id : customer_name id = true →
    safe (R := R) (Storage.GetCustomerAddresses id) (fails_only []);
  t_CreateCard p : safe (R := R) (Storage.CreateCard p) (fails_only []);
  t_GetCard id : plain id = true →
    safe (R := R) (Storage.GetCard id) (fails_only ["card not found"]);
  t_UpdateCard p : safe (R := R) (Storage.UpdateCard p) (fails_only ["card ID is required"]);
  t_GetCardsByCustomer id : customer_name id = true →
    safe (R := R) (Storage.GetCardsByCustomer id) (fails_only []);
  t_GetCardsByAccount id : plain id = true →
    safe (R := R) (Storage.GetCardsByAccount id) (fails_only []);
  t_GetCardLimits id : plain id = true → safe (R := R) (Storage.GetCardLimits id) (fails_only []);
  t_SetCardLimits id l : plain id = true → codec_ok c_CardLimits l = true →
    safe (R := R) (Storage.SetCardLimits id l) (fails_only []);
  t_CreateCardTransaction p :
    safe (R := R) (Storage.CreateCardTransaction p) (fails_only ["transactionId is required"]);
  t_GetCardTransaction id : card_tx_name id = true →
    safe (R := R) (Storage.GetCardTransaction id) (fails_only ["card transaction not found"]);
  t_UpdateCardTransactionStatus id st : card_tx_name id = true → utf8 st = true →
    safe (R := R) (Storage.UpdateCardTransactionStatus id st)
      (fails_only ["card transaction not found"]);
  t_AddCardTransactionIndex id tx : plain id = true → plain tx = true →
    safe (R := R) (Storage.AddCardTransactionIndex id tx)
      (fails_only ["cardID and transactionID are required"]);
  t_GetCardTransactionIDs id : plain id = true →
    safe (R := R) (Storage.GetCardTransactionIDs id) (answers (Forall (λ x, plain x = true)) []);
  t_StoreRawCardTransaction id data : plain id = true →
    safe (R := R) (Storage.StoreRawCardTransaction id data) (fails_only ["txID is required"]);
  t_GetRawCardTransaction id : plain id = true →
    safe (R := R) (Storage.GetRawCardTransaction id)
      (fails_only ["raw card transaction not found"; json_error]);
  t_SetCardPIN id pin : plain id = true →
    safe (R := R) (Storage.SetCardPIN id pin) (fails_only ["cardID is required"; "card not found"]);
  t_GetCardPIN id : plain id = true →
    safe (R := R) (Storage.GetCardPIN id) (fails_only ["card pin not set"]);
  t_NextCardTransactionSeqID : safe (R := R) Storage.NextCardTransactionSeqID (λ _, True);
  t_PeekCardTransactionSeqID : safe (R := R) Storage.PeekCardTransactionSeqID (λ _, True);
  t_CreateWallet w :
    codec_ok c_Wallet w = true → plain (Wallet_Address w) = true → plain (Wallet_UserID w) = true →
    safe (R := R) (Storage.CreateWallet w) (fails_only ["wallet address is required"]);
  t_GetWallet a : plain a = true →
    safe (R := R) (Storage.GetWallet a) (fails_only ["wallet not found"]);
  t_GetWalletsByUser u : plain u = true →
    safe (R := R) (Storage.GetWalletsByUser u) (fails_only []);
  t_CreateTransaction p : safe (R := R) (Storage.CreateTransaction p) (fails_only []);
  t_GetTransaction id : plain id = true →
    safe (R := R) (Storage.GetTransaction id) (fails_only ["transaction not found"]);
  t_UpdateTransactionStatus id st : plain id = true → in_int64 st = true →
    safe (R := R) (Storage.UpdateTransactionStatus id st) (fails_only ["transaction not found"]);
  t_ListTransactionsByUser u : plain u = true →
    safe (R := R) (Storage.ListTransactionsByUser u) (fails_only []);
  t_GetBalance u c : plain u = true → plain c = true →
    safe (R := R) (Storage.GetBalance u c) (λ _, True);
  t_GetAllBalances u : glob_literal (balanceKey u "") = true →
    safe (R := R) (Storage.GetAllBalances u) (fails_only []);
  t_AddBalance u c a : plain u = true → plain c = true →
    safe (R := R) (Storage.AddBalance u c a) (λ _, True);
  t_DeductBalance u c a : plain u = true → plain c = true →
    safe (R := R) (Storage.DeductBalance u c a) (λ _, True);
  t_CreateThreeDSChallenge p :
    safe (R := R) (Storage.CreateThreeDSChallenge p)
      (fails_only ["transaction ID is required"; "3DS challenge timeout is in the past"]);
  t_GetThreeDSChallenge id : plain id = true →
    safe (R := R) (Storage.GetThreeDSChallenge id) (fails_only ["3DS challenge not found"]);
  t_GetPendingThreeDSChallenges u : plain u = true →
    safe (R := R) (Storage.GetPendingThreeDSChallenges u) (fails_only []);
  t_UpdateThreeDSChallenge p :
    safe (R := R) (Storage.UpdateThreeDSChallenge p) (fails_only ["3DS challenge not found"]);
  t_GetOrganization id : plain id = true →
    safe (R := R) (Storage.GetOrganization id) (fails_only ["organization not found"]);
  t_CreateOrganization o : codec_ok c_Organization o = true → plain (Organization_ID o) = true →
    safe (R := R) (Storage.CreateOrganization o) (fails_only ["organization already exists"]);
  t_UpdateOrganization o : codec_ok c_Organization o = true → plain (Organization_ID o) = true →
    safe (R := R) (Storage.UpdateOrganization o) (fails_only ["organization not found"]) }.
Arguments TypedStorage R {_ _ _ _}.


(** ** An environment that keeps [EnvText] *)
Definition text_env : Env := {|
  env_now _ := 1768920404 * second_ns;
  env_uuid := demo_uuid;
  env_rand k n := Some (repeat (Z.of_nat k mod 256) n);
  env_int k m := None;
  env_order A k l := l;
  env_http k r := HttpFailed "offline" |}.

Lemma demo_uuid_chars k :
  ∃ bits, demo_uuid k = of_chars (chars "00000000-0000-0000-0000-" ++ bits)
    ∧ length bits = 12%nat ∧ Forall (λ c, c = "0"%char ∨ c = "1"%char) bits.
Proof.
  unfold demo_uuid. eexists. split; [reflexivity|]. split; [done|].
  apply Forall_forall. intros c (i & -> & _)%list_elem_of_fmap. destruct (Z.testbit _ _); auto.
Qed.

Lemma text_env_text : EnvText (H := text_env).
Proof.
  split; cbn [env_uuid env_now text_env]; intros k; [| |reflexivity|by vm_compute].
  - destruct (demo_uuid_chars k) as (bits & -> & _ & Hbits). unfold plain, without. rw chars_of_chars existsb_app.
    cbn [existsb chars app]. apply negb_true_iff.
    induction Hbits as [|c bits [->| ->] _ IH]; [done|exact IH..].
  - destruct (demo_uuid_chars k) as (bits & -> & _ & Hbits). apply ascii_utf8.
    rw chars_of_chars ascii_app. apply andb_true_iff. split; [done|].
    induction Hbits as [|c bits [->| ->] _ IH]; [done|exact IH..].
Qed.

Lemma empty_server_ok : ok (redis_world ∅ empty_heap).
Proof. split; [by intros k v _|]. by split. Qed.

