(* ===== verification/CardSimFacts.v ===== *)
(** * What the card transaction simulation guarantees

    The catalogue is the same in whatever order Go walks its maps; a simulated
    transaction carries the identity fields of the service in its raw form. *)
From Stdlib Require Import Structures.OrdersEx.
From stdpp Require Import sorting.
From S2P Require Import Prelude GoFloat GoStd GoText JsonText Codec Stored Consts Models Config World.
From S2P Require Import Api Webhook CardNumbers CardScenarios Mocks CardSim Memory MemoryFacts Demo.
From S2P Require Storage.

(** ** The order of keys *)
Lemma ltb_lt a b : String.ltb a b = true ↔ String_as_OT.lt a b.
Proof.
  unfold String.ltb, String_as_OT.lt. change (String_as_OT.compare a b) with (String.compare a b).
  by destruct (String.compare a b).
Qed.

Lemma ltb_total a b : String.ltb a b = false → String.ltb b a = false → a = b.
Proof.
  unfold String.ltb. rw (String.compare_antisym b a). destruct (String.compare a b) eqn:Hc; try done.
  by apply String.compare_eq_iff in Hc.
Qed.

Lemma ltb_asym a b : String.ltb a b = true → String.ltb b a = false.
Proof.
  unfold String.ltb. rw (String.compare_antisym b a). by destruct (String.compare a b).
Qed.

Lemma ltb_not_trans a b c : String.ltb b a = false → String.ltb c b = false → String.ltb c a = false.
Proof.
  intros Hab Hbc. destruct (String.ltb c a) eqn:Hca; [|done]. exfalso.
  destruct (String.ltb a b) eqn:Hlt.
  - assert (String.ltb c b = true) as Ht; [|by rw Ht in Hbc].
    apply ltb_lt. transitivity a; by apply ltb_lt.
  - assert (a = b) as <- by (by apply ltb_total). by rw Hca in Hbc.
Qed.

(** Sorting by distinct keys forgets the order. *)
Lemma sort_scenarios_perm a b :
  a ≡ₚ b → NoDup (map Key a) → slice_stable scenario_before a = slice_stable scenario_before b.
Proof.
  intros Hab Hnd.
  assert (∀ l, StronglySorted (not_after scenario_before) (slice_stable scenario_before l)) as Hs.
  { intros l. apply slice_stable_sorted.
    - intros x y. apply ltb_asym.
    - intros x y z. apply ltb_not_trans. }
  apply (StronglySorted_unique_strong (not_after scenario_before)); [|apply Hs..|].
  - intros x y. rw !slice_stable_perm -Hab. unfold not_after, scenario_before. intros Hx Hy Hyx Hxy.
    assert (Key x = Key y) as Hk by (by apply ltb_total).
    clear -Hnd Hx Hy Hk. induction a as [|z a IH]; [by apply not_elem_of_nil in Hx|].
    cbn in Hnd. apply NoDup_cons in Hnd as [Hz Hnd].
    apply elem_of_cons in Hx as [->|Hx], Hy as [->|Hy]; [done| | |by apply IH].
    + exfalso. apply Hz. rw Hk. by apply list_elem_of_fmap_2.
    + exfalso. apply Hz. rw -Hk. by apply list_elem_of_fmap_2.
  - by rw !slice_stable_perm.
Qed.

Lemma unique_from_ok seen l :
  unique_from seen l = Ok tt ↔ NoDup (map Key l) ∧ ∀ s, s ∈ l → seen !! Key s = None.
Proof.
  revert seen. induction l as [|s l IH]; intros seen; cbn.
  { split; [|done]. intros _. split; [constructor|]. by intros s Hs%not_elem_of_nil. }
  destruct (seen !! Key s) as [prev|] eqn:Hs.
  { split; [done|]. intros [_ Hnone]. by rw (Hnone s ltac:(by left)) in Hs. }
  rw IH NoDup_cons. split.
  - intros [Hnd Hn]. split; [split; [|done]|].
    + intros (s' & Hk & Hin)%list_elem_of_fmap. apply Hn in Hin. by rw -Hk lookup_insert_eq in Hin.
    + intros s' [->|Hin]%elem_of_cons; [done|]. apply Hn in Hin.
      apply lookup_insert_None in Hin. tauto.
  - intros [[Hni Hnd] Hn]. split; [done|]. intros s' Hin. apply lookup_insert_None.
    split; [apply Hn; by right|]. intros He. apply Hni. rw He. by apply list_elem_of_fmap_2.
Qed.

(** ** The order of maps *)
Section Order.
Context (ops_order : list (string * json) → list (string * json)).
Context (cls_order : list (string * list scenarioEntry) → list (string * list scenarioEntry)).
Context (ops_perm : ∀ l, ops_order l ≡ₚ l) (cls_perm : ∀ l, cls_order l ≡ₚ l).

Lemma load_operation_perm opLabel opBody a :
  load_operation id opLabel opBody = Ok a →
  ∃ b, load_operation cls_order opLabel opBody = Ok b ∧ b ≡ₚ a.
Proof.
  unfold load_operation. destruct (dec _ opBody []) as [flat|]; [intros [= <-]; by eexists|].
  destruct (decode_classes opBody) as [cs|]; [|done]. intros [= <-]. eexists. split; [done|].
  by rw (cls_perm cs).
Qed.

Lemma load_operations_perm ops a :
  load_operations id ops = Ok a → ∃ b, load_operations cls_order ops = Ok b ∧ b ≡ₚ a.
Proof.
  revert a. induction ops as [|[l body] ops IH]; cbn; intros a; [intros [= <-]; by eexists|].
  destruct (load_operation id l body) as [x|] eqn:Hx; [|done].
  destruct (load_operations id ops) as [y|] eqn:Hy; [|done]. intros [= <-].
  destruct (load_operation_perm _ _ _ Hx) as (x' & -> & Hpx). destruct (IH _ eq_refl) as (y' & -> & Hpy).
  eexists. split; [done|]. by rw Hpx Hpy.
Qed.

Lemma load_operations_order ops ops' a :
  ops ≡ₚ ops' → load_operations cls_order ops = Ok a →
  ∃ b, load_operations cls_order ops' = Ok b ∧ b ≡ₚ a.
Proof.
  intros Hp. revert a. induction Hp as [|[l body] ops ops' _ IH|[l body] [l' body'] ops|? ? ? _ IH1 _ IH2].
  - by intros a [= <-]; exists [].
  - cbn. intros a. destruct (load_operation _ l body) as [x|]; [|done].
    destruct (load_operations _ ops) as [y|]; [|done]. intros [= <-].
    destruct (IH _ eq_refl) as (y' & -> & Hpy). eexists. split; [done|]. by rw Hpy.
  - cbn. intros a. destruct (load_operation _ l' body') as [y|]; [|by destruct (load_operation _ l body)].
    destruct (load_operation _ l body) as [x|]; [|done].
    destruct (load_operations _ ops) as [z|]; [|done]. intros [= <-].
    eexists. split; [done|]. by rw !app_assoc (Permutation_app_comm x y).
  - intros a Ha. destruct (IH1 _ Ha) as (b & Hb & Hab). destruct (IH2 _ Hb) as (c & Hc & Hbc).
    exists c. split; [done|]. by rw Hbc.
Qed.

(** A catalogue that loads in one order loads in every order, to the same list. *)
Lemma load_order_irrelevant raw cs :
  loadCardScenarios id id raw = Ok cs → loadCardScenarios ops_order cls_order raw = Ok cs.
Proof.
  unfold loadCardScenarios. destruct (parse_json raw) as [j|]; [|done].
  destruct (decode_members j) as [ops|]; [|done].
  destruct (load_operations id (id ops)) as [a|] eqn:Ha; [|done]. cbv zeta.
  destruct (assertUniqueKeys (slice_stable scenario_before a)) as [[]|] eqn:Hu; [|done]. intros [= <-].
  destruct (load_operations_perm _ _ Ha) as (b & Hb & Hba).
  destruct (load_operations_order ops (ops_order ops) b) as (c & -> & Hcb); [by rw ops_perm|done|].
  assert (slice_stable scenario_before a = slice_stable scenario_before c) as <-; [|by rw Hu].
  apply sort_scenarios_perm; [by rw Hcb Hba|].
  apply unique_from_ok in Hu as [Hnd _]. by rw slice_stable_perm in Hnd.
Qed.
End Order.

(** ** The embedded catalogue *)
Definition catalogue : list CardTxScenario :=
  default [] (mustLoadCardScenarios id id cardTransactionMocks).

(** A key spelled as it is listed finds its scenario. *)
Lemma find_by_key cs s :
  NoDup (map Key cs) → s ∈ cs → lower_key (TrimSpace (Key s)) = Key s →
  findCardScenario cs (Key s) = Some s.
Proof.
  unfold findCardScenario. intros Hnd Hin ->. induction cs as [|s' cs IH]; [by apply not_elem_of_nil in Hin|].
  cbn in Hnd |- *. apply NoDup_cons in Hnd as [Hs' Hnd].
  apply elem_of_cons in Hin as [->|Hin]; [by rw str_eqb_refl|]. rw str_eqb_ne; [by apply IH|].
  intros He. apply Hs'. rw He. by apply list_elem_of_fmap_2.
Qed.

Definition good_scenario (s : CardTxScenario) : bool :=
  (lower_key (TrimSpace (Key s)) =?s Key s)
  && match Payload s with Some (JObj _) => true | _ => false end.

(** C31. The program starts, and with the same catalogue every time: in whatever
    order Go walks the maps of the embedded file, loading it succeeds, with the
    same seventeen scenarios in increasing order of their keys; no key is taken
    twice, every listed key finds its scenario, and every scenario has an object
    to build a transaction from. *)
Theorem catalogue_loads ops_order cls_order :
  (∀ l, ops_order l ≡ₚ l) → (∀ l, cls_order l ≡ₚ l) →
  loadCardScenarios ops_order cls_order cardTransactionMocks = Ok catalogue
  ∧ length catalogue = 17%nat
  ∧ scenarioKeys catalogue = map Key catalogue
  ∧ ∀ s, s ∈ catalogue →
      findCardScenario catalogue (Key s) = Some s ∧ ∃ fields, Payload s = Some (JObj fields).
Proof.
  intros Hops Hcls.
  assert (loadCardScenarios id id cardTransactionMocks = Ok catalogue) as Hload by (vm_compute; reflexivity).
  split; [by apply load_order_irrelevant|]. split; [vm_compute; reflexivity|].
  split; [vm_compute; reflexivity|]. intros s Hs.
  assert (NoDup (map Key catalogue)) as Hnd by (apply (bool_decide_unpack _); vm_compute; reflexivity).
  assert (forallb good_scenario catalogue = true) as Hgood by (vm_compute; reflexivity).
  rw forallb_forall in Hgood. specialize (Hgood s (proj1 (list_elem_of_In _ _) Hs)).
  unfold good_scenario in Hgood. apply andb_true_iff in Hgood as [Hk%str_eqb_eq Hp].
  split; [apply find_by_key; assumption|]. clear Hload Hs Hnd.
  destruct (Payload s) as [[]|]; try discriminate Hp. eexists. reflexivity.
Qed.

Lemma catalogue_loads_witness :
  loadCardScenarios (@rev _) (@rev _) cardTransactionMocks = Ok catalogue.
Proof.
  apply (catalogue_loads (@rev _) (@rev _)); intros l; apply Permutation_sym, Permutation_rev.
Defined.

(** ** Members of an object *)
Lemma assoc_perm {A} k (l l' : list (string * A)) : l ≡ₚ l' → NoDup l.*1 → assoc k l = assoc k l'.
Proof.
  induction 1 as [|[k1 v1] l l' _ IH|[k1 v1] [k2 v2] l|l1 l2 l3 H1 IH1 _ IH2]; cbn; intros Hnd.
  - done.
  - apply NoDup_cons in Hnd as [_ Hnd]. by rw IH.
  - apply NoDup_cons in Hnd as [Hne _]. apply not_elem_of_cons in Hne as [Hne _].
    destruct (k =?s k1) eqn:H1, (k =?s k2) eqn:H2; case_go; subst; done.
  - rw IH1; [|done]. apply IH2. by rw -H1.
Qed.

Lemma assoc_set_keys {A} k (v : A) l k' : k' ∈ (assoc_set k v l).*1 ↔ k' = k ∨ k' ∈ l.*1.
Proof.
  induction l as [|[k1 v1] l IH]; cbn; [by rw list_elem_of_singleton elem_of_nil; tauto|].
  destruct (k =?s k1) eqn:Hk; case_go; cbn; rw !elem_of_cons; [subst; tauto|]. rw IH. tauto.
Qed.

Lemma assoc_set_nodup {A} k (v : A) l : NoDup l.*1 → NoDup (assoc_set k v l).*1.
Proof.
  induction l as [|[k1 v1] l IH]; cbn; intros Hnd; [by repeat constructor; apply not_elem_of_nil|].
  apply NoDup_cons in Hnd as [Hk1 Hnd].
  destruct (k =?s k1) eqn:Hk; case_go; cbn; apply NoDup_cons; [by subst|]. split; [|by apply IH].
  rw assoc_set_keys. intros [->|?]; done.
Qed.

Lemma set_all_nodup overrides fields : NoDup fields.*1 → NoDup (set_all overrides fields).*1.
Proof.
  unfold set_all. revert fields. induction overrides as [|kv l IH]; cbn; [done|]. intros fields Hnd.
  by apply IH, assoc_set_nodup.
Qed.

Lemma last_wins_nodup {A} (l : list (string * A)) : NoDup (last_wins l).*1.
Proof.
  unfold last_wins. assert (NoDup ([] : list (string * A)).*1) as Hnd by constructor. revert Hnd.
  generalize ([] : list (string * A)). induction l as [|kv l IH]; cbn; [done|]. intros acc Hnd.
  by apply IH, assoc_set_nodup.
Qed.

Lemma assoc_set_all k overrides fields :
  NoDup overrides.*1 →
  assoc k (set_all overrides fields)
  = match assoc k overrides with Some v => Some v | None => assoc k fields end.
Proof.
  unfold set_all. revert fields. induction overrides as [|[k1 v1] l IH]; cbn; intros fields Hnd; [done|].
  apply NoDup_cons in Hnd as [Hk1 Hnd]. rw IH; [|done].
  destruct (k =?s k1) eqn:Hk; case_go; [|by rw assoc_set_ne].
  subst k1. assert (assoc k l = None) as ->; [|by rw assoc_set_eq].
  clear -Hk1. induction l as [|[k2 v2] l IH]; cbn; [done|]. cbn in Hk1.
  apply not_elem_of_cons in Hk1 as [Hne Hk1]. rw str_eqb_ne; [by apply IH|done].
Qed.

Lemma assoc_mapped {A B} (f : A → B) k (l : list (string * A)) :
  assoc k (map (fun kv => (kv.1, f kv.2)) l) = f <$> assoc k l.
Proof. induction l as [|[k1 v1] l IH]; cbn; [done|]. by destruct (k =?s k1). Qed.

Lemma map_keys {A B} (f : A → B) (l : list (string * A)) :
  (map (fun kv => (kv.1, f kv.2)) l).*1 = l.*1.
Proof. induction l as [|kv l IH]; cbn; [done|]. by rw IH. Qed.

Lemma last_wins_map {A B} (f : A → B) (l : list (string * A)) :
  last_wins (map (fun kv => (kv.1, f kv.2)) l) = map (fun kv => (kv.1, f kv.2)) (last_wins l).
Proof.
  unfold last_wins. change (@nil (string * B)) with (map (fun kv => (kv.1, f kv.2)) (@nil (string * A))).
  generalize (@nil (string * A)) as acc.
  induction l as [|[k v] l IH]; intros acc; cbn [map fold_left fst snd]; [done|]. rw -IH. f_equal.
  induction acc as [|[k1 v1] acc IHa]; cbn; [done|]. by destruct (k =?s k1); cbn; rw ?IHa.
Qed.

(** Writing a map keeps its members. *)
Lemma jget_sort_maps k fields :
  NoDup fields.*1 → jget k (sort_maps (JObj fields)) = sort_maps <$> assoc k fields.
Proof.
  intros Hnd. cbn [sort_maps jget]. set (l := map _ fields).
  assert (NoDup l.*1) as Hl by (unfold l; by rw map_keys).
  rw (last_wins_id _ Hl). unfold sort_keys. rw -(assoc_perm k l); [|symmetry; apply slice_stable_perm|done].
  unfold l. apply assoc_mapped.
Qed.

(** ** Identity *)
Definition identity_keys : list string := ["transactionId"; "id"; "cardId"; "createdAt"].

Section Identity.
Context {S : Type} `{Env}.
Implicit Types (w : World S).

Lemma run_materialise fields overrides seqID cardUUID w :
  materialiseCardTransaction (Some (JObj fields)) overrides seqID cardUUID w
  = (Ret (match normalise (set_identity (env_uuid (w_ticks w)) seqID (numericCardID cardUUID)
                             (env_now (w_ticks w + 1))
                             (set_all overrides (last_wins (map (fun kv => (kv.1, as_interface kv.2)) fields)))) with
          | None => Err json_error
          | Some (tx, normalised) => Ok (tx, normalised, env_uuid (w_ticks w))
          end), w <| w_ticks := (w_ticks w + 2)%nat |>).
Proof.
  unfold materialiseCardTransaction. cbn [as_interface]. unfold GenerateUUID, time_Now, tick. run_binds. cbn.
  replace (w_ticks w + 1 + 1)%nat with (w_ticks w + 2)%nat by lia.
  by destruct (normalise _) as [[tx n]|].
Qed.

(** A simulated transaction's raw form always carries the identity this service
    gives it: whatever the scenario and the overrides hold, its transaction id
    is the fresh one, its id the sequence number, its card id the number of the
    card and its creation time the clock's; every other member is the override
    of that name, or else the scenario's; and the typed record is what that raw
    form decodes to. *)
Lemma raw_identity_wins fields overrides seqID cardUUID w w' tx raw txID :
  NoDup overrides.*1 →
  materialiseCardTransaction (Some (JObj fields)) overrides seqID cardUUID w
  = (Ret (Ok (tx, raw, txID)), w') →
  txID = env_uuid (w_ticks w)
  ∧ jget "transactionId" raw = Some (JStr txID)
  ∧ jget "id" raw = Some (JInt seqID)
  ∧ jget "cardId" raw = Some (JInt (numericCardID cardUUID))
  ∧ jget "createdAt" raw = Some (JStr (Format_RFC3339 (env_now (w_ticks w + 1))))
  ∧ (∀ k, k ∉ identity_keys →
       jget k raw = sort_maps <$>
         match assoc k overrides with
         | Some v => Some v
         | None => as_interface <$> assoc k (last_wins fields)
         end)
  ∧ unmarshal c_CardTransaction (json_text raw) = Some tx.
Proof.
  intros Hnd. rw run_materialise.
  set (base := last_wins (map _ fields)). unfold normalise.
  set (all := set_identity _ _ _ _ _). destruct (marshals _); [|done].
  destruct (unmarshal _ _) as [tx'|] eqn:Htx; [|done]. cbn. intros [= <- <- <- <-].
  assert (NoDup all.*1) as Hall.
  { unfold all, set_identity. do 4 apply assoc_set_nodup. apply set_all_nodup, last_wins_nodup. }
  split; [done|]. rw !jget_sort_maps; [|done..]. unfold all, set_identity.
  split; [by do 3 (rw assoc_set_ne; [|done]); rw assoc_set_eq|].
  split; [by do 2 (rw assoc_set_ne; [|done]); rw assoc_set_eq|].
  split; [by rw assoc_set_ne; [rw assoc_set_eq|]|]. split; [by rw assoc_set_eq|]. split; [|done].
  intros k Hk. unfold identity_keys in Hk. rw !not_elem_of_cons in Hk. destruct Hk as (H1 & H2 & H3 & H4 & _).
  rw jget_sort_maps; [|done]. do 4 (rw assoc_set_ne; [|done]). rw assoc_set_all; [|done]. f_equal.
  destruct (assoc k overrides); [done|].
  unfold base. by rw last_wins_map assoc_mapped.
Qed.
End Identity.

Definition demo_overrides : list (string * json) := [("mcc", JStr "1"); ("transactionId", JStr "x")].
Lemma demo_overrides_nodup : NoDup demo_overrides.*1.
Proof. apply (bool_decide_unpack _). vm_compute. exact I. Qed.
Lemma mcc_no_identity : "mcc" ∉ identity_keys.
Proof. apply (bool_decide_unpack _). vm_compute. exact I. Qed.

Lemma raw_identity_wins_witness :
  match materialiseCardTransaction (Some (JObj [("id", JInt 4); ("mcc", JStr "5399")]))
          demo_overrides 7 "c1" demo_world with
  | (Ret (Ok (_, raw, txID)), _) =>
      jget "transactionId" raw = Some (JStr txID) ∧ jget "mcc" raw = Some (JStr "1")
  | _ => False
  end.
Proof.
  destruct (materialiseCardTransaction _ _ _ _ _) as [[[[[tx raw] txID]|e]|e] w'] eqn:Hrun.
  - pose proof (raw_identity_wins _ _ _ _ _ _ _ _ _ demo_overrides_nodup Hrun)
      as (_ & Hid & _ & _ & _ & Hother & _).
    split; [exact Hid|]. rw (Hother "mcc" mcc_no_identity). reflexivity.
  - vm_compute in Hrun. discriminate Hrun.
  - vm_compute in Hrun. discriminate Hrun.
Defined.
