(* ===== verification/SimulationFacts.v ===== *)
(** * Simulating on the in-memory storage

    What a simulation leaves behind, how its status is driven, and a way round
    the identity it is given. *)
From S2P Require Import Prelude GoFloat GoStd GoText JsonText Codec Stored Consts Models Config World.
From S2P Require Import Api Webhook CardNumbers CardScenarios Mocks CardSim Memory MemoryFacts Demo CardSimFacts.
From S2P Require Storage.

Section Simulation.
Context `{Env}.
Context (cardScenarioIndex : list CardTxScenario).
Implicit Types (w : World MemoryStorage) (req : SimulateCardTransactionRequest).

(** The user and the card a request names are there. *)
Definition parties_exist req w : Prop :=
  UserID req ≠ "" ∧ CardID req ≠ "" ∧ Scenario req ≠ ""
  ∧ is_Some (users (w_store w) !! UserID req)
  ∧ ∃ p, cards (w_store w) !! CardID req = Some p ∧ is_Some (heap_cards (w_heap w) !! p).

Definition supported_event (event : string) : bool :=
  (event =?s WebhookEventCardTransactionAuthorization) || (event =?s WebhookEventCardTransaction).

(** What an event carries. *)
Definition event_data event req raw txID : option (list (string * json)) :=
  if event =?s WebhookEventCardTransaction then
    let n := default (mkCardTxNotification "Card transaction" "A card transaction was recorded")
               (Notification req) in
    Some [("title", JStr (Title n)); ("body", JStr (Body n));
          ("transactionId", JStr txID); ("cardId", JStr (CardID req))]
  else data ← decode_map (json_text raw); Some [("authorizationData", JObj data)].

Lemma run_emit m event req raw txID w :
  w_manager w = Some m →
  ∃ w', emitCardTransactionWebhook event req raw txID w = (Ret tt, w')
    ∧ same_books w w' ∧ w_sink w' = w_sink w
    ∧ (∀ data q, event_data event req raw txID = Some data → queue m = Some q →
         queued m (w_store w) event data = true →
         w_jobs w' = w_jobs w ++ [(mkStreamJob "" (env_uuid (w_ticks w)) event (UserID req) data 0
                       (Format_RFC3339Nano (env_now (w_ticks w + 1))) "",
                     Z.max (minDelay q) (seconds_duration fzero))]).
Proof.
  intros Hm. unfold emitCardTransactionWebhook, event_data.
  destruct (event =?s WebhookEventCardTransaction).
  - destruct (run_SendAsync m event (UserID req)
      (default [] (event_data WebhookEventCardTransaction req raw txID)) fzero w Hm)
      as (w' & Hrun & Hb & Hs & Hj). exists w'. split; [exact Hrun|]. split; [done|]. split; [done|].
    intros data q [= <-] Hq Hqueued. rw Hj Hq. cbn -[queued] in Hqueued |- *. by rw Hqueued.
  - destruct (decode_map (json_text raw)) as [data|]; [|by exists w].
    destruct (run_SendAsync m event (UserID req) [("authorizationData", JObj data)] fzero w Hm)
      as (w' & Hrun & Hb & Hs & Hj). exists w'. split; [exact Hrun|]. split; [done|]. split; [done|].
    intros data' q [= <-] Hq Hqueued. by rw Hj Hq Hqueued.
Qed.

(** The store after filing [raw] under [txID] for a card. *)
Definition filed (cardID txID : string) (p : loc) (raw : json) (s : MemoryStorage) : MemoryStorage :=
  s <| cardTransactions := <[txID := p]> (cardTransactions s) |>
    <| rawCardTransactions := <[txID := raw]> (rawCardTransactions s) |>
    <| cardTransactionsByCard :=
         <[cardID := default [] (cardTransactionsByCard s !! cardID) ++ [txID]]>
           (cardTransactionsByCard s) |>.

Lemma run_new_cardtx (x : CardTransaction) w :
  new x w = (Ret (heap_next (w_heap w)), w <| w_heap := (heap_alloc x (w_heap w)).2 |>)
  ∧ deref (heap_next (w_heap w)) (w <| w_heap := (heap_alloc x (w_heap w)).2 |>)
    = (Ret x, w <| w_heap := (heap_alloc x (w_heap w)).2 |>).
Proof. split; [done|]. apply run_deref. exact (lookup_insert_eq _ _ x). Qed.

Lemma run_store_simulated tx raw txID cardID w :
  CardTransaction_TransactionID tx = txID → txID ≠ "" → cardID ≠ "" →
  cardTransactions (w_store w) !! txID = None →
  let p := heap_next (w_heap w) in
  store_simulated tx raw txID cardID w
  = (Ret (inl tt), w <| w_heap := (heap_alloc tx (w_heap w)).2 |>
                     <| w_store := filed cardID txID p raw (w_store w) |>).
Proof.
  intros Htx Hid Hcard Hnew p. destruct (run_new_cardtx tx w) as [Hn Hd].
  unfold store_simulated. rw (run_bind_ret _ _ _ _ _ Hn) run_bind.
  change (Storage.CreateCardTransaction (S := MemoryStorage)) with Memory.CreateCardTransaction.
  unfold Memory.CreateCardTransaction.
  rw (run_bind_ret _ _ _ _ _ Hd).
  rw Htx (str_eqb_ne _ _ Hid). unfold store, put. run_binds. cbn. rw Hnew. cbn.
  change (Storage.StoreRawCardTransaction (S := MemoryStorage)) with Memory.StoreRawCardTransaction.
  unfold Memory.StoreRawCardTransaction, put. rw (str_eqb_ne _ _ Hid). run_binds. cbn.
  change (Storage.AddCardTransactionIndex (S := MemoryStorage)) with Memory.AddCardTransactionIndex.
  unfold Memory.AddCardTransactionIndex, put. rw (str_eqb_ne _ _ Hcard) (str_eqb_ne _ _ Hid).
  by run_binds.
Qed.

(** The record of [txID] and its raw form, and nothing else in the books. *)
Definition next_seq w : Z := wrap64 (cardTxSeqID (w_store w) + 1).
Definition sequenced w : World MemoryStorage :=
  w <| w_store := (w_store w) <| cardTxSeqID := next_seq w |> |>.


(** ** Driving the status *)

(** The status of a card transaction is driven through both of its forms: for a
    stored transaction and one of the four statuses, the typed record and the
    raw form take the status, every other member of the raw form stays, and so
    does every other transaction; an unknown status answers 400 and changes
    nothing. *)
Lemma status_driven txID status w p t fields :
  txID ≠ "" → cardTransactions (w_store w) !! txID = Some p →
  heap_cardtxs (w_heap w) !! p = Some t →
  rawCardTransactions (w_store w) !! txID = Some (JObj fields) →
  marshals (sort_maps (JObj (assoc_set "txStatus" (JStr status)
    (last_wins (map (fun kv => (kv.1, as_interface kv.2)) fields))))) = true →
  if isKnownCardTxStatus status then
    ∃ raw, SetCardTransactionStatus txID (Some status) w
      = (Ret (sendJSON StatusOK (strings_json [("transactionId", txID); ("txStatus", status)])),
         w <| w_heap := heap_write p (t <| CardTransaction_TxStatus := Some status |>) (w_heap w) |>
           <| w_store := (w_store w)
                <| rawCardTransactions := <[txID := raw]> (rawCardTransactions (w_store w)) |> |>)
      ∧ jget "txStatus" raw = Some (JStr status)
      ∧ ∀ k, k ≠ "txStatus" →
          jget k raw = sort_maps <$> (as_interface <$> assoc k (last_wins fields))
  else
    ∃ msg, SetCardTransactionStatus txID (Some status) w = (Ret (sendError StatusBadRequest msg), w).
Proof.
  intros Hid Hp Ht Hraw Hmar. unfold SetCardTransactionStatus. rw (str_eqb_ne _ _ Hid).
  destruct (isKnownCardTxStatus status) eqn:Hk.
  2: { destruct (status =?s ""); eexists; reflexivity. }
  assert (status ≠ "") as Hne by (by intros ->).
  rw (str_eqb_ne _ _ Hne). cbn [negb]. set (base := last_wins (map _ fields)) in *.
  set (all := assoc_set _ _ base) in *.
  assert (NoDup all.*1) as Hnd by apply assoc_set_nodup, last_wins_nodup.
  exists (sort_maps (JObj all)). split; [|split].
  - rw run_bind. change (Storage.GetCardTransaction txID w) with (Memory.GetCardTransaction txID w).
    unfold Memory.GetCardTransaction, store. rw run_bind run_gets Hp run_mret run_bind.
    change (Storage.UpdateCardTransactionStatus txID status w)
      with (Memory.UpdateCardTransactionStatus txID status w).
    unfold Memory.UpdateCardTransactionStatus, store. rw run_bind run_gets Hp.
    change (cells (T := CardTransaction) (w_heap w) !! p = Some t) in Ht.
    rw (run_bind_ret _ _ _ _ _ (run_update _ _ _ _ Ht)) Hraw.
    unfold set_raw_status. cbn [as_interface]. fold base all. rw Hmar. unfold put. by run_binds.
  - rw jget_sort_maps; [|done]. unfold all. by rw assoc_set_eq.
  - intros k Hne'. rw jget_sort_maps; [|done]. unfold all. rw assoc_set_ne; [|done].
    unfold base. by rw last_wins_map assoc_mapped.
Qed.
End Simulation.

(** ** Examples *)
Definition demo_sim_heap : Heap :=
  (heap_alloc (zero_Card <| Card_ID := "c1" |>)
     (heap_alloc (zero_User <| User_ID := "u1" |>) empty_heap).2).2.
Definition demo_sim_world : World MemoryStorage :=
  world_with (NewMemoryStorage <| users := <["u1" := 1%positive]> ∅ |>
                               <| cards := <["c1" := 2%positive]> ∅ |>) demo_sim_heap.
Definition demo_request (overrides : list (string * json)) : SimulateCardTransactionRequest :=
  mkSimulateRequest "u1" "c1" "none.wrong-pin" overrides "" None.

(** The identity of a simulated transaction can be taken by an override: a member
    spelled [transactionid] is decoded, ignoring case, into the typed record's
    transaction id after the fresh one. The answer, the raw form and the card's
    list then name an id under which no transaction is stored, and driving its
    status answers 404. *)
Lemma override_takes_identity :
  match simulateCardTransaction catalogue (demo_request [("transactionid", JStr "mine")]) demo_sim_world with
  | (Ret (inl r), w') =>
      result_TransactionID r ≠ "mine"
      ∧ cardTransactionsByCard (w_store w') !! "c1" = Some [result_TransactionID r]
      ∧ (SetCardTransactionStatus (result_TransactionID r) (Some CardTxStatusCompleted) w').1
        = Ret (sendError StatusNotFound "card transaction not found")
      ∧ is_Some (cardTransactions (w_store w') !! "mine")
  | _ => False
  end.
Proof. vm_compute. split_and!; [done|reflexivity|reflexivity|by eexists]. Qed.

(** The pieces of a simulation of the wrong PIN, evaluated. *)
Definition demo_scenario : CardTxScenario :=
  default (mkCardTxScenario "" "" "" "" None) (findCardScenario catalogue "none.wrong-pin").
Definition demo_fields : list (string * json) :=
  match Payload demo_scenario with Some (JObj fields) => fields | _ => [] end.
Definition demo_made : option (CardTransaction * json) :=
  normalise (set_identity (env_uuid 0) 1 (numericCardID "c1") (env_now 1)
    (set_all [] (last_wins (map (fun kv => (kv.1, as_interface kv.2)) demo_fields)))).
Definition demo_tx : CardTransaction := default zero_CardTransaction (fst <$> demo_made).
Definition demo_raw : json := default JNull (snd <$> demo_made).


Definition demo_status_world : World MemoryStorage :=
  world_with (NewMemoryStorage <| cardTransactions := <["t1" := 1%positive]> ∅ |>
                <| rawCardTransactions := <["t1" := JObj [("txStatus", JStr "PROCESSING"); ("id", JInt 3)]]> ∅ |>)
    (heap_alloc zero_CardTransaction empty_heap).2.
Lemma status_driven_witness :
  ∃ raw w', SetCardTransactionStatus "t1" (Some "COMPLETED") demo_status_world
    = (Ret (sendJSON StatusOK (strings_json [("transactionId", "t1"); ("txStatus", "COMPLETED")])), w')
    ∧ jget "txStatus" raw = Some (JStr "COMPLETED") ∧ rawCardTransactions (w_store w') !! "t1" = Some raw.
Proof.
  destruct (status_driven "t1" "COMPLETED" demo_status_world 1%positive zero_CardTransaction
    [("txStatus", JStr "PROCESSING"); ("id", JInt 3)]) as (raw & Hrun & Hst & _).
  - discriminate.
  - reflexivity.
  - reflexivity.
  - reflexivity.
  - vm_compute. reflexivity.
  - exists raw. eexists. split; [exact Hrun|]. split; [exact Hst|]. reflexivity.
Defined.
