(* ===== verification/UiFacts.v ===== *)
(** * The admin pages and the API

    The form actions do what the API endpoints do, and the settlement button is
    shown exactly where a settlement is accepted. *)
From S2P Require Import Prelude GoFloat GoStd GoText JsonText Codec Stored Consts Models Config World.
From S2P Require Import Api Webhook CardNumbers CardScenarios Mocks CardSim Withdrawals Ui Memory.
From S2P Require Import MemoryFacts Frames WithdrawalFacts CardSimFacts SimulationFacts Demo.
From S2P Require Storage.

Section Ui.
Context {S : Type} `{Env} `{!Storage.Storage S}.
Context (cardScenarioIndex : list CardTxScenario).
Implicit Types (w : World S).

(** The raw form of a simulated transaction marshals. *)
Lemma materialise_marshals payload overrides seqID cardID :
  yields (W := World S)
    (λ r, match r with Ok (_, raw, _) => marshals raw = true | Err _ => True end)
    (materialiseCardTransaction payload overrides seqID cardID).
Proof.
  unfold materialiseCardTransaction. destruct payload as [payload|]; [|by apply yields_mret].
  destruct (as_interface payload) as [| | | | | |fields]; try (by apply yields_mret).
  - destruct overrides; [|apply yields_panic].
    apply (yields_bind _ _ _ _ (yields_any _)). intros _ _. apply yields_panic.
  - apply (yields_bind _ _ _ _ (yields_any _)). intros txID _.
    apply (yields_bind _ _ _ _ (yields_any _)). intros now _. unfold normalise.
    destruct (marshals _) eqn:Hm; [|by apply yields_mret].
    destruct (unmarshal _ _); cbn; by apply yields_mret.
Qed.

(** Every error of an operation is a 4xx or a 5xx. *)
Definition answers {A} (Q : A → Prop) (r : api_result A) : Prop :=
  match r with inl a => Q a | inr e => 400 <= api_status e end.

Lemma store_simulated_answers tx raw txID cardID :
  yields (W := World S) (answers (λ _, True)) (store_simulated tx raw txID cardID).
Proof.
  unfold store_simulated. apply (yields_bind _ _ _ _ (yields_any _)). intros p _.
  apply (yields_bind _ _ _ _ (yields_any _)). intros [?|?] _; [|by apply yields_mret].
  apply (yields_bind _ _ _ _ (yields_any _)). intros [?|?] _; [|by apply yields_mret].
  apply (yields_bind _ _ _ _ (yields_any _)). intros _ _. by apply yields_mret.
Qed.

Lemma simulated_answers req :
  yields (W := World S) (answers (λ r, marshals (result_Transaction r) = true))
    (simulateCardTransaction cardScenarioIndex req).
Proof.
  unfold simulateCardTransaction. repeat (destruct (_ =?s ""); [by apply yields_mret|]).
  apply (yields_bind _ _ _ _ (yields_any _)). intros [?|?] _; [|by apply yields_mret].
  apply (yields_bind _ _ _ _ (yields_any _)). intros [card|_] _; [|by apply yields_mret].
  destruct (findCardScenario _ _) as [s|]; [|by apply yields_mret]. cbv zeta.
  destruct (_ && _); [by apply yields_mret|].
  apply (yields_bind _ _ _ _ (yields_any _)). intros [seqID|_] _; [|by apply yields_mret].
  apply (yields_bind _ _ _ _ (materialise_marshals _ _ _ _)).
  intros [[[tx raw] txID]|_] Hm; [|by apply yields_mret].
  apply (yields_bind _ _ _ _ (store_simulated_answers _ _ _ _)). intros [u|e] He; [|by apply yields_mret].
  apply (yields_bind _ _ _ _ (yields_any _)). intros _ _.
  apply (yields_bind _ _ _ _ (yields_any _)). intros _ _. by apply yields_mret.
Qed.

Lemma completed_answers p : yields (W := World S) (answers (λ _, True)) (completeWithdrawal p).
Proof.
  unfold completeWithdrawal. apply (yields_bind _ _ _ _ (yields_any _)). intros tx _.
  destruct (ParseFloat _); [|by apply yields_mret].
  apply (yields_bind _ _ _ _ (yields_any _)). intros [?|?] _; [|by apply yields_mret].
  apply (yields_bind _ _ _ _ (yields_any _)). intros [?|?] _; [|by apply yields_mret].
  apply (yields_bind _ _ _ _ (yields_any _)). intros ? _.
  apply (yields_bind _ _ _ _ (yields_any _)). intros _ _. by apply yields_mret.
Qed.

Lemma rejected_answers p : yields (W := World S) (answers (λ _, True)) (rejectWithdrawal p).
Proof.
  unfold rejectWithdrawal. apply (yields_bind _ _ _ _ (yields_any _)). intros tx _.
  apply (yields_bind _ _ _ _ (yields_any _)). intros [?|?] _; [|by apply yields_mret].
  apply (yields_bind _ _ _ _ (yields_any _)). intros ? _.
  apply (yields_bind _ _ _ _ (yields_any _)). intros _ _. by apply yields_mret.
Qed.

Lemma settled_answers txID event :
  yields (W := World S) (answers (λ _, True)) (settleWithdrawal txID event).
Proof.
  unfold settleWithdrawal. apply (yields_bind (answers (λ _, True))).
  - unfold check_settlement. destruct (negb _); [by apply yields_mret|].
    apply (yields_bind _ _ _ _ (yields_any _)). intros [p|_] _; [|by apply yields_mret].
    apply (yields_bind _ _ _ _ (yields_any _)). intros tx _.
    destruct (negb _); [by apply yields_mret|]. destruct (negb _); by apply yields_mret.
  - intros [[p []]|e] He; [apply completed_answers|apply rejected_answers|by apply yields_mret].
Qed.

(** An action of the pages and a request to the API do the same: the same world
    or the same panic, and a flash that is an error exactly when the API did
    not answer [status]. *)
Definition same_effect (ui api : prog (World S) Response) (ok_path error_path : string) (status : Z) w : Prop :=
  match api w with
  | (Ret r, w') => ∃ msg,
      let failed := negb (resp_status r =? status) in
      ui w = (Ret (redirectWithFlash (if failed then error_path else ok_path) msg failed), w')
  | (Panic e, w') => ui w = (Panic e, w')
  end.

Lemma sendAPIError_status e : 400 <= api_status e → 400 <= resp_status (sendAPIError e).
Proof.
  intros He. unfold sendAPIError. case_match; [by rw sendError_status|].
  rw sendJSON_status. case_match; [done|lia].
Qed.

Lemma api_error_failed e status :
  400 <= api_status e → status < 400 → negb (resp_status (sendAPIError e) =? status) = true.
Proof.
  intros He Hs. apply sendAPIError_status in He. destruct (Z.eqb_spec (resp_status (sendAPIError e)) status); [lia|done].
Qed.

(** C39. The pages cannot drift from the API: settling a withdrawal or simulating a
    card transaction from a form leaves, on every storage and on every path,
    the same world as the API request with the same (trimmed) values, panics
    exactly when it does, and redirects with an error flash exactly when the
    API answers an error. *)
Theorem ui_follows_api userID txID cardID scenario amount merchantName event w :
  (TrimSpace txID ≠ "" → TrimSpace event ≠ "" →
     let redirect := if negb (TrimSpace userID =?s "") then "/ui/users/" +:+ TrimSpace userID else "/ui" in
     same_effect (UIWithdrawalSettle userID txID event)
       (TriggerWithdrawalEvent (TrimSpace txID) (Some (TrimSpace event))) redirect redirect StatusOK w)
  ∧ (TrimSpace userID ≠ "" → TrimSpace cardID ≠ "" → TrimSpace scenario ≠ "" →
     same_effect (UICardTxAction cardScenarioIndex userID cardID scenario amount merchantName event)
       (SimulateCardTransaction cardScenarioIndex
          (Some (form_request userID cardID scenario amount merchantName event)))
       ("/ui/users/" +:+ TrimSpace userID) "/ui/actions/card-transaction" StatusCreated w).
Proof.
  split.
  - intros Htx Hev. cbv zeta. unfold same_effect, UIWithdrawalSettle, TriggerWithdrawalEvent. cbv zeta.
    set (redirect := if negb _ then _ else _).
    rw (str_eqb_ne _ _ Htx) (str_eqb_ne _ _ Hev). cbn [orb].
    pose proof (settled_answers (TrimSpace txID) (TrimSpace event) w) as Ha.
    rw (run_bind (settleWithdrawal _ _) _ w) (run_bind (settleWithdrawal _ _) _ w).
    destruct (settleWithdrawal _ _ w) as [[[u|e]|e] w']; cbn [fst] in Ha; [| |done].
    + rw run_mret sendJSON_strings_status. exists ("Sent " +:+ TrimSpace event). done.
    + rw run_mret. exists (api_msg e). by rw (api_error_failed e StatusOK Ha eq_refl).
  - intros Hu Hc Hs. unfold same_effect, UICardTxAction, SimulateCardTransaction. cbv zeta.
    set (req := form_request _ _ _ _ _ _).
    change (UserID req) with (TrimSpace userID). change (CardID req) with (TrimSpace cardID).
    change (Scenario req) with (TrimSpace scenario).
    rw (str_eqb_ne _ _ Hu) (str_eqb_ne _ _ Hc) (str_eqb_ne _ _ Hs). cbn [orb].
    pose proof (simulated_answers req w) as Ha.
    rw (run_bind (simulateCardTransaction _ _) _ w) (run_bind (simulateCardTransaction _ _) _ w).
    destruct (simulateCardTransaction _ req w) as [[[r|e]|e] w']; cbn [fst] in Ha; [| |done].
    + rw run_mret sendJSON_status. cbn [marshals forallb snd]. unfold answers in Ha. rw Ha.
      exists ("Simulated " +:+ result_Scenario r +:+ " and sent " +:+ result_Event r). done.
    + rw run_mret. exists (api_msg e). by rw (api_error_failed e StatusCreated Ha eq_refl).
Qed.
End Ui.

(** ** The settlement button *)
Section Button.
Context `{Env}.

(** The button to settle is shown for exactly the transactions whose settlement
    passes its checks: for a stored transaction, [CanSettle] is true if and only
    if a completion, or a rejection, of it is taken up. *)
Lemma settle_button_iff id p t event (w : World MemoryStorage) :
  stored w id p t → event = WebhookEventWithdrawalCompleted ∨ event = WebhookEventWithdrawalRejected →
  can_settle t = true ↔
  (check_settlement id event w).1 = Ret (inl (p, event =?s WebhookEventWithdrawalCompleted)).
Proof.
  intros Hs Hev. unfold check_settlement, can_settle.
  assert (negb ((event =?s WebhookEventWithdrawalCompleted) || (event =?s WebhookEventWithdrawalRejected)) = false)
    as -> by (by destruct Hev as [-> | ->]).
  rw run_bind. change (Storage.GetTransaction id w) with (Memory.GetTransaction id w).
  rw run_GetTransaction (proj1 Hs) (run_bind_ret _ _ _ _ _ (run_deref_tx _ _ _ _ Hs)).
  destruct (_ =?s DepositTypeWithdrawal); cbn [negb andb]; [|done].
  destruct (_ =? TransactionStatusPending); cbn [negb]; done.
Qed.
End Button.

(** ** The pending withdrawal of the settlement examples *)
Lemma settle_button_iff_witness :
  can_settle demo_withdrawal = true ↔
  (check_settlement "w1" WebhookEventWithdrawalCompleted demo_pending).1 = Ret (inl (1%positive, true)).
Proof.
  apply (settle_button_iff "w1" 1%positive demo_withdrawal WebhookEventWithdrawalCompleted demo_pending).
  - split; by vm_compute.
  - by left.
Defined.
