(* ===== verification/RoutesFacts.v ===== *)
(** * What the listeners serve, and to whom *)
From S2P Require Import Prelude GoFloat GoStd Crypto GoText Urls Config World Api Auth AuthFacts Routes Demo.

(** ** Patterns *)
Fixpoint overlap (p q : list string) : bool :=
  match p, q with
  | [], [] => true
  | a :: p, b :: q =>
      (match placeholder a, placeholder b with None, None => a =?s b | _, _ => true end) && overlap p q
  | _, _ => false
  end.

Lemma match_overlap p q path ps qs :
  bind_segments p path = Some ps → bind_segments q path = Some qs → overlap p q = true.
Proof.
  revert q path ps qs. induction p as [|a p IH]; intros [|b q] [|s path] ps qs; try done.
  cbn [bind_segments overlap]. intros Hp Hq.
  assert (overlap p q = true) as ->.
  { destruct (placeholder a), (placeholder b).
    - apply fmap_Some in Hp as (? & Hp & _). apply fmap_Some in Hq as (? & Hq & _). by eapply IH.
    - apply fmap_Some in Hp as (? & Hp & _). destruct (b =?s s); [by eapply IH|done].
    - apply fmap_Some in Hq as (? & Hq & _). destruct (a =?s s); [by eapply IH|done].
    - destruct (a =?s s), (b =?s s); try done. by eapply IH. }
  rw andb_true_r. destruct (placeholder a), (placeholder b); try done.
  destruct (a =?s s) eqn:Ha; [|done]. destruct (b =?s s) eqn:Hb; [|done].
  apply str_eqb_eq in Ha as ->. apply str_eqb_eq in Hb as ->. by apply str_eqb_eq.
Qed.

(** The routes of two tables that a request could both match. *)
Definition clash (r s : Route) : bool :=
  (Method r =?s Method s) && overlap (Split "/" (Pattern r)) (Split "/" (Pattern s)).
Definition clashes (a b : list Route) : list (Route * Route) :=
  filter (λ rs, clash rs.1 rs.2 = true) (list_prod a b).

Lemma matched_both a b r s method path ps qs :
  r ∈ a → s ∈ b → Method r = method → Method s = method →
  match_pattern (Pattern r) path = Some ps → match_pattern (Pattern s) path = Some qs →
  (r, s) ∈ clashes a b.
Proof.
  intros Hr Hs Hm Hm' Hp Hq. unfold clashes. apply list_elem_of_filter. split.
  - unfold clash. cbn [fst snd]. apply andb_true_iff. split; [apply str_eqb_eq; congruence|].
    by eapply match_overlap.
  - apply list_elem_of_In, in_prod; by apply list_elem_of_In.
Qed.

Lemma tables_unambiguous :
  clashes setupRoutes setupRoutes = map (λ r, (r, r)) setupRoutes
  ∧ clashes setupAdminRoutes setupAdminRoutes = map (λ r, (r, r)) setupAdminRoutes
  ∧ clashes setupRoutes setupAdminRoutes = [(Get "/health" HealthCheck, Get "/health" HealthCheck)].
Proof. vm_compute. done. Qed.

(** ** Paths as sent and as decoded *)
Fixpoint literals (pattern : list string) : list string :=
  match pattern with
  | [] => []
  | p :: pattern => match placeholder p with None => p :: literals pattern | Some _ => [] end
  end.
Definition literal (pattern : list string) : bool :=
  forallb (λ p, match placeholder p with None => true | Some _ => false end) pattern.

Lemma bind_literals pattern path ps :
  bind_segments pattern path = Some ps →
  ∃ rest, path = literals pattern ++ rest ∧ (literal pattern = true → rest = [] ∧ ps = [])
        ∧ (literal pattern = false → rest ≠ []).
Proof.
  revert path ps. induction pattern as [|p pattern IH]; intros [|s path] ps; try done.
  { intros [= <-]. by exists []. }
  cbn [bind_segments literals literal forallb]. destruct (placeholder p).
  - intros Hm. exists (s :: path). done.
  - destruct (p =?s s) eqn:Hp; [|done]. apply str_eqb_eq in Hp as ->. intros Hm.
    apply IH in Hm as (rest & -> & Hl & Hr). by exists rest.
Qed.

Definition plain (s : string) : bool := forallb (fun c => negb (is_char "%" c)) (chars s).
Lemma unescape_plain_prefix a b :
  plain a = true → unescape_path (a +:+ b) = (λ s, a +:+ s) <$> unescape_path b.
Proof.
  intros Ha. unfold unescape_path. rw chars_app (unescape_plain _ _ Ha).
  destruct (unescape_chars false (chars b)) as [l|]; [|done]. cbn. f_equal.
  apply chars_inj. by rw chars_app !chars_of_chars.
Qed.
Lemma str_app_empty a : a +:+ "" = a.
Proof. apply chars_inj. by rw chars_app app_nil_r. Qed.
Lemma unescape_plain_all a : plain a = true → unescape_path a = Some a.
Proof.
  intros Ha. rewrite -{1}(str_app_empty a) (unescape_plain_prefix _ _ Ha). cbn.
  by rw str_app_empty.
Qed.

(** ** What the public paths open *)

(** The text before the first placeholder. *)
Definition lead (pattern : list string) : string := Join "/" (literals pattern ++ [""]).

Lemma Join_lead ls rest :
  rest ≠ [] → Join "/" (ls ++ rest) = Join "/" (ls ++ [""]) +:+ Join "/" rest.
Proof.
  intros Hr. induction ls as [|l ls IH]; [done|]. cbn [app].
  destruct (ls ++ rest) as [|a tl] eqn:Ha; [by destruct ls, rest|].
  destruct (ls ++ [""]) as [|b tl'] eqn:Hb; [by destruct ls|].
  change (Join "/" (l :: a :: tl)) with (l +:+ "/" +:+ Join "/" (a :: tl)).
  change (Join "/" (l :: b :: tl')) with (l +:+ "/" +:+ Join "/" (b :: tl')).
  rw IH !str_app_assoc. done.
Qed.

(** The path of a match: the pattern itself, or its lead and more. *)
Lemma matched_path pattern path ps :
  match_pattern pattern path = Some ps →
  let segments := Split "/" pattern in
  (literal segments = true ∧ path = pattern ∧ ps = [])
  ∨ (literal segments = false ∧ ∃ rest, path = lead segments +:+ rest).
Proof.
  cbv zeta. unfold match_pattern. intros Hm. apply bind_literals in Hm as (rest & Hpath & Hl & Hr).
  rewrite -(Join_Split "/" path) Hpath.
  destruct (literal (Split "/" pattern)) eqn:Hlit.
  - left. destruct (Hl eq_refl) as [-> ->]. split; [done|]. split; [|done].
    rw app_nil_r. rewrite -{2}(Join_Split "/" pattern). f_equal.
    clear -Hlit. induction (Split "/" pattern) as [|p l IH]; [done|].
    cbn [literal forallb literals] in *. destruct (placeholder p); [done|]. f_equal. by apply IH.
  - right. split; [done|]. exists (Join "/" rest). unfold lead. by apply Join_lead, Hr.
Qed.

(** A route of the application port is public, is the token endpoint, or has a
    lead that no public path begins with. *)
Definition token_route : Route := Post "/cards/v1/token/{tokenType}" GetCardToken.
Definition closed (r : Route) : bool :=
  let segments := Split "/" (Pattern r) in
  plain (lead segments) && plain (Pattern r)
  && (if literal segments then true
      else forallb (fun p => negb (HasPrefix (lead segments) p)) PublicEndpoints).
Lemma application_closed r : r ∈ setupRoutes → closed r = false → r = token_route.
Proof.
  intros Hr Hc. apply list_elem_of_singleton.
  assert (filter (λ r, closed r = false) setupRoutes = [token_route]) as <- by (vm_compute; done).
  by apply list_elem_of_filter.
Qed.
Lemma public_plain p : In p PublicEndpoints → plain p = true.
Proof. apply (proj1 (forallb_forall plain PublicEndpoints)). by vm_compute. Qed.

Definition served_token_types : list string := ["card-data"; "pin"; "pin-change"].

Lemma prefix_append a b : HasPrefix a (a +:+ b) = true.
Proof.
  unfold HasPrefix. induction a as [|c a IH]; [by destruct b|].
  change (String c a +:+ b) with (String c (a +:+ b)). cbn. by destruct (ascii_dec c c).
Qed.

Lemma token_of_public path v :
  In path PublicEndpoints → unescape_path ("/cards/v1/token/" +:+ v) = Some path →
  v ∉ served_token_types.
Proof.
  intros Hp Hu Hv. unfold served_token_types in Hv. rewrite !elem_of_cons in Hv.
  destruct Hv as [-> | [-> | [-> | []%not_elem_of_nil]]]; vm_compute in Hu; injection Hu as <-;
    vm_compute in Hp; by intuition.
Qed.

(** A path sent in any way, which decodes to a public one, and the route it
    matches. *)
Lemma public_reach sent path r ps :
  unescape_path sent = Some path → In path PublicEndpoints →
  r ∈ setupRoutes → match_pattern (Pattern r) sent = Some ps →
  In (Pattern r) PublicEndpoints ∧ sent = Pattern r ∧ ps = []
  ∨ r = token_route ∧ ∃ v, ps = [("tokenType", v)] ∧ v ∉ served_token_types.
Proof.
  intros Hu Hp Hr Hm. destruct (closed r) eqn:Hc; cycle 1.
  - right. pose proof (application_closed r Hr Hc) as ->. split; [done|].
    cbn [token_route Post Pattern] in Hm. unfold match_pattern in Hm.
    pose proof (Join_Split "/" sent) as Hj.
    change (Split "/" "/cards/v1/token/{tokenType}") with [""; "cards"; "v1"; "token"; "{tokenType}"] in Hm.
    destruct (Split "/" sent) as [|s0 [|s1 [|s2 [|s3 [|v [|? ?]]]]]]; try done;
      cbn [bind_segments placeholder chars] in Hm.
    all: repeat match type of Hm with (if ?c then _ else None) = _ => destruct c eqn:?; [|done] end.
    all: try done.
    repeat match goal with H : (_ =?s _) = true |- _ => apply str_eqb_eq in H as <- end.
    exists v. cbn in Hm. injection Hm as <-. split; [done|].
    apply (token_of_public path v Hp). rewrite -Hu -Hj. done.
  - left. apply andb_prop in Hc as [[Hpl Hpp]%andb_prop Hc].
    destruct (matched_path _ _ _ Hm) as [(Hlit & -> & ->)|(Hlit & rest & ->)].
    + rewrite (unescape_plain_all _ Hpp) in Hu. by injection Hu as <-.
    + rewrite Hlit in Hc. rewrite (unescape_plain_prefix _ _ Hpl) in Hu.
      destruct (unescape_path rest) as [s|]; [|done]. cbn in Hu. injection Hu as <-.
      rewrite forallb_forall in Hc. specialize (Hc _ Hp). by rewrite prefix_append in Hc.
Qed.

(** ** A router by first match *)
Fixpoint first_match (table : list Route) (method path : string) : option (Route * Params) :=
  match table with
  | [] => None
  | r :: table =>
      if Method r =?s method then
        match match_pattern (Pattern r) path with
        | Some ps => Some (r, ps)
        | None => first_match table method path
        end
      else first_match table method path
  end.
Lemma first_match_sound table method path r ps :
  first_match table method path = Some (r, ps) →
  r ∈ table ∧ Method r = method ∧ match_pattern (Pattern r) path = Some ps.
Proof.
  induction table as [|s table IH]; [done|]. cbn [first_match].
  assert (first_match table method path = Some (r, ps) →
    r ∈ s :: table ∧ Method r = method ∧ match_pattern (Pattern r) path = Some ps) as Hlater.
  { intros Hf. destruct (IH Hf) as (Hr & Hrest). split; [by right|done]. }
  destruct (Method s =?s method) eqn:Hm; [|done].
  destruct (match_pattern (Pattern s) path) as [qs|] eqn:Hq; [|done].
  intros [= <- <-]. apply str_eqb_eq in Hm. split; [by left|done].
Qed.
Lemma first_match_complete table method path r ps :
  r ∈ table → Method r = method → match_pattern (Pattern r) path = Some ps →
  Forall (λ kv, kv.2 ≠ "") ps → is_Some (first_match table method path).
Proof.
  intros Hr Hm Hp _. induction table as [|s table IH]; [by apply not_elem_of_nil in Hr|].
  cbn [first_match]. apply elem_of_cons in Hr as [<- | Hr].
  - rw (proj2 (str_eqb_eq _ _) Hm) Hp. by eexists.
  - specialize (IH Hr). destruct (Method s =?s method); [|exact IH].
    destruct (match_pattern (Pattern s) path); [by eexists|exact IH].
Qed.
Definition first_match_mux : Mux :=
  {| mux_find := first_match; mux_sound := first_match_sound; mux_complete := first_match_complete;
     mux_not_allowed table path :=
       if existsb (λ r, if match_pattern (Pattern r) path then true else false) table
       then Some (mkResponse 405 [] BodyNone) else None |}.

(** ** What the listeners do *)
Section Listeners.
Context `{Mux}.

Lemma dispatched table r h ps :
  dispatch table r = Dispatched h ps →
  ∃ route, route ∈ table ∧ Method route = in_method (incoming r) ∧ To route = h
         ∧ match_pattern (Pattern route) (route_path r) = Some ps.
Proof.
  unfold dispatch. destruct (mux_find _ _ _) as [[route qs]|] eqn:Hf; [|done].
  intros [= <- <-]. apply mux_sound in Hf as (? & ? & ?). by exists route.
Qed.
Lemma dispatches table r route ps :
  clashes table table = map (λ r, (r, r)) table →
  route ∈ table → Method route = in_method (incoming r) →
  match_pattern (Pattern route) (route_path r) = Some ps → Forall (λ kv, kv.2 ≠ "") ps →
  dispatch table r = Dispatched (To route) ps.
Proof.
  intros Htable Hr Hm Hp Hps. unfold dispatch.
  destruct (mux_complete _ _ _ _ _ Hr Hm Hp Hps) as [[route' qs] Hf]. rw Hf.
  apply mux_sound in Hf as (Hr' & Hm' & Hq).
  pose proof (matched_both _ _ _ _ _ _ _ _ Hr Hr' Hm Hm' Hp Hq) as Hc. rewrite Htable in Hc.
  apply list_elem_of_fmap in Hc as (x & [= -> ->] & _). congruence.
Qed.

Lemma admitted_by_path cfg r h ps :
  EnforceAuthentication cfg = true → application cfg r = Dispatched h ps →
  (public (in_path (incoming r)) = true ∨ signed (ValidCredentials cfg) (incoming r))
  ∧ dispatch setupRoutes r = Dispatched h ps.
Proof.
  unfold application. intros ->. destruct (Middleware _ _) eqn:Hm; [done|]. intros Hd.
  split; [by apply admitted_iff|done].
Qed.

Lemma public_in path : public path = true → In path PublicEndpoints.
Proof.
  unfold public, matchesPublicPattern, PublicEndpointPatterns. rw orb_false_r.
  intros [p [Hp ->%str_eqb_eq]]%existsb_exists. done.
Qed.

(** The path a target was sent as decodes to its path, when that has nothing to
    decode. *)
Lemma sent_decodes target r :
  sent_to target r → plain (in_path (incoming r)) = true → in_path (incoming r) ≠ "" →
  unescape_path (route_path r) = Some (in_path (incoming r)).
Proof.
  unfold sent_to, setPath, route_path. destruct (unescape_path target) as [path|] eqn:Hu; [|done].
  intros [= Hp Hraw] Hpl Hne. rewrite -Hraw. destruct (escape_path path =?s target).
  - rewrite (str_eqb_ne _ _ Hne). by apply unescape_plain_all.
  - destruct (target =?s "") eqn:Ht.
    + apply str_eqb_eq in Ht as ->. injection Hu as <-. by rewrite -Hp in Hne.
    + by rewrite Ht Hu Hp.
Qed.
(** The routes of the application port whose path is public. *)
Definition open_routes : list Route :=
  filter (λ r, bool_decide (Pattern r ∈ PublicEndpoints) = true) setupRoutes.

Lemma open_route_literal r : r ∈ open_routes → match_pattern (Pattern r) (Pattern r) = Some [].
Proof.
  revert r. apply Forall_forall.
  assert (forallb (λ r, bool_decide (match_pattern (Pattern r) (Pattern r) = Some [])) open_routes = true)
    as Hall by (vm_compute; done).
  apply Forall_forall. intros r Hr. rewrite forallb_forall in Hall.
  specialize (Hall r (proj1 (list_elem_of_In _ _) Hr)). by apply bool_decide_eq_true in Hall.
Qed.

(** A public path is served without credentials. *)
Lemma public_served cfg r :
  In (in_path (incoming r)) PublicEndpoints → application cfg r = dispatch setupRoutes r.
Proof.
  intros Hp. unfold application. destruct (EnforceAuthentication cfg); [|done].
  rewrite (proj2 (admitted_iff _ _)); [done|]. left. unfold public. apply orb_true_iff. left.
  apply existsb_exists. eexists. split; [exact Hp|by apply str_eqb_eq].
Qed.

Lemma public_as_sent p : In p PublicEndpoints → setPath p = Some (p, "").
Proof.
  revert p. apply (List.Forall_forall (fun p => setPath p = Some (p, ""))).
  unfold PublicEndpoints. repeat (apply List.Forall_cons; [reflexivity|]). by constructor.
Qed.

Lemma open_route_served cfg r route :
  route ∈ open_routes → Method route = in_method (incoming r) → sent_to (Pattern route) r →
  application cfg r = Dispatched (To route) [].
Proof.
  intros Hr Hm Hsent. pose proof (open_route_literal route Hr) as Hmatch.
  apply list_elem_of_filter in Hr as [Hin%bool_decide_eq_true Hr].
  apply list_elem_of_In in Hin. unfold sent_to in Hsent. rewrite (public_as_sent _ Hin) in Hsent.
  injection Hsent as Hpath Hraw. rewrite public_served; [|by rewrite -Hpath].
  apply dispatches; [apply tables_unambiguous|done..| |constructor].
  unfold route_path. rewrite -Hraw -Hpath. cbn.
  rewrite (str_eqb_ne (Pattern route) ""); [done|]. intros Hn. rewrite Hn in Hin.
  vm_compute in Hin. by intuition.
Qed.

Lemma stranger_dispatch cfg target r h ps :
  EnforceAuthentication cfg = true → sent_to target r →
  ¬ signed (ValidCredentials cfg) (incoming r) → application cfg r = Dispatched h ps →
  (∃ route, route ∈ open_routes ∧ Method route = in_method (incoming r) ∧ To route = h
          ∧ Pattern route = in_path (incoming r) ∧ ps = [])
  ∨ h = GetCardToken ∧ ∃ v, ps = [("tokenType", v)] ∧ v ∉ served_token_types.
Proof.
  intros He Hsent Hns Happ. destruct (admitted_by_path _ _ _ _ He Happ) as [[Hp|?] Hd]; [|done].
  apply public_in in Hp. apply dispatched in Hd as (route & Hr & Hm & <- & Hmatch).
  assert (unescape_path (route_path r) = Some (in_path (incoming r))) as Hu.
  { apply (sent_decodes target); [done|by apply public_plain|]. intros Hn. rewrite Hn in Hp.
    vm_compute in Hp. by intuition. }
  destruct (public_reach _ _ _ _ Hu Hp Hr Hmatch) as [(Hin & Hpat & ->)|(-> & v & Hps)].
  - left. exists route. split.
    { apply list_elem_of_filter. split; [|done]. by apply bool_decide_eq_true, list_elem_of_In. }
    do 2 (split; [done|]). split; [|done]. rewrite Hpat in Hu.
    rewrite (unescape_plain_all _ (public_plain _ Hin)) in Hu. by injection Hu.
  - right. split; [done|]. by exists v.
Qed.

(** C8. What the application port serves to strangers.  With authentication on, a
    request that carries no valid signature is dispatched only to a route whose
    path is public, sent as it is, or to the token endpoint with a token type
    it does not serve.  Each public route is open to everybody, and the
    exception is real: a slash sent escaped makes a public path for the
    middleware and a token type for the router. *)
Theorem open_endpoints cfg target r :
  EnforceAuthentication cfg = true → sent_to target r →
  (∀ h ps, ¬ signed (ValidCredentials cfg) (incoming r) → application cfg r = Dispatched h ps →
     (∃ route, route ∈ open_routes ∧ Method route = in_method (incoming r) ∧ To route = h
             ∧ Pattern route = in_path (incoming r) ∧ ps = [])
     ∨ h = GetCardToken ∧ ∃ v, ps = [("tokenType", v)] ∧ v ∉ served_token_types)
  ∧ (∀ route, route ∈ open_routes → Method route = in_method (incoming r) → target = Pattern route →
       application cfg r = Dispatched (To route) [])
  ∧ (in_method (incoming r) = "POST" → target = "/cards/v1/token/pin%2Fdata" →
       application cfg r = Dispatched GetCardToken [("tokenType", "pin%2Fdata")]).
Proof.
  intros He Hsent. split; [|split].
  - intros h ps Hns Happ. by eapply stranger_dispatch.
  - intros route Hr Hm ->. by apply open_route_served.
  - intros Hm ->. injection Hsent as Hpath Hraw. rewrite public_served.
    + apply (dispatches setupRoutes r token_route); [apply tables_unambiguous| | |..].
      * apply list_elem_of_In. vm_compute. tauto.
      * by rewrite Hm.
      * unfold route_path. rewrite -Hraw. reflexivity.
      * by repeat constructor.
    + rewrite -Hpath. vm_compute. tauto.
Qed.

(** C40. The two listeners.  Whatever both of them would serve is the health
    check; on each of them the routes that match a request are one route, so
    what is served does not depend on the order of the table; and no preflight
    request is served by either. *)
Theorem listeners_apart cfg r :
  (∀ h ps h' ps', application cfg r = Dispatched h ps → admin r = Dispatched h' ps' →
     h = HealthCheck ∧ h' = HealthCheck ∧ in_method (incoming r) = "GET")
  ∧ (∀ table route ps, table ∈ [setupRoutes; setupAdminRoutes] → route ∈ table →
       Method route = in_method (incoming r) →
       match_pattern (Pattern route) (route_path r) = Some ps → Forall (λ kv, kv.2 ≠ "") ps →
       dispatch table r = Dispatched (To route) ps)
  ∧ (in_method (incoming r) = "OPTIONS" →
       dispatch setupRoutes r = NoRoute ∧ dispatch setupAdminRoutes r = NoRoute).
Proof.
  split; [|split].
  - intros h ps h' ps' Ha Hb. assert (dispatch setupRoutes r = Dispatched h ps) as Hd.
    { unfold application in Ha. destruct (EnforceAuthentication cfg); [|done].
      by destruct (Middleware _ _). }
    apply dispatched in Hd as (a & Hina & Hma & <- & Hpa).
    apply dispatched in Hb as (b & Hinb & Hmb & <- & Hpb).
    pose proof (matched_both _ _ _ _ _ _ _ _ Hina Hinb Hma Hmb Hpa Hpb) as Hc.
    rewrite (proj2 (proj2 tables_unambiguous)) in Hc.
    apply list_elem_of_singleton in Hc. by injection Hc as -> ->.
  - intros table route ps Ht Hr Hm Hp Hps. apply dispatches; try done.
    rewrite !elem_of_cons in Ht. destruct Ht as [-> | [-> | []%not_elem_of_nil]]; apply tables_unambiguous.
  - intros Hm.
    assert (∀ table, forallb (λ r, negb (Method r =?s "OPTIONS")) table = true →
      dispatch table r = NoRoute) as Hno.
    { intros table Hall. destruct (dispatch table r) as [answer|h ps|] eqn:Hd; [|exfalso|done].
      - unfold dispatch in Hd. by destruct (mux_find _ _ _) as [[]|].
      - apply dispatched in Hd as (route & Hr & Hm' & _). rewrite forallb_forall in Hall.
        specialize (Hall route (proj1 (list_elem_of_In _ _) Hr)).
        by rewrite (proj2 (str_eqb_eq _ _) (eq_trans Hm' Hm)) in Hall. }
    split; apply Hno; by vm_compute.
Qed.
End Listeners.

(** ** A stranger at the health check *)
Definition demo_request : HttpRequest :=
  mkRequest (mkIncoming "GET" "/health" "" "localhost:8080" false (fun _ => "") (Ok "")) "".
Definition strict_config : Config := demo_config <| EnforceAuthentication := true |>.
Lemma open_endpoints_witness :
  (∃ route, route ∈ open_routes ∧ Method route = "GET" ∧ To route = HealthCheck
          ∧ Pattern route = "/health" ∧ @nil (string * string) = [])
  ∨ HealthCheck = GetCardToken
    ∧ ∃ v, [] = [("tokenType", v)] ∧ v ∉ served_token_types.
Proof.
  apply (proj1 (open_endpoints (H := first_match_mux) strict_config "/health" demo_request eq_refl eq_refl)).
  - intros [Hid _]. by apply Hid.
  - by vm_compute.
Defined.
