(* ===== verification/RequestFacts.v ===== *)
(** * What becomes of a request's body

    A request a client marshals is the request the handler decodes, and a body
    that is no JSON is refused before anything happens. *)
From S2P Require Import Prelude GoFloat GoStd Crypto GoText Urls JsonText Codec Stored.
From S2P Require Import Consts Models Config World Memory Api Webhook Utils Frames Auth CardTokens.
From S2P Require Import Demo CardTokenFacts Requests Routes Server.
From S2P Require Identity Core Session Fees Cards CardOps Withdrawals Payments.
From S2P Require CardScenarios CardSim.
From S2P Require Storage.

(** ** Round trips *)

(** The text of [x] is decoded to [x], whatever follows it. *)
Definition carried {T} (c : codec T) (x : T) : Prop :=
  ∀ rest, ends (chars rest) → decodeJSON c (Ok (json_text (enc c x) +:+ rest)) = Some x.

Lemma read_carried {T} (c : codec T) x :
  readable (enc c x) = true → json_depth (enc c x) <= max_depth →
  dec c (read_back (enc c x)) (zero c) = Some x → carried c x.
Proof.
  intros Hr Hd Hdec rest Hrest. unfold decodeJSON, first_value. rw chars_app.
  rw (all_values_read (enc c x) 0 (chars rest) Hr); [exact Hdec|lia|exact Hrest|lia].
Qed.

Lemma lawful_carried {T} d (c : codec T) x :
  lawful d c → d <= max_depth → codec_ok c x = true → carried c x.
Proof.
  intros Hc Hd Hx. pose proof (law_depth _ _ Hc x).
  apply read_carried; [by apply (law_readable _ _ Hc)|lia|by apply (law_dec _ _ Hc)].
Qed.

(** A struct decodes into the zero value, where the members left out are. *)
Lemma struct_carried {R} (fs : list (field R)) (z r : R) :
  NoDup (map f_name fs) → Forall (λ f, lawful 0 (f_codec f)) fs → set_written r z fs = r →
  codec_ok (c_struct fs z) r = true → carried (c_struct fs z) r.
Proof.
  intros Hnd Hlaw Hset Hok. apply read_carried.
  - by apply (struct_readable fs 0).
  - transitivity (1 + 0); [by apply struct_depth|done].
  - by apply (struct_decodes fs 0).
Qed.

Ltac carried_struct :=
  let r := fresh in
  intros r ?; apply struct_carried;
  [by apply (bool_decide_unpack _); vm_compute|field_laws|destruct r; cbn -[str_eqb]; reflexivity|done].
(** The same, for structs with members that may be left out. *)
Ltac carried_omit :=
  let r := fresh in
  intros r ?; apply struct_carried;
  [by apply (bool_decide_unpack _); vm_compute|field_laws
  |destruct r; cbn -[str_eqb]; repeat match goal with o : option _ |- _ => destruct o end;
   cbn -[str_eqb]; repeat (case_match; case_go; subst; cbn -[str_eqb]); done|done].

(** The handlers read what clients write: for every request type below, the
    text of a request whose strings are UTF-8 and whose numbers fit, with
    anything after it that does not continue a number, is decoded to that
    request. *)
Lemma requests_carried :
  (∀ r, codec_ok c_CreateManagedUserRequest r = true → carried c_CreateManagedUserRequest r)
  ∧ (∀ r, codec_ok c_UpdateEmailRequest r = true → carried c_UpdateEmailRequest r)
  ∧ (∀ r, codec_ok c_UpdateKYCStateRequest r = true → carried c_UpdateKYCStateRequest r)
  ∧ (∀ r, codec_ok c_CreateWalletRequest r = true → carried c_CreateWalletRequest r)
  ∧ (∀ r, codec_ok c_CreateTransactionRequest r = true → carried c_CreateTransactionRequest r)
  ∧ (∀ r, codec_ok c_UpdateOrganizationConfigurationRequest r = true →
       carried c_UpdateOrganizationConfigurationRequest r)
  ∧ (∀ r, codec_ok c_GetCardTokenArgs r = true → carried c_GetCardTokenArgs r)
  ∧ (∀ r, codec_ok c_CreateCardTransactionArgs r = true → carried c_CreateCardTransactionArgs r)
  ∧ (∀ r, codec_ok c_StatusRequest r = true → carried c_StatusRequest r)
  ∧ (∀ r, codec_ok c_EventRequest r = true → carried c_EventRequest r)
  ∧ (∀ r, codec_ok c_CypherRequest r = true → carried c_CypherRequest r)
  ∧ (∀ r, codec_ok c_RiskLevelRequest r = true → carried c_RiskLevelRequest r)
  ∧ (∀ r, codec_ok c_KYCStateRequest r = true → carried c_KYCStateRequest r)
  ∧ (∀ r, codec_ok c_feeResponse r = true → carried c_feeResponse r)
  ∧ (∀ r, codec_ok c_ChallengeRequest r = true → carried c_ChallengeRequest r)
  ∧ (∀ l, codec_ok (c_slice c_CardLimit) l = true → carried (c_slice c_CardLimit) l).
Proof.
  split_and!; try (carried_struct; fail); try (carried_omit; fail).
  intros l. apply (lawful_carried _ _ _ (slice_lawful _ _ CardLimit_lawful ltac:(lia))). done.
Qed.

(** ** Bodies that are no JSON *)

(** The world but for the counter of the clock and the random source. *)
Definition quiet (w : World MemoryStorage) : World MemoryStorage := w <| w_ticks := 0%nat |>.
#[export] Instance quiet_ticks : BlindTicks quiet.
Proof. done. Qed.

Definition reads_body (h : Handler) : bool :=
  match h with
  | CreateManagedUser | UpdateManagedUserEmail | UpdateOrganizationConfiguration | UpdateKYCState
  | OverrideRiskLevel | CreateWallet | CreateTransaction | UpdateCardLimits | CreateCustomer
  | CreateManagedCustomer | CreateCustomerAddress | GetCardToken | SetCardPin | CreateCardTransaction
  | CreateThreeDSChallenge | ConfirmThreeDS | SetFees | SetUserFees | SetUserKYCStateQuiet
  | TriggerWithdrawalEvent | SimulateCardTransaction | SetCardTransactionStatus => true
  | _ => false
  end.
Definition unreadable (body : result string) : bool :=
  match body with Ok text => match first_value text with Some _ => false | None => true end | Err _ => true end.

Lemma unreadable_decoded {T} (c : codec T) body : unreadable body = true → decodeJSON c body = None.
Proof. unfold unreadable, decodeJSON. destruct body as [text|]; [|done]. by destruct (first_value text). Qed.

Definition refusal (r : Response) : Prop := 400 <= resp_status r.

(** Follows the code of a handler to its answers: each is a refusal. *)
Ltac refuse :=
  repeat lazymatch goal with
  | |- yields _ (mret (sendError _ _)) => apply yields_mret; unfold refusal; rw sendError_status; done
  | |- yields _ (mret unauthorized_token) => unfold unauthorized_token
  | |- yields _ (mret _) => apply yields_mret
  | |- yields _ (mbind _ _) => apply (yields_bind (λ _, True)); [apply yields_any|intros]
  | |- yields _ (let _ := _ in _) => cbv zeta
  | |- yields _ (match ?x with _ => _ end) => destruct x
  | |- forall _, _ => intros
  | |- yields _ ?m => let h := head_of m in unfold h; cbn [fmap option_fmap option_map]; cbv beta iota zeta
  end.

Section Unreadable.
Context `{Env} `{Rsa}.
Context (cardScenarioIndex : list CardScenarios.CardTxScenario) (file_exists : string → bool).
Context (multipart : string → string → list (string * string)).
Abbreviation handle := (handle (S := MemoryStorage) cardScenarioIndex file_exists multipart).

Lemma unreadable_refused r ps h :
  reads_body h = true → unreadable (in_body (incoming r)) = true → yields refusal (handle r ps h).
Proof.
  intros Hh Hu. destruct h; try discriminate Hh; cbn [Server.handle]; rw ?unreadable_decoded //;
    try apply yields_in_world; cbn [fmap option_fmap option_map]; refuse.
Qed.

Lemma unreadable_keeps r ps h :
  reads_body h = true → unreadable (in_body (incoming r)) = true →
  keeps (λ p, quiet (p_world p)) (handle r ps h).
Proof.
  intros Hh Hu. destruct h; try discriminate Hh; cbn [Server.handle]; rw ?unreadable_decoded //;
    cbn [fmap option_fmap option_map]; keep_process quiet.
Qed.

End Unreadable.

(** ** Examples *)
Definition broken_signup : HttpRequest :=
  mkRequest (mkIncoming "POST" "/auth/v1/users/managed" "" "localhost" false (fun _ => "")
               (Ok "{'email': 1}")) "".
