(* ===== verification/ServerFacts.v ===== *)
(** * What the service guarantees as a whole

    Routing, authentication, the handlers and the in-memory storage together:
    which requests can move money, and what a stranger can do. *)
From S2P Require Import Prelude GoFloat GoStd Crypto GoText Urls Consts Models Config World Memory Api.
From S2P Require Import Fees Webhook Utils Frames Auth AuthFacts CardTokens CardTokenFacts.
From S2P Require Import Demo WithdrawalFacts Requests Routes RoutesFacts Server.
From S2P Require Identity Core Session Rates Sink Statements Cards CardOps Withdrawals Payments.
From S2P Require CardScenarios CardSim Ui.
From S2P Require Storage.

(** ** What the service reads of a route is there *)
Lemma placeholders_supplied :
  Forall (λ r, Forall (λ k, existsb (λ s, bool_decide (placeholder s = Some k)) (Split "/" (Pattern r)) = true)
                 (reads (To r))) (setupRoutes ++ setupAdminRoutes).
Proof. apply Forall_forall. intros r Hr. revert r Hr. apply Forall_forall. vm_compute. repeat constructor. Qed.

Section Pieces.
Context `{Env}.

(** ** The pieces handlers share

    [money] is the books and the bearer tokens the service has issued. *)
Definition money (w : World MemoryStorage) := (books w, w_tokens w).
#[export] Instance money_ticks : BlindTicks money.
Proof. done. Qed.
#[export] Instance money_tasks : BlindTasks money.
Proof. done. Qed.
#[export] Instance money_User : BlindHeap money User.
Proof. done. Qed.
#[export] Instance money_Card : BlindHeap money Card.
Proof. done. Qed.
Lemma keeps_money_SendAsync e u d o : keeps money (SendAsync (S := MemoryStorage) e u d o).
Proof. keep. Qed.
Lemma keeps_money_verify2FA u c : keeps money (Identity.verify2FA (S := MemoryStorage) u c).
Proof. keep. Qed.
Lemma keeps_HasURL m : keeps books (org_base_url (S := MemoryStorage) m).
Proof. keep. Qed.
Lemma keeps_SendAsync e u d o : keeps books (SendAsync (S := MemoryStorage) e u d o).
Proof. keep. Qed.
Lemma keeps_verify2FA u c : keeps books (Identity.verify2FA (S := MemoryStorage) u c).
Proof. keep. Qed.
Lemma keeps_GetUser id : keeps books (Memory.GetUser id).
Proof. keep. Qed.
End Pieces.
#[local] Hint Resolve keeps_HasURL keeps_SendAsync keeps_verify2FA keeps_GetUser keeps_money_SendAsync
  keeps_money_verify2FA : keeps.

Section Server.
Context `{Env} `{Rsa} `{Mux}.
Context (cardScenarioIndex : list CardScenarios.CardTxScenario) (file_exists : string → bool).
Context (multipart : string → string → list (string * string)).
Abbreviation P := (prog (Process MemoryStorage)).
Abbreviation handle := (handle (S := MemoryStorage) cardScenarioIndex file_exists multipart).
Abbreviation respond := (respond (S := MemoryStorage) cardScenarioIndex file_exists multipart).

(** The handlers of payments: the iframe's, the API's and the two settlements. *)
Definition pays (h : Handler) : bool :=
  match h with
  | TransactionCompleteHandler | CreateTransaction | TriggerWithdrawalEvent | UIWithdrawalSettle => true
  | _ => false
  end.

Lemma other_handlers_keep r ps h :
  pays h = false → keeps (λ p, books (p_world p)) (handle r ps h).
Proof. intros Hp. destruct h; try discriminate Hp; cbn [Server.handle]; keep_process books. Qed.

(** The requests served one after the other; the router's recoverer answers
    for one that panics, and the next one runs on what it left. *)
Definition serve (cfg : Config) (requests : list (Listener * HttpRequest)) (p : Process MemoryStorage) :
    Process MemoryStorage :=
  fold_left (fun p lr => (respond cfg lr.1 lr.2 p).2) requests p.

Lemma serve_keeps {B} (f : World MemoryStorage → B) (Q : Listener * HttpRequest → Prop) cfg requests p :
  (∀ l r p', Q (l, r) → f (p_world p') = f (p_world p) →
     f (p_world (respond cfg l r p').2) = f (p_world p')) →
  Forall Q requests → f (p_world (serve cfg requests p)) = f (p_world p).
Proof.
  intros Hstep Hrs. unfold serve.
  assert (∀ p', f (p_world p') = f (p_world p) →
    f (p_world (fold_left (fun p lr => (respond cfg lr.1 lr.2 p).2) requests p')) = f (p_world p))
    as Hgen; [|by apply Hgen].
  induction Hrs as [|[l r] rs Hr _ IH]; intros p' Hp'; [done|]. cbn [fold_left fst snd].
  apply IH. by rw Hstep.
Qed.

(** A request that is not dispatched to a payment. *)
Definition no_payment (cfg : Config) (lr : Listener * HttpRequest) : Prop :=
  match decided cfg lr.1 lr.2 with Dispatched h _ => pays h = false | _ => True end.

(** C6. Only payments move money: any sequence of requests on the two ports that
    go to no payment, completion or settlement endpoint, with any method, path,
    query, headers and body and on every path of the handlers, errors and
    panics included, leaves every balance and every transaction as it was. *)
Theorem only_payments_move_money cfg requests p :
  Forall (no_payment cfg) requests → books (p_world (serve cfg requests p)) = books (p_world p).
Proof.
  apply serve_keeps. intros l r p' Hr _. unfold no_payment, Server.respond in *. cbn [fst snd] in Hr.
  destruct (decided cfg l r) as [answer|h ps|]; [done| |done].
  by apply (other_handlers_keep r ps h Hr).
Qed.

(** ** What a stranger can do *)

(** The bearer token a payment callback is read to carry. *)
Definition bearer_sent (r : HttpRequest) : string :=
  let bearer := query r "bearer" in
  let authorization := header r "Authorization" in
  if (bearer =?s "") && negb (authorization =?s "")
  then extractBearerFromAuthHeader authorization else bearer.

Lemma unknown_bearer_pays_nothing r paymentType body w :
  w_tokens w !! bearer_sent r = None →
  ∃ answer,
    Payments.TransactionCompleteHandler (in_method (incoming r)) paymentType (query r "bearer")
      (header r "Authorization") body w = (Ret answer, w).
Proof.
  intros Hb. unfold Payments.TransactionCompleteHandler. fold (bearer_sent r).
  destruct (_ =?s "OPTIONS"); [by eexists|]. cbv zeta.
  fold (bearer_sent r). destruct (bearer_sent r =?s ""); [by eexists|].
  destruct (Payments.validateTransactionRequest body); [|by eexists].
  assert (extractUserFromBearer (S := MemoryStorage) (bearer_sent r) w = (Ret "", w)) as Hu.
  { unfold extractUserFromBearer. rw run_bind run_gets run_mret. by rw Hb. }
  assert (∃ v, Payments.check_sca (S := MemoryStorage) (bearer_sent r) body w = (Ret v, w)) as [v Hv].
  { unfold Payments.check_sca. destruct (Payments.TriggerSCA body); [|by eexists].
    rw (run_bind_ret _ _ _ _ _ Hu). by eexists. }
  rw (run_bind_ret _ _ _ _ _ Hv). destruct v; [|by eexists].
  destruct (_ =?s "deposit"); [|destruct (_ || _); [|by eexists]].
  - unfold Payments.processDeposit. rw (run_bind_ret _ _ _ _ _ Hu). by eexists.
  - unfold Payments.processWithdrawal. rw (run_bind_ret _ _ _ _ _ Hu). by eexists.
Qed.

Definition opens (h : Handler) : bool :=
  match h with
  | RootHandler | TransactionCompleteHandler | HealthCheck | GetUserCurrencies | KYCIframe
  | KYCIframeSubmit | GetCardToken | GetCardData | GetCardPin | SetCardPin | GetCardPinPublicKey => true
  | _ => false
  end.
Lemma open_routes_open route : route ∈ open_routes →
  opens (To route) = true ∧ (To route = TransactionCompleteHandler → Pattern route = "/transaction/complete").
Proof.
  revert route. apply Forall_forall. apply Forall_forall. intros route Hr.
  revert route Hr. apply Forall_forall. vm_compute. repeat constructor; discriminate.
Qed.

Lemma open_handler_keeps r ps h p :
  opens h = true →
  (h = TransactionCompleteHandler → w_tokens (p_world p) !! bearer_sent r = None) →
  money (p_world (handle r ps h p).2) = money (p_world p).
Proof.
  intros Ho Hb. revert p Hb. destruct h; try discriminate Ho; intros p Hb; cbn [Server.handle].
  all: try (lazymatch goal with |- money (p_world (?m ?q).2) = _ =>
              assert (keeps (λ p', money (p_world p')) m) as Hk; [keep_process money|exact (Hk q)] end; fail).
  destruct (unknown_bearer_pays_nothing r (query r "paymentType")
    (transaction_request (in_body (incoming r))) (p_world p)) as [answer Hrun]; [by apply Hb|].
  unfold in_world. by rw Hrun.
Qed.

(** Someone without the secret of an application, who on the payment callback
    has no bearer token among [tokens] either. *)
Definition stranger (cfg : Config) (tokens : gmap string string) (r : HttpRequest) : Prop :=
  (∃ target, sent_to target r) ∧ ¬ signed (ValidCredentials cfg) (incoming r)
  ∧ (in_path (incoming r) = "/transaction/complete" → tokens !! bearer_sent r = None).

(** C5. Strangers move no money: with authentication on, any sequence of requests
    on the application port that carry no valid signature, and on the payment
    callback no token the service has issued, leaves every balance, every
    transaction and the issued tokens as they were. *)
Theorem strangers_move_no_money cfg requests p :
  EnforceAuthentication cfg = true →
  Forall (stranger cfg (w_tokens (p_world p))) requests →
  money (p_world (serve cfg (map (pair Application) requests) p)) = money (p_world p).
Proof.
  intros He Hrs.
  apply (serve_keeps money (λ lr, lr.1 = Application ∧ stranger cfg (w_tokens (p_world p)) lr.2)).
  2: { apply Forall_map. by eapply Forall_impl; [exact Hrs|]. }
  intros l r p' ([= ->] & ([target Hsent] & Hns & Hb)) Hp'. cbn [snd] in *.
  apply (f_equal snd) in Hp' as Htok. cbn [money snd] in Htok.
  unfold Server.respond. cbn [decided]. destruct (application cfg r) as [answer|h ps|] eqn:Happ; [done| |done].
  apply open_handler_keeps.
  - destruct (stranger_dispatch _ _ _ _ _ He Hsent Hns Happ) as [(route & Hr & _ & <- & _)|[-> _]]; [|done].
    by apply open_routes_open.
  - intros ->. rewrite Htok.
    destruct (stranger_dispatch _ _ _ _ _ He Hsent Hns Happ) as [(route & Hr & _ & Ht & Hpat & _)|[? _]]; [|done].
    apply Hb. rewrite -Hpat. by apply open_routes_open.
Qed.
End Server.

(** ** Examples *)
Definition demo_process : Process MemoryStorage := mkProcess demo_pending (mkServiceKeyPair None).
Definition request (method path query body : string) : HttpRequest :=
  mkRequest (mkIncoming method path query "localhost" false (fun _ => "") (Ok body)) "".
Definition no_multipart (contentType body : string) : list (string * string) := [].

(** A stranger asks for the health and posts a deposit under a made-up token. *)
Definition stranger_requests : list HttpRequest :=
  [request "GET" "/health" "" "";
   request "POST" "/transaction/complete" "paymentType=deposit&bearer=guess"
     (json_text (strings_json [("amount", "10"); ("currency", "USD")]))].
Lemma strangers_move_no_money_witness :
  money (p_world (serve (H0 := demo_rsa) (H1 := first_match_mux) [] (fun _ => false) no_multipart
    strict_config (map (pair Application) stranger_requests) demo_process)) = money demo_pending.
Proof.
  apply (strangers_move_no_money (H0 := demo_rsa) (H1 := first_match_mux) [] (fun _ => false) no_multipart
    strict_config stranger_requests demo_process eq_refl).
  assert (∀ m p q b, ¬ signed (ValidCredentials strict_config) (incoming (request m p q b))) as Hno.
  { intros m p q b [Hs _]. by apply Hs. }
  apply Forall_cons. split; [split; [by exists "/health"|split; [apply Hno|done]]|].
  apply Forall_cons. split; [split; [by exists "/transaction/complete"|split; [apply Hno|done]]|done].
Defined.

(** Signing up a user, and reading the fees on the admin port. *)
Definition other_requests : list (Listener * HttpRequest) :=
  [(Application, request "POST" "/auth/v1/users/managed" "" (json_text (strings_json [("email", "a@b.c")])));
   (Admin, request "GET" "/admin/fees" "" "")].
Lemma only_payments_move_money_witness :
  books (p_world (serve (H0 := demo_rsa) (H1 := first_match_mux) [] (fun _ => false) no_multipart
    demo_config other_requests demo_process)) = books demo_pending.
Proof.
  apply (only_payments_move_money (H0 := demo_rsa) (H1 := first_match_mux) [] (fun _ => false) no_multipart
    demo_config other_requests demo_process).
  repeat constructor; vm_compute; reflexivity.
Defined.
