(* ===== verification/NoPanic.v ===== *)
(** * The service does not panic

    The handlers, the goroutines and the start of the service, proved by
    following their code with the rules of [Pointers.v] against [SafeStorage],
    and so for both storages: on the in-memory storage the service answers every
    request at any moment of its life, but for one listing whose page number
    overflows ([far_listing]); on Redis no nil pointer is ever used.  It is
    assumed that [rand.Int] does not fail. *)
From S2P Require Import Prelude GoFloat GoStd GoText Models Config World Memory Api Fees Webhook.
From S2P Require Import Utils Demo CardTokenFacts CardSimFacts Pointers.
From S2P Require Core Session Sink Rates Withdrawals Payments Identity Cards CardOps CardNumbers.
From S2P Require CardTokens CardScenarios CardSim Statements Ui Seeder Tasks Codec.
From S2P Require Server ServerFacts Routes RoutesFacts Boot BootFacts.
From S2P Require Redis RedisServer.
From S2P Require Storage.

Section Handlers.
Context {S : Type} `{EnvLaws} `{!StoreOk S} `{!Storage.Storage S} (ρ : Regime).
Context `{!SafeStorage ρ S} `{CardTokens.Rsa}.
Context (Hmanaged : managed ρ = true) (Hrand : ∀ k m, 0 < m → is_Some (env_int k m)).

(** ** What the handlers share *)
Lemma runs_manager h : runs ρ h (manager (S := S)) any.
Proof.
  intros w [Hm Hs] Hh. destruct (Hm Hmanaged) as [m Hw]. unfold manager.
  by rw run_bind run_gets Hw.
Qed.
#[local] Hint Resolve runs_manager : runs.
Lemma no_panic_org_base_url h m : runs ρ h (org_base_url (S := S) m) any.
Proof. unfold org_base_url. run. Qed.
#[local] Hint Resolve no_panic_org_base_url : runs.
Lemma no_panic_HasURL h : runs ρ h (HasURL (S := S)) any.
Proof. unfold HasURL. run. Qed.
#[local] Hint Resolve no_panic_HasURL : runs.
Lemma no_panic_SendAsync h event user data offset : runs ρ h (SendAsync (S := S) event user data offset) any.
Proof. unfold SendAsync. run. Qed.
#[local] Hint Resolve no_panic_SendAsync : runs.
Lemma no_panic_randomDigits h n : runs ρ h (CardNumbers.randomDigits (S := S) n) any.
Proof.
  revert h. induction n as [|n IH]; intros h; cbn [CardNumbers.randomDigits]; [by apply runs_mret|].
  eapply (runs_bind _ _ _ _ (λ _ num, is_Some num)).
  { intros w Hw Hh. do 2 (split; [done|]). by apply Hrand. }
  intros h1 num _ [d ->]. eapply runs_bind; [apply IH|]. intros. by apply runs_mret.
Qed.
#[local] Hint Resolve no_panic_randomDigits : runs.
Lemma no_panic_GenerateMockXRPLAddress h : runs ρ h (GenerateMockXRPLAddress (S := S)) any.
Proof. unfold GenerateMockXRPLAddress. run. Qed.
#[local] Hint Resolve no_panic_GenerateMockXRPLAddress : runs.
Lemma no_panic_complete h c : runs ρ h (Core.complete (S := S) c) any.
Proof. unfold Core.complete. run. Qed.
#[local] Hint Resolve no_panic_complete : runs.
Lemma no_panic_verify2FA h user code : runs ρ h (Identity.verify2FA (S := S) user code) any.
Proof. unfold Identity.verify2FA. run. Qed.
#[local] Hint Resolve no_panic_verify2FA : runs.

(** A settlement holds on to the transaction it found. *)
Definition settleable (h : Heap) (r : api_result (loc * bool)) : Prop :=
  match r with inl (p, _) => live Transaction h p | inr _ => True end.
Lemma runs_check_settlement h txID event :
  runs ρ h (Withdrawals.check_settlement (S := S) txID event) settleable.
Proof.
  unfold Withdrawals.check_settlement. run; apply runs_mret; intros; cbn; first [done|by eapply live_grows].
Qed.
Lemma runs_completeWithdrawal h p :
  live Transaction h p → runs ρ h (Withdrawals.completeWithdrawal (S := S) p) any.
Proof. intros. unfold Withdrawals.completeWithdrawal. run. Qed.
Lemma runs_rejectWithdrawal h p :
  live Transaction h p → runs ρ h (Withdrawals.rejectWithdrawal (S := S) p) any.
Proof. intros. unfold Withdrawals.rejectWithdrawal. run. Qed.
#[local] Hint Resolve runs_check_settlement runs_completeWithdrawal runs_rejectWithdrawal : runs.
Lemma no_panic_settleWithdrawal h txID event :
  runs ρ h (Withdrawals.settleWithdrawal (S := S) txID event) any.
Proof.
  eapply runs_bind; [apply runs_check_settlement|]. intros h1 [[p []]|e] _ Hp; run.
Qed.
#[local] Hint Resolve no_panic_settleWithdrawal : runs.
Lemma no_panic_listed_transaction h id : runs ρ h (CardOps.listed_transaction (S := S) id) any.
Proof. unfold CardOps.listed_transaction. run. Qed.
#[local] Hint Resolve no_panic_listed_transaction : runs.
Lemma no_panic_SeedTestUsersWithOrgID h org : runs ρ h (Seeder.SeedTestUsersWithOrgID (S := S) org) any.
Proof. unfold Seeder.SeedTestUsersWithOrgID. run. Qed.
#[local] Hint Resolve no_panic_SeedTestUsersWithOrgID : runs.
Lemma no_panic_schedule h i : runs ρ h (Tasks.schedule (S := S) i) any.
Proof. unfold Tasks.schedule. run. Qed.
#[local] Hint Resolve no_panic_schedule : runs.

(** ** Listing card transactions

    The one slice expression whose bounds come from the request. *)
Lemma runs_paginate h {A} (items : list A) n size :
  1 <= n → 1 <= size → n * size <= int_max ∨ may_panic ρ "slice bounds out of range" →
  runs ρ h (Cards.paginate (W := World S) items n size) any.
Proof.
  intros Hn Hs Hmax. unfold Cards.paginate, Cards.slice_range.
  destruct (Z.leb_spec (Z.of_nat (length items)) (wrap64 (wrap64 (n - 1) * size))) as [_|Hlt];
    [by apply runs_mret|].
  destruct (_ && _) eqn:Hb; [by apply runs_mret|].
  intros w Hw Hh. do 2 (split; [done|]). cbn. destruct Hmax as [Hmax|]; [exfalso|done].
  revert Hlt Hb. assert (0 <= (n - 1) * size) by nia. assert ((n - 1) * size + size <= int_max) by nia.
  rw (wrap64_id (n - 1)); [|unfold int_min, int_max in *; nia].
  rw (wrap64_id ((n - 1) * size)); [|unfold int_min, int_max in *; nia].
  rw (wrap64_id (_ + size)); [|unfold int_min, int_max in *; nia].
  destruct (Z.ltb_spec (Z.of_nat (length items)) ((n - 1) * size + size)); lia.
Qed.
Lemma parsePagination_positive rawNumber rawSize n size :
  Cards.parsePagination rawNumber rawSize = (n, size) → 1 <= n ∧ 1 <= size.
Proof.
  assert (∀ raw v, Cards.positive_param raw = Some v → 1 <= v) as Hpos.
  { intros raw v. unfold Cards.positive_param. destruct (_ =?s _); [done|]. destruct (Atoi raw); [|done].
    destruct (Z.ltb_spec 0 z); [|done]. intros [= <-]. lia. }
  unfold Cards.parsePagination. intros [= <- <-]. split.
  - destruct (Cards.positive_param rawNumber) eqn:He; cbn; [by eapply Hpos|lia].
  - destruct (Cards.positive_param rawSize) eqn:He; [|done].
    destruct (Z.ltb_spec Cards.maxCardTxPageSize z); [done|by eapply Hpos].
Qed.
Lemma no_panic_ListCardTransactions h card rawNumber rawSize :
  (let '(n, size) := Cards.parsePagination rawNumber rawSize in n * size <= int_max)
  ∨ may_panic ρ "slice bounds out of range" →
  runs ρ h (CardOps.ListCardTransactions (S := S) card rawNumber rawSize) any.
Proof.
  unfold CardOps.ListCardTransactions. destruct (Cards.parsePagination _ _) as [n size] eqn:Hp. intros Hmax.
  destruct (parsePagination_positive _ _ _ _ Hp) as [Hn Hs].
  eapply runs_bind; [apply GetCardTransactionIDs_runs|]. intros h1 ids _ _.
  eapply runs_bind; [apply runs_collect_any; intros; apply no_panic_listed_transaction|].
  intros h2 all _ _. eapply runs_bind; [by apply runs_paginate|]. intros. by apply runs_mret.
Qed.

(** ** The catalogue

    No scenario has [null] for a payload. *)
Section Catalogue.
Context (index : list CardScenarios.CardTxScenario).
Definition materialisable (s : CardScenarios.CardTxScenario) : Prop :=
  ∀ j, CardScenarios.Payload s = Some j → as_interface j ≠ JNull.
Context (Hindex : Forall materialisable index).

Lemma runs_materialise h key s overrides seq card :
  CardScenarios.findCardScenario index key = Some s →
  runs ρ h (CardSim.materialiseCardTransaction (S := S) (CardScenarios.Payload s) overrides seq card)
    (λ _ r, match r with Ok (_, raw, _) => as_interface raw ≠ JNull | Err _ => True end).
Proof.
  intros [Hs _]%find_some. assert (materialisable s) as Hm
    by (eapply Forall_forall; [exact Hindex|by apply list_elem_of_In]).
  unfold CardSim.materialiseCardTransaction, materialisable in *.
  destruct (CardScenarios.Payload s) as [j|]; [|by apply runs_mret].
  specialize (Hm j eq_refl). destruct (as_interface j); try done; try by apply runs_mret.
  do 2 (eapply runs_bind; [run_instruction|]; run_on).
  destruct (CardSim.normalise _) as [[tx raw]|] eqn:Hn; apply runs_mret; [|done].
  intros _ _. unfold CardSim.normalise in Hn. destruct (marshals _); [|done].
  destruct (Codec.unmarshal _ _); [|done]. by injection Hn as <- <-.
Qed.
#[local] Hint Resolve runs_materialise : runs.
Lemma no_panic_emitCardTransactionWebhook h event req raw id :
  runs ρ h (CardSim.emitCardTransactionWebhook (S := S) event req raw id) any.
Proof. unfold CardSim.emitCardTransactionWebhook. run. Qed.
#[local] Hint Resolve no_panic_emitCardTransactionWebhook : runs.
Lemma no_panic_store_simulated h tx raw id card :
  as_interface raw ≠ JNull → runs ρ h (CardSim.store_simulated (S := S) tx raw id card) any.
Proof. intros. unfold CardSim.store_simulated. run. Qed.
#[local] Hint Resolve no_panic_store_simulated : runs.
Lemma no_panic_simulateCardTransaction h req :
  runs ρ h (CardSim.simulateCardTransaction (S := S) index req) any.
Proof.
  unfold CardSim.simulateCardTransaction. run.
Qed.
#[local] Hint Resolve no_panic_simulateCardTransaction : runs.
Lemma no_panic_userSummaries h : runs ρ h (Ui.userSummaries (S := S)) any.
Proof. unfold Ui.userSummaries. run. Qed.
#[local] Hint Resolve no_panic_userSummaries : runs.

(** ** The whole service *)
Definition process_runs {A} (m : prog (CardTokens.Process S) A) : Prop := ∀ p,
  good ρ (CardTokens.p_world p) →
  good ρ (CardTokens.p_world (m p).2) ∧ match (m p).1 with Ret _ => True | Panic e => may_panic ρ e end.

Lemma process_bind {A B} (m : prog (CardTokens.Process S) A) (k : A → prog (CardTokens.Process S) B) :
  process_runs m → (∀ a, process_runs (k a)) → process_runs (m ≫= k).
Proof.
  intros Hm Hk p Hp. rw run_bind. destruct (Hm p Hp) as [Hp' Ha].
  destruct (m p) as [[a|e] p']; [by apply Hk|done].
Qed.
Lemma process_mret {A} (a : A) : process_runs (mret a).
Proof. by intros p Hp. Qed.
Lemma process_in_world {A} (m : prog (World S) A) :
  (∀ h, runs ρ h m any) → process_runs (CardTokens.in_world m).
Proof.
  intros Hm p Hp. destruct (Hm _ (CardTokens.p_world p) Hp (reflexivity _)) as (Hg & _ & Ha).
  unfold CardTokens.in_world. by destruct (m _) as [[a|e] w].
Qed.
Lemma process_serviceKeys : process_runs (CardTokens.serviceKeys_get (S := S)).
Proof. intros p Hp. unfold CardTokens.serviceKeys_get. by destruct (CardTokens.once _). Qed.
Ltac run_process :=
  repeat first
    [ lazymatch goal with
      | |- process_runs (mbind _ _) => apply process_bind
      | |- process_runs (mret _) => apply process_mret
      | |- process_runs (CardTokens.in_world _) => apply process_in_world; intros; run
      | |- process_runs CardTokens.serviceKeys_get => apply process_serviceKeys
      | |- process_runs (match ?x with _ => _ end) => destruct x
      | |- process_runs (let _ := _ in _) => cbv zeta
      | |- process_runs ?m => let f := head_of m in unfold f
      | |- forall _, _ => intros
      end ].
Lemma no_panic_SetCardPin authz cypher : process_runs (CardTokens.SetCardPin (S := S) authz cypher).
Proof. run_process. Qed.
Lemma no_panic_GetCardPinPublicKey : process_runs (CardTokens.GetCardPinPublicKey (S := S)).
Proof. run_process. Qed.

(** What a listener answers.  The page of a listing must not overflow. *)
Context `{Routes.Mux} (file_exists : string → bool).
Context (multipart : string → string → list (string * string)).
Definition page_fits (r : Routes.HttpRequest) : bool :=
  let '(number, size) := Cards.parsePagination (Server.query r "pageNumber") (Server.query r "pageSize") in
  number * size <=? int_max.
Lemma no_panic_handle r ps h :
  (h = Routes.ListCardTransactions → page_fits r = true ∨ may_panic ρ "slice bounds out of range") →
  process_runs (Server.handle (S := S) index file_exists multipart r ps h).
Proof.
  destruct h; cbn [Server.handle]; intros Hpage.
  all: first [apply no_panic_SetCardPin | apply no_panic_GetCardPinPublicKey
             | apply process_in_world; intros].
  all: first [run_instruction | by run | idtac].
  apply no_panic_ListCardTransactions. destruct (Hpage eq_refl) as [Hfit|]; [left|by right].
  unfold page_fits in Hfit. destruct (Cards.parsePagination _ _). by apply Z.leb_le.
Qed.
Lemma no_panic_respond cfg port r :
  (∀ ps, Server.decided cfg port r = Routes.Dispatched Routes.ListCardTransactions ps →
     page_fits r = true ∨ may_panic ρ "slice bounds out of range") →
  process_runs (Server.respond (S := S) index file_exists multipart cfg port r).
Proof.
  intros Hpage. unfold Server.respond. destruct (Server.decided cfg port r) as [a|h ps|];
    [apply process_mret|apply no_panic_handle|apply process_mret].
  intros ->. by apply (Hpage ps).
Qed.
End Catalogue.
End Handlers.

(** ** From boot to any moment

    What can happen to the process: a request arrives at one of the two ports,
    or the runtime resumes a goroutine. *)
Inductive Happening :=
| Arrives (port : Server.Listener) (r : Routes.HttpRequest)
| Resumes (i : nat).

Section Lifetime.
Context {S : Type} `{EnvLaws} `{!Storage.Storage S} `{CardTokens.Rsa} `{Routes.Mux}.
Context (file_exists : string → bool) (multipart : string → string → list (string * string)).
Context (cfg : Config).
Definition happens (e : Happening) : prog (CardTokens.Process S) unit :=
  match e with
  | Arrives port r => _ ← Server.respond catalogue file_exists multipart cfg port r; mret tt
  | Resumes i => CardTokens.in_world (Tasks.schedule i)
  end.
Definition lifetime (l : list Happening) (p : CardTokens.Process S) : CardTokens.Process S :=
  fold_left (λ p e, (happens e p).2) l p.

(** A listing whose page number is so large that its start overflows. *)
Definition overflows (e : Happening) : Prop :=
  match e with
  | Arrives port r =>
      page_fits r = false
      ∧ ∃ ps, Server.decided cfg port r = Routes.Dispatched Routes.ListCardTransactions ps
  | Resumes _ => False
  end.

Lemma catalogue_materialisable : Forall materialisable catalogue.
Proof.
  assert (forallb good_scenario catalogue = true) as Hgood by (vm_compute; reflexivity).
  apply Forall_forall. intros s Hs%list_elem_of_In. rw forallb_forall in Hgood. specialize (Hgood s Hs).
  unfold good_scenario in Hgood. apply andb_true_iff in Hgood as [_ Hp].
  clear Hs. intros j Hj. rewrite Hj in Hp. destruct j; discriminate.
Qed.

Context `{!StoreOk S} (ρ : Regime) `{!SafeStorage ρ S} (Hmanaged : managed ρ = true).
Context (Hrand : ∀ k m, 0 < m → is_Some (env_int k m)).
Lemma no_panic_happens e :
  (overflows e → may_panic ρ "slice bounds out of range") → process_runs ρ (happens e).
Proof.
  intros He. destruct e as [port r|i]; cbn [happens].
  - apply process_bind; [|intros _; apply process_mret].
    apply (no_panic_respond ρ Hmanaged Hrand catalogue catalogue_materialisable).
    intros ps Hps. destruct (page_fits r) eqn:Hfit; [by left|right]. apply He. split; [done|by eexists].
  - apply process_in_world. intros h. by apply (no_panic_schedule ρ).
Qed.

(** Whatever is allowed to panic, the process stays good. *)
Lemma lifetime_good l p :
  (∀ e, e ∈ l → overflows e → may_panic ρ "slice bounds out of range") →
  good ρ (CardTokens.p_world p) → good ρ (CardTokens.p_world (lifetime l p)).
Proof.
  unfold lifetime. revert p. induction l as [|e l IH]; intros p Hl Hp; cbn [fold_left]; [done|].
  apply IH; [intros; apply (Hl e0); [by right|done]|]. apply no_panic_happens; [|done].
  apply Hl. by left.
Qed.
End Lifetime.

(** A booted process has a manager, and the storage it was seeded in. *)
Section Booted.
Context {S : Type} `{EnvLaws} `{!Storage.Storage S} `{CardTokens.Rsa} `{!StoreOk S}.
Context (environ : gmap string string) (random : option (list Z)) (parse : string → result Z).
Lemma boot_good (ρ : Regime) `{!SafeStorage (mkRegime false (may_panic ρ)) S} store rs rc l dep p :
  store_ok store empty_heap →
  Boot.boot environ random parse store rs rc = Ok (l, dep, p) → good ρ (CardTokens.p_world p).
Proof.
  intros Hs. unfold Boot.boot. generalize (Load environ random) as cfg. intros cfg.
  destruct (Boot.Logger.Initialize _ _ _) as [i lg].
  destruct (no_panic_SeedTestUsersWithOrgID (mkRegime false (may_panic ρ)) empty_heap
              (DefaultOrganizationID cfg) (Boot.blank cfg store)) as ((_ & Hok) & _ & _); [done|done|].
  destruct (Seeder.SeedTestUsersWithOrgID _ _) as [[seeded|e] w]; [|done].
  destruct (Routes.startup _ _ _ _ _) as [d|e]; [|done].
  intros [= _ _ <-]. split; [by eexists|exact Hok].
Qed.
End Booted.

(** What is left on Redis: the listing, a raw document that reads as [null], and
    the bound the model puts on a [SCAN] loop. *)
Definition redis_panics : list string :=
  ["slice bounds out of range"; "assignment to entry in nil map"; "scan does not end"].
Definition on_redis (manager_exists : bool) : Regime :=
  mkRegime manager_exists (λ msg, msg ∈ redis_panics).
Lemma redis_panics_slice : "slice bounds out of range" ∈ redis_panics.
Proof. apply list_elem_of_here. Qed.
#[export] Instance on_redis_safe {R : Type} `{!Redis.RedisClient R} `{EnvLaws} b :
  SafeStorage (on_redis b) R (StoreOk0 := redis_store_ok R) (H0 := Redis.redis_storage).
Proof. apply redis_safe; cbn; unfold redis_panics; repeat constructor. Qed.

Section Theorems.
Context `{EnvLaws} `{CardTokens.Rsa} `{Routes.Mux}.
Context (environ : gmap string string) (random : option (list Z)) (parse : string → result Z).
Context (file_exists : string → bool) (multipart : string → string → list (string * string)).
Context (Hrand : ∀ k m, 0 < m → is_Some (env_int k m)).

Definition overflowing (b : Prop) : Regime :=
  mkRegime true (λ e, b ∧ e = "slice bounds out of range").

(** C7. The service on the in-memory storage never panics but in one place: from
    its start, whatever requests have reached its two ports and whichever
    goroutines have run, the next request is answered and the next goroutine runs
    to its end; only a listing of card transactions asked for a page so far
    that its start passes 64 bits panics, on its slice expression. *)
Theorem service_never_panics rs rc l dep p0 before e :
  Boot.boot environ random parse NewMemoryStorage rs rc = Ok (l, dep, p0) →
  let cfg := Load environ random in
  let p := lifetime file_exists multipart cfg before p0 in
  match (happens file_exists multipart cfg e p).1 with
  | Ret _ => True
  | Panic msg => overflows cfg e ∧ msg = "slice bounds out of range"
  end.
Proof.
  intros Hboot cfg p. unfold p, cfg. clear p cfg.
  eapply (no_panic_happens file_exists multipart (Load environ random)
           (overflowing (overflows (Load environ random) e)) eq_refl Hrand e); [by intros He|].
  change (good (overflowing True)
    (CardTokens.p_world (lifetime file_exists multipart (Load environ random) before p0))).
  apply (lifetime_good file_exists multipart _ (overflowing True) eq_refl Hrand); [by intros|].
  apply (boot_good environ random parse (overflowing True) NewMemoryStorage rs rc l dep p0);
    [split; apply map_Forall_empty|exact Hboot].
Qed.

(** C18. On Redis no handler and no goroutine dereferences a nil pointer, whatever
    the server holds, answers or fails to do: besides the listing, what can
    panic is the status update of a raw document that reads as [null], and a
    [SCAN] that never comes to its end. *)
Theorem no_nil_pointer_on_redis {R : Type} `{!Redis.RedisClient R} (server : R) rs rc l dep p0 before e :
  Boot.boot (H0 := Redis.redis_storage) environ random parse server rs rc = Ok (l, dep, p0) →
  let cfg := Load environ random in
  let p := lifetime (H1 := Redis.redis_storage) file_exists multipart cfg before p0 in
  match (happens (H1 := Redis.redis_storage) file_exists multipart cfg e p).1 with
  | Ret _ => True
  | Panic msg => msg ∈ redis_panics
  end.
Proof.
  intros Hboot cfg p. unfold p, cfg. clear p cfg. pose (redis_store_ok R) as ok.
  eapply (no_panic_happens file_exists multipart (Load environ random) (on_redis true) eq_refl Hrand e).
  { intros _. apply redis_panics_slice. }
  apply (lifetime_good file_exists multipart _ (on_redis true) eq_refl Hrand).
  { intros _ _ _. apply redis_panics_slice. }
  by refine (boot_good environ random parse (on_redis true) (SafeStorage0 := on_redis_safe false)
               server rs rc l dep p0 _ Hboot).
Qed.
End Theorems.

(** ** Examples *)
Lemma demo_rand k m : 0 < m → is_Some (@env_int demo_env k m).
Proof. intros Hm. cbn. destruct (Z.ltb_spec 0 m); [by eexists|lia]. Qed.
Definition demo_before : list Happening :=
  [Arrives Server.Application (ServerFacts.request "POST" "/auth/v1/users/managed" ""
     (json_text (strings_json [("email", "a@b.c")])));
   Resumes 0].
Definition demo_next : Happening :=
  Arrives Server.Application (ServerFacts.request "GET" "/auth/v1/users/managed" "email=a%40b.c" "").

Lemma service_never_panics_witness :
  ∃ l dep p0,
    Boot.boot (H := demo_env) (H1 := demo_rsa) ∅ None (λ _, Ok 0) NewMemoryStorage (Ok tt) (Ok tt)
      = Ok (l, dep, p0)
    ∧ let cfg := Load ∅ None in
      let run l := lifetime (H2 := demo_rsa) (H3 := RoutesFacts.first_match_mux) (λ _, false)
                     ServerFacts.no_multipart cfg l p0 in
      match (happens (H2 := demo_rsa) (H3 := RoutesFacts.first_match_mux) (λ _, false)
               ServerFacts.no_multipart cfg demo_next (run demo_before)).1 with
      | Ret _ => True
      | Panic msg => overflows (H3 := RoutesFacts.first_match_mux) cfg demo_next
                     ∧ msg = "slice bounds out of range"
      end.
Proof.
  destruct (BootFacts.fresh_service (H := demo_env) (H0 := demo_rsa) ∅ None (λ _, Ok 0) (Ok tt) (Ok tt))
    as [[_ Hstart] _]; [by vm_compute|].
  destruct Hstart as [[[l dep] p0] Hrun]; [split; [by exists 0|by vm_compute]|].
  exists l, dep, p0. split; [exact Hrun|].
  exact (service_never_panics (H1 := demo_rsa) (H2 := RoutesFacts.first_match_mux) ∅ None (λ _, Ok 0)
    (λ _, false) ServerFacts.no_multipart demo_rand (Ok tt) (Ok tt) l dep p0 demo_before demo_next Hrun).
Defined.

#[local] Existing Instance RedisServer.demo_redis.
Definition redis_environ : gmap string string := <["MOCKGATEHUB_REDIS_URL" := "redis://localhost:6379"]> ∅.
Definition booted_on_redis :
    result (Boot.Logger.Logger * Routes.Deployment * CardTokens.Process RedisServer.Keys) :=
  Boot.boot (H := demo_env) (H0 := Redis.redis_storage) (H1 := demo_rsa) redis_environ None (λ _, Ok 0)
    (∅ : RedisServer.Keys) (Ok tt) (Ok tt).
Lemma no_nil_pointer_on_redis_witness :
  ∃ l dep p0, booted_on_redis = Ok (l, dep, p0)
    ∧ let cfg := Load redis_environ None in
      let run l := lifetime (H1 := Redis.redis_storage) (H2 := demo_rsa) (H3 := RoutesFacts.first_match_mux)
                     (λ _, false) ServerFacts.no_multipart cfg l p0 in
      match (happens (H1 := Redis.redis_storage) (H2 := demo_rsa) (H3 := RoutesFacts.first_match_mux)
               (λ _, false) ServerFacts.no_multipart cfg demo_next (run demo_before)).1 with
      | Ret _ => True
      | Panic msg => msg ∈ redis_panics
      end.
Proof.
  assert (is_ok booted_on_redis = true) as Hok by (vm_compute; reflexivity).
  destruct booted_on_redis as [[[l dep] p0]|] eqn:Hrun; [|discriminate].
  exists l, dep, p0. split; [reflexivity|].
  exact (no_nil_pointer_on_redis (H1 := demo_rsa) (H2 := RoutesFacts.first_match_mux) redis_environ None
    (λ _, Ok 0) (λ _, false) ServerFacts.no_multipart demo_rand (∅ : RedisServer.Keys) (Ok tt) (Ok tt)
    l dep p0 demo_before demo_next Hrun).
Defined.

(** The one place: a page whose start passes 64 bits. *)
Definition far_listing : Happening :=
  Arrives Server.Application (ServerFacts.request "GET" "/cards/v1/cards/c/transactions"
    "pageNumber=46116860184273881&pageSize=200" "").
Definition open_config : Config := Load (<["MOCKGATEHUB_ENFORCE_AUTHENTICATION" := "false"]> ∅) None.
Lemma far_listing_panics :
  (happens (H := demo_env) (H2 := demo_rsa) (H3 := RoutesFacts.first_match_mux) (λ _, false)
     ServerFacts.no_multipart open_config far_listing ServerFacts.demo_process).1
  = Panic "slice bounds out of range".
Proof. vm_compute. reflexivity. Qed.
