(* ===== verification/Harness.v ===== *)
(** * The acceptance harness ([testenv])

    The state of a scenario ([test_context.go]), the instances of the service it
    talks to ([types.go], [docker-compose.yml]) and its HTTP client
    ([http_client.go]).  The network between them is a table of addresses; the
    service's goroutines and webhook deliveries happen while the harness
    sleeps.  An error's text is the format's, mostly without its arguments. *)
From S2P Require Import Prelude GoFloat GoStd GoText Crypto JsonText Urls Consts Models Config World.
From S2P Require Import Api Auth AuthFacts Webhook Tasks Delivery CardTokens Routes RoutesFacts Requests Server Memory Demo CardTokenFacts.
From S2P Require Storage.

(** [strings.ReplaceAll] for a pattern that is not empty. *)
Fixpoint replace_chars (old new : list ascii) (skip : nat) (l : list ascii) : list ascii :=
  match l with
  | [] => []
  | c :: l' =>
      match skip with
      | S k => replace_chars old new k l'
      | O => if bool_decide (firstn (length old) l = old)
             then new ++ replace_chars old new (length old - 1) l'
             else c :: replace_chars old new 0 l'
      end
  end.
Definition ReplaceAll (s old new : string) : string :=
  of_chars (replace_chars (chars old) (chars new) 0 (chars s)).

(** ** The addresses *)
Definition mockGatehubURL : string := "http://localhost:25151".
Definition mockGatehubAdminURL : string := "http://localhost:25153".
Definition asyncWithdrawalsURL : string := "http://localhost:25152".
Definition asyncWithdrawalsAdminURL : string := "http://localhost:25154".

(** ** The state of a scenario *)
Section Context_.
Context `{Rsa}.
Record callerKeys := mkCallerKeys { publicKeyB64 : string; private : rsa_private }.
Record TestContext := mkTestContext {
  tc_baseURL : string;
  tc_adminBaseURL : string;
  tc_appID : string;
  tc_appSecret : string;
  tc_signatureTime : string;
  tc_signatureBody : string;
  tc_signatureBase : string;
  tc_signatureURL : string;
  tc_signatureOverride : string;
  tc_signatureHeaders : option (list (string * string));
  tc_pendingMethod : string;
  tc_pendingPath : string;
  tc_pendingBody : string;
  tc_pendingMode : string;
  tc_lastResponse : option Response;
  tc_lastResponseBody : string;
  tc_userID : string;
  tc_walletAddress : string;
  tc_previousAddress : string;
  tc_accessToken : string;
  tc_iframeToken : string;
  tc_kycToken : string;
  tc_email : string;
  tc_customerID : string;
  tc_cardID : string;
  tc_transactionID : string;
  tc_savedRates : list (string * f64);
  tc_recordedBalances : list (string * f64);
  tc_keys : option callerKeys;
  tc_cardToken : string;
  tc_cardTokenHref : string;
  tc_cardTokenMethod : string;
  tc_decryptedPAN : string;
  tc_simulatedTxID : string;
  tc_simulatedTxIDs : list string;
  tc_statementPeriod : Z;
  tc_withdrawalID : string;
  tc_lastRedirect : string }.
#[export] Instance eta_TestContext : Eta TestContext := fun r =>
  mkTestContext (tc_baseURL r) (tc_adminBaseURL r) (tc_appID r) (tc_appSecret r)
  (tc_signatureTime r) (tc_signatureBody r) (tc_signatureBase r) (tc_signatureURL r)
  (tc_signatureOverride r) (tc_signatureHeaders r) (tc_pendingMethod r) (tc_pendingPath r)
  (tc_pendingBody r) (tc_pendingMode r) (tc_lastResponse r) (tc_lastResponseBody r)
  (tc_userID r) (tc_walletAddress r) (tc_previousAddress r) (tc_accessToken r)
  (tc_iframeToken r) (tc_kycToken r) (tc_email r) (tc_customerID r) (tc_cardID r)
  (tc_transactionID r) (tc_savedRates r) (tc_recordedBalances r) (tc_keys r) (tc_cardToken r)
  (tc_cardTokenHref r) (tc_cardTokenMethod r) (tc_decryptedPAN r) (tc_simulatedTxID r)
  (tc_simulatedTxIDs r) (tc_statementPeriod r) (tc_withdrawalID r) (tc_lastRedirect r).

(** What [Reset] leaves. *)
Definition fresh_context : TestContext :=
  mkTestContext mockGatehubURL mockGatehubAdminURL "" "" "" "" "" "" "" None "" "" "" "" None
  "" "" "" "" "" "" "" "" "" "" "" [] [] None "" "" "" "" "" [] time_zero "" "".
End Context_.

(** ** The instances of the service, and the harness *)
Section State.
Context (S : Type) `{Rsa}.
Record Instance_ := mkInstance {
  inst_addresses : list (string * Listener);
  inst_config : Config;
  inst_process : Process S }.
Record Suite := mkSuite {
  suite_tc : TestContext;
  suite_instances : list Instance_;
  suite_clock : Z;
  suite_draws : nat }.

(** A step returns an error, or a value with which the scenario goes on. *)
Definition Step (A : Type) : Type := prog Suite (result A).
End State.
Arguments mkInstance {S H}. Arguments inst_addresses {S H}. Arguments inst_config {S H}.
Arguments inst_process {S H}.
Arguments mkSuite {S H}. Arguments suite_tc {S H}. Arguments suite_instances {S H}.
Arguments suite_clock {S H}. Arguments suite_draws {S H}.
#[export] Instance eta_Instance {S} `{Rsa} : Eta (Instance_ S) := fun r =>
  mkInstance (inst_addresses r) (inst_config r) (inst_process r).
#[export] Instance eta_Suite {S} `{Rsa} : Eta (Suite S) := fun r =>
  mkSuite (suite_tc r) (suite_instances r) (suite_clock r) (suite_draws r).

Notation "'let!' x := m 'in' k" := (mbind (M := prog _)
    (fun r => match r with Ok x => k | Err e => mret (M := prog _) (Err e) end) m)
  (at level 200, x name, m at level 200, k at level 200,
   format "'[v' 'let!'  x  :=  m  'in' '/' k ']'") : go_scope.

(** What the service's binary and libraries bring: the loaded catalogue, the
    files on its disk, the multipart parser and the template engine. *)
Class Surroundings := {
  catalogue : list CardScenarios.CardTxScenario;
  on_disk : string → bool;
  parse_multipart : string → string → list (string * string);
  render : string → json → string }.

Section Steps.
Context {S : Type} `{Env} `{!Storage.Storage S} `{Rsa} `{Mux} `{Surroundings}.
Abbreviation T := (Step S).

Definition done : T unit := mret (Ok tt).
Definition fails {A} (msg : string) : T A := mret (Err msg).
Definition tc {A} (f : TestContext → A) : T A := fun s => (Ret (Ok (f (suite_tc s))), s).
Definition set_tc (f : TestContext → TestContext) : T unit := fun s =>
  (Ret (Ok tt), s <| suite_tc := f (suite_tc s) |>).
Definition lift {A} (r : result A) : T A := mret r.

(** The clock moves with every reading. *)
Definition now : T Z := fun s => (Ret (Ok (suite_clock s)), s <| suite_clock := suite_clock s + 1 |>).

(** A fresh number for what is random: the order of a walk through a map is the
    next one of [env_order]; keys and paddings are the next of [Rsa]. *)
Definition draw : T nat := fun s =>
  (Ret (Ok (suite_draws s)), s <| suite_draws := Datatypes.S (suite_draws s) |>).
Definition walk {A} (l : list A) : T (list A) :=
  let! k := draw in
  mret (Ok (env_order A k l)).

(** *** What the instances do meanwhile *)

(** The text of a body; a page is what [render] makes of its data. *)
Definition body_text (b : ResponseBody) : string :=
  match b with
  | BodyJSON j => json_text j +:+ String "010" ""
  | BodyRaw s => s
  | BodyText s => s
  | BodyPage page data => render page data
  | BodyNone => ""
  end.

(** One request at one listener; the recoverer answers a panic. *)
Definition at_instance (i : Instance_ S) (l : Listener) (r : HttpRequest) : Response * Instance_ S :=
  let '(o, p) := respond catalogue on_disk parse_multipart (inst_config i) l r (inst_process i) in
  (match o with
   | Ret resp => resp
   | Panic _ => mkResponse StatusInternalServerError [] BodyNone
   end, i <| inst_process := p |>).

(** Header names are compared without case. *)
Definition header_of (headers : list (string * string)) (name : string) : string :=
  default "" (assoc (ToLower name) (map (fun kv => (ToLower kv.1, kv.2)) headers)).

(** ["http://" host target], and the target's path and query. *)
Definition split_target (url : string) : option (string * string) :=
  if HasPrefix "http://" url then
    let rest := chars (TrimPrefix "http://" url) in
    let '(host, path) := span (fun c => negb (is_char "/" c)) rest in
    Some (of_chars host, of_chars path)
  else None.
Definition http_request (method host target : string) (headers : list (string * string))
    (body : string) : option HttpRequest :=
  let '(p, query) := Cut "?" target in
  '(path, rawPath) ← setPath p;
  Some (mkRequest (mkIncoming method path query host false (header_of headers) (Ok body)) rawPath).

Fixpoint exchange (host : string) (r : HttpRequest) (l : list (Instance_ S)) :
    option (Response * list (Instance_ S)) :=
  match l with
  | [] => None
  | i :: l =>
      match assoc host (inst_addresses i) with
      | Some listener => let '(resp, i) := at_instance i listener r in Some (resp, i :: l)
      | None => '(resp, l) ← exchange host r l; Some (resp, i :: l)
      end
  end.

(** A goroutine is run to its end. *)
Definition run_tasks (w : World S) : World S :=
  schedules (repeat 0%nat (length (w_tasks w))) w.
Definition in_background (f : World S → World S) (i : Instance_ S) : Instance_ S :=
  let p := inst_process i in i <| inst_process := mkProcess (f (p_world p)) (serviceKeys p) |>.

(** A job whose delay is over is sent to the sink of its own instance, at the
    address the webhook URL has in the instances' network. *)
Definition deliver (job : StreamJob) (i : Instance_ S) : Instance_ S :=
  match w_manager (p_world (inst_process i)) with
  | None => i
  | Some m =>
      if EventType job =?s "internal.2fa_callback_test"
      then in_background (fun w => (send m (EventType job) (UserID job) (Data job) w).2) i
      else
        let p := inst_process i in
        match webhook_request m (EventType job) (UserID job) (Data job) (p_world p) with
        | (Ret (Ok req, _), w) =>
            let i := i <| inst_process := mkProcess w (serviceKeys p) |> in
            match split_target (hr_url req) with
            | Some (host, target) =>
                match http_request (hr_method req) host target (hr_headers req) (hr_body req),
                      assoc host (inst_addresses i) with
                | Some r, Some l => (at_instance i l r).2
                | _, _ => i
                end
            | None => i
            end
        | (_, w) => i <| inst_process := mkProcess w (serviceKeys p) |>
        end
  end.

(** While time passes, goroutines end and the jobs that are due are delivered. *)
Definition meanwhile (d : Z) (i : Instance_ S) : Instance_ S :=
  let i := in_background run_tasks i in
  let jobs := map (fun jd => (jd.1, jd.2 - d)) (w_jobs (p_world (inst_process i))) in
  let i := in_background (fun w => w <| w_jobs := filter (fun jd => 0 < jd.2) jobs |>) i in
  fold_left (fun i jd => deliver jd.1 i) (filter (fun jd => jd.2 <= 0) jobs) i.
Definition sleep (d : Z) : T unit := fun s =>
  (Ret (Ok tt), s <| suite_clock := suite_clock s + d |>
                  <| suite_instances := map (meanwhile d) (suite_instances s) |>).

(** *** The client *)
Definition computeHMAC (secret payload : string) : string :=
  hex_EncodeToString (hmac_sha256 (bytes_of secret) (bytes_of payload)).
Definition generateHMAC (timestamp method fullURL body : string) : T string :=
  let! secret := tc tc_appSecret in
  let payload := Trim "|" (timestamp +:+ "|" +:+ method +:+ "|" +:+ fullURL +:+ "|" +:+ body) in
  mret (Ok (computeHMAC secret payload)).

Definition adminPathPrefixes : list string := ["/admin/"; "/admin"; "/ui"; "/test-webhook"].
Definition base_of (c : TestContext) (path : string) : string :=
  if existsb (fun prefix => (path =?s prefix) || HasPrefix prefix path) adminPathPrefixes
  then tc_adminBaseURL c else tc_baseURL c.
Definition urlFor (path : string) : T string :=
  let! c := tc (fun c => c) in
  mret (Ok (base_of c path +:+ path)).

Definition replacements (c : TestContext) : list (string * string) :=
  [("{userId}", tc_userID c); ("{customerId}", tc_customerID c); ("{cardId}", tc_cardID c);
   ("{cardID}", tc_cardID c); ("{transactionId}", tc_transactionID c);
   ("{txId}", tc_transactionID c); ("{address}", tc_walletAddress c);
   ("{walletAddress}", tc_walletAddress c); ("{iframeToken}", tc_iframeToken c);
   ("{token}", tc_kycToken c)].
Definition replace_each (order : list (string * string)) (path : string) : string :=
  fold_left (fun path kv => ReplaceAll path kv.1 kv.2) order path.
Definition replacePlaceholders (path : string) : T string :=
  let! c := tc (fun c => c) in
  let! order := walk (replacements c) in
  mret (Ok (replace_each order path)).

(** The request goes out and its response is kept.  Only the forms of the admin
    UI are answered with a redirect, and those are not followed. *)
Definition doRequest (method url : string) (headers : list (string * string)) (body : string) :
    T Response := fun s =>
  match split_target url with
  | None => (Ret (Err "unsupported protocol scheme"), s)
  | Some (host, target) =>
      match http_request method host target headers body with
      | None => (Ret (Err "invalid URL escape"), s)
      | Some r =>
          match exchange host r (suite_instances s) with
          | None => (Ret (Err "connection refused"), s)
          | Some (resp, l) =>
              (Ret (Ok resp), s <| suite_instances := l |>
                 <| suite_tc := (suite_tc s) <| tc_lastResponse := Some resp |>
                                             <| tc_lastResponseBody := body_text (resp_body resp) |> |>)
          end
      end
  end.

(** The three headers of a signed request, when there is a secret. *)
Definition signature_headers (method url body : string) : T (list (string * string)) :=
  let! secret := tc tc_appSecret in
  if secret =?s "" then mret (Ok [])
  else
    let! t := now in
    let timestamp := Itoa (UnixMilli t) in
    let! appID := tc tc_appID in
    let! signature := generateHMAC timestamp method url body in
    mret (Ok [("x-gatehub-app-id", appID); ("x-gatehub-timestamp", timestamp);
              ("x-gatehub-signature", signature)]).

(** A JSON body is marshalled with its map keys in order. *)
Definition json_body (body : option json) : result string :=
  match body with
  | None => Ok ""
  | Some j => if marshals j then Ok (json_text (sort_maps j)) else Err "json: unsupported value"
  end.
Definition set_headers (extra headers : list (string * string)) : list (string * string) :=
  fold_left (fun hs kv => assoc_set kv.1 kv.2 hs) extra headers.
Definition request (method path : string) (body : option json) (headers : list (string * string)) :
    T Response :=
  let! path := replacePlaceholders path in
  let! bodyStr := mret (json_body body) in
  let! url := urlFor path in
  let! signed := signature_headers method url bodyStr in
  let hs := set_headers headers signed in
  doRequest method url
    (match body with None => hs | Some _ => assoc_set "Content-Type" "application/json" hs end) bodyStr.

Definition requestRaw (method path bodyStr contentType : string) (headers : list (string * string)) :
    T Response :=
  let! path := replacePlaceholders path in
  let! url := urlFor path in
  doRequest method url
    (set_headers headers (if contentType =?s "" then [] else [("Content-Type", contentType)])) bodyStr.

(** The pairs of a form are joined in the order of a map. *)
Definition requestForm (method path : string) (formData : list (string * string)) : T Response :=
  let! path := replacePlaceholders path in
  let! pairs := walk formData in
  let vals := map (fun kv => kv.1 +:+ "=" +:+ kv.2) pairs in
  let bodyStr := Join "&" vals in
  let! url := urlFor path in
  let! signed := signature_headers method url bodyStr in
  doRequest method url (assoc_set "Content-Type" "application/x-www-form-urlencoded" signed) bodyStr.

(** The last response is kept over what [m] asks. *)
Definition preserving {A} (m : T A) : T A := fun s =>
  let c := suite_tc s in
  let '(r, s) := m s in
  (r, s <| suite_tc := (suite_tc s) <| tc_lastResponse := tc_lastResponse c |>
                                    <| tc_lastResponseBody := tc_lastResponseBody c |> |>).

(** *** [services.go]: waiting for the listeners *)
Definition maxWaitSeconds : nat := 60.
Fixpoint health_probes (tries : nat) (baseURL : string) : T unit :=
  match tries with
  | O => fails "health check timed out"
  | Datatypes.S tries => fun s =>
      match preserving (doRequest "GET" (baseURL +:+ "/health") [] "") s with
      | (Panic msg, s) => (Panic msg, s)
      | (Ret r, s) =>
          if match r with Ok resp => resp_status resp =? 200 | Err _ => false end then done s
          else (let! _ := sleep second_ns in health_probes tries baseURL) s
      end
  end.
Definition waitForService (baseURL : string) : T unit := health_probes maxWaitSeconds baseURL.
Definition waitForServices : T unit :=
  let! _ := waitForService mockGatehubURL in
  let! _ := waitForService mockGatehubAdminURL in
  let! _ := waitForService asyncWithdrawalsURL in
  waitForService asyncWithdrawalsAdminURL.

Definition sendWithManagedUserHeader (method path : string) (body : option json) : T Response :=
  let! userID := tc tc_userID in
  request method path body [("x-gatehub-managed-user-uuid", userID)].
Definition sendWithCardAppIDHeader (method path : string) (body : option json) : T Response :=
  request method path body [("x-gatehub-card-app-id", "test-app-id")].

(** *** What steps share *)

(** [json.Unmarshal] of the last body into a map; [null] is a nil map. *)
Definition last_object : T (list (string * json)) :=
  let! body := tc tc_lastResponseBody in
  mret (match as_interface <$> parse_json body with
        | Some (JObj fields) => Ok fields
        | Some JNull => Ok []
        | Some _ => Err "json: cannot unmarshal into map"
        | None => Err "invalid JSON"
        end).

(** Type assertions. *)
Definition as_string (j : option json) : option string :=
  match j with Some (JStr s) => Some s | _ => None end.
Definition as_number (j : option json) : option f64 :=
  match j with Some (JFloat x) => Some x | _ => None end.
Definition as_bool (j : option json) : option bool :=
  match j with Some (JBool b) => Some b | _ => None end.
Definition as_array (j : option json) : option (list json) :=
  match j with Some (JArr l) => Some l | _ => None end.
Definition as_object (j : option json) : option (list (string * json)) :=
  match j with Some (JObj fields) => Some fields | _ => None end.
Definition missing (fields : list (string * json)) (k : string) : bool :=
  match assoc k fields with None => true | Some _ => false end.

Definition check (b : bool) (msg : string) : T unit := if b then done else fails msg.
Definition require {A} (o : option A) (msg : string) : T A :=
  match o with Some x => mret (Ok x) | None => fails msg end.
(** The error of [m] is dropped. *)
Definition ignoring {A} (m : T A) : T unit := fun s =>
  match m s with
  | (Ret _, s) => (Ret (Ok tt), s)
  | (Panic msg, s) => (Panic msg, s)
  end.
End Steps.

(** ** What the harness signs, the service admits *)

(** A target the service rebuilds as it was sent: its path has nothing to
    decode, and a question mark has something after it. *)
Definition readable (target : string) : bool :=
  let '(p, query) := Cut "?" target in
  bool_decide (unescape_path p = Some p) && (negb (query =?s "") || (p =?s target)).
(** The headers a step must not set itself. *)
Definition reserved (name : string) : bool :=
  existsb (str_eqb (ToLower name))
    ["x-gatehub-app-id"; "x-gatehub-timestamp"; "x-gatehub-signature"; "x-forwarded-proto"; "x-forwarded-host"].

Lemma header_of_set k v hs name :
  ToLower k ≠ ToLower name → header_of (assoc_set k v hs) name = header_of hs name.
Proof.
  intros Hne. unfold header_of. f_equal. induction hs as [|[k' v'] hs IH]; cbn.
  - by rw (str_eqb_ne (ToLower name) (ToLower k)).
  - destruct (k =?s k') eqn:Hk; cbn; [|by rw IH].
    apply str_eqb_eq in Hk as <-. by rw (str_eqb_ne (ToLower name) (ToLower k)).
Qed.
Lemma header_of_kept extra hs name :
  reserved name = true → Forall (λ kv : string * string, reserved kv.1 = false) extra →
  header_of (set_headers extra hs) name = header_of hs name.
Proof.
  intros Hn Hall. revert hs. induction Hall as [|[k v] extra Hk _ IH]; intros hs; [done|].
  change (set_headers ((k, v) :: extra) hs) with (set_headers extra (assoc_set k v hs)).
  rw IH. apply header_of_set. intros He. cbn [fst] in Hk. unfold reserved in *. by rw He Hn in Hk.
Qed.

Lemma cut_chars_app sep l a b : cut_chars sep l = Some (a, b) → l = a ++ sep :: b.
Proof.
  revert a b. induction l as [|c l IH]; cbn; [done|]. intros a b.
  case_bool_decide as Hc; [by intros [= <- <-]; subst|].
  destruct (cut_chars sep l) as [[a' b']|]; [|done]. intros [= <- <-]. cbn. f_equal. by apply IH.
Qed.
Lemma Cut_whole target p query :
  Cut "?" target = (p, query) → query ≠ "" ∨ p = target →
  p +:+ (if negb (query =?s "") then "?" +:+ query else "") = target.
Proof.
  unfold Cut. destruct (cut_chars "?" (chars target)) as [[a b]|] eqn:Hc; intros [= <- <-] Hor.
  - apply cut_chars_app in Hc. destruct (of_chars b =?s "") eqn:Hb; cbn [negb].
    + apply str_eqb_eq in Hb. destruct Hor as [?|Ha]; [done|]. by rw Ha str_app_empty.
    + apply chars_inj. rw !chars_app !chars_of_chars Hc. done.
  - apply str_app_empty.
Qed.

Section Signed.
Context {S : Type} `{Env} `{!Storage.Storage S} `{Rsa} `{Mux} `{Surroundings}.

Definition signed_headers (method url body : string) (s : Suite S) : list (string * string) :=
  let timestamp := Itoa (UnixMilli (suite_clock s)) in
  [("x-gatehub-app-id", tc_appID (suite_tc s)); ("x-gatehub-timestamp", timestamp);
   ("x-gatehub-signature", GenerateSignature timestamp method url body (tc_appSecret (suite_tc s)))].
Lemma run_signature_headers method url body s :
  tc_appSecret (suite_tc s) ≠ "" →
  signature_headers method url body s
  = (Ret (Ok (signed_headers method url body s)), s <| suite_clock := suite_clock s + 1 |>).
Proof.
  intros Hs. unfold signature_headers, generateHMAC, tc, now. run_binds.
  by rw (str_eqb_ne _ _ Hs).
Qed.


(** Where [request] sends what, and with which headers. *)
Definition placed (path : string) (s : Suite S) : string :=
  replace_each (env_order _ (suite_draws s) (replacements (suite_tc s))) path.
Definition content_headers (body : option json) : list (string * string) :=
  match body with None => [] | Some _ => [("Content-Type", "application/json")] end.
Lemma run_request method path body extra s text url :
  tc_appSecret (suite_tc s) ≠ "" → json_body body = Ok text →
  url = base_of (suite_tc s) (placed path s) +:+ placed path s →
  request method path body extra s
  = doRequest method url (set_headers (extra ++ content_headers body) (signed_headers method url text s)) text
      (s <| suite_draws := Datatypes.S (suite_draws s) |> <| suite_clock := suite_clock s + 1 |>).
Proof.
  intros Hs Ht ->. unfold request.
  assert (replacePlaceholders path s
    = (Ret (Ok (placed path s)), s <| suite_draws := Datatypes.S (suite_draws s) |>)) as Hp.
  { unfold replacePlaceholders, walk, draw, tc. by run_binds. }
  set (s1 := s <| suite_draws := Datatypes.S (suite_draws s) |>) in *.
  set (url := base_of _ _ +:+ _).
  assert (urlFor (placed path s) s1 = (Ret (Ok url), s1)) as Hu by done.
  pose proof (run_signature_headers method url text s1 Hs) as Hg.
  rw (run_bind_ret _ _ _ _ _ Hp) Ht run_bind run_mret. rw (run_bind_ret _ _ _ _ _ Hu).
  rw (run_bind_ret _ _ _ _ _ Hg).
  f_equal. unfold set_headers.
  rw fold_left_app. by destruct body.
Qed.

(** Signed headers that are sent on, with others that are not reserved, to the
    host and target they were signed for. *)
Lemma signed_admitted (cfg : Config) method host target body extra s r :
  tc_appID (suite_tc s) ≠ "" →
  ValidCredentials cfg !! tc_appID (suite_tc s) = Some (tc_appSecret (suite_tc s)) →
  Forall (λ kv : string * string, reserved kv.1 = false) extra →
  readable target = true →
  http_request method host target
    (set_headers extra (signed_headers method ("http://" +:+ host +:+ target) body s)) body = Some r →
  application cfg r = dispatch setupRoutes r.
Proof.
  intros Happ Hcred Hextra Hread Hr. unfold application. destruct (EnforceAuthentication cfg); [|done].
  rw (proj2 (admitted_iff _ _)); [done|]. right.
  unfold http_request, readable in *. destruct (Cut "?" target) as [p query] eqn:Hcut.
  apply andb_true_iff in Hread as [Hp%bool_decide_eq_true Hq].
  unfold setPath in Hr. rw Hp in Hr. cbn in Hr. injection Hr as <-.
  set (hs := signed_headers _ _ _ _).
  assert (∀ name, reserved name = true → header_of (set_headers extra hs) name = header_of hs name) as Hkept.
  { intros name Hn. by apply header_of_kept. }
  unfold signed. cbn [incoming in_header in_body]. rw !Hkept; try reflexivity.
  split; [exact Happ|]. split; [apply Itoa_nonempty|].
  exists (tc_appSecret (suite_tc s)), body. split; [exact Hcred|]. split; [done|].
  unfold expected_signature, reconstructURL. cbn [in_header in_method in_host in_tls in_path in_rawQuery].
  rw !Hkept; try reflexivity. change (header_of hs "X-Forwarded-Proto") with "".
  change (header_of hs "X-Forwarded-Host") with "".
  change (header_of hs "x-gatehub-signature") with
    (GenerateSignature (Itoa (UnixMilli (suite_clock s))) method ("http://" +:+ host +:+ target) body
       (tc_appSecret (suite_tc s))). cbn [str_eqb].
  change (header_of hs "x-gatehub-timestamp") with (Itoa (UnixMilli (suite_clock s))). f_equal.
  rw -(Cut_whole _ _ _ Hcut).
  2: { apply orb_true_iff in Hq as [Hq%negb_true_iff|Hq%str_eqb_eq]; [left|by right].
       intros ->. done. }
  destruct (negb _); cbn; [by rw !str_app_assoc|by rw str_app_empty].
Qed.

(** C25. What the harness signs, the service admits: a request of a step, whose
    target the service rebuilds as it was sent and which sets no reserved
    header itself, is sent with headers that any instance knowing the
    credentials hands on to its routes, whatever the method, the path, the
    placeholders in it, the body and the order of the walk over them. *)
Theorem harness_requests_admitted method path body extra s text host :
  tc_appID (suite_tc s) ≠ "" → tc_appSecret (suite_tc s) ≠ "" →
  json_body body = Ok text →
  base_of (suite_tc s) (placed path s) = "http://" +:+ host →
  Forall (λ kv : string * string, reserved kv.1 = false) extra →
  readable (placed path s) = true →
  ∃ headers s',
    request method path body extra s
    = doRequest method ("http://" +:+ host +:+ placed path s) headers text s'
    ∧ suite_instances s' = suite_instances s
    ∧ ∀ cfg r,
        ValidCredentials cfg !! tc_appID (suite_tc s) = Some (tc_appSecret (suite_tc s)) →
        http_request method host (placed path s) headers text = Some r →
        application cfg r = dispatch setupRoutes r.
Proof.
  intros Happ Hsec Ht Hbase Hextra Hread. eexists _, _. split; [|split].
  - apply run_request; [done|done|]. by rw Hbase str_app_assoc.
  - done.
  - intros cfg r Hcred Hr. eapply signed_admitted; [..|exact Hr]; try done.
    apply Forall_app. split; [done|]. destruct body; repeat constructor.
Qed.
End Signed.

#[local] Existing Instance demo_rsa.
#[local] Existing Instance first_match_mux.
#[local] Instance demo_surroundings : Surroundings := {|
  catalogue := []; on_disk _ := false; parse_multipart _ _ := []; render _ _ := "" |}.
Definition demo_suite : Suite MemoryStorage :=
  mkSuite (fresh_context <| tc_appID := "app" |> <| tc_appSecret := "s3cret" |> <| tc_userID := "u1" |>)
    [] (1768920404 * second_ns) 0.
Lemma harness_requests_admitted_witness :
  ∃ headers s',
    request "POST" "/core/v1/users/{userId}/wallets?x=1"
      (Some (JObj [("type", JInt 30)])) [("x-gatehub-managed-user-uuid", "u1")] demo_suite
    = doRequest "POST"
        ("http://" +:+ "localhost:25151" +:+ "/core/v1/users/u1/wallets?x=1") headers
        (json_text (JObj [("type", JInt 30)])) s'
    ∧ suite_instances s' = []
    ∧ ∀ cfg r,
        ValidCredentials cfg !! "app" = Some "s3cret" →
        http_request "POST" "localhost:25151" "/core/v1/users/u1/wallets?x=1" headers
          (json_text (JObj [("type", JInt 30)])) = Some r →
        application cfg r = dispatch setupRoutes r.
Proof.
  assert (placed "/core/v1/users/{userId}/wallets?x=1" demo_suite
    = "/core/v1/users/u1/wallets?x=1") as Hp by (vm_compute; reflexivity).
  rewrite <- Hp.
  apply harness_requests_admitted; try done; by repeat constructor.
Defined.
