(* ===== verification/Steps.v ===== *)
(** * The steps of the acceptance suite ([testenv/*_steps.go])

    One definition per step function, in the order of the files. *)
From S2P Require Import Prelude GoFloat GoStd GoText Crypto JsonText Seeder Consts Models Config World.
From S2P Require Import Api CardTokens Routes Harness.
From S2P Require Storage.

Section Steps.
Context {S : Type} `{Env} `{!Storage.Storage S} `{Rsa} `{Mux} `{Surroundings}.
Abbreviation T := (Step S).
Abbreviation managed_header := "x-gatehub-managed-user-uuid".

Definition no_token (j : option json) (old : string) : string := default old (as_string j).
Definition strings (l : list (string * string)) : json := JObj (map (fun kv => (kv.1, JStr kv.2)) l).

(** A value that decodes into a [map[string]interface{}]; [null] is a nil map. *)
Definition as_map (j : json) : option (list (string * json)) :=
  match j with JObj fields => Some fields | JNull => Some [] | _ => None end.

(** [json.Unmarshal] into a list of maps. *)
Definition last_objects : T (list (list (string * json))) :=
  let! body := tc tc_lastResponseBody in
  mret (match as_interface <$> parse_json body with
        | Some (JArr l) =>
            match mapM as_map l with
            | Some l => Ok l
            | None => Err "json: cannot unmarshal into a list of maps"
            end
        | Some JNull => Ok []
        | _ => Err "json: cannot unmarshal into a list of maps"
        end).
(** The first entry of a balances response for the currency that [f] takes. *)
Fixpoint find_balance {A} (currency : string) (f : list (string * json) → option A)
    (balances : list (list (string * json))) : option A :=
  match balances with
  | [] => None
  | b :: balances =>
      let found :=
        vault ← as_object (assoc "vault" b);
        code ← as_string (assoc "asset_code" vault);
        if code =?s currency then f b else None in
      match found with Some a => Some a | None => find_balance currency f balances end
  end.

(** The first entry whose member [k] is [v]. *)
Definition find_by (k v : string) (l : list (list (string * json))) : option (list (string * json)) :=
  snd <$> list_find (fun fields => as_string (assoc k fields) = Some v) l.

(** ** [helpers.go] *)
Definition parseScope (scope : string) : list string :=
  map (fun s => Trim dquote (TrimSpace s)) (Split "," (Trim dquote scope)).

Definition checkRequiredFields (fields : list string) : T unit :=
  let! result := last_object in
  check (forallb (fun f => negb (missing result f)) fields) "missing field".

(** [fmt.Sprintf("%v")] of a decoded value that is no array or object; a number
    is written as in JSON, as it is from 1e-4 up to 1e21. *)
Definition Sprintf_v (j : json) : string :=
  match j with
  | JStr s => s
  | JFloat x => float_text x
  | JBool b => if b then "true" else "false"
  | JNull => "<nil>"
  | _ => ""
  end.
Definition checkFieldValue (field expectedValue : string) : T unit :=
  let! result := last_object in
  let! value := require (assoc field result) "missing field" in
  check (Sprintf_v value =?s expectedValue) "unexpected value".

Definition mockgatehubStarted : T unit := set_tc (fun _ => fresh_context).
Definition serviceURLIs (url : string) : T unit := set_tc (fun c => c <| tc_baseURL := url |>).
Definition hmacHeaders (appID appSecret : string) : T unit :=
  set_tc (fun c => c <| tc_appID := appID |> <| tc_appSecret := appSecret |>).
Definition local_credentials : T unit := hmacHeaders "local-test-app-id" "local-test-app-secret".
Definition sendGetRequestWithHMAC (path : string) : T unit :=
  let! _ := local_credentials in
  let! _ := request "GET" path None [] in
  done.
Definition responseStatusIs (status : Z) : T unit :=
  let! last := tc tc_lastResponse in
  let! resp := require last "no response" in
  check (resp_status resp =? status) "unexpected status".
Definition responseBodyContains (key value : string) : T unit :=
  let! data := last_object in
  let! v := require (assoc key data) "unexpected value" in
  check (Sprintf_v v =?s value) "unexpected value".

(** ** [fee_steps.go]: [mustJSON], and requests without a secret *)
Definition without_secret {A} (m : T A) : T A :=
  let! secret := tc tc_appSecret in
  let! _ := set_tc (fun c => c <| tc_appSecret := "" |>) in
  mbind (M := prog _) (fun r =>
    let! _ := set_tc (fun c => c <| tc_appSecret := secret |>) in mret r) m.
Definition mustJSON (v : json) : string := json_text (sort_maps v).

(** ** [auth_steps.go] *)
Definition cleanMockGatehub : T unit :=
  let! _ := set_tc (fun _ => fresh_context) in
  let body := JObj [("deposit_fee_percentage", JFloat fzero); ("withdrawal_fee_percentage", JFloat fzero)] in
  let! _ := without_secret (requestRaw "PUT" "/admin/fees" (mustJSON body) "application/json" []) in
  done.
Definition postWithEmail (path email : string) : T unit :=
  let! _ := set_tc (fun c => c <| tc_email := email |>) in
  let! _ := request "POST" path (Some (strings [("email", email)])) [] in
  let! result := last_object in
  match as_string (assoc "id" result), as_string (assoc "user_id" result) with
  | Some id, _ | None, Some id => set_tc (fun c => c <| tc_userID := id |>)
  | None, None => done
  end.
Definition payloadHasUserID : T unit :=
  let! userID := tc tc_userID in
  check (negb (userID =?s "")) "no user ID in response".
Definition managedFlagTrue : T unit :=
  let! result := last_object in
  check (default false (as_bool (assoc "managed" result))) "expected managed to be true".

(** An e-mail of this nanosecond. *)
Definition managedUserFromEndpoint (path : string) : T unit :=
  let! t := now in
  let body := strings [("email", "user" +:+ Itoa t +:+ "@example.com")] in
  let! _ := request "POST" path (Some body) [] in
  let! result := last_object in
  set_tc (fun c => c <| tc_userID := no_token (assoc "id" result) (tc_userID c) |>).
Definition existingManagedUserGeneric : T unit :=
  let! secret := tc tc_appSecret in
  let! _ := (if secret =?s "" then local_credentials else done) in
  managedUserFromEndpoint "/auth/v1/users/managed".
Definition existingManagedUserWithKYC (kycState : string) : T unit :=
  let! _ := existingManagedUserGeneric in
  if kycState =?s "accepted" then
    let! userID := tc tc_userID in
    let! _ := ignoring (request "POST" ("/id/v1/users/" +:+ userID +:+ "/hubs/gw") None []) in
    let! _ := ignoring (requestForm "POST" "/iframe/submit"
          [("user_id", userID); ("first_name", "John"); ("last_name", "Doe");
           ("dob", "1990-01-01"); ("address", "123 Main St"); ("city", "Anytown");
           ("country", "US"); ("risk_level", "low")]) in
    done
  else done.
Definition authenticatedRequest : T unit := local_credentials.
Definition iframeTokenWithScope (scope : string) : T unit :=
  let body := JObj [("scope", JArr (map JStr (parseScope scope)))] in
  let! userID := tc tc_userID in
  let! _ := request "POST" "/auth/v1/tokens" (Some body) [(managed_header, userID)] in
  let! result := last_object in
  set_tc (fun c => c <| tc_iframeToken := no_token (assoc "token" result) (tc_iframeToken c) |>).

(** ** [organization_steps.go] *)
Definition patchOrganizationConfig (orgID apiBaseURL type2fa : string) : T unit :=
  let body := strings [("apiBaseUrl", apiBaseURL); ("type2fa", type2fa)] in
  let! _ := request "PATCH" ("/auth/v1/users/organization/" +:+ orgID) (Some body) [] in
  done.
Definition responseFieldIs (field expected : string) : T unit := checkFieldValue field expected.
Definition responseHasTimestamps : T unit :=
  let! result := last_object in
  check (forallb (fun field => negb (default "" (as_string (assoc field result)) =?s ""))
           ["createdAt"; "updatedAt"]) "field should be a non-empty string".

(** ** [wallet_steps.go] *)
Definition walletsArrayReturned : T unit :=
  let! result := last_object in
  check (match as_array (assoc "wallets" result) with Some (_ :: _) => true | _ => false end)
    "expected wallets array with at least one wallet".
Definition first_wallet_address (result : list (string * json)) : option string :=
  wallets ← as_array (assoc "wallets" result);
  wallet ← head wallets;
  fields ← as_object (Some wallet);
  as_string (assoc "address" fields).
Definition firstWalletStartsWith (prefix : string) : T unit :=
  let! result := last_object in
  let! address := require (first_wallet_address result) "no wallets found" in
  let! _ := check (HasPrefix prefix address) "unexpected address" in
  set_tc (fun c => c <| tc_walletAddress := address |>).
Definition managedUserWithWalletAddress : T unit :=
  let! _ := existingManagedUserGeneric in
  let! _ := request "GET" "/core/v1/users/{userId}" None [] in
  let! result := last_object in
  let! _ := set_tc (fun c =>
    c <| tc_walletAddress := default (tc_walletAddress c) (first_wallet_address result) |>) in
  let! address := tc tc_walletAddress in
  check (negb (address =?s "")) "no wallet address found in user response".
Definition getWalletBalance : T unit :=
  let! _ := sleep (3 * second_ns) in
  let! _ := request "GET" "/core/v1/wallets/{walletAddress}/balances" None [] in
  done.
Definition currencyBalanceIs (currency expectedBalance : string) : T unit :=
  let! balances := last_objects in
  let! available := require (find_balance currency (fun b => as_string (assoc "available" b)) balances)
    "currency not found in balance response" in
  check (available =?s expectedBalance) "unexpected balance".

(** ** [balance_steps.go] *)
Definition balanceSettleTimeout : Z := 15 * second_ns.
Definition millisecond_ns : Z := 1000000.

Definition readBalance (currency : string) : T f64 :=
  let! address := tc tc_walletAddress in
  if address =?s "" then fails "no wallet address in test context"
  else preserving (
    let! _ := request "GET" "/core/v1/wallets/{walletAddress}/balances" None [] in
    let! balances := last_objects in
    let! b := require (find_balance currency Some balances) "currency not present in balances response" in
    let! available := require (as_string (assoc "available" b)) "balance has no string 'available' field" in
    require (ParseFloat available) "balance is not numeric").

Definition recordBalance (currency : string) : T unit :=
  let! value := readBalance currency in
  set_tc (fun c => c <| tc_recordedBalances := assoc_set currency value (tc_recordedBalances c) |>).

Definition almostEqual (a b : f64) : bool :=
  let diff := fsub a b in
  flt diff (f_lit 5 3) && flt (fneg (f_lit 5 3)) diff.

(** Polling until [m] gives an answer: between two polls the harness sleeps
    [step]; [fuel] polls are the time to the deadline over [step]. *)
Fixpoint poll {A} (fuel : nat) (step deadline : Z) (m : T (option A)) : T (option A) :=
  match fuel with
  | O => mret (Ok None)
  | Datatypes.S fuel =>
      let! t := now in
      if t <? deadline then
        let! r := m in
        match r with
        | Some a => mret (Ok (Some a))
        | None =>
            let! _ := sleep step in
            poll fuel step deadline m
        end
      else mret (Ok None)
  end.
Definition polls (timeout step : Z) : nat := Z.to_nat (timeout / step + 2).
Definition polling {A} (timeout step : Z) (m : T (option A)) : T (option A) :=
  let! t := now in
  poll (polls timeout step) step (t + timeout) m.
(** The value or the error of [m], to be looked at. *)
Definition attempt {A} (m : T A) : T (result A) := fun s =>
  match m s with
  | (Ret r, s) => (Ret (Ok r), s)
  | (Panic msg, s) => (Panic msg, s)
  end.

Definition awaitBalance (currency : string) (want : f64) : T unit :=
  let! settled := polling balanceSettleTimeout (250 * millisecond_ns) (
    let! last := attempt (readBalance currency) in
    mret (Ok (match last with
              | Ok last => if almostEqual last want then Some tt else None
              | Err _ => None
              end))) in
  require settled "the balance did not settle".
Definition recordedBalance (currency : string) : T f64 :=
  let! recorded := tc tc_recordedBalances in
  require (assoc currency recorded) "no recorded balance; the scenario must record one first".

Definition iRecordTheBalance (currency : string) : T unit := recordBalance currency.
Definition balanceHasIncreasedBy (currency : string) (delta : f64) : T unit :=
  let! before := recordedBalance currency in
  awaitBalance currency (fadd before delta).
Definition balanceHasDecreasedBy (currency : string) (delta : f64) : T unit :=
  let! before := recordedBalance currency in
  awaitBalance currency (fsub before delta).
Definition balanceIsUnchanged (currency : string) : T unit :=
  let! before := recordedBalance currency in
  let! moved := polling (3 * second_ns) (250 * millisecond_ns) (
    let! value := readBalance currency in
    mret (Ok (if almostEqual value before then None else Some value))) in
  match moved with None => done | Some _ => fails "the balance moved" end.

Definition fundBalance (currency : string) (amount : f64) : T unit :=
  let! before := readBalance currency in
  let! c := tc (fun c => c) in
  let body := JObj [("user_id", JStr (tc_userID c)); ("receiving_address", JStr (tc_walletAddress c));
    ("amount", JFloat amount); ("currency", JStr currency); ("type", JInt 1);
    ("deposit_type", JStr "external")] in
  let! resp := request "POST" "/core/v1/transactions" (Some body) [(managed_header, tc_userID c)] in
  let! _ := check (resp_status resp =? 201) "funding deposit failed" in
  let! rose := polling balanceSettleTimeout (250 * millisecond_ns) (
    let! value := attempt (readBalance currency) in
    mret (Ok (match value with
              | Ok value => if flt before value then Some tt else None
              | Err _ => None
              end))) in
  require rose "funding deposit never settled".
Definition userHasFundedBalance (currency : string) : T unit := fundBalance currency (f_of_Z 1000).

Definition postHostedTransferBetween (sending receiving : string) (amount : f64) (currency : string) :
    T unit :=
  let! userID := tc tc_userID in
  let body := JObj [("user_id", JStr userID); ("sending_address", JStr sending);
    ("receiving_address", JStr receiving); ("amount", JFloat amount); ("currency", JStr currency);
    ("type", JInt 2); ("deposit_type", JStr "hosted")] in
  let! _ := request "POST" "/core/v1/transactions" (Some body) [(managed_header, userID)] in
  done.
Definition postHostedTransferFromUserWallet (amount : f64) (currency destination : string) : T unit :=
  let! wallet := tc tc_walletAddress in
  postHostedTransferBetween wallet destination amount currency.
Definition postHostedTransferToUserWallet (amount : f64) (currency source : string) : T unit :=
  let! wallet := tc tc_walletAddress in
  postHostedTransferBetween source wallet amount currency.
Definition responseEchoesSendingAddress (expected : string) : T unit :=
  let! result := last_object in
  let! wallet := tc tc_walletAddress in
  let expected := if expected =?s "the user wallet" then wallet else expected in
  check (default "" (as_string (assoc "sending_address" result)) =?s expected) "unexpected sending_address".

(** ** [transaction_steps.go] *)
(** [float64(whole) + float64(decimal)/100] *)
Definition amount_of (whole decimal : Z) : f64 := fadd (f_of_Z whole) (fdiv (f_of_Z decimal) (f_of_Z 100)).
Definition post_transaction (path : string) (members : list (string * json)) : T unit :=
  let! userID := tc tc_userID in
  let! _ := request "POST" path (Some (JObj members)) [(managed_header, userID)] in
  done.

Definition authenticatedRequestsWithHMAC : T unit := local_credentials.
Definition postTransactionWithAuth (path amount currency authToken : string) : T unit :=
  let! authToken := replacePlaceholders authToken in
  let body := JObj [("amount", JStr amount); ("currency", JStr currency)] in
  let! _ := request "POST" path (Some body) [("Authorization", "Bearer " +:+ authToken)] in
  done.
Definition postHostedTransfer (path : string) (amount : f64) (decimalPart : Z) (currency : string)
    (txType : Z) (depositType : string) : T unit :=
  let! userID := tc tc_userID in
  post_transaction path
    [("user_id", JStr userID); ("amount", JFloat (fadd amount (fdiv (f_of_Z decimalPart) (f_of_Z 100))));
     ("currency", JStr currency); ("type", JInt txType); ("deposit_type", JStr depositType)].
Definition responseHasIDOrUUID : T unit :=
  let! result := last_object in
  match as_string (assoc "id" result), as_string (assoc "uuid" result) with
  | None, None => fails "expected id or uuid in response"
  | _, _ => done
  end.
Definition amountEchoes (amount : f64) : T unit :=
  let! result := last_object in
  match assoc "amount" result with
  | Some (JStr a) => check (a =?s Sprintf_2f amount) "unexpected amount"
  | Some (JFloat a) => check (Sprintf_2f a =?s Sprintf_2f amount) "unexpected amount"
  | _ => fails "unexpected amount"
  end.
Definition depositTypeIs (depositType : string) : T unit :=
  let! result := last_object in
  let! dt := require (as_string (assoc "deposit_type" result)) "unexpected deposit_type" in
  check (dt =?s depositType) "unexpected deposit_type".

(** [int(x)] of a number the suite compares with an integer. *)
Definition is_int (x : option f64) (n : Z) : bool :=
  match x with Some x => f_trunc x =? n | None => false end.
Definition statusIsInteger (status : Z) : T unit :=
  let! result := last_object in
  check (is_int (as_number (assoc "status" result)) status) "unexpected status".
Definition statusIsCompleted (intStatus : Z) (strStatus : string) : T unit :=
  let! result := last_object in
  check (is_int (as_number (assoc "status" result)) intStatus
         || match as_string (assoc "status" result) with Some v => v =?s strStatus | None => false end)
    "status is neither the integer nor the string".
Definition coreDepositWebhookEmitted : T unit := done.
Definition postExternalDeposit (path : string) (txType : Z) (depositType : string)
    (wholeAmount decimalAmount : Z) (currency : string) : T unit :=
  let! wallet := tc tc_walletAddress in
  post_transaction path
    [("type", JInt txType); ("deposit_type", JStr depositType); ("receiving_address", JStr wallet);
     ("amount", JFloat (amount_of wholeAmount decimalAmount)); ("currency", JStr currency)].

(** One point, with two bytes after it. *)
Definition isDecimalFormat (s : string) : bool :=
  match Split "." s with
  | [_; decimals] => (String.length decimals =? 2)%nat
  | _ => false
  end.
Definition fieldsAreStringFormatted : T unit :=
  let! result := last_object in
  check (forallb (fun field =>
           match assoc field result with
           | None => true
           | Some (JStr v) => isDecimalFormat v
           | Some _ => false
           end) ["amount"; "total_amount"; "fee"]) "field not in X.XX format".
Definition transactionCanBeRetrievedFormatted (version : Z) : T unit := fieldsAreStringFormatted.
Definition userHasFundedWallet (currency : string) (wholeAmount decimalAmount : Z) : T unit :=
  postExternalDeposit "/core/v1/transactions" 1 "external" wholeAmount decimalAmount currency.

Definition postHostedDirectional (leadField sendingDesc receivingDesc : string)
    (wholeAmount decimalAmount : Z) (currency : string) (txType : Z) (depositType : string) : T unit :=
  let! wallet := tc tc_walletAddress in
  let resolveSendRecv (desc : string) :=
    if desc =?s "the user wallet" then wallet else "rSettlementAddress123" in
  post_transaction "/core/v1/transactions"
    ([("amount", JFloat (amount_of wholeAmount decimalAmount)); ("currency", JStr currency);
      ("type", JInt txType); ("deposit_type", JStr depositType)]
     ++ (if leadField =?s "sending"
         then [("sending_address", JStr (resolveSendRecv sendingDesc));
               ("receiving_address", JStr (resolveSendRecv receivingDesc))]
         else [("receiving_address", JStr (resolveSendRecv receivingDesc));
               ("sending_address", JStr (resolveSendRecv sendingDesc))])).
Definition postHostedWithSendingAddress (sendingDesc receivingDesc : string) : Z → Z → string → Z → string → T unit :=
  postHostedDirectional "sending" sendingDesc receivingDesc.
Definition postHostedWithReceivingAddress (receivingDesc sendingDesc : string) : Z → Z → string → Z → string → T unit :=
  postHostedDirectional "receiving" sendingDesc receivingDesc.

(** Ten readings, half a second apart. *)
Fixpoint await_available (tries : nat) (currency expected : string) : T unit :=
  match tries with
  | O => fails "unexpected balance (after polling)"
  | Datatypes.S tries =>
      let! _ := sleep (500 * millisecond_ns) in
      let! wallet := tc tc_walletAddress in
      let! _ := request "GET" ("/core/v1/wallets/" +:+ wallet +:+ "/balances") None [] in
      let! balances := last_objects in
      match find_balance currency (fun b =>
              available ← as_string (assoc "available" b);
              if available =?s expected then Some tt else None) balances with
      | Some _ => done
      | None => await_available tries currency expected
      end
  end.
Definition userBalanceForCurrencyIs (currency : string) (wholeAmount decimalAmount : Z) : T unit :=
  await_available 10 currency (Sprintf_2f (amount_of wholeAmount decimalAmount)).

(** ** [withdrawal_steps.go] *)
Definition usingTheAsyncWithdrawalsInstance : T unit :=
  set_tc (fun c => c <| tc_baseURL := asyncWithdrawalsURL |>
                     <| tc_adminBaseURL := asyncWithdrawalsAdminURL |>).
Definition last_status : T Z :=
  let! last := tc tc_lastResponse in
  let! resp := require last "no response" in
  mret (Ok (resp_status resp)).
(** [json.Unmarshal] into a [map[string]string]: every member is a string. *)
Definition last_strings : T (list (string * string)) :=
  let! fields := last_object in
  require (mapM (fun kv => v ← as_string (Some kv.2); Some (kv.1, v)) fields) "json: cannot unmarshal".
Definition requestWithdrawal (amount currency : string) : T unit :=
  let! token := tc tc_iframeToken in
  let! _ := (if token =?s "" then iframeTokenWithScope "withdraw" else done) in
  let! token := tc tc_iframeToken in
  let! _ := requestRaw "POST" "/transaction/complete?paymentType=withdraw"
    (mustJSON (strings [("amount", amount); ("currency", currency)])) "application/json"
    [("Authorization", "Bearer " +:+ token)] in
  let! status := last_status in
  if negb (status =? StatusOK) then done
  else
    let! resp := last_strings in
    let id := default "" (assoc "transaction_id" resp) in
    let! _ := set_tc (fun c => c <| tc_withdrawalID := id |>) in
    check (negb (id =?s "")) "withdrawal response carried no transaction_id".

(** The member [withdrawals] of the last body. *)
Definition listed_objects (field : string) : T (list (list (string * json))) :=
  let! body := last_object in
  match assoc field body with
  | None | Some JNull => mret (Ok [])
  | Some (JArr l) => require (mapM as_map l) "json: cannot unmarshal"
  | Some _ => fails "json: cannot unmarshal"
  end.
Definition withdrawals_path (status : string) : T string :=
  let! userID := tc tc_userID in
  mret (Ok ("/admin/users/" +:+ userID +:+ "/withdrawals"
            +:+ (if status =?s "" then "" else "?status=" +:+ status))).
Definition listWithdrawals (status : string) : T (list (list (string * json))) :=
  let! path := withdrawals_path status in
  let! resp := request "GET" path None [] in
  let! _ := check (resp_status resp =? StatusOK) "listing withdrawals failed" in
  listed_objects "withdrawals".
Definition withdrawalStatusIs (expected : string) : T unit := preserving (
  let! withdrawals := listWithdrawals "" in
  let! wantStatus := require (assoc expected [("pending", 1); ("completed", 100); ("failed", 3)])
    "unknown expected status" in
  let! id := tc tc_withdrawalID in
  let! wd := require (find_by "uuid" id withdrawals) "withdrawal not found in the listing" in
  check (match as_number (assoc "status" wd) with Some x => feq x (f_of_Z wantStatus) | None => false end)
    "unexpected withdrawal status").
Definition iGETWithdrawalsFiltered (status : string) : T unit :=
  let! path := withdrawals_path status in
  let! _ := request "GET" path None [] in
  done.
(** A member that decodes into an [int]: absent, or a whole number. *)
Definition int_member (k : string) (fields : list (string * json)) : option Z :=
  match assoc k fields with
  | None | Some JNull => Some 0
  | Some (JFloat x) => if feq (f_of_Z (f_trunc x)) x then Some (f_trunc x) else None
  | Some _ => None
  end.
(** A member that decodes into a [string]. *)
Definition string_member (k : string) (fields : list (string * json)) : option string :=
  match assoc k fields with
  | None | Some JNull => Some ""
  | Some (JStr s) => Some s
  | Some _ => None
  end.
Definition withdrawalListingHolds (count : Z) : T unit :=
  let! withdrawals := listed_objects "withdrawals" in
  let! body := last_object in
  let! n := require (int_member "count" body) "could not parse listing" in
  check ((Z.of_nat (length withdrawals) =? count) && (n =? count)) "unexpected number of withdrawals".
Definition withdrawalListingNamesTheBankDetails : T unit :=
  let! withdrawals := listed_objects "withdrawals" in
  let! first := require (head withdrawals) "no withdrawals in the listing" in
  check (forallb (fun field => match assoc field first with
                               | None => false
                               | Some (JStr v) => negb (v =?s "")
                               | Some _ => true
                               end) ["account_iban"; "account_legal_name"; "message"])
    "withdrawal does not carry its bank details".
Definition triggerWithdrawalEventFor (txID event : string) : T unit :=
  let! _ := request "POST" ("/admin/withdrawals/" +:+ txID +:+ "/trigger-event")
    (Some (strings [("event", event)])) [] in
  done.
Definition triggerWithdrawalEvent (event : string) : T unit :=
  let! id := tc tc_withdrawalID in
  let! _ := check (negb (id =?s "")) "no withdrawal recorded to settle" in
  triggerWithdrawalEventFor id event.

(** ** [card_simulation_steps.go]: waiting for a webhook *)
Definition webhookDeliveryTimeout : Z := 30 * second_ns.
Definition clearReceivedWebhooks : T unit :=
  let! _ := request "DELETE" "/admin/received-webhooks" None [] in
  done.
Definition awaitWebhook (event : string) : T (list (string * json)) := preserving (
  let! hook := polling webhookDeliveryTimeout (400 * millisecond_ns) (
    let! userID := tc tc_userID in
    let! _ := request "GET" ("/admin/received-webhooks?event=" +:+ event +:+ "&user=" +:+ userID) None [] in
    let! webhooks := listed_objects "webhooks" in
    mret (Ok (last webhooks))) in
  let! hook := require hook "no such webhook was delivered" in
  let! _ := check (default false (as_bool (assoc "signature_valid" hook)))
    "webhook arrived without a valid signature" in
  mret (Ok (default [] (as_object (assoc "payload" hook))))).
Definition webhookIsDelivered (event : string) : T unit :=
  let! _ := awaitWebhook event in
  done.
Definition webhook_data (event : string) : T (list (string * json)) :=
  let! payload := awaitWebhook event in
  require (as_object (assoc "data" payload)) "webhook has no data object".

(** ** [withdrawal_steps.go] *)
Definition withdrawalWebhookReportsTheTransaction (event : string) : T unit :=
  let! data := webhook_data event in
  let! id := tc tc_withdrawalID in
  let! _ := check (match as_string (assoc "tx_uuid" data) with Some t => t =?s id | None => false end)
    "webhook reported another transaction" in
  check (forallb (fun field => negb (missing data field)) ["amount"; "currency"])
    "withdrawal webhook is missing a field".

(** ** [kyc_steps.go], [kyc_state_steps.go] *)
Definition postEndpoint (path : string) : T unit :=
  let! _ := request "POST" path None [] in
  let! result := last_object in
  set_tc (fun c => c <| tc_kycToken := no_token (assoc "token" result) (tc_kycToken c) |>).
Definition responseHasKYCToken : T unit :=
  let! token := tc tc_kycToken in
  check (negb (token =?s "")) "no KYC token in response".
Definition getShowsKYCState (path kycState riskLevel : string) : T unit :=
  let! _ := request "GET" path None [] in
  let! result := last_object in
  let! _ := check (match as_string (assoc "kyc_state" result) with Some v => v =?s kycState | None => false end)
    "unexpected kyc_state" in
  check (match as_string (assoc "risk_level" result) with Some v => v =?s riskLevel | None => false end)
    "unexpected risk_level".
Definition getEndpoint (path : string) : T unit :=
  let! _ := request "GET" path None [] in
  done.
Definition responseIsHTMLMentioning (text1 text2 : string) : T unit :=
  let! body := tc tc_lastResponseBody in
  check (Contains body text1 && Contains body text2) "expected HTML to mention both".

Definition kyc_form (userID : string) : list (string * string) :=
  [("user_id", userID); ("first_name", "Jane"); ("last_name", "Doe"); ("dob", "1990-05-15");
   ("address", "123 Main St"); ("city", "Testville"); ("country", "US"); ("risk_level", "low")].
Definition submit_kyc_form (more : list (string * string)) : T unit :=
  let! userID := tc tc_userID in
  let! _ := requestForm "POST" "/iframe/submit" (kyc_form userID ++ more) in
  done.
Definition submitKYCFormWithout2FA : T unit := submit_kyc_form [].
Definition submitKYCFormWith2FA (code : string) : T unit :=
  submit_kyc_form [("trigger_2fa", "on"); ("totp_code", code)].
Definition submitKYCFormWithOutcome (outcome : string) : T unit :=
  submit_kyc_form [("kyc_outcome", outcome)].

Definition setKYCStateQuietly (state : string) : T unit :=
  let! userID := tc tc_userID in
  let! _ := request "PUT" ("/admin/users/" +:+ userID +:+ "/kyc-state")
    (Some (strings [("kyc_state", state); ("risk_level", "low")])) [] in
  done.
Definition userVerificationReports (status state : Z) : T unit := preserving (
  let! userID := tc tc_userID in
  let! _ := request "GET" ("/id/v1/users/" +:+ userID) None [] in
  let! verifications := listed_objects "verifications" in
  let! v := require (head verifications) "user reports no verifications" in
  let! _ := check (bool_decide (int_member "status" v = Some status)
                   && bool_decide (int_member "state" v = Some state)) "unexpected verification" in
  check (negb (default "" (as_string (assoc "provider" v)) =?s "")
         && negb (default "" (as_string (assoc "provider_type" v)) =?s ""))
    "verification does not name its provider").
Definition userReportsSameIdUnderBothNames : T unit := preserving (
  let! userID := tc tc_userID in
  let! _ := request "GET" ("/id/v1/users/" +:+ userID) None [] in
  let! resp := last_object in
  let! id := require (as_string (assoc "id" resp)) "expected both id and uuid" in
  let! uuid := require (as_string (assoc "uuid" resp)) "expected both id and uuid" in
  check ((id =?s userID) && (uuid =?s userID)) "expected both to be the user's").

(** A verdict whose status is no number is a panic. *)
Definition kycWebhookCarriesVerdict (event short : string) (status : Z) : T unit :=
  let! data := webhook_data event in
  let! verified := require (as_object (assoc "verified" data)) "no verified summary" in
  let! _ := check (match as_string (assoc "short" verified) with Some v => v =?s short | None => false end)
    "unexpected verified.short" in
  match as_number (assoc "status" verified) with
  | Some x => check (f_trunc x =? status) "unexpected verified.status"
  | None => panic "interface conversion: interface {} is not float64"
  end.
Definition kycWebhookCarriesNoVerdict (event : string) : T unit :=
  let! data := webhook_data event in
  let! _ := check (missing data "verified") "should not carry a verification verdict" in
  check (match assoc "gateway" data with None | Some JNull => false | Some _ => true end)
    "should still name the identity gateway".
Definition noWebhookIsDelivered : T unit := preserving (
  let! _ := sleep (6 * second_ns) in
  let! userID := tc tc_userID in
  let! _ := request "GET" ("/admin/received-webhooks?user=" +:+ userID) None [] in
  let! body := last_object in
  let! count := require (int_member "count" body) "json: cannot unmarshal" in
  check (count =? 0) "expected no webhooks").

(** ** [rates_steps.go] *)
Definition mockgatehubRunningWithHeaders : T unit := local_credentials.
Definition payloadHasCounterCurrency : T unit :=
  let! result := last_object in
  check (negb (missing result "counter_currency" && missing result "counterCurrency" && missing result "counter"))
    "missing counter_currency, counterCurrency, or counter".
Definition rateEntryExists : T unit :=
  let! result := last_object in
  check (existsb (fun kv => negb ((kv.1 =?s "counter_currency") || (kv.1 =?s "counterCurrency"))) result)
    "no rate entries".
Definition responseHasVaults : T unit :=
  let! result := last_object in
  check (match as_array (assoc "vaults" result) with Some (_ :: _) => true | _ => false end)
    "no vaults array or empty".
Definition extractRate (currency : string) : T f64 :=
  let! result := last_object in
  let! entry := require (assoc currency result) "currency not found in response" in
  let! rateObj := require (as_object (Some entry)) "unexpected rate entry format" in
  require (as_number (assoc "rate" rateObj)) "rate is not a number".
Definition counterFieldIs (expected : string) : T unit :=
  let! result := last_object in
  let! counter := require (as_string (assoc "counter" result)) "counter field missing or not a string" in
  check (counter =?s expected) "unexpected counter".
(** [math.Abs(a - b) > tolerance] fails the step. *)
Definition within (a b tolerance : f64) : bool := negb (flt tolerance (SpecFloat.SFabs (fsub a b))).
Definition rateForCurrencyIs (currency : string) (expected : f64) : T unit :=
  let! rate := extractRate currency in
  check (within rate expected (f_lit 1 4)) "unexpected rate".
Definition rateForCurrencyApprox (currency : string) (expected tolerance : f64) : T unit :=
  let! rate := extractRate currency in
  check (within rate expected tolerance) "unexpected rate".
Definition saveRateAs (currency name : string) : T unit :=
  let! rate := extractRate currency in
  set_tc (fun c => c <| tc_savedRates := assoc_set name rate (tc_savedRates c) |>).
Definition rateIsInverseOfSaved (currency savedName : string) (tolerance : f64) : T unit :=
  let! rate := extractRate currency in
  let! rates := tc tc_savedRates in
  let! saved := require (assoc savedName rates) "no saved rate" in
  check (within rate (fdiv (f_of_Z 1) saved) tolerance) "unexpected rate".

(** ** [signature_steps.go] *)
Definition cleanMockGatehubInstanceWithAuthenticationEnforced : T unit := set_tc (fun _ => fresh_context).
Definition validCredentialsWithAppIdAndSecret (appID secret : string) : T unit := hmacHeaders appID secret.
Definition currentTimestampInMilliseconds : T unit :=
  let! t := now in
  set_tc (fun c => c <| tc_signatureTime := Itoa (UnixMilli t) |>).
Definition fixedTimestampValue (value : string) : T unit :=
  set_tc (fun c => c <| tc_signatureTime := value |>).
Definition bodyIs (body : string) : T unit := set_tc (fun c => c <| tc_signatureBody := body |>).
Definition baseStringIs (template : string) : T unit :=
  set_tc (fun c => c <| tc_signatureBase := template |>).
Definition baseStringWithNoBodyComponent (template : string) : T unit := baseStringIs template.
Definition baseStringUsingPathOnly (template : string) : T unit := baseStringIs template.
Definition baseStringUsingOldSimpleFormat (template : string) : T unit := baseStringIs template.
Definition baseStringIncludesQueryString : T unit := done.
Definition baseStringUsesURL (url : string) : T unit := set_tc (fun c => c <| tc_signatureURL := url |>).
Definition buildBaseString (template : string) : T string :=
  let! c := tc (fun c => c) in
  let base := if tc_signatureTime c =?s "" then template
              else ReplaceAll template "timestamp_ms" (tc_signatureTime c) in
  let base := if tc_signatureBody c =?s "" then base
              else ReplaceAll base "{body}" (tc_signatureBody c) in
  replacePlaceholders base.
Definition signatureComputedFrom (baseTemplate : string) : T unit :=
  let! base := buildBaseString baseTemplate in
  set_tc (fun c => c <| tc_signatureOverride := computeHMAC (tc_appSecret c) base |>).
Definition signatureComputedUsingSeconds (seconds : string) : T unit :=
  set_tc (fun c =>
    let base := Trim "|" (seconds +:+ "|POST|http://localhost:25151/auth/v1/users/managed|"
                          +:+ tc_signatureBody c) in
    c <| tc_signatureOverride := computeHMAC (tc_appSecret c) base |>).

Definition sendSignedRequest (method path bodyStr mode : string)
    (appIDOverride secretOverride timestampOverride : string)
    (omitAppID omitTimestamp omitSignature : bool) : T unit :=
  let! path := replacePlaceholders path in
  let! c := tc (fun c => c) in
  let! timestamp :=
    (if negb (timestampOverride =?s "") then mret (M := prog _) (Ok timestampOverride)
     else if negb (tc_signatureTime c =?s "") then mret (M := prog _) (Ok (tc_signatureTime c))
     else
       let! t := now in
       let! _ := set_tc (fun c => c <| tc_signatureTime := Itoa (UnixMilli t) |>) in
       mret (Ok (Itoa (UnixMilli t)))) in
  let appID := if appIDOverride =?s "" then tc_appID c else appIDOverride in
  let secret := if secretOverride =?s "" then tc_appSecret c else secretOverride in
  let signURL := if tc_signatureURL c =?s "" then tc_baseURL c +:+ path else tc_signatureURL c in
  let signURL := if mode =?s "path" then path else signURL in
  let base := if mode =?s "simple" then timestamp +:+ method +:+ path +:+ bodyStr
              else Trim "|" (timestamp +:+ "|" +:+ method +:+ "|" +:+ signURL +:+ "|" +:+ bodyStr) in
  let signature := if tc_signatureOverride c =?s "" then computeHMAC secret base
                   else tc_signatureOverride c in
  let headers := default [] (tc_signatureHeaders c) in
  let headers := if omitAppID then headers else assoc_set "x-gatehub-app-id" appID headers in
  let headers := if omitTimestamp then headers else assoc_set "x-gatehub-timestamp" timestamp headers in
  let headers := if omitSignature then headers else assoc_set "x-gatehub-signature" signature headers in
  let! sent := attempt (requestRaw method path bodyStr
    (if bodyStr =?s "" then "" else "application/json") headers) in
  let! _ := set_tc (fun c => c <| tc_signatureOverride := "" |> <| tc_signatureURL := "" |>
                              <| tc_signatureHeaders := None |>) in
  match sent with Ok _ => done | Err e => fails e end.
Definition maybeSendPendingRequest : T unit :=
  let! c := tc (fun c => c) in
  let header (k : string) := default "" (h ← tc_signatureHeaders c; assoc k h) in
  if (tc_pendingMethod c =?s "") || (header "X-Forwarded-Proto" =?s "")
     || (header "X-Forwarded-Host" =?s "") then done
  else
    let! _ := sendSignedRequest (tc_pendingMethod c) (tc_pendingPath c) (tc_pendingBody c)
                (tc_pendingMode c) "" "" "" false false false in
    set_tc (fun c => c <| tc_pendingMethod := "" |> <| tc_pendingPath := "" |>
                       <| tc_pendingBody := "" |> <| tc_pendingMode := "" |>).
Definition include_header (k value : string) : T unit :=
  let! _ := set_tc (fun c =>
    c <| tc_signatureHeaders := Some (assoc_set k value (default [] (tc_signatureHeaders c))) |>) in
  maybeSendPendingRequest.
Definition requestIncludesHeaderXForwardedProto (value : string) : T unit :=
  include_header "X-Forwarded-Proto" value.
Definition requestIncludesHeaderXForwardedHost (value : string) : T unit :=
  include_header "X-Forwarded-Host" value.
Definition responseContainsUserID : T unit :=
  let! result := last_object in
  check (existsb (fun k => negb (default "" (as_string (assoc k result)) =?s "")) ["id"; "user_id"])
    "no user id in response".
Definition responseStatusIsNot (status : Z) : T unit :=
  let! actual := last_status in
  check (negb (actual =? status)) "unexpected status".
Definition postSignedUsingFullURL (path body : string) : T unit :=
  sendSignedRequest "POST" path body "full" "" "" "" false false false.
Definition getSignedUsingFullURL (path : string) : T unit :=
  sendSignedRequest "GET" path "" "full" "" "" "" false false false.
Definition postSignedUsingFullURLWithQuery (path body : string) : T unit := postSignedUsingFullURL path body.
Definition postSignedUsingProxiedURL (path body : string) : T unit :=
  let! _ := set_tc (fun c => c <| tc_pendingMethod := "POST" |> <| tc_pendingPath := path |>
                              <| tc_pendingBody := body |> <| tc_pendingMode := "full" |>) in
  maybeSendPendingRequest.
Definition postSignedUsingPathOnly (path body : string) : T unit :=
  sendSignedRequest "POST" path body "path" "" "" "" false false false.
Definition postSignedUsingSimpleFormat (path body : string) : T unit :=
  sendSignedRequest "POST" path body "simple" "" "" "" false false false.
Definition postWithoutSignatureHeader (path body : string) : T unit :=
  sendSignedRequest "POST" path body "full" "" "" "" false false true.
Definition postWithoutTimestampHeader (path body : string) : T unit :=
  sendSignedRequest "POST" path body "full" "" "" "" false true false.
Definition postWithoutAppIDHeader (path body : string) : T unit :=
  sendSignedRequest "POST" path body "full" "" "" "" true false false.
Definition postWithUnknownAppID (path body appID : string) : T unit :=
  sendSignedRequest "POST" path body "full" appID "" "" false false false.
Definition postSignedWithSecret (path body secret : string) : T unit :=
  sendSignedRequest "POST" path body "full" "" secret "" false false false.
Definition postSignedWithTimestamp (path timestamp : string) : T unit :=
  let! body := tc tc_signatureBody in
  sendSignedRequest "POST" path body "full" "" "" timestamp false false false.
Definition getHealthWithoutHMAC : T unit :=
  let! _ := requestRaw "GET" "/health" "" "" [] in
  done.
Definition some_user : T unit :=
  let! userID := tc tc_userID in
  if userID =?s "" then existingManagedUserGeneric else done.
Definition getRootWithoutHMAC : T unit :=
  let! _ := some_user in
  let! userID := tc tc_userID in
  let! _ := request "POST" "/auth/v1/tokens?clientId=test-client"
    (Some (JObj [("scope", JArr [JStr "auth"])])) [(managed_header, userID)] in
  let! result := last_object in
  let token := default "" (as_string (assoc "token" result)) in
  let! _ := check (negb (token =?s "")) "missing token for root request" in
  let! _ := requestRaw "GET" ("/?paymentType=onboarding&bearer=" +:+ token) "" "" [] in
  done.
Definition postIframeSubmitWithoutHMAC : T unit :=
  let! _ := some_user in
  let! userID := tc tc_userID in
  let body := "user_id=" +:+ userID +:+ "&first_name=Test&last_name=User&dob=1990-01-01&address=123+Main+St&city=NY&country=USA&risk_level=low" in
  let! _ := requestRaw "POST" "/iframe/submit" body "application/x-www-form-urlencoded" [] in
  done.

(** ** [fee_steps.go] *)
Definition fee_configured (field : string) (percent : f64) : T unit :=
  let! _ := without_secret (requestRaw "PUT" "/admin/fees" (mustJSON (JObj [(field, JFloat percent)]))
                              "application/json" []) in
  let! status := last_status in
  check (status =? 200) "failed to set the fee".
Definition depositFeeConfigured (percent : f64) : T unit := fee_configured "deposit_fee_percentage" percent.
Definition withdrawalFeeConfigured (percent : f64) : T unit := fee_configured "withdrawal_fee_percentage" percent.
Definition without_hmac (method path body contentType : string) : T unit :=
  let! _ := without_secret (requestRaw method path body contentType []) in
  done.
Definition getAdminFeesWithoutAuth : T unit := without_hmac "GET" "/admin/fees" "" "".
Definition putAdminFeesWithoutAuth (bodyJSON : string) : T unit :=
  without_hmac "PUT" "/admin/fees" bodyJSON "application/json".
Definition putAdminFeesWithoutAnyHMAC (bodyJSON : string) : T unit :=
  let! _ := requestRaw "PUT" "/admin/fees" bodyJSON "application/json" [] in
  done.
Definition percentage_is (field : string) (expected : f64) : T unit :=
  let! result := last_object in
  let! actual := require (as_number (assoc field result)) "percentage not found or not a number" in
  check (feq actual expected) "unexpected percentage".
Definition depositFeePercentageIs (expected : f64) : T unit := percentage_is "deposit_fee_percentage" expected.
Definition withdrawalFeePercentageIs (expected : f64) : T unit := percentage_is "withdrawal_fee_percentage" expected.
Definition transactionFeeIs (expected : string) : T unit := checkFieldValue "fee" expected.
Definition transactionTotalAmountIs (expected : string) : T unit := checkFieldValue "total_amount" expected.
Definition transactionAmountIs (expected : string) : T unit := checkFieldValue "amount" expected.
(** A transaction is posted, and its id kept. *)
Definition post_and_record (members : list (string * json)) : T unit :=
  let! userID := tc tc_userID in
  let! _ := request "POST" "/core/v1/transactions" (Some (JObj (("user_id", JStr userID) :: members))) [] in
  let! result := last_object in
  set_tc (fun c => c <| tc_transactionID := no_token (assoc "uuid" result) (tc_transactionID c) |>).
Definition postDepositWithFeeFields (txType : Z) (depositType : string) (amount : f64) (currency : string) :
    T unit :=
  post_and_record [("type", JInt txType); ("deposit_type", JStr depositType); ("amount", JFloat amount);
                   ("currency", JStr currency)].
Definition getTransactionByID : T unit :=
  let! id := tc tc_transactionID in
  let! _ := check (negb (id =?s "")) "no transaction ID available" in
  let! _ := request "GET" ("/core/v1/transactions/" +:+ id) None [] in
  done.
Definition createWithdrawalTransaction (amount : f64) (currency : string) : T unit :=
  post_and_record [("type", JInt 3); ("deposit_type", JStr "withdrawal"); ("amount", JFloat amount);
                   ("currency", JStr currency)].
Definition postHostedTransferWithFeeFields (amount : f64) (currency : string) (txType : Z) (depositType : string) :
    T unit :=
  post_and_record [("amount", JFloat amount); ("currency", JStr currency); ("type", JInt txType);
                   ("deposit_type", JStr depositType)].
Definition user_fees_path : T string :=
  let! userID := tc tc_userID in
  mret (Ok ("/admin/users/" +:+ userID +:+ "/fees")).
Definition getUserFeesWithoutAuth : T unit :=
  let! path := user_fees_path in
  without_hmac "GET" path "" "".
Definition setUserFeesWithoutAuth (bodyJSON : string) : T unit :=
  let! path := user_fees_path in
  without_hmac "PUT" path bodyJSON "application/json".
Definition clearUserFeesWithoutAuth : T unit :=
  let! path := user_fees_path in
  without_hmac "DELETE" path "" "".
Definition userFeeSourceIs (feeType expectedSource : string) : T unit :=
  let! result := last_object in
  let! sourceField := require (assoc feeType [("deposit", "deposit_fee_source");
                                              ("withdrawal", "withdrawal_fee_source")]) "invalid fee type" in
  let! actual := require (as_string (assoc sourceField result)) "source not found or not a string" in
  check (actual =?s expectedSource) "unexpected source".

(** ** The polls are never cut short

    More of them change nothing, as long as what is polled does not turn the
    clock back: the last one finds the deadline past. *)
Lemma poll_enough {A} (k fuel : nat) step deadline (m : T (option A)) s :
  0 < step → (∀ s, suite_clock s <= suite_clock (m s).2) →
  deadline - suite_clock s <= Z.of_nat fuel * step →
  poll (Datatypes.S fuel + k) step deadline m s = poll (Datatypes.S fuel) step deadline m s.
Proof.
  intros Hstep Hm. revert s. induction fuel as [|fuel IH]; intros s Hd.
  - cbn [poll Nat.add]. unfold now. run_binds. destruct (Z.ltb_spec (suite_clock s) deadline); [lia|done].
  - change (Datatypes.S (Datatypes.S fuel) + k)%nat with (Datatypes.S (Datatypes.S fuel + k)).
    cbn [poll]. fold (poll (A := A)). unfold now. run_binds.
    destruct (Z.ltb_spec (suite_clock s) deadline); [|done]. run_binds.
    set (s1 := s <| suite_clock := suite_clock s + 1 |>). specialize (Hm s1).
    destruct (m s1) as [[[[a|]|e]|msg] s2]; try done. unfold sleep. apply IH. cbn in Hm |- *. lia.
Qed.
Lemma polling_enough {A} (k : nat) timeout step (m : T (option A)) s :
  0 <= timeout → 0 < step → (∀ s, suite_clock s <= suite_clock (m s).2) →
  polling timeout step m s
  = (let! t := now in poll (polls timeout step + k) step (t + timeout) m) s.
Proof.
  intros Ht Hs Hm. unfold polling, now. run_binds.
  pose proof (Z.div_pos timeout step Ht Hs). pose proof (Z_div_mod_eq_full timeout step).
  pose proof (Z.mod_pos_bound timeout step Hs).
  replace (polls timeout step) with (Datatypes.S (Z.to_nat (timeout / step + 1))) by (unfold polls; lia).
  symmetry. apply poll_enough; [done|done|]. cbn. lia.
Qed.
End Steps.
