(* ===== verification/CardSteps.v ===== *)
(** * The steps about cards, statements and the admin pages

    The second half of [testenv/*_steps.go].  A response that is decoded into a
    struct is read by the exact names of its members. *)
From S2P Require Import Prelude GoFloat GoStd GoText Crypto Base64 JsonText Urls Seeder Consts Models Config World.
From S2P Require Import Api CardTokens Ui Routes Server Harness Steps.
From S2P Require Storage.

(** ** [statement_steps.go]: the text a PDF draws

    The strings in parentheses that the operator [Tj] draws, leftmost first; a
    string has no parenthesis of its own but an escaped one. *)
Definition backslash : ascii := "092".
Fixpoint drawn_body (l : list ascii) : option (list ascii * list ascii) :=
  match l with
  | [] => None
  | c :: l' =>
      if is_char backslash c then
        match l' with
        | [] => None
        | d :: l'' => if is_char "010" d then None else '(b, r) ← drawn_body l''; Some (c :: d :: b, r)
        end
      else if is_char "(" c then None
      else if is_char ")" c then Some ([], l')
      else '(b, r) ← drawn_body l'; Some (c :: b, r)
  end.
Fixpoint drawn_texts (fuel : nat) (l : list ascii) : list (list ascii) :=
  match fuel, l with
  | Datatypes.S fuel, c :: l' =>
      if is_char "(" c then
        match drawn_body l' with
        | Some (b, r) =>
            if bool_decide (firstn 3 r = chars " Tj") then b :: drawn_texts fuel (skipn 3 r)
            else drawn_texts fuel l'
        | None => drawn_texts fuel l'
        end
      else drawn_texts fuel l'
  | _, _ => []
  end.
Fixpoint unescape_drawn (l : list ascii) : list ascii :=
  match l with
  | [] => []
  | c :: l' =>
      match l' with
      | d :: l'' =>
          if is_char backslash c && (is_char "(" d || is_char ")" d || is_char backslash d)
          then d :: unescape_drawn l'' else c :: unescape_drawn l'
      | [] => [c]
      end
  end.
Definition pdf_text (body : string) : string :=
  Join (String "010" "") (map (fun b => of_chars (unescape_drawn b))
                            (drawn_texts (String.length body) (chars body))).

(** [strings.HasSuffix] *)
Definition HasSuffix (s suffix : string) : bool :=
  bool_decide (skipn (String.length s - String.length suffix) (chars s) = chars suffix).

Section Steps.
Context {S : Type} `{Env} `{!Storage.Storage S} `{Rsa} `{Mux} `{Surroundings}.
Abbreviation T := (Step S).
Abbreviation managed_header := "x-gatehub-managed-user-uuid".

Definition get_path (path : string) : T unit :=
  let! _ := request "GET" path None [] in
  done.
Definition statementText : T string :=
  let! body := tc tc_lastResponseBody in
  mret (Ok (pdf_text body)).
Definition confirmation_path : T string :=
  let! wallet := tc tc_walletAddress in
  mret (Ok ("/statement/v1/statements/account-confirmation/" +:+ wallet)).
Definition getAccountConfirmation : T unit := let! path := confirmation_path in get_path path.
Definition getAccountConfirmationUnauthenticated : T unit :=
  let! path := confirmation_path in
  let! _ := requestRaw "GET" path "" "" [] in
  done.
Definition statement_path (period : string) : T string :=
  let! wallet := tc tc_walletAddress in
  mret (Ok ("/statement/v1/statements/account-statement/" +:+ wallet +:+ "/" +:+ period)).
Definition getAccountStatementForCurrentMonth : T unit :=
  let! t := now in
  let! _ := set_tc (fun c => c <| tc_statementPeriod := t |>) in
  let '(y, m, _) := date_of t in
  let! path := statement_path (Itoa y +:+ "/" +:+ Itoa m) in
  get_path path.
Definition getAccountStatementForPeriod (period : string) : T unit :=
  let! path := statement_path period in
  get_path path.
Definition getTransferConfirmationFor (txID : string) : T unit :=
  get_path ("/statement/v1/statements/transfer-confirmation/" +:+ txID).
Definition getTransferConfirmationForLastTransaction : T unit :=
  let! id := tc tc_transactionID in
  let! _ := check (negb (id =?s "")) "no transaction recorded to confirm" in
  getTransferConfirmationFor id.

(** [resp.Header.Get] *)
Definition last_header (name : string) : T string :=
  let! last := tc tc_lastResponse in
  let! resp := require last "no response" in
  mret (Ok (header_of (resp_headers resp) name)).
Definition responseIsPDFAttachment (filename : string) : T unit :=
  let! contentType := last_header "Content-Type" in
  let! _ := check (contentType =?s "application/pdf") "expected Content-Type application/pdf" in
  let! disposition := last_header "Content-Disposition" in
  let! _ := check (Contains disposition filename) "unexpected Content-Disposition" in
  let! body := tc tc_lastResponseBody in
  let! _ := check (HasPrefix "%PDF-" body) "body is not a PDF" in
  check (HasSuffix body ("%%EOF" +:+ String "010" "")) "PDF is truncated".
Definition responseIsNotAPDF : T unit :=
  let! body := tc tc_lastResponseBody in
  check (negb (HasPrefix "%PDF-" body)) "a refused request still returned a document".
Definition statementReads (expected : string) : T unit :=
  let! text := statementText in
  check (Contains text expected) "statement does not read it".
Definition statementNamesTheUserWallet : T unit :=
  let! wallet := tc tc_walletAddress in
  statementReads wallet.
Definition statementNamesTheCurrentMonth : T unit :=
  let! period := tc tc_statementPeriod in
  let! _ := check (negb (IsZero period)) "no statement period recorded" in
  statementReads (Format_month_year period).
Definition statementListsATransaction : T unit :=
  let! text := statementText in
  let! _ := check (negb (Contains text "No activity in this period")) "statement reports no activity" in
  check (Contains text "transaction(s) in period") "statement does not summarise its transactions".
Definition statementReportsAmount (amount : string) : T unit := statementReads amount.

Definition createTransactionAndRecordID (members : list (string * json)) : T unit :=
  let! userID := tc tc_userID in
  let! resp := request "POST" "/core/v1/transactions" (Some (JObj members)) [(managed_header, userID)] in
  let! _ := check (resp_status resp =? StatusCreated) "transaction creation failed" in
  let! created := last_object in
  let! uuid := require (string_member "uuid" created) "json: cannot unmarshal" in
  let! _ := check (negb (uuid =?s "")) "transaction response carried no uuid" in
  set_tc (fun c => c <| tc_transactionID := uuid |>).
Definition userMadeExternalDeposit (amount : f64) (currency : string) : T unit :=
  let! c := tc (fun c => c) in
  createTransactionAndRecordID
    [("user_id", JStr (tc_userID c)); ("receiving_address", JStr (tc_walletAddress c));
     ("amount", JFloat amount); ("currency", JStr currency); ("type", JInt 1);
     ("deposit_type", JStr "external")].
Definition userMadeHostedTransfer (amount : f64) (currency : string) : T unit :=
  let! c := tc (fun c => c) in
  createTransactionAndRecordID
    [("user_id", JStr (tc_userID c)); ("sending_address", JStr (tc_walletAddress c));
     ("receiving_address", JStr "rSomewhereElse"); ("amount", JFloat amount);
     ("currency", JStr currency); ("type", JInt 2); ("deposit_type", JStr "hosted")].

(** ** [card_steps.go] *)

(** The walk down the answer about a customer. *)
Definition customers_of (result : list (string * json)) : option (list (string * json)) :=
  as_object (assoc "customers" result).
Definition first_object (k : string) (fields : list (string * json)) : option (list (string * json)) :=
  l ← as_array (assoc k fields);
  j ← head l;
  as_object (Some j).
Definition is_string (v : string) (j : option json) : bool :=
  match as_string j with Some s => s =?s v | None => false end.
Definition carries (fields : list string) (obj : list (string * json)) : bool :=
  forallb (fun f => negb (missing obj f)) fields.

Definition postCardCustomerWithBody (path : string) (body : json) : T unit :=
  let! userID := tc tc_userID in
  let! resp := request "POST" path (Some body) [(managed_header, userID)] in
  let! _ := check ((resp_status resp =? 201) || (resp_status resp =? 200)) "unexpected status code" in
  let! result := last_object in
  set_tc (fun c =>
    c <| tc_customerID := no_token (customers ← customers_of result; assoc "id" customers) (tc_customerID c) |>).
Definition postCardCustomer (path nameOnCard accountCode currency cardCode : string) : T unit :=
  postCardCustomerWithBody path
    (JObj [("nameOnCard", JStr nameOnCard);
           ("account", strings [("productCode", accountCode); ("currency", currency)]);
           ("card", strings [("productCode", cardCode)])]).
Definition postCardCustomerFromString (path nameOnCard accountCode currency cardCode : string) : T unit :=
  postCardCustomer path nameOnCard accountCode currency cardCode.
Definition responseHasCustomer (customerType kycStatus : string) : T unit :=
  let! result := last_object in
  let! customers := require (customers_of result) "missing or invalid customers object" in
  let! _ := check (negb (missing customers "id")) "missing id in customer" in
  check (is_string customerType (assoc "type" customers)) "unexpected type".
Definition customerHasAccount (currency status accType : string) : T unit :=
  let! result := last_object in
  let! customers := require (customers_of result) "missing customers object" in
  let! account := require (first_object "accounts" customers) "no accounts in customer" in
  check (is_string currency (assoc "currency" account)) "unexpected currency".
Definition accountHasCard (status nameOnCard : string) (inFuture : bool) : T unit :=
  let! result := last_object in
  let! customers := require (customers_of result) "missing customers object" in
  let! account := require (first_object "accounts" customers) "no accounts in customer" in
  let! card := require (first_object "cards" account) "no cards in account" in
  let! _ := check (is_string status (assoc "status" card)) "unexpected status" in
  set_tc (fun c => c <| tc_cardID := no_token (assoc "id" card) (tc_cardID c) |>).
Definition accountHasCardHelper (status nameOnCard : string) : T unit := accountHasCard status nameOnCard true.

Definition getWithManagedUserHeader (path : string) : T unit :=
  let! _ := sendWithManagedUserHeader "GET" path None in
  done.
Definition getWithCardAppIDHeader (path : string) : T unit :=
  let! _ := sendWithCardAppIDHeader "GET" path None in
  done.
Definition postWithManagedUserHeader (path : string) : T unit :=
  let! _ := sendWithManagedUserHeader "POST" path None in
  done.
Definition deleteWithManagedUserHeader (path : string) : T unit :=
  let! _ := sendWithManagedUserHeader "DELETE" path None in
  done.

Definition responseHasCardData : T unit :=
  let! result := last_object in
  let! first := require (data ← as_array (assoc "data" result); head data) "no data array or empty" in
  set_tc (fun c =>
    c <| tc_cardID := no_token (card ← as_object (Some first); assoc "id" card) (tc_cardID c) |>).
Definition card_fields : list string :=
  ["id"; "accountId"; "customerId"; "nameOnCard"; "maskedPan"; "status"; "expiryDate"; "productCode"].
Definition eachCardHasFields : T unit :=
  let! result := last_object in
  let! data := require (as_array (assoc "data" result)) "no data array" in
  let! _ := check (negb (bool_decide (data = []))) "no data array" in
  let! cards := require (mapM (fun j => as_object (Some j)) data) "card is not an object" in
  check (forallb (carries card_fields) cards) "missing field".
Definition responsePaginated : T unit :=
  let! result := last_object in
  check (carries ["pageNumber"; "pageSize"; "totalPages"]
           (default result (as_object (assoc "pagination" result)))) "missing pagination field".
Definition responseHasCardObject : T unit := checkRequiredFields card_fields.
Definition cardStatusIs (status : string) : T unit := checkFieldValue "status" status.
Definition cardStatusChangedTo (newStatus : string) : T unit := cardStatusIs newStatus.
Definition cardStatusChangedBackTo (status : string) : T unit := cardStatusIs status.
Definition putWithNote (path note : string) : T unit :=
  let! _ := sendWithManagedUserHeader "PUT" path (Some (strings [("note", note)])) in
  done.

Definition extractCardIDFromResponse : T unit :=
  let! result := last_object in
  let! customers := require (customers_of result) "missing customers in response" in
  let! _ := set_tc (fun c => c <| tc_customerID := no_token (assoc "id" customers) (tc_customerID c) |>) in
  let! account := require (first_object "accounts" customers) "no accounts in response" in
  let! card := require (first_object "cards" account) "no cards in response" in
  set_tc (fun c => c <| tc_cardID := no_token (assoc "id" card) (tc_cardID c) |>).
Definition managedCustomerWithCard : T unit :=
  let! userID := tc tc_userID in
  let! _ := (if userID =?s "" then existingManagedUserWithKYC "accepted" else done) in
  let! _ := postCardCustomerWithBody "/cards/v1/customers/managed"
    (JObj [("walletAddress", JStr "https://ilp.link/test"); ("nameOnCard", JStr "John Doe");
           ("account", JObj [("productCode", JStr "PWSR_DEBP_2404"); ("currency", JStr "EUR");
                             ("card", strings [("productCode", "PWSR_DEBP_2404")])])]) in
  extractCardIDFromResponse.
Definition managedCustomerWithLockedCard : T unit :=
  let! _ := managedCustomerWithCard in
  let! cardID := tc tc_cardID in
  let! _ := sendWithManagedUserHeader "PUT"
    ("/cards/v1/cards/" +:+ cardID +:+ "/lock?reasonCode=ClientRequestedLock")
    (Some (strings [("note", "Lock for test")])) in
  let! status := last_status in
  check (status =? 200) "failed to lock card".

(** What a transaction is asked for, and its identifier kept. *)
Definition post_card_transaction (path : string) (members : list (string * json)) : T unit :=
  let! _ := sendWithManagedUserHeader "POST" path (Some (JObj members)) in
  let! result := last_object in
  set_tc (fun c => c <| tc_transactionID := no_token (assoc "transactionId" result) (tc_transactionID c) |>).
Definition postCardTransaction (path amount currency : string) : T unit :=
  let! cardID := tc tc_cardID in
  post_card_transaction path
    [("cardId", JStr cardID); ("amount", JStr amount); ("currency", JStr currency); ("type", JInt 0);
     ("merchantName", JStr "Test Merchant")].
Definition managedCustomerWithCardAndTransaction : T unit :=
  let! _ := managedCustomerWithCard in
  postCardTransaction "/cards/v1/transactions" "25.00" "EUR".
Definition managedCustomerWithPending3DS : T unit :=
  let! _ := managedCustomerWithCard in
  let! c := tc (fun c => c) in
  post_card_transaction "/cards/v1/test/3ds/challenge"
    [("cardId", JStr (tc_cardID c)); ("userId", JStr (tc_userID c)); ("merchantName", JStr "Test Merchant");
     ("purchaseAmount", JStr "150.00"); ("purchaseCurrency", JStr "EUR")].
Definition postCardTokenWithManagedUser (path : string) : T unit :=
  let! cardID := tc tc_cardID in
  let! _ := sendWithManagedUserHeader "POST" path (Some (strings [("cardId", cardID)])) in
  done.
Definition nonempty_array (k msg : string) : T unit :=
  let! result := last_object in
  check (match as_array (assoc k result) with Some (_ :: _) => true | _ => false end) msg.
Definition responseContainsLinksArray : T unit := nonempty_array "links" "missing or empty links array".

Definition limit_of (type : string) (limit : f64) : json :=
  JObj [("type", JStr type); ("limit", JFloat limit); ("currency", JStr "EUR"); ("isDisabled", JBool false)].
Definition putCardLimitsWithUpdate (path : string) (newDailyLimit : Z) : T unit :=
  let! _ := sendWithManagedUserHeader "PUT" path (Some (JArr
    [limit_of "dailyOverall" (f_of_Z newDailyLimit); limit_of "perTransaction" (f_of_Z 500);
     limit_of "monthlyOverall" (f_of_Z 5000); limit_of "dailyAtm" (f_of_Z 300);
     limit_of "dailyEcomm" (f_of_Z 800)])) in
  done.
Definition responseContainsCardTransactionWithGH (ghCode : string) : T unit :=
  let! _ := checkRequiredFields ["transactionId"] in
  checkFieldValue "ghResponseCode" ghCode.
Definition responseContainsCardTransactionDetails : T unit :=
  checkRequiredFields ["transactionId"; "transactionAmount"].
Definition responseStatusWithStatus (status : Z) (statusStr : string) : T unit :=
  let! actual := last_status in
  let! _ := check (actual =? status) "unexpected status" in
  checkFieldValue "status" statusStr.
Definition responseContainsTokenStarting (pre : string) : T unit :=
  let! result := last_object in
  let! token := require (as_string (assoc "token" result)) "missing token field" in
  check (negb (token =?s "") && HasPrefix pre token) "token does not start with the prefix".
Definition responseIsArrayOfPending3DSConfirmations (version : Z) : T unit :=
  nonempty_array "pendingConfirmations" "no pendingConfirmations".
Definition responseIsArrayOfPending3DS : T unit := responseIsArrayOfPending3DSConfirmations 3.
Definition eachConfirmationHasRequiredFields : T unit :=
  let! wrapper := last_object in
  let! confirmationsRaw := require (as_array (assoc "pendingConfirmations" wrapper))
    "missing pendingConfirmations key in response" in
  check (forallb (carries ["transactionId"; "merchantName"; "purchaseAmount"; "purchaseCurrency"; "timeout"])
           (omap (fun j => as_object (Some j)) confirmationsRaw)) "confirmation is missing a field".
Definition postWith3DSConfirmation (path confirmed authMethod : string) : T unit :=
  let! _ := sendWithManagedUserHeader "POST" path
    (Some (JObj [("confirmed", JBool (confirmed =?s "true")); ("authMethod", JStr authMethod)])) in
  done.
Definition responseContainsFieldWithBoolValue (fieldName expectedValue : string) : T unit :=
  let! result := last_object in
  let! value := require (assoc fieldName result) "field not found in response" in
  check (match as_bool (Some value) with
         | Some b => Bool.eqb b (expectedValue =?s "true")
         | None => false
         end) "unexpected value".
Definition responseHasCardProducts : T unit :=
  let! products := last_objects in
  let! _ := check (negb (bool_decide (products = []))) "products array is empty" in
  check (forallb (carries ["code"; "name"; "cardProductLimits"]) products) "product is missing a field".
Definition responseContainsPlasticCardOrder (status cardType : string) : T unit :=
  let! _ := checkRequiredFields ["orderId"; "cardId"] in
  let! _ := checkFieldValue "status" status in
  checkFieldValue "type" cardType.
Definition responseIsArrayOfCardLimits : T unit :=
  let! result := last_objects in
  check (negb (bool_decide (result = []))) "limits array is empty".
Definition eachLimitHasRequiredFields (currency : string) : T unit :=
  let! result := last_objects in
  check (forallb (fun item => carries ["type"; "limit"; "isDisabled"] item
                              && is_string currency (assoc "currency" item)) result)
    "limit is missing a field".
Definition limitsIncludeRequiredTypes : T unit :=
  let! result := last_objects in
  check (forallb (fun limitType => existsb (fun item => is_string limitType (assoc "type" item)) result)
           ["dailyOverall"; "perTransaction"; "monthlyOverall"; "dailyAtm"; "dailyEcomm"])
    "missing limit type".
Definition responseReturnsUpdatedLimits : T unit := responseIsArrayOfCardLimits.
Definition dailyOverallLimitChanged (newLimit : Z) : T unit :=
  let! result := last_objects in
  check (existsb (fun item => is_string "dailyOverall" (assoc "type" item)
                              && is_int (as_number (assoc "limit" item)) newLimit) result)
    "dailyOverall limit not changed".
Definition cardNotInListCardsQuery : T unit :=
  let! _ := sendWithManagedUserHeader "GET" "/cards/v1/cards/{customerId}" None in
  let! result := last_object in
  check (forallb (fun item => negb (is_string "SoftDelete" (card ← as_object (Some item); assoc "status" card)))
           (default [] (as_array (assoc "data" result)))) "found card with SoftDelete status in list".

(** ** [card_crypto_steps.go] *)
Definition digits_between (lo hi : nat) (s : string) : bool :=
  let n := String.length s in
  (lo <=? n)%nat && (n <=? hi)%nat && forallb is_digit (chars s).
Definition panPattern : string → bool := digits_between 16 16.
Definition pinPattern : string → bool := digits_between 4 12.

Definition callerGeneratesRSAKeyPair : T unit :=
  let! k := draw in
  let! key := lift (rsa_generate k) in
  let! der := lift (rsa_marshal (rsa_public_of key)) in
  set_tc (fun c => c <| tc_keys := Some (mkCallerKeys (EncodeToString StdEncoding der) key) |>).
(** Only the first link is looked at. *)
Definition captureCardToken : T unit :=
  let! resp := last_object in
  let! token := require (string_member "token" resp) "could not parse token response" in
  let! links := listed_objects "links" in
  let! _ := set_tc (fun c => c <| tc_cardToken := token |>) in
  match links with
  | [] => done
  | link :: _ =>
      let! href := require (string_member "href" link) "could not parse token response" in
      let! method := require (string_member "method" link) "could not parse token response" in
      set_tc (fun c => c <| tc_cardTokenHref := href |> <| tc_cardTokenMethod := method |>)
  end.
Definition post_token (tokenType : string) (members : list (string * string)) : T unit :=
  let! _ := sendWithManagedUserHeader "POST" ("/cards/v1/token/" +:+ tokenType) (Some (strings members)) in
  captureCardToken.
Definition postCardTokenWithPublicKey (tokenType : string) : T unit :=
  let! keys := tc tc_keys in
  let! keys := require keys "no caller key pair generated" in
  let! cardID := tc tc_cardID in
  post_token tokenType [("cardId", cardID); ("publicKey", publicKeyB64 keys)].
Definition postPinChangeToken : T unit :=
  let! cardID := tc tc_cardID in
  post_token "pin-change" [("cardId", cardID)].
Definition tokenLinkIsAbsolute : T unit :=
  let! href := tc tc_cardTokenHref in
  let! _ := check (negb (href =?s "")) "no link href captured" in
  check (HasPrefix "http://" href || HasPrefix "https://" href) "expected an absolute URL".
Definition tokenLinkPathIs (expected : string) : T unit :=
  let! href := tc tc_cardTokenHref in
  check (HasSuffix href expected) "unexpected link href".
Definition tokenLinkMethodIs (expected : string) : T unit :=
  let! method := tc tc_cardTokenMethod in
  check (method =?s expected) "unexpected link method".
Definition browserFollowsLink (path token : string) : T unit :=
  let! issued := tc tc_cardToken in
  let token := if token =?s "the issued token" then issued else if token =?s "no token" then "" else token in
  let! _ := requestRaw "GET" path "" ""
    (if token =?s "" then [] else [("Authorization", "Bearer " +:+ token)]) in
  done.
Definition browserFollowsTheCardDataLink (token : string) : T unit :=
  browserFollowsLink "/cards/v1/token/card-data/data" token.
Definition browserFollowsThePinLink (token : string) : T unit :=
  browserFollowsLink "/cards/v1/token/pin/data" token.
Definition decryptCypher : T string :=
  let! keys := tc tc_keys in
  let! keys := require keys "no caller key pair generated" in
  let! resp := last_strings in
  let! cypher := require (assoc "cypher" resp) "response has no cypher field" in
  let! raw := lift (DecodeString StdEncoding cypher) in
  let! plaintext := lift (rsa_decrypt (private keys) raw) in
  mret (Ok (string_of plaintext)).
Definition payloadDecryptsToCardDetails : T unit :=
  let! plaintext := decryptCypher in
  let! details := require (j ← parse_json plaintext; as_map (as_interface j))
    "decrypted payload is not card details" in
  let! pan := require (string_member "Pan" details) "decrypted payload is not card details" in
  let! expiry := require (string_member "ExpiryDate" details) "decrypted payload is not card details" in
  let! cvc := require (string_member "Cvc2" details) "decrypted payload is not card details" in
  let! _ := check (panPattern pan) "expected a 16-digit PAN" in
  let! _ := check (negb (expiry =?s "")) "decrypted card details carry no expiry date" in
  let! _ := check (String.length cvc =? 3)%nat "expected a 3-digit CVC" in
  set_tc (fun c => c <| tc_decryptedPAN := pan |>).
Definition decryptedPANMatchesPrevious : T unit :=
  let! previous := tc tc_decryptedPAN in
  let! _ := check (negb (previous =?s "")) "no PAN recorded from an earlier read" in
  let! _ := payloadDecryptsToCardDetails in
  let! pan := tc tc_decryptedPAN in
  check (pan =?s previous) "the same card returned two different PANs".
Definition noCardDataIsDisclosed : T unit :=
  let! body := tc tc_lastResponseBody in
  check (negb (Contains body "cypher")) "a rejected request still returned a cypher".
Definition encryptToBase64SPKI (publicKey : string) (plaintext : list Z) : T string :=
  let! der := lift (DecodeString StdEncoding publicKey) in
  let! parsed := lift (rsa_parse der) in
  let! rsaPub := require parsed "public key is not RSA" in
  let! k := draw in
  let! cipherText := lift (rsa_encrypt k rsaPub plaintext) in
  mret (Ok (EncodeToString StdEncoding cipherText)).
Definition callerSetsTheCardPIN (pin : string) : T unit :=
  let! _ := requestRaw "GET" "/cards/v1/token/pin/public-key" "" "" [] in
  let! keyResp := last_object in
  let! publicKey := require (string_member "publicKey" keyResp) "could not parse public key response" in
  let! _ := check (negb (publicKey =?s "")) "service published no public key" in
  let! cypher := encryptToBase64SPKI publicKey (bytes_of pin) in
  let! _ := postPinChangeToken in
  let! status := last_status in
  let! _ := check (status =? StatusOK) "could not obtain a pin-change token" in
  let! token := tc tc_cardToken in
  let! _ := requestRaw "POST" "/cards/v1/token/pin/data" (mustJSON (strings [("cypher", cypher)]))
    "application/json" [("Authorization", "Bearer " +:+ token)] in
  done.
Definition callerReadsTheCardPIN : T unit :=
  let! _ := postCardTokenWithPublicKey "pin" in
  let! status := last_status in
  let! _ := check (status =? StatusOK) "could not obtain a pin token" in
  browserFollowsThePinLink "the issued token".
Definition decryptedPINIs (expected : string) : T unit :=
  let! plaintext := decryptCypher in
  check (TrimSpace plaintext =?s expected) "unexpected PIN".
Definition decryptedPINLooksLikeAPIN : T unit :=
  let! plaintext := decryptCypher in
  check (pinPattern (TrimSpace plaintext)) "expected a numeric PIN".

(** ** [card_simulation_steps.go] *)
Definition captureSimulatedTransaction : T unit :=
  let! status := last_status in
  if negb (status =? StatusCreated) then done
  else
    let! resp := last_object in
    let! id := require (string_member "transactionId" resp) "could not parse simulate response" in
    set_tc (fun c => c <| tc_simulatedTxID := id |>
                       <| tc_simulatedTxIDs := tc_simulatedTxIDs c ++ [id] |>).
Definition post_simulation (members : list (string * json)) : T unit :=
  let! c := tc (fun c => c) in
  let! _ := request "POST" "/admin/card-transactions/simulate"
    (Some (JObj ([("userId", JStr (tc_userID c)); ("cardId", JStr (tc_cardID c))] ++ members))) [] in
  done.
Definition simulateCardTransaction (scenario : string) : T unit :=
  let! _ := post_simulation [("scenario", JStr scenario)] in
  captureSimulatedTransaction.
Definition simulateCardTransactionWithEvent (scenario event : string) : T unit :=
  let! _ := post_simulation [("scenario", JStr scenario); ("event", JStr event)] in
  captureSimulatedTransaction.
(** The [i]-th one, of the amount [i + 1]. *)
Fixpoint simulate_from (i : Z) (count : nat) (scenario : string) : T unit :=
  match count with
  | O => done
  | Datatypes.S count =>
      let! _ := post_simulation
        [("scenario", JStr scenario);
         ("overrides", strings [("transactionAmount", Itoa (i + 1) +:+ ".00")])] in
      let! status := last_status in
      let! _ := check (status =? StatusCreated) "simulation failed" in
      let! _ := captureSimulatedTransaction in
      simulate_from (i + 1) count scenario
  end.
Definition simulateNCardTransactions (count : Z) (scenario : string) : T unit :=
  simulate_from 0 (Z.to_nat count) scenario.
Definition simulatedTransactionBody : T (list (string * json)) :=
  let! resp := last_object in
  match assoc "transaction" resp with
  | None | Some JNull => fails "simulate response carried no transaction"
  | Some j => require (as_object (Some j)) "could not parse simulate response"
  end.
Definition positive_number (j : option json) : bool :=
  match as_number j with Some x => flt fzero x | None => false end.
Definition simulatedTransactionHasNumericIdentifiers : T unit :=
  let! tx := simulatedTransactionBody in
  let! _ := check (positive_number (assoc "id" tx)) "no positive numeric id" in
  check (positive_number (assoc "cardId" tx)) "no positive numeric cardId".
Definition simulatedTransactionAppearsInListingWithUnmodelledFields : T unit :=
  let! data := listed_objects "data" in
  let! id := tc tc_simulatedTxID in
  let! tx := require (find_by "transactionId" id data) "simulated transaction did not appear in the listing" in
  check (carries ["mcc"; "merchantStreet"; "merchantZip"; "terminalId"; "source"] tx)
    "listed transaction lost a field".
Definition struct_member (k : string) (fields : list (string * json)) : option (list (string * json)) :=
  match assoc k fields with None => Some [] | Some j => as_map j end.
Definition listingHoldsPage (pageCount totalRecords totalPages : Z) : T unit :=
  let! data := listed_objects "data" in
  let! listing := last_object in
  let! pagination := require (struct_member "pagination" listing) "could not parse listing" in
  let! records := require (int_member "totalRecords" pagination) "could not parse listing" in
  let! pages := require (int_member "totalPages" pagination) "could not parse listing" in
  check ((Z.of_nat (length data) =? pageCount) && (records =? totalRecords) && (pages =? totalPages))
    "unexpected page".
Definition setSimulatedTransactionStatus (status : string) : T unit :=
  let! id := tc tc_simulatedTxID in
  let! _ := check (negb (id =?s "")) "no simulated transaction to update" in
  let! _ := request "POST" ("/admin/card-transactions/" +:+ id +:+ "/status")
    (Some (strings [("status", status)])) [] in
  done.
Definition storedTransactionStatusIs (expected : string) : T unit :=
  let! id := tc tc_simulatedTxID in
  let! _ := sendWithManagedUserHeader "GET" ("/cards/v1/transactions/" +:+ id) None in
  let! tx := last_object in
  check (is_string expected (assoc "txStatus" tx)) "unexpected txStatus".
Definition getCardTransactionsPage (query : string) : T unit :=
  let! cardID := tc tc_cardID in
  let! _ := sendWithManagedUserHeader "GET"
    ("/cards/v1/cards/" +:+ cardID +:+ "/transactions" +:+ (if query =?s "" then "" else "?" +:+ query)) None in
  done.
Definition getCardTxScenarioCatalogue : T unit :=
  let! _ := request "GET" "/admin/card-transactions/scenarios" None [] in
  done.
Definition catalogueListsScenarios (count : Z) : T unit :=
  let! resp := last_object in
  let! n := require (int_member "count" resp) "json: cannot unmarshal" in
  check (n =? count) "unexpected number of scenarios".
Definition scenario_keys : T (list string) :=
  let! scenarios := listed_objects "scenarios" in
  require (mapM (string_member "key") scenarios) "json: cannot unmarshal".
Definition catalogueIncludesScenario (key : string) : T unit :=
  let! keys := scenario_keys in
  check (bool_decide (key ∈ keys)) "catalogue does not offer it".
Definition errorNamesTheValidScenarios : T unit :=
  let! resp := last_object in
  let! valid := require (match assoc "validScenarios" resp with
                         | None | Some JNull => Some []
                         | Some j => l ← as_array (Some j); mapM (fun j => string_member "" [("", j)]) l
                         end) "json: cannot unmarshal" in
  check (negb (bool_decide (valid = []))) "the rejection did not say which scenarios are valid".
Definition cardTransactionWebhookCarriesTheTransaction (event : string) : T unit :=
  let! data := webhook_data event in
  let! authorizationData := require (as_object (assoc "authorizationData" data))
    "webhook data carries no authorizationData" in
  let! _ := check (carries ["transactionId"; "billingAmount"; "billingCurrency"; "type"; "id"; "cardId"]
                     authorizationData) "authorizationData is missing a field" in
  let! id := tc tc_simulatedTxID in
  check (is_string id (assoc "transactionId" authorizationData)) "webhook reported another transaction".
Definition cardCreatedWebhookCarriesTheIdentifiers : T unit :=
  let! data := webhook_data "cards.card.created" in
  let! _ := check (forallb (fun field => match assoc field data with
                                         | None | Some JNull => false
                                         | Some (JStr v) => negb (v =?s "")
                                         | Some _ => true
                                         end)
                     ["cardId"; "customerId"; "accountId"; "maskedPan"; "nameOnCard"; "productCode"])
    "cards.card.created is missing a field" in
  let! cardID := tc tc_cardID in
  check (is_string cardID (assoc "cardId" data)) "webhook reported another card".

(** ** [contract_steps.go] *)
Definition contractBody (c : TestContext) (method path : string) : option json :=
  if HasPrefix "/auth/v1/tokens" path then Some (JObj [("scope", JArr [JStr "deposit"])])
  else if path =?s "/auth/v1/users/managed/email"
  then Some (strings [("email", "contract@example.com"); ("uuid", tc_userID c)])
  else if HasSuffix path "/wallets" && (method =?s "POST")
  then Some (JObj [("name", JStr "contract wallet"); ("type", JInt 30)])
  else if path =?s "/core/v1/transactions"
  then Some (JObj [("user_id", JStr (tc_userID c)); ("amount", JFloat (f_of_Z 1)); ("currency", JStr "EUR");
                   ("type", JInt 1); ("deposit_type", JStr "external");
                   ("receiving_address", JStr (tc_walletAddress c))])
  else if HasSuffix path "/overrideRiskLevel" then Some (strings [("riskLevel", "low")])
  else if HasSuffix path "/limits"
  then Some (JArr [JObj [("type", JStr "dailyOverall"); ("limit", JInt 1500); ("currency", JStr "EUR")]])
  else if HasSuffix path "/lock" || HasSuffix path "/unlock" then Some (strings [("note", "contract check")])
  else if Contains path "/token/card-data" || Contains path "/token/pin"
  then Some (strings ([("cardId", tc_cardID c)]
                      ++ match tc_keys c with
                         | Some keys => [("publicKey", publicKeyB64 keys)]
                         | None => []
                         end))
  else if HasSuffix path "/plastic" then Some (JObj [])
  else if HasPrefix "/id/v1/hubs/" path then Some (strings [("riskLevel", "low")])
  else if (method =?s "POST") || (method =?s "PUT") then Some (JObj [])
  else None.
Definition endpointIsServed (method path : string) : T unit :=
  let! c := tc (fun c => c) in
  let! resp := request method path (contractBody c method path)
    [(managed_header, tc_userID c); ("x-gatehub-card-app-id", "test-app-id")] in
  let status := resp_status resp in
  check (negb ((status =? StatusNotFound) || (status =? StatusMethodNotAllowed)
               || (status =? StatusUnauthorized) || (status =? StatusForbidden) || (500 <=? status)))
    "the endpoint is not served".
Definition requireFields (what : string) (obj : list (string * json)) (fields : list string) : T unit :=
  check (carries fields obj) (what +:+ " is missing the field(s) consumers read").
Definition cardObjectCarriesConsumerFields : T unit :=
  let! card := last_object in
  requireFields "card" card card_fields.
Definition cardTransactionsCarryConsumerFields : T unit :=
  let! data := listed_objects "data" in
  let! _ := check (negb (bool_decide (data = []))) "no transactions listed, so this check would be vacuous" in
  check (forallb (fun tx =>
           carries ["id"; "transactionId"; "cardId"; "type"; "txStatus"; "transactionAmount";
                    "transactionCurrency"; "billingAmount"; "billingCurrency"; "createdAt"; "vaultId"] tx
           && forallb (fun field => match as_number (assoc field tx) with Some _ => true | None => false end)
                ["id"; "cardId"]) data) "card transaction does not carry the fields consumers read".
Definition userStateCarriesConsumerFields : T unit :=
  let! state := last_object in
  let! profile := require (struct_member "profile" state) "could not parse user state" in
  let! verifications := listed_objects "verifications" in
  let! _ := requireFields "profile" profile
    ["first_name"; "last_name"; "address_country_code"; "address_city"; "address_street1"; "address_street2"] in
  let! first := require (head verifications) "user state carries no verifications" in
  requireFields "verification" first ["status"; "state"; "provider_type"].

(** ** [ui_steps.go] *)
Definition browseTo (path : string) : T unit :=
  let! _ := requestRaw "GET" path "" "" [] in
  done.
Definition browseToUserDetail : T unit :=
  let! userID := tc tc_userID in
  browseTo ("/ui/users/" +:+ userID).
Definition browseToCardTxFormForUser : T unit :=
  let! userID := tc tc_userID in
  browseTo ("/ui/actions/card-transaction?userID=" +:+ QueryEscape userID).

(** [url.Values.Encode] of one value per key. *)
Definition values_Encode (form : list (string * string)) : string :=
  Join "&" (map (fun kv => QueryEscape kv.1 +:+ "=" +:+ QueryEscape kv.2) (sort_keys form)).
Definition submitUIForm (path : string) (form : list (string * string)) : T unit :=
  let! url := urlFor path in
  let! _ := doRequest "POST" url [("Content-Type", "application/x-www-form-urlencoded")]
    (values_Encode form) in
  done.
Definition submitUIKYCAction (outcome : string) : T unit :=
  let! userID := tc tc_userID in
  submitUIForm "/ui/actions/kyc"
    [("userID", userID); ("outcome", outcome); ("message", "sent from the e2e suite")].
Definition submitUICardTransaction (scenario : string) : T unit :=
  let! c := tc (fun c => c) in
  submitUIForm "/ui/actions/card-transaction"
    [("userID", tc_userID c); ("cardID", tc_cardID c); ("scenario", scenario)].
Definition submitUIWithdrawalSettlement (event : string) : T unit :=
  let! c := tc (fun c => c) in
  let! _ := check (negb (tc_withdrawalID c =?s "")) "no withdrawal recorded to settle" in
  submitUIForm "/ui/actions/withdrawal/settle"
    [("userID", tc_userID c); ("txID", tc_withdrawalID c); ("event", event)].
Definition responseIsHTML : T unit :=
  let! contentType := last_header "Content-Type" in
  let! _ := check (Contains contentType "text/html") "expected an HTML page" in
  let! body := tc tc_lastResponseBody in
  check (Contains body "<!DOCTYPE html>") "response is not an HTML document".
Definition pageShows (text : string) : T unit :=
  let! c := tc (fun c => c) in
  let text := if text =?s "the user id" then tc_userID c
              else if text =?s "the card id" then tc_cardID c else text in
  check (Contains (tc_lastResponseBody c) text) "page does not show it".
Definition pageDoesNotShow (text : string) : T unit :=
  let! body := tc tc_lastResponseBody in
  check (negb (Contains body text)) "page unexpectedly shows it".
Definition pageOffersEveryCardScenario : T unit :=
  let! page := tc tc_lastResponseBody in
  let! keys := preserving (
    let! _ := request "GET" "/admin/card-transactions/scenarios" None [] in
    scenario_keys) in
  let! _ := check (negb (bool_decide (keys = []))) "the catalogue is empty, so this assertion would be vacuous" in
  check (forallb (fun key => Contains page ("value=" +:+ String dquote (key +:+ String dquote ""))) keys)
    "the form does not offer a scenario".
Definition checkUIRedirect (wantError : bool) : T unit :=
  let! status := last_status in
  let! _ := check (status =? StatusSeeOther) "expected a redirect (303)" in
  let! location := last_header "Location" in
  let! _ := check (negb (location =?s "")) "redirect carried no Location header" in
  let! _ := set_tc (fun c => c <| tc_lastRedirect := location |>) in
  check (Bool.eqb (Contains location "error=1") wantError) "unexpected error in the redirect".
Definition uiRedirectedWithSuccess : T unit := checkUIRedirect false.
Definition uiRedirectedWithFailure : T unit := checkUIRedirect true.
Definition uiRedirectReports (text : string) : T unit :=
  let! redirect := tc tc_lastRedirect in
  let! _ := check (negb (redirect =?s "")) "no redirect recorded" in
  check (Contains (default redirect (QueryUnescape redirect)) text) "the redirect does not report it".
Definition followUIRedirect : T unit :=
  let! redirect := tc tc_lastRedirect in
  let! _ := check (negb (redirect =?s "")) "no redirect recorded" in
  let! base := tc tc_baseURL in
  browseTo (TrimPrefix base redirect).
Definition requestOnPort (base path : string) : T unit :=
  let! _ := doRequest "GET" (base +:+ path) [] "" in
  done.
Definition requestOnApplicationPort (path : string) : T unit :=
  let! base := tc tc_baseURL in
  requestOnPort base path.
Definition requestOnAdminPort (path : string) : T unit :=
  let! base := tc tc_adminBaseURL in
  requestOnPort base path.
Definition pathIsNotServedThere : T unit :=
  let! code := last_status in
  if (code =? StatusNotFound) || (code =? StatusMethodNotAllowed) || (code =? StatusUnauthorized) then done
  else check (negb ((200 <=? code) && (code <? 400))) "expected the path not to be served".
End Steps.
