(* ===== verification/Features.v ===== *)
(** * The scenarios of the acceptance suite ([features/*.feature])

    A scenario is the sequence of its steps, the background's first; the
    instances live on from one scenario to the next.  Left out are the steps
    that look into a rendered page. *)
From S2P Require Import Prelude GoFloat GoStd GoText Crypto JsonText Consts Models Config World Fees.
From S2P Require Import Mocks CardScenarios CardTokens Routes Server Boot Redis RedisServer CardTokenFacts RoutesFacts Harness Steps CardSteps.
From S2P Require Storage.

Section Features.
Context {S : Type} `{Env} `{!Storage.Storage S} `{Rsa} `{Mux} `{Surroundings}.
Abbreviation T := (Step S).

(** ** Running *)
Record Scenario := mkScenario { scenario_name : string; scenario_steps : list (T unit) }.

Fixpoint run_steps (l : list (T unit)) : T unit :=
  match l with
  | [] => done
  | m :: l => let! _ := m in run_steps l
  end.
(** Every scenario starts from a new context; what it answers, if it fails. *)
Definition run_scenario (sc : Scenario) (s : Suite S) : list (string * string) * Suite S :=
  match run_steps (scenario_steps sc) (s <| suite_tc := fresh_context |>) with
  | (Ret (Ok _), s) => ([], s)
  | (Ret (Err e), s) => ([(scenario_name sc, e)], s)
  | (Panic e, s) => ([(scenario_name sc, e)], s)
  end.
(** The failures of a feature. *)
Fixpoint run_feature (l : list Scenario) (s : Suite S) : list (string * string) :=
  match l with
  | [] => []
  | sc :: l => let '(failures, s) := run_scenario sc s in failures ++ run_feature l s
  end.
(** The suite: the services come up first. *)
Definition TestFeatures (l : list Scenario) (s : Suite S) : list (string * string) :=
  match waitForServices s with
  | (Ret (Ok _), s) => run_feature l s
  | (Ret (Err e), _) | (Panic e, _) => [("Services failed to start", e)]
  end.
Definition with_background (background : list (T unit)) (l : list (string * list (T unit))) :
    list Scenario := map (fun sc => mkScenario sc.1 (background ++ sc.2)) l.

Abbreviation EUR := "EUR".
Definition money (whole hundredths : Z) : f64 := f_of_ratio false (100 * whole + hundredths) 100.

(** ** [service_health.feature] *)
Definition service_health_feature : list Scenario := with_background
  [mockgatehubStarted; serviceURLIs "http://localhost:25151"]
  [("Health endpoint reports OK",
    [sendGetRequestWithHMAC "/health"; responseStatusIs 200; responseBodyContains "status" "ok"])].

(** ** [wallets_and_balances.feature] *)
Definition wallets_and_balances_feature : list Scenario := with_background
  [authenticatedRequest; managedUserFromEndpoint "/auth/v1/users/managed"]
  [("Managed user has a wallet provisioned automatically",
    [getEndpoint "/core/v1/users/{userId}"; walletsArrayReturned; firstWalletStartsWith "r"])].

(** ** [organization_configuration.feature] *)
Definition clean_with_hmac : list (T unit) :=
  [cleanMockGatehub; hmacHeaders "local-test-app-id" "local-test-app-secret"].
Definition organization_configuration_feature : list Scenario := with_background clean_with_hmac
  [("Successfully update organization configuration with TOTP",
    [patchOrganizationConfig "default-org" "https://api.example.com" "totp";
     responseStatusIs 200; responseFieldIs "id" "default-org";
     responseFieldIs "apiBaseUrl" "https://api.example.com"; responseFieldIs "type2fa" "totp";
     responseHasTimestamps]);
   ("Successfully update organization configuration with SMS",
    [patchOrganizationConfig "default-org" "https://api.secure.com" "sms";
     responseStatusIs 200; responseFieldIs "type2fa" "sms"]);
   ("Allow non-HTTPS API base URL so that we can test in dev",
    [patchOrganizationConfig "default-org" "http://api.example.com" "totp"; responseStatusIs 200]);
   ("Reject invalid 2FA type",
    [patchOrganizationConfig "default-org" "https://api.example.com" "invalid"; responseStatusIs 400]);
   ("Organization not found",
    [patchOrganizationConfig "nonexistent-org" "https://api.example.com" "sms"; responseStatusIs 404]);
   ("Verify configuration persists after update",
    [patchOrganizationConfig "default-org" "https://api.persistent.com" "totp"; responseStatusIs 200;
     patchOrganizationConfig "default-org" "https://api.updated.com" "sms"; responseStatusIs 200;
     responseFieldIs "apiBaseUrl" "https://api.updated.com"; responseFieldIs "type2fa" "sms"])].

(** ** [transactions.feature] *)
Definition wallet_user : list (T unit) := [managedUserWithWalletAddress; authenticatedRequestsWithHMAC].
Definition complete_deposit (amount : string) : T unit :=
  postTransactionWithAuth "/transaction/complete?paymentType=deposit&bearer={iframeToken}" amount EUR
    "{iframeToken}".
Definition transactions_feature : list Scenario := with_background wallet_user
  [("Complete a dynamic deposit via iframe token",
    [iframeTokenWithScope "deposit"; iRecordTheBalance EUR; complete_deposit "75.50";
     responseStatusWithStatus 200 "success"; balanceHasIncreasedBy EUR (money 75 50)]);
   ("A deposit with a malformed amount is refused and leaves the balance alone",
    [iframeTokenWithScope "deposit"; iRecordTheBalance EUR; complete_deposit "12,50";
     responseStatusIs 400; balanceIsUnchanged EUR]);
   ("Hosted transfer returns completed transaction and webhook",
    [postHostedTransfer "/core/v1/transactions" (money 150 0) 0 "USD" 2 "hosted"; responseHasIDOrUUID;
     amountEchoes (money 150 0); statusIsCompleted 1 "completed"; depositTypeIs "hosted";
     coreDepositWebhookEmitted]);
   ("External deposit transaction formatting",
    [postExternalDeposit "/core/v1/transactions" 1 "external" 123 45 EUR; responseStatusIs 201;
     fieldsAreStringFormatted; statusIsInteger 1; transactionCanBeRetrievedFormatted 1]);
   ("Hosted transfer with sending_address debits the sender",
    [userHasFundedWallet EUR 500 0;
     postHostedWithSendingAddress "the user wallet" "settlement" 200 0 EUR 2 "hosted";
     responseStatusIs 201; userBalanceForCurrencyIs EUR 300 0]);
   ("Hosted transfer with receiving_address credits the receiver",
    [userHasFundedWallet EUR 500 0;
     postHostedWithReceivingAddress "the user wallet" "settlement" 200 0 EUR 2 "hosted";
     responseStatusIs 201; userBalanceForCurrencyIs EUR 700 0]);
   ("A hosted transfer echoes back the wallet the money left",
    [userHasFundedBalance EUR; postHostedTransferFromUserWallet (money 25 0) EUR "rExternalSettlement";
     responseStatusIs 201; responseEchoesSendingAddress "the user wallet"])].

(** ** [withdrawals.feature] *)
Definition on_async (l : list (T unit)) : list (T unit) :=
  usingTheAsyncWithdrawalsInstance :: managedUserWithWalletAddress :: userHasFundedBalance EUR :: l.
Definition withdrawals_feature : list Scenario := with_background (wallet_user ++ [userHasFundedBalance EUR])
  [("By default a withdrawal settles immediately and charges the balance",
    [iRecordTheBalance EUR; requestWithdrawal "200.00" EUR; responseStatusIs 200;
     responseBodyContains "message" "Withdrawal completed"; withdrawalStatusIs "completed";
     balanceHasDecreasedBy EUR (money 200 0)]);
   ("A withdrawal larger than the balance is refused",
    [iRecordTheBalance EUR; requestWithdrawal "999999.00" EUR; responseStatusIs 400;
     balanceIsUnchanged EUR]);
   ("A withdrawal records where the money is going",
    [requestWithdrawal "20.00" EUR; responseStatusIs 200; iGETWithdrawalsFiltered "";
     withdrawalListingNamesTheBankDetails]);
   ("When asynchronous, a withdrawal stays pending and charges nothing",
    on_async
    [iRecordTheBalance EUR; requestWithdrawal "200.00" EUR; responseStatusIs 200;
     responseBodyContains "message" "Withdrawal pending"; withdrawalStatusIs "pending";
     balanceIsUnchanged EUR]);
   ("Completing a pending withdrawal charges the balance and announces it",
    on_async
    [clearReceivedWebhooks; iRecordTheBalance EUR; requestWithdrawal "150.00" EUR;
     triggerWithdrawalEvent "core.withdrawal.completed"; responseStatusIs 200;
     withdrawalStatusIs "completed"; balanceHasDecreasedBy EUR (money 150 0);
     withdrawalWebhookReportsTheTransaction "core.withdrawal.completed"]);
   ("Rejecting a pending withdrawal leaves the balance untouched",
    on_async
    [clearReceivedWebhooks; iRecordTheBalance EUR; requestWithdrawal "150.00" EUR;
     triggerWithdrawalEvent "more-bridge.withdrawal.rejected"; responseStatusIs 200;
     withdrawalStatusIs "failed"; balanceIsUnchanged EUR;
     withdrawalWebhookReportsTheTransaction "more-bridge.withdrawal.rejected"]);
   ("A settled withdrawal cannot be settled again",
    on_async
    [requestWithdrawal "100.00" EUR; triggerWithdrawalEvent "core.withdrawal.completed";
     responseStatusIs 200; iRecordTheBalance EUR; triggerWithdrawalEvent "core.withdrawal.completed";
     responseStatusIs 409; balanceIsUnchanged EUR]);
   ("A rejected withdrawal cannot then be completed",
    on_async
    [requestWithdrawal "100.00" EUR; triggerWithdrawalEvent "more-bridge.withdrawal.rejected";
     responseStatusIs 200; triggerWithdrawalEvent "core.withdrawal.completed"; responseStatusIs 409;
     withdrawalStatusIs "failed"]);
   ("Pending withdrawals can be listed on their own",
    on_async
    [requestWithdrawal "10.00" EUR; triggerWithdrawalEvent "core.withdrawal.completed";
     requestWithdrawal "20.00" EUR; iGETWithdrawalsFiltered "pending"; responseStatusIs 200;
     withdrawalListingHolds 1]);
   ("An unrecognised status filter is refused",
    [iGETWithdrawalsFiltered "nearly-done"; responseStatusIs 400]);
   ("An unsupported settlement event is refused",
    on_async
    [requestWithdrawal "10.00" EUR; triggerWithdrawalEvent "core.withdrawal.invented";
     responseStatusIs 400; withdrawalStatusIs "pending"]);
   ("Settling an unknown withdrawal is not found",
    [triggerWithdrawalEventFor "no-such-withdrawal" "core.withdrawal.completed"; responseStatusIs 404])].

(** ** [signature_authentication.feature] *)
Definition outline {A} (name : string) (steps : A → list (T unit)) (examples : list A) :
    list (string * list (T unit)) := map (fun x => (name, steps x)) examples.
Definition signed_now (l : list (T unit)) : list (T unit) := currentTimestampInMilliseconds :: l.
Definition managed := "/auth/v1/users/managed".
Definition email_body (email : string) : string := unquoted ("{`email`:`" +:+ email +:+ "`}").
Definition signature_authentication_feature : list Scenario := with_background
  [cleanMockGatehubInstanceWithAuthenticationEnforced;
   validCredentialsWithAppIdAndSecret "local-test-app-id" "local-test-app-secret"]
  [("POST with full-URL signature is accepted",
    signed_now [baseStringIs "timestamp_ms|POST|http://localhost:25151/auth/v1/users/managed|{body}";
      postSignedUsingFullURL managed (email_body "sig-test@example.com"); responseStatusIs 201;
      responseContainsUserID]);
   ("GET with full-URL signature is accepted (no body)",
    [existingManagedUserGeneric; currentTimestampInMilliseconds;
     baseStringWithNoBodyComponent "timestamp_ms|GET|http://localhost:25151/id/v1/users/{userId}";
     getSignedUsingFullURL "/id/v1/users/{userId}"; responseStatusIs 200]);
   ("POST with query parameters uses full URL including query in signature",
    signed_now [baseStringIncludesQueryString;
      postSignedUsingFullURLWithQuery "/auth/v1/tokens?clientId=test-client" (unquoted "{`scope`:[`auth`]}");
      responseStatusIs 200]);
   ("POST signed with path-only URL is rejected",
    signed_now [baseStringUsingPathOnly "timestamp_ms|POST|/auth/v1/users/managed|{body}";
      postSignedUsingPathOnly managed (email_body "path-only@example.com"); responseStatusIs 401]);
   ("POST signed with old simple concatenation format is rejected",
    signed_now [baseStringUsingOldSimpleFormat "timestampPOST/auth/v1/users/managed{body}";
      postSignedUsingSimpleFormat managed (email_body "simple@example.com"); responseStatusIs 401]);
   ("Request with missing signature header is rejected",
    [postWithoutSignatureHeader managed (email_body "no-sig@example.com"); responseStatusIs 401]);
   ("Request with missing timestamp header is rejected",
    [postWithoutTimestampHeader managed (email_body "no-ts@example.com"); responseStatusIs 401]);
   ("Request with missing app-id header is rejected",
    [postWithoutAppIDHeader managed (email_body "no-app@example.com"); responseStatusIs 401]);
   ("Request with unknown app-id is rejected",
    [postWithUnknownAppID managed (email_body "bad-app@example.com") "unknown-app-id"; responseStatusIs 401]);
   ("Request signed with wrong secret is rejected",
    signed_now [postSignedWithSecret managed (email_body "wrong-secret@example.com") "wrong-secret";
      responseStatusIs 401]);
   ("Proxy headers are used to reconstruct the full URL for validation",
    signed_now [baseStringUsesURL "https://mockgatehub.interledger.test/auth/v1/users/managed";
      postSignedUsingProxiedURL managed (email_body "proxy@example.com");
      requestIncludesHeaderXForwardedProto "https";
      requestIncludesHeaderXForwardedHost "mockgatehub.interledger.test"; responseStatusIs 201]);
   ("Health endpoint does not require authentication", [getHealthWithoutHMAC; responseStatusIs 200]);
   ("Root endpoint does not require authentication", [getRootWithoutHMAC; responseStatusIs 200]);
   ("Iframe submit endpoint does not require authentication",
    [postIframeSubmitWithoutHMAC; responseStatusIsNot 401]);
   ("Millisecond timestamp in header is used verbatim in signature base string",
    [fixedTimestampValue "1686040166173"; bodyIs (email_body "ms@example.com");
     signatureComputedFrom "1686040166173|POST|http://localhost:25151/auth/v1/users/managed|{body}";
     postSignedWithTimestamp managed "1686040166173"; responseStatusIs 201]);
   ("Timestamp value is not normalized to seconds before signature check",
    [fixedTimestampValue "1686040166173"; bodyIs (email_body "norm@example.com");
     signatureComputedUsingSeconds "1686040166"; postSignedWithTimestamp managed "1686040166173";
     responseStatusIs 401])].

(** ** [rates_and_vaults.feature] *)
Definition get_rates (counter : string) : list (T unit) :=
  [getEndpoint ("/rates/v1/rates/current?counter=" +:+ counter +:+ "&amount=1&useAll=true"); responseStatusIs 200].
Definition rates_and_vaults_feature : list Scenario := with_background [mockgatehubRunningWithHeaders]
  [("Get current exchange rates",
    [getEndpoint "/rates/v1/rates/current"; responseStatusIs 200; payloadHasCounterCurrency; rateEntryExists]);
   ("Rates with counter=USD return USD-denominated values",
    get_rates "USD" ++ [counterFieldIs "USD"; rateForCurrencyIs "USD" (money 1 0); rateForCurrencyIs EUR (money 1 8)]);
   ("Rates with counter=EUR are converted relative to EUR",
    get_rates EUR ++ [counterFieldIs EUR; rateForCurrencyIs EUR (money 1 0);
                      rateForCurrencyApprox "USD" (f_lit 9259 4) (f_lit 1 3)]);
   ("Cross-currency rate consistency between counter=USD and counter=EUR",
    get_rates "USD" ++ [saveRateAs EUR "eur_in_usd"] ++ get_rates EUR
    ++ [rateIsInverseOfSaved "USD" "eur_in_usd" (f_lit 1 3)]);
   ("Get liquidity provider vaults",
    [getEndpoint "/rates/v1/liquidity_provider/vaults"; responseStatusIs 200; responseHasVaults])].

(** ** [fee_configuration.feature] *)
Definition fees_are (deposit withdrawal : f64) : list (T unit) :=
  [responseStatusIs 200; depositFeePercentageIs deposit; withdrawalFeePercentageIs withdrawal].
Definition deposit_body (percent : string) : string := unquoted ("{`deposit_fee_percentage`: " +:+ percent +:+ "}").
Definition withdrawal_body (percent : string) : string :=
  unquoted ("{`withdrawal_fee_percentage`: " +:+ percent +:+ "}").
Definition both_body (deposit withdrawal : string) : string :=
  unquoted ("{`deposit_fee_percentage`: " +:+ deposit +:+ ", `withdrawal_fee_percentage`: " +:+ withdrawal +:+ "}").
Definition a_deposit (amount : f64) : list (T unit) :=
  [postDepositWithFeeFields 1 "external" amount EUR; responseStatusIs 201].
Definition fee_sources (deposit withdrawal : string) : list (T unit) :=
  [userFeeSourceIs "deposit" deposit; userFeeSourceIs "withdrawal" withdrawal].
Definition fee_configuration_feature : list Scenario := with_background clean_with_hmac
  [("Default fees are zero", getAdminFeesWithoutAuth :: fees_are (money 0 0) (money 0 0));
   ("Configure deposit fee percentage",
    putAdminFeesWithoutAuth (deposit_body "1.5") :: fees_are (money 1 50) (money 0 0));
   ("Configure withdrawal fee percentage",
    putAdminFeesWithoutAuth (withdrawal_body "2.0") :: fees_are (money 0 0) (money 2 0));
   ("Configure both fees at once",
    putAdminFeesWithoutAuth (both_body "1.5" "2.5") :: fees_are (money 1 50) (money 2 50));
   ("Reset fees back to zero",
    depositFeeConfigured (money 3 0) :: putAdminFeesWithoutAuth (both_body "0" "0") :: fees_are (money 0 0) (money 0 0));
   ("Fee configuration does not require authentication",
    [putAdminFeesWithoutAnyHMAC (deposit_body "5.0"); responseStatusIs 200; depositFeePercentageIs (money 5 0)]);
   ("Negative fee percentage is rejected", [putAdminFeesWithoutAuth (deposit_body "-1.0"); responseStatusIs 400]);
   ("Fee percentage over 100 is rejected", [putAdminFeesWithoutAuth (deposit_body "101"); responseStatusIs 400]);
   ("Deposit with 0% fee credits full amount",
    [depositFeeConfigured (money 0 0); managedUserWithWalletAddress] ++ a_deposit (money 100 0)
    ++ [transactionFeeIs "0.00"; transactionTotalAmountIs "100.00"; transactionAmountIs "100.00";
        getEndpoint "/core/v1/transactions/{txId}"; transactionFeeIs "0.00"; getWalletBalance;
        currencyBalanceIs EUR "100.00"]);
   ("Deposit with 1.5% fee deducts fee from amount",
    [depositFeeConfigured (money 1 50); managedUserWithWalletAddress] ++ a_deposit (money 100 0)
    ++ [transactionFeeIs "1.50"; transactionTotalAmountIs "100.00"; transactionAmountIs "100.00";
        getEndpoint "/core/v1/transactions/{txId}"; transactionFeeIs "1.50"; transactionTotalAmountIs "100.00";
        getWalletBalance; currencyBalanceIs EUR "98.50"]);
   ("Deposit fee is reflected in GetTransaction response",
    [depositFeeConfigured (money 2 50); managedUserWithWalletAddress] ++ a_deposit (money 200 0)
    ++ [transactionFeeIs "5.00"; getEndpoint "/core/v1/transactions/{txId}"; transactionFeeIs "5.00";
        transactionAmountIs "200.00"; transactionTotalAmountIs "200.00"; getWalletBalance;
        currencyBalanceIs EUR "195.00"]);
   ("Deposit via iframe with fee configured",
    [depositFeeConfigured (money 1 0); managedUserWithWalletAddress; iframeTokenWithScope "deposit";
     complete_deposit "50.00"; responseStatusWithStatus 200 "success"]);
   ("Withdrawal with 0% fee has no fee",
    [withdrawalFeeConfigured (money 0 0); managedUserWithWalletAddress; createWithdrawalTransaction (money 50 0) EUR;
     transactionFeeIs "0.00"; transactionTotalAmountIs "50.00"]);
   ("Withdrawal with 2% fee adds fee to total",
    [withdrawalFeeConfigured (money 2 0); managedUserWithWalletAddress; createWithdrawalTransaction (money 50 0) EUR;
     transactionFeeIs "1.00"; transactionTotalAmountIs "51.00"; transactionAmountIs "50.00"]);
   ("Fee is rounded to two decimal places",
    [depositFeeConfigured (money 3 0); managedUserWithWalletAddress] ++ a_deposit (money 33 33)
    ++ [transactionFeeIs "1.00"; fieldsAreStringFormatted; getWalletBalance; currencyBalanceIs EUR "32.33"]);
   ("Fee on small amount rounds down to zero",
    [depositFeeConfigured (money 0 10); managedUserWithWalletAddress] ++ a_deposit (money 0 1)
    ++ [transactionFeeIs "0.00"; getWalletBalance; currencyBalanceIs EUR "0.01"]);
   ("Fee configuration persists across requests",
    [putAdminFeesWithoutAuth (deposit_body "4.0"); depositFeePercentageIs (money 4 0); getAdminFeesWithoutAuth;
     depositFeePercentageIs (money 4 0)]);
   ("Hosted transfer ignores deposit fee",
    [depositFeeConfigured (money 5 0); managedUserWithWalletAddress;
     postHostedTransfer "/core/v1/transactions" (money 100 0) 0 EUR 2 "hosted"; transactionFeeIs "0.00";
     transactionTotalAmountIs "100.00"; getWalletBalance; currencyBalanceIs EUR "100.00"]);
   ("Get user-specific fees without authentication",
    [managedUserWithWalletAddress; getUserFeesWithoutAuth] ++ fees_are (money 0 0) (money 0 0)
    ++ fee_sources "global" "global");
   ("Set user-specific deposit fee without authentication",
    [managedUserWithWalletAddress; setUserFeesWithoutAuth (deposit_body "2.5"); responseStatusIs 200;
     depositFeePercentageIs (money 2 50)] ++ fee_sources "user" "global");
   ("Set user-specific withdrawal fee without authentication",
    [managedUserWithWalletAddress; setUserFeesWithoutAuth (withdrawal_body "3.0"); responseStatusIs 200;
     withdrawalFeePercentageIs (money 3 0)] ++ fee_sources "global" "user");
   ("Clear user-specific fees without authentication",
    [managedUserWithWalletAddress; setUserFeesWithoutAuth (deposit_body "2.5"); clearUserFeesWithoutAuth;
     responseStatusIs 200] ++ fee_sources "global" "global")].

(** ** [auth_user_kyc.feature], but for the page of the form *)
Definition kyc_started (l : list (T unit)) : list (T unit) :=
  existingManagedUserGeneric :: postEndpoint "/id/v1/users/{userId}/hubs/gw" :: l.
Definition shows (kycState : string) : T unit := getShowsKYCState "/id/v1/users/{userId}" kycState "low".
Definition auth_user_kyc_feature : list Scenario := with_background clean_with_hmac (
  [("Create a managed user",
    [postWithEmail managed "testuser@example.com"; responseStatusIs 201; payloadHasUserID; managedFlagTrue]);
   ("Start KYC sets the user to action_required", kyc_started [responseHasKYCToken; shows "action_required"]);
   ("KYC submission without 2FA proceeds normally",
    kyc_started [submitKYCFormWithout2FA; responseStatusIs 200; shows "accepted"]);
   ("KYC submission with 2FA TOTP but no org callback URL",
    kyc_started [submitKYCFormWith2FA "123456"; responseStatusIs 400])]
  ++ outline "KYC submission honours the requested outcome"
    (fun outcome => kyc_started [submitKYCFormWithOutcome outcome; responseStatusIs 200;
                                 responseBodyContains "status" outcome; shows outcome])
    ["accepted"; "rejected"; "action_required"; "resubmission"]
  ++ [("An unrecognised KYC outcome is refused rather than treated as a pass",
       kyc_started [submitKYCFormWithOutcome "definitely-verified"; responseStatusIs 400; shows "action_required"])]
  ++ outline "The verification record agrees with the KYC state"
    (fun '(state, (status, state_value)) =>
       [existingManagedUserGeneric; setKYCStateQuietly state; responseStatusIs 200;
        userVerificationReports status state_value])
    [("accepted", (1, 1)); ("rejected", (2, 0)); ("resubmission", (10, 0)); ("action_required", (0, 0))]
  ++ [("A user is identified under both id and uuid",
       [existingManagedUserGeneric; userReportsSameIdUnderBothNames]);
      ("Quietly setting a KYC state emits no webhook",
       [clearReceivedWebhooks; existingManagedUserGeneric; setKYCStateQuietly "rejected"; responseStatusIs 200;
        noWebhookIsDelivered]);
      ("An unknown KYC state is refused",
       [existingManagedUserGeneric; setKYCStateQuietly "verified-ish"; responseStatusIs 400])]
  ++ outline "A completed KYC announces its verdict"
    (fun '(outcome, event, status) =>
       clearReceivedWebhooks :: kyc_started
         [submitKYCFormWithOutcome outcome; responseStatusIs 200; kycWebhookCarriesVerdict event outcome status])
    [("accepted", "id.verification.accepted", 1); ("rejected", "id.verification.rejected", 2);
     ("action_required", "id.verification.action_required", 0)]
  ++ [("A resubmission request is not reported as a verification verdict",
       clearReceivedWebhooks :: kyc_started
         [submitKYCFormWithOutcome "resubmission"; responseStatusIs 200;
          kycWebhookCarriesNoVerdict "id.verification.resubmission"]);
      ("Re-verifying after a resubmission request does not announce acceptance",
       [clearReceivedWebhooks; existingManagedUserGeneric; setKYCStateQuietly "resubmission";
        submitKYCFormWithOutcome "accepted"; responseStatusIs 200; shows "accepted"; noWebhookIsDelivered])]).

(** ** [statements.feature] *)
Definition statements_feature : list Scenario := with_background wallet_user (
  [("An account confirmation names the account it confirms",
    [getAccountConfirmation; responseStatusIs 200; responseIsPDFAttachment "account-confirmation.pdf";
     statementReads "Account Confirmation"; statementNamesTheUserWallet]);
   ("A monthly statement reports the period and its activity",
    [userHasFundedBalance EUR; getAccountStatementForCurrentMonth; responseStatusIs 200;
     responseIsPDFAttachment "account-statement.pdf"; statementReads "Account Statement";
     statementNamesTheUserWallet; statementNamesTheCurrentMonth; statementListsATransaction]);
   ("A monthly statement for a quiet period says so",
    [getAccountStatementForPeriod "1999/1"; responseStatusIs 200; statementReads "No activity in this period"])]
  ++ outline "A statement for a nonsensical period is refused"
    (fun period => [getAccountStatementForPeriod period; responseStatusIs 400; responseIsNotAPDF])
    ["2026/13"; "2026/0"; "2026/March"; "abcd/3"]
  ++ [("A transfer confirmation reports the transfer's figures",
       [userMadeExternalDeposit (money 123 45) EUR; getTransferConfirmationForLastTransaction; responseStatusIs 200;
        responseIsPDFAttachment "transfer-confirmation.pdf"; statementReads "Transfer Confirmation";
        statementReportsAmount "123.45 EUR"]);
      ("A transfer confirmation is refused for a transaction with no transfer",
       [userMadeHostedTransfer (money 50 0) EUR; getTransferConfirmationForLastTransaction; responseStatusIs 400;
        responseIsNotAPDF]);
      ("A transfer confirmation for an unknown transaction is not found",
       [getTransferConfirmationFor "no-such-transaction"; responseStatusIs 404]);
      ("Statements require authentication",
       [getAccountConfirmationUnauthenticated; responseStatusIs 401])]).

(** ** [cards.feature] *)
Definition card_path (rest : string) : string := "/cards/v1/cards/{cardId}/" +:+ rest.
Definition with_keys (l : list (T unit)) : list (T unit) :=
  managedCustomerWithCard :: callerGeneratesRSAKeyPair :: l.
Definition read_card_data : list (T unit) :=
  [postCardTokenWithPublicKey "card-data"; browserFollowsTheCardDataLink "the issued token"].
Definition cards_feature : list Scenario := with_background
  [cleanMockGatehub; existingManagedUserWithKYC "accepted"; local_credentials]
  [("Create a managed customer with EUR account and initial card",
    [postCardCustomerFromString "/cards/v1/customers/managed" "John Doe" "PWSR_DEBP_2404" EUR "PWSR_DEBP_2404";
     responseStatusIs 201; responseHasCustomer "Citizen" "accepted"; customerHasAccount EUR "ACTIVE" "DEBIT";
     accountHasCardHelper "Active" "John Doe"]);
   ("List cards for a customer",
    [managedCustomerWithCard; getWithManagedUserHeader "/cards/v1/cards/{customerId}?pageSize=100";
     responseStatusIs 200; responseHasCardData; eachCardHasFields; responsePaginated]);
   ("Get card details",
    [managedCustomerWithCard; getWithManagedUserHeader (card_path "card"); responseStatusIs 200;
     responseHasCardObject; cardStatusIs "Active"]);
   ("Lock card temporarily",
    [managedCustomerWithCard; putWithNote (card_path "lock?reasonCode=ClientRequestedLock") "Testing lock";
     responseStatusIs 200; cardStatusChangedTo "TemporaryBlocked"]);
   ("Unlock card",
    [managedCustomerWithLockedCard; putWithNote (card_path "unlock") "Testing unlock"; responseStatusIs 200;
     cardStatusChangedBackTo "Active"]);
   ("Close/delete card",
    [managedCustomerWithCard; deleteWithManagedUserHeader (card_path "card?reasonCode=UserRequest");
     responseStatusIs 200; cardNotInListCardsQuery]);
   ("Get card token for secure data access",
    with_keys [postCardTokenWithPublicKey "card-data"; responseStatusIs 200; responseContainsLinksArray;
      tokenLinkIsAbsolute; tokenLinkPathIs "/cards/v1/token/card-data/data"; tokenLinkMethodIs "GET"]);
   ("Get card limits",
    [managedCustomerWithCard; getWithManagedUserHeader (card_path "limits"); responseStatusIs 200;
     responseIsArrayOfCardLimits; eachLimitHasRequiredFields EUR; limitsIncludeRequiredTypes]);
   ("Set card limits",
    [managedCustomerWithCard; putCardLimitsWithUpdate (card_path "limits") 2000; responseStatusIs 200;
     responseReturnsUpdatedLimits; dailyOverallLimitChanged 2000]);
   ("Create card transaction",
    [managedCustomerWithCard; postCardTransaction "/cards/v1/transactions" "25.00" EUR; responseStatusIs 201;
     responseContainsCardTransactionWithGH "00"]);
   ("Get card transaction details",
    [managedCustomerWithCardAndTransaction; getWithManagedUserHeader "/cards/v1/transactions/{transactionId}";
     responseStatusIs 200; responseContainsCardTransactionDetails]);
   ("Get pending 3DS confirmations",
    [managedCustomerWithPending3DS; getWithManagedUserHeader "/cards/v1/transaction/pending-confirmations";
     responseStatusIs 200; responseIsArrayOfPending3DS; eachConfirmationHasRequiredFields]);
   ("Confirm 3DS payment (approve)",
    [managedCustomerWithPending3DS; postWith3DSConfirmation "/cards/v1/transaction/{transactionId}" "true" "pin";
     responseStatusIs 200; responseContainsFieldWithBoolValue "confirmed" "true"]);
   ("Decline 3DS payment",
    [managedCustomerWithPending3DS; postWith3DSConfirmation "/cards/v1/transaction/{transactionId}" "false" "pin";
     responseStatusIs 200; responseContainsFieldWithBoolValue "confirmed" "false"]);
   ("Get card application products",
    [getWithCardAppIDHeader "/cards/v1/card-applications/test-app-id/card-products"; responseStatusIs 200;
     responseHasCardProducts]);
   ("Order plastic card for a card",
    [managedCustomerWithCard; postWithManagedUserHeader (card_path "plastic"); responseStatusIs 201;
     responseContainsPlasticCardOrder "PENDING" "PLASTIC"]);
   ("Card details are readable only by the caller that asked for them",
    with_keys (read_card_data ++ [responseStatusIs 200; payloadDecryptsToCardDetails]));
   ("The same card always reports the same card number",
    with_keys (read_card_data ++ [payloadDecryptsToCardDetails] ++ read_card_data
               ++ [decryptedPANMatchesPrevious]));
   ("The card-data endpoint refuses a token it did not issue",
    [managedCustomerWithCard; browserFollowsTheCardDataLink "a-forged-token"; responseStatusIs 401;
     noCardDataIsDisclosed]);
   ("The card-data endpoint refuses a request with no token",
    [managedCustomerWithCard; browserFollowsTheCardDataLink "no token"; responseStatusIs 401;
     noCardDataIsDisclosed]);
   ("A card-data token cannot be used to read the PIN",
    with_keys [postCardTokenWithPublicKey "card-data"; browserFollowsThePinLink "the issued token";
               responseStatusIs 401]);
   ("A card PIN can be read without ever having been set",
    with_keys [callerReadsTheCardPIN; responseStatusIs 200; decryptedPINLooksLikeAPIN]);
   ("A card PIN that is set is the PIN that is read back",
    with_keys [callerSetsTheCardPIN "4321"; responseStatusIs 200; callerReadsTheCardPIN; responseStatusIs 200;
               decryptedPINIs "4321"]);
   ("Creating a card tells the consumer which identifiers were assigned",
    [clearReceivedWebhooks; managedCustomerWithCard; cardCreatedWebhookCarriesTheIdentifiers]);
   ("The card transaction catalogue is discoverable",
    [getCardTxScenarioCatalogue; responseStatusIs 200; catalogueListsScenarios 17;
     catalogueIncludesScenario "withdrawal.authorization.purchase-transaction-with-fx";
     catalogueIncludesScenario "none.insufficient-balance"]);
   ("A simulated card transaction reaches the card's transaction listing",
    [managedCustomerWithCard; simulateCardTransaction "withdrawal.authorization.atm-withdrawal";
     responseStatusIs 201; simulatedTransactionHasNumericIdentifiers; getCardTransactionsPage "";
     responseStatusIs 200; simulatedTransactionAppearsInListingWithUnmodelledFields]);
   ("A simulated card transaction is announced with the transaction attached",
    [clearReceivedWebhooks; managedCustomerWithCard;
     simulateCardTransaction "withdrawal.authorization.purchase-transaction"; responseStatusIs 201;
     cardTransactionWebhookCarriesTheTransaction "cards.transaction.authorization"]);
   ("Card transaction listings are paged",
    [managedCustomerWithCard; simulateNCardTransactions 5 "withdrawal.authorization.purchase-transaction";
     getCardTransactionsPage "pageSize=2&pageNumber=1"; responseStatusIs 200; listingHoldsPage 2 5 3;
     getCardTransactionsPage "pageSize=2&pageNumber=3"; listingHoldsPage 1 5 3]);
   ("A simulated transaction's status can be advanced",
    [managedCustomerWithCard; simulateCardTransaction "withdrawal.authorization.preauthorization";
     setSimulatedTransactionStatus "COMPLETED"; responseStatusIs 200; storedTransactionStatusIs "COMPLETED"]);
   ("An unknown scenario is refused and the valid options are named",
    [managedCustomerWithCard; simulateCardTransaction "not-a-real-scenario"; responseStatusIs 400;
     errorNamesTheValidScenarios])].

(** ** [consumer_contract.feature] *)
Definition served (l : list (string * string)) : list (T unit) :=
  map (fun mp => endpointIsServed mp.1 mp.2) l.
Definition a_card (l : list (T unit)) : list (T unit) :=
  existingManagedUserWithKYC "accepted" :: managedCustomerWithCard :: l.
Definition consumer_contract_feature : list Scenario := with_background clean_with_hmac
  [("Authentication and identity endpoints are reachable",
    existingManagedUserGeneric :: served
      [("POST", "/auth/v1/tokens"); ("GET", "/auth/v1/users/managed"); ("PUT", "/auth/v1/users/managed/email");
       ("GET", "/id/v1/users/{userId}"); ("POST", "/id/v1/users/{userId}/hubs/gw");
       ("PUT", "/id/v1/hubs/gw/users/{userId}"); ("POST", "/id/v1/hubs/gw/users/{userId}/overrideRiskLevel")]);
   ("Core wallet endpoints are reachable",
    managedUserWithWalletAddress :: served
      [("GET", "/core/v1/users/{userId}"); ("POST", "/core/v1/users/{userId}/wallets");
       ("GET", "/core/v1/users/{userId}/wallets/{walletAddress}"); ("GET", "/core/v1/wallets/{walletAddress}/balances");
       ("POST", "/core/v1/transactions"); ("POST", "/core/v1/gateways/gw/transactions")]);
   ("Rates endpoints are reachable",
    served [("GET", "/rates/v1/liquidity_provider/vaults");
            ("GET", "/rates/v1/rates/current?counter=EUR&amount=1&useAll=true")]);
   ("Card endpoints are reachable under the paths consumers use",
    a_card (served
      [("GET", "/cards/v1/customers/{customerId}/cards"); ("GET", card_path "card");
       ("GET", card_path "transactions"); ("PUT", card_path "lock?reasonCode=ClientRequestedLock");
       ("PUT", card_path "unlock"); ("POST", card_path "plastic")]));
   ("Card limits and products are reachable under the bare /v1 prefix",
    a_card (served [("GET", "/v1/cards/{cardId}/limits"); ("POST", "/v1/cards/{cardId}/limits");
                    ("GET", "/v1/card-applications/test-app-id/card-products")]));
   ("All three card token types are reachable",
    a_card (callerGeneratesRSAKeyPair :: served
      [("POST", "/cards/v1/token/card-data"); ("POST", "/cards/v1/token/pin");
       ("POST", "/cards/v1/token/pin-change")]));
   ("The card object keeps the fields consumers read",
    a_card [getWithManagedUserHeader (card_path "card"); responseStatusIs 200; cardObjectCarriesConsumerFields]);
   ("A card transaction keeps the fields consumers read",
    a_card [simulateCardTransaction "withdrawal.authorization.purchase-transaction"; getCardTransactionsPage "";
            responseStatusIs 200; cardTransactionsCarryConsumerFields]);
   ("The user state response keeps the fields consumers read",
    [existingManagedUserGeneric; getEndpoint "/id/v1/users/{userId}"; userStateCarriesConsumerFields])].

(** ** [admin_ui.feature], but for what the pages show *)
Definition with_card (l : list (T unit)) : list (T unit) :=
  setKYCStateQuietly "accepted" :: managedCustomerWithCard :: l.
Definition admin_ui_feature : list Scenario := with_background wallet_user (
  [("The user listing shows accounts and their balances",
    [userHasFundedBalance EUR; browseTo "/ui"; responseStatusIs 200]);
   ("The user detail page shows balances and transactions",
    [userMadeExternalDeposit (money 55 0) EUR; browseToUserDetail; responseStatusIs 200]);
   ("The user detail page for an unknown user is not found",
    [browseTo "/ui/users/no-such-user"; responseStatusIs 404]);
   ("The admin UI needs no credentials", [browseTo "/ui"; responseStatusIs 200])]
  ++ outline "The admin surface is not served on the application port"
    (fun path => [requestOnApplicationPort path; pathIsNotServedThere])
    ["/ui"; "/ui/actions/kyc"; "/admin/fees"; "/admin/card-transactions/scenarios"; "/admin/received-webhooks";
     "/test-webhook"]
  ++ outline "The application API is not served on the admin port"
    (fun path => [requestOnAdminPort path; pathIsNotServedThere])
    ["/iframe/onboarding"; "/cards/v1/token/pin/public-key"; "/rates/v1/liquidity_provider/vaults"]
  ++ [("The KYC form offers every outcome", [browseTo "/ui/actions/kyc"; responseStatusIs 200]);
      ("Sending a KYC event from the UI moves the user and announces it",
       [clearReceivedWebhooks; submitUIKYCAction "rejected"; uiRedirectedWithSuccess;
        uiRedirectReports "id.verification.rejected"; shows "rejected";
        kycWebhookCarriesVerdict "id.verification.rejected" "rejected" 2]);
      ("A document notice from the UI does not change the verification state",
       [clearReceivedWebhooks; setKYCStateQuietly "accepted"; submitUIKYCAction "id.document_notice.expired";
        uiRedirectedWithSuccess; shows "accepted"; kycWebhookCarriesNoVerdict "id.document_notice.expired"]);
      ("An unrecognised KYC outcome is reported back as a failure",
       [submitUIKYCAction "probably-fine"; uiRedirectedWithFailure]);
      ("The card transaction form is driven by the catalogue",
       [browseTo "/ui/actions/card-transaction"; responseStatusIs 200]);
      ("Simulating a card transaction from the UI creates it and announces it",
       clearReceivedWebhooks :: with_card
         [submitUICardTransaction "withdrawal.authorization.atm-withdrawal"; uiRedirectedWithSuccess;
          uiRedirectReports "withdrawal.authorization.atm-withdrawal"; getCardTransactionsPage "";
          listingHoldsPage 1 1 1]);
      ("The card transaction form lists the chosen user's cards",
       with_card [browseToCardTxFormForUser; responseStatusIs 200]);
      ("An unknown scenario is reported back as a failure",
       with_card [submitUICardTransaction "not-a-real-scenario"; uiRedirectedWithFailure]);
      ("A pending withdrawal can be settled from the UI",
       on_async [iRecordTheBalance EUR; requestWithdrawal "120.00" EUR; browseToUserDetail;
         submitUIWithdrawalSettlement "core.withdrawal.completed"; uiRedirectedWithSuccess;
         withdrawalStatusIs "completed"; balanceHasDecreasedBy EUR (money 120 0)]);
      ("The UI does not offer to settle an already settled withdrawal",
       on_async [requestWithdrawal "30.00" EUR; submitUIWithdrawalSettlement "more-bridge.withdrawal.rejected";
         uiRedirectedWithSuccess; browseToUserDetail]);
      ("Settling the same withdrawal twice is reported back as a failure",
       on_async [requestWithdrawal "40.00" EUR; submitUIWithdrawalSettlement "core.withdrawal.completed";
         uiRedirectedWithSuccess; iRecordTheBalance EUR;
         submitUIWithdrawalSettlement "core.withdrawal.completed"; uiRedirectedWithFailure;
         balanceIsUnchanged EUR])]).
End Features.

(** ** The deployment of [testenv/docker-compose.yml] and a run *)
Section Deployment.
Context {S : Type} `{Env} `{!Storage.Storage S} `{Rsa} `{Mux} `{Surroundings}.

Definition compose_environment (host : string) (async : list (string * string)) : gmap string string :=
  list_to_map (async ++
    [("LOG_LEVEL", "debug"); ("MOCKGATEHUB_PORT", "8080"); ("MOCKGATEHUB_ADMIN_PORT", "8081");
     ("MOCKGATEHUB_REDIS_URL", "redis://redis:6379");
     ("WEBHOOK_URL", "http://" +:+ host +:+ ":8081/test-webhook"); ("WEBHOOK_SECRET", "test-webhook-secret");
     ("MOCKGATEHUB_ENFORCE_AUTHENTICATION", "true")]).
(** A container: the process that [boot] leaves on an empty storage, at its own
    name and at the ports published on the harness's host. *)
Definition container (store : S) (host application admin : string) (extra : list (string * string)) :
    list (Instance_ S) :=
  let environ := compose_environment host extra in
  match boot environ None (fun _ => Ok 0) store (Ok tt) (Ok tt) with
  | Ok (_, _, p) =>
      [mkInstance [("localhost:" +:+ application, Application); ("localhost:" +:+ admin, Admin);
                   (host +:+ ":8080", Application); (host +:+ ":8081", Admin)] (Load environ None) p]
  | Err _ => []
  end.
Definition deployed (store : S) : Suite S :=
  mkSuite fresh_context
    (container store "mockgatehub" "25151" "25153" []
     ++ container store "mockgatehub-async" "25152" "25154"
          [("MOCKGATEHUB_REDIS_DB", "1"); ("MOCKGATEHUB_ASYNC_WITHDRAWALS", "true")])
    (1768920404 * second_ns) 0.
End Deployment.

Definition named {S : Type} `{Rsa} (names : list string) (l : list (Scenario (S := S))) : list Scenario :=
  filter (fun sc => scenario_name sc ∈ names) l.

(** An environment that never repeats an identifier or a random number. *)
Definition digits_of (base : Z) (k n : nat) : list Z :=
  map (fun i => Z.of_nat k / base ^ Z.of_nat i mod base) (seq 0 n).
Definition suite_env : Env := {|
  env_now k := 1768920404 * second_ns + Z.of_nat k;
  env_uuid k := hex_EncodeToString (digits_of 256 k 4) +:+ "-0000-4000-8000-000000000000";
  env_rand k n := Some (digits_of 32 k n);
  env_int k m := if 0 <? m then Some (Z.of_nat k mod m) else None;
  env_order A k l := l;
  env_http k r := HttpAnswered 200 "200 OK" (Ok (JObj [("success", JBool true)])) |}.
Definition suite_surroundings : Surroundings := {|
  catalogue := default [] (mustLoadCardScenarios id id cardTransactionMocks);
  on_disk _ := false; parse_multipart _ _ := []; render _ _ := "" |}.
#[local] Existing Instances suite_env suite_surroundings demo_rsa first_match_mux.

(** The scenarios of the run: whole features where they are short, and of the
    others those that go through the most of the service. *)
Definition smoke : list (Scenario (S := Keys)) :=
  service_health_feature ++ wallets_and_balances_feature ++ organization_configuration_feature
  ++ rates_and_vaults_feature
  ++ signature_authentication_feature ++ statements_feature
  ++ named ["Complete a dynamic deposit via iframe token";
            "Hosted transfer with sending_address debits the sender"] transactions_feature
  ++ named ["Deposit with 1.5% fee deducts fee from amount"; "Fee is rounded to two decimal places"]
       fee_configuration_feature
  ++ named ["A completed KYC announces its verdict"] auth_user_kyc_feature
  ++ named ["Core wallet endpoints are reachable"] consumer_contract_feature
  ++ named ["Completing a pending withdrawal charges the balance and announces it"] withdrawals_feature
  ++ named ["A card PIN that is set is the PIN that is read back";
            "A simulated card transaction is announced with the transaction attached";
            "Card transaction listings are paged"] cards_feature
  ++ named ["A pending withdrawal can be settled from the UI"] admin_ui_feature.

